(* ===== verification/_CoqProject ===== *)
-Q . S2P
Prelude.v
Constants.v
PyStr.v
Frame.v
Json.v
Messages.v
Protocol.v
Registry.v
NetworkManager.v
Auth.v
Relay.v
RelayStream.v
Server.v
ServerMain.v
AdminPanel.v
Platform.v
Config.v
Wizard.v
Identity.v
ControlChannel.v
Cli.v
Indicator.v
Encryption.v
NatTraversal.v
Tunnel.v
Keepalive.v
Topology.v
LoadBalancer.v
HealthCheck.v
RateLimiter.v
UpstreamPool.v
Status.v
Http.v
WebSocket.v
Connection.v
Cache.v
Security.v
ProxyConfig.v
ProxyProcess.v
WorkerLife.v
StreamProxy.v
Tls.v
AccessLog.v
EventStream.v
Errors.v
ProxyMain.v
Packet.v
Streams.v
Exposure.v
Consumer.v
Daemon.v
ClientProcess.v
ClientPanel.v
