(* ===== verification/Prelude.v ===== *)
(** * LocalNetwork Ecosystem: a verification library

    The program under src/ is a virtual private network in Python: a mediation
    server that clients register with, a client that opens encrypted UDP
    tunnels to its peers and bridges a TUN device to them, and a reverse proxy.
    This library models these three programs and proves what makes them
    correct.  This file is the root: the Python values, dictionaries,
    exceptions, byte strings, tactics and generic lemmas that every other file
    uses.  A file about one component holds a module of its own name.

    ** Parts and files

    Shared by the programs (src/common):
    - [Constants]: constants.py.
    - [PyStr]: the [str] and [bytes] methods of the language that the code
      uses: decimal, hexadecimal and base64 text, UTF-8, [repr], stripping.
    - [Frame]: frame.py, the binary frames of the tunnels.
    - [Json]: the [json] module as far as [dumps] and [loads] are used.
    - [Messages]: messages.py, the length-prefixed control messages and their
      dataclasses.
    - [Errors]: errors.py and logging.py.

    The mediation server (src/server):
    - [Protocol]: protocol.py, the validators of the payloads.
    - [Registry]: registry.py.  The class [MembershipStore] is what the network
      manager needs of a registry; [registry_store] is the instance.
    - [NetworkManager]: network_manager.py, over any [MembershipStore].
    - [Auth]: auth.py, challenges and responses.
    - [Relay]: relay.py, the queues of relayed frames.  [RelayStream]: the same
      with the deques as shared objects, one of which [consume_frames] holds.
    - [Server]: main.py.  [MediationServer] is the state; a handler is a state
      transformer that may raise; [recv], [eof] and [finish] are the life of a
      connection ([handle_client]); [sys_step] is the system of the server and
      its connections, with lost transports and the two background loops.
    - [ServerMain]: [start], [shutdown] and [main] of main.py; [proc_step] is the
      process around [sys_step], with signals at any moment.
    - [AdminPanel]: web/auth.py and web/app.py, over the server's registry and
      networks; aiohttp's path resolution is the class [Router].
      [EventStream]: the event stream of this panel and of the client's.
    - [Config]: config.py of server and client with the overrides of their
      command lines.

    The client (src/client):
    - [Platform]: platform_detection.py over the outcomes of system calls.
    - [Identity]: identity.py, the key files and ids.
    - [Wizard]: setup_wizard.py on the text that is typed.
    - [ControlChannel]: control_channel.py.  Operations are programs that
      suspend in [request]; [step] interleaves them with the background reader,
      heartbeats and reconnection over the shared [Channel].
    - [Cli]: [cli_main] of main.py, programs of the control channel, and their
      run against [Server].
    - [Indicator]: status_indicator.py.
    - [Encryption]: encryption.py.  The class [TunnelCrypto] stands for the
      cryptography package, [crypto_laws] for what the code relies on.
    - [NatTraversal]: nat_traversal.py, the punching loops on a trace of what
      the socket delivers, STUN, the NAT classification.
    - [Tunnel]: tunnel_manager.py and the tick of keepalive.py.  Tunnels are
      objects behind a table, so that a handler and the table can share one.
    - [Keepalive]: the tasks of keepalive.py that run the tick.
    - [Topology]: topology.py.
    - [Packet]: tun_interface.py and the packet functions of main.py; the
      kernel's answers are the records [Kernel] and [Utun].
    - [Streams], [Exposure], [Consumer]: service_exposure.py and
      service_consumer.py, streams forwarded through the tunnels.
    - [Daemon]: [ClientDaemon] of main.py, which composes tunnels, topology,
      packets and the events of the server.
    - [ClientProcess]: [run] from the identity to the end, with the failures of
      each part, and [_daemonize].
    - [ClientPanel]: web/app.py over the daemon.

    The reverse proxy (src/proxy):
    - [LoadBalancer], [HealthCheck], [RateLimiter] (security/rate_limiter.py),
      [UpstreamPool] (upstream.py), [Security] (security/access.py and
      auth.py), [Cache] (cache/), [Tls] (ssl/terminator.py), [AccessLog]
      (logging.py), [StreamProxy] (stream_proxy.py).
    - [Status]: status.py and the state machine of connection.py.
    - [Http]: the request parser, routing, forwarded headers and responses of
      connection.py.
    - [WebSocket]: websocket.py, frames, the relay and the upgrade.
    - [Connection]: the rest of connection.py: static files, the upstream's
      response, compression.py, and one turn of [handle].
    - [ProxyConfig]: config.py.
    - [ProxyProcess]: master.py and the constructor of worker.py.
    - [WorkerLife]: the rest of worker.py, and signals in a worker.
    - [ProxyMain]: main.py and the panel of web/app.py.

    The server calls [Protocol] on each payload, then [Registry],
    [NetworkManager], [Auth] and [Relay], and answers with [Messages];
    [ControlChannel] speaks to it, and [Daemon] and [Cli] use the channel.  A
    tunnel uses [NatTraversal] to find its peer, [Encryption] for its key and
    [Frame] for its datagrams; [Daemon] moves packets between [Packet] and
    [Tunnel], [Exposure] and [Consumer] move [Streams] over [Tunnel].  A worker
    of [ProxyProcess] builds the state of [Connection] from [ProxyConfig];
    [Connection] composes [Http], [LoadBalancer], [HealthCheck], [WebSocket]
    and static files.

    ** What is proved

    - Encodings: what is serialized is read back, message by message from a
      stream; frames likewise, with the sequence number modulo 2^32; malformed
      input gives the listed exceptions and no others ([serialize_roundtrip],
      [parse_all_messages], [deserialize_outcome], [pack_unpack_roundtrip],
      [unpack_frame_errors], [stun_roundtrip], [frame_roundtrip],
      [arp_reply_exact]).
    - Server state: in every reachable state the two records of each
      membership agree, queues and writers are bounded, and every connection
      belongs to a known client ([system_invariant], [reachable_consistent],
      [relay_reachable_ok]); join, leave and purge refine the updates of one
      abstract relation ([membership_refinement]).
    - Security: no command runs before authentication
      ([unauthenticated_no_command]); acceptance implies a valid signature of a
      live challenge, once ([verify_sound], [attempt_budget]); endpoints go to
      fellow members only ([shared_endpoints_exact]); only owners delete
      ([delete_owner_only]); the admin panel answers exactly the logged-in
      ([panel_access_exact]); of access rules listed from the specific
      to the general the longest prefix decides ([access_by_prefix]); static
      files stay under a root without a neighbour that shares its name's
      beginning ([static_confined]).
    - Operations on every branch: [register_accepted], [create_then_join],
      [invite_code_is_join], [announce_online_exact], [relay_fifo],
      [prune_stale_exact].
    - Channel and commands: the handshake with a server that has no lost
      transport ends authenticated ([handshake_live]); one request at a time,
      one reader per stream, backoff in its bounds ([channel_invariant]); every
      message is routed once ([reader_routes]).
    - Tunnels and the daemon: two ends agree on a key ([handshake_agrees]) and
      then carry packets both ways ([tunnel_carries_both_ways]); routes are the
      peers online that have an address ([routes_refine_online]);
      [topology_decisions]; opening the device leaks no descriptor
      ([linux_open_outcome]).
    - Services: stream frames are read back ([stream_frame_roundtrip]), no
      connection outlives its task and each writes what it was fed in order
      ([exposure_invariant]), ports are distinct ([auto_ports]).
    - Configuration and identity: [server_config_typed], [client_config_exact],
      [identity_persistent], [client_id_accepted], [prompt_answers].
    - HTTP: requests, chunked bodies and responses are read back
      ([request_roundtrip], [chunked_body], [response_forwarded]), routing
      takes the longest match ([match_route_longest]), what is sent upstream is
      exact ([upstream_headers_exact]), a turn leaves the load as it was
      ([load_returns]), also over all connections of a worker
      ([worker_load_returns]), and a connection over bytes is the loop over its
      requests ([connection_refines_requests]).
    - WebSocket: each direction forwards whole messages up to the close and
      ends; however the two interleave each side gets the beginning of what the
      other sent ([relay_one_way_ends], [relay_interleaved]).
    - Proxy: the balancers against one weighted list ([round_robin_cycle],
      [weighted_selection], [least_conn_least]), the exact trip of the health
      monitor ([health_trip_exact]), the rate limit of a client's
      first second ([rate_limit_exact]) and its bound over any second
      ([rate_limit_bound]), the pool never shares a connection
      ([pool_exclusive]), the cache serves the last response when no write
      fails half way, within its limits ([cache_serves_last],
      [cache_bounded]), the status counters are exact
      ([status_exact]), streams are relayed in order ([tcp_relayed]), the log
      keeps its order ([log_order]).
    - Processes: the server process from start to exit ([process_lifecycle],
      [signal_leads_out]); the client cancels its tasks and closes what it holds
      ([run_ends_clean]);
      at most one keep-alive loop, none after [stop] ([keepalive_one_loop],
      [stopped_is_quiet]); the background process is detached
      ([daemonize_detaches]); the master keeps its workers
      ([master_supervises]), a file of the documented form gives a worker
      ([worker_ready]) and the worker serves every port
      ([worker_serves_every_port]); every exit of the proxy ([main_outcome]).
    - Sharing: the relay over shared deques refines the relay of values
      ([relay_objects_refine]); event streams are whole events
      ([stream_is_whole_events]).
    - Panels: [features_keep_shape], [stop_stops], [admin_panel_static],
      [update_shows].
    - Defects, stated as theorems of what the code does, such as
      [expose_service_answers_error], [simultaneous_punch_plaintext],
      [created_network_not_listed], [cone_called_symmetric], [reload_orphans],
      [early_signal_lost], [consumer_orphaned], [route_failure_leaks],
      [restarted_worker_kills_siblings], [no_route_from_server],
      [reload_in_shutdown_orphans], [general_rule_first_wins]; the others are lemmas in their files.

    ** Conventions, bounds and assumptions

    - Time stamps are integers of microseconds.  An operation takes its clock
      readings as arguments; a handler of the server reads the clock once.
    - Random values, UUIDs, salts and the order in which a set is iterated are
      arguments ([SetOrder] for sets).
    - bcrypt, RSA, X25519, HKDF, AES-GCM, MD5, SHA-1, SHA-256 and zlib are
      parameters.  What is assumed of them is a named hypothesis with a
      concrete instance that satisfies it ([bcrypt_correct], [crypto_laws],
      [rsa_laws]); case mapping beyond ASCII and [str.isprintable] are
      the class [Unicode], the value of a float literal the class [Floats].
    - The outcomes of system calls are arguments: the file system, [Kernel],
      [Utun], [Host], which ports can be bound, mimetypes, the YAML parser.
    - A coroutine runs without interruption between two awaits that suspend;
      the step relations interleave at these points.  A handler of the server
      suspends only in [drain].
    - Fuel: the JSON parser runs on twice the length of the text plus two, and
      more fuel never changes its result ([parse_value_fuel]); the STUN
      attribute loop on the length of the packet; decimal printing on the
      number of bits; the bisection on the length of the list; eviction on the
      number of entries; a prompt on the length of what is typed
      ([prompt_fuel]).  Each is proved enough where it is used.  The chunk loop
      of the HTTP parser need not end: the length of the data is enough unless
      a size is negative ([chunked_ends]), and then it can run for ever; that
      of a response ends ([chunked_reading_ends]).
    - JSON floats are kept as their text.  The recursion limit of the JSON
      parser and the digit limit of [int] are not modelled.
    - The load of a server is compared as a fraction, which agrees with the
      floats of the code while counts and weights are below 2^26.

    ** Not modelled

    Socket and file I/O below the calls that the code makes, TLS handshakes,
    argparse and the format of logging.basicConfig, what asyncio and aiohttp do
    inside a call (the facts of asyncio that [ServerMain] and [WorkerLife] use
    are in their headers), the lengths of sleeps, templates and pages that only
    render one, [inject_control] of the tunnel manager, whose value nothing
    reads, [data_path] of the server's configuration, which nothing calls, and
    the smoke test script. *)

From Stdlib Require Export Ascii String.
From stdpp Require Export base tactics list gmap sets strings.
From Stdlib Require Export ZArith Lia.

#[global] Open Scope Z_scope.
#[global] Open Scope list_scope.

(** ** Python values

    A [str] is the list of its code points and a [bytes] the list of its
    byte values.  Both are lists of integers; [is_byte] and [is_codepoint]
    are the ranges that the Python types guarantee.  Time stamps (Python
    floats of seconds) are integers of microseconds: the code only adds,
    subtracts and compares them. *)

Abbreviation str := (list Z) (only parsing).
Abbreviation bytes := (list Z) (only parsing).
Abbreviation time := Z (only parsing).

Definition SEC : Z := 1000000.

Definition is_byte (b : Z) : Prop := 0 <= b < 256.
Definition is_codepoint (c : Z) : Prop := 0 <= c < 1114112.

#[global] Instance is_byte_dec b : Decision (is_byte b).
Proof. unfold is_byte. apply _. Defined.
#[global] Instance is_codepoint_dec c : Decision (is_codepoint c).
Proof. unfold is_codepoint. apply _. Defined.

(** A Python literal in ASCII. *)
Fixpoint py (s : string) : str :=
  match s with
  | EmptyString => []
  | String a s' => Z.of_nat (nat_of_ascii a) :: py s'
  end.

#[global] Arguments py : simpl never.

(** [len(l)] as a Python integer. *)
Definition zlen {A} (l : list A) : Z := Z.of_nat (length l).

Definition str_eqb (a b : str) : bool := bool_decide (a = b).

(** ** Exceptions

    The exception classes the modelled code raises or catches, and the text
    [str(exc)] where the code sends it to a peer (the empty text elsewhere). *)
Inductive exc_class :=
  | CValueError | CTypeError | CAttributeError | CKeyError | CIndexError
  | COSError | CConnectionError | CStructError | CUnicodeError | CJSONDecodeError
  | CFrameError | CInvalidFrameVersionError | CFrameTooLargeError
  | CMessageTooLargeError | CProtocolError | CDecryptionError | CEncryptionError
  | CInvalidSignature | CInvalidTag
  | CIdentityError          (* identity.py, a RuntimeError *)
  | CControlChannelError | CTimeoutError | CIncompleteReadError | CWebSocketError
  | CException.     (* any other class: never named by an [except] clause *)

#[global] Instance exc_class_eq_dec : EqDecision exc_class.
Proof. solve_decision. Defined.

Record exc := Exc { exc_cls : exc_class; exc_msg : str }.

#[global] Instance exc_eq_dec : EqDecision exc.
Proof. solve_decision. Defined.

(** [isinstance(e, ValueError)]: the classes declared below [ValueError]. *)
Definition is_ValueError (e : exc) : bool :=
  match exc_cls e with
  | CValueError | CUnicodeError | CJSONDecodeError | CFrameError
  | CInvalidFrameVersionError | CFrameTooLargeError
  | CMessageTooLargeError | CProtocolError => true
  | _ => false
  end.

(** [isinstance(e, FrameError)]. *)
Definition is_FrameError (e : exc) : bool :=
  match exc_cls e with
  | CFrameError | CInvalidFrameVersionError | CFrameTooLargeError => true
  | _ => false
  end.

Inductive result (A : Type) :=
  | Ok (a : A)
  | Err (e : exc).
Arguments Ok {A} a.
Arguments Err {A} e.

Lemma Ok_inj {A} (a b : A) : Ok a = Ok b -> a = b.
Proof. by intros [=]. Qed.

Definition raise {A} (c : exc_class) (msg : str) : result A := Err (Exc c msg).

Definition rbind {A B} (m : result A) (k : A -> result B) : result B :=
  match m with Ok a => k a | Err e => Err e end.

Declare Scope py_scope.
Delimit Scope py_scope with py.
Notation "'let?' x := c 'in' k" := (rbind c (fun x => k))
  (at level 10, x pattern, c at level 100, k at level 200)
  : py_scope.
#[global] Open Scope py_scope.

Lemma rbind_Ok {A B} (m : result A) (k : A -> result B) b :
  rbind m k = Ok b -> exists a, m = Ok a /\ k a = Ok b.
Proof. destruct m; simpl; eauto; discriminate. Qed.

(** ** Tactics shared by the components *)

(** Split every [if]/[match]/[decide] of the goal and the hypotheses that
    blocks a reduction, discharging the contradictory branches. *)
Ltac py_cases :=
  repeat (first
    [ progress simplify_eq/=
    | case_decide
    | case_bool_decide
    | case_match ]); try done.

(** Invert one successful bind of the [result] monad. *)
Ltac inv_bind H :=
  let a := fresh "a" in let Ha := fresh "Ha" in
  apply rbind_Ok in H; destruct H as (a & Ha & H).

(** Evaluate the decision procedure of a closed goal. *)
Ltac by_eval := refine (bool_decide_unpack _ _); vm_compute; exact I.

(** Linear arithmetic with division and modulo by constants. *)
Ltac dlia := Z.to_euclidean_division_equations; lia.

(** Replace every integer comparison of the goal that arithmetic decides. *)
Ltac decide_Z :=
  repeat match goal with
  | |- context [?a <? ?b] =>
      first [ rewrite (proj2 (Z.ltb_lt a b)) by dlia
            | rewrite (proj2 (Z.ltb_ge a b)) by dlia ]
  | |- context [?a <=? ?b] =>
      first [ rewrite (proj2 (Z.leb_le a b)) by dlia
            | rewrite (proj2 (Z.leb_gt a b)) by dlia ]
  | |- context [?a =? ?b] =>
      first [ rewrite (proj2 (Z.eqb_eq a b)) by dlia
            | rewrite (proj2 (Z.eqb_neq a b)) by dlia ]
  end.

Create HintDb pydb discriminated.
#[export] Hint Constants Opaque : pydb.

(** ** Dictionaries

    A Python [dict] is the association list of its items in insertion order:
    [d[k] = v] replaces the value in place or appends a new item, and
    iteration follows the list.  [dict_ok] is the invariant of the type (no
    key occurs twice). *)
Section Dict.
Context {K V : Type} `{!EqDecision K}.
Implicit Types (d : list (K * V)) (k : K) (v : V).

Fixpoint dget d k : option V :=
  match d with
  | [] => None
  | (k', v) :: d' => if decide (k' = k) then Some v else dget d' k
  end.

Fixpoint dset d k v : list (K * V) :=
  match d with
  | [] => [(k, v)]
  | (k', v') :: d' =>
      if decide (k' = k) then (k', v) :: d' else (k', v') :: dset d' k v
  end.

Fixpoint ddel d k : list (K * V) :=
  match d with
  | [] => []
  | (k', v') :: d' =>
      if decide (k' = k) then ddel d' k else (k', v') :: ddel d' k
  end.

(** Mutation of the object stored under [k], when there is one. *)
Fixpoint dalter (f : V -> V) d k : list (K * V) :=
  match d with
  | [] => []
  | (k', v') :: d' =>
      if decide (k' = k) then (k', f v') :: d' else (k', v') :: dalter f d' k
  end.

Definition dmem d k : bool := match dget d k with Some _ => true | None => false end.
Definition dkeys d : list K := map fst d.
Definition dvals d : list V := map snd d.
Definition dict_ok d : Prop := NoDup (dkeys d).

Lemma dget_dset d k k' v :
  dget (dset d k v) k' = if decide (k = k') then Some v else dget d k'.
Proof. induction d as [|[k0 v0] d IH]; simpl; py_cases. Qed.

Lemma dget_dset_eq d k v : dget (dset d k v) k = Some v.
Proof. rewrite dget_dset. by case_decide. Qed.

Lemma dget_dset_ne d k k' v : k <> k' -> dget (dset d k v) k' = dget d k'.
Proof. intros. rewrite dget_dset. by case_decide. Qed.

Lemma dset_twice d k v v' : dset (dset d k v) k v' = dset d k v'.
Proof.
  induction d as [|[k0 v0] d IH]; simpl; [by rewrite decide_True|].
  case_decide; simpl; [by rewrite decide_True|]. rewrite decide_False by done. by rewrite IH.
Qed.

Lemma dget_ddel d k k' :
  dget (ddel d k) k' = if decide (k = k') then None else dget d k'.
Proof. induction d as [|[k0 v0] d IH]; simpl; py_cases. Qed.

Lemma dget_dalter f d k k' :
  dget (dalter f d k) k' = if decide (k = k') then f <$> dget d k' else dget d k'.
Proof. induction d as [|[k0 v0] d IH]; simpl; py_cases. Qed.

Lemma dkeys_dalter f d k : dkeys (dalter f d k) = dkeys d.
Proof. induction d as [|[k0 v0] d IH]; simpl; py_cases; by f_equal/=. Qed.

Lemma elem_of_dkeys d k : k ∈ dkeys d <-> is_Some (dget d k).
Proof.
  induction d as [|[k0 v0] d IH]; simpl.
  - split; [by intros ?%elem_of_nil | intros [? [=]]].
  - rewrite elem_of_cons, IH. case_decide as Hk; [by split; [eexists|left]|].
    split; [intros [->|?]; done|by right].
Qed.

Lemma not_elem_of_dkeys d k : k ∉ dkeys d <-> dget d k = None.
Proof. rewrite elem_of_dkeys. destruct (dget d k); naive_solver. Qed.

Lemma dmem_true d k : dmem d k = true <-> is_Some (dget d k).
Proof. unfold dmem. destruct (dget d k); naive_solver. Qed.

Lemma dmem_false d k : dmem d k = false <-> dget d k = None.
Proof. unfold dmem. destruct (dget d k); naive_solver. Qed.

Lemma dkeys_dset_old d k v : is_Some (dget d k) -> dkeys (dset d k v) = dkeys d.
Proof.
  induction d as [|[k0 v0] d IH]; simpl; [by intros [? ?]|].
  case_decide; simpl; [done|]. intros ?. by rewrite IH.
Qed.

Lemma dset_new d k v : dget d k = None -> dset d k v = d ++ [(k, v)].
Proof.
  induction d as [|[k0 v0] d IH]; simpl; [done|].
  case_decide; [done|]. intros ?. by rewrite IH.
Qed.

Lemma dkeys_dset_new d k v : dget d k = None -> dkeys (dset d k v) = dkeys d ++ [k].
Proof. intros. rewrite dset_new by done. unfold dkeys. by rewrite map_app. Qed.

Lemma dkeys_ddel d k : dkeys (ddel d k) = filter (fun k' => k' <> k) (dkeys d).
Proof.
  induction d as [|[k0 v0] d IH]; simpl; [done|].
  rewrite filter_cons. repeat case_decide; simpl; try done; by f_equal.
Qed.

Lemma dict_ok_nil : dict_ok [].
Proof. constructor. Qed.

Lemma dict_ok_dset d k v : dict_ok d -> dict_ok (dset d k v).
Proof.
  unfold dict_ok. intros Hd. destruct (dget d k) as [v'|] eqn:Hk.
  - rewrite dkeys_dset_old; eauto.
  - rewrite dkeys_dset_new by done. apply NoDup_app. split_and!; [done| |apply NoDup_singleton].
    intros x Hx ->%list_elem_of_singleton. by apply not_elem_of_dkeys in Hk.
Qed.

Lemma dict_ok_ddel d k : dict_ok d -> dict_ok (ddel d k).
Proof. unfold dict_ok. rewrite dkeys_ddel. apply NoDup_filter. Qed.

Lemma dict_ok_dalter f d k : dict_ok d -> dict_ok (dalter f d k).
Proof. unfold dict_ok. by rewrite dkeys_dalter. Qed.

Lemma dget_elem d k v : dget d k = Some v -> (k, v) ∈ d.
Proof.
  induction d as [|[k0 v0] d IH]; simpl; [done|].
  case_decide; intros; simplify_eq; [by left|right; auto].
Qed.

Lemma elem_dget d k v : dict_ok d -> (k, v) ∈ d -> dget d k = Some v.
Proof.
  unfold dict_ok. induction d as [|[k0 v0] d IH]; simpl; [by intros ? ?%elem_of_nil|].
  intros [Hnin Hnd]%NoDup_cons [?|Hin]%elem_of_cons; simplify_eq.
  - by case_decide.
  - case_decide as Hk; [|auto]. subst. exfalso. apply Hnin.
    unfold dkeys. apply list_elem_of_fmap. by exists (k, v).
Qed.

Lemma dget_app d d' k :
  dget (d ++ d') k = match dget d k with Some v => Some v | None => dget d' k end.
Proof. induction d as [|[k0 v0] d IH]; simpl; py_cases. Qed.

Lemma length_dset_le d k v : (length (dset d k v) <= S (length d))%nat.
Proof. induction d as [|[k0 v0] d IH]; simpl; [lia|]. case_decide; simpl; lia. Qed.

Lemma length_dset_old d k v : is_Some (dget d k) -> length (dset d k v) = length d.
Proof.
  intros H. apply (dkeys_dset_old d k v) in H.
  apply (f_equal length) in H. unfold dkeys in H. by rewrite !length_map in H.
Qed.

Lemma length_ddel_le d k : (length (ddel d k) <= length d)%nat.
Proof. induction d as [|[k0 v0] d IH]; simpl; [lia|]. case_decide; simpl; lia. Qed.

Lemma ddel_id d k : dget d k = None -> ddel d k = d.
Proof.
  induction d as [|[k0 v0] d IH]; simpl; [done|].
  case_decide; [done|]. intros ?. by rewrite IH.
Qed.

Lemma dalter_id f d k : dget d k = None -> dalter f d k = d.
Proof.
  induction d as [|[k0 v0] d IH]; simpl; [done|].
  case_decide; [done|]. intros ?. by rewrite IH.
Qed.

(** [for k in l: d.pop(k, None)]. *)
Lemma dget_foldl_ddel (l : list K) d k :
  dget (foldl ddel d l) k = if decide (k ∈ l) then None else dget d k.
Proof.
  revert d. induction l as [|x l IH]; intros d; cbn [foldl].
  - rewrite decide_False; [done|]. apply not_elem_of_nil.
  - rewrite IH, dget_ddel. repeat case_decide; set_solver.
Qed.

Lemma dict_ok_foldl_ddel (l : list K) d : dict_ok d -> dict_ok (foldl ddel d l).
Proof. revert d. induction l; intros d Hd; simpl; eauto using dict_ok_ddel. Qed.

End Dict.

#[export] Hint Resolve dict_ok_nil dict_ok_dset dict_ok_ddel dict_ok_dalter : pydb.

(** [{k: f(v) for k, v in d.items()}]: the values of a dictionary updated in place. *)
Definition dmap {K V W} (f : K -> V -> W) (d : list (K * V)) : list (K * W) :=
  map (fun kv => (fst kv, f (fst kv) (snd kv))) d.

Lemma dkeys_dmap {K V W} (f : K -> V -> W) d : dkeys (dmap f d) = dkeys d.
Proof. unfold dkeys, dmap. by rewrite map_map. Qed.

Lemma dget_dmap {K V W} `{!EqDecision K} (f : K -> V -> W) d k :
  dget (dmap f d) k = f k <$> dget d k.
Proof. induction d as [|[k0 v0] d IH]; simpl; py_cases. Qed.

Lemma dict_ok_dmap {K V W} (f : K -> V -> W) d : dict_ok d -> dict_ok (dmap f d).
Proof. unfold dict_ok. by rewrite dkeys_dmap. Qed.
#[export] Hint Resolve dict_ok_dmap : pydb.

(** Items kept by a key and value test, as [{... if p(k, v)}]. *)
Definition dfilter {K V} (p : K -> V -> bool) (d : list (K * V)) : list (K * V) :=
  List.filter (fun kv => p (fst kv) (snd kv)) d.

Lemma dget_dfilter {K V} `{!EqDecision K} (p : K -> V -> bool) d k :
  dict_ok d ->
  dget (dfilter p d) k =
    match dget d k with Some v => if p k v then Some v else None | None => None end.
Proof.
  unfold dict_ok. induction d as [|[k0 v0] d IH]; simpl; [done|].
  intros [Hnin Hnd]%NoDup_cons. specialize (IH Hnd).
  destruct (p k0 v0) eqn:Hp; simpl; case_decide; subst; rewrite ?Hp; try done.
  rewrite IH. apply not_elem_of_dkeys in Hnin. by rewrite Hnin.
Qed.

Lemma dict_ok_dfilter {K V} (p : K -> V -> bool) (d : list (K * V)) :
  dict_ok d -> dict_ok (dfilter p d).
Proof.
  unfold dict_ok, dkeys. induction d as [|[k0 v0] d IH]; simpl; [done|].
  intros [Hnin Hnd]%NoDup_cons. destruct (p k0 v0); simpl; [|auto].
  apply NoDup_cons. split; [|auto]. contradict Hnin.
  apply list_elem_of_fmap in Hnin as ([k v] & -> & Hin).
  apply list_elem_of_In, filter_In in Hin as [Hin _].
  apply list_elem_of_fmap. exists (k, v). split; [done|]. by apply list_elem_of_In.
Qed.
#[export] Hint Resolve dict_ok_dfilter : pydb.

(** ** Big-endian integers: [struct] codes [B], [H], [I], [Q] and
    [int.from_bytes(_, "big")] *)

Fixpoint be_encode (n : nat) (x : Z) : bytes :=
  match n with
  | O => []
  | S n' => be_encode n' (x / 256) ++ [x mod 256]
  end.

Definition be_decode (l : bytes) : Z := foldl (fun acc b => acc * 256 + b) 0 l.

(** [struct.pack] of one unsigned field of [n] bytes, with its range check. *)
Definition struct_pack (n : nat) (x : Z) : result bytes :=
  if bool_decide (0 <= x < 256 ^ Z.of_nat n) then Ok (be_encode n x)
  else raise CStructError [].

Lemma length_be_encode n x : length (be_encode n x) = n.
Proof.
  revert x. induction n as [|n IH]; intros x; simpl; [done|].
  rewrite length_app, IH. simpl. lia.
Qed.

Lemma zlen_app {A} (a b : list A) : zlen (a ++ b) = zlen a + zlen b.
Proof. unfold zlen. rewrite length_app. lia. Qed.

Lemma zlen_nonneg {A} (l : list A) : 0 <= zlen l.
Proof. unfold zlen. lia. Qed.

Lemma zlen_be_encode n x : zlen (be_encode n x) = Z.of_nat n.
Proof. unfold zlen. by rewrite length_be_encode. Qed.

Lemma be_encode_byte n x : Forall is_byte (be_encode n x).
Proof.
  revert x. induction n as [|n IH]; intros x; simpl; [constructor|].
  apply Forall_app. split; [apply IH|]. apply Forall_singleton. unfold is_byte. dlia.
Qed.

Lemma be_decode_snoc l b : be_decode (l ++ [b]) = be_decode l * 256 + b.
Proof. unfold be_decode. by rewrite foldl_app. Qed.

Lemma be_decode_encode n x : be_decode (be_encode n x) = x mod 256 ^ Z.of_nat n.
Proof.
  revert x. induction n as [|n IH]; intros x.
  - simpl. by rewrite Z.mod_1_r.
  - cbn [be_encode]. rewrite be_decode_snoc, IH, Nat2Z.inj_succ, Z.pow_succ_r by lia.
    rewrite Z.rem_mul_r by lia. lia.
Qed.

Lemma be_decode_encode_small n x :
  0 <= x < 256 ^ Z.of_nat n -> be_decode (be_encode n x) = x.
Proof. intros. by rewrite be_decode_encode, Z.mod_small. Qed.

Lemma be_decode_bound l : Forall is_byte l -> 0 <= be_decode l < 256 ^ zlen l.
Proof.
  unfold zlen. induction l as [|b l IH] using rev_ind; intros Hl; [done|].
  apply Forall_app in Hl as [Hl Hb]. rewrite Forall_singleton in Hb. specialize (IH Hl).
  rewrite be_decode_snoc, length_app, Nat2Z.inj_add, Z.pow_add_r by lia.
  change (256 ^ Z.of_nat (length [b])) with 256. unfold is_byte in Hb.
  lia.
Qed.

Lemma be_decode_bound_len n l :
  Forall is_byte l -> length l = n -> 0 <= be_decode l < 256 ^ Z.of_nat n.
Proof. intros Hl <-. by apply be_decode_bound. Qed.

Lemma be_encode_decode l : Forall is_byte l -> be_encode (length l) (be_decode l) = l.
Proof.
  induction l as [|b l IH] using rev_ind; intros Hl; [done|].
  apply Forall_app in Hl as [Hl Hb]. rewrite Forall_singleton in Hb. unfold is_byte in Hb.
  rewrite length_app, Nat.add_comm, be_decode_snoc. cbn [length Nat.add be_encode].
  replace ((be_decode l * 256 + b) / 256) with (be_decode l) by dlia.
  replace ((be_decode l * 256 + b) mod 256) with b by dlia.
  by rewrite IH.
Qed.

Lemma struct_pack_ok n x :
  0 <= x < 256 ^ Z.of_nat n -> struct_pack n x = Ok (be_encode n x).
Proof. intros. unfold struct_pack. by rewrite bool_decide_true. Qed.

#[global] Arguments be_encode : simpl never.

(** [l[a:b]] for [0 <= a]. *)
Definition slice {A} (a b : nat) (l : list A) : list A := take (b - a) (drop a l).

Lemma take_app_len {A} (l k : list A) n : n = length l -> take n (l ++ k) = l.
Proof. intros ->. by rewrite take_app_length. Qed.
Lemma drop_app_len {A} (l k : list A) n : n = length l -> drop n (l ++ k) = k.
Proof. intros ->. by rewrite drop_app_length. Qed.

Lemma slice_app_mid {A} (a b c : list A) i j :
  i = length a -> j = (length a + length b)%nat -> slice i j (a ++ b ++ c) = b.
Proof.
  intros -> ->. unfold slice. rewrite drop_app_length.
  replace (length a + length b - length a)%nat with (length b) by lia.
  by rewrite take_app_length.
Qed.

Lemma slice_app_first {A} (b c : list A) j : j = length b -> slice 0 j (b ++ c) = b.
Proof. intros. by apply (slice_app_mid [] b c). Qed.

Lemma take_drop_split {A} (a n m : nat) (l : list A) :
  l = take a l ++ take n (drop a l) ++ take m (drop (a + n) l) ++ drop (a + n + m) l.
Proof. by rewrite <- (drop_drop l m (a + n)), take_drop, <- (drop_drop l n a), !take_drop. Qed.

(** A separator that does not occur after its last use splits in one way. *)
Lemma app_sep_inj {A} (c : A) l1 r1 l2 r2 :
  c ∉ r1 -> c ∉ r2 -> l1 ++ c :: r1 = l2 ++ c :: r2 -> l1 = l2 /\ r1 = r2.
Proof.
  intros H1 H2 Heq. revert l2 Heq. induction l1 as [|x l1 IH]; intros [|y l2] Heq; simplify_eq/=.
  - done.
  - exfalso. apply H1. set_solver.
  - exfalso. apply H2. set_solver.
  - match goal with H : _ ++ _ = _ |- _ => by destruct (IH l2 H) as [-> ->] end.
Qed.

(** ** Sets

    Python iterates over a set in an order it does not specify.  The order is
    a parameter: a function that lists every set without repetition. *)
Class SetOrder (A : Type) `{Countable A} := {
  set_order : gset A -> list A;
  set_order_perm X : set_order X ≡ₚ elements X;
}.

Lemma elem_of_set_order `{SetOrder A} (X : gset A) x : x ∈ set_order X <-> x ∈ X.
Proof. rewrite set_order_perm. apply elem_of_elements. Qed.

(** The order that [elements] gives, used to evaluate concrete runs. *)
Definition elements_order {A} `{Countable A} : SetOrder A :=
  {| set_order X := elements X; set_order_perm X := Permutation_refl _ |}.
