(* ===== verification/Constants.v ===== *)
(** * Shared protocol constants (src/common/constants.py)

    Timing values are in seconds, as in the source; the components multiply
    them by [SEC] where they meet the clock. *)

From S2P Require Import Prelude.

Definition MAX_MESSAGE_SIZE : Z := 1024 * 1024.

Definition SERVER_DEFAULT_HOST : str := py "0.0.0.0".
Definition SERVER_DEFAULT_PORT : Z := 54000.
Definition SERVER_DEFAULT_WEB_PORT : Z := 54001.
Definition CLIENT_DEFAULT_WEB_PORT : Z := 54002.
Definition PROXY_DEFAULT_WEB_PORT : Z := 54010.
Definition HEARTBEAT_INTERVAL : Z := 30.
Definition HEARTBEAT_TIMEOUT : Z := 90.
Definition HOLE_PUNCH_TIMEOUT : Z := 5.
Definition KEEPALIVE_INTERVAL : Z := 10.
Definition TUNNEL_STALE_TIMEOUT : Z := 60.
Definition RECONNECT_BASE_DELAY : Z := 1.
Definition RECONNECT_MAX_DELAY : Z := 60.
Definition AUTH_CHALLENGE_TTL : Z := 60.
Definition AUTH_MAX_ATTEMPTS : Z := 5.

Definition VIRTUAL_MTU : Z := 1400.
Definition VIRTUAL_SUBNET : str := py "25.0.0.0/8".
Definition VIRTUAL_NETMASK : str := py "255.0.0.0".

Definition FRAME_VERSION : Z := 1.
Definition FRAME_HEADER_SIZE : Z := 8.
Definition GCM_TAG_SIZE : Z := 16.
Definition MAX_FRAME_PAYLOAD : Z := 65535.
Definition FRAME_DATA : Z := 1.
Definition FRAME_PUNCH : Z := 2.
Definition FRAME_PUNCH_ACK : Z := 6.
Definition FRAME_KEEPALIVE : Z := 3.
Definition FRAME_CLOSE : Z := 4.
Definition FRAME_FORWARDED_STREAM : Z := 5.

Definition MSG_REGISTER : str := py "REGISTER".
Definition MSG_AUTH_CHALLENGE : str := py "AUTH_CHALLENGE".
Definition MSG_AUTH_RESPONSE : str := py "AUTH_RESPONSE".
Definition MSG_AUTH_OK : str := py "AUTH_OK".
Definition MSG_AUTH_FAIL : str := py "AUTH_FAIL".
Definition MSG_CREATE_NETWORK : str := py "CREATE_NETWORK".
Definition MSG_NETWORK_CREATED : str := py "NETWORK_CREATED".
Definition MSG_JOIN_NETWORK : str := py "JOIN_NETWORK".
Definition MSG_NETWORK_JOINED : str := py "NETWORK_JOINED".
Definition MSG_LEAVE_NETWORK : str := py "LEAVE_NETWORK".
Definition MSG_NETWORK_LEFT : str := py "NETWORK_LEFT".
Definition MSG_LIST_NETWORKS : str := py "LIST_NETWORKS".
Definition MSG_NETWORK_LIST : str := py "NETWORK_LIST".
Definition MSG_NETWORK_PEERS : str := py "NETWORK_PEERS".
Definition MSG_PEER_ONLINE : str := py "PEER_ONLINE".
Definition MSG_PEER_OFFLINE : str := py "PEER_OFFLINE".
Definition MSG_REQUEST_PEER_CONN : str := py "REQUEST_PEER_CONN".
Definition MSG_PEER_ENDPOINTS : str := py "PEER_ENDPOINTS".
Definition MSG_RELAY_REQUEST : str := py "RELAY_REQUEST".
Definition MSG_RELAY_GRANTED : str := py "RELAY_GRANTED".
Definition MSG_RELAY_FRAME : str := py "RELAY_FRAME".
Definition MSG_RELAY_CLOSED : str := py "RELAY_CLOSED".
Definition MSG_HEARTBEAT : str := py "HEARTBEAT".
Definition MSG_HEARTBEAT_ACK : str := py "HEARTBEAT_ACK".
Definition MSG_ERROR : str := py "ERROR".
Definition MSG_EXPOSE_SERVICE : str := py "EXPOSE_SERVICE".
Definition MSG_SERVICE_EXPOSED : str := py "SERVICE_EXPOSED".
Definition MSG_UNEXPOSE_SERVICE : str := py "UNEXPOSE_SERVICE".
Definition MSG_SERVICE_UNEXPOSED : str := py "SERVICE_UNEXPOSED".
Definition MSG_SERVICE_LIST : str := py "SERVICE_LIST".
Definition MSG_SERVICE_ADDED : str := py "SERVICE_ADDED".
Definition MSG_SERVICE_REMOVED : str := py "SERVICE_REMOVED".
Definition MSG_MAP_SERVICE : str := py "MAP_SERVICE".
Definition MSG_SERVICE_MAPPED : str := py "SERVICE_MAPPED".
Definition MSG_UNMAP_SERVICE : str := py "UNMAP_SERVICE".
Definition MSG_SERVICE_UNMAPPED : str := py "SERVICE_UNMAPPED".

Definition TOPOLOGY_MESH : str := py "mesh".
Definition TOPOLOGY_HUB_AND_SPOKE : str := py "hub_and_spoke".
Definition TOPOLOGY_GATEWAY : str := py "gateway".
Definition SUPPORTED_TOPOLOGIES : list str :=
  [TOPOLOGY_MESH; TOPOLOGY_HUB_AND_SPOKE; TOPOLOGY_GATEWAY].
Definition DEFAULT_TOPOLOGY : str := py "mesh".

Definition KEY_TYPE : str := py "type".
Definition KEY_PAYLOAD : str := py "payload".
