(* ===== verification/PyStr.v ===== *)
(** * Python string operations

    The parts of Python's [str], [bytes], [int], [base64], [binascii] and
    UTF-8 codec that the modelled code calls, over lists of code points and
    lists of bytes, with the round trips the components rely on. *)

From S2P Require Import Prelude.

(** ** Characters *)

Definition is_digit (c : Z) : bool := (48 <=? c) && (c <=? 57).
Definition is_upper (c : Z) : bool := (65 <=? c) && (c <=? 90).
Definition is_lower (c : Z) : bool := (97 <=? c) && (c <=? 122).
Definition is_alnum (c : Z) : bool := is_digit c || is_upper c || is_lower c.

(** [str.isspace] on one character: the whitespace that [strip] removes. *)
Definition is_space (c : Z) : bool :=
  ((9 <=? c) && (c <=? 13)) || ((28 <=? c) && (c <=? 32))
  || bool_decide (c ∈ [133; 160; 5760; 8232; 8233; 8239; 8287; 12288])
  || ((8192 <=? c) && (c <=? 8202)).

(** [s.lower()]: the ASCII letters; other characters are left alone. *)
Definition lower_char (c : Z) : Z := if is_upper c then c + 32 else c.
Definition lower (s : str) : str := map lower_char s.

(** [s.upper()] on ASCII letters. *)
Definition upper_char (c : Z) : Z := if is_lower c then c - 32 else c.
Definition upper (s : str) : str := map upper_char s.

Fixpoint lstrip_with (p : Z -> bool) (s : str) : str :=
  match s with
  | [] => []
  | c :: s' => if p c then lstrip_with p s' else s
  end.
Definition rstrip_with (p : Z -> bool) (s : str) : str :=
  rev (lstrip_with p (rev s)).
Definition strip (s : str) : str := rstrip_with is_space (lstrip_with is_space s).

(** [s.startswith(p)]. *)
Fixpoint startswith (s p : str) {struct p} : bool :=
  match p, s with
  | [], _ => true
  | _, [] => false
  | c :: p', d :: s' => (c =? d) && startswith s' p'
  end.

Lemma startswith_spec s p : startswith s p = true <-> exists t, s = p ++ t.
Proof.
  revert s. induction p as [|c p IH]; intros s; simpl.
  - split; [by intros; exists s|done].
  - destruct s as [|d s]; [split; [done|by intros [t [=]]]|].
    rewrite andb_true_iff, Z.eqb_eq, IH. split.
    + intros [-> [t ->]]. by exists t.
    + intros [t [= -> ->]]. split; [done|by exists t].
Qed.

(** [needle in s]. *)
Fixpoint contains (s needle : str) : bool :=
  startswith s needle
  || match s with [] => false | _ :: s' => contains s' needle end.

(** [s.find(needle)] as an optional index. *)
Fixpoint find (s needle : str) : option nat :=
  if startswith s needle then Some O
  else match s with [] => None | _ :: s' => S <$> find s' needle end.

(** ** Decimal integers: [str(n)] and [int(s)] on plain digits *)

Fixpoint dec_digits (fuel : nat) (n : Z) : str :=
  match fuel with
  | O => []
  | S fuel' =>
      if n <? 10 then [48 + n] else dec_digits fuel' (n / 10) ++ [48 + n mod 10]
  end.

(** Enough fuel: a number below [2 ^ k] has at most [k] decimal digits. *)
Definition dec_nonneg (n : Z) : str := dec_digits (S (Z.to_nat (Z.log2 n))) n.

Definition dec (n : Z) : str :=
  if n <? 0 then 45 :: dec_nonneg (- n) else dec_nonneg n.

Definition digits_val (s : str) : Z := foldl (fun acc c => acc * 10 + (c - 48)) 0 s.

Lemma digits_val_snoc s c : digits_val (s ++ [c]) = digits_val s * 10 + (c - 48).
Proof. unfold digits_val. by rewrite foldl_app. Qed.

Lemma dec_digits_spec fuel n :
  (0 < fuel)%nat -> 0 <= n < 2 ^ Z.of_nat fuel ->
  digits_val (dec_digits fuel n) = n
  /\ Forall (fun c => is_digit c = true) (dec_digits fuel n)
  /\ exists c s, dec_digits fuel n = c :: s /\ (c = 48 -> n = 0 /\ s = []).
Proof.
  revert n. induction fuel as [|fuel IH]; intros n Hf Hn; [lia|].
  assert (Hd : forall d, 0 <= d < 10 -> is_digit (48 + d) = true).
  { intros d ?. unfold is_digit. apply andb_true_iff. rewrite !Z.leb_le. lia. }
  cbn [dec_digits]. destruct (Z.ltb_spec n 10) as [Hlt|Hge].
  - split_and!; [unfold digits_val; simpl; lia|rewrite Forall_singleton; apply Hd; lia|].
    exists (48 + n), []. split; [done|]. intros ?. split; [lia|done].
  - rewrite Nat2Z.inj_succ, Z.pow_succ_r in Hn by lia.
    assert (Hfuel : (0 < fuel)%nat) by (destruct fuel; [simpl in Hn; lia|lia]).
    destruct (IH (n / 10)) as (Hv & Hall & c & s & Heq & H0); [lia|dlia|].
    split_and!.
    + rewrite digits_val_snoc, Hv. dlia.
    + apply Forall_app. split; [done|]. rewrite Forall_singleton. apply Hd. dlia.
    + exists c, (s ++ [48 + n mod 10]). rewrite Heq. split; [done|].
      intros [? _]%H0. exfalso. dlia.
Qed.

Lemma dec_nonneg_fuel n : 0 <= n -> n < 2 ^ Z.of_nat (S (Z.to_nat (Z.log2 n))).
Proof.
  intros Hn. rewrite Nat2Z.inj_succ, Z2Nat.id by apply Z.log2_nonneg.
  destruct (decide (n = 0)) as [->|]; [done|]. apply Z.log2_spec. lia.
Qed.

Lemma dec_nonneg_spec n :
  0 <= n ->
  digits_val (dec_nonneg n) = n
  /\ Forall (fun c => is_digit c = true) (dec_nonneg n)
  /\ exists c s, dec_nonneg n = c :: s /\ (c = 48 -> n = 0 /\ s = []).
Proof. intros Hn. apply dec_digits_spec; [lia|]. by split; [|apply dec_nonneg_fuel]. Qed.

(** [str(n)] is never shared by two integers and holds no colon. *)
Lemma dec_inj a b : dec a = dec b -> a = b.
Proof.
  assert (Hd : forall n s, 0 <= n -> dec_nonneg n <> 45 :: s).
  { intros n s Hn Heq. destruct (dec_nonneg_spec n Hn) as (_ & Hall & _).
    rewrite Heq in Hall. by apply Forall_cons in Hall as [? _]. }
  assert (Hi : forall n m, 0 <= n -> 0 <= m -> dec_nonneg n = dec_nonneg m -> n = m).
  { intros n m Hn Hm Heq. destruct (dec_nonneg_spec n Hn) as [<- _], (dec_nonneg_spec m Hm) as [<- _].
    by rewrite Heq. }
  unfold dec. destruct (Z.ltb_spec a 0), (Z.ltb_spec b 0); intros Heq.
  - injection Heq as Heq. apply Hi in Heq; lia.
  - symmetry in Heq. by apply Hd in Heq.
  - by apply Hd in Heq.
  - by apply Hi.
Qed.

Lemma dec_no_colon n : 58 ∉ dec n.
Proof.
  assert (Hn : forall m, 0 <= m -> 58 ∉ dec_nonneg m).
  { intros m Hm Hin. destruct (dec_nonneg_spec m Hm) as (_ & Hall & _).
    rewrite Forall_forall in Hall. by apply Hall in Hin. }
  unfold dec. destruct (Z.ltb_spec n 0); [|by apply Hn].
  rewrite not_elem_of_cons. split; [done|]. apply Hn. lia.
Qed.

(** ** Hexadecimal *)

Definition hex_char (d : Z) : Z := if d <? 10 then 48 + d else 87 + d.

Definition hex_val (c : Z) : option Z :=
  if is_digit c then Some (c - 48)
  else if (97 <=? c) && (c <=? 102) then Some (c - 87)
  else if (65 <=? c) && (c <=? 70) then Some (c - 55)
  else None.

Definition hex_byte (b : Z) : str := [hex_char (b / 16); hex_char (b mod 16)].

Fixpoint hex_digits (fuel : nat) (n : Z) : str :=
  match fuel with
  | O => []
  | S fuel' =>
      if n <? 16 then [hex_char n] else hex_digits fuel' (n / 16) ++ [hex_char (n mod 16)]
  end.

(** [f"{n:02x}"]: the sign counts towards the width of two. *)
Definition hex02 (n : Z) : str :=
  let d := hex_digits (S (Z.to_nat (Z.log2 (Z.abs n)))) (Z.abs n) in
  if n <? 0 then 45 :: d else if zlen d <? 2 then 48 :: d else d.

(** [binascii.hexlify(b).decode("ascii")]. *)
Definition hexlify (b : bytes) : str := concat (map hex_byte b).

(** [binascii.unhexlify(s)]; [None] is the [binascii.Error] or [ValueError]
    of an odd number of digits or of a character that is not one. *)
Fixpoint unhexlify (s : str) : option bytes :=
  match s with
  | [] => Some []
  | [_] => None
  | c1 :: c2 :: s' =>
      match hex_val c1, hex_val c2, unhexlify s' with
      | Some h, Some l, Some b => Some (h * 16 + l :: b)
      | _, _, _ => None
      end
  end.

Lemma hex_val_char d : 0 <= d < 16 -> hex_val (hex_char d) = Some d.
Proof.
  intros Hd. unfold hex_char, hex_val, is_digit.
  destruct (Z.ltb_spec d 10).
  - replace ((48 <=? 48 + d) && (48 + d <=? 57)) with true by lia. f_equal. lia.
  - replace ((48 <=? 87 + d) && (87 + d <=? 57)) with false by lia.
    replace ((97 <=? 87 + d) && (87 + d <=? 102)) with true by lia. f_equal. lia.
Qed.

Lemma unhexlify_hexlify b : Forall is_byte b -> unhexlify (hexlify b) = Some b.
Proof.
  unfold is_byte. induction 1 as [|x b Hx Hb IH]; [done|].
  unfold hexlify in *. cbn [map concat hex_byte app unhexlify].
  rewrite !hex_val_char, IH by dlia. repeat f_equal. dlia.
Qed.

(** ** Base 64: [base64.b64encode(b).decode("ascii")] *)

Definition b64_char (d : Z) : Z :=
  if d <? 26 then 65 + d
  else if d <? 52 then 71 + d
  else if d <? 62 then d - 4
  else if d =? 62 then 43 else 47.

Fixpoint b64encode (b : bytes) : str :=
  match b with
  | [] => []
  | [x] => [b64_char (x / 4); b64_char (x mod 4 * 16); 61; 61]
  | [x; y] =>
      [b64_char (x / 4); b64_char (x mod 4 * 16 + y / 16);
       b64_char (y mod 16 * 4); 61]
  | x :: y :: z :: b' =>
      b64_char (x / 4) :: b64_char (x mod 4 * 16 + y / 16)
      :: b64_char (y mod 16 * 4 + z / 64) :: b64_char (z mod 64)
      :: b64encode b'
  end.

(** ** Splitting *)

(** [s.partition(c)] on one separator character: the part before the first
    occurrence, whether there was one, and the part after it. *)
Fixpoint partition_char (c : Z) (s : str) : str * bool * str :=
  match s with
  | [] => ([], false, [])
  | d :: s' =>
      if d =? c then ([], true, s')
      else let '(a, f, b) := partition_char c s' in (d :: a, f, b)
  end.

(** [sep.join(parts)]. *)
Fixpoint join (sep : str) (parts : list str) : str :=
  match parts with
  | [] => []
  | [p] => p
  | p :: ps => p ++ sep ++ join sep ps
  end.

(** ** UTF-8: [s.encode("utf-8")] and [b.decode("utf-8")], both strict *)

Definition is_surrogate (c : Z) : bool := (55296 <=? c) && (c <=? 57343).

(** [None] is the [UnicodeEncodeError] of a lone surrogate. *)
Definition utf8_char (c : Z) : option bytes :=
  if c <? 128 then Some [c]
  else if c <? 2048 then Some [192 + c / 64; 128 + c mod 64]
  else if is_surrogate c then None
  else if c <? 65536
  then Some [224 + c / 4096; 128 + c / 64 mod 64; 128 + c mod 64]
  else Some [240 + c / 262144; 128 + c / 4096 mod 64; 128 + c / 64 mod 64; 128 + c mod 64].

Fixpoint utf8_encode (s : str) : option bytes :=
  match s with
  | [] => Some []
  | c :: s' =>
      match utf8_char c, utf8_encode s' with
      | Some a, Some b => Some (a ++ b)
      | _, _ => None
      end
  end.

Definition is_cont (b : Z) : bool := (128 <=? b) && (b <=? 191).

(** [None] is the [UnicodeDecodeError]: overlong forms, surrogates and values
    above U+10FFFF are refused, as in CPython. *)
Fixpoint utf8_decode (b : bytes) : option str :=
  match b with
  | [] => Some []
  | x :: r =>
      if x <? 128 then (fun s => x :: s) <$> utf8_decode r
      else if (194 <=? x) && (x <=? 223) then
        match r with
        | y :: r' =>
            if is_cont y
            then (fun s => (x - 192) * 64 + (y - 128) :: s) <$> utf8_decode r'
            else None
        | _ => None
        end
      else if (224 <=? x) && (x <=? 239) then
        match r with
        | y :: z :: r' =>
            let c := (x - 224) * 4096 + (y - 128) * 64 + (z - 128) in
            if is_cont y && is_cont z && (2048 <=? c) && negb (is_surrogate c)
            then (fun s => c :: s) <$> utf8_decode r'
            else None
        | _ => None
        end
      else if (240 <=? x) && (x <=? 244) then
        match r with
        | y :: z :: t :: r' =>
            let c := (x - 240) * 262144 + (y - 128) * 4096 + (z - 128) * 64 + (t - 128) in
            if is_cont y && is_cont z && is_cont t && (65536 <=? c) && (c <=? 1114111)
            then (fun s => c :: s) <$> utf8_decode r'
            else None
        | _ => None
        end
      else None
  end.

Lemma utf8_decode_char c a b s :
  is_codepoint c -> utf8_char c = Some a -> utf8_decode b = Some s ->
  utf8_decode (a ++ b) = Some (c :: s).
Proof.
  unfold is_codepoint, utf8_char. intros Hc Ha Hb.
  destruct (Z.ltb_spec c 128).
  { simplify_eq. cbn [app utf8_decode]. decide_Z. by rewrite Hb. }
  destruct (Z.ltb_spec c 2048).
  { simplify_eq. cbn [app utf8_decode]. unfold is_cont. decide_Z. cbn [andb].
    rewrite Hb. cbn. do 2 f_equal. dlia. }
  destruct (is_surrogate c) eqn:Hs; [done|].
  destruct (Z.ltb_spec c 65536).
  { simplify_eq. cbn [app utf8_decode]. unfold is_cont. decide_Z. cbn [andb].
    replace ((224 + c / 4096 - 224) * 4096 + (128 + (c / 64) mod 64 - 128) * 64
             + (128 + c mod 64 - 128)) with c by dlia.
    rewrite Hs, Hb. decide_Z. done. }
  simplify_eq. cbn [app utf8_decode]. unfold is_cont. decide_Z. cbn [andb].
  replace ((240 + c / 262144 - 240) * 262144 + (128 + (c / 4096) mod 64 - 128) * 4096
           + (128 + (c / 64) mod 64 - 128) * 64 + (128 + c mod 64 - 128)) with c by dlia.
  rewrite Hb. decide_Z. done.
Qed.

Lemma utf8_roundtrip s b :
  Forall is_codepoint s -> utf8_encode s = Some b -> utf8_decode b = Some s.
Proof.
  intros Hs. revert b. induction Hs as [|c s Hc Hs IH]; intros b Hb; simpl in Hb; [by simplify_eq|].
  destruct (utf8_char c) eqn:Ha; [|done]. destruct (utf8_encode s) eqn:He; [|done].
  simplify_eq. eapply utf8_decode_char; eauto.
Qed.

(** [s.encode("utf-8")] with the exception and its text: the error names the
    first run of surrogates. *)
Fixpoint surrogate_run (pos : Z) (s : str) : option (Z * list Z) :=
  match s with
  | [] => None
  | c :: s' =>
      if is_surrogate c then
        Some (pos, (fix run s := match s with
                                 | c :: s' => if is_surrogate c then c :: run s' else []
                                 | [] => []
                                 end) s)
      else surrogate_run (pos + 1) s'
  end.

Definition hex4_of (n : Z) : str := hex_byte (n / 256) ++ hex_byte (n mod 256).

Definition encode_error_text (s : str) : str :=
  match surrogate_run 0 s with
  | Some (p, [c]) =>
      py "'utf-8' codec can't encode character '\u" ++ hex4_of c
      ++ py "' in position " ++ dec p ++ py ": surrogates not allowed"
  | Some (p, run) =>
      py "'utf-8' codec can't encode characters in position " ++ dec p ++ py "-"
      ++ dec (p + zlen run - 1) ++ py ": surrogates not allowed"
  | None => []
  end.

Definition encode (s : str) : result bytes :=
  match utf8_encode s with
  | Some b => Ok b
  | None => raise CUnicodeError (encode_error_text s)
  end.

Lemma utf8_char_bytes c b : is_codepoint c -> utf8_char c = Some b -> Forall is_byte b.
Proof.
  unfold is_codepoint, utf8_char. intros Hc H.
  repeat (case_match; [|]); simplify_eq; rewrite ?Z.ltb_lt, ?Z.ltb_ge in *;
    repeat (apply Forall_cons; split; [unfold is_byte; dlia|]); constructor.
Qed.

Lemma utf8_encode_bytes s b :
  Forall is_codepoint s -> utf8_encode s = Some b -> Forall is_byte b.
Proof.
  intros Hs. revert b. induction Hs as [|c s Hc Hs IH]; intros b H; simpl in H.
  - simplify_eq. constructor.
  - destruct (utf8_char c) as [a|] eqn:Ha; [|done].
    destruct (utf8_encode s) as [d|]; [|done]. simplify_eq.
    apply Forall_app. split; [by eapply utf8_char_bytes|by apply IH].
Qed.

(** ** The Unicode database

    What the code uses of it beyond ASCII: the lower case of a character and
    whether [repr] prints it as it is. *)
Class Unicode := {
  uni_lower : Z -> str;
  uni_upper : Z -> str;
  uni_printable : Z -> bool;
  uni_decimal : Z -> option Z
}.

(** [s.lower()]. *)
Definition lower_str `{Unicode} (s : str) : str :=
  concat (map (fun c => if c <? 128 then [lower_char c] else uni_lower c) s).

(** [s.upper()]. *)
Definition upper_str `{Unicode} (s : str) : str :=
  concat (map (fun c => if c <? 128 then [upper_char c] else uni_upper c) s).

Definition hex8_of (n : Z) : str := hex4_of (n / 65536) ++ hex4_of (n mod 65536).

(** [repr(s)] of a [str]. *)
Definition repr_char `{Unicode} (q c : Z) : str :=
  if (c =? q) || (c =? 92) then [92; c]
  else if c =? 9 then [92; 116]
  else if c =? 10 then [92; 110]
  else if c =? 13 then [92; 114]
  else if (c <? 32) || (c =? 127) then [92; 120] ++ hex_byte c
  else if c <? 127 then [c]
  else if uni_printable c then [c]
  else if c <? 256 then [92; 120] ++ hex_byte c
  else if c <? 65536 then [92; 117] ++ hex4_of c
  else [92; 85] ++ hex8_of c.

Definition repr_str `{Unicode} (s : str) : str :=
  let q := if contains s [39] && negb (contains s [34]) then 34 else 39 in
  [q] ++ concat (map (repr_char q) s) ++ [q].

(** A database that knows no character beyond ASCII, for evaluation. *)
Definition ascii_only : Unicode :=
  {| uni_lower := fun c => [c]; uni_upper := fun c => [c]; uni_printable := fun _ => false;
     uni_decimal := fun _ => None |}.

(** ** [int(s)] and [int(b, 16)] *)

(** Digits of a base with single underscores between them; [prev] tells that
    the character before was a digit. *)
Fixpoint int_digits (val : Z -> option Z) (base acc : Z) (prev : bool) (s : str) : option Z :=
  match s with
  | [] => if prev then Some acc else None
  | c :: s' =>
      if c =? 95 then if prev then int_digits val base acc false s' else None
      else match val c with
           | Some d => int_digits val base (acc * base + d) true s'
           | None => None
           end
  end.

Definition int_signed (digits : str -> option Z) (s : str) : option Z :=
  match s with
  | 43 :: s' => digits s'
  | 45 :: s' => Z.opp <$> digits s'
  | _ => digits s
  end.

Definition dec_val `{Unicode} (c : Z) : option Z :=
  if is_digit c then Some (c - 48) else if c <? 128 then None else uni_decimal c.

(** [int(s)] of a [str]; [None] is the [ValueError]. *)
Definition int_of_str `{Unicode} (s : str) : option Z :=
  int_signed (int_digits dec_val 10 0 false) (strip s).

Definition hex_val_any (c : Z) : option Z := hex_val (lower_char c).

(** The [0x] prefix, which one underscore may follow. *)
Definition hex_prefix (s : str) : str :=
  match s with
  | 48 :: x :: s' =>
      if (x =? 120) || (x =? 88) then match s' with 95 :: s'' => s'' | _ => s' end else s
  | _ => s
  end.

Definition is_ascii_space (c : Z) : bool := ((9 <=? c) && (c <=? 13)) || (c =? 32).

(** [int(b, 16)] of a [bytes]; [None] is the [ValueError]. *)
Definition int16_of_bytes (b : bytes) : option Z :=
  int_signed (fun s => int_digits hex_val_any 16 0 false (hex_prefix s))
    (rstrip_with is_ascii_space (lstrip_with is_ascii_space b)).

(** ** [s.split(sep)] and [s.split(sep, n)]: [n] is [None] for no limit *)

Fixpoint split_go (fuel : nat) (sep s : str) (limit : option nat) : list str :=
  match fuel with
  | O => [s]
  | S fuel' =>
      match limit with
      | Some O => [s]
      | _ =>
          match find s sep with
          | None => [s]
          | Some i =>
              take i s :: split_go fuel' sep (drop (i + length sep) s)
                (match limit with Some (S n) => Some n | _ => limit end)
          end
      end
  end.

(** Every cut takes at least the separator, so the length is fuel enough. *)
Definition split (s sep : str) (limit : option nat) : list str :=
  split_go (S (length s)) sep s limit.

(** ** [b.decode("utf-8", errors="replace")]

    Each longest prefix of a character that cannot be completed becomes one
    U+FFFD, as does each byte that starts no character. *)

Definition second_ok (x y : Z) : bool :=
  is_cont y
  && (if x =? 224 then 160 <=? y else true) && (if x =? 237 then y <=? 159 else true)
  && (if x =? 240 then 144 <=? y else true) && (if x =? 244 then y <=? 143 else true).

Fixpoint utf8_replace (b : bytes) : str :=
  match b with
  | [] => []
  | x :: r =>
      if x <? 128 then x :: utf8_replace r
      else if (194 <=? x) && (x <=? 223) then
        match r with
        | y :: r' => if is_cont y then (x - 192) * 64 + (y - 128) :: utf8_replace r'
                     else 65533 :: utf8_replace r
        | [] => [65533]
        end
      else if (224 <=? x) && (x <=? 239) then
        match r with
        | y :: r' =>
            if second_ok x y then
              match r' with
              | z :: r'' =>
                  if is_cont z
                  then (x - 224) * 4096 + (y - 128) * 64 + (z - 128) :: utf8_replace r''
                  else 65533 :: utf8_replace r'
              | [] => [65533]
              end
            else 65533 :: utf8_replace r
        | [] => [65533]
        end
      else if (240 <=? x) && (x <=? 244) then
        match r with
        | y :: r' =>
            if second_ok x y then
              match r' with
              | z :: r'' =>
                  if is_cont z then
                    match r'' with
                    | t :: r3 =>
                        if is_cont t
                        then (x - 240) * 262144 + (y - 128) * 4096 + (z - 128) * 64 + (t - 128)
                               :: utf8_replace r3
                        else 65533 :: utf8_replace r''
                    | [] => [65533]
                    end
                  else 65533 :: utf8_replace r'
              | [] => [65533]
              end
            else 65533 :: utf8_replace r
        | [] => [65533]
        end
      else 65533 :: utf8_replace r
  end.

Definition is_ascii (s : str) : Prop := Forall (fun c => 0 <= c < 128) s.

Lemma utf8_replace_ascii s : is_ascii s -> utf8_replace s = s.
Proof.
  induction 1 as [|c s Hc _ IH]; [done|]. simpl. rewrite (proj2 (Z.ltb_lt _ _)) by lia. by rewrite IH.
Qed.

(** ** Searching and splitting at a separator that starts with [c] *)

Lemma find_absent_char c sep s : c ∉ s -> find s (c :: sep) = None.
Proof.
  induction s as [|d s IH]; simpl; [done|]. intros [Hne Hin]%not_elem_of_cons.
  rewrite (proj2 (Z.eqb_neq _ _)) by done. simpl. by rewrite IH.
Qed.

Lemma startswith_app p t : startswith (p ++ t) p = true.
Proof. apply startswith_spec. by exists t. Qed.

Lemma find_here s p : startswith s p = true -> find s p = Some O.
Proof. destruct s; simpl; by intros ->. Qed.

(** The text before the separator holds no [c]: the first occurrence is there. *)
Lemma find_app_char c sep s t : c ∉ s -> find (s ++ (c :: sep) ++ t) (c :: sep) = Some (length s).
Proof.
  induction s as [|d s IH]; intros Hin.
  - apply find_here, (startswith_app (c :: sep) t).
  - apply not_elem_of_cons in Hin as [Hne Hin].
    change ((d :: s) ++ (c :: sep) ++ t) with (d :: (s ++ (c :: sep) ++ t)).
    cbn [find startswith length].
    rewrite (proj2 (Z.eqb_neq _ _)) by done. cbn [andb]. by rewrite IH.
Qed.

Lemma split_go_join c sep l x fuel :
  (length l < fuel)%nat -> Forall (fun s => c ∉ s) (x :: l) ->
  split_go fuel (c :: sep) (join (c :: sep) (x :: l)) None = x :: l.
Proof.
  revert x fuel. induction l as [|y l IH]; intros x fuel Hf Hall.
  - apply Forall_cons in Hall as [Hx _]. destruct fuel as [|fuel]; [simpl in Hf; lia|].
    cbn [split_go join]. by rewrite find_absent_char.
  - destruct fuel as [|fuel]; [simpl in Hf; lia|]. apply Forall_cons in Hall as [Hx Hl].
    change (join (c :: sep) (x :: y :: l)) with (x ++ (c :: sep) ++ join (c :: sep) (y :: l)).
    cbn [split_go]. rewrite find_app_char by done. f_equal.
    + by rewrite take_app_length.
    + rewrite <- drop_drop, drop_app_length, drop_app_length. apply IH; [simpl in Hf; lia|done].
Qed.

Lemma length_join_count c sep l : (length l <= S (length (join (c :: sep) l)))%nat.
Proof.
  induction l as [|x l IH]; [simpl; lia|]. destruct l as [|y l]; [simpl; lia|].
  change (join (c :: sep) (x :: y :: l)) with (x ++ (c :: sep) ++ join (c :: sep) (y :: l)).
  rewrite !length_app. simpl in *. lia.
Qed.

(** Splitting inverts joining. *)
Lemma split_join c sep l x :
  Forall (fun s => c ∉ s) (x :: l) -> split (join (c :: sep) (x :: l)) (c :: sep) None = x :: l.
Proof.
  intros Hall. unfold split. apply split_go_join; [|done].
  pose proof (length_join_count c sep (x :: l)). simpl in *. lia.
Qed.

(** ** [base64.b64decode(s)]

    Not strict: characters outside the alphabet are skipped, and a complete
    padding ends the text.  [None] is the [ValueError] or [binascii.Error]. *)

Definition b64_val (c : Z) : option Z :=
  if is_upper c then Some (c - 65)
  else if is_lower c then Some (c - 71)
  else if is_digit c then Some (c + 4)
  else if c =? 43 then Some 62
  else if c =? 47 then Some 63
  else None.

(** [quad] characters of the current group were read, [left] holds the bits
    not yet written and [pads] counts the padding. *)
Fixpoint b64_go (s : str) (quad left pads : Z) : option bytes :=
  match s with
  | [] => if quad =? 0 then Some [] else None
  | c :: s' =>
      if c =? 61 then
        if quad >=? 2 then
          if quad + (pads + 1) >=? 4 then Some [] else b64_go s' quad left (pads + 1)
        else b64_go s' quad left pads
      else
        match b64_val c with
        | None => b64_go s' quad left pads
        | Some v =>
            if quad =? 0 then b64_go s' 1 v 0
            else if quad =? 1 then
              cons (left * 4 + v / 16) <$> b64_go s' 2 (v mod 16) 0
            else if quad =? 2 then
              cons (left * 16 + v / 4) <$> b64_go s' 3 (v mod 4) 0
            else cons (left * 64 + v) <$> b64_go s' 0 0 0
        end
  end.

Definition b64decode (s : str) : option bytes :=
  if forallb (fun c => c <? 128) s then b64_go s 0 0 0 else None.

Lemma b64_val_char d : 0 <= d < 64 -> b64_val (b64_char d) = Some d /\ b64_char d <> 61 /\ b64_char d < 128.
Proof.
  intros Hd. unfold b64_char, b64_val, is_upper, is_lower, is_digit.
  destruct (Z.ltb_spec d 26); [decide_Z; simpl; split_and!; try lia; f_equal; lia|].
  destruct (Z.ltb_spec d 52); [decide_Z; simpl; split_and!; try lia; f_equal; lia|].
  destruct (Z.ltb_spec d 62); [decide_Z; simpl; split_and!; try lia; f_equal; lia|].
  destruct (Z.eqb_spec d 62) as [->|]; [done|]. by replace d with 63 by lia.
Qed.

Lemma b64_go_char d s quad left pads :
  0 <= d < 64 ->
  b64_go (b64_char d :: s) quad left pads =
    if quad =? 0 then b64_go s 1 d 0
    else if quad =? 1 then cons (left * 4 + d / 16) <$> b64_go s 2 (d mod 16) 0
    else if quad =? 2 then cons (left * 16 + d / 4) <$> b64_go s 3 (d mod 4) 0
    else cons (left * 64 + d) <$> b64_go s 0 0 0.
Proof.
  intros Hd. destruct (b64_val_char d Hd) as (Hv & Hne & _). cbn [b64_go].
  by rewrite (proj2 (Z.eqb_neq _ _)), Hv.
Qed.

(** Lists by groups of three. *)
Lemma list_ind3 {A} (P : list A -> Prop) :
  P [] -> (forall x, P [x]) -> (forall x y, P [x; y]) ->
  (forall x y z l, P l -> P (x :: y :: z :: l)) -> forall l, P l.
Proof.
  intros H0 H1 H2 H3. fix IH 1. intros [|x [|y [|z l]]]; [apply H0|apply H1|apply H2|].
  apply H3, IH.
Qed.

Lemma b64_ascii b : Forall is_byte b -> forallb (fun c => c <? 128) (b64encode b) = true.
Proof.
  assert (Hc : forall d, 0 <= d < 64 -> (b64_char d <? 128) = true).
  { intros d Hd. apply Z.ltb_lt. by apply b64_val_char. }
  induction b as [|x|x y|x y z b IH] using list_ind3; intros Hb;
    repeat (apply Forall_cons in Hb as [? Hb]); unfold is_byte in *; cbn [b64encode forallb];
    rewrite ?Hc by dlia; auto.
Qed.

Lemma b64decode_encode b : Forall is_byte b -> b64decode (b64encode b) = Some b.
Proof.
  intros Hb. unfold b64decode. rewrite b64_ascii by done. revert Hb.
  induction b as [|x|x y|x y z b IH] using list_ind3; intros Hb;
    repeat (apply Forall_cons in Hb as [? Hb]); unfold is_byte in *; cbn [b64encode].
  - done.
  - rewrite !b64_go_char by dlia. simpl. do 2 f_equal. dlia.
  - rewrite !b64_go_char by dlia. simpl.
    replace (x / 4 * 4 + (x mod 4 * 16 + y / 16) / 16) with x by dlia.
    replace ((x mod 4 * 16 + y / 16) mod 16 * 16 + y mod 16 * 4 / 4) with y by dlia. done.
  - rewrite !b64_go_char by dlia. cbn [Z.eqb Pos.eqb]. rewrite IH by done. simpl.
    replace (x / 4 * 4 + (x mod 4 * 16 + y / 16) / 16) with x by dlia.
    replace ((x mod 4 * 16 + y / 16) mod 16 * 16 + (y mod 16 * 4 + z / 64) / 4) with y by dlia.
    replace ((y mod 16 * 4 + z / 64) mod 4 * 64 + z mod 64) with z by dlia. done.
Qed.

(** ** [int(str(n))] *)

Lemma dec_digit_or_minus n c : c ∈ dec n -> is_digit c = true \/ c = 45.
Proof.
  assert (Hn : forall m, 0 <= m -> c ∈ dec_nonneg m -> is_digit c = true).
  { intros m Hm Hin. destruct (dec_nonneg_spec m Hm) as (_ & Hall & _).
    rewrite Forall_forall in Hall. by apply Hall. }
  unfold dec. destruct (Z.ltb_spec n 0); [|intros ?; left; by eapply Hn].
  intros [->|Hin]%elem_of_cons; [by right|]. left. eapply Hn; [|done]. lia.
Qed.

Lemma dec_not_in n c : is_digit c = false -> c <> 45 -> c ∉ dec n.
Proof. intros Hd Hc Hin. apply dec_digit_or_minus in Hin as [?|?]; congruence. Qed.

Lemma strip_digits s : Forall (fun c => is_digit c = true) s -> strip s = s.
Proof.
  intros Hs. assert (Hsp : forall c, is_digit c = true -> is_space c = false).
  { intros c [H1%Z.leb_le H2%Z.leb_le]%andb_true_iff. unfold is_space.
    rewrite bool_decide_false by (rewrite !not_elem_of_cons; split_and!; try lia; apply not_elem_of_nil).
    by decide_Z. }
  assert (Hl : forall t, Forall (fun c => is_digit c = true) t -> lstrip_with is_space t = t).
  { intros t Ht. destruct Ht as [|c t Hc Ht]; [done|]. simpl. by rewrite Hsp. }
  unfold strip, rstrip_with. rewrite (Hl s Hs).
  assert (Hr : Forall (fun c => is_digit c = true) (rev s)) by (by apply Forall_rev).
  by rewrite (Hl _ Hr), rev_involutive.
Qed.

Lemma int_digits_val `{Unicode} s acc :
  Forall (fun c => is_digit c = true) s ->
  int_digits dec_val 10 acc true s = Some (foldl (fun a c => a * 10 + (c - 48)) acc s).
Proof.
  intros Hs. revert acc. induction Hs as [|c s Hc Hs IH]; intros acc; [done|]. simpl.
  assert (Hne : (c =? 95) = false).
  { apply andb_true_iff in Hc as [H1%Z.leb_le H2%Z.leb_le]. apply Z.eqb_neq. lia. }
  rewrite Hne. unfold dec_val at 1. by rewrite Hc, IH.
Qed.

Lemma int_of_str_dec `{Unicode} n : 0 <= n -> int_of_str (dec n) = Some n.
Proof.
  intros Hn. destruct (dec_nonneg_spec n Hn) as (Hv & Hall & c & s & Hd & _).
  unfold int_of_str, dec. rewrite (proj2 (Z.ltb_ge _ _)), strip_digits by done.
  rewrite Hd in *. apply Forall_cons in Hall as [Hc Hs].
  pose proof Hc as [H1%Z.leb_le H2%Z.leb_le]%andb_true_iff.
  assert (Hsg : int_signed (int_digits dec_val 10 0 false) (c :: s) =
    int_digits dec_val 10 0 false (c :: s)).
  { unfold int_signed. destruct c as [|p|p]; try done. repeat (destruct p; try done). }
  rewrite Hsg. simpl. rewrite (proj2 (Z.eqb_neq c 95)) by lia. unfold dec_val at 1. rewrite Hc.
  rewrite int_digits_val by done. f_equal. exact Hv.
Qed.
