(* ===== verification/Frame.v ===== *)
(** * Data-plane frames (src/common/frame.py)

    Wire layout: version (1 byte), type (1), payload length (2), sequence
    number (4), payload, authentication tag (16).  [pack_frame] and
    [unpack_frame] are total functions into [result]: every [raise] of the
    source is an [Err]. *)

From S2P Require Import Prelude Constants PyStr.

Module Frame.

(** ** Data *)

Definition PLAINTEXT_FRAME_TYPES : list Z :=
  [FRAME_PUNCH; FRAME_PUNCH_ACK; FRAME_KEEPALIVE; FRAME_CLOSE].

Record FrameHeader := mkFrameHeader {
  fh_version : Z;
  fh_type : Z;
  fh_payload_length : Z;
  fh_seq_num : Z;
}.

#[global] Instance FrameHeader_eq_dec : EqDecision FrameHeader.
Proof. solve_decision. Defined.

Definition total_size (h : FrameHeader) : Z :=
  FRAME_HEADER_SIZE + fh_payload_length h + GCM_TAG_SIZE.

(** ** Operations *)

(** [_HEADER.pack], the struct ["!BBHI"]. *)
Definition pack_header (version type payload_length seq_num : Z) : result bytes :=
  let? v := struct_pack 1 version in
  let? t := struct_pack 1 type in
  let? l := struct_pack 2 payload_length in
  let? s := struct_pack 4 seq_num in
  Ok (v ++ t ++ l ++ s).

Definition default_tag : bytes := replicate (Z.to_nat GCM_TAG_SIZE) 0.

Definition pack_frame (type : Z) (payload : bytes) (seq_num version : Z)
    (auth_tag : option bytes) : result bytes :=
  if MAX_FRAME_PAYLOAD <? zlen payload then raise CFrameTooLargeError []
  else if negb (version =? FRAME_VERSION) then raise CInvalidFrameVersionError []
  else
    let tag := match auth_tag with Some t => t | None => default_tag end in
    if negb (zlen tag =? GCM_TAG_SIZE) then raise CFrameError []
    else
      let? header :=
        pack_header version type (zlen payload) (Z.land seq_num 4294967295) in
      Ok (header ++ payload ++ tag).

(** [_HEADER.unpack_from(data, 0)] on a buffer of at least eight bytes. *)
Definition unpack_header (data : bytes) : FrameHeader :=
  {| fh_version := be_decode (slice 0 1 data);
     fh_type := be_decode (slice 1 2 data);
     fh_payload_length := be_decode (slice 2 4 data);
     fh_seq_num := be_decode (slice 4 8 data) |}.

Definition unpack_frame (data : bytes) : result (FrameHeader * bytes * bytes) :=
  if zlen data <? FRAME_HEADER_SIZE + GCM_TAG_SIZE then raise CFrameError []
  else
    let header := unpack_header data in
    if negb (fh_version header =? FRAME_VERSION)
    then raise CInvalidFrameVersionError []
    else if zlen data <? FRAME_HEADER_SIZE + fh_payload_length header + GCM_TAG_SIZE
    then raise CFrameError []
    else
      let start := Z.to_nat FRAME_HEADER_SIZE in
      let stop := (start + Z.to_nat (fh_payload_length header))%nat in
      let ciphertext := slice start stop data in
      let tag := slice stop (stop + Z.to_nat GCM_TAG_SIZE) data in
      Ok (header, ciphertext, tag).

Definition make_punch_frame (seq_num : Z) (payload : bytes) : result bytes :=
  pack_frame FRAME_PUNCH payload seq_num FRAME_VERSION None.
Definition make_punch_ack_frame (seq_num : Z) (payload : bytes) : result bytes :=
  pack_frame FRAME_PUNCH_ACK payload seq_num FRAME_VERSION None.
Definition make_keepalive_frame (seq_num : Z) : result bytes :=
  pack_frame FRAME_KEEPALIVE [] seq_num FRAME_VERSION None.
Definition make_close_frame (seq_num : Z) : result bytes :=
  pack_frame FRAME_CLOSE [] seq_num FRAME_VERSION None.

Definition frame_type_name (type : Z) : str :=
  if type =? FRAME_DATA then py "DATA"
  else if type =? FRAME_PUNCH then py "PUNCH"
  else if type =? FRAME_PUNCH_ACK then py "PUNCH_ACK"
  else if type =? FRAME_KEEPALIVE then py "KEEPALIVE"
  else if type =? FRAME_CLOSE then py "CLOSE"
  else if type =? FRAME_FORWARDED_STREAM then py "FORWARDED_STREAM"
  else py "UNKNOWN(0x" ++ hex02 type ++ py ")".

(** ** Lemmas *)

Lemma land_u32 s : Z.land s 4294967295 = s mod 2 ^ 32.
Proof. by rewrite <- (Z.land_ones s 32). Qed.

Lemma pack_header_ok v t l s :
  0 <= v < 256 -> 0 <= t < 256 -> 0 <= l < 65536 -> 0 <= s < 4294967296 ->
  pack_header v t l s =
    Ok (be_encode 1 v ++ be_encode 1 t ++ be_encode 2 l ++ be_encode 4 s).
Proof. intros. unfold pack_header. by rewrite !struct_pack_ok by done. Qed.

Lemma pack_header_Ok_inv v t l s w :
  pack_header v t l s = Ok w -> 0 <= t < 256.
Proof.
  unfold pack_header. intros H. inv_bind H. inv_bind H.
  unfold struct_pack in Ha0. by case_bool_decide.
Qed.

Lemma unpack_pack_header v t l s rest :
  0 <= v < 256 -> 0 <= t < 256 -> 0 <= l < 65536 -> 0 <= s < 4294967296 ->
  unpack_header ((be_encode 1 v ++ be_encode 1 t ++ be_encode 2 l ++ be_encode 4 s) ++ rest)
    = mkFrameHeader v t l s.
Proof.
  intros. unfold unpack_header. rewrite <- !app_assoc. f_equal.
  - rewrite slice_app_first by (by rewrite ?length_be_encode).
    by apply be_decode_encode_small.
  - rewrite (slice_app_mid (be_encode 1 v) (be_encode 1 t))
      by (by rewrite ?length_be_encode).
    by apply be_decode_encode_small.
  - rewrite (app_assoc (be_encode 1 v)).
    rewrite (slice_app_mid (be_encode 1 v ++ be_encode 1 t) (be_encode 2 l))
      by (by rewrite ?length_app, ?length_be_encode).
    by apply be_decode_encode_small.
  - rewrite (app_assoc (be_encode 1 v)), (app_assoc (be_encode 1 v ++ _)).
    rewrite (slice_app_mid ((be_encode 1 v ++ be_encode 1 t) ++ be_encode 2 l) (be_encode 4 s))
      by (by rewrite ?length_app, ?length_be_encode).
    by apply be_decode_encode_small.
Qed.

(** The exact domain of [pack_frame] and what it returns there. *)
Definition packable (type : Z) (payload : bytes) (version : Z) (tag : bytes) : Prop :=
  zlen payload <= MAX_FRAME_PAYLOAD /\ version = FRAME_VERSION
  /\ zlen tag = GCM_TAG_SIZE /\ 0 <= type < 256.

Definition tag_of (auth_tag : option bytes) : bytes :=
  match auth_tag with Some t => t | None => default_tag end.

Lemma pack_frame_ok type payload seq_num version auth_tag :
  packable type payload version (tag_of auth_tag) ->
  pack_frame type payload seq_num version auth_tag =
    Ok ((be_encode 1 version ++ be_encode 1 type ++ be_encode 2 (zlen payload)
         ++ be_encode 4 (seq_num mod 2 ^ 32)) ++ payload ++ tag_of auth_tag).
Proof.
  intros (Hlen & -> & Htag & Hty). unfold pack_frame. fold (tag_of auth_tag).
  unfold MAX_FRAME_PAYLOAD, FRAME_VERSION in *.
  assert (0 <= zlen payload) by (unfold zlen; lia).
  rewrite Htag. decide_Z. simpl negb.
  rewrite land_u32, pack_header_ok by dlia. done.
Qed.

Lemma pack_frame_packable type payload seq_num version auth_tag w :
  pack_frame type payload seq_num version auth_tag = Ok w ->
  packable type payload version (tag_of auth_tag).
Proof.
  unfold pack_frame, packable. fold (tag_of auth_tag).
  destruct (Z.ltb_spec MAX_FRAME_PAYLOAD (zlen payload)); [done|].
  destruct (Z.eqb_spec version FRAME_VERSION) as [->|]; simpl; [|done].
  destruct (Z.eqb_spec (zlen (tag_of auth_tag)) GCM_TAG_SIZE); simpl; [|done].
  intros Hw. inv_bind Hw. by apply pack_header_Ok_inv in Ha.
Qed.

(** ** Theorems *)

Lemma unpack_pack_frame type payload seq_num version auth_tag w extra :
  pack_frame type payload seq_num version auth_tag = Ok w ->
  unpack_frame (w ++ extra) =
    Ok (mkFrameHeader version type (zlen payload) (seq_num mod 2 ^ 32),
        payload, match auth_tag with Some t => t | None => default_tag end).
Proof.
  intros Hw. pose proof (pack_frame_packable _ _ _ _ _ _ Hw) as Hp.
  rewrite (pack_frame_ok _ _ _ _ _ Hp) in Hw. apply Ok_inj in Hw as <-.
  destruct Hp as (Hlen & -> & Htag & Hty). fold (tag_of auth_tag).
  unfold FRAME_VERSION, MAX_FRAME_PAYLOAD, GCM_TAG_SIZE in *.
  assert (0 <= zlen payload) by (unfold zlen; lia).
  unfold unpack_frame.
  match goal with |- context [(?h ++ payload ++ ?t) ++ extra] =>
    replace ((h ++ payload ++ t) ++ extra) with (h ++ payload ++ t ++ extra)
      by (by rewrite <- !app_assoc) end.
  rewrite unpack_pack_header by dlia. cbn [fh_version fh_payload_length].
  rewrite !zlen_app, !zlen_be_encode, Htag. unfold FRAME_VERSION, FRAME_HEADER_SIZE, GCM_TAG_SIZE.
  assert (0 <= zlen extra) by (unfold zlen; lia).
  decide_Z. simpl negb. cbv zeta. f_equal. f_equal; [f_equal|].
  - apply slice_app_mid; rewrite ?length_app, ?length_be_encode; unfold zlen; lia.
  - rewrite (app_assoc _ payload).
    apply slice_app_mid; rewrite ?length_app, ?length_be_encode; unfold zlen in *; lia.
Qed.

(** C14 A frame that [pack_frame] returns is read back by [unpack_frame],
    whatever bytes follow it in the buffer: same version, type and payload,
    the sequence number reduced modulo 2^32, and the given tag (sixteen zero
    bytes when none was given). *)
Theorem pack_unpack_roundtrip type payload seq_num version auth_tag w extra :
  pack_frame type payload seq_num version auth_tag = Ok w ->
  unpack_frame (w ++ extra) =
    Ok (mkFrameHeader version type (zlen payload) (seq_num mod 2 ^ 32),
        payload, match auth_tag with Some t => t | None => default_tag end).
Proof. apply unpack_pack_frame. Qed.

Lemma pack_unpack_roundtrip_witness :
  exists w,
    pack_frame FRAME_DATA [1; 2; 255] 4294967298 FRAME_VERSION None = Ok w
    /\ unpack_frame (w ++ [9]) =
         Ok (mkFrameHeader 1 1 3 2, [1; 2; 255], default_tag).
Proof.
  eexists. split; [vm_compute; reflexivity|].
  apply (pack_unpack_roundtrip FRAME_DATA [1; 2; 255] 4294967298 FRAME_VERSION None).
  vm_compute. reflexivity.
Defined.

(** A buffer that [unpack_frame] accepts, split at the declared length. *)
Lemma unpack_frame_split data h p t :
  Forall is_byte data -> unpack_frame data = Ok (h, p, t) ->
  exists v ty l s extra,
    data = (v ++ ty ++ l ++ s) ++ p ++ t ++ extra
    /\ length v = 1%nat /\ length ty = 1%nat /\ length l = 2%nat /\ length s = 4%nat
    /\ zlen t = GCM_TAG_SIZE /\ zlen p = fh_payload_length h
    /\ h = mkFrameHeader (be_decode v) (be_decode ty) (be_decode l) (be_decode s)
    /\ fh_version h = FRAME_VERSION.
Proof.
  intros Hb. unfold unpack_frame, FRAME_HEADER_SIZE, GCM_TAG_SIZE.
  destruct (Z.ltb_spec (zlen data) (8 + 16)) as [|Hmin]; [done|]. cbv zeta.
  remember (unpack_header data) as h0 eqn:Hh0.
  destruct (Z.eqb_spec (fh_version h0) FRAME_VERSION) as [Hv|]; [|done]. cbn [negb].
  destruct (Z.ltb_spec (zlen data) (8 + fh_payload_length h0 + 16)) as [|Hlen]; [done|].
  intros [= <- <- <-].
  assert (Hpl : 0 <= fh_payload_length h0).
  { subst h0. apply be_decode_bound. unfold slice. by apply Forall_take, Forall_drop. }
  remember (Z.to_nat (fh_payload_length h0)) as n eqn:Hn.
  exists (slice 0 1 data), (slice 1 2 data), (slice 2 4 data), (slice 4 8 data),
    (drop (8 + n + 16) data).
  unfold zlen, slice in *. change (Z.to_nat 8) with 8%nat. change (Z.to_nat 16) with 16%nat.
  rewrite !length_take, !length_drop. split_and!; try lia; try done.
  rewrite (take_drop_split 8 n 16 data) at 1. f_equal; [|repeat (f_equal; try lia)].
  destruct data as [|x0 [|x1 [|x2 [|x3 [|x4 [|x5 [|x6 [|x7 d]]]]]]]]; simpl in Hmin; try lia.
  done.
Qed.

(** Conversely, a datagram that [unpack_frame] accepts is, up to trailing
    bytes, exactly what [pack_frame] makes of the fields it returned: no two
    accepted datagrams with the same fields differ inside the frame. *)
Theorem unpack_pack_roundtrip data h p t :
  Forall is_byte data -> unpack_frame data = Ok (h, p, t) ->
  pack_frame (fh_type h) p (fh_seq_num h) (fh_version h) (Some t)
    = Ok (take (Z.to_nat (total_size h)) data).
Proof.
  intros Hb Hu. destruct (unpack_frame_split _ _ _ _ Hb Hu)
    as (v & ty & l & s & extra & Hd & Hlv & Hlt & Hll & Hls & Htag & Hp & Hh & Hv).
  subst data. rewrite !Forall_app in Hb. destruct Hb as ((Bv & Bty & Bl & Bs) & Bp & Bt & _).
  pose proof (be_decode_bound_len _ _ Bty Hlt). pose proof (be_decode_bound_len _ _ Bl Hll).
  pose proof (be_decode_bound_len _ _ Bs Hls).
  subst h. cbn [fh_version fh_type fh_payload_length fh_seq_num] in *.
  rewrite pack_frame_ok.
  2: { unfold packable, tag_of, MAX_FRAME_PAYLOAD, total_size in *. split_and!; lia. }
  f_equal. unfold tag_of. rewrite Z.mod_small by lia. rewrite Hp.
  rewrite <- Hlv at 1. rewrite <- Hlt at 1. rewrite <- Hll at 1. rewrite <- Hls at 1.
  rewrite !be_encode_decode by done.
  symmetry. rewrite (app_assoc p t), (app_assoc (v ++ _)). apply take_app_len.
  unfold total_size, FRAME_HEADER_SIZE, GCM_TAG_SIZE, zlen in *. cbn [fh_payload_length].
  rewrite !length_app. lia.
Qed.

Lemma unpack_pack_roundtrip_witness :
  let data := [1; 4; 0; 1; 0; 0; 1; 7; 42] ++ replicate 16 5 ++ [77] in
  unpack_frame data = Ok (mkFrameHeader 1 4 1 263, [42], replicate 16 5)
  /\ pack_frame 4 [42] 263 1 (Some (replicate 16 5)) = Ok (take 25 data).
Proof.
  cbv zeta. split; [vm_compute; reflexivity|].
  apply (unpack_pack_roundtrip _ (mkFrameHeader 1 4 1 263)).
  - apply (bool_decide_unpack _). vm_compute. exact I.
  - vm_compute. reflexivity.
Defined.

(** [pack_frame] returns a frame exactly on its documented domain (a
    payload that fits the two-byte length, version 1, a sixteen-byte tag and a
    one-byte type), and the frame is then 24 bytes longer than the payload. *)
Theorem pack_frame_domain type payload seq_num version auth_tag :
  (exists w, pack_frame type payload seq_num version auth_tag = Ok w
             /\ zlen w = FRAME_HEADER_SIZE + zlen payload + GCM_TAG_SIZE)
  <-> zlen payload <= MAX_FRAME_PAYLOAD /\ version = FRAME_VERSION
      /\ zlen (match auth_tag with Some t => t | None => default_tag end) = GCM_TAG_SIZE
      /\ 0 <= type < 256.
Proof.
  split.
  - intros (w & Hw & _). by apply pack_frame_packable in Hw.
  - intros Hp. eexists. split; [by apply pack_frame_ok|].
    destruct Hp as (_ & _ & Ht & _). fold (tag_of auth_tag) in Ht.
    rewrite !zlen_app, !zlen_be_encode, Ht. unfold FRAME_HEADER_SIZE, GCM_TAG_SIZE. lia.
Qed.

(** Whatever bytes arrive, [unpack_frame] either returns a frame or raises
    a [FrameError] (possibly its version subclass): nothing else escapes, so
    the [except FrameError] of the receivers is enough. *)
Theorem unpack_frame_errors data e :
  unpack_frame data = Err e -> is_FrameError e = true.
Proof. unfold unpack_frame, raise. intros H. repeat case_match; simplify_eq; done. Qed.

Lemma unpack_frame_errors_witness :
  unpack_frame (replicate 30 2) = Err (Exc CInvalidFrameVersionError [])
  /\ is_FrameError (Exc CInvalidFrameVersionError []) = true.
Proof.
  split; [vm_compute; reflexivity|].
  apply (unpack_frame_errors (replicate 30 2)). vm_compute. reflexivity.
Defined.

End Frame.
