(* ===== verification/Json.v ===== *)
(** * JSON: the part of Python's [json] module the message layer uses

    [dumps] is [json.dumps(_, separators=(",", ":"), ensure_ascii=False)] and
    [loads] is [json.loads] of a [str], the decoder of CPython's [_json]
    accelerator: white space, the strict string grammar with [\u] escapes
    and surrogate pairs, the number grammar, [NaN] and the infinities,
    duplicate keys (the last value wins, in the place of the first) and the
    trailing-data check.  A [float] is represented by a literal that denotes
    it.  The interpreter's recursion limit and the limit on the digits of an
    [int] literal are not modelled. *)

From S2P Require Import Prelude PyStr.

Inductive json :=
  | JNull
  | JBool (b : bool)
  | JInt (n : Z)
  | JFloat (lit : str)
  | JStr (s : str)
  | JList (l : list json)
  | JObj (d : list (str * json)).

(** The induction principle for the nested occurrences. *)
Section JsonInd.
Variable P : json -> Prop.
Hypothesis Hnull : P JNull.
Hypothesis Hbool : forall b, P (JBool b).
Hypothesis Hint : forall n, P (JInt n).
Hypothesis Hfloat : forall s, P (JFloat s).
Hypothesis Hstr : forall s, P (JStr s).
Hypothesis Hlist : forall l, Forall P l -> P (JList l).
Hypothesis Hobj : forall d, Forall (fun kv => P (snd kv)) d -> P (JObj d).

Fixpoint json_nested_ind (j : json) : P j :=
  match j with
  | JNull => Hnull
  | JBool b => Hbool b
  | JInt n => Hint n
  | JFloat s => Hfloat s
  | JStr s => Hstr s
  | JList l =>
      Hlist l ((fix go l : Forall P l :=
        match l with
        | [] => Forall_nil_2 P
        | j :: l => Forall_cons_2 P j l (json_nested_ind j) (go l)
        end) l)
  | JObj d =>
      Hobj d ((fix go d : Forall (fun kv => P (snd kv)) d :=
        match d with
        | [] => Forall_nil_2 _
        | (k, j) :: d =>
            Forall_cons_2 (fun kv => P (snd kv)) (k, j) d (json_nested_ind j) (go d)
        end) d)
  end.
End JsonInd.

(** Structural equality is decidable. *)
Fixpoint json_eq_dec (a b : json) {struct a} : {a = b} + {a <> b}.
Proof.
  assert (Hl : forall (l m : list json), {l = m} + {l <> m}).
  { fix IH 1. intros [|x l] [|y m]; [by left|by right|by right|].
    destruct (json_eq_dec x y) as [->|]; [|right; congruence].
    destruct (IH l m) as [->|]; [by left|right; congruence]. }
  assert (Ho : forall (d e : list (str * json)), {d = e} + {d <> e}).
  { fix IH 1. intros [|[k x] d] [|[k' y] e]; [by left|by right|by right|].
    destruct (json_eq_dec x y) as [->|]; [|right; congruence].
    destruct (decide (k = k')) as [->|]; [|right; congruence].
    destruct (IH d e) as [->|]; [by left|right; congruence]. }
  destruct a, b; try (by left); try (by right).
  - destruct (decide (b0 = b)); [left|right]; congruence.
  - destruct (decide (n = n0)); [left|right]; congruence.
  - destruct (decide (lit = lit0)); [left|right]; congruence.
  - destruct (decide (s = s0)); [left|right]; congruence.
  - destruct (Hl l l0); [left|right]; congruence.
  - destruct (Ho d d0); [left|right]; congruence.
Defined.
#[global] Instance json_EqDecision : EqDecision json := json_eq_dec.

(** ** Encoder *)

(** [ESCAPE_DCT] of [json.encoder]: two-character escapes, [\u00xx] for the
    other control characters. *)
Definition esc_char (c : Z) : str :=
  if c =? 34 then [92; 34]
  else if c =? 92 then [92; 92]
  else if c =? 10 then [92; 110]
  else if c =? 13 then [92; 114]
  else if c =? 9 then [92; 116]
  else if c =? 12 then [92; 102]
  else if c =? 8 then [92; 98]
  else if c <? 32 then [92; 117; 48; 48] ++ hex_byte c
  else [c].

Definition quote (s : str) : str := [34] ++ concat (map esc_char s) ++ [34].

Fixpoint dumps (j : json) : str :=
  match j with
  | JNull => py "null"
  | JBool true => py "true"
  | JBool false => py "false"
  | JInt n => dec n
  | JFloat lit => lit
  | JStr s => quote s
  | JList l => [91] ++ join [44] (map dumps l) ++ [93]
  | JObj d =>
      [123] ++ join [44] (map (fun kv => quote (fst kv) ++ [58] ++ dumps (snd kv)) d)
        ++ [125]
  end.

(** ** Decoder *)

Definition is_ws (c : Z) : bool := (c =? 32) || (c =? 9) || (c =? 10) || (c =? 13).
Definition skip_ws (s : str) : str := lstrip_with is_ws s.

(** [int(s, 16)] of four hexadecimal digits. *)
Definition hex4 (a b c d : Z) : option Z :=
  match hex_val a, hex_val b, hex_val c, hex_val d with
  | Some x, Some y, Some z, Some w => Some (((x * 16 + y) * 16 + z) * 16 + w)
  | _, _, _, _ => None
  end.

Definition is_high (c : Z) : bool := (55296 <=? c) && (c <=? 56319).
Definition is_low (c : Z) : bool := (56320 <=? c) && (c <=? 57343).

Definition simple_escape (e : Z) : option Z :=
  if e =? 34 then Some 34
  else if e =? 92 then Some 92
  else if e =? 47 then Some 47
  else if e =? 98 then Some 8
  else if e =? 102 then Some 12
  else if e =? 110 then Some 10
  else if e =? 114 then Some 13
  else if e =? 116 then Some 9
  else None.

Definition push (c : Z) (o : option (str * str)) : option (str * str) :=
  match o with Some (s, r) => Some (c :: s, r) | None => None end.

(** [scanstring_unicode] (strict), after the opening quote: the string and
    what follows the closing quote. *)
Fixpoint parse_string (s : str) : option (str * str) :=
  match s with
  | [] => None
  | c :: s1 =>
      if c =? 34 then Some ([], s1)
      else if c =? 92 then
        match s1 with
        | [] => None
        | e :: s2 =>
            if e =? 117 then
              match s2 with
              | a :: b :: c' :: d :: s3 =>
                  match hex4 a b c' d with
                  | None => None
                  | Some u =>
                      if is_high u then
                        match s3 with
                        | p :: q :: a2 :: b2 :: c2 :: d2 :: s4 =>
                            if (p =? 92) && (q =? 117) then
                              match hex4 a2 b2 c2 d2 with
                              | Some u2 =>
                                  if is_low u2 then
                                    push (65536 + (u - 55296) * 1024 + (u2 - 56320))
                                         (parse_string s4)
                                  else push u (parse_string s3)
                              | None => push u (parse_string s3)
                              end
                            else push u (parse_string s3)
                        | _ => push u (parse_string s3)
                        end
                      else push u (parse_string s3)
                  end
              | _ => None
              end
            else
              match simple_escape e with
              | Some c' => push c' (parse_string s2)
              | None => None
              end
        end
      else if c <? 32 then None
      else push c (parse_string s1)
  end.

(** The longest prefix of characters that satisfy [p], and the rest. *)
Fixpoint span (p : Z -> bool) (s : str) : str * str :=
  match s with
  | [] => ([], [])
  | c :: s' => if p c then let (a, b) := span p s' in (c :: a, b) else ([], s)
  end.

(** [0 | [1-9][0-9]*]. *)
Definition scan_int (s : str) : option (str * str) :=
  match s with
  | c :: s' =>
      if c =? 48 then Some ([48], s')
      else if is_digit c then Some (span is_digit s)
      else None
  | [] => None
  end.

(** [(\.[0-9]+)?]. *)
Definition scan_frac (s : str) : str * str :=
  match s with
  | c :: s' =>
      if c =? 46 then
        match span is_digit s' with
        | ([], _) => ([], s)
        | (ds, r) => (c :: ds, r)
        end
      else ([], s)
  | [] => ([], s)
  end.

Definition scan_sign (s : str) : str * str :=
  match s with
  | c :: s' => if (c =? 43) || (c =? 45) then ([c], s') else ([], s)
  | [] => ([], s)
  end.

(** [([eE][-+]?[0-9]+)?]. *)
Definition scan_exp (s : str) : str * str :=
  match s with
  | c :: s' =>
      if (c =? 101) || (c =? 69) then
        let (sg, s2) := scan_sign s' in
        match span is_digit s2 with
        | ([], _) => ([], s)
        | (ds, r) => (c :: sg ++ ds, r)
        end
      else ([], s)
  | [] => ([], s)
  end.

(** [_match_number_unicode], after the optional sign [sg]. *)
Definition scan_unsigned (sg s1 : str) : option (json * str) :=
  match scan_int s1 with
  | None => None
  | Some (ip, s2) =>
      let (fr, s3) := scan_frac s2 in
      let (ex, s4) := scan_exp s3 in
      match fr, ex with
      | [], [] =>
          Some (JInt (match sg with [] => digits_val ip | _ => - digits_val ip end), s4)
      | _, _ => Some (JFloat (sg ++ ip ++ fr ++ ex), s4)
      end
  end.

Definition scan_number (s : str) : option (json * str) :=
  match s with
  | c :: s' => if c =? 45 then scan_unsigned [45] s' else scan_unsigned [] s
  | [] => None
  end.

(** A literal word at the head of the input. *)
Definition word (w : str) (j : json) (s : str) (k : option (json * str)) :=
  if startswith s w then Some (j, drop (length w) s) else k.

(** What is not a string, an object or an array. *)
Definition scan_atom (s : str) : option (json * str) :=
  word (py "null") JNull s
  (word (py "true") (JBool true) s
  (word (py "false") (JBool false) s
  (word (py "NaN") (JFloat (py "NaN")) s
  (word (py "Infinity") (JFloat (py "Infinity")) s
  (word (py "-Infinity") (JFloat (py "-Infinity")) s
  (scan_number s)))))).

(** [scan_once] with [_parse_array] and [_parse_object].  The recursion is
    bounded by fuel; [loads] gives enough of it for every input
    ([parse_value_fuel]). *)
Fixpoint parse_value (fuel : nat) (s : str) {struct fuel} : option (json * str) :=
  match fuel with
  | O => None
  | S f =>
      match s with
      | [] => None
      | c :: s1 =>
          if c =? 34 then
            match parse_string s1 with
            | Some (t, r) => Some (JStr t, r)
            | None => None
            end
          else if c =? 123 then
            match skip_ws s1 with
            | d :: r => if d =? 125 then Some (JObj [], r)
                        else parse_members f [] (d :: r)
            | [] => None
            end
          else if c =? 91 then
            match skip_ws s1 with
            | d :: r => if d =? 93 then Some (JList [], r)
                        else parse_elems f [] (d :: r)
            | [] => None
            end
          else scan_atom s
      end
  end
with parse_elems (fuel : nat) (acc : list json) (s : str) {struct fuel}
    : option (json * str) :=
  match fuel with
  | O => None
  | S f =>
      match parse_value f s with
      | None => None
      | Some (v, s1) =>
          match skip_ws s1 with
          | d :: r =>
              if d =? 93 then Some (JList (acc ++ [v]), r)
              else if d =? 44 then parse_elems f (acc ++ [v]) (skip_ws r)
              else None
          | [] => None
          end
      end
  end
with parse_members (fuel : nat) (acc : list (str * json)) (s : str) {struct fuel}
    : option (json * str) :=
  match fuel with
  | O => None
  | S f =>
      match s with
      | q :: s1 =>
          if q =? 34 then
            match parse_string s1 with
            | None => None
            | Some (k, s2) =>
                match skip_ws s2 with
                | e :: s3 =>
                    if e =? 58 then
                      match parse_value f (skip_ws s3) with
                      | None => None
                      | Some (v, s4) =>
                          match skip_ws s4 with
                          | d :: r =>
                              if d =? 125 then Some (JObj (dset acc k v), r)
                              else if d =? 44 then
                                parse_members f (dset acc k v) (skip_ws r)
                              else None
                          | [] => None
                          end
                      end
                    else None
                | [] => None
                end
            end
          else None
      | [] => None
      end
  end.

Definition loads (s : str) : option json :=
  match s with
  | c :: _ =>
      if c =? 65279 then None
      else
        match parse_value (2 * length s + 2) (skip_ws s) with
        | Some (j, r) => match skip_ws r with [] => Some j | _ => None end
        | None => None
        end
  | [] => None
  end.

(** ** The fuel of [loads] is enough *)

Lemma length_skip_ws s : (length (skip_ws s) <= length s)%nat.
Proof.
  unfold skip_ws. induction s as [|c s IH]; simpl; [lia|]. destruct (is_ws c); simpl; lia.
Qed.

Lemma push_Some c o t r : push c o = Some (t, r) -> exists t', o = Some (t', r) /\ t = c :: t'.
Proof. destruct o as [[t' r']|]; simpl; intros; simplify_eq; eauto. Qed.

Lemma parse_string_shorter s t r : parse_string s = Some (t, r) -> (length r < length s)%nat.
Proof.
  remember (length s) as n eqn:Hn. revert s t r Hn.
  induction (lt_wf n) as [n _ IH]. intros s t r -> H.
  assert (Hr : forall s' c t' r', (length s' < length s)%nat ->
    push c (parse_string s') = Some (t', r') -> (length r' < length s)%nat).
  { intros s' c t' r' Hl (t'' & Hp & _)%push_Some.
    eapply Nat.lt_trans; [eapply IH; [exact Hl|reflexivity|exact Hp]|exact Hl]. }
  destruct s as [|c s]; [done|]. cbn [parse_string] in H.
  repeat case_match; simplify_eq; try (simpl; lia);
    (eapply Hr in H; [exact H|simpl; lia]).
Qed.

Lemma span_app p s : fst (span p s) ++ snd (span p s) = s.
Proof.
  induction s as [|c s IH]; simpl; [done|]. destruct (p c); [|done].
  destruct (span p s) as [a b]; simpl in *. by rewrite IH.
Qed.

Lemma span_length p s a b : span p s = (a, b) -> (length a + length b = length s)%nat.
Proof. intros H. pose proof (span_app p s) as <-. by rewrite H, length_app. Qed.

Lemma scan_int_shorter s a r : scan_int s = Some (a, r) -> (length r < length s)%nat.
Proof.
  destruct s as [|c s]; [done|]. unfold scan_int. repeat case_match; intros; simplify_eq.
  - simpl; lia.
  - simpl in H1. case_match; simplify_eq. destruct (span is_digit s) as [x y] eqn:Hs.
    simplify_eq. apply span_length in Hs. simpl. lia.
Qed.

Lemma scan_frac_length s : (length (snd (scan_frac s)) <= length s)%nat.
Proof.
  destruct s as [|c s]; [done|]. simpl. case_match; [|done].
  destruct (span is_digit s) as [[|x a] b] eqn:Hs; [done|].
  apply span_length in Hs. simpl in *. lia.
Qed.

Lemma scan_exp_length s : (length (snd (scan_exp s)) <= length s)%nat.
Proof.
  destruct s as [|c s]; [done|]. simpl. case_match; [|done].
  assert (Hsg : (length (snd (scan_sign s)) <= length s)%nat).
  { destruct s as [|x s]; [done|]. simpl. case_match; simpl; lia. }
  destruct (scan_sign s) as [sg s2]. destruct (span is_digit s2) as [[|x a] b] eqn:Hs; [done|].
  apply span_length in Hs. simpl in *. lia.
Qed.

Lemma scan_unsigned_shorter sg s j r :
  scan_unsigned sg s = Some (j, r) -> (length r < length s)%nat.
Proof.
  unfold scan_unsigned. destruct (scan_int s) as [[ip s2]|] eqn:Hi; [|done].
  apply scan_int_shorter in Hi. pose proof (scan_frac_length s2).
  destruct (scan_frac s2) as [fr s3]. pose proof (scan_exp_length s3).
  destruct (scan_exp s3) as [ex s4]. simpl in *.
  repeat case_match; intros; simplify_eq; lia.
Qed.

Lemma scan_number_shorter s j r : scan_number s = Some (j, r) -> (length r < length s)%nat.
Proof.
  destruct s as [|c s]; [done|]. simpl. case_match; intros Hn%scan_unsigned_shorter; simpl in *; lia.
Qed.

Lemma scan_atom_shorter s j r : scan_atom s = Some (j, r) -> (length r < length s)%nat.
Proof.
  assert (Hw : forall w j' k, (0 < length w)%nat -> word w j' s k = Some (j, r) ->
    (length r < length s)%nat \/ k = Some (j, r)).
  { intros w j' k Hw. unfold word. destruct (startswith s w) eqn:Hs; [|by right].
    apply startswith_spec in Hs as [t ->]. intros [= _ <-]. left.
    rewrite drop_app_length, length_app. lia. }
  unfold scan_atom. intros H.
  repeat (apply Hw in H as [H|H]; [exact H| |simpl; lia]). by apply scan_number_shorter in H.
Qed.

(** Every successful parse consumes input. *)
Lemma parse_shorter fuel :
  (forall s j r, parse_value fuel s = Some (j, r) -> (length r < length s)%nat)
  /\ (forall acc s j r, parse_elems fuel acc s = Some (j, r) -> (length r < length s)%nat)
  /\ (forall acc s j r, parse_members fuel acc s = Some (j, r) -> (length r < length s)%nat).
Proof.
  induction fuel as [|f (IHv & IHe & IHm)]; [done|].
  assert (Hws : forall s c r, skip_ws s = c :: r -> (length r < length s)%nat).
  { intros s c r H. pose proof (length_skip_ws s) as Hl. rewrite H in Hl. simpl in Hl. lia. }
  split_and!.
  - intros [|c s] j r H; [done|]. cbn [parse_value] in H. cbn [length].
    repeat case_match; simplify_eq;
      repeat match goal with
      | H : parse_string _ = Some _ |- _ => apply parse_string_shorter in H
      | H : skip_ws _ = _ :: _ |- _ => apply Hws in H
      | H : parse_members _ _ _ = Some _ |- _ => apply IHm in H; simpl in H
      | H : parse_elems _ _ _ = Some _ |- _ => apply IHe in H; simpl in H
      | H : scan_atom _ = Some _ |- _ => apply scan_atom_shorter in H; simpl in H
      end; lia.
  - intros acc s j r H. cbn [parse_elems] in H.
    destruct (parse_value f s) as [[v s1]|] eqn:Hv; [|done]. apply IHv in Hv.
    destruct (skip_ws s1) as [|d r1] eqn:Hw; [done|]. apply Hws in Hw.
    repeat case_match; simplify_eq; [lia|]. apply IHe in H.
    pose proof (length_skip_ws r1). lia.
  - intros acc [|q s] j r H; [done|]. cbn [parse_members] in H. cbn [length].
    case_match; [|done]. destruct (parse_string s) as [[k s2]|] eqn:Hp; [|done].
    apply parse_string_shorter in Hp. destruct (skip_ws s2) as [|e s3] eqn:Hw; [done|].
    apply Hws in Hw. case_match; [|done].
    destruct (parse_value f (skip_ws s3)) as [[v s4]|] eqn:Hv; [|done]. apply IHv in Hv.
    pose proof (length_skip_ws s3). destruct (skip_ws s4) as [|d r1] eqn:Hw4; [done|].
    apply Hws in Hw4. repeat case_match; simplify_eq; [lia|]. apply IHm in H.
    pose proof (length_skip_ws r1). lia.
Qed.

(** From [2 * length s + 1] on, more fuel does not change the outcome. *)
Lemma parse_fuel fuel :
  (forall s f', (2 * length s + 1 <= fuel)%nat -> (fuel <= f')%nat ->
     parse_value fuel s = parse_value f' s)
  /\ (forall acc s f', (2 * length s + 2 <= fuel)%nat -> (fuel <= f')%nat ->
     parse_elems fuel acc s = parse_elems f' acc s)
  /\ (forall acc s f', (2 * length s + 2 <= fuel)%nat -> (fuel <= f')%nat ->
     parse_members fuel acc s = parse_members f' acc s).
Proof.
  induction fuel as [|f (IHv & IHe & IHm)]; [split_and!; intros; lia|].
  assert (Hws : forall s c r, skip_ws s = c :: r -> (length r < length s)%nat).
  { intros s c r H. pose proof (length_skip_ws s) as Hl. rewrite H in Hl. simpl in Hl. lia. }
  split_and!.
  - intros [|c s] [|f'] Hl Hf; [lia|done|lia|]. cbn [parse_value]. cbn [length] in Hl.
    repeat case_match; simplify_eq; try done;
      (match goal with H : skip_ws _ = _ :: _ |- _ => apply Hws in H end);
      [apply IHm|apply IHe]; simpl; lia.
  - intros acc s [|f'] Hl Hf; [lia|]. cbn [parse_elems].
    rewrite <- (IHv s f') by lia. destruct (parse_value f s) as [[v s1]|] eqn:Hv; [|done].
    apply parse_shorter in Hv. destruct (skip_ws s1) as [|d r1] eqn:Hw; [done|].
    apply Hws in Hw. pose proof (length_skip_ws r1). repeat case_match; try done. apply IHe; lia.
  - intros acc [|q s] [|f'] Hl Hf; [lia|done|lia|]. cbn [parse_members]. cbn [length] in Hl.
    case_match; [|done]. destruct (parse_string s) as [[k s2]|] eqn:Hp; [|done].
    apply parse_string_shorter in Hp. destruct (skip_ws s2) as [|e s3] eqn:Hw; [done|].
    apply Hws in Hw. case_match; [|done]. pose proof (length_skip_ws s3).
    rewrite <- (IHv (skip_ws s3) f') by lia.
    destruct (parse_value f (skip_ws s3)) as [[v s4]|] eqn:Hv; [|done].
    apply parse_shorter in Hv. destruct (skip_ws s4) as [|d r1] eqn:Hw4; [done|].
    apply Hws in Hw4. pose proof (length_skip_ws r1). repeat case_match; try done. apply IHm; lia.
Qed.

Lemma parse_value_fuel s fuel :
  (2 * length s + 2 <= fuel)%nat ->
  parse_value fuel (skip_ws s) = parse_value (2 * length s + 2) (skip_ws s).
Proof.
  intros. symmetry. pose proof (length_skip_ws s). apply parse_fuel; lia.
Qed.

(** ** Round trip *)

Definition str_ok (s : str) : bool := forallb (fun c => bool_decide (is_codepoint c)) s.

(** The literals that denote a [float]: what the number grammar reads back as
    a float, and the three words for the non-finite values. *)
Definition float_lit_ok (lit : str) : bool :=
  bool_decide (lit = py "NaN") || bool_decide (lit = py "Infinity")
  || bool_decide (lit = py "-Infinity")
  || bool_decide (scan_number lit = Some (JFloat lit, [])).

(** The values a Python program can pass to [dumps]: strings of code points,
    dictionaries without duplicate keys. *)
Fixpoint json_ok (j : json) : bool :=
  match j with
  | JNull | JBool _ | JInt _ => true
  | JFloat lit => str_ok lit && float_lit_ok lit
  | JStr s => str_ok s
  | JList l => forallb json_ok l
  | JObj d =>
      bool_decide (NoDup (map fst d))
      && forallb (fun kv => str_ok (fst kv) && json_ok (snd kv)) d
  end.

Lemma parse_string_esc_char c t :
  is_codepoint c -> parse_string (esc_char c ++ t) = push c (parse_string t).
Proof.
  unfold is_codepoint, esc_char. intros Hc.
  repeat match goal with
  | |- context [if c =? ?k then _ else _] =>
      destruct (Z.eqb_spec c k); [subst c; done|]
  end.
  destruct (Z.ltb_spec c 32).
  - cbn -[hex4 hex_char Z.div Z.modulo]. unfold hex4.
    replace (hex_val 48) with (Some 0) by done.
    rewrite !hex_val_char by dlia. cbv beta iota.
    replace (((0 * 16 + 0) * 16 + c / 16) * 16 + c mod 16) with c by dlia.
    unfold is_high. decide_Z. done.
  - cbn -[parse_string]. cbn. by decide_Z.
Qed.

Lemma parse_string_esc s rest :
  str_ok s = true ->
  parse_string (concat (map esc_char s) ++ 34 :: rest) = Some (s, rest).
Proof.
  induction s as [|c s IH]; [done|]. cbn [str_ok forallb map concat].
  intros [Hc%bool_decide_eq_true Hs]%andb_true_iff.
  by rewrite <- app_assoc, parse_string_esc_char, IH.
Qed.

(** What follows a number in a valid text is not part of it. *)
Definition num_char (c : Z) : bool :=
  is_digit c || (c =? 46) || (c =? 101) || (c =? 69) || (c =? 43) || (c =? 45).
Definition num_stop (rest : str) : bool :=
  match rest with [] => true | c :: _ => negb (num_char c) end.

Lemma num_stop_inv c rest :
  num_stop (c :: rest) = true ->
  is_digit c = false /\ (c =? 46) = false /\ ((c =? 101) || (c =? 69)) = false
  /\ ((c =? 43) || (c =? 45)) = false.
Proof.
  simpl. unfold num_char. intros H%negb_true_iff.
  repeat (apply orb_false_iff in H as [H ?]). split_and!; [done|done|..]; by apply orb_false_iff.
Qed.

Lemma span_ext s rest a b :
  num_stop rest = true -> span is_digit s = (a, b) -> span is_digit (s ++ rest) = (a, b ++ rest).
Proof.
  intros Hr. revert a b. induction s as [|c s IH]; intros a b; simpl.
  - intros [= <- <-]. destruct rest as [|c rest]; [done|].
    apply num_stop_inv in Hr as (Hd & _). simpl. by rewrite Hd.
  - destruct (is_digit c); [|by intros [= <- <-]].
    destruct (span is_digit s) as [x y]. intros [= <- <-]. by rewrite (IH x y).
Qed.

Lemma scan_int_ext s rest a b :
  num_stop rest = true -> scan_int s = Some (a, b) -> scan_int (s ++ rest) = Some (a, b ++ rest).
Proof.
  intros Hr. destruct s as [|c s]; [done|]. unfold scan_int. simpl app. cbv iota.
  case_match; [by intros [= <- <-]|]. destruct (is_digit c) eqn:Hc; [|done].
  intros [= H']. f_equal. by apply (span_ext (c :: s)).
Qed.

Lemma scan_frac_ext s rest a b :
  num_stop rest = true -> scan_frac s = (a, b) -> scan_frac (s ++ rest) = (a, b ++ rest).
Proof.
  intros Hr. destruct s as [|c s]; simpl.
  - intros [= <- <-]. destruct rest as [|c rest]; [done|].
    apply num_stop_inv in Hr as (_ & Hd & _). simpl. by rewrite Hd.
  - case_match; [|by intros [= <- <-]].
    destruct (span is_digit s) as [x y] eqn:Hs. rewrite (span_ext _ _ x y) by done.
    destruct x; by intros [= <- <-].
Qed.

Lemma scan_sign_ext s rest a b :
  num_stop rest = true -> scan_sign s = (a, b) -> scan_sign (s ++ rest) = (a, b ++ rest).
Proof.
  intros Hr. destruct s as [|c s]; simpl.
  - intros [= <- <-]. destruct rest as [|c rest]; [done|].
    apply num_stop_inv in Hr as (_ & _ & _ & Hd). simpl. by rewrite Hd.
  - case_match; by intros [= <- <-].
Qed.

Lemma scan_exp_ext s rest a b :
  num_stop rest = true -> scan_exp s = (a, b) -> scan_exp (s ++ rest) = (a, b ++ rest).
Proof.
  intros Hr. destruct s as [|c s]; simpl.
  - intros [= <- <-]. destruct rest as [|c rest]; [done|].
    apply num_stop_inv in Hr as (_ & _ & Hd & _). simpl. by rewrite Hd.
  - case_match; [|by intros [= <- <-]].
    destruct (scan_sign s) as [x y] eqn:Hs. rewrite (scan_sign_ext _ _ x y) by done.
    destruct (span is_digit y) as [u v] eqn:Hy. rewrite (span_ext _ _ u v) by done.
    destruct u; by intros [= <- <-].
Qed.

Lemma scan_number_ext s rest j r :
  num_stop rest = true -> scan_number s = Some (j, r) ->
  scan_number (s ++ rest) = Some (j, r ++ rest).
Proof.
  intros Hr.
  assert (Hu : forall sg s, scan_unsigned sg s = Some (j, r) ->
    scan_unsigned sg (s ++ rest) = Some (j, r ++ rest)).
  { intros sg t. unfold scan_unsigned. destruct (scan_int t) as [[ip s2]|] eqn:Hi; [|done].
    rewrite (scan_int_ext _ _ ip s2) by done. destruct (scan_frac s2) as [fr s3] eqn:Hf.
    rewrite (scan_frac_ext _ _ fr s3) by done. destruct (scan_exp s3) as [ex s4] eqn:He.
    rewrite (scan_exp_ext _ _ ex s4) by done. repeat case_match; by intros [= <- <-]. }
  destruct s as [|c s]; [done|]. simpl. case_match; intros H1; [by apply Hu|].
  by apply (Hu [] (c :: s)).
Qed.

Lemma span_all s : Forall (fun c => is_digit c = true) s -> span is_digit s = (s, []).
Proof. induction 1 as [|c s Hc _ IH]; simpl; [done|]. by rewrite Hc, IH. Qed.

Lemma scan_unsigned_dec sg n :
  0 <= n ->
  scan_unsigned sg (dec_nonneg n) = Some (JInt (match sg with [] => n | _ => - n end), []).
Proof.
  intros (Hv & Hall & c & s & Heq & H0)%dec_nonneg_spec.
  assert (Hi : scan_int (dec_nonneg n) = Some (dec_nonneg n, [])).
  { rewrite Heq. unfold scan_int. destruct (Z.eqb_spec c 48) as [Hc|Hc].
    - destruct (H0 Hc) as [_ ->]. by subst c.
    - rewrite Heq in Hall. rewrite span_all by done.
      apply Forall_cons in Hall as [-> _]. done. }
  unfold scan_unsigned. rewrite Hi. simpl. by rewrite Hv.
Qed.

Lemma scan_number_dec n : scan_number (dec n) = Some (JInt n, []).
Proof.
  unfold dec. destruct (Z.ltb_spec n 0).
  - simpl. rewrite scan_unsigned_dec by lia. f_equal. f_equal. f_equal. lia.
  - pose proof (scan_unsigned_dec [] n ltac:(lia)) as Hu.
    destruct (dec_nonneg_spec n ltac:(lia)) as (_ & Hall & c & s & Heq & _).
    rewrite Heq in *. simpl. apply Forall_cons in Hall as [Hc _]. unfold is_digit in Hc.
    destruct (Z.eqb_spec c 45) as [->|]; [done|exact Hu].
Qed.

Definition value_head (c : Z) : bool :=
  negb (is_ws c) && negb (c =? 93) && negb (c =? 125) && negb (c =? 65279).

Lemma scan_number_head s x :
  scan_number s = Some x -> exists c t, s = c :: t /\ (is_digit c = true \/ c = 45).
Proof.
  destruct s as [|c s]; [done|]. simpl. intros H. exists c, s. split; [done|].
  destruct (Z.eqb_spec c 45); [by right|]. unfold scan_unsigned, scan_int in H.
  destruct (Z.eqb_spec c 48) as [->|]; [by left|]. destruct (is_digit c); [by left|done].
Qed.

Lemma scan_atom_number s x : scan_number s = Some x -> scan_atom s = Some x.
Proof.
  intros H. unfold scan_atom, word.
  repeat match goal with
  | |- context [startswith s ?w] =>
      destruct (startswith s w) eqn:Hw;
        [apply startswith_spec in Hw as [t ->]; discriminate H|clear Hw]
  end. exact H.
Qed.

(** Values that are read by [scan_atom]. *)
Lemma scan_atom_dumps j rest :
  json_ok j = true -> num_stop rest = true ->
  match j with JStr _ | JList _ | JObj _ => False | _ => True end ->
  scan_atom (dumps j ++ rest) = Some (j, rest).
Proof.
  intros Hj Hr. destruct j as [| [] |n|lit| | |]; try done; intros _.
  - apply scan_atom_number. apply (scan_number_ext _ _ _ []); [done|apply scan_number_dec].
  - cbn [json_ok dumps] in *. apply andb_true_iff in Hj as [_ Hj]. unfold float_lit_ok in Hj.
    repeat (apply orb_true_iff in Hj as [Hj|Hj]); apply bool_decide_eq_true in Hj;
      [by subst|by subst|by subst|].
    apply scan_atom_number. by apply (scan_number_ext _ _ _ []).
Qed.

Lemma scan_atom_head s x :
  scan_atom s = Some x ->
  exists c t, s = c :: t /\ value_head c = true /\ (c =? 34) = false /\ (c =? 123) = false
    /\ (c =? 91) = false.
Proof.
  unfold scan_atom, word. intros H.
  repeat (case_match; [match goal with Hw : startswith _ _ = true |- _ =>
    apply startswith_spec in Hw as [t ->]; by eexists _, _ end|]).
  apply scan_number_head in H as (c & t & -> & Hd). destruct Hd as [Hc| ->]; [|by eexists _, _].
  exists c, t. unfold is_digit in Hc. apply andb_true_iff in Hc as [Hc1%Z.leb_le Hc2%Z.leb_le].
  unfold value_head, is_ws. split_and!; [done|..]; by decide_Z.
Qed.

Lemma dumps_head j :
  json_ok j = true -> exists c t, dumps j = c :: t /\ value_head c = true.
Proof.
  intros Hj. assert (match j with JStr _ | JList _ | JObj _ => True | _ =>
    scan_atom (dumps j ++ []) = Some (j, []) end) as Hs.
  { destruct j; try done; by apply scan_atom_dumps. }
  destruct j; try by eexists _, _.
  all: rewrite app_nil_r in Hs; apply scan_atom_head in Hs as (c & t & -> & ? & _); eauto.
Qed.

Lemma skip_ws_id c s : is_ws c = false -> skip_ws (c :: s) = c :: s.
Proof. unfold skip_ws. simpl. by intros ->. Qed.

Lemma value_head_ws c :
  value_head c = true ->
  is_ws c = false /\ (c =? 93) = false /\ (c =? 125) = false /\ (c =? 65279) = false.
Proof.
  unfold value_head. intros H.
  repeat (apply andb_true_iff in H as [H ?%negb_true_iff]). by apply negb_true_iff in H.
Qed.

(** The members of a list, between the brackets. *)
Lemma parse_elems_dumps l : forall acc fuel rest,
  Forall (fun j => json_ok j = true -> forall fuel rest,
    (2 * length (dumps j) < fuel)%nat -> num_stop rest = true ->
    parse_value fuel (dumps j ++ rest) = Some (j, rest)) l ->
  forallb json_ok l = true -> l <> [] ->
  (2 * length (join [44%Z] (map dumps l)) + 1 < fuel)%nat ->
  parse_elems fuel acc (join [44] (map dumps l) ++ 93 :: rest) = Some (JList (acc ++ l), rest).
Proof.
  induction l as [|j l IH]; intros acc fuel rest Hall Hok Hne Hf; [done|].
  apply Forall_cons in Hall as [Hj Hall]. cbn [forallb] in Hok.
  apply andb_true_iff in Hok as [Hokj Hokl]. destruct fuel as [|f]; [lia|].
  destruct l as [|j' l].
  - cbn [map join] in *. cbn [parse_elems]. rewrite Hj; [|done|lia|done].
    rewrite skip_ws_id by done. done.
  - assert (Hsplit : join [44] (map dumps (j :: j' :: l)) =
        dumps j ++ 44 :: join [44] (map dumps (j' :: l))) by done.
    rewrite Hsplit in *. rewrite length_app in Hf. cbn [length] in Hf.
    rewrite <- app_assoc, <- app_comm_cons. cbn [parse_elems].
    rewrite Hj; [|done|lia|done]. rewrite skip_ws_id by done. simpl (_ =? _). cbv iota.
    assert (Hh : exists c t, join [44] (map dumps (j' :: l)) = c :: t /\ is_ws c = false).
    { cbn [forallb] in Hokl. apply andb_true_iff in Hokl as [(c & t & Heq & Hc)%dumps_head _].
      apply value_head_ws in Hc as [Hc _].
      destruct l; cbn [map join]; rewrite Heq; simpl; eauto. }
    destruct Hh as (c & t & Heq & Hc).
    replace (skip_ws (join [44] (map dumps (j' :: l)) ++ 93 :: rest))
      with (join [44] (map dumps (j' :: l)) ++ 93 :: rest)
      by (rewrite Heq; symmetry; by apply skip_ws_id).
    rewrite IH; [|done|done|done|lia]. by rewrite <- app_assoc.
Qed.

Definition member (kv : str * json) : str := quote (fst kv) ++ [58] ++ dumps (snd kv).

(** The members of an object, between the braces. *)
Lemma parse_members_dumps d : forall acc fuel rest,
  Forall (fun kv => json_ok (snd kv) = true -> forall fuel rest,
    (2 * length (dumps (snd kv)) < fuel)%nat -> num_stop rest = true ->
    parse_value fuel (dumps (snd kv) ++ rest) = Some (snd kv, rest)) d ->
  forallb (fun kv => str_ok (fst kv) && json_ok (snd kv)) d = true ->
  NoDup (map fst (acc ++ d)) -> d <> [] ->
  (2 * length (join [44%Z] (map member d)) + 1 < fuel)%nat ->
  parse_members fuel acc (join [44] (map member d) ++ 125 :: rest) = Some (JObj (acc ++ d), rest).
Proof.
  induction d as [|[k v] d IH]; intros acc fuel rest Hall Hok Hnd Hne Hf; [done|].
  apply Forall_cons in Hall as [Hv Hall]. cbn [forallb fst snd] in *.
  apply andb_true_iff in Hok as [[Hk Hokv]%andb_true_iff Hokd]. destruct fuel as [|f]; [lia|].
  assert (Hset : dset acc k v = acc ++ [(k, v)]).
  { apply dset_new, not_elem_of_dkeys. rewrite map_app in Hnd.
    apply NoDup_app in Hnd as (_ & Hx & _). intros Hin. apply (Hx k Hin). simpl. left. }
  assert (Hhd : exists c t, dumps v = c :: t /\ is_ws c = false).
  { apply dumps_head in Hokv as (c & t & Heq & Hc). apply value_head_ws in Hc as [Hc _]. eauto. }
  destruct Hhd as (c & t & Heq & Hc).
  assert (Hstep : forall tail, num_stop tail = true -> (2 * length (dumps v) < f)%nat ->
    parse_members (S f) acc (member (k, v) ++ tail) =
      match skip_ws tail with
      | d :: r => if d =? 125 then Some (JObj (dset acc k v), r)
                  else if d =? 44 then parse_members f (dset acc k v) (skip_ws r) else None
      | [] => None
      end).
  { intros tail Htail Hl. unfold member, quote. cbn [fst snd].
    rewrite <- !app_assoc. simpl app. cbn [parse_members]. simpl (34 =? 34). cbv iota.
    rewrite parse_string_esc by done. rewrite skip_ws_id by done. simpl (58 =? 58). cbv iota.
    replace (skip_ws (dumps v ++ tail)) with (dumps v ++ tail)
      by (rewrite Heq; symmetry; by apply skip_ws_id).
    by rewrite Hv. }
  assert (Hlen : (length (member (k, v)) = length (quote k) + 1 + length (dumps v))%nat).
  { unfold member. rewrite !length_app. simpl. lia. }
  destruct d as [|kv' d].
  - cbn [map join] in *. rewrite Hstep, Hset by (done || lia). by rewrite skip_ws_id.
  - assert (Hsplit : join [44] (map member ((k, v) :: kv' :: d)) =
        member (k, v) ++ 44 :: join [44] (map member (kv' :: d))) by done.
    rewrite Hsplit in *. rewrite length_app in Hf. cbn [length] in Hf.
    rewrite <- app_assoc, <- app_comm_cons, Hstep, Hset by (done || lia).
    rewrite skip_ws_id by done. simpl (_ =? _). cbv iota.
    replace (skip_ws (join [44] (map member (kv' :: d)) ++ 125 :: rest))
      with (join [44] (map member (kv' :: d)) ++ 125 :: rest)
      by (symmetry; destruct d; by apply skip_ws_id).
    rewrite IH; [by rewrite <- app_assoc|done|done|by rewrite <- app_assoc|done|lia].
Qed.

Lemma parse_value_dumps j :
  json_ok j = true -> forall fuel rest,
    (2 * length (dumps j) < fuel)%nat -> num_stop rest = true ->
    parse_value fuel (dumps j ++ rest) = Some (j, rest).
Proof.
  assert (Hatom : forall j, match j with JStr _ | JList _ | JObj _ => False | _ => True end ->
    json_ok j = true -> forall fuel rest, (0 < fuel)%nat -> num_stop rest = true ->
    parse_value fuel (dumps j ++ rest) = Some (j, rest)).
  { intros j' Hk Hj fuel rest Hf Hr. pose proof (scan_atom_dumps j' rest Hj Hr Hk) as Hs.
    destruct (scan_atom_head _ _ Hs) as (c & t & Heq & _ & H34 & H123 & H91).
    destruct fuel as [|f]; [lia|]. rewrite Heq in *. cbn [parse_value].
    by rewrite H34, H123, H91. }
  induction j as [|b|n|lit|s|l IH|d IH] using json_nested_ind;
    intros Hj fuel rest Hf Hr; try (apply Hatom; done || lia).
  - destruct fuel as [|f]; [lia|]. cbn [dumps json_ok] in *. unfold quote.
    rewrite <- !app_assoc. simpl app. cbn [parse_value]. simpl (34 =? 34). cbv iota.
    by rewrite parse_string_esc.
  - destruct fuel as [|f]; [lia|]. cbn [dumps] in *. rewrite !length_app in Hf. simpl in Hf.
    destruct l as [|j l]; [by simpl|]. rewrite <- !app_assoc. simpl ([91] ++ _).
    cbn [parse_value]. simpl (_ =? _). cbv iota.
    assert (Hh : exists c t, join [44] (map dumps (j :: l)) = c :: t /\ value_head c = true).
    { cbn [json_ok forallb] in Hj. apply andb_true_iff in Hj as [(c & t & Heq & Hc)%dumps_head _].
      destruct l; cbn [map join]; rewrite Heq; simpl; eauto. }
    destruct Hh as (c & t & Heq & (Hc & H93 & _)%value_head_ws).
    rewrite Heq at 1. rewrite <- app_comm_cons, skip_ws_id, H93 by done.
    rewrite app_comm_cons, <- Heq. simpl ([93] ++ _).
    by rewrite (parse_elems_dumps _ []) by (done || lia).
  - destruct fuel as [|f]; [lia|]. cbn [dumps json_ok] in *. fold member in *.
    rewrite !length_app in Hf. simpl in Hf.
    apply andb_true_iff in Hj as [Hnd%bool_decide_eq_true Hj].
    destruct d as [|kv d]; [by simpl|]. rewrite <- !app_assoc. simpl ([123] ++ _).
    cbn [parse_value]. simpl (_ =? _). cbv iota.
    assert (Hh : exists t, join [44] (map member (kv :: d)) = 34 :: t).
    { destruct d; cbn [map join]; unfold member, quote; simpl; eauto. }
    destruct Hh as (t & Heq).
    change (map (fun kv => quote kv.1 ++ [58] ++ dumps kv.2)) with (map member) in *.
    rewrite Heq at 1. rewrite <- app_comm_cons, skip_ws_id by done. simpl (_ =? _). cbv iota.
    rewrite app_comm_cons, <- Heq. simpl ([125] ++ _).
    by rewrite (parse_members_dumps _ []) by (done || lia).
Qed.

(** What [dumps] writes, [loads] reads back. *)
Lemma loads_dumps j : json_ok j = true -> loads (dumps j) = Some j.
Proof.
  intros Hj. pose proof (dumps_head j Hj) as (c & t & Heq & Hc).
  pose proof (parse_value_dumps j Hj (2 * length (dumps j) + 2) [] ltac:(lia) eq_refl) as Hp.
  rewrite app_nil_r in Hp. unfold loads. rewrite Heq in *.
  apply value_head_ws in Hc as (Hws & _ & _ & Hbom). rewrite Hbom, skip_ws_id by done.
  by rewrite Hp.
Qed.

(** The text is a string of code points, so it can be encoded and decoded. *)
Lemma str_ok_app s t : str_ok (s ++ t) = str_ok s && str_ok t.
Proof. apply forallb_app. Qed.

Lemma str_ok_Forall s : str_ok s = true <-> Forall is_codepoint s.
Proof.
  unfold str_ok. rewrite forallb_forall, Forall_forall.
  by setoid_rewrite list_elem_of_In; setoid_rewrite bool_decide_eq_true.
Qed.

Lemma str_ok_join sep l :
  str_ok sep = true -> Forall (fun s => str_ok s = true) l -> str_ok (join sep l) = true.
Proof.
  intros Hs. induction 1 as [|x l Hx Hl IH]; [done|]. destruct l; [done|].
  change (join sep (x :: l :: l0)) with (x ++ sep ++ join sep (l :: l0)).
  by rewrite !str_ok_app, Hx, Hs, IH.
Qed.

Lemma str_ok_quote s : str_ok s = true -> str_ok (quote s) = true.
Proof.
  intros Hs. unfold quote. rewrite !str_ok_app. apply andb_true_iff. split; [done|].
  apply andb_true_iff. split; [|done]. apply str_ok_Forall in Hs. apply str_ok_Forall.
  apply Forall_concat, Forall_map. eapply Forall_impl; [exact Hs|].
  intros c Hc. unfold is_codepoint in *. unfold esc_char, hex_byte, hex_char.
  repeat case_match; rewrite ?Z.ltb_lt, ?Z.ltb_ge in *;
    repeat (apply Forall_cons; split; [unfold is_codepoint; dlia|]); constructor.
Qed.

Lemma str_ok_dec n : str_ok (dec n) = true.
Proof.
  assert (Hd : forall n, 0 <= n -> str_ok (dec_nonneg n) = true).
  { intros m (_ & Hall & _)%dec_nonneg_spec. apply str_ok_Forall.
    eapply Forall_impl; [exact Hall|]. intros c Hc. unfold is_digit in Hc. unfold is_codepoint.
    apply andb_true_iff in Hc as [?%Z.leb_le ?%Z.leb_le]. lia. }
  unfold dec. destruct (Z.ltb_spec n 0); [|by apply Hd].
  change (45 :: dec_nonneg (- n)) with ([45] ++ dec_nonneg (- n)).
  rewrite str_ok_app, Hd by lia. done.
Qed.

Lemma str_ok_dumps j : json_ok j = true -> str_ok (dumps j) = true.
Proof.
  induction j as [|[]|n|lit|s|l IH|d IH] using json_nested_ind; intros Hj; try done.
  - apply str_ok_dec.
  - cbn [json_ok dumps] in *. by apply andb_true_iff in Hj as [-> _].
  - by apply str_ok_quote.
  - cbn [json_ok dumps] in *. rewrite !str_ok_app, str_ok_join; [done|done|].
    rewrite forallb_forall in Hj. rewrite Forall_forall in IH. apply Forall_map, Forall_forall.
    intros x Hx. apply IH; [done|]. apply Hj. by apply list_elem_of_In.
  - cbn [json_ok dumps] in *. rewrite !str_ok_app, str_ok_join; [done|done|].
    apply andb_true_iff in Hj as [_ Hj].
    rewrite forallb_forall in Hj. rewrite Forall_forall in IH. apply Forall_map, Forall_forall.
    intros x Hx. specialize (Hj x). rewrite <- list_elem_of_In in Hj.
    destruct (proj1 (andb_true_iff _ _) (Hj Hx)) as [Hk Hv]. rewrite !str_ok_app.
    by rewrite str_ok_quote, IH.
Qed.
