(* ===== verification/Messages.v ===== *)
(** * Control-channel messages (src/common/messages.py)

    A message on the wire is a 4-byte big-endian length and the UTF-8 JSON
    body.  [serialize], [deserialize], [msg_size] and [parse_stream] are the
    functions of the source; the named dataclasses are lists of fields with
    their defaults, from which [make_message] builds a [Message] and
    [message_to_dataclass] reads one back. *)

From S2P Require Import Prelude Constants PyStr Json.

Module Messages.

Definition LENGTH_PREFIX_size : Z := 4.

(** [Message]: the [type] string and the payload dictionary. *)
Record Message := mkMessage { msg_type : str; msg_payload : list (str * json) }.

#[global] Instance Message_eq_dec : EqDecision Message.
Proof. solve_decision. Defined.

(** ** Serialization *)

Definition body_of (m : Message) : json :=
  JObj [(KEY_TYPE, JStr (msg_type m)); (KEY_PAYLOAD, JObj (msg_payload m))].

(** [json.dumps(body, ...).encode("utf-8")], the size check and the prefix. *)
Definition serialize_body (body : json) : result bytes :=
  let? data := encode (dumps body) in
  if zlen data >? MAX_MESSAGE_SIZE then
    raise CMessageTooLargeError
      (py "message payload of " ++ dec (zlen data) ++ py " bytes exceeds MAX_MESSAGE_SIZE")
  else
    let? prefix := struct_pack 4 (zlen data) in
    Ok (prefix ++ data).

Definition serialize (m : Message) : result bytes := serialize_body (body_of m).

(** [LENGTH_PREFIX.unpack_from(data)[0]] on at least four bytes. *)
Definition declared_length (data : bytes) : Z := be_decode (take 4 data).

Definition deserialize (data : bytes) : result Message :=
  if zlen data <? LENGTH_PREFIX_size then
    raise CValueError (py "message too short to contain a length prefix")
  else
    let len := declared_length data in
    if len >? MAX_MESSAGE_SIZE then
      raise CMessageTooLargeError
        (py "declared message length " ++ dec len ++ py " exceeds MAX_MESSAGE_SIZE")
    else if zlen data <? LENGTH_PREFIX_size + len then
      raise CValueError
        (py "incomplete message: declared " ++ dec len ++ py " bytes, got "
         ++ dec (zlen data - LENGTH_PREFIX_size))
    else
      match utf8_decode (slice 4 (Z.to_nat (LENGTH_PREFIX_size + len)) data) with
      | None => raise CUnicodeError []
      | Some text =>
          match loads text with
          | None => raise CJSONDecodeError []
          | Some (JObj body) =>
              match dget body KEY_TYPE with
              | Some (JStr type_str) =>
                  Ok (mkMessage type_str
                        (match dget body KEY_PAYLOAD with
                         | Some (JObj payload) => payload
                         | _ => []
                         end))
              | _ => raise CValueError (py "message missing a valid 'type' field")
              end
          | Some _ => raise CAttributeError []   (* no attribute 'get' *)
          end
      end.

Definition msg_size (serialized : bytes) : result Z :=
  if zlen serialized <? LENGTH_PREFIX_size then
    raise CValueError (py "buffer too short for a length prefix")
  else Ok (declared_length serialized).

Definition parse_stream (data : bytes) : result (option Message * bytes) :=
  if zlen data <? LENGTH_PREFIX_size then Ok (None, data)
  else
    let len := declared_length data in
    if len >? MAX_MESSAGE_SIZE then
      raise CMessageTooLargeError
        (py "declared message length " ++ dec len ++ py " too large")
    else
      let total := LENGTH_PREFIX_size + len in
      if zlen data <? total then Ok (None, data)
      else
        let? msg := deserialize (take (Z.to_nat total) data) in
        Ok (Some msg, drop (Z.to_nat total) data).

(** A reader that calls [parse_stream] until no full message is left.  Every
    message takes at least four bytes, so the length of the buffer is enough
    fuel. *)
Fixpoint parse_all (fuel : nat) (data : bytes) : result (list Message * bytes) :=
  match fuel with
  | O => Ok ([], data)
  | S f =>
      let? (m, rest) := parse_stream data in
      match m with
      | None => Ok ([], rest)
      | Some m => let? (ms, tail) := parse_all f rest in Ok (m :: ms, tail)
      end
  end.

(** ** Dataclasses

    A dataclass is the list of its fields with their default values; a field
    without a default is required.  An instance is the dictionary of its
    attributes, in field order. *)
Definition dataclass := list (str * option json).
Definition instance := list (str * json).

Definition RegisterMessage : dataclass :=
  [(py "type", Some (JStr MSG_REGISTER)); (py "client_id", Some (JStr (py "")));
   (py "public_key", Some (JStr (py ""))); (py "version", Some (JStr (py "")))].

Definition AuthChallenge : dataclass :=
  [(py "type", Some (JStr MSG_AUTH_CHALLENGE)); (py "challenge", Some (JStr (py "")));
   (py "client_id", Some (JStr (py "")))].

Definition AuthResponse : dataclass :=
  [(py "type", Some (JStr MSG_AUTH_RESPONSE)); (py "signature", Some (JStr (py "")));
   (py "challenge", Some (JStr (py "")))].

Definition AuthResult : dataclass :=
  [(py "type", Some (JStr MSG_AUTH_OK)); (py "ok", Some (JBool true));
   (py "message", Some (JStr (py ""))); (py "virtual_ip", Some (JNull))].

Definition CreateNetwork : dataclass :=
  [(py "type", Some (JStr MSG_CREATE_NETWORK)); (py "name", Some (JStr (py "")));
   (py "password", Some (JStr (py ""))); (py "topology", Some (JStr DEFAULT_TOPOLOGY))].

Definition NetworkCreated : dataclass :=
  [(py "type", Some (JStr MSG_NETWORK_CREATED)); (py "network_id", Some (JStr (py "")));
   (py "name", Some (JStr (py ""))); (py "owner_id", Some (JStr (py "")));
   (py "topology", Some (JStr (py ""))); (py "invite_code", Some (JStr (py "")))].

Definition JoinNetwork : dataclass :=
  [(py "type", Some (JStr MSG_JOIN_NETWORK)); (py "network_id", Some (JStr (py "")));
   (py "password", Some (JStr (py "")))].

Definition NetworkJoined : dataclass :=
  [(py "type", Some (JStr MSG_NETWORK_JOINED)); (py "network_id", Some (JStr (py "")));
   (py "name", Some (JStr (py ""))); (py "virtual_ip", Some (JNull))].

Definition LeaveNetwork : dataclass :=
  [(py "type", Some (JStr MSG_LEAVE_NETWORK)); (py "network_id", Some (JStr (py "")))].

Definition NetworkLeft : dataclass :=
  [(py "type", Some (JStr MSG_NETWORK_LEFT)); (py "network_id", Some (JStr (py "")))].

Definition ListNetworks : dataclass :=
  [(py "type", Some (JStr MSG_LIST_NETWORKS))].

Definition NetworkInfo : dataclass :=
  [(py "network_id", None); (py "name", None); (py "owner_id", None);
   (py "topology", None); (py "member_count", Some (JInt 0))].

Definition NetworkList : dataclass :=
  [(py "type", Some (JStr MSG_NETWORK_LIST)); (py "networks", Some (JList []))].

Definition NetworkPeers : dataclass :=
  [(py "type", Some (JStr MSG_NETWORK_PEERS)); (py "network_id", Some (JStr (py "")));
   (py "peers", Some (JList []))].

Definition PeerOnline : dataclass :=
  [(py "type", Some (JStr MSG_PEER_ONLINE)); (py "network_id", Some (JStr (py "")));
   (py "peer_id", Some (JStr (py ""))); (py "peer_ip", Some (JNull))].

Definition PeerOffline : dataclass :=
  [(py "type", Some (JStr MSG_PEER_OFFLINE)); (py "network_id", Some (JStr (py "")));
   (py "peer_id", Some (JStr (py "")))].

Definition RequestPeerConn : dataclass :=
  [(py "type", Some (JStr MSG_REQUEST_PEER_CONN)); (py "peer_id", Some (JStr (py "")))].

Definition PeerEndpoints : dataclass :=
  [(py "type", Some (JStr MSG_PEER_ENDPOINTS)); (py "peer_id", Some (JStr (py "")));
   (py "endpoints", Some (JList []))].

Definition RelayRequest : dataclass :=
  [(py "type", Some (JStr MSG_RELAY_REQUEST)); (py "peer_id", Some (JStr (py "")))].

Definition RelayGranted : dataclass :=
  [(py "type", Some (JStr MSG_RELAY_GRANTED)); (py "peer_id", Some (JStr (py "")));
   (py "path_id", Some (JStr (py "")))].

Definition RelayFrame : dataclass :=
  [(py "type", Some (JStr MSG_RELAY_FRAME)); (py "src_id", Some (JStr (py "")));
   (py "dst_id", Some (JStr (py ""))); (py "frame_b64", Some (JStr (py "")))].

Definition Heartbeat : dataclass :=
  [(py "type", Some (JStr MSG_HEARTBEAT)); (py "ts", Some (JFloat (py "0.0")))].

Definition HeartbeatAck : dataclass :=
  [(py "type", Some (JStr MSG_HEARTBEAT_ACK)); (py "ts", Some (JFloat (py "0.0")))].

Definition ErrorMessage : dataclass :=
  [(py "type", Some (JStr MSG_ERROR)); (py "code", Some (JStr (py "")));
   (py "message", Some (JStr (py "")))].

Definition ExposeService : dataclass :=
  [(py "type", Some (JStr MSG_EXPOSE_SERVICE)); (py "name", Some (JStr (py "")));
   (py "protocol", Some (JStr (py "tcp")));
   (py "local_host", Some (JStr (py "127.0.0.1"))); (py "local_port", Some (JInt 0))].

Definition ServiceExposed : dataclass :=
  [(py "type", Some (JStr MSG_SERVICE_EXPOSED)); (py "service_id", Some (JStr (py "")));
   (py "name", Some (JStr (py ""))); (py "protocol", Some (JStr (py "")));
   (py "local_port", Some (JInt 0))].

Definition UnexposeService : dataclass :=
  [(py "type", Some (JStr MSG_UNEXPOSE_SERVICE)); (py "service_id", Some (JStr (py "")))].

Definition ServiceUnexposed : dataclass :=
  [(py "type", Some (JStr MSG_SERVICE_UNEXPOSED)); (py "service_id", Some (JStr (py "")))].

Definition ServiceList : dataclass :=
  [(py "type", Some (JStr MSG_SERVICE_LIST)); (py "services", Some (JList []))].

Definition ServiceAdded : dataclass :=
  [(py "type", Some (JStr MSG_SERVICE_ADDED)); (py "service", Some (JObj []))].

Definition ServiceRemoved : dataclass :=
  [(py "type", Some (JStr MSG_SERVICE_REMOVED)); (py "service_id", Some (JStr (py "")))].

Definition MapService : dataclass :=
  [(py "type", Some (JStr MSG_MAP_SERVICE)); (py "service_id", Some (JStr (py "")));
   (py "local_port", Some (JNull)); (py "strategy", Some (JStr (py "auto")))].

Definition ServiceMapped : dataclass :=
  [(py "type", Some (JStr MSG_SERVICE_MAPPED)); (py "service_id", Some (JStr (py "")));
   (py "local_port", Some (JInt 0))].

Definition UnmapService : dataclass :=
  [(py "type", Some (JStr MSG_UNMAP_SERVICE)); (py "service_id", Some (JStr (py "")))].

Definition ServiceUnmapped : dataclass :=
  [(py "type", Some (JStr MSG_SERVICE_UNMAPPED)); (py "service_id", Some (JStr (py "")))].

Definition MESSAGE_TYPES : list (str * dataclass) :=
  [(MSG_REGISTER, RegisterMessage);
   (MSG_AUTH_CHALLENGE, AuthChallenge);
   (MSG_AUTH_RESPONSE, AuthResponse);
   (MSG_AUTH_OK, AuthResult);
   (MSG_AUTH_FAIL, AuthResult);
   (MSG_CREATE_NETWORK, CreateNetwork);
   (MSG_NETWORK_CREATED, NetworkCreated);
   (MSG_JOIN_NETWORK, JoinNetwork);
   (MSG_NETWORK_JOINED, NetworkJoined);
   (MSG_LEAVE_NETWORK, LeaveNetwork);
   (MSG_NETWORK_LEFT, NetworkLeft);
   (MSG_LIST_NETWORKS, ListNetworks);
   (MSG_NETWORK_LIST, NetworkList);
   (MSG_NETWORK_PEERS, NetworkPeers);
   (MSG_PEER_ONLINE, PeerOnline);
   (MSG_PEER_OFFLINE, PeerOffline);
   (MSG_REQUEST_PEER_CONN, RequestPeerConn);
   (MSG_PEER_ENDPOINTS, PeerEndpoints);
   (MSG_RELAY_REQUEST, RelayRequest);
   (MSG_RELAY_GRANTED, RelayGranted);
   (MSG_RELAY_FRAME, RelayFrame);
   (MSG_HEARTBEAT, Heartbeat);
   (MSG_HEARTBEAT_ACK, HeartbeatAck);
   (MSG_ERROR, ErrorMessage);
   (MSG_EXPOSE_SERVICE, ExposeService);
   (MSG_SERVICE_EXPOSED, ServiceExposed);
   (MSG_UNEXPOSE_SERVICE, UnexposeService);
   (MSG_SERVICE_UNEXPOSED, ServiceUnexposed);
   (MSG_SERVICE_LIST, ServiceList);
   (MSG_SERVICE_ADDED, ServiceAdded);
   (MSG_SERVICE_REMOVED, ServiceRemoved);
   (MSG_MAP_SERVICE, MapService);
   (MSG_SERVICE_MAPPED, ServiceMapped);
   (MSG_UNMAP_SERVICE, UnmapService);
   (MSG_SERVICE_UNMAPPED, ServiceUnmapped)].

(** [cls(\*\*kwargs)]: [TypeError] on an unknown keyword or a missing
    required field. *)
Fixpoint init_fields (cls : dataclass) (kwargs : instance) : result instance :=
  match cls with
  | [] => Ok []
  | (name, default) :: cls' =>
      match dget kwargs name, default with
      | Some v, _ | None, Some v =>
          let? rest := init_fields cls' kwargs in Ok ((name, v) :: rest)
      | None, None => raise CTypeError []
      end
  end.

Definition construct (cls : dataclass) (kwargs : instance) : result instance :=
  if forallb (fun kv => dmem cls (fst kv)) kwargs then init_fields cls kwargs
  else raise CTypeError [].

(** The payload of an instance: the attributes that are not [None]. *)
Definition is_none (j : json) : bool := match j with JNull => true | _ => false end.

Definition payload_from_dataclass (obj : instance) : list (str * json) :=
  dfilter (fun _ v => negb (is_none v)) obj.

(** The dataclass branch of [serialize]: [d.pop("type")] and the rest. *)
Definition serialize_dataclass (obj : instance) : result bytes :=
  let d := payload_from_dataclass obj in
  match dget d KEY_TYPE with
  | None => raise CKeyError (py "'type'")
  | Some t =>
      serialize_body (JObj [(KEY_TYPE, t); (KEY_PAYLOAD, JObj (ddel d KEY_TYPE))])
  end.

(** [getattr(cls, "type")] when [hasattr(cls, "type")]: the class attribute
    that holds the default. *)
Definition class_type (cls : dataclass) : option json :=
  match dget cls KEY_TYPE with Some (Some t) => Some t | _ => None end.

(** The keywords [make_message] passes on, [type] included. *)
Definition with_type (cls : dataclass) (ty : option str) (kwargs : instance) : instance :=
  match ty, class_type cls with
  | Some t, _ => dset kwargs KEY_TYPE (JStr t)
  | None, Some t => dset kwargs KEY_TYPE t
  | None, None => kwargs
  end.

(** [make_message(cls, \*\*kwargs)]; [ty] is the keyword [type] when it is
    given (a [str] in every call). *)
Definition make_message (cls : dataclass) (ty : option str) (kwargs : instance)
    : result Message :=
  let? obj := construct cls (with_type cls ty kwargs) in
  match dget obj KEY_TYPE with
  | Some (JStr t) => Ok (mkMessage t (payload_from_dataclass obj))
  | Some _ => raise CTypeError []      (* not reached: the type is a [str] *)
  | None => raise CAttributeError []
  end.

Definition message_to_dataclass (msg : Message) (mapping : list (str * dataclass))
    : option instance :=
  match dget mapping (msg_type msg) with
  | None => None
  | Some cls =>
      match construct cls (dfilter (fun k _ => dmem cls k) (msg_payload msg)) with
      | Ok obj => Some obj
      | Err _ => None
      end
  end.

(** ** Theorems *)

(** A message of Python strings and values. *)
Definition msg_ok (m : Message) : bool :=
  str_ok (msg_type m) && json_ok (JObj (msg_payload m)).

Lemma json_ok_body m : msg_ok m = true -> json_ok (body_of m) = true.
Proof.
  unfold msg_ok, body_of. intros [Ht Hp]%andb_true_iff. cbn [json_ok forallb map fst snd] in *.
  rewrite Ht, Hp. done.
Qed.

Lemma serialize_body_Ok body b :
  serialize_body body = Ok b ->
  exists data, utf8_encode (dumps body) = Some data /\ zlen data <= MAX_MESSAGE_SIZE
    /\ b = be_encode 4 (zlen data) ++ data.
Proof.
  unfold serialize_body, encode. destruct (utf8_encode (dumps body)) as [data|] eqn:Hu; [|done].
  simpl. destruct (zlen data >? MAX_MESSAGE_SIZE) eqn:Hs; [done|].
  rewrite Z.gtb_ltb in Hs. apply Z.ltb_ge in Hs. unfold MAX_MESSAGE_SIZE in Hs.
  rewrite struct_pack_ok by (unfold zlen in *; simpl Z.of_nat; lia). simpl.
  intros <-%Ok_inj. exists data. unfold MAX_MESSAGE_SIZE. split_and!; [done|lia|done].
Qed.

(** The prefix of a serialized message declares the length of its body. *)
Lemma declared_length_app (data rest : bytes) :
  zlen data <= MAX_MESSAGE_SIZE ->
  declared_length ((be_encode 4 (zlen data) ++ data) ++ rest) = zlen data.
Proof.
  intros Hl. unfold declared_length, MAX_MESSAGE_SIZE in *.
  rewrite <- app_assoc, take_app_length' by (by rewrite length_be_encode).
  apply be_decode_encode_small. unfold zlen in *. simpl Z.of_nat. lia.
Qed.

(** Bytes after the declared length are ignored by [deserialize]. *)
Lemma deserialize_app m b rest :
  msg_ok m = true -> serialize m = Ok b -> deserialize (b ++ rest) = Ok m.
Proof.
  intros Hm (data & Hu & Hs & ->)%serialize_body_Ok.
  pose proof (zlen_nonneg data) as H0. pose proof (zlen_nonneg rest) as H1.
  assert (Hz : zlen ((be_encode 4 (zlen data) ++ data) ++ rest) = 4 + zlen data + zlen rest).
  { rewrite !zlen_app, zlen_be_encode. lia. }
  unfold deserialize, LENGTH_PREFIX_size. rewrite declared_length_app, Hz by done.
  rewrite Z.gtb_ltb. decide_Z.
  rewrite <- app_assoc, slice_app_mid; [..|by rewrite length_be_encode|
    rewrite length_be_encode; unfold zlen in *; lia].
  pose proof (json_ok_body m Hm) as Hb.
  rewrite (utf8_roundtrip (dumps (body_of m)));
    [|by apply str_ok_Forall, str_ok_dumps|done].
  rewrite loads_dumps by done. destruct m as [t p]. reflexivity.
Qed.

(** [deserialize] inverts [serialize]: whatever message of Python strings
    and JSON values is accepted by [serialize] comes back unchanged. *)
Theorem serialize_roundtrip m b :
  msg_ok m = true -> serialize m = Ok b -> deserialize b = Ok m.
Proof. intros Hm Hs. rewrite <- (app_nil_r b). by apply deserialize_app. Qed.

Definition sample : Message :=
  mkMessage MSG_HEARTBEAT
    [(py "ts", JFloat (py "12.5")); (py "x", JStr [34; 233; 8364; 10; 128512]);
     (py "l", JList [JInt (-7); JNull; JBool true; JObj []])].

Lemma serialize_roundtrip_witness :
  exists b, serialize sample = Ok b /\ deserialize b = Ok sample.
Proof.
  eexists. split; [vm_compute; reflexivity|].
  apply serialize_roundtrip; vm_compute; reflexivity.
Defined.

Lemma parse_stream_app m b rest :
  msg_ok m = true -> serialize m = Ok b -> parse_stream (b ++ rest) = Ok (Some m, rest).
Proof.
  intros Hm Hs. pose proof (deserialize_app m b [] Hm Hs) as Hd. rewrite app_nil_r in Hd.
  apply serialize_body_Ok in Hs as (data & Hu & Hs & Hb).
  pose proof (zlen_nonneg data) as H0. pose proof (zlen_nonneg rest) as H1.
  assert (Hz : zlen b = 4 + zlen data).
  { subst b. rewrite zlen_app, zlen_be_encode. lia. }
  assert (Hdl : declared_length (b ++ rest) = zlen data).
  { subst b. by apply declared_length_app. }
  unfold parse_stream, LENGTH_PREFIX_size. rewrite zlen_app, Hz, Hdl, Z.gtb_ltb. decide_Z.
  replace (Z.to_nat (4 + zlen data)) with (length b) by (unfold zlen in *; lia).
  rewrite take_app_length, drop_app_length, Hd. done.
Qed.

(** The types that [hasattr(constants, f"MSG_{type_str}")] knows. *)
Definition known_types : list str :=
  [MSG_REGISTER; MSG_AUTH_CHALLENGE; MSG_AUTH_RESPONSE; MSG_AUTH_OK; MSG_AUTH_FAIL;
   MSG_CREATE_NETWORK; MSG_NETWORK_CREATED; MSG_JOIN_NETWORK; MSG_NETWORK_JOINED;
   MSG_LEAVE_NETWORK; MSG_NETWORK_LEFT; MSG_LIST_NETWORKS; MSG_NETWORK_LIST; MSG_NETWORK_PEERS;
   MSG_PEER_ONLINE; MSG_PEER_OFFLINE; MSG_REQUEST_PEER_CONN; MSG_PEER_ENDPOINTS; MSG_RELAY_REQUEST;
   MSG_RELAY_GRANTED; MSG_RELAY_FRAME; MSG_RELAY_CLOSED; MSG_HEARTBEAT; MSG_HEARTBEAT_ACK;
   MSG_ERROR; MSG_EXPOSE_SERVICE; MSG_SERVICE_EXPOSED; MSG_UNEXPOSE_SERVICE; MSG_SERVICE_UNEXPOSED;
   MSG_SERVICE_LIST; MSG_SERVICE_ADDED; MSG_SERVICE_REMOVED; MSG_MAP_SERVICE; MSG_SERVICE_MAPPED;
   MSG_UNMAP_SERVICE; MSG_SERVICE_UNMAPPED].

(** C13 Framing: a receiver that calls [parse_stream] while it can gets, from
    any concatenation of serialized messages of known types, followed by a
    rest in which [parse_stream] finds no complete message, exactly these
    messages in order, and keeps exactly the rest. *)
Theorem parse_all_messages ms bs tail fuel :
  Forall (fun m => msg_type m ∈ known_types) ms ->
  Forall2 (fun m b => msg_ok m = true /\ serialize m = Ok b) ms bs ->
  parse_stream tail = Ok (None, tail) ->
  (length ms < fuel)%nat ->
  parse_all fuel (concat bs ++ tail) = Ok (ms, tail).
Proof.
  intros _ HF Ht. revert fuel. induction HF as [|m b ms bs [Hm Hs] HF IH]; intros fuel Hf;
    (destruct fuel as [|f]; [simpl in Hf; lia|]); cbn [parse_all concat].
  - simpl app. by rewrite Ht.
  - rewrite <- app_assoc, (parse_stream_app m) by done. simpl. simpl in Hf.
    by rewrite IH by lia.
Qed.

Lemma parse_all_messages_witness :
  exists b, parse_all 3 (concat [b; b] ++ [0; 0; 1]) = Ok ([sample; sample], [0; 0; 1]).
Proof.
  eexists. apply parse_all_messages; [| |vm_compute; reflexivity|simpl; lia].
  { repeat constructor; by apply (bool_decide_unpack _); vm_compute. }
  repeat (constructor; [split; [vm_compute; reflexivity|vm_compute; reflexivity]|]). constructor.
Defined.

(** An incomplete message is never delivered and never lost: on every
    proper prefix of a serialized message [parse_stream] reports no message
    and returns the buffer as it was. *)
Theorem parse_stream_incomplete m b p q :
  serialize m = Ok b -> b = p ++ q -> q <> [] -> parse_stream p = Ok (None, p).
Proof.
  intros (data & Hu & Hs & Hb)%serialize_body_Ok Hpq Hq. unfold parse_stream, LENGTH_PREFIX_size.
  destruct (Z.ltb_spec (zlen p) 4) as [|Hp]; [done|].
  assert (Hd : declared_length p = zlen data).
  { pose proof (declared_length_app data [] Hs) as Hd. rewrite app_nil_r, <- Hb, Hpq in Hd.
    unfold declared_length in *. rewrite take_app_le in Hd by (unfold zlen in Hp; lia). done. }
  rewrite Hd, Z.gtb_ltb. decide_Z.
  assert (Hz : zlen p + zlen q = 4 + zlen data).
  { rewrite <- zlen_app, <- Hpq, Hb, zlen_app, zlen_be_encode. lia. }
  assert (0 < zlen q) by (destruct q; [done|unfold zlen; simpl; lia]).
  by decide_Z.
Qed.

Lemma parse_stream_incomplete_witness :
  exists p, (4 < length p)%nat /\ parse_stream p = Ok (None, p).
Proof.
  assert (Hs : exists b, serialize sample = Ok b) by (eexists; vm_compute; reflexivity).
  destruct (serialize sample) as [b|] eqn:Hb; [|exfalso; by destruct Hs].
  assert (Hl : length b = 88%nat) by (vm_compute in Hb; injection Hb as <-; reflexivity).
  exists (take 20 b). split; [rewrite length_take; lia|].
  apply (parse_stream_incomplete sample b (take 20 b) (drop 20 b) Hb);
    [by rewrite take_drop|]. intros H%(f_equal length). rewrite length_drop in H. simpl in H. lia.
Defined.

(** Every way [deserialize] can end, for all byte strings: the message,
    one of the [ValueError]s (short, oversized or incomplete input, text that
    is not UTF-8 or not JSON, no string [type]), or an [AttributeError], and
    that exactly when the body is JSON but not an object. *)
Theorem deserialize_outcome data :
  match deserialize data with
  | Ok m =>
      exists text body,
        utf8_decode (slice 4 (Z.to_nat (4 + declared_length data)) data) = Some text
        /\ loads text = Some (JObj body) /\ dget body KEY_TYPE = Some (JStr (msg_type m))
        /\ 4 + declared_length data <= zlen data
        /\ declared_length data <= MAX_MESSAGE_SIZE
  | Err e =>
      is_ValueError e = true
      \/ exc_cls e = CAttributeError
         /\ exists text j,
              utf8_decode (slice 4 (Z.to_nat (4 + declared_length data)) data) = Some text
              /\ loads text = Some j /\ (forall d, j <> JObj d)
  end.
Proof.
  unfold deserialize, LENGTH_PREFIX_size. rewrite Z.gtb_ltb.
  destruct (Z.ltb_spec (zlen data) 4); [by left|].
  destruct (Z.ltb_spec MAX_MESSAGE_SIZE (declared_length data)); [by left|].
  destruct (Z.ltb_spec (zlen data) (4 + declared_length data)); [by left|].
  destruct (utf8_decode _) as [text|]; [|by left].
  destruct (loads text) as [j|] eqn:Hl; [|by left].
  destruct j as [| | | | | |body]; try (right; split; [done|]; exists text; eexists; by split_and!).
  destruct (dget body KEY_TYPE) as [[]|] eqn:Ht; try (by left).
  exists text, body. by split_and!.
Qed.

(** ** Typed messages *)

Lemma init_fields_keys cls kw obj : init_fields cls kw = Ok obj -> dkeys obj = dkeys cls.
Proof.
  revert obj. induction cls as [|[k d] cls IH]; intros obj H; simpl in H; [by simplify_eq|].
  repeat case_match; try done; inv_bind H; apply Ok_inj in H; subst obj; simpl;
    by rewrite (IH a).
Qed.

(** The attribute of an instance: the keyword, or else the default. *)
Lemma init_fields_get cls kw obj k :
  init_fields cls kw = Ok obj ->
  dget obj k = match dget cls k with
               | None => None
               | Some d => match dget kw k with Some v => Some v | None => d end
               end.
Proof.
  revert obj. induction cls as [|[k' d] cls IH]; intros obj H; simpl in H; [by simplify_eq|].
  destruct (dget kw k') as [v|] eqn:Hk; [|destruct d as [v|]; [|done]];
    inv_bind H; apply Ok_inj in H; subst obj; simpl;
    (case_decide; [subst; by rewrite Hk|by apply IH]).
Qed.

(** Two keyword dictionaries that give every field the same value build the
    same instance. *)
Lemma init_fields_ext cls kw kw' :
  dict_ok cls ->
  (forall k d, dget cls k = Some d ->
     match dget kw k with Some v => Some v | None => d end =
     match dget kw' k with Some v => Some v | None => d end) ->
  init_fields cls kw = init_fields cls kw'.
Proof.
  unfold dict_ok. induction cls as [|[k d] cls IH]; intros Hnd H; simpl; [done|].
  simpl in Hnd. apply NoDup_cons in Hnd as [Hk Hnd].
  rewrite (IH Hnd).
  - pose proof (H k d) as Hkd. simpl in Hkd. rewrite decide_True in Hkd by done.
    specialize (Hkd eq_refl). repeat case_match; simplify_eq; done.
  - intros k' d' Hk'. apply (H k' d'). simpl. case_decide; [|done]. subst k'.
    exfalso. apply Hk, elem_of_dkeys. eauto.
Qed.

Lemma with_type_ne cls ty kwargs k :
  k <> KEY_TYPE -> dget (with_type cls ty kwargs) k = dget kwargs k.
Proof. intros. unfold with_type. repeat case_match; by rewrite ?dget_dset_ne. Qed.

(** Rebuilding an instance from its payload. *)
Lemma construct_payload cls kw obj :
  dict_ok cls -> init_fields cls kw = Ok obj ->
  (forall k d, dget cls k = Some d -> dget kw k = Some JNull -> d = Some JNull) ->
  construct cls (dfilter (fun k _ => dmem cls k) (payload_from_dataclass obj)) = Ok obj.
Proof.
  intros Hc Hi Hnone.
  assert (Ho : dict_ok obj) by (unfold dict_ok; by rewrite (init_fields_keys _ _ _ Hi)).
  unfold construct. rewrite (proj2 (forallb_forall _ _)).
  2:{ intros x Hx. unfold dfilter in Hx. by apply filter_In in Hx as [_ Hx]. }
  rewrite <- Hi. apply init_fields_ext; [done|]. intros k d Hk.
  unfold payload_from_dataclass. rewrite dget_dfilter by eauto with pydb.
  rewrite dget_dfilter, (init_fields_get _ _ _ k Hi), Hk by done.
  unfold dmem. rewrite Hk. specialize (Hnone k d Hk).
  destruct (dget kw k) as [v|]; [|destruct d as [[]|]; done].
  destruct v; try done. simpl. by rewrite Hnone.
Qed.

(** Typed round trip: a message that [make_message] builds from a
    dataclass [cls], of a type that [MESSAGE_TYPES] maps to [cls], is read
    back by [message_to_dataclass] as an instance of [cls] whose type is the
    message's and whose other attributes are the keywords, or the defaults
    of the fields that were not given.  The one proviso is that no field is
    set to [None] against another default (it is left out of the payload). *)
Theorem make_message_roundtrip cls ty kwargs m :
  make_message cls ty kwargs = Ok m ->
  dget MESSAGE_TYPES (msg_type m) = Some cls ->
  (forall k d, dget cls k = Some d -> dget kwargs k = Some JNull -> d = Some JNull) ->
  exists obj,
    message_to_dataclass m MESSAGE_TYPES = Some obj
    /\ dkeys obj = dkeys cls
    /\ dget obj KEY_TYPE = Some (JStr (msg_type m))
    /\ forall k, k <> KEY_TYPE ->
         dget obj k = match dget cls k with
                      | None => None
                      | Some d => match dget kwargs k with Some v => Some v | None => d end
                      end.
Proof.
  intros Hm Hcls Hnone.
  assert (Hc : dict_ok cls).
  { assert (Hall : Forall (fun kc => dict_ok (snd kc)) MESSAGE_TYPES).
    { unfold dict_ok. apply (bool_decide_unpack _). vm_compute. done. }
    rewrite Forall_forall in Hall. apply (Hall (msg_type m, cls)). by apply dget_elem. }
  unfold make_message in Hm.
  inv_bind Hm. destruct (dget a KEY_TYPE) as [[]|] eqn:Ht; try done. apply Ok_inj in Hm. subst m.
  cbn [msg_type] in *. unfold construct in Ha. destruct (forallb _ _); [|done].
  exists a. split_and!.
  - unfold message_to_dataclass. cbn [msg_type msg_payload]. rewrite Hcls.
    rewrite (construct_payload cls (with_type cls ty kwargs)); [done..|].
    intros k d Hk Hn. destruct (decide (k = KEY_TYPE)) as [->|Hne].
    + rewrite (init_fields_get _ _ _ KEY_TYPE Ha), Hk, Hn in Ht. done.
    + rewrite with_type_ne in Hn by done. eauto.
  - by apply init_fields_keys in Ha.
  - done.
  - intros k Hk. by rewrite (init_fields_get _ _ _ k Ha), with_type_ne.
Qed.

Lemma make_message_roundtrip_witness :
  exists m obj,
    make_message AuthResult (Some MSG_AUTH_FAIL) [(py "ok", JBool false)] = Ok m
    /\ message_to_dataclass m MESSAGE_TYPES = Some obj
    /\ dget obj (py "message") = Some (JStr []).
Proof.
  eexists. edestruct (make_message_roundtrip AuthResult (Some MSG_AUTH_FAIL)
    [(py "ok", JBool false)]) as (obj & H1 & _ & _ & H2);
    [vm_compute; reflexivity|vm_compute; reflexivity| |].
  - intros k d _ Hk. simpl in Hk. by case_decide.
  - exists obj. split_and!; [vm_compute; reflexivity|exact H1|].
    rewrite H2 by (vm_compute; discriminate). vm_compute. reflexivity.
Defined.

End Messages.
