(* ===== verification/Protocol.v ===== *)
(** * Payload validation (src/server/protocol.py)

    The field validators of the mediation server.  Payload values are JSON
    values; [py_str] is Python's [str()] on them, [truthy] their truth value.
    Every [raise ProtocolError(...)] is a value with its text, which the
    server sends back to the client. *)

From S2P Require Import Prelude Constants PyStr Json Messages.
Import Messages.

Module Protocol.

(** ** Python's view of a JSON value *)

Section Values.
Context {U : Unicode}.

Definition float_repr (lit : str) : str :=
  if bool_decide (lit = py "NaN") then py "nan"
  else if bool_decide (lit = py "Infinity") then py "inf"
  else if bool_decide (lit = py "-Infinity") then py "-inf"
  else lit.

Fixpoint py_repr (j : json) : str :=
  match j with
  | JNull => py "None"
  | JBool true => py "True"
  | JBool false => py "False"
  | JInt n => dec n
  | JFloat lit => float_repr lit
  | JStr s => repr_str s
  | JList l => [91] ++ join (py ", ") (map py_repr l) ++ [93]
  | JObj d =>
      [123] ++ join (py ", ") (map (fun kv => repr_str (fst kv) ++ py ": " ++ py_repr (snd kv)) d)
        ++ [125]
  end.

Definition py_str (j : json) : str :=
  match j with JStr s => s | _ => py_repr j end.

(** A float literal denotes zero when its mantissa has no digit but zeros. *)
Definition float_is_zero (lit : str) : bool :=
  forallb (fun c => negb ((49 <=? c) && (c <=? 57)))
    (fst (span (fun c => negb ((c =? 101) || (c =? 69))) lit))
  && negb (contains lit (py "N")) && negb (contains lit (py "I")).

Definition truthy (j : json) : bool :=
  match j with
  | JNull => false
  | JBool b => b
  | JInt n => negb (n =? 0)
  | JFloat lit => negb (float_is_zero lit)
  | JStr s => negb (bool_decide (s = []))
  | JList l => negb (bool_decide (l = []))
  | JObj d => negb (bool_decide (d = []))
  end.

(** [payload.get(key)]. *)
Definition pget (payload : list (str * json)) (key : str) : json :=
  default JNull (dget payload key).

(** [str(payload.get(key) or default)]. *)
Definition get_or (payload : list (str * json)) (key default_ : str) : str :=
  let v := pget payload key in if truthy v then py_str v else default_.

(** ** Regular expressions

    [$] without [re.MULTILINE] also matches before a final newline. *)
Definition before_newline (p : str -> bool) (s : str) : bool :=
  p s || (match last s with Some 10 => p (take (length s - 1) s) | _ => false end).

Definition id_char (c : Z) : bool := is_alnum c || (c =? 45) || (c =? 95).

(** [_ID_RE = ^[A-Za-z0-9\-_]{8,64}$]. *)
Definition ID_RE (s : str) : bool :=
  before_newline (fun s => forallb id_char s && (8 <=? zlen s) && (zlen s <=? 64)) s.

(** [_NAME_RE = ^.{1,64}$]; [.] is every character but the newline. *)
Definition NAME_RE (s : str) : bool :=
  before_newline
    (fun s => forallb (fun c => negb (c =? 10)) s && (1 <=? zlen s) && (zlen s <=? 64)) s.

(** [_PEM_RE = ^-----BEGIN (RSA )?PUBLIC KEY-----]. *)
Definition PEM_RE (s : str) : bool :=
  startswith s (py "-----BEGIN RSA PUBLIC KEY-----")
  || startswith s (py "-----BEGIN PUBLIC KEY-----").

(** ** Validators *)

Definition parse_message (data : bytes) : result Message := deserialize data.
Definition build_message (m : Message) : result bytes := serialize m.

Definition protocol_error {A} (msg : str) : result A := raise CProtocolError msg.

Definition require (payload : list (str * json)) (key label : str) : result json :=
  match pget payload key with
  | JNull | JStr [] => protocol_error (label ++ py " is required")
  | v => Ok v
  end.

Definition validate_register (payload : list (str * json)) : result (str * str) :=
  let? client_id := require payload (py "client_id") (py "client_id") in
  let? public_key := require payload (py "public_key") (py "public_key") in
  if negb (ID_RE (py_str client_id)) then
    protocol_error (py "client_id must be 8-64 chars of [A-Za-z0-9_-]")
  else if negb (PEM_RE (strip (py_str public_key))) then
    protocol_error (py "public_key must be a PEM-encoded public key")
  else Ok (py_str client_id, py_str public_key).

Definition validate_auth_response (payload : list (str * json)) : result (str * str) :=
  let? challenge := require payload (py "challenge") (py "challenge") in
  let? signature := require payload (py "signature") (py "signature") in
  Ok (py_str challenge, py_str signature).

Definition validate_create_network (payload : list (str * json))
    : result (str * str * str) :=
  let? name := require payload (py "name") (py "name") in
  let? password := require payload (py "password") (py "password") in
  let topology := get_or payload (py "topology") DEFAULT_TOPOLOGY in
  if negb (NAME_RE (py_str name)) then
    protocol_error (py "name must be 1-64 characters")
  else if negb (bool_decide (topology ∈ SUPPORTED_TOPOLOGIES)) then
    protocol_error
      (py "unsupported topology " ++ repr_str topology ++ py "; expected one of "
       ++ join (py ", ") SUPPORTED_TOPOLOGIES)
  else Ok (py_str name, py_str password, topology).

Definition validate_join_network (payload : list (str * json)) : result (str * str) :=
  let? network_id := require payload (py "network_id") (py "network_id") in
  let? password := require payload (py "password") (py "password") in
  Ok (py_str network_id, py_str password).

Definition validate_network_id (payload : list (str * json)) : result str :=
  let? network_id := require payload (py "network_id") (py "network_id") in
  Ok (py_str network_id).

Definition validate_peer_id (payload : list (str * json)) : result str :=
  let? peer_id := require payload (py "peer_id") (py "peer_id") in
  Ok (py_str peer_id).

(** [isinstance(v, int)] and its value: a [bool] is an [int]. *)
Definition as_int (j : json) : option Z :=
  match j with
  | JInt n => Some n
  | JBool b => Some (if b then 1 else 0)
  | _ => None
  end.

Definition valid_port (j : json) : bool :=
  match as_int j with Some n => (0 <? n) && (n <? 65536) | None => false end.

Definition validate_expose_service (payload : list (str * json))
    : result (str * str * str * json) :=
  let? name := require payload (py "name") (py "name") in
  let protocol := lower_str (get_or payload (py "protocol") (py "tcp")) in
  let local_host := get_or payload (py "local_host") (py "127.0.0.1") in
  let local_port := pget payload (py "local_port") in
  if negb (bool_decide (protocol ∈ [py "tcp"; py "udp"])) then
    protocol_error (py "protocol must be tcp or udp, got " ++ repr_str protocol)
  else if negb (valid_port local_port) then
    protocol_error (py "invalid local_port: " ++ py_repr local_port)
  else Ok (py_str name, protocol, local_host, local_port).

Definition validate_service_id (payload : list (str * json)) : result str :=
  let? service_id := require payload (py "service_id") (py "service_id") in
  Ok (py_str service_id).

(** ** Theorems *)

Lemma require_Ok payload key label v :
  require payload key label = Ok v <->
  dget payload key = Some v /\ v <> JNull /\ v <> JStr [].
Proof.
  unfold require, pget. destruct (dget payload key) as [[| | | |[]| |]|]; simpl; split; intros Hv;
    destruct_and?; simplify_eq; try done; apply Ok_inj in Hv; by subst.
Qed.

Lemma require_Err payload key label e :
  require payload key label = Err e -> exc_cls e = CProtocolError.
Proof. unfold require, protocol_error, raise. repeat case_match; by intros [= <-]. Qed.

Definition only_protocol_errors {A} (r : result A) : Prop :=
  match r with Ok _ => True | Err e => exc_cls e = CProtocolError end.

Lemma require_bind_errors {A} payload key label (k : json -> result A) :
  (forall v, only_protocol_errors (k v)) ->
  only_protocol_errors (let? v := require payload key label in k v).
Proof.
  intros Hk. destruct (require payload key label) eqn:Hr; simpl; [apply Hk|].
  by apply require_Err in Hr.
Qed.

(** The validators are total: on every payload whatsoever, each returns
    its fields or raises [ProtocolError], the one exception its callers in
    the connection handler turn into an error message for the client. *)
Theorem validators_only_protocol_errors payload :
  only_protocol_errors (validate_register payload)
  /\ only_protocol_errors (validate_auth_response payload)
  /\ only_protocol_errors (validate_create_network payload)
  /\ only_protocol_errors (validate_join_network payload)
  /\ only_protocol_errors (validate_network_id payload)
  /\ only_protocol_errors (validate_peer_id payload)
  /\ only_protocol_errors (validate_expose_service payload)
  /\ only_protocol_errors (validate_service_id payload).
Proof.
  split_and!; repeat (apply require_bind_errors; intros ?); repeat case_match; done.
Qed.

Lemma before_newline_spec p s :
  before_newline p s = true ->
  exists t, p t = true /\ (s = t \/ s = t ++ [10]).
Proof.
  unfold before_newline. intros [Hp|Hp]%orb_true_iff; [eauto|].
  destruct (last s) as [c|] eqn:Hl; [|done]. apply last_Some in Hl as [t ->].
  destruct (decide (c = 10)) as [->|Hc].
  - rewrite length_app, Nat.add_sub, take_app_length in Hp. eauto.
  - exfalso. repeat case_match; congruence.
Qed.

(** What a client id accepted by [validate_register] looks like: 8 to 64
    letters, digits, dashes and underscores, possibly followed by one
    newline (which the pattern's [$] lets through); in particular it always
    encodes to UTF-8 and fits in 65 characters. *)
Theorem validate_register_id payload cid pem :
  validate_register payload = Ok (cid, pem) ->
  exists t, (cid = t \/ cid = t ++ [10])
    /\ Forall (fun c => id_char c = true) t /\ 8 <= zlen t <= 64
    /\ PEM_RE (strip pem) = true
    /\ is_Some (utf8_encode cid).
Proof.
  unfold validate_register. intros Hv. do 2 inv_bind Hv.
  destruct (ID_RE (py_str a)) eqn:Hid; [|done]. destruct (PEM_RE _) eqn:Hpem; [|done].
  simpl in Hv. apply Ok_inj in Hv. simplify_eq.
  apply before_newline_spec in Hid as (t & Ht & Hs).
  apply andb_true_iff in Ht as [[Hall H8%Z.leb_le]%andb_true_iff H64%Z.leb_le].
  rewrite forallb_forall in Hall.
  assert (HF : Forall (fun c => id_char c = true) t).
  { apply Forall_forall. intros c Hc. apply Hall. by apply list_elem_of_In. }
  exists t. split_and!; [done|done|lia|lia|done|].
  assert (Hasc : forall u, Forall (fun c => (c <? 128) = true) u -> is_Some (utf8_encode u)).
  { induction 1 as [|c u Hc Hu [b Hb]]; simpl; [eauto|]. unfold utf8_char. rewrite Hc, Hb. eauto. }
  apply Hasc. assert (Ht : Forall (fun c => (c <? 128) = true) t).
  { eapply Forall_impl; [exact HF|]. intros c Hc. apply Z.ltb_lt.
    unfold id_char, is_alnum, is_digit, is_upper, is_lower in Hc.
    repeat (apply orb_true_iff in Hc as [Hc|Hc]); rewrite ?andb_true_iff, ?Z.leb_le, ?Z.eqb_eq in Hc; lia. }
  destruct Hs as [-> | ->]; [done|]. apply Forall_app. split; [done|]. by constructor.
Qed.
End Values.

Definition sample_register (cid : str) : list (str * json) :=
  [(py "client_id", JStr cid); (py "public_key", JStr (py "-----BEGIN PUBLIC KEY-----"))].

Lemma validate_register_id_witness :
  exists t, py "alice-0001" = t \/ py "alice-0001" = t ++ [10].
Proof.
  destruct (validate_register_id (U := ascii_only) (sample_register (py "alice-0001"))
    (py "alice-0001") (py "-----BEGIN PUBLIC KEY-----")) as (t & Ht & _);
    [vm_compute; reflexivity|]. exists t. exact Ht.
Defined.

(** The trailing newline is accepted: the id is not within the documented
    alphabet. *)
Lemma register_accepts_newline :
  validate_register (U := ascii_only) (sample_register (py "alice-0001" ++ [10]))
  = Ok (py "alice-0001" ++ [10], py "-----BEGIN PUBLIC KEY-----").
Proof. vm_compute. reflexivity. Qed.
End Protocol.
