(* ===== verification/Registry.v ===== *)
(** * The client registry (src/server/registry.py)

    [ClientRegistry] is a dictionary of client records.  Records are mutable
    objects reached only through the dictionary, so an update of a record is
    an update of the entry.  [time.time()] is the argument [now].  A client's
    set of network ids is a [gset]; where the code iterates over such a set
    the order is the parameter [SetOrder] of the prelude.

    [MembershipStore] is what the network manager relies on: it looks records
    up and adds or removes network ids, and nothing else. *)

From S2P Require Import Prelude.

Module Registry.

Record ClientRecord := mkClientRecord {
  client_id : str;
  public_key_pem : str;
  public_endpoint : option (str * Z);
  last_heartbeat : time;
  online : bool;
  networks : gset str;
  joined_at : time;
  banned : bool;
  client_ip : option str
}.

Definition set_public_key (pem : str) (r : ClientRecord) : ClientRecord :=
  mkClientRecord (client_id r) pem (public_endpoint r) (last_heartbeat r) (online r)
    (networks r) (joined_at r) (banned r) (client_ip r).
Definition set_endpoint (ep : option (str * Z)) (r : ClientRecord) : ClientRecord :=
  mkClientRecord (client_id r) (public_key_pem r) ep (last_heartbeat r) (online r)
    (networks r) (joined_at r) (banned r) (client_ip r).
Definition set_client_ip (ip : option str) (r : ClientRecord) : ClientRecord :=
  mkClientRecord (client_id r) (public_key_pem r) (public_endpoint r) (last_heartbeat r)
    (online r) (networks r) (joined_at r) (banned r) ip.
Definition set_heartbeat (t : time) (r : ClientRecord) : ClientRecord :=
  mkClientRecord (client_id r) (public_key_pem r) (public_endpoint r) t (online r)
    (networks r) (joined_at r) (banned r) (client_ip r).
Definition set_online_flag (b : bool) (r : ClientRecord) : ClientRecord :=
  mkClientRecord (client_id r) (public_key_pem r) (public_endpoint r) (last_heartbeat r) b
    (networks r) (joined_at r) (banned r) (client_ip r).
Definition set_networks (ns : gset str) (r : ClientRecord) : ClientRecord :=
  mkClientRecord (client_id r) (public_key_pem r) (public_endpoint r) (last_heartbeat r)
    (online r) ns (joined_at r) (banned r) (client_ip r).
Definition set_banned (b : bool) (r : ClientRecord) : ClientRecord :=
  mkClientRecord (client_id r) (public_key_pem r) (public_endpoint r) (last_heartbeat r)
    (online r) (networks r) (joined_at r) b (client_ip r).

(** [ClientRecord(client_id=..., public_key_pem=...)] with its defaults. *)
Definition new_record (now : time) (cid pem : str) : ClientRecord :=
  mkClientRecord cid pem None now false ∅ now false None.

Definition ClientRegistry := list (str * ClientRecord).

(** ** Operations *)

Definition register (now : time) (reg : ClientRegistry) (cid pem : str) : ClientRegistry :=
  let reg' := match dget reg cid with
              | None => dset reg cid (new_record now cid pem)
              | Some _ => reg
              end in
  dalter (set_public_key pem) reg' cid.

Definition unregister (reg : ClientRegistry) (cid : str) : ClientRegistry :=
  dalter (fun r => set_endpoint None (set_online_flag false r)) reg cid.

Definition forget (reg : ClientRegistry) (cid : str) : ClientRegistry := ddel reg cid.

Definition get (reg : ClientRegistry) (cid : str) : option ClientRecord := dget reg cid.

Definition get_online (reg : ClientRegistry) : list ClientRecord :=
  List.filter online (dvals reg).

Definition get_all (reg : ClientRegistry) : list ClientRecord := dvals reg.

Definition registry_len (reg : ClientRegistry) : Z := zlen reg.

Definition online_count (reg : ClientRegistry) : Z :=
  foldr (fun r n => if online r then n + 1 else n) 0 (dvals reg).

Definition has (reg : ClientRegistry) (cid : str) : bool := dmem reg cid.

Definition is_banned (reg : ClientRegistry) (cid : str) : bool :=
  match dget reg cid with Some r => banned r | None => false end.

Definition set_online (now : time) (reg : ClientRegistry) (cid : str) : bool * ClientRegistry :=
  match dget reg cid with
  | None => (false, reg)
  | Some r =>
      if banned r then (false, reg)
      else (true, dalter (fun r => set_heartbeat now (set_online_flag true r)) reg cid)
  end.

Definition update_endpoint (reg : ClientRegistry) (cid : str) (addr : str * Z) : ClientRegistry :=
  dalter (fun r => set_client_ip (Some (fst addr)) (set_endpoint (Some addr) r)) reg cid.

Definition heartbeat (now : time) (reg : ClientRegistry) (cid : str) : bool * ClientRegistry :=
  match dget reg cid with
  | None => (false, reg)
  | Some _ => (true, dalter (fun r => set_online_flag true (set_heartbeat now r)) reg cid)
  end.

(** One pass over the items: mark and collect the stale clients. *)
Fixpoint prune_items (cutoff : time) (items : ClientRegistry) : list str * ClientRegistry :=
  match items with
  | [] => ([], [])
  | (cid, r) :: rest =>
      let (stale, rest') := prune_items cutoff rest in
      if online r && (last_heartbeat r <? cutoff)
      then (cid :: stale, (cid, set_online_flag false r) :: rest')
      else (stale, (cid, r) :: rest')
  end.

Definition prune_stale (now : time) (reg : ClientRegistry) (timeout : Z)
    : list str * ClientRegistry :=
  prune_items (now - timeout * SEC) reg.

Definition add_network (reg : ClientRegistry) (cid nid : str) : ClientRegistry :=
  dalter (fun r => set_networks (networks r ∪ {[nid]}) r) reg cid.

Definition remove_network (reg : ClientRegistry) (cid nid : str) : ClientRegistry :=
  dalter (fun r => set_networks (networks r ∖ {[nid]}) r) reg cid.

Definition networks_for (reg : ClientRegistry) (cid : str) : gset str :=
  match dget reg cid with Some r => networks r | None => ∅ end.

Definition members_in_networks (reg : ClientRegistry) (nids : list str) : list ClientRecord :=
  List.filter
    (fun r => online r && bool_decide (networks r ∩ list_to_set nids <> ∅)) (dvals reg).

(** ** What the network manager needs of a registry *)

Class MembershipStore (S : Type) := {
  store_get : S -> str -> option ClientRecord;
  store_add : S -> str -> str -> S;
  store_remove : S -> str -> str -> S;
  store_get_add s c n c' :
    store_get (store_add s c n) c' =
      if decide (c = c')
      then (fun r => set_networks (networks r ∪ {[n]}) r) <$> store_get s c'
      else store_get s c';
  store_get_remove s c n c' :
    store_get (store_remove s c n) c' =
      if decide (c = c')
      then (fun r => set_networks (networks r ∖ {[n]}) r) <$> store_get s c'
      else store_get s c'
}.

#[global] Program Instance registry_store : MembershipStore ClientRegistry := {|
  store_get := get;
  store_add := add_network;
  store_remove := remove_network
|}.
Next Obligation. intros. apply dget_dalter. Qed.
Next Obligation. intros. apply dget_dalter. Qed.

(** ** Invariant: unique keys, and every record is filed under its own id *)

Definition reg_ok (reg : ClientRegistry) : Prop :=
  dict_ok reg /\ forall c r, dget reg c = Some r -> client_id r = c.

Lemma reg_ok_nil : reg_ok [].
Proof. split; [apply dict_ok_nil|done]. Qed.

Lemma reg_ok_dalter f reg c :
  (forall r, client_id (f r) = client_id r) -> reg_ok reg -> reg_ok (dalter f reg c).
Proof.
  intros Hf [Hd Hid]. split; [eauto with pydb|]. intros c' r. rewrite dget_dalter.
  case_decide; [|apply Hid]. subst c'. destruct (dget reg c) as [r0|] eqn:Hr; [|done].
  intros [= <-]. rewrite Hf. by apply Hid.
Qed.

Lemma dget_register now reg c pem c' :
  dget (register now reg c pem) c' =
    if decide (c = c')
    then Some (set_public_key pem (default (new_record now c pem) (dget reg c)))
    else dget reg c'.
Proof.
  unfold register. rewrite dget_dalter.
  destruct (dget reg c) as [r|] eqn:Hr; [|rewrite dget_dset];
    destruct (decide (c = c')); subst; by rewrite ?Hr.
Qed.

Lemma reg_ok_register now reg c pem : reg_ok reg -> reg_ok (register now reg c pem).
Proof.
  intros Hok. unfold register. apply reg_ok_dalter; [done|].
  destruct (dget reg c) eqn:Hr; [done|]. destruct Hok as [Hd Hid].
  split; [eauto with pydb|]. intros c' r. rewrite dget_dset. case_decide; [|apply Hid].
  by intros [= <-].
Qed.

Lemma reg_ok_forget reg c : reg_ok reg -> reg_ok (forget reg c).
Proof.
  intros [Hd Hid]. unfold forget. split; [eauto with pydb|].
  intros c' r. rewrite dget_ddel. case_decide; [done|apply Hid].
Qed.

Lemma prune_items_spec cutoff items :
  prune_items cutoff items =
    (map fst (List.filter (fun kr => online (snd kr) && (last_heartbeat (snd kr) <? cutoff)) items),
     dmap (fun _ r => if online r && (last_heartbeat r <? cutoff)
                      then set_online_flag false r else r) items).
Proof.
  induction items as [|[c r] items IH]; simpl; [done|]. rewrite IH.
  destruct (online r && (last_heartbeat r <? cutoff)); done.
Qed.

Lemma reg_ok_prune now reg timeout : reg_ok reg -> reg_ok (snd (prune_stale now reg timeout)).
Proof.
  intros [Hd Hid]. unfold prune_stale. rewrite prune_items_spec. simpl.
  split; [eauto with pydb|]. intros c r. rewrite dget_dmap.
  destruct (dget reg c) as [r0|] eqn:Hr; [|done]. intros [= <-].
  case_match; simpl; by apply Hid.
Qed.

Lemma reg_ok_set_online now reg c : reg_ok reg -> reg_ok (snd (set_online now reg c)).
Proof. intros. unfold set_online. repeat case_match; simpl; try done; by apply reg_ok_dalter. Qed.

Lemma reg_ok_heartbeat now reg c : reg_ok reg -> reg_ok (snd (heartbeat now reg c)).
Proof. intros. unfold heartbeat. case_match; simpl; try done; by apply reg_ok_dalter. Qed.

#[export] Hint Resolve reg_ok_nil reg_ok_register reg_ok_forget reg_ok_prune
  reg_ok_set_online reg_ok_heartbeat : pydb.

(** [prune_stale] is exact: it reports, in registration order, precisely
    the clients that are online with a heartbeat older than the timeout, it
    takes precisely these offline, and it changes nothing else of any
    record. *)
Theorem prune_stale_exact now reg timeout c :
  reg_ok reg ->
  let (stale, reg') := prune_stale now reg timeout in
  (c ∈ stale <-> exists r, dget reg c = Some r /\ online r = true
                           /\ last_heartbeat r < now - timeout * SEC)
  /\ sublist stale (dkeys reg)
  /\ dget reg' c =
       (fun r => if bool_decide (c ∈ stale) then set_online_flag false r else r) <$> dget reg c.
Proof.
  intros [Hd Hid]. unfold prune_stale. rewrite prune_items_spec. cbv beta iota.
  set (p := fun r => online r && (last_heartbeat r <? now - timeout * SEC)).
  assert (Hin : forall c, c ∈ map fst (List.filter (fun kr => p (snd kr)) reg) <->
    exists r, dget reg c = Some r /\ p r = true).
  { intros c'. rewrite list_elem_of_fmap. split.
    - intros ([k r] & -> & Hin). apply list_elem_of_In, filter_In in Hin as [Hin Hp].
      exists r. split; [|done]. apply elem_dget; [done|]. by apply list_elem_of_In.
    - intros (r & Hr & Hp). exists (c', r). split; [done|].
      apply list_elem_of_In, filter_In. split; [|done]. by apply list_elem_of_In, dget_elem. }
  split_and!.
  - etransitivity; [apply Hin|]. unfold p. setoid_rewrite andb_true_iff. by setoid_rewrite Z.ltb_lt.
  - unfold dkeys. clear. induction reg as [|kr reg IH]; simpl; [constructor|].
    case_match; simpl; by constructor.
  - rewrite dget_dmap. destruct (dget reg c) as [r|] eqn:Hr; [|done]. simpl. f_equal.
    case_bool_decide as Hc.
    + apply Hin in Hc as (r' & Hr' & Hp). rewrite Hr in Hr'. simplify_eq. unfold p in Hp. by rewrite Hp.
    + fold (p r). destruct (p r) eqn:Hp; [|done]. exfalso. apply Hc, Hin. eauto.
Qed.

Definition sample_registry : ClientRegistry :=
  snd (set_online 0 (register 0 [] (py "alice-0001") (py "KEY")) (py "alice-0001")).

Lemma prune_stale_exact_witness :
  py "alice-0001" ∈ fst (prune_stale (100 * SEC) sample_registry 90).
Proof.
  pose proof (prune_stale_exact (100 * SEC) sample_registry 90 (py "alice-0001")) as H.
  destruct (prune_stale _ _ _) as [stale reg'] eqn:Hp. simpl.
  apply H; [|exists (set_heartbeat 0 (set_online_flag true (new_record 0 (py "alice-0001") (py "KEY"))));
    split_and!; reflexivity].
  unfold sample_registry. auto with pydb.
Defined.

End Registry.
