(* ===== verification/NetworkManager.v ===== *)
(** * Virtual networks (src/server/network_manager.py)

    [NetworkManager] keeps the networks, their member sets, the exposed
    services and the invite codes.  It shares the client registry with the
    server; here it is any [MembershipStore], threaded through the operations
    that update it.  bcrypt ([hashpw], [checkpw]) is a parameter; the values
    that come from [uuid], [random], [gensalt] and [time.time()] are
    arguments. *)

From S2P Require Import Prelude Constants PyStr Json Registry.
Import Registry.

Module NetworkManager.

Record NetworkRecord := mkNetworkRecord {
  network_id : str;
  name : str;
  password_hash : bytes;
  owner_id : str;
  topology : str;
  members : gset str;
  hub_id : option str;
  gateway_id : option str;
  created_at : time
}.

Definition set_members (ms : gset str) (r : NetworkRecord) : NetworkRecord :=
  mkNetworkRecord (network_id r) (name r) (password_hash r) (owner_id r) (topology r) ms
    (hub_id r) (gateway_id r) (created_at r).
Definition set_hub_id (h : option str) (r : NetworkRecord) : NetworkRecord :=
  mkNetworkRecord (network_id r) (name r) (password_hash r) (owner_id r) (topology r)
    (members r) h (gateway_id r) (created_at r).
Definition set_gateway_id (g : option str) (r : NetworkRecord) : NetworkRecord :=
  mkNetworkRecord (network_id r) (name r) (password_hash r) (owner_id r) (topology r)
    (members r) (hub_id r) g (created_at r).

(** A time stamp as a JSON number of seconds. *)
Definition time_json (t : time) : json :=
  let us := dec (SEC + t mod SEC) in JFloat (dec (t / SEC) ++ py "." ++ drop 1 us).

Definition network_to_dict (r : NetworkRecord) (member_count : option Z) : json :=
  JObj [(py "network_id", JStr (network_id r)); (py "name", JStr (name r));
        (py "owner_id", JStr (owner_id r)); (py "topology", JStr (topology r));
        (py "member_count",
          JInt (match member_count with
                | None => Z.of_nat (size (members r))
                | Some n => n
                end));
        (py "created_at", time_json (created_at r))].

Record ServiceRecord := mkServiceRecord {
  sr_service_id : str;
  sr_network_id : str;
  sr_provider_id : str;
  sr_name : str;
  sr_protocol : str;
  sr_local_host : str;
  sr_local_port : json;      (* an int, or a bool that passed as one *)
  sr_created_at : time
}.

Definition service_to_dict (s : ServiceRecord) : json :=
  JObj [(py "service_id", JStr (sr_service_id s)); (py "network_id", JStr (sr_network_id s));
        (py "provider_id", JStr (sr_provider_id s)); (py "name", JStr (sr_name s));
        (py "protocol", JStr (sr_protocol s)); (py "local_host", JStr (sr_local_host s));
        (py "local_port", sr_local_port s); (py "created_at", time_json (sr_created_at s))].

Definition svc_map := list (str * ServiceRecord).

Record NetworkManager := mkNetworkManager {
  nm_networks : list (str * NetworkRecord);
  nm_banned : gset str;
  nm_services : list (str * svc_map);            (* network_id -> service_id -> record *)
  nm_invite_codes : list (str * str);            (* code -> network_id *)
  nm_network_invite_codes : list (str * str)     (* network_id -> code *)
}.

Definition empty_manager : NetworkManager := mkNetworkManager [] ∅ [] [] [].

Definition with_networks (d : list (str * NetworkRecord)) (nm : NetworkManager) :=
  mkNetworkManager d (nm_banned nm) (nm_services nm) (nm_invite_codes nm)
    (nm_network_invite_codes nm).
Definition with_services (d : list (str * svc_map)) (nm : NetworkManager) :=
  mkNetworkManager (nm_networks nm) (nm_banned nm) d (nm_invite_codes nm)
    (nm_network_invite_codes nm).
Definition with_codes (codes by_net : list (str * str)) (nm : NetworkManager) :=
  mkNetworkManager (nm_networks nm) (nm_banned nm) (nm_services nm) codes by_net.

(** bcrypt, which the source calls; an [Err] is the exception it raises. *)
Class Bcrypt := {
  bcrypt_hashpw : bytes -> bytes -> result bytes;      (* password, salt *)
  bcrypt_checkpw : bytes -> bytes -> result bool       (* password, hash *)
}.

Section Ops.
Context {S : Type} {MS : MembershipStore S} {SO : SetOrder str} {BC : Bcrypt} {UN : Unicode}.
Implicit Types (nm : NetworkManager) (s : S).

(** ** Creation and lookup *)

Definition nm_get nm (nid : str) : option NetworkRecord := dget (nm_networks nm) nid.
Definition list_all nm : list NetworkRecord := dvals (nm_networks nm).
Definition nm_len nm : Z := zlen (nm_networks nm).
Definition nm_is_banned nm (nid : str) : bool := bool_decide (nid ∈ nm_banned nm).

(** [network_id or str(uuid.uuid4())]. *)
Definition or_fresh (nid : option str) (uuid : str) : str :=
  match nid with Some (c :: s) => c :: s | _ => uuid end.

Definition create (now : time) (uuid : str) (salt : bytes) nm s
    (nname password owner topo : str) (nid : option str)
    : result (NetworkRecord * NetworkManager * S) :=
  if negb (bool_decide (topo ∈ SUPPORTED_TOPOLOGIES)) then
    raise CValueError (py "unsupported topology: " ++ topo)
  else
    let? pw := encode password in
    let? hash := bcrypt_hashpw pw salt in
    let r := mkNetworkRecord (or_fresh nid uuid) nname hash owner topo {[owner]}
               (if bool_decide (topo = py "hub_and_spoke") then Some owner else None)
               (if bool_decide (topo = py "gateway") then Some owner else None) now in
    Ok (r, with_networks (dset (nm_networks nm) (network_id r) r) nm,
        store_add s owner (network_id r)).

(** ** Membership *)

(** The password check of [join] and [join_by_invite_code], in its [try]. *)
Definition check_password (password : str) (hash : bytes) : result bool :=
  match (let? pw := encode password in bcrypt_checkpw pw hash) with
  | Ok b => Ok b
  | Err e => if is_ValueError e then Ok false else Err e
  end.

Definition add_member (c : str) (r : NetworkRecord) : NetworkRecord :=
  set_members (members r ∪ {[c]}) r.

(** The common end of [join] and [join_by_invite_code]. *)
Definition admit_member nm s (nid c : str) : NetworkManager * S :=
  (with_networks (dalter (add_member c) (nm_networks nm) nid) nm, store_add s c nid).

Definition join nm s (nid c password : str) : result (bool * NetworkManager * S) :=
  match nm_get nm nid with
  | None => Ok (false, nm, s)
  | Some r =>
      if nm_is_banned nm nid then Ok (false, nm, s)
      else
        let? ok := check_password password (password_hash r) in
        if ok then let (nm', s') := admit_member nm s nid c in Ok (true, nm', s')
        else Ok (false, nm, s)
  end.

(** Removal of a member, with the hub and gateway references to it. *)
Definition drop_member (c : str) (r : NetworkRecord) : NetworkRecord :=
  let r := set_members (members r ∖ {[c]}) r in
  let r := if bool_decide (hub_id r = Some c) then set_hub_id None r else r in
  if bool_decide (gateway_id r = Some c) then set_gateway_id None r else r.

Definition leave nm s (nid c : str) : bool * NetworkManager * S :=
  match nm_get nm nid with
  | None => (false, nm, s)
  | Some r =>
      if bool_decide (c ∈ members r) then
        (true, with_networks (dalter (drop_member c) (nm_networks nm) nid) nm,
         store_remove s c nid)
      else (false, nm, s)
  end.

Definition is_member nm (nid c : str) : bool :=
  match nm_get nm nid with Some r => bool_decide (c ∈ members r) | None => false end.

Definition members_of nm (nid : str) : gset str :=
  match nm_get nm nid with Some r => members r | None => ∅ end.

Definition get_peers nm s (nid c : str) : list ClientRecord :=
  match nm_get nm nid with
  | None => []
  | Some r =>
      omap (fun m => if bool_decide (m = c) then None
                     else match store_get s m with
                          | Some cr => if online cr then Some cr else None
                          | None => None
                          end) (set_order (members r))
  end.

Definition list_for_client nm (c : str) : list NetworkRecord :=
  List.filter (fun r => bool_decide (c ∈ members r)) (dvals (nm_networks nm)).

(** ** Deletion *)

Definition delete nm s (nid requester : str) : bool * NetworkManager * S :=
  match nm_get nm nid with
  | None => (false, nm, s)
  | Some r =>
      if negb (bool_decide (owner_id r = requester)) then (false, nm, s)
      else
        let s' := foldl (fun s m => store_remove s m nid) s (set_order (members r)) in
        let codes :=
          match dget (nm_network_invite_codes nm) nid with
          | Some (c :: code) => ddel (nm_invite_codes nm) (c :: code)
          | _ => nm_invite_codes nm
          end in
        (true,
         mkNetworkManager (ddel (nm_networks nm) nid) (nm_banned nm) (nm_services nm) codes
           (ddel (nm_network_invite_codes nm) nid),
         s')
  end.

(** One step of the loop of [purge_client], over a snapshot of the items. *)
Definition purge_step (c : str) (acc : list str * list (str * NetworkRecord) * S)
    (item : str * NetworkRecord) : list str * list (str * NetworkRecord) * S :=
  let '(removed, nets, s) := acc in
  let (nid, r) := item in
  if bool_decide (c ∈ members r) then
    let r' := drop_member c r in
    (removed ++ [nid],
     if bool_decide (members r' = ∅) then ddel nets nid
     else dalter (drop_member c) nets nid,
     store_remove s c nid)
  else acc.

(** The services of one client, dropped from every map. *)
Definition drop_services_of (c : str) (svcs : list (str * svc_map)) : list (str * svc_map) :=
  dmap (fun _ m => dfilter (fun _ sv => negb (bool_decide (sr_provider_id sv = c))) m) svcs.

Definition purge_client nm s (c : str) : list str * NetworkManager * S :=
  let '(removed, nets, s') :=
    foldl (purge_step c) ([], nm_networks nm, s) (nm_networks nm) in
  (removed, with_services (drop_services_of c (nm_services nm)) (with_networks nets nm), s').

(** ** Services *)

Definition expose_service (now : time) (uuid : str) nm (nid provider sname proto host : str)
    (port : json) : result (str * NetworkManager) :=
  match nm_get nm nid with
  | Some r =>
      if bool_decide (provider ∈ members r) then
        let svc := mkServiceRecord uuid nid provider sname proto host port now in
        let m := default [] (dget (nm_services nm) nid) in
        Ok (uuid, with_services (dset (nm_services nm) nid (dset m uuid svc)) nm)
      else raise CValueError (py "client not a member of this network")
  | None => raise CValueError (py "client not a member of this network")
  end.

Definition unexpose_service nm (nid sid : str) : bool * NetworkManager :=
  match dget (nm_services nm) nid with
  | Some m =>
      if dmem m sid
      then (true, with_services (dset (nm_services nm) nid (ddel m sid)) nm)
      else (false, nm)
  | None => (false, nm)
  end.

Definition list_services nm (nid : str) : list ServiceRecord :=
  dvals (default [] (dget (nm_services nm) nid)).

Fixpoint find_service (svcs : list (str * svc_map)) (sid : str) : option ServiceRecord :=
  match svcs with
  | [] => None
  | (_, m) :: rest =>
      match dget m sid with Some sv => Some sv | None => find_service rest sid end
  end.

Definition get_service nm (sid : str) : option ServiceRecord := find_service (nm_services nm) sid.

Fixpoint find_owned (svcs : list (str * svc_map)) (sid c : str) : option str :=
  match svcs with
  | [] => None
  | (nid, m) :: rest =>
      match dget m sid with
      | Some sv => if bool_decide (sr_provider_id sv = c) then Some nid else find_owned rest sid c
      | None => find_owned rest sid c
      end
  end.

Definition unexpose_service_owner nm (sid c : str) : option str * NetworkManager :=
  match find_owned (nm_services nm) sid c with
  | None => (None, nm)
  | Some nid =>
      (Some nid,
       with_services (dalter (fun m => ddel m sid) (nm_services nm) nid) nm)
  end.

Definition purge_client_services nm (c : str) : list str * NetworkManager :=
  (concat (map (fun nm_m => dkeys (dfilter (fun _ sv => bool_decide (sr_provider_id sv = c)) (snd nm_m)))
             (nm_services nm)),
   with_services (drop_services_of c (nm_services nm)) nm).

(** ** Invite codes *)

Definition INVITE_CODE_LENGTH : Z := 8.
Definition INVITE_CODE_ALPHABET : str := py "abcdefghijklmnopqrstuvwxyz0123456789".

Definition set_code (nid code : str) nm : NetworkManager :=
  with_codes (dset (nm_invite_codes nm) code nid) (dset (nm_network_invite_codes nm) nid code) nm.

(** The first of the [n] draws, from draw [i] on, that is not in use. *)
Fixpoint draw_code (draws : nat -> str) (codes : list (str * str)) (i n : nat) : option str :=
  match n with
  | O => None
  | Datatypes.S n' =>
      if dmem codes (draws i) then draw_code draws codes (Datatypes.S i) n'
      else Some (draws i)
  end.

(** [draws] are the results of [random.choices], [hex] is [uuid4().hex]. *)
Definition fallback_code (r : NetworkRecord) (hex : str) : str :=
  lower_str (take 4 (name r)) ++ [45] ++ take 6 hex.

Definition generate_invite_code (draws : nat -> str) (hex : str) nm (nid : str)
    : result (str * NetworkManager) :=
  match nm_get nm nid with
  | None => raise CValueError (py "network not found")
  | Some r =>
      match dget (nm_network_invite_codes nm) nid with
      | Some code => Ok (code, nm)
      | None =>
          let code := match draw_code draws (nm_invite_codes nm) 0 10 with
                      | Some code => code
                      | None => fallback_code r hex
                      end in
          Ok (code, set_code nid code nm)
      end
  end.

Definition join_by_invite_code nm s (code c password : str)
    : result (option NetworkRecord * NetworkManager * S) :=
  match dget (nm_invite_codes nm) code with
  | None => Ok (None, nm, s)
  | Some nid =>
      match nm_get nm nid with
      | None => Ok (None, nm, s)
      | Some r =>
          if nm_is_banned nm nid then Ok (None, nm, s)
          else
            let? ok := check_password password (password_hash r) in
            if ok then
              let (nm', s') := admit_member nm s nid c in Ok (Some (add_member c r), nm', s')
            else Ok (None, nm, s)
      end
  end.

Definition get_invite_code (draws : nat -> str) (hex : str) nm (nid : str)
    : result (option str * NetworkManager) :=
  if dmem (nm_networks nm) nid then
    let? (code, nm') := generate_invite_code draws hex nm nid in Ok (Some code, nm')
  else Ok (None, nm).

(** ** Endpoints for hole punching *)

Definition shared_endpoints_for nm s (nid requester target : str) : option (list (str * Z)) :=
  match nm_get nm nid with
  | None => None
  | Some r =>
      if bool_decide (requester = target) then None
      else if negb (bool_decide (requester ∈ members r)) || negb (bool_decide (target ∈ members r))
      then None
      else
        match store_get s target with
        | None => None
        | Some t =>
            if negb (online t) then None
            else
              match public_endpoint t with
              | None => None
              | Some ep =>
                  if bool_decide (topology r = py "hub_and_spoke")
                     && negb (bool_decide (hub_id r = Some target))
                  then None
                  else Some [ep]
              end
        end
  end.
End Ops.

(** ** The membership invariant

    Membership is recorded twice, in the network's member set and in the
    client's network set of the registry.  [consistent] says that the two
    agree, that records are filed under their own id, and that a hub or a
    gateway is a member of its network. *)
Section Theory.
Context {S : Type} {MS : MembershipStore S} {SO : SetOrder str} {BC : Bcrypt} {UN : Unicode}.
Implicit Types (nm : NetworkManager) (s : S).

Definition in_network s (n c : str) : Prop :=
  exists cr, store_get s c = Some cr /\ n ∈ networks cr.

Definition record_ok (n : str) (r : NetworkRecord) : Prop :=
  network_id r = n
  /\ (forall h, hub_id r = Some h -> h ∈ members r)
  /\ (forall g, gateway_id r = Some g -> g ∈ members r).

Definition consistent nm s : Prop :=
  dict_ok (nm_networks nm)
  /\ (forall n r, nm_get nm n = Some r -> record_ok n r)
  /\ (forall n c, is_member nm n c = true <-> in_network s n c).

Lemma is_member_true nm n c :
  is_member nm n c = true <-> exists r, nm_get nm n = Some r /\ c ∈ members r.
Proof.
  unfold is_member. destruct (nm_get nm n) as [r|]; [|naive_solver].
  rewrite bool_decide_eq_true. naive_solver.
Qed.

Lemma in_network_add s c n n' c' :
  in_network (store_add s c n) n' c' <->
  in_network s n' c' \/ (c = c' /\ n = n' /\ is_Some (store_get s c)).
Proof.
  unfold in_network. rewrite store_get_add. case_decide as Hc; [subst c'|naive_solver].
  destruct (store_get s c) as [cr|]; simpl; [|naive_solver].
  split.
  - intros (? & [= <-] & [Hn|Hn%elem_of_singleton]%elem_of_union); [left|right]; eauto.
  - intros [(? & [= <-] & Hn)|(_ & -> & _)]; eexists; (split; [done|]); simpl; set_solver.
Qed.

Lemma in_network_remove s c n n' c' :
  in_network (store_remove s c n) n' c' <-> in_network s n' c' /\ ~ (c = c' /\ n = n').
Proof.
  unfold in_network. rewrite store_get_remove. case_decide as Hc; [subst c'|naive_solver].
  destruct (store_get s c) as [cr|]; simpl; [|naive_solver].
  split.
  - intros (? & [= <-] & Hn). simpl in Hn. set_solver.
  - intros [(? & [= <-] & Hn) Hne]. eexists. split; [done|]. simpl. set_solver.
Qed.

Lemma in_network_remove_all s n l n' c' :
  in_network (foldl (fun s m => store_remove s m n) s l) n' c' <->
  in_network s n' c' /\ ~ (c' ∈ l /\ n = n').
Proof.
  revert s. induction l as [|m l IH]; intros s; simpl.
  - split; [|tauto]. intros. split; [done|]. by intros [?%elem_of_nil _].
  - rewrite IH, in_network_remove, elem_of_cons. naive_solver.
Qed.

Lemma members_drop c r : members (drop_member c r) = members r ∖ {[c]}.
Proof. unfold drop_member. repeat case_bool_decide; done. Qed.

Lemma record_ok_drop n c r : record_ok n r -> record_ok n (drop_member c r).
Proof.
  intros (Hid & Hh & Hg). unfold record_ok. rewrite members_drop.
  unfold drop_member. repeat case_bool_decide; simpl in *; (split; [done|]);
    split; intros x Hx; simplify_eq; set_solver.
Qed.

Lemma record_ok_add n c r : record_ok n r -> record_ok n (add_member c r).
Proof. intros (Hid & Hh & Hg). split_and!; [done|..]; simpl; set_solver. Qed.

Lemma nm_get_dalter f nm nid n :
  nm_get (with_networks (dalter f (nm_networks nm) nid) nm) n =
    if decide (nid = n) then f <$> nm_get nm n else nm_get nm n.
Proof. apply dget_dalter. Qed.

Lemma is_member_admit nm s nid c n c' :
  is_member (fst (admit_member nm s nid c)) n c' = true <->
  is_member nm n c' = true \/ (c = c' /\ nid = n /\ is_Some (nm_get nm nid)).
Proof.
  rewrite !is_member_true. unfold admit_member. simpl. rewrite nm_get_dalter.
  case_decide as Hn; [subst n|naive_solver].
  destruct (nm_get nm nid) as [r|]; simpl; [|naive_solver].
  split.
  - intros (? & [= <-] & Hc). simpl in Hc. set_solver.
  - intros [(? & [= <-] & Hc)|(-> & _ & _)]; eexists; (split; [done|]); simpl; set_solver.
Qed.

Lemma consistent_admit nm s nid c :
  consistent nm s -> is_Some (nm_get nm nid) -> is_Some (store_get s c) ->
  consistent (fst (admit_member nm s nid c)) (snd (admit_member nm s nid c)).
Proof.
  intros (Hd & Hr & Hm) Hn Hc. split_and!.
  - simpl. by apply dict_ok_dalter.
  - intros n r. simpl. rewrite nm_get_dalter. case_decide as Heq; [|apply Hr]. subst n.
    destruct (nm_get nm nid) as [r0|] eqn:H0; [|done]. intros [= <-].
    by apply record_ok_add, Hr.
  - intros n c'. rewrite is_member_admit. simpl. rewrite in_network_add, Hm. naive_solver.
Qed.

(** ** Preservation *)

Lemma consistent_create now uuid salt nm s nname pw owner topo nid r nm' s' :
  consistent nm s -> is_Some (store_get s owner) ->
  nm_get nm (or_fresh nid uuid) = None ->
  create now uuid salt nm s nname pw owner topo nid = Ok (r, nm', s') -> consistent nm' s'.
Proof.
  intros (Hd & Hr & Hm) Ho Hf H. unfold create in H. destruct (negb _); [done|].
  do 2 inv_bind H. apply Ok_inj in H. simplify_eq. simpl.
  set (n0 := or_fresh nid uuid) in *. split_and!; simpl.
  - by apply dict_ok_dset.
  - intros n r. unfold nm_get. simpl. rewrite dget_dset. case_decide as Hn; [|apply Hr].
    intros [= <-]. subst n. split_and!; simpl; [done|..]; intros h; case_bool_decide;
      intros; simplify_eq; set_solver.
  - intros n c. rewrite is_member_true, in_network_add, <- Hm, is_member_true.
    unfold nm_get in *. simpl. rewrite dget_dset. case_decide as Hn; [subst n|naive_solver].
    rewrite Hf. split.
    + intros (? & [= <-] & Hc). simpl in Hc. right. set_solver.
    + intros [(? & [=] & _)|(-> & _ & _)]. eexists. split; [done|]. simpl. set_solver.
Qed.

Lemma join_cases nm s nid c pw b nm' s' :
  join nm s nid c pw = Ok (b, nm', s') ->
  if b then exists r, nm_get nm nid = Some r /\ nm_is_banned nm nid = false
              /\ check_password pw (password_hash r) = Ok true
              /\ (nm', s') = admit_member nm s nid c
  else nm' = nm /\ s' = s.
Proof.
  unfold join. destruct (nm_get nm nid) as [r|]; [|intros [= <- <- <-]; done].
  destruct (nm_is_banned nm nid) eqn:Hb; [intros [= <- <- <-]; done|].
  intros H. inv_bind H. destruct a.
  - destruct (admit_member nm s nid c) as [nm1 s1] eqn:Ha'. apply Ok_inj in H. simplify_eq. eauto.
  - apply Ok_inj in H. by simplify_eq.
Qed.

Lemma consistent_join nm s nid c pw b nm' s' :
  consistent nm s -> is_Some (store_get s c) ->
  join nm s nid c pw = Ok (b, nm', s') -> consistent nm' s'.
Proof.
  intros Hok Hc H%join_cases. destruct b; [|by destruct H as [-> ->]].
  destruct H as (r & Hr & _ & _ & Ha). pose proof (consistent_admit nm s nid c) as Hadm.
  rewrite <- Ha in Hadm. by apply Hadm.
Qed.

Lemma join_by_invite_code_cases nm s code c pw o nm' s' :
  join_by_invite_code nm s code c pw = Ok (o, nm', s') ->
  match o with
  | Some r' => exists nid r, dget (nm_invite_codes nm) code = Some nid
      /\ nm_get nm nid = Some r /\ r' = add_member c r /\ nm_is_banned nm nid = false
      /\ check_password pw (password_hash r) = Ok true
      /\ (nm', s') = admit_member nm s nid c
  | None => nm' = nm /\ s' = s
  end.
Proof.
  unfold join_by_invite_code.
  destruct (dget (nm_invite_codes nm) code) as [nid|]; [|intros [= <- <- <-]; done].
  destruct (nm_get nm nid) as [r|] eqn:Hr; [|intros [= <- <- <-]; done].
  destruct (nm_is_banned nm nid) eqn:Hb; [intros [= <- <- <-]; done|].
  intros H. inv_bind H. destruct a.
  - destruct (admit_member nm s nid c) as [nm1 s1] eqn:Ha'. apply Ok_inj in H. simplify_eq.
    exists nid, r. by split_and!.
  - apply Ok_inj in H. by simplify_eq.
Qed.

Lemma consistent_join_by_invite_code nm s code c pw o nm' s' :
  consistent nm s -> is_Some (store_get s c) ->
  join_by_invite_code nm s code c pw = Ok (o, nm', s') -> consistent nm' s'.
Proof.
  intros Hok Hc H%join_by_invite_code_cases. destruct o as [r'|]; [|by destruct H as [-> ->]].
  destruct H as (nid & r & _ & Hr & _ & _ & _ & Ha). pose proof (consistent_admit nm s nid c) as Hadm.
  rewrite <- Ha in Hadm. by apply Hadm.
Qed.

Lemma consistent_leave nm s nid c b nm' s' :
  consistent nm s -> leave nm s nid c = (b, nm', s') -> consistent nm' s'.
Proof.
  intros (Hd & Hr & Hm) H. unfold leave in H.
  destruct (nm_get nm nid) as [r|] eqn:Hn; [|by simplify_eq].
  case_bool_decide as Hc; [|by simplify_eq]. simplify_eq. split_and!.
  - simpl. by apply dict_ok_dalter.
  - intros n r'. rewrite nm_get_dalter. case_decide as Heq; [|apply Hr]. subst n.
    rewrite Hn. intros [= <-]. by apply record_ok_drop, Hr.
  - intros n c'. rewrite in_network_remove, <- Hm, !is_member_true, nm_get_dalter.
    case_decide as Heq; [subst n|naive_solver]. rewrite Hn. simpl. split.
    + intros (? & [= <-] & Hc'). rewrite members_drop in Hc'. set_solver.
    + intros [(? & [= <-] & Hc') Hne]. eexists. split; [done|]. rewrite members_drop. set_solver.
Qed.

Lemma consistent_delete nm s nid req b nm' s' :
  consistent nm s -> delete nm s nid req = (b, nm', s') -> consistent nm' s'.
Proof.
  intros (Hd & Hr & Hm) H. unfold delete in H.
  destruct (nm_get nm nid) as [r|] eqn:Hn; [|by simplify_eq].
  destruct (negb _); [by simplify_eq|]. simplify_eq. split_and!; simpl.
  - by apply dict_ok_ddel.
  - intros n r'. unfold nm_get. simpl. rewrite dget_ddel. case_decide; [done|]. apply Hr.
  - intros n c. rewrite in_network_remove_all, elem_of_set_order, <- Hm, !is_member_true.
    unfold nm_get in *. simpl. rewrite dget_ddel. case_decide as Heq; [subst n|naive_solver].
    rewrite Hn. naive_solver.
Qed.

(** What [purge_client] leaves of a network. *)
Definition purge_net (c : str) (r : NetworkRecord) : option NetworkRecord :=
  if bool_decide (c ∈ members r) then
    if bool_decide (members (drop_member c r) = ∅) then None else Some (drop_member c r)
  else Some r.

Lemma purge_fold c items : forall removed nets s,
  dict_ok items -> dict_ok nets ->
  (forall n r, dget items n = Some r -> dget nets n = Some r) ->
  let '(removed', nets', s') := foldl (purge_step c) (removed, nets, s) items in
  removed' = removed ++ dkeys (dfilter (fun _ r => bool_decide (c ∈ members r)) items)
  /\ dict_ok nets'
  /\ (forall n, dget nets' n = match dget items n with
                               | Some r => purge_net c r
                               | None => dget nets n
                               end)
  /\ (forall n c', in_network s' n c' <-> in_network s n c' /\
        ~ (c = c' /\ exists r, dget items n = Some r /\ c ∈ members r)).
Proof.
  induction items as [|[n0 r0] items IH]; intros removed nets s Hi Hn Hsub; cbn [foldl].
  { split_and!; [by rewrite app_nil_r|done|done|]. intros n c'. simpl. naive_solver. }
  pose proof Hi as [Hn0 Hi']%NoDup_cons. simpl in Hn0.
  assert (Hfresh : dget items n0 = None) by (by apply not_elem_of_dkeys).
  pose proof (Hsub n0 r0) as H0. simpl in H0. rewrite decide_True in H0 by done.
  specialize (H0 eq_refl).
  assert (Hne : forall n r, dget items n = Some r -> n0 <> n) by (intros n r Hr ->; congruence).
  assert (Hsub' : forall n r, dget items n = Some r -> dget nets n = Some r).
  { intros n r Hr. apply Hsub. simpl. rewrite decide_False; eauto. }
  unfold purge_step at 2. destruct (bool_decide (c ∈ members r0)) eqn:Hc.
  - set (nets1 := if bool_decide (members (drop_member c r0) = ∅) then ddel nets n0
                  else dalter (drop_member c) nets n0).
    assert (Hg : forall n, dget nets1 n = if decide (n0 = n) then purge_net c r0 else dget nets n).
    { intros n. unfold nets1, purge_net. rewrite Hc.
      destruct (bool_decide (members (drop_member c r0) = ∅));
        rewrite ?dget_ddel, ?dget_dalter; destruct (decide (n0 = n)); subst; by rewrite ?H0. }
    specialize (IH (removed ++ [n0]) nets1 (store_remove s c n0) Hi').
    destruct (foldl (purge_step c) _ items) as [[removed' nets'] s'].
    destruct IH as (-> & Hd' & Hg' & Hin').
    { unfold nets1. destruct (bool_decide (members _ = ∅)); eauto with pydb. }
    { intros n r Hr. rewrite Hg, decide_False by eauto. eauto. }
    split_and!; [|done| |].
    + unfold dfilter. simpl. rewrite Hc. by rewrite <- app_assoc.
    + intros n. rewrite Hg', Hg. simpl. destruct (decide (n0 = n)); [subst n; by rewrite Hfresh|done].
    + intros n c'. rewrite Hin', in_network_remove. simpl. apply bool_decide_eq_true in Hc.
      destruct (decide (n0 = n)); [subst n; rewrite Hfresh|]; naive_solver.
  - specialize (IH removed nets s Hi' Hn Hsub').
    destruct (foldl (purge_step c) _ items) as [[removed' nets'] s'].
    destruct IH as (-> & Hd' & Hg' & Hin'). apply bool_decide_eq_false in Hc.
    split_and!; [|done| |].
    + unfold dfilter. simpl. by rewrite bool_decide_false.
    + intros n. rewrite Hg'. simpl. destruct (decide (n0 = n)); [subst n|done].
      rewrite Hfresh. unfold purge_net. by rewrite bool_decide_false.
    + intros n c'. rewrite Hin'. simpl. destruct (decide (n0 = n)); [subst n; rewrite Hfresh|]; naive_solver.
Qed.

Lemma consistent_purge_client nm s c removed nm' s' :
  consistent nm s -> purge_client nm s c = (removed, nm', s') -> consistent nm' s'.
Proof.
  intros (Hd & Hr & Hm) H. unfold purge_client in H.
  pose proof (purge_fold c (nm_networks nm) [] (nm_networks nm) s Hd Hd (fun _ _ H => H)) as Hp.
  destruct (foldl _ _ _) as [[removed1 nets1] s1]. destruct Hp as (_ & Hd1 & Hg & Hin).
  simplify_eq. split_and!; simpl.
  - done.
  - intros n r. unfold nm_get. simpl. rewrite Hg. fold (nm_get nm n).
    destruct (nm_get nm n) as [r0|] eqn:Hn; [|done]. unfold purge_net.
    repeat case_bool_decide; intros; simplify_eq; [apply record_ok_drop|]; by apply Hr.
  - intros n c'. rewrite Hin, <- Hm, !is_member_true. unfold nm_get in *. simpl. rewrite Hg.
    destruct (dget (nm_networks nm) n) as [r0|] eqn:Hn; [|naive_solver].
    assert (Hcc : ~ (c = c' /\ exists r, Some r0 = Some r /\ c ∈ members r) <->
      ~ (c = c' /\ c ∈ members r0)) by (clear; naive_solver).
    rewrite Hcc. assert (Hex : (exists r, Some r0 = Some r /\ c' ∈ members r) <-> c' ∈ members r0)
      by (clear; naive_solver).
    rewrite Hex. clear - SO. unfold purge_net. destruct (decide (c ∈ members r0)) as [Hc|Hc].
    + rewrite bool_decide_true by done. rewrite members_drop.
      destruct (decide (members r0 ∖ {[c]} = ∅)) as [He|He].
      * rewrite bool_decide_true by done. split; [by intros (? & [=] & _)|]. set_solver.
      * rewrite bool_decide_false by done. split.
        -- intros (? & [= <-] & Hc'). rewrite members_drop in Hc'. set_solver.
        -- intros [? ?]. eexists. split; [done|]. rewrite members_drop. set_solver.
    + rewrite bool_decide_false by done. set_solver.
Qed.

(** ** The manager as a transition system

    One step is one call of a public operation, or a change of the registry
    that leaves the network sets alone (registration, heart beats, status).
    [create] draws a fresh id (a version 4 UUID); the caller of [create] and
    of the joins is a registered client. *)
Inductive nm_step : NetworkManager * S -> NetworkManager * S -> Prop :=
  | step_create now uuid salt nm s nname pw owner topo r nm' s' :
      is_Some (store_get s owner) -> nm_get nm uuid = None -> uuid <> [] ->
      create now uuid salt nm s nname pw owner topo None = Ok (r, nm', s') ->
      nm_step (nm, s) (nm', s')
  | step_join nm s nid c pw b nm' s' :
      is_Some (store_get s c) ->
      join nm s nid c pw = Ok (b, nm', s') -> nm_step (nm, s) (nm', s')
  | step_invite nm s code c pw o nm' s' :
      is_Some (store_get s c) ->
      join_by_invite_code nm s code c pw = Ok (o, nm', s') -> nm_step (nm, s) (nm', s')
  | step_leave nm s nid c b nm' s' :
      leave nm s nid c = (b, nm', s') -> nm_step (nm, s) (nm', s')
  | step_delete nm s nid req b nm' s' :
      delete nm s nid req = (b, nm', s') -> nm_step (nm, s) (nm', s')
  | step_purge nm s c removed nm' s' :
      purge_client nm s c = (removed, nm', s') -> nm_step (nm, s) (nm', s')
  | step_code draws hex nm s nid code nm' :
      generate_invite_code draws hex nm nid = Ok (code, nm') -> nm_step (nm, s) (nm', s)
  | step_expose now uuid nm s nid c sname proto host port sid nm' :
      expose_service now uuid nm nid c sname proto host port = Ok (sid, nm') ->
      nm_step (nm, s) (nm', s)
  | step_unexpose nm s sid c o nm' :
      unexpose_service_owner nm sid c = (o, nm') -> nm_step (nm, s) (nm', s)
  | step_registry nm s s' :
      (forall n c, in_network s' n c <-> in_network s n c) -> nm_step (nm, s) (nm, s').

Lemma consistent_networks nm nm' s :
  nm_networks nm' = nm_networks nm -> consistent nm s -> consistent nm' s.
Proof. unfold consistent, is_member, nm_get. by intros ->. Qed.

Lemma consistent_step st st' :
  nm_step st st' -> consistent (fst st) (snd st) -> consistent (fst st') (snd st').
Proof.
  intros Hst Hok. destruct Hst; simpl in *.
  - by eapply (consistent_create now uuid salt nm s nname pw owner topo None r).
  - by eapply consistent_join.
  - by eapply consistent_join_by_invite_code.
  - by eapply consistent_leave.
  - by eapply consistent_delete.
  - by eapply consistent_purge_client.
  - unfold generate_invite_code in *. repeat case_match; try done; simplify_eq; try done;
      by apply (consistent_networks nm).
  - unfold expose_service in *. repeat case_match; try done; simplify_eq.
    by apply (consistent_networks nm).
  - unfold unexpose_service_owner in *. case_match; simplify_eq; [|done].
    by apply (consistent_networks nm).
  - destruct Hok as (Hd & Hr & Hm). split_and!; [done|done|]. intros. by rewrite Hm.
Qed.

(** The membership invariant holds in every reachable state of the
    manager: a client is in a network's member set if and only if the network
    is in the registered client's network set, records are filed under their
    own ids, and hubs and gateways are members of their networks. *)
Theorem reachable_consistent s0 nm s :
  (forall n c, ~ in_network s0 n c) ->
  rtc nm_step (empty_manager, s0) (nm, s) -> consistent nm s.
Proof.
  intros H0 Hr.
  assert (Hi : consistent empty_manager s0).
  { split_and!; [apply dict_ok_nil|done|]. intros n c. split; [done|]. by intros ?%H0. }
  change (consistent (fst (nm, s)) (snd (nm, s))).
  change (consistent (fst (empty_manager, s0)) (snd (empty_manager, s0))) in Hi.
  revert Hi. induction Hr; eauto using consistent_step.
Qed.

(** ** Functional behaviour of the membership operations *)

(** C8 The membership operations refine the updates of one abstract relation
    between networks and clients: a successful [join] adds the one pair, a
    refused one changes nothing; [leave] succeeds exactly for members and
    removes the one pair; [purge_client] removes all pairs of the client and
    reports exactly the networks it was in. *)
Theorem membership_refinement nm s :
  consistent nm s ->
  (forall nid c pw b nm' s', join nm s nid c pw = Ok (b, nm', s') ->
     forall n c', is_member nm' n c' = true <->
       is_member nm n c' = true \/ (b = true /\ n = nid /\ c' = c))
  /\ (forall nid c b nm' s', leave nm s nid c = (b, nm', s') ->
     b = is_member nm nid c
     /\ forall n c', is_member nm' n c' = true <->
          is_member nm n c' = true /\ ~ (n = nid /\ c' = c))
  /\ (forall c removed nm' s', purge_client nm s c = (removed, nm', s') ->
     (forall n, n ∈ removed <-> is_member nm n c = true)
     /\ forall n c', is_member nm' n c' = true <-> is_member nm n c' = true /\ c' <> c).
Proof.
  intros Hok. split_and!.
  - intros nid c pw b nm' s' H%join_cases n c'. destruct b; [|by destruct H as [-> _]; naive_solver].
    destruct H as (r & Hr & _ & _ & Ha). pose proof (is_member_admit nm s nid c n c') as Hadm.
    rewrite <- Ha in Hadm. simpl in Hadm. rewrite Hadm, Hr. naive_solver.
  - intros nid c b nm' s' H. unfold leave in H. unfold is_member at 1.
    destruct (nm_get nm nid) as [r|] eqn:Hn.
    + destruct (decide (c ∈ members r)) as [Hc|Hc].
      * rewrite bool_decide_true in H by done. simplify_eq.
        split; [by rewrite bool_decide_true|]. intros n c'. rewrite !is_member_true, nm_get_dalter.
        destruct (decide (nid = n)) as [->|Hne]; [|naive_solver]. rewrite Hn. simpl. split.
        -- intros (? & [= <-] & Hc'). rewrite members_drop in Hc'. set_solver.
        -- intros [(? & [= <-] & Hc') Hne]. eexists. split; [done|]. rewrite members_drop. set_solver.
      * rewrite bool_decide_false in H by done. simplify_eq.
        split; [by rewrite bool_decide_false|]. intros n c'. rewrite !is_member_true. naive_solver.
    + simplify_eq. split; [done|]. intros n c'. rewrite !is_member_true. naive_solver.
  - intros c removed nm' s' H. destruct Hok as (Hd & Hr & Hm).
    pose proof (consistent_purge_client nm s c removed nm' s' (conj Hd (conj Hr Hm)) H) as (_ & _ & Hm').
    unfold purge_client in H.
    pose proof (purge_fold c (nm_networks nm) [] (nm_networks nm) s Hd Hd (fun _ _ H => H)) as Hp.
    destruct (foldl _ _ _) as [[removed1 nets1] s1]. destruct Hp as (Hrem & _ & _ & Hin).
    simplify_eq. split.
    + intros n. simpl. rewrite elem_of_dkeys, dget_dfilter by done. rewrite is_member_true.
      unfold nm_get. destruct (dget (nm_networks nm) n) as [r|]; [|by split; [intros [? ?]|naive_solver]].
      case_bool_decide; [naive_solver|]. split; [by intros [? ?]|naive_solver].
    + intros n c'. rewrite Hm', Hin, <- Hm. rewrite is_member_true. unfold nm_get.
      clear. naive_solver.
Qed.

(** Deletion: [delete] succeeds exactly when the network exists and the
    requester is its owner.  Then the network is gone, nobody is a member of
    it any more on either side, its invite code is dead, and every other
    network and membership is as before; otherwise nothing changes. *)
Theorem delete_owner_only nm s nid req b nm' s' :
  consistent nm s ->
  delete nm s nid req = (b, nm', s') ->
  (b = true <-> exists r, nm_get nm nid = Some r /\ owner_id r = req)
  /\ (b = false -> nm' = nm /\ s' = s)
  /\ (b = true ->
      nm_get nm' nid = None
      /\ (forall n, n <> nid -> nm_get nm' n = nm_get nm n)
      /\ (forall n c, in_network s' n c <-> in_network s n c /\ n <> nid)
      /\ dget (nm_network_invite_codes nm') nid = None
      /\ (forall code, dget (nm_network_invite_codes nm) nid = Some code -> code <> [] ->
            dget (nm_invite_codes nm') code = None)).
Proof.
  intros (Hd & Hr & Hm) H. unfold delete in H. destruct (nm_get nm nid) as [r|] eqn:Hn.
  2:{ simplify_eq. split_and!; [naive_solver|done|done]. }
  destruct (decide (owner_id r = req)) as [Ho|Ho].
  2:{ rewrite bool_decide_false in H by done. simpl in H. simplify_eq.
      split_and!; [naive_solver|done|done]. }
  rewrite bool_decide_true in H by done. simpl in H. simplify_eq.
  split_and!; [naive_solver|done|]. intros _. unfold nm_get in *. simpl. split_and!.
  - rewrite dget_ddel. by rewrite decide_True.
  - intros n Hne. rewrite dget_ddel. by rewrite decide_False.
  - intros n c. rewrite in_network_remove_all, elem_of_set_order, <- Hm, is_member_true.
    unfold nm_get. split; [|naive_solver]. intros [(r' & Hr' & Hc) Hne]. split; [eauto|].
    intros ->. apply Hne. split; [|done]. by simplify_eq.
  - rewrite dget_ddel. by rewrite decide_True.
  - intros code Hcode Hne. rewrite Hcode. destruct code; [done|].
    rewrite dget_ddel. by rewrite decide_True.
Qed.

(** C18 Endpoint sharing: the server reveals an endpoint of [target] to
    [requester] exactly when both are distinct members of the network, the
    target is online with a known endpoint and, in a hub-and-spoke network,
    the target is the hub; and then it reveals that one endpoint. *)
Theorem shared_endpoints_exact nm s nid requester target eps :
  shared_endpoints_for nm s nid requester target = Some eps <->
  exists r t ep,
    nm_get nm nid = Some r /\ store_get s target = Some t
    /\ requester <> target
    /\ requester ∈ members r /\ target ∈ members r
    /\ online t = true /\ public_endpoint t = Some ep
    /\ (topology r = TOPOLOGY_HUB_AND_SPOKE -> hub_id r = Some target)
    /\ eps = [ep].
Proof.
  unfold shared_endpoints_for. change (py "hub_and_spoke") with TOPOLOGY_HUB_AND_SPOKE.
  split.
  - intros H. destruct (nm_get nm nid) as [r|]; [|done].
    destruct (bool_decide (requester = target)) eqn:H1; [done|].
    destruct (bool_decide (requester ∈ members r)) eqn:H2; [|done].
    destruct (bool_decide (target ∈ members r)) eqn:H3; [|done]. simpl in H.
    destruct (store_get s target) as [t|]; [|done].
    destruct (online t) eqn:H4; [|done]. simpl in H.
    destruct (public_endpoint t) as [ep|] eqn:H5; [|done].
    exists r, t, ep. rewrite bool_decide_eq_false in H1. rewrite bool_decide_eq_true in H2, H3.
    split_and!; try done.
    + intros Ht. rewrite bool_decide_true in H by done. simpl in H.
      by destruct (bool_decide_reflect (hub_id r = Some target)).
    + destruct (_ && _); by simplify_eq.
  - intros (r & t & ep & -> & -> & Hne & H2 & H3 & H4 & H5 & H6 & ->).
    rewrite bool_decide_false by done. rewrite !bool_decide_true by done.
    rewrite H4, H5. simpl.
    destruct (bool_decide_reflect (topology r = TOPOLOGY_HUB_AND_SPOKE)) as [Ht|Ht]; [|done].
    by rewrite bool_decide_true by auto.
Qed.

(** ** Invite codes and passwords *)

Lemma generate_code_maps draws hex nm nid code nm' :
  generate_invite_code draws hex nm nid = Ok (code, nm') ->
  dget (nm_network_invite_codes nm') nid = Some code
  /\ nm_networks nm' = nm_networks nm /\ nm_banned nm' = nm_banned nm
  /\ (dget (nm_network_invite_codes nm) nid = None -> dget (nm_invite_codes nm') code = Some nid).
Proof.
  unfold generate_invite_code. destruct (nm_get nm nid) as [r|]; [|done].
  destruct (dget (nm_network_invite_codes nm) nid) as [c|] eqn:Hc.
  - by intros [= <- <-].
  - intros [= <- <-]. simpl. split_and!; try done; intros; by rewrite dget_dset_eq.
Qed.

(** Invite codes: joining with the code that was generated for a network
    is joining that network, for every client and password: the same
    outcome, the same new state; the record is returned on success. *)
Theorem invite_code_is_join draws hex nm s nid code nm1 c pw :
  dget (nm_network_invite_codes nm) nid = None ->
  generate_invite_code draws hex nm nid = Ok (code, nm1) ->
  match join nm1 s nid c pw with
  | Ok (b, nm', s') =>
      exists o, join_by_invite_code nm1 s code c pw = Ok (o, nm', s')
        /\ (b = true -> o = nm_get nm' nid) /\ (b = false -> o = None)
  | Err e => join_by_invite_code nm1 s code c pw = Err e
  end.
Proof.
  intros Hnone (_ & _ & _ & Hcode)%generate_code_maps. specialize (Hcode Hnone).
  unfold join, join_by_invite_code. rewrite Hcode.
  destruct (nm_get nm1 nid) as [r|] eqn:Hr; [|by exists None].
  destruct (nm_is_banned nm1 nid); [by exists None|].
  destruct (check_password pw (password_hash r)) as [[]|e]; simpl; [|by exists None|done].
  eexists. split_and!; [done| |done]. intros _. rewrite nm_get_dalter.
  rewrite decide_True by done. by rewrite Hr.
Qed.

(** bcrypt's documented contract: a password checks against its own hash. *)
Definition bcrypt_correct : Prop :=
  forall pw salt h, bcrypt_hashpw pw salt = Ok h -> bcrypt_checkpw pw h = Ok true.

(** Creating and joining: after [create], the owner is the one member,
    and any client that presents the password of the creator is admitted. *)
Theorem create_then_join now uuid salt nm s nname pw owner topo r nm1 s1 c :
  bcrypt_correct ->
  consistent nm s -> nm_get nm uuid = None -> uuid ∉ nm_banned nm -> uuid <> [] ->
  create now uuid salt nm s nname pw owner topo None = Ok (r, nm1, s1) ->
  nm_get nm1 uuid = Some r /\ members r = {[owner]} /\ owner_id r = owner
  /\ (forall n, n <> uuid -> nm_get nm1 n = nm_get nm n)
  /\ exists nm2 s2, join nm1 s1 uuid c pw = Ok (true, nm2, s2) /\ is_member nm2 uuid c = true.
Proof.
  intros Hb Hok Hf Hban Hne H. unfold create in H. destruct (negb _); [done|].
  inv_bind H. inv_bind H. injection H as Hr Hnm1 Hs1.
  assert (Hg : nm_get nm1 uuid = Some r) by (subst nm1 r; apply dget_dset_eq).
  assert (Hbn : nm_is_banned nm1 uuid = false) by (subst nm1; by apply bool_decide_false).
  assert (Hpw : password_hash r = a0) by (by subst r).
  split_and!; [done|by subst r|by subst r| |].
  - intros n Hn. subst nm1 r. unfold nm_get. simpl. by rewrite dget_dset_ne.
  - exists (fst (admit_member nm1 s1 uuid c)), (snd (admit_member nm1 s1 uuid c)). split.
    + unfold join, check_password. rewrite Hg, Hbn, Ha, Hpw. simpl. by rewrite (Hb _ _ _ Ha0).
    + apply is_member_admit. right. split_and!; eauto.
Qed.

(** ** Services *)

Lemma find_owned_spec svcs sid c nid :
  dict_ok svcs ->
  find_owned svcs sid c = Some nid ->
  exists m sv, dget svcs nid = Some m /\ dget m sid = Some sv /\ sr_provider_id sv = c.
Proof.
  intros Hd H. assert (Hin : exists m sv, (nid, m) ∈ svcs /\ dget m sid = Some sv /\ sr_provider_id sv = c).
  { clear Hd. revert H. induction svcs as [|[n m] svcs IH]; simpl; [done|].
    destruct (dget m sid) as [sv|] eqn:Hs.
    - case_bool_decide; [intros [= <-]; exists m, sv; split_and!; [left|..]; done|].
      intros (m' & sv' & ? & ?)%IH. exists m', sv'. split; [by right|done].
    - intros (m' & sv' & ? & ?)%IH. exists m', sv'. split; [by right|done]. }
  destruct Hin as (m & sv & Hin & ? & ?). exists m, sv. split_and!; try done. by apply elem_dget.
Qed.

(** Services: only the provider withdraws a service.
    [unexpose_service_owner] answers a network only if the caller is the
    provider of a service of that id there, and then removes that entry and
    no other; when it answers [None] nothing changes. *)
Theorem service_ownership nm sid c o nm' :
  dict_ok (nm_services nm) ->
  unexpose_service_owner nm sid c = (o, nm') ->
  match o with
  | None => nm' = nm
  | Some nid =>
      (exists m sv, dget (nm_services nm) nid = Some m /\ dget m sid = Some sv
         /\ sr_provider_id sv = c)
      /\ forall n m', dget (nm_services nm') n = Some m' ->
           exists m, dget (nm_services nm) n = Some m
             /\ forall i, dget m' i = if decide (n = nid /\ i = sid) then None else dget m i
  end.
Proof.
  intros Hd H. unfold unexpose_service_owner in H.
  destruct (find_owned (nm_services nm) sid c) as [nid|] eqn:Hf; [|by simplify_eq].
  simplify_eq. split; [by apply find_owned_spec|]. simpl. intros n m'. rewrite dget_dalter.
  destruct (decide (nid = n)) as [->|Hne].
  - destruct (dget (nm_services nm) n) as [m|]; [|done]. intros [= <-]. exists m.
    split; [done|]. intros i. rewrite dget_ddel. repeat case_decide; naive_solver.
  - intros Hm. exists m'. split; [done|]. intros i. rewrite decide_False; naive_solver.
Qed.
End Theory.

(** ** Concrete runs *)

(** A bcrypt whose hash is the password, to evaluate the model with. *)
Definition plain_bcrypt : Bcrypt := {|
  bcrypt_hashpw pw _ := Ok pw;
  bcrypt_checkpw pw h := Ok (bool_decide (pw = h))
|}.

Section Runs.
#[local] Existing Instance plain_bcrypt.
#[local] Existing Instance ascii_only.
#[local] Instance run_order : SetOrder str := elements_order.

Definition alice : str := py "alice-0001".
Definition bob : str := py "bob-000001".
Definition run_reg : ClientRegistry := register 0 (register 0 [] alice (py "K1")) bob (py "K2").

Definition run_create : result (NetworkRecord * NetworkManager * ClientRegistry) :=
  create 0 (py "net-1") [] empty_manager run_reg (py "lan") (py "pw") alice TOPOLOGY_MESH None.

Definition run_nm : NetworkManager :=
  match run_create with Ok (_, nm, _) => nm | Err _ => empty_manager end.
Definition run_store : ClientRegistry :=
  match run_create with Ok (_, _, s) => s | Err _ => [] end.

Lemma run_reg_empty n c : ~ in_network (MS := registry_store) run_reg n c.
Proof.
  intros (cr & Hc & Hn). change (dget run_reg c = Some cr) in Hc. unfold run_reg in Hc.
  rewrite !dget_register in Hc. destruct (decide (bob = c)), (decide (alice = c)); try done;
    rewrite ?decide_False in Hc by done; simpl in Hc; simplify_eq; set_solver.
Qed.

Lemma run_create_step : nm_step (S := ClientRegistry) (empty_manager, run_reg) (run_nm, run_store).
Proof.
  eapply (step_create 0 (py "net-1") [] _ _ (py "lan") (py "pw") alice TOPOLOGY_MESH);
    [by eexists|done|done|reflexivity].
Qed.

Lemma reachable_consistent_witness : consistent run_nm run_store.
Proof.
  apply (reachable_consistent run_reg); [exact run_reg_empty|].
  apply rtc_once, run_create_step.
Defined.

Lemma run_consistent : consistent run_nm run_store.
Proof.
  apply (consistent_step _ _ run_create_step).
  split_and!; [apply dict_ok_nil|done|]. intros n c. split; [done|]. by intros ?%run_reg_empty.
Qed.

Lemma membership_refinement_witness :
  is_member run_nm (py "net-1") bob = false
  /\ forall n c, is_member (snd (fst (leave run_nm run_store (py "net-1") alice))) n c = true <->
       is_member run_nm n c = true /\ ~ (n = py "net-1" /\ c = alice).
Proof.
  split; [vm_compute; reflexivity|].
  destruct (membership_refinement run_nm run_store run_consistent) as (_ & Hl & _).
  destruct (leave run_nm run_store (py "net-1") alice) as [[b nm'] s'] eqn:H.
  exact (proj2 (Hl _ _ _ _ _ H)).
Defined.

Lemma delete_owner_only_witness :
  fst (fst (delete run_nm run_store (py "net-1") bob)) = false
  /\ nm_get (snd (fst (delete run_nm run_store (py "net-1") alice))) (py "net-1") = None.
Proof.
  split; [vm_compute; reflexivity|].
  destruct (delete run_nm run_store (py "net-1") alice) as [[b nm'] s'] eqn:H.
  assert (Hb : b = true) by (vm_compute in H; by injection H as <- _ _).
  apply (delete_owner_only run_nm run_store (py "net-1") alice b nm' s' run_consistent H). exact Hb.
Defined.

Definition run_code : result (str * NetworkManager) :=
  generate_invite_code (fun _ => py "a3x9k2bc") (py "00ff00ff") run_nm (py "net-1").

Lemma invite_code_is_join_witness :
  exists nm1, run_code = Ok (py "a3x9k2bc", nm1)
    /\ exists o nm' s', join_by_invite_code nm1 run_store (py "a3x9k2bc") bob (py "pw") = Ok (o, nm', s')
         /\ o = nm_get nm' (py "net-1").
Proof.
  eexists. split; [reflexivity|].
  pose proof (invite_code_is_join (fun _ => py "a3x9k2bc") (py "00ff00ff") run_nm run_store
    (py "net-1") (py "a3x9k2bc") _ bob (py "pw") eq_refl eq_refl) as H.
  destruct (join _ _ _ _ _) as [[[b nm'] s']|e] eqn:Hj.
  - destruct H as (o & Hi & Ht & _). exists o, nm', s'. split; [exact Hi|]. apply Ht.
    vm_compute in Hj. by injection Hj as <- _ _.
  - vm_compute in Hj. discriminate.
Defined.

Lemma create_then_join_witness :
  exists nm2 s2, join run_nm run_store (py "net-1") bob (py "pw") = Ok (true, nm2, s2).
Proof.
  destruct (create_then_join 0 (py "net-1") [] empty_manager run_reg (py "lan") (py "pw") alice
    TOPOLOGY_MESH (match run_create with Ok (r, _, _) => r | Err _ => mkNetworkRecord [] [] [] [] [] ∅ None None 0 end)
    run_nm run_store bob) as (_ & _ & _ & _ & nm2 & s2 & Hj & _).
  - intros pw salt h [= <-]. simpl. by rewrite bool_decide_true.
  - split_and!; [apply dict_ok_nil|done|]. intros n c. split; [done|]. by intros ?%run_reg_empty.
  - done.
  - done.
  - done.
  - reflexivity.
  - exists nm2, s2. exact Hj.
Defined.

Definition run_exposed : NetworkManager :=
  match expose_service 0 (py "svc-1") run_nm (py "net-1") alice (py "web") (py "tcp")
          (py "127.0.0.1") (JInt 80) with
  | Ok (_, nm) => nm
  | Err _ => run_nm
  end.

Lemma service_ownership_witness :
  snd (unexpose_service_owner run_exposed (py "svc-1") bob) = run_exposed
  /\ fst (unexpose_service_owner run_exposed (py "svc-1") alice) = Some (py "net-1").
Proof.
  split; [|vm_compute; reflexivity].
  assert (Hd : dict_ok (nm_services run_exposed)).
  { apply (bool_decide_unpack _). vm_compute. done. }
  pose proof (service_ownership run_exposed (py "svc-1") bob) as H.
  destruct (unexpose_service_owner run_exposed (py "svc-1") bob) as [o nm'] eqn:Ho.
  assert (Hn : o = None) by (vm_compute in Ho; by injection Ho as <- _).
  specialize (H o nm' Hd eq_refl). subst o. exact H.
Defined.
End Runs.
End NetworkManager.
