(* ===== verification/Auth.v ===== *)
(** * Challenge/response authentication (src/server/auth.py)

    [AuthSession] keeps at most one pending challenge per client, with its
    issue time and its count of failed attempts.  The RSA primitives of the
    [cryptography] package are parameters; random nonces and [time.time()]
    are arguments.  [verify] changes the session even when it raises, so it
    returns the new session next to its result. *)

From S2P Require Import Prelude Constants PyStr Json Messages Registry.
Import Messages Registry.

Module Auth.

Definition CHALLENGE_LENGTH : Z := 32.

(** [load_pem_public_key], [isinstance(_, RSAPublicKey)] and
    [key.verify(signature, data, PKCS1v15, SHA256)]. *)
Class RsaVerifier := {
  public_key : Type;
  load_pem_public_key : bytes -> result public_key;
  is_rsa : public_key -> bool;
  rsa_verify : public_key -> bytes -> bytes -> result unit
}.

(** [create_auth_challenge(client_id, challenge)]. *)
Definition create_auth_challenge (cid : str) (nonce : bytes) : result instance :=
  construct AuthChallenge
    [(py "challenge", JStr (hexlify nonce)); (py "client_id", JStr cid)].

Record PendingAuth := mkPendingAuth {
  pa_client_id : str;
  pa_challenge : bytes;
  pa_created_at : time;
  pa_attempts : Z
}.

Record AuthSession := mkAuthSession {
  ttl : Z;
  max_attempts : Z;
  pending : list (str * PendingAuth)
}.

Definition with_pending (d : list (str * PendingAuth)) (a : AuthSession) : AuthSession :=
  mkAuthSession (ttl a) (max_attempts a) d.

Section Ops.
Context {RV : RsaVerifier}.

Definition verify_auth_response (pem : str) (challenge signature : bytes) : result bool :=
  match (let? b := encode pem in load_pem_public_key b) with
  | Err e =>
      if is_ValueError e || bool_decide (exc_cls e = CTypeError) then Ok false else Err e
  | Ok key =>
      if negb (is_rsa key) then Ok false
      else
        match rsa_verify key signature challenge with
        | Ok _ => Ok true
        | Err e =>
            if bool_decide (exc_cls e = CInvalidSignature) || is_ValueError e
            then Ok false else Err e
        end
  end.

Definition issue (now : time) (nonce : bytes) (a : AuthSession) (cid : str)
    : result instance * AuthSession :=
  (create_auth_challenge cid nonce,
   with_pending (dset (pending a) cid (mkPendingAuth cid nonce now 0)) a).

Definition consume (now : time) (a : AuthSession) (cid : str)
    : option PendingAuth * AuthSession :=
  match dget (pending a) cid with
  | None => (None, a)
  | Some p =>
      (if now - pa_created_at p >? ttl a * SEC then None else Some p,
       with_pending (ddel (pending a) cid) a)
  end.

(** [(ok, detail)]; the challenge text the client echoes is not looked at. *)
Definition verify (now : time) (a : AuthSession) (reg : ClientRegistry)
    (cid challenge_hex signature_hex : str) : result (bool * str) * AuthSession :=
  let (po, a1) := consume now a cid in
  match po with
  | None => (Ok (false, py "no pending challenge (expired or not issued)"), a1)
  | Some p =>
      match unhexlify signature_hex with
      | None => (Ok (false, py "malformed signature"), a1)
      | Some signature =>
          match get reg cid with
          | None => (Ok (false, py "unknown client"), a1)
          | Some r =>
              match verify_auth_response (public_key_pem r) (pa_challenge p) signature with
              | Err e => (Err e, a1)
              | Ok true => (Ok (true, py "authenticated"), a1)
              | Ok false =>
                  let p' := mkPendingAuth (pa_client_id p) (pa_challenge p) (pa_created_at p)
                              (pa_attempts p + 1) in
                  if pa_attempts p' >=? max_attempts a1
                  then (Ok (false, py "auth failed; too many attempts"), a1)
                  else (Ok (false, py "signature verification failed"),
                        with_pending (dset (pending a1) cid p') a1)
              end
          end
      end
  end.

Definition expire_stale (now : time) (a : AuthSession) : list str * AuthSession :=
  let cutoff := now - ttl a * SEC in
  let stale := dkeys (dfilter (fun _ p => pa_created_at p <? cutoff) (pending a)) in
  (stale, with_pending (foldl ddel (pending a) stale) a).

Definition pending_count (a : AuthSession) : Z := zlen (pending a).

(** ** Theorems *)

(** C3 Soundness and one-shot use: [verify] accepts only if a challenge was
    pending for the client, at most [ttl] seconds old, and the signature
    checks against that challenge under the key registered for the client.
    Accepting consumes the challenge: until a new one is issued, every
    further response of the client is refused. *)
Theorem verify_sound now a reg cid ch sig detail a' :
  verify now a reg cid ch sig = (Ok (true, detail), a') ->
  (exists p r s,
     dget (pending a) cid = Some p /\ now - pa_created_at p <= ttl a * SEC
     /\ dget reg cid = Some r /\ unhexlify sig = Some s
     /\ verify_auth_response (public_key_pem r) (pa_challenge p) s = Ok true)
  /\ forall now2 reg2 ch2 sig2,
       verify now2 a' reg2 cid ch2 sig2 =
         (Ok (false, py "no pending challenge (expired or not issued)"), a').
Proof.
  unfold verify at 1, consume. destruct (dget (pending a) cid) as [p|] eqn:Hp; [|done].
  rewrite Z.gtb_ltb. destruct (Z.ltb_spec (ttl a * SEC) (now - pa_created_at p)); [done|].
  destruct (unhexlify sig) as [s|] eqn:Hs; [|done].
  unfold get. destruct (dget reg cid) as [r|] eqn:Hr; [|done].
  destruct (verify_auth_response _ _ _) as [[]|] eqn:Hv; [|by case_match|done].
  intros [= <- <-]. split; [exists p, r, s; by split_and!|].
  intros. unfold verify, consume. simpl. rewrite dget_ddel, decide_True by done. done.
Qed.

(** The effect of one refused response on the pending challenge. *)
Lemma verify_refused now a reg cid ch sig detail a' p :
  dget (pending a) cid = Some p ->
  verify now a reg cid ch sig = (Ok (false, detail), a') ->
  max_attempts a' = max_attempts a
  /\ (dget (pending a') cid = None
      \/ exists p', dget (pending a') cid = Some p' /\ pa_attempts p' = pa_attempts p + 1
           /\ pa_attempts p' < max_attempts a).
Proof.
  unfold verify, consume. intros -> H.
  assert (Hn : forall d, dget (ddel d cid) cid = @None PendingAuth).
  { intros d. rewrite dget_ddel. by rewrite decide_True. }
  repeat case_match; simplify_eq; simpl; split; try done; try (left; apply Hn).
  right. eexists. rewrite dget_dset_eq. split_and!; [done|done|].
  match goal with H : (_ >=? _) = false |- _ => rewrite Z.geb_leb in H; apply Z.leb_gt in H; exact H end.
Qed.

(** A client answering the challenge again and again. *)
Fixpoint responses (a : AuthSession) (reg : ClientRegistry) (cid : str)
    (l : list (time * str * str)) : list (result (bool * str)) * AuthSession :=
  match l with
  | [] => ([], a)
  | (now, ch, sig) :: l' =>
      let (r, a1) := verify now a reg cid ch sig in
      let (rs, a2) := responses a1 reg cid l' in (r :: rs, a2)
  end.

Definition refused (r : result (bool * str)) : Prop :=
  match r with Ok (b, _) => b = false | Err _ => False end.

Lemma verify_none now a reg cid ch sig :
  dget (pending a) cid = None ->
  verify now a reg cid ch sig = (Ok (false, py "no pending challenge (expired or not issued)"), a).
Proof. intros H. unfold verify, consume. by rewrite H. Qed.

Lemma responses_budget l : forall a reg cid rs a',
  match dget (pending a) cid with
  | None => True
  | Some p => max_attempts a - pa_attempts p <= zlen l
  end ->
  responses a reg cid l = (rs, a') -> Forall refused rs -> l <> [] ->
  dget (pending a') cid = None.
Proof.
  induction l as [|[[now ch] sig] l IH]; intros a reg cid rs a' Hb H Hr Hne; [done|].
  simpl in H. destruct (verify now a reg cid ch sig) as [r a1] eqn:Hv.
  destruct (responses a1 reg cid l) as [rs1 a2] eqn:Hl. simplify_eq.
  apply Forall_cons in Hr as [Hr1 Hr]. destruct r as [[b d]|]; [|done]. simpl in Hr1. subst b.
  assert (Hstep : dget (pending a1) cid = None \/
    exists p', dget (pending a1) cid = Some p' /\ max_attempts a1 - pa_attempts p' <= zlen l
      /\ 0 < max_attempts a1 - pa_attempts p').
  { destruct (dget (pending a) cid) as [p|] eqn:Hp.
    - destruct (verify_refused _ _ _ _ _ _ _ _ p Hp Hv) as [Hm [H|(p' & Hp' & Ha & Hlt)]];
        [by left|right]. exists p'. unfold zlen in *. simpl in Hb. split_and!; [done|lia|lia].
    - rewrite verify_none in Hv by done. simplify_eq. by left. }
  destruct l as [|x l].
  - simpl in Hl. simplify_eq. destruct Hstep as [?|(p' & _ & H1 & H2)]; [done|].
    unfold zlen in H1. simpl in H1. lia.
  - apply (IH a1 reg cid rs1 a'); [|done|done|done].
    destruct Hstep as [-> |(p' & -> & H1 & _)]; done.
Qed.

(** C12 Brute force is throttled: a fresh challenge survives at most
    [max_attempts] refused responses.  After that many refusals, whatever the
    responses were, nothing is pending for the client any more, so that all
    further responses are refused without any signature check. *)
Theorem attempt_budget now nonce a reg cid l rs a' :
  1 <= max_attempts a ->
  responses (snd (issue now nonce a cid)) reg cid l = (rs, a') ->
  Forall refused rs -> max_attempts a <= zlen l ->
  dget (pending a') cid = None
  /\ forall now2 ch sig, verify now2 a' reg cid ch sig =
       (Ok (false, py "no pending challenge (expired or not issued)"), a').
Proof.
  intros Hm H Hr Hl. assert (Hn : dget (pending a') cid = None).
  { eapply responses_budget; [|exact H|exact Hr|].
    - unfold issue. simpl. rewrite dget_dset_eq. simpl. lia.
    - intros ->. unfold zlen in Hl. simpl in Hl. lia. }
  split; [done|]. intros. by apply verify_none.
Qed.

(** Expiry is exact: [expire_stale] drops precisely the challenges older
    than the time to live, reports their clients, and touches no other. *)
Theorem expire_stale_exact now a cid :
  dict_ok (pending a) ->
  let (stale, a') := expire_stale now a in
  (cid ∈ stale <-> exists p, dget (pending a) cid = Some p
                     /\ pa_created_at p < now - ttl a * SEC)
  /\ dget (pending a') cid = if bool_decide (cid ∈ stale) then None else dget (pending a) cid.
Proof.
  intros Hd. unfold expire_stale. cbv beta zeta. split.
  - rewrite elem_of_dkeys, dget_dfilter by done. destruct (dget (pending a) cid) as [p|].
    + destruct (Z.ltb_spec (pa_created_at p) (now - ttl a * SEC)).
      * split; eauto.
      * split; [by intros [? ?]|]. intros (p' & ? & ?). simplify_eq. lia.
    + split; [by intros [? ?]|naive_solver].
  - simpl. rewrite dget_foldl_ddel. by repeat case_decide; case_bool_decide.
Qed.
End Ops.

(** ** Concrete runs *)

(** A verifier for which a signature is the challenge itself. *)
Definition echo_verifier : RsaVerifier := {|
  public_key := unit;
  load_pem_public_key _ := Ok tt;
  is_rsa _ := true;
  rsa_verify _ s c := if bool_decide (s = c) then Ok tt else raise CInvalidSignature []
|}.

Section Runs.
#[local] Existing Instance echo_verifier.

Definition run_session : AuthSession := mkAuthSession 60 2 [].
Definition run_registry : ClientRegistry := register 0 [] (py "alice-0001") (py "KEY").
Definition run_issued : AuthSession := snd (issue 0 [1; 2; 255] run_session (py "alice-0001")).

Lemma verify_sound_witness :
  let a' := snd (verify SEC run_issued run_registry (py "alice-0001") [] (py "0102ff")) in
  verify SEC a' run_registry (py "alice-0001") [] (py "0102ff") =
    (Ok (false, py "no pending challenge (expired or not issued)"), a').
Proof.
  intros a'.
  refine (proj2 (verify_sound SEC run_issued run_registry (py "alice-0001") [] (py "0102ff")
    (py "authenticated") a' _) SEC run_registry [] (py "0102ff")).
  vm_compute. reflexivity.
Defined.

Lemma attempt_budget_witness :
  exists a', responses run_issued run_registry (py "alice-0001") [(SEC, [], py "00"); (SEC, [], py "01")]
    = ([Ok (false, py "signature verification failed");
        Ok (false, py "auth failed; too many attempts")], a')
  /\ dget (pending a') (py "alice-0001") = None.
Proof.
  eexists. split; [vm_compute; reflexivity|].
  eapply (proj1 (attempt_budget 0 [1; 2; 255] run_session run_registry (py "alice-0001")
    [(SEC, [], py "00"); (SEC, [], py "01")] _ _ ltac:(vm_compute; discriminate)
    ltac:(vm_compute; reflexivity) _ _)).
  Unshelve.
  - repeat constructor.
  - vm_compute. discriminate.
Defined.

Lemma expire_stale_exact_witness :
  py "alice-0001" ∈ fst (expire_stale (100 * SEC) run_issued).
Proof.
  assert (Hd : dict_ok (pending run_issued)) by apply NoDup_singleton.
  pose proof (expire_stale_exact (100 * SEC) run_issued (py "alice-0001") Hd) as H.
  destruct (expire_stale (100 * SEC) run_issued) as [stale a'] eqn:Hs. simpl.
  apply (proj1 H). exists (mkPendingAuth (py "alice-0001") [1; 2; 255] 0 0).
  split; reflexivity.
Defined.
End Runs.
End Auth.
