(* ===== verification/Relay.v ===== *)
(** * Relay fallback (src/server/relay.py)

    [RelayForwarder]: one queue of [(src_id, raw_frame)] per destination, the
    set of granted directed paths, the byte counters and the drop counter.
    The two methods that write to connections, [handle_relay_request] and
    [deliver_relayed], are in the server file. *)

From S2P Require Import Prelude Constants PyStr.

Module Relay.

Definition MAX_RELAY_QUEUE : Z := 1024.

Record RelayForwarder := mkRelay {
  queues : list (str * list (str * bytes));
  paths : gset (str * str);
  bytes_relayed : list ((str * str) * Z);
  dropped_frames : Z
}.

Definition empty_relay : RelayForwarder := mkRelay [] ∅ [] 0.

Definition with_queues (q : list (str * list (str * bytes))) (r : RelayForwarder) :=
  mkRelay q (paths r) (bytes_relayed r) (dropped_frames r).

(** [_queue_for]: the queue of a client, created when missing. *)
Definition queue_for (r : RelayForwarder) (c : str) : RelayForwarder :=
  match dget (queues r) c with
  | Some _ => r
  | None => with_queues (dset (queues r) c []) r
  end.

Definition register_relay_path (r : RelayForwarder) (src dst : str) : bool * RelayForwarder :=
  let r1 := queue_for (queue_for r dst) src in
  let is_new := negb (bool_decide ((src, dst) ∈ paths r1)) in
  (is_new, mkRelay (queues r1) (paths r1 ∪ {[(src, dst)]} ∪ {[(dst, src)]})
             (bytes_relayed r1) (dropped_frames r1)).

Definition has_path (r : RelayForwarder) (src dst : str) : bool :=
  bool_decide ((src, dst) ∈ paths r).

Definition relay_frame (r : RelayForwarder) (src dst : str) (raw : bytes)
    : bool * RelayForwarder :=
  match dget (queues r) dst with
  | None => (false, r)
  | Some q =>
      if negb (has_path r src dst) then (false, r)
      else if zlen q >=? MAX_RELAY_QUEUE then
        (false, mkRelay (queues r) (paths r) (bytes_relayed r) (dropped_frames r + 1))
      else
        let key := (src, dst) in
        (true, mkRelay (dset (queues r) dst (q ++ [(src, raw)])) (paths r)
                 (dset (bytes_relayed r) key
                    (default 0 (dget (bytes_relayed r) key) + zlen raw))
                 (dropped_frames r))
  end.

(** Drains the queue: every frame in base64, in order. *)
Definition pending_frames (r : RelayForwarder) (dst : str)
    : list (str * str) * RelayForwarder :=
  match dget (queues r) dst with
  | None => ([], r)
  | Some q =>
      (map (fun sr => (fst sr, b64encode (snd sr))) q,
       with_queues (dset (queues r) dst []) r)
  end.

Definition drop_client (r : RelayForwarder) (c : str) : RelayForwarder :=
  mkRelay
    (dmap (fun _ q => List.filter (fun item => negb (bool_decide (fst item = c))) q)
       (ddel (queues r) c))
    (filter (fun ab => fst ab <> c /\ snd ab <> c) (paths r))
    (dfilter (fun k _ => negb (bool_decide (fst k = c) || bool_decide (snd k = c)))
       (bytes_relayed r))
    (dropped_frames r).

(** [stats()]: paths, queues, bytes relayed, dropped frames. *)
Definition stats (r : RelayForwarder) : Z * Z * Z * Z :=
  (Z.of_nat (size (paths r)) / 2, zlen (queues r),
   foldr Z.add 0 (dvals (bytes_relayed r)), dropped_frames r).

(** ** Invariant

    Queues are bounded; paths go both ways; both ends of a path have a queue;
    every queued frame came over a path that is still granted. *)
Definition relay_ok (r : RelayForwarder) : Prop :=
  dict_ok (queues r)
  /\ (forall d q, dget (queues r) d = Some q -> zlen q <= MAX_RELAY_QUEUE)
  /\ (forall a b, (a, b) ∈ paths r -> (b, a) ∈ paths r)
  /\ (forall a b, (a, b) ∈ paths r -> is_Some (dget (queues r) b))
  /\ (forall d q s f, dget (queues r) d = Some q -> (s, f) ∈ q -> (s, d) ∈ paths r).

Lemma relay_ok_empty : relay_ok empty_relay.
Proof. split_and!; simpl; try done; [apply dict_ok_nil|set_solver..]. Qed.

Lemma dget_queue_for r c d :
  dget (queues (queue_for r c)) d =
    if decide (c = d) then Some (default [] (dget (queues r) c)) else dget (queues r) d.
Proof.
  unfold queue_for. destruct (dget (queues r) c) as [q|] eqn:Hc; simpl.
  - destruct (decide (c = d)); by subst.
  - rewrite dget_dset. by destruct (decide (c = d)).
Qed.

Lemma paths_queue_for r c : paths (queue_for r c) = paths r.
Proof. unfold queue_for. by case_match. Qed.

Lemma relay_ok_queue_for r c : relay_ok r -> relay_ok (queue_for r c).
Proof.
  intros (Hd & Hl & Hs & Hq & Hf). unfold relay_ok. rewrite paths_queue_for. split_and!.
  - unfold queue_for. case_match; [done|]. by apply dict_ok_dset.
  - intros d q. rewrite dget_queue_for. case_decide; [|apply Hl]. intros [= <-].
    destruct (dget (queues r) c) eqn:Hc; simpl; [by eapply Hl|done].
  - done.
  - intros a b Hab. rewrite dget_queue_for. case_decide; eauto.
  - intros d q s f. rewrite dget_queue_for. case_decide as Heq; [|apply Hf]. subst d.
    intros [= <-]. destruct (dget (queues r) c) eqn:Hc; simpl; [by apply Hf|].
    by intros ?%elem_of_nil.
Qed.

Lemma relay_ok_register r src dst : relay_ok r -> relay_ok (snd (register_relay_path r src dst)).
Proof.
  intros Hok. unfold register_relay_path. cbv zeta. cbn [snd].
  assert (Hok1 : relay_ok (queue_for (queue_for r dst) src)) by auto using relay_ok_queue_for.
  assert (Hqd : forall x, x = src \/ x = dst ->
    is_Some (dget (queues (queue_for (queue_for r dst) src)) x)).
  { intros x Hx. rewrite !dget_queue_for. repeat case_decide; eauto. naive_solver. }
  set (r1 := queue_for (queue_for r dst) src) in *.
  destruct Hok1 as (Hd & Hl & Hs & Hq & Hf). split_and!; simpl; [done|done|set_solver| |].
  - intros a b Hab. destruct (decide (b = src \/ b = dst)); [by apply Hqd|].
    apply (Hq a). set_solver.
  - intros d q s f H1 H2. specialize (Hf d q s f H1 H2). set_solver.
Qed.

Lemma relay_ok_frame r src dst raw : relay_ok r -> relay_ok (snd (relay_frame r src dst raw)).
Proof.
  intros (Hd & Hl & Hs & Hq & Hf). unfold relay_frame, has_path.
  destruct (dget (queues r) dst) as [q0|] eqn:Hq0; [|by split_and!].
  destruct (bool_decide_reflect ((src, dst) ∈ paths r)) as [Hp|Hp]; [|by split_and!]. simpl.
  rewrite Z.geb_leb. destruct (Z.leb_spec MAX_RELAY_QUEUE (zlen q0)); [by split_and!|].
  simpl. split_and!; simpl; [by apply dict_ok_dset| |done| |].
  - intros d q. rewrite dget_dset. destruct (decide (dst = d)); [|apply Hl]. intros [= <-].
    unfold zlen in *. rewrite length_app. simpl. lia.
  - intros a b Hab. rewrite dget_dset. destruct (decide (dst = b)); eauto.
  - intros d q s f. rewrite dget_dset. destruct (decide (dst = d)) as [<-|]; [|apply Hf].
    intros [= <-] [Hin|Hin%list_elem_of_singleton]%elem_of_app; [by eapply Hf|by simplify_eq].
Qed.

Lemma relay_ok_pending r dst : relay_ok r -> relay_ok (snd (pending_frames r dst)).
Proof.
  intros (Hd & Hl & Hs & Hq & Hf). unfold pending_frames.
  destruct (dget (queues r) dst) as [q0|] eqn:Hq0; [|by split_and!]. simpl.
  split_and!; simpl; [by apply dict_ok_dset| |done| |].
  - intros d q. rewrite dget_dset. destruct (decide (dst = d)); [|apply Hl]. by intros [= <-].
  - intros a b Hab. rewrite dget_dset. destruct (decide (dst = b)); eauto.
  - intros d q s f. rewrite dget_dset. destruct (decide (dst = d)); [|apply Hf].
    by intros [= <-] ?%elem_of_nil.
Qed.

Lemma dget_drop r c d :
  dget (queues (drop_client r c)) d =
    if decide (c = d) then None
    else List.filter (fun item => negb (bool_decide (fst item = c))) <$> dget (queues r) d.
Proof.
  simpl. rewrite dget_dmap, dget_ddel. by destruct (decide (c = d)).
Qed.

Lemma elem_of_kept (c s : str) (f : bytes) (q : list (str * bytes)) :
  (s, f) ∈ List.filter (fun item => negb (bool_decide (fst item = c))) q <->
  (s, f) ∈ q /\ s <> c.
Proof.
  rewrite !list_elem_of_In, filter_In. simpl. rewrite negb_true_iff, bool_decide_eq_false. done.
Qed.

Lemma length_kept {A} (p : A -> bool) (l : list A) : (length (List.filter p l) <= length l)%nat.
Proof. induction l as [|x l IH]; simpl; [lia|]. destruct (p x); simpl; lia. Qed.

Lemma relay_ok_drop r c : relay_ok r -> relay_ok (drop_client r c).
Proof.
  intros (Hd & Hl & Hs & Hq & Hf). split_and!.
  - simpl. apply dict_ok_dmap. by apply dict_ok_ddel.
  - intros d q. rewrite dget_drop. destruct (decide (c = d)); [done|].
    destruct (dget (queues r) d) as [q0|] eqn:Hq0; [|done]. intros [= <-].
    specialize (Hl _ _ Hq0). pose proof (length_kept (fun item => negb (bool_decide (fst item = c))) q0).
    unfold zlen in *. lia.
  - simpl. intros a b. rewrite !elem_of_filter. simpl. naive_solver.
  - intros a b. simpl paths. rewrite elem_of_filter, dget_drop. simpl. intros [[Ha Hb] Hab].
    rewrite decide_False by congruence. destruct (Hq a b Hab) as [q ->]. eauto.
  - intros d q s f. rewrite dget_drop. destruct (decide (c = d)); [done|].
    destruct (dget (queues r) d) as [q0|] eqn:Hq0; [|done]. intros [= <-] [Hin Hne]%elem_of_kept.
    simpl. rewrite elem_of_filter. simpl. split; [done|]. by eapply Hf.
Qed.

(** ** Transition system *)

Inductive relay_step : RelayForwarder -> RelayForwarder -> Prop :=
  | step_register r src dst : relay_step r (snd (register_relay_path r src dst))
  | step_frame r src dst raw : relay_step r (snd (relay_frame r src dst raw))
  | step_pending r dst : relay_step r (snd (pending_frames r dst))
  | step_drop r c : relay_step r (drop_client r c).

(** In every reachable state of the relay, no queue is longer than
    [MAX_RELAY_QUEUE], paths are granted in both directions and have queues
    at both ends, and every queued frame travels a path that is still
    granted. *)
Theorem relay_reachable_ok r : rtc relay_step empty_relay r -> relay_ok r.
Proof.
  intros Hr. pose proof relay_ok_empty as Hi. revert Hi.
  induction Hr as [|r1 r2 r3 Hst _ IH]; [done|]. intros Hok. apply IH. destruct Hst;
    auto using relay_ok_register, relay_ok_frame, relay_ok_pending, relay_ok_drop.
Qed.

(** Frames of one destination in the order they were offered: the accepted
    ones are those for which [relay_frame] answered [True]. *)
Fixpoint offer (r : RelayForwarder) (dst : str) (l : list (str * bytes))
    : list (str * bytes) * RelayForwarder :=
  match l with
  | [] => ([], r)
  | (src, raw) :: l' =>
      let (ok, r1) := relay_frame r src dst raw in
      let (acc, r2) := offer r1 dst l' in
      (if ok then (src, raw) :: acc else acc, r2)
  end.

Lemma offer_queue l : forall r dst acc r' q,
  dget (queues r) dst = Some q -> offer r dst l = (acc, r') ->
  dget (queues r') dst = Some (q ++ acc) /\ paths r' = paths r.
Proof.
  induction l as [|[src raw] l IH]; intros r dst acc r' q Hq H; simpl in H.
  - simplify_eq. by rewrite app_nil_r.
  - unfold relay_frame in H. rewrite Hq in H. destruct (has_path r src dst); simpl in H.
    + destruct (zlen q >=? MAX_RELAY_QUEUE).
      * destruct (offer _ dst l) as [acc1 r1] eqn:Ho. simplify_eq.
        by apply (IH (mkRelay (queues r) (paths r) (bytes_relayed r) (dropped_frames r + 1))).
      * destruct (offer _ dst l) as [acc1 r1] eqn:Ho. simplify_eq.
        eapply IH in Ho; [|simpl; apply dget_dset_eq]. by rewrite <- app_assoc in Ho.
    + destruct (offer r dst l) as [acc1 r1] eqn:Ho. simplify_eq. by eapply IH.
Qed.

(** The relay is a queue: after any series of frames offered to a
    destination with an empty queue, draining it yields exactly the accepted
    frames, base64-encoded, with their sources, in the order they were
    offered; a second drain yields nothing. *)
Theorem relay_fifo r dst l acc r' :
  dget (queues r) dst = Some [] ->
  offer r dst l = (acc, r') ->
  let (out, r2) := pending_frames r' dst in
  out = map (fun sr => (fst sr, b64encode (snd sr))) acc
  /\ fst (pending_frames r2 dst) = [].
Proof.
  intros Hq H. destruct (offer_queue l r dst acc r' [] Hq H) as [Hq' _].
  unfold pending_frames. rewrite Hq'. simpl. split; [done|]. by rewrite dget_dset_eq.
Qed.

(** Disconnection is complete and local: after [drop_client] the client
    has no queue and no path, no frame it sent waits anywhere, and the queues
    and paths between other clients keep everything else. *)
Theorem drop_client_isolates r c :
  let r' := drop_client r c in
  dget (queues r') c = None
  /\ (forall a b, (a, b) ∈ paths r' <-> (a, b) ∈ paths r /\ a <> c /\ b <> c)
  /\ (forall d, d <> c -> is_Some (dget (queues r') d) <-> is_Some (dget (queues r) d))
  /\ (forall d q q', dget (queues r) d = Some q -> dget (queues r') d = Some q' ->
        forall s f, (s, f) ∈ q' <-> (s, f) ∈ q /\ s <> c).
Proof.
  intros r'. split_and!.
  - unfold r'. rewrite dget_drop. by rewrite decide_True.
  - intros a b. simpl. rewrite elem_of_filter. simpl. tauto.
  - intros d Hd. unfold r'. rewrite dget_drop, decide_False by congruence.
    by rewrite fmap_is_Some.
  - intros d q q' Hq. unfold r'. rewrite dget_drop. destruct (decide (c = d)); [done|].
    rewrite Hq. intros [= <-] s f. apply elem_of_kept.
Qed.

(** ** Concrete runs *)

Definition run_path : RelayForwarder := snd (register_relay_path empty_relay (py "a") (py "b")).

Lemma relay_reachable_ok_witness : relay_ok (snd (relay_frame run_path (py "a") (py "b") [1; 2])).
Proof.
  apply relay_reachable_ok. eapply rtc_l; [apply step_register|]. apply rtc_once, step_frame.
Defined.

Lemma relay_fifo_witness :
  exists r', offer run_path (py "b") [(py "a", [1; 2]); (py "z", [3]); (py "a", [4])]
    = ([(py "a", [1; 2]); (py "a", [4])], r')
  /\ fst (pending_frames r' (py "b")) = [(py "a", py "AQI="); (py "a", py "BA==")].
Proof.
  eexists. split; [reflexivity|].
  pose proof (relay_fifo run_path (py "b") [(py "a", [1; 2]); (py "z", [3]); (py "a", [4])]
    [(py "a", [1; 2]); (py "a", [4])] _ eq_refl eq_refl) as H.
  destruct (pending_frames _ _) as [out r2]. exact (proj1 H).
Defined.
End Relay.
