(* ===== verification/RelayStream.v ===== *)
(** * The relay's queues as objects (src/server/relay.py, consume_frames)

    [Relay] keeps the contents of the queues.  [consume_frames] holds on to a
    deque object between its turns, so here the table maps clients to deque
    objects of a heap: [relay_frame] and [pending_frames] change an object in
    place, [drop_client] puts new objects into the table.  Every operation
    refines the one of [Relay]; a consumer sees what goes through the object
    it took, which is the client's queue only until some client is dropped. *)

From S2P Require Import Prelude Constants PyStr Json Messages Relay.
Import Relay.

Module RelayStream.

Definition deque := list (str * bytes).

Record Shared := mkShared {
  sh_heap : list deque;
  sh_table : list (str * nat);             (* [self._queues] *)
  sh_paths : gset (str * str);
  sh_bytes : list ((str * str) * Z);
  sh_dropped : Z
}.

Definition empty_shared : Shared := mkShared [] [] ∅ [] 0.

Definition contents (h : list deque) (i : nat) : deque := h !!! i.

(** The relay of [Relay] that a heap stands for. *)
Definition value_of (s : Shared) : RelayForwarder :=
  mkRelay (dmap (fun _ => contents (sh_heap s)) (sh_table s)) (sh_paths s) (sh_bytes s) (sh_dropped s).

Definition with_object (i : nat) (q : deque) (s : Shared) : Shared :=
  mkShared (<[i := q]> (sh_heap s)) (sh_table s) (sh_paths s) (sh_bytes s) (sh_dropped s).

(** ** The operations *)

Definition s_queue_for (s : Shared) (c : str) : Shared :=
  match dget (sh_table s) c with
  | Some _ => s
  | None => mkShared (sh_heap s ++ [[]]) (dset (sh_table s) c (length (sh_heap s)))
              (sh_paths s) (sh_bytes s) (sh_dropped s)
  end.

Definition s_register (s : Shared) (src dst : str) : bool * Shared :=
  let s1 := s_queue_for (s_queue_for s dst) src in
  (negb (bool_decide ((src, dst) ∈ sh_paths s1)),
   mkShared (sh_heap s1) (sh_table s1) (sh_paths s1 ∪ {[(src, dst)]} ∪ {[(dst, src)]})
     (sh_bytes s1) (sh_dropped s1)).

Definition s_relay_frame (s : Shared) (src dst : str) (raw : bytes) : bool * Shared :=
  match dget (sh_table s) dst with
  | None => (false, s)
  | Some i =>
      let q := contents (sh_heap s) i in
      if negb (bool_decide ((src, dst) ∈ sh_paths s)) then (false, s)
      else if zlen q >=? MAX_RELAY_QUEUE then
        (false, mkShared (sh_heap s) (sh_table s) (sh_paths s) (sh_bytes s) (sh_dropped s + 1))
      else
        let key := (src, dst) in
        (true, mkShared (<[i := q ++ [(src, raw)]]> (sh_heap s)) (sh_table s) (sh_paths s)
                 (dset (sh_bytes s) key (default 0 (dget (sh_bytes s) key) + zlen raw))
                 (sh_dropped s))
  end.

Definition s_pending (s : Shared) (dst : str) : list (str * str) * Shared :=
  match dget (sh_table s) dst with
  | None => ([], s)
  | Some i => (map (fun sr => (fst sr, b64encode (snd sr))) (contents (sh_heap s) i), with_object i [] s)
  end.

(** The loop of [drop_client]: every queue that is left is replaced by a new
    deque of what is kept. *)
Definition kept (c : str) (q : deque) : deque :=
  List.filter (fun item => negb (bool_decide (fst item = c))) q.

Fixpoint replace_queues (c : str) (l : list (str * nat)) (h : list deque)
    : list (str * nat) * list deque :=
  match l with
  | [] => ([], h)
  | (dst, i) :: l' =>
      let '(t, h') := replace_queues c l' (h ++ [kept c (contents h i)]) in
      ((dst, length h) :: t, h')
  end.

Definition s_drop (s : Shared) (c : str) : Shared :=
  let '(t, h) := replace_queues c (ddel (sh_table s) c) (sh_heap s) in
  mkShared h t
    (filter (fun ab => fst ab <> c /\ snd ab <> c) (sh_paths s))
    (dfilter (fun k _ => negb (bool_decide (fst k = c) || bool_decide (snd k = c))) (sh_bytes s))
    (sh_dropped s).

(** [consume_frames(client_id)]: the deque it takes, none when the client has
    no queue, and one turn of its loop: what it yields, or a sleep. *)
Definition consume_begin (s : Shared) (c : str) : option nat := dget (sh_table s) c.

Definition consume_turn (i : nat) (s : Shared) : option (str * bytes) * Shared :=
  match contents (sh_heap s) i with
  | [] => (None, s)
  | x :: q => (Some x, with_object i q s)
  end.

(** ** Invariant: the table's deques are distinct objects of the heap *)

Record shared_ok (s : Shared) : Prop := {
  sh_keys : dict_ok (sh_table s);
  sh_distinct : NoDup (dvals (sh_table s));
  sh_bound : Forall (fun i => (i < length (sh_heap s))%nat) (dvals (sh_table s))
}.

Lemma dget_dvals {K V} `{!EqDecision K} (d : list (K * V)) k v : dget d k = Some v -> v ∈ dvals d.
Proof. intros H%dget_elem. unfold dvals. apply list_elem_of_fmap. by exists (k, v). Qed.

Lemma dvals_app {K V} (d d' : list (K * V)) : dvals (d ++ d') = dvals d ++ dvals d'.
Proof. apply map_app. Qed.

Lemma contents_app h h' i : (i < length h)%nat -> contents (h ++ h') i = contents h i.
Proof. intros Hi. unfold contents. by rewrite lookup_total_app_l. Qed.

Lemma contents_snoc h q : contents (h ++ [q]) (length h) = q.
Proof. unfold contents. by rewrite lookup_total_app_r, Nat.sub_diag. Qed.

(** The table read through a heap that agrees on its objects. *)
Lemma dmap_agree (f g : nat -> deque) (t : list (str * nat)) :
  Forall (fun i => f i = g i) (dvals t) -> dmap (fun _ => f) t = dmap (fun _ => g) t.
Proof.
  intros H. unfold dmap, dvals in *. apply map_ext_in. intros kv Hin.
  rewrite Forall_forall in H. f_equal. apply H, list_elem_of_fmap. exists kv.
  split; [done|]. by apply list_elem_of_In.
Qed.

Lemma dmap_dset_new (f : nat -> deque) (t : list (str * nat)) c i :
  dget t c = None -> dmap (fun _ => f) (dset t c i) = dset (dmap (fun _ => f) t) c (f i).
Proof.
  intros Hc. rewrite !dset_new; [|by rewrite dget_dmap, Hc|done]. unfold dmap. by rewrite map_app.
Qed.

(** Writing an object of the table writes the client's queue and no other. *)
Lemma dmap_insert (h : list deque) (t : list (str * nat)) c i q :
  NoDup (dvals t) -> dget t c = Some i -> (i < length h)%nat ->
  dmap (fun _ => contents (<[i := q]> h)) t = dset (dmap (fun _ => contents h) t) c q.
Proof.
  intros Hnd Hc Hi. induction t as [|[k j] t IH]; [done|]. simpl in *. apply NoDup_cons in Hnd as [Hj Hnd].
  destruct (decide (k = c)) as [->|Hk].
  - injection Hc as ->. unfold contents at 1. rewrite list_lookup_total_insert_eq by done. f_equal.
    apply dmap_agree. apply Forall_forall. intros x Hx. unfold contents.
    apply list_lookup_total_insert_ne. intros ->. by apply Hj.
  - rewrite IH by done. f_equal. f_equal. unfold contents. apply list_lookup_total_insert_ne.
    intros ->. apply Hj. by eapply dget_dvals.
Qed.

Lemma replace_queues_spec c l : forall h t h',
  Forall (fun i => (i < length h)%nat) (dvals l) -> replace_queues c l h = (t, h') ->
  dkeys t = dkeys l /\ dvals t = seq (length h) (length l)
  /\ (exists hs, h' = h ++ hs /\ length hs = length l)
  /\ dmap (fun _ => contents h') t = dmap (fun _ i => kept c (contents h i)) l.
Proof.
  induction l as [|[dst i] l IH]; intros h t h' Hb H; simpl in *.
  - injection H as <- <-. split_and!; [done..| |done]. exists []. by rewrite app_nil_r.
  - apply Forall_cons in Hb as [Hi Hb].
    set (h1 := h ++ [kept c (contents h i)]) in *.
    destruct (replace_queues c l h1) as [t1 h2] eqn:Hr. injection H as <- <-.
    assert (Hl1 : length h1 = S (length h)) by (unfold h1; rewrite length_app; simpl; lia).
    destruct (IH h1 t1 h2) as (Hk & Hv & (hs & -> & Hhs) & Hm); [|done|].
    { eapply Forall_impl; [exact Hb|]. simpl. lia. }
    split_and!.
    + simpl. by rewrite Hk.
    + simpl. by rewrite Hv, Hl1.
    + exists (kept c (contents h i) :: hs). split; [|simpl; lia]. unfold h1. by rewrite <- app_assoc.
    + change (dmap (fun _ => contents (h1 ++ hs)) ((dst, length h) :: t1))
        with ((dst, contents (h1 ++ hs) (length h)) :: dmap (fun _ => contents (h1 ++ hs)) t1).
      rewrite Hm, contents_app by lia. unfold h1 at 1. rewrite contents_snoc.
      change (dmap ?f ((dst, i) :: l)) with ((dst, kept c (contents h i)) :: dmap f l). f_equal.
      apply (dmap_agree (fun j => kept c (contents h1 j)) (fun j => kept c (contents h j))).
      eapply Forall_impl; [exact Hb|]. intros j Hj. unfold h1. by rewrite contents_app.
Qed.

Lemma dvals_ddel_sub {K V} `{!EqDecision K} (d : list (K * V)) k : dvals (ddel d k) ⊆ dvals d.
Proof.
  induction d as [|[k0 v0] d IH]; simpl; [done|]. destruct (decide _); [set_solver|]. simpl. set_solver.
Qed.

Lemma ok_empty : shared_ok empty_shared.
Proof. constructor; [apply dict_ok_nil|constructor..]. Qed.

Lemma ok_queue_for s c : shared_ok s -> shared_ok (s_queue_for s c).
Proof.
  intros [Hk Hd Hb]. unfold s_queue_for. destruct (dget _ c) eqn:Hc; [by constructor|].
  constructor; simpl.
  - by apply dict_ok_dset.
  - rewrite dset_new, dvals_app by done. simpl. apply NoDup_app. split_and!; [done| |by apply NoDup_singleton].
    intros x Hx ->%list_elem_of_singleton. rewrite Forall_forall in Hb. apply Hb in Hx. lia.
  - rewrite dset_new, dvals_app, length_app by done. simpl. apply Forall_app. split.
    + eapply Forall_impl; [exact Hb|]. simpl. lia.
    + apply Forall_singleton. lia.
Qed.

Lemma ok_same_table s s' :
  sh_table s' = sh_table s -> length (sh_heap s') = length (sh_heap s) -> shared_ok s -> shared_ok s'.
Proof. intros Ht Hl [Hk Hd Hb]. constructor; rewrite ?Ht, ?Hl; done. Qed.

Lemma ok_register s src dst : shared_ok s -> shared_ok (snd (s_register s src dst)).
Proof. intros H. eapply ok_same_table; [| |apply ok_queue_for, ok_queue_for, H]; done. Qed.

Lemma ok_frame s src dst raw : shared_ok s -> shared_ok (snd (s_relay_frame s src dst raw)).
Proof.
  intros H. unfold s_relay_frame. repeat case_match; try done; (eapply ok_same_table; [| |exact H]); simpl;
    by rewrite ?length_insert.
Qed.

Lemma ok_pending s dst : shared_ok s -> shared_ok (snd (s_pending s dst)).
Proof.
  intros H. unfold s_pending. case_match; [|done]. (eapply ok_same_table; [| |exact H]); simpl;
    by rewrite ?length_insert.
Qed.

Lemma ok_consume s i : shared_ok s -> shared_ok (snd (consume_turn i s)).
Proof.
  intros H. unfold consume_turn. case_match; [done|]. (eapply ok_same_table; [| |exact H]); simpl;
    by rewrite ?length_insert.
Qed.

Lemma ok_drop s c : shared_ok s -> shared_ok (s_drop s c).
Proof.
  intros [Hk Hd Hb]. unfold s_drop. destruct (replace_queues _ _ _) as [t h] eqn:Hr.
  destruct (replace_queues_spec c (ddel (sh_table s) c) (sh_heap s) t h) as (Hkt & Hvt & (hs & -> & Hl) & _);
    [|done|].
  { rewrite Forall_forall in *. intros x Hx. apply Hb. by apply (dvals_ddel_sub _ c). }
  constructor; simpl.
  - unfold dict_ok. rewrite Hkt. by apply dict_ok_ddel.
  - rewrite Hvt. apply NoDup_ListNoDup, seq_NoDup.
  - rewrite Hvt, length_app, Hl. apply Forall_forall. intros x [_ Hx]%elem_of_seq. lia.
Qed.

(** ** Refinement *)

Lemma dmem_value s c : dget (queues (value_of s)) c = contents (sh_heap s) <$> dget (sh_table s) c.
Proof. simpl. by rewrite dget_dmap. Qed.

Lemma refines_queue_for s c : shared_ok s -> value_of (s_queue_for s c) = queue_for (value_of s) c.
Proof.
  intros [Hk Hd Hb]. unfold queue_for, s_queue_for. rewrite dmem_value. destruct (dget _ c) as [i|] eqn:Hc; [done|].
  simpl. unfold value_of, with_queues. simpl. f_equal. rewrite dmap_dset_new by done. rewrite contents_snoc. f_equal.
  apply dmap_agree. eapply Forall_impl; [exact Hb|]. simpl. intros j Hj. by rewrite contents_app.
Qed.

Lemma refines_register s src dst :
  shared_ok s ->
  (fst (s_register s src dst), value_of (snd (s_register s src dst)))
  = register_relay_path (value_of s) src dst.
Proof.
  intros H. unfold register_relay_path. rewrite <- !refines_queue_for by auto using ok_queue_for. done.
Qed.

Lemma refines_frame s src dst raw :
  shared_ok s ->
  (fst (s_relay_frame s src dst raw), value_of (snd (s_relay_frame s src dst raw)))
  = relay_frame (value_of s) src dst raw.
Proof.
  intros [Hk Hd Hb]. unfold s_relay_frame, relay_frame. rewrite dmem_value.
  destruct (dget (sh_table s) dst) as [i|] eqn:Hi; [|done]. simpl. unfold has_path. simpl.
  destruct (negb _); [done|]. destruct (_ >=? _); [done|]. simpl. f_equal. unfold value_of. simpl. f_equal.
  apply dmap_insert; [done..|]. rewrite Forall_forall in Hb. by eapply Hb, dget_dvals.
Qed.

Lemma refines_pending s dst :
  shared_ok s ->
  (fst (s_pending s dst), value_of (snd (s_pending s dst))) = pending_frames (value_of s) dst.
Proof.
  intros [Hk Hd Hb]. unfold s_pending, pending_frames. rewrite dmem_value.
  destruct (dget (sh_table s) dst) as [i|] eqn:Hi; [|done]. simpl. f_equal. unfold value_of, with_queues. simpl. f_equal.
  apply dmap_insert; [done..|]. rewrite Forall_forall in Hb. by eapply Hb, dget_dvals.
Qed.

Lemma dmap_ddel {V W} (f : V -> W) (d : list (str * V)) k :
  dmap (fun _ => f) (ddel d k) = ddel (dmap (fun _ => f) d) k.
Proof.
  induction d as [|[k0 v0] d IH]; simpl; [done|]. destruct (decide _); [done|]. simpl. by rewrite IH.
Qed.

Lemma refines_drop s c : shared_ok s -> value_of (s_drop s c) = drop_client (value_of s) c.
Proof.
  intros [Hk Hd Hb]. unfold s_drop, drop_client. destruct (replace_queues _ _ _) as [t h] eqn:Hr.
  destruct (replace_queues_spec c (ddel (sh_table s) c) (sh_heap s) t h) as (_ & _ & _ & Hm); [|done|].
  { rewrite Forall_forall in *. intros x Hx. apply Hb. by apply (dvals_ddel_sub _ c). }
  unfold value_of. simpl. f_equal. rewrite Hm, <- dmap_ddel. unfold dmap. rewrite map_map. done.
Qed.

Inductive op_step : Shared -> Shared -> Prop :=
  | op_register s src dst : op_step s (snd (s_register s src dst))
  | op_frame s src dst raw : op_step s (snd (s_relay_frame s src dst raw))
  | op_pending s dst : op_step s (snd (s_pending s dst))
  | op_drop s c : op_step s (s_drop s c).

Lemma ok_op s s' : op_step s s' -> shared_ok s -> shared_ok s'.
Proof. destruct 1; auto using ok_register, ok_frame, ok_pending, ok_drop. Qed.

Lemma op_simulates s s' : op_step s s' -> shared_ok s -> relay_step (value_of s) (value_of s').
Proof.
  intros Hst Hok. destruct Hst.
  - pose proof (refines_register s src dst Hok) as H. apply (f_equal snd) in H. cbn [snd] in H.
    rewrite H. apply step_register.
  - pose proof (refines_frame s src dst raw Hok) as H. apply (f_equal snd) in H. cbn [snd] in H.
    rewrite H. apply step_frame.
  - pose proof (refines_pending s dst Hok) as H. apply (f_equal snd) in H. cbn [snd] in H.
    rewrite H. apply step_pending.
  - rewrite refines_drop by done. apply step_drop.
Qed.

(** The relay with its deques as shared objects refines the relay of
    values: every run of it is a run of [Relay] on the contents of the
    deques, and the table's deques stay distinct objects. *)
Theorem relay_objects_refine s :
  rtc op_step empty_shared s -> rtc relay_step empty_relay (value_of s) /\ shared_ok s.
Proof.
  intros Hr. change empty_relay with (value_of empty_shared). assert (H0 := ok_empty).
  revert Hr H0. generalize empty_shared. intros s0 Hr.
  induction Hr as [s0|s0 s1 s2 Hst _ IH]; intros H0; [by split|].
  destruct (IH (ok_op _ _ Hst H0)) as [Hr Hok]. split; [|done].
  eapply rtc_l; [|exact Hr]. by apply op_simulates.
Qed.

(** ** The consumer *)

(** A consumer that holds the client's queue takes its frames in order, one
    a turn, and nothing else changes. *)
Lemma consume_attached s c i q :
  shared_ok s -> consume_begin s c = Some i -> dget (queues (value_of s)) c = Some q ->
  match q with
  | [] => consume_turn i s = (None, s)
  | x :: q' => fst (consume_turn i s) = Some x
      /\ value_of (snd (consume_turn i s)) = with_queues (dset (queues (value_of s)) c q') (value_of s)
      /\ consume_begin (snd (consume_turn i s)) c = Some i
  end.
Proof.
  intros [Hk Hd Hb] Hi. rewrite dmem_value. unfold consume_begin in Hi. rewrite Hi. intros [= <-].
  unfold consume_turn. destruct (contents (sh_heap s) i) as [|x q']; [done|]. split_and!; [done| |done].
  unfold value_of, with_queues. simpl. f_equal. apply dmap_insert; [done..|].
  rewrite Forall_forall in Hb. by eapply Hb, dget_dvals.
Qed.

Fixpoint consume_all (n : nat) (i : nat) (s : Shared) : list (str * bytes) * Shared :=
  match n with
  | O => ([], s)
  | S n' =>
      match consume_turn i s with
      | (None, s') => consume_all n' i s'
      | (Some x, s') => let '(l, s2) := consume_all n' i s' in (x :: l, s2)
      end
  end.

Lemma consume_all_contents n i s :
  (i < length (sh_heap s))%nat -> fst (consume_all n i s) = take n (contents (sh_heap s) i).
Proof.
  revert s. induction n as [|n IH]; intros s Hi; [done|]. simpl. unfold consume_turn.
  destruct (contents (sh_heap s) i) as [|x q] eqn:Hq.
  - rewrite IH, Hq by done. by destruct n.
  - destruct (consume_all n i _) as [l s2] eqn:Ha. simpl. f_equal.
    change l with (fst (l, s2)). rewrite <- Ha, IH by (simpl; by rewrite length_insert).
    f_equal. simpl. unfold contents. by rewrite list_lookup_total_insert_eq.
Qed.

(** An object that is in no entry of the table. *)
Definition detached (i : nat) (s : Shared) : Prop :=
  (i < length (sh_heap s))%nat /\ i ∉ dvals (sh_table s).

Lemma detached_same s s' i :
  sh_table s' = sh_table s -> sh_heap s' = sh_heap s -> detached i s ->
  detached i s' /\ contents (sh_heap s') i = contents (sh_heap s) i.
Proof. intros Ht Hh H. unfold detached. by rewrite Ht, Hh. Qed.

Lemma detached_write s s' i j q :
  sh_table s' = sh_table s -> sh_heap s' = <[j := q]> (sh_heap s) -> j ∈ dvals (sh_table s) -> detached i s ->
  detached i s' /\ contents (sh_heap s') i = contents (sh_heap s) i.
Proof.
  intros Ht Hh Hj [Hl Hn]. unfold detached, contents. rewrite Ht, Hh, length_insert. split; [done|].
  apply list_lookup_total_insert_ne. intros ->. by apply Hn.
Qed.

Lemma detached_queue_for s c i :
  detached i s ->
  detached i (s_queue_for s c) /\ contents (sh_heap (s_queue_for s c)) i = contents (sh_heap s) i.
Proof.
  intros [Hl Hn]. unfold s_queue_for. destruct (dget _ c) eqn:Hc; [done|]. unfold detached. simpl.
  rewrite length_app, dset_new, dvals_app, contents_app by done. simpl. split; [|done].
  split; [lia|]. intros [?| ->%list_elem_of_singleton]%elem_of_app; [done|lia].
Qed.

(** No operation of the relay writes a detached deque. *)
Lemma detached_op s s' i :
  op_step s s' -> shared_ok s -> detached i s ->
  detached i s' /\ contents (sh_heap s') i = contents (sh_heap s) i.
Proof.
  intros Hst Hok Hi. destruct Hst.
  - destruct (detached_queue_for s dst i Hi) as [H1 E1].
    destruct (detached_queue_for _ src i H1) as [H2 E2]. rewrite <- E1, <- E2. by apply detached_same.
  - unfold s_relay_frame. destruct (dget _ dst) as [j|] eqn:Hj; [|done].
    destruct (negb _); [done|]. destruct (_ >=? _); [by apply detached_same|].
    eapply detached_write; [done..| |done]. by eapply dget_dvals.
  - unfold s_pending. destruct (dget _ dst) as [j|] eqn:Hj; [|done].
    eapply detached_write; [done..| |done]. by eapply dget_dvals.
  - destruct Hi as [Hl Hn]. unfold s_drop. destruct (replace_queues _ _ _) as [t h] eqn:Hr.
    destruct (replace_queues_spec c (ddel (sh_table s) c) (sh_heap s) t h) as (_ & Hv & (hs & -> & _) & _); [|done|].
    { pose proof (sh_bound _ Hok) as Hb. rewrite Forall_forall in *. intros x Hx. apply Hb.
      by apply (dvals_ddel_sub _ c). }
    unfold detached. simpl. rewrite length_app, contents_app, Hv by done. split; [|done].
    split; [lia|]. intros [Hx _]%elem_of_seq. lia.
Qed.

(** When any client is dropped, every deque there was is detached. *)
Lemma drop_detaches s c i :
  shared_ok s -> (i < length (sh_heap s))%nat ->
  detached i (s_drop s c) /\ contents (sh_heap (s_drop s c)) i = contents (sh_heap s) i.
Proof.
  intros Hok Hl. unfold s_drop. destruct (replace_queues _ _ _) as [t h] eqn:Hr.
  destruct (replace_queues_spec c (ddel (sh_table s) c) (sh_heap s) t h) as (_ & Hv & (hs & -> & _) & _); [|done|].
  { pose proof (sh_bound _ Hok) as Hb. rewrite Forall_forall in *. intros x Hx. apply Hb.
    by apply (dvals_ddel_sub _ c). }
  unfold detached. simpl. rewrite length_app, contents_app, Hv by done. split; [|done].
  split; [lia|]. intros [Hx _]%elem_of_seq. lia.
Qed.

(** Once any client has been dropped, a consumer that was running gets the
    frames that waited at that moment, those the dropped client had sent
    included, and never another one, whatever is relayed. *)
Theorem consumer_orphaned s c client i s' n :
  shared_ok s -> consume_begin s client = Some i -> rtc op_step (s_drop s c) s' ->
  fst (consume_all n i s') = take n (contents (sh_heap s) i).
Proof.
  intros Hok Hi Hr.
  assert (Hl : (i < length (sh_heap s))%nat).
  { pose proof (sh_bound _ Hok) as Hb. rewrite Forall_forall in Hb. by eapply Hb, dget_dvals. }
  destruct (drop_detaches s c i Hok Hl) as [Hd Hc].
  assert (Hrun : forall s1, rtc op_step s1 s' -> shared_ok s1 -> detached i s1 ->
    (i < length (sh_heap s'))%nat /\ contents (sh_heap s') i = contents (sh_heap s1) i).
  { intros s1 Hr1. induction Hr1 as [s1|s1 s2 s3 Hst _ IH]; intros Hok1 Hd1; [by split; [apply Hd1|]|].
    destruct (detached_op _ _ i Hst Hok1 Hd1) as [Hd2 <-]. eauto using ok_op. }
  destruct (Hrun _ Hr (ok_drop _ _ Hok) Hd) as [Hl' Hc'].
  by rewrite consume_all_contents, Hc', Hc.
Qed.

(** ** Concrete runs *)

Definition linked_pair : Shared :=
  snd (s_relay_frame (snd (s_register empty_shared (py "a") (py "b"))) (py "a") (py "b") [1]).

Lemma linked_reach : rtc op_step empty_shared linked_pair.
Proof. eapply rtc_l; [apply op_register|]. apply rtc_once, op_frame. Qed.

Lemma relay_objects_refine_witness :
  rtc relay_step empty_relay (value_of linked_pair)
  /\ dget (queues (value_of linked_pair)) (py "b") = Some [(py "a", [1])].
Proof. split; [exact (proj1 (relay_objects_refine linked_pair linked_reach))|vm_compute; reflexivity]. Defined.

(** The consumer of b: a leaves, returns and sends again; the consumer gets
    the first frame only, the queue of b holds the second. *)
Lemma consumer_orphaned_witness :
  let s1 := s_drop linked_pair (py "a") in
  let s2 := snd (s_register s1 (py "a") (py "b")) in
  let s3 := snd (s_relay_frame s2 (py "a") (py "b") [2]) in
  fst (consume_all 10 0 s3) = [(py "a", [1])]
  /\ dget (queues (value_of s3)) (py "b") = Some [(py "a", [2])].
Proof.
  intros s1 s2 s3. split; [|vm_compute; reflexivity].
  apply (consumer_orphaned linked_pair (py "a") (py "b") 0 s3 10).
  - apply (ok_frame _ _ _ _ (ok_register _ _ _ ok_empty)).
  - reflexivity.
  - eapply rtc_l; [apply op_register|]. apply rtc_once, op_frame.
Defined.
End RelayStream.
