(* ===== verification/Server.v ===== *)
(** * The mediation server (src/server/main.py, and the parts of
      src/server/relay.py that write to connections)

    [MediationServer] ties the registry, the network manager, the
    authentication session and the relay together.  Handlers are state
    transformers with exceptions: [M A] takes the server state to a result
    and a new state, and the state changed before an exception stays changed.
    A connection's writer is a number; [sv_out] is the log of the messages
    written, [sv_closed] the writers the server closed, [sv_lost] those whose
    transport is gone, on which [drain] raises [ConnectionResetError].

    A handler runs from one message to the next without interruption: it
    only suspends in [drain], which returns at once unless the peer's
    transport has filled its buffer.  The clock, the random values and the
    outcome of bcrypt's [gensalt] during one handler are its [Env]. *)

From S2P Require Import Prelude Constants PyStr Json Messages Protocol Registry NetworkManager Auth Relay.
Import Messages Protocol Registry NetworkManager Auth Relay.

Module Server.

(** ** Configuration (src/server/config.py) *)

Record ServerConfig := mkServerConfig {
  cfg_host : str;
  cfg_port : Z;
  cfg_web_port : option Z;
  cfg_max_clients : Z;
  cfg_heartbeat_timeout : Z;
  cfg_auth_challenge_ttl : Z;
  cfg_auth_max_attempts : Z;
  cfg_log_level : str
}.

Definition default_config : ServerConfig :=
  mkServerConfig (py "0.0.0.0") 54000 (Some 54001) 256 HEARTBEAT_TIMEOUT 60 5 (py "INFO").

Definition in_port_range (p : Z) : bool := (0 <=? p) && (p <? 65536).

Definition config_validate (c : ServerConfig) : result unit :=
  if negb (in_port_range (cfg_port c)) then
    raise CValueError (py "invalid port: " ++ dec (cfg_port c))
  else if match cfg_web_port c with Some p => negb (in_port_range p) | None => false end then
    raise CValueError
      (py "invalid web port: " ++ match cfg_web_port c with Some p => dec p | None => [] end)
  else if cfg_max_clients c <? 1 then
    raise CValueError (py "max_clients must be >= 1, got " ++ dec (cfg_max_clients c))
  else if cfg_heartbeat_timeout c <? 1 then
    raise CValueError (py "heartbeat_timeout must be >= 1, got " ++ dec (cfg_heartbeat_timeout c))
  else if negb (bool_decide
    (upper (cfg_log_level c) ∈ [py "DEBUG"; py "INFO"; py "WARNING"; py "ERROR"])) then
    raise CValueError (py "invalid log level: " ++ cfg_log_level c)
  else Ok tt.

(** ** State *)

Record MediationServer := mkServer {
  sv_config : ServerConfig;
  sv_registry : ClientRegistry;
  sv_networks : NetworkManager.NetworkManager;
  sv_auth : AuthSession;
  sv_relay : RelayForwarder;
  sv_writers : list (str * nat);
  sv_authenticated : list (str * bool);
  sv_out : list (nat * Message);
  sv_closed : gset nat;
  sv_lost : gset nat
}.

Definition server_init (c : ServerConfig) : result MediationServer :=
  let? _ := config_validate c in
  Ok (mkServer c [] empty_manager
        (mkAuthSession (cfg_auth_challenge_ttl c) (cfg_auth_max_attempts c) [])
        empty_relay [] [] [] ∅ ∅).

Definition set_registry (x : ClientRegistry) (s : MediationServer) : MediationServer :=
  mkServer (sv_config s) x (sv_networks s) (sv_auth s) (sv_relay s) (sv_writers s)
    (sv_authenticated s) (sv_out s) (sv_closed s) (sv_lost s).
Definition set_nets (x : NetworkManager.NetworkManager) (s : MediationServer) : MediationServer :=
  mkServer (sv_config s) (sv_registry s) x (sv_auth s) (sv_relay s) (sv_writers s)
    (sv_authenticated s) (sv_out s) (sv_closed s) (sv_lost s).
Definition set_auth (x : AuthSession) (s : MediationServer) : MediationServer :=
  mkServer (sv_config s) (sv_registry s) (sv_networks s) x (sv_relay s) (sv_writers s)
    (sv_authenticated s) (sv_out s) (sv_closed s) (sv_lost s).
Definition set_relay (x : RelayForwarder) (s : MediationServer) : MediationServer :=
  mkServer (sv_config s) (sv_registry s) (sv_networks s) (sv_auth s) x (sv_writers s)
    (sv_authenticated s) (sv_out s) (sv_closed s) (sv_lost s).
Definition set_writers (x : list (str * nat)) (s : MediationServer) : MediationServer :=
  mkServer (sv_config s) (sv_registry s) (sv_networks s) (sv_auth s) (sv_relay s) x
    (sv_authenticated s) (sv_out s) (sv_closed s) (sv_lost s).
Definition set_authenticated (x : list (str * bool)) (s : MediationServer) : MediationServer :=
  mkServer (sv_config s) (sv_registry s) (sv_networks s) (sv_auth s) (sv_relay s)
    (sv_writers s) x (sv_out s) (sv_closed s) (sv_lost s).
Definition set_out (x : list (nat * Message)) (s : MediationServer) : MediationServer :=
  mkServer (sv_config s) (sv_registry s) (sv_networks s) (sv_auth s) (sv_relay s)
    (sv_writers s) (sv_authenticated s) x (sv_closed s) (sv_lost s).
Definition set_closed (x : gset nat) (s : MediationServer) : MediationServer :=
  mkServer (sv_config s) (sv_registry s) (sv_networks s) (sv_auth s) (sv_relay s)
    (sv_writers s) (sv_authenticated s) (sv_out s) x (sv_lost s).
Definition set_lost (x : gset nat) (s : MediationServer) : MediationServer :=
  mkServer (sv_config s) (sv_registry s) (sv_networks s) (sv_auth s) (sv_relay s)
    (sv_writers s) (sv_authenticated s) (sv_out s) (sv_closed s) x.

(** ** The handlers' monad *)

Definition M (A : Type) : Type := MediationServer -> result A * MediationServer.

Definition ret {A} (a : A) : M A := fun s => (Ok a, s).
Definition bind {A B} (m : M A) (k : A -> M B) : M B :=
  fun s => match m s with
           | (Ok a, s') => k a s'
           | (Err e, s') => (Err e, s')
           end.
Definition lift {A} (r : result A) : M A := fun s => (r, s).
Definition gets {A} (f : MediationServer -> A) : M A := fun s => (Ok (f s), s).
Definition modify (f : MediationServer -> MediationServer) : M unit := fun s => (Ok tt, f s).
(** [try: m except Exception as e: h(e)]. *)
Definition catch {A} (m : M A) (h : exc -> M A) : M A :=
  fun s => match m s with
           | (Ok a, s') => (Ok a, s')
           | (Err e, s') => h e s'
           end.

Declare Scope server_scope.
Delimit Scope server_scope with server.
Notation "'let!' x := c 'in' k" := (bind c (fun x => k))
  (at level 10, x pattern, c at level 100, k at level 200) : server_scope.
Notation "m ;;; k" := (bind m (fun _ => k)) (at level 100, right associativity) : server_scope.
#[global] Open Scope server_scope.

(** [for x in l: f(x)]. *)
Fixpoint for_each {A} (l : list A) (f : A -> M unit) : M unit :=
  match l with
  | [] => ret tt
  | x :: l' => f x ;;; for_each l' f
  end.

(** What the environment provides during one handler. *)
Record Env := mkEnv {
  env_now : time;
  env_uuid : str;
  env_salt : bytes;
  env_nonce : bytes;
  env_draws : nat -> str;
  env_hex : str
}.

Section Handlers.
Context {SO : SetOrder str} {BC : Bcrypt} {UN : Unicode} {RV : RsaVerifier}.

(** ** Send helpers *)

Definition connection_lost : exc := Exc CConnectionError (py "Connection lost").

Definition send (w : nat) (msg : Message) : M unit :=
  let! _ := lift (build_message msg) in
  let! lost := gets sv_lost in
  if bool_decide (w ∈ lost) then lift (Err connection_lost)
  else modify (fun s => set_out (sv_out s ++ [(w, msg)]) s).

Definition send_new (w : nat) (cls : dataclass) (kwargs : instance) : M unit :=
  let! msg := lift (make_message cls None kwargs) in send w msg.

Definition send_error (w : nat) (code message : str) : M unit :=
  send_new w ErrorMessage [(py "code", JStr code); (py "message", JStr message)].

(** ** Peer notifications *)

(** [for member in members_in_networks([network_id])], skipping [skip]. *)
Definition notify_members (skip : option str) (nid : str) (cls : dataclass) (kwargs : instance)
    : M unit :=
  let! ms := gets (fun s => members_in_networks (sv_registry s) [nid]) in
  for_each ms (fun m =>
    if bool_decide (Some (client_id m) = skip) then ret tt
    else
      let! w := gets (fun s => dget (sv_writers s) (client_id m)) in
      match w with
      | Some w => send_new w cls kwargs
      | None => ret tt
      end).

Definition announce_peer_online (cid : str) : M unit :=
  let! nets := gets (fun s => networks_for (sv_registry s) cid) in
  for_each (set_order nets) (fun nid =>
    notify_members (Some cid) nid PeerOnline
      [(py "network_id", JStr nid); (py "peer_id", JStr cid)]).

Definition announce_peer_offline (cid nid : str) : M unit :=
  notify_members (Some cid) nid PeerOffline
    [(py "network_id", JStr nid); (py "peer_id", JStr cid)].

Definition broadcast_service (nid : str) (cls : dataclass) (kwargs : instance) : M unit :=
  notify_members None nid cls kwargs.

Definition handle_disconnect (cid : str) : M unit :=
  modify (fun s => set_writers (ddel (sv_writers s) cid) s) ;;;
  modify (fun s => set_authenticated (ddel (sv_authenticated s) cid) s) ;;;
  let! nets := gets (fun s => networks_for (sv_registry s) cid) in
  modify (fun s => set_registry (unregister (sv_registry s) cid) s) ;;;
  modify (fun s => set_relay (drop_client (sv_relay s) cid) s) ;;;
  for_each (set_order nets) (fun nid => announce_peer_offline cid nid).

(** ** Registration and authentication *)

Definition close_writer (w : nat) : M unit :=
  modify (fun s => set_closed (sv_closed s ∪ {[w]}) s).

Definition attr (obj : instance) (name : str) : result json :=
  match dget obj name with Some v => Ok v | None => raise CAttributeError [] end.

Definition on_register (env : Env) (w : nat) (msg : Message) (peer : str * Z) : M (option str) :=
  match validate_register (msg_payload msg) with
  | Err e =>
      if bool_decide (exc_cls e = CProtocolError)
      then send_error w (py "INVALID_REGISTER") (exc_msg e) ;;; ret None
      else lift (Err e)
  | Ok (cid, pem) =>
      let! s := gets (fun s => s) in
      if (zlen (sv_writers s) >=? cfg_max_clients (sv_config s)) && negb (dmem (sv_writers s) cid)
      then send_error w (py "SERVER_FULL") (py "server is at capacity") ;;; ret None
      else if is_banned (sv_registry s) cid
      then send_error w (py "BANNED") (py "client is banned") ;;; ret None
      else
        modify (fun s => set_registry (register (env_now env) (sv_registry s) cid pem) s) ;;;
        let! old_writer := gets (fun s => dget (sv_writers s) cid) in
        match old_writer with
        | Some old => if bool_decide (old = w) then ret tt else close_writer old
        | None => ret tt
        end ;;;
        modify (fun s => set_registry (update_endpoint (sv_registry s) cid peer) s) ;;;
        modify (fun s => set_registry (snd (set_online (env_now env) (sv_registry s) cid)) s) ;;;
        modify (fun s => set_writers (dset (sv_writers s) cid w) s) ;;;
        modify (fun s => set_authenticated (dset (sv_authenticated s) cid false) s) ;;;
        let! issued := gets (fun s => issue (env_now env) (env_nonce env) (sv_auth s) cid) in
        modify (set_auth (snd issued)) ;;;
        let! challenge := lift (fst issued) in
        let! nonce := lift (attr challenge (py "challenge")) in
        let! chal_id := lift (attr challenge (py "client_id")) in
        send_new w AuthChallenge [(py "challenge", nonce); (py "client_id", chal_id)] ;;;
        ret (Some cid)
  end.

Definition on_auth (env : Env) (w : nat) (cid : str) (msg : Message) : M (bool * str) :=
  match validate_auth_response (msg_payload msg) with
  | Err e =>
      if bool_decide (exc_cls e = CProtocolError) then ret (false, exc_msg e) else lift (Err e)
  | Ok (challenge_hex, signature_hex) =>
      let! verdict := gets (fun s =>
        verify (env_now env) (sv_auth s) (sv_registry s) cid challenge_hex signature_hex) in
      modify (set_auth (snd verdict)) ;;;
      let! (ok, detail) := lift (fst verdict) in
      (if ok then
         modify (fun s => set_authenticated (dset (sv_authenticated s) cid true) s) ;;;
         send_new w AuthResult [(py "ok", JBool true); (py "message", JStr (py "authenticated"))] ;;;
         announce_peer_online cid
       else ret tt) ;;;
      ret (ok, detail)
  end.

(** ** Commands *)

Definition on_heartbeat (env : Env) (cid : str) (w : nat) (msg : Message) : M unit :=
  modify (fun s => set_registry (snd (heartbeat (env_now env) (sv_registry s) cid)) s) ;;;
  send_new w HeartbeatAck
    [(py "ts", default (JFloat (py "0.0")) (dget (msg_payload msg) (py "ts")))].

Definition on_create_network (env : Env) (cid : str) (w : nat) (msg : Message) : M unit :=
  let! (nname, password, topo) := lift (validate_create_network (msg_payload msg)) in
  let! created := gets (fun s =>
    create (env_now env) (env_uuid env) (env_salt env) (sv_networks s) (sv_registry s)
      nname password cid topo None) in
  let! (record, nm, reg) := lift created in
  modify (fun s => set_registry reg (set_nets nm s)) ;;;
  let! coded := gets (fun s =>
    generate_invite_code (env_draws env) (env_hex env) (sv_networks s) (network_id record)) in
  let! (invite_code, nm2) := lift coded in
  modify (set_nets nm2) ;;;
  send_new w NetworkCreated
    [(py "network_id", JStr (network_id record)); (py "name", JStr (name record));
     (py "owner_id", JStr cid); (py "topology", JStr (topology record));
     (py "invite_code", JStr invite_code)] ;;;
  announce_peer_online cid.

Definition confirm_join (cid : str) (w : nat) (record : NetworkRecord) : M unit :=
  send_new w NetworkJoined
    [(py "network_id", JStr (network_id record)); (py "name", JStr (name record))] ;;;
  announce_peer_online cid.

Definition on_join_network (cid : str) (w : nat) (msg : Message) : M unit :=
  let! (nid, password) := lift (validate_join_network (msg_payload msg)) in
  let! nm := gets sv_networks in
  if nm_is_banned nm nid
  then send_error w (py "NETWORK_BANNED") (py "network is banned")
  else
    match nm_get nm nid with
    | Some record =>
        let! joined := gets (fun s => join (sv_networks s) (sv_registry s) nid cid password) in
        let! (ok, nm', reg) := lift joined in
        modify (fun s => set_registry reg (set_nets nm' s)) ;;;
        if ok then confirm_join cid w record
        else send_error w (py "WRONG_PASSWORD") (py "join rejected")
    | None =>
        let! joined := gets (fun s =>
          join_by_invite_code (sv_networks s) (sv_registry s) nid cid password) in
        let! (found, nm', reg) := lift joined in
        modify (fun s => set_registry reg (set_nets nm' s)) ;;;
        match found with
        | Some record => confirm_join cid w record
        | None =>
            send_error w (py "NETWORK_NOT_FOUND")
              (py "no such network " ++ [8212] ++ py " check the network id or invite code")
        end
    end.

Definition on_leave_network (cid : str) (w : nat) (msg : Message) : M unit :=
  let! nid := lift (validate_network_id (msg_payload msg)) in
  let! left_ := gets (fun s => leave (sv_networks s) (sv_registry s) nid cid) in
  let '(ok, nm, reg) := left_ in
  modify (fun s => set_registry reg (set_nets nm s)) ;;;
  if ok then
    send_new w NetworkLeft [(py "network_id", JStr nid)] ;;; announce_peer_offline cid nid
  else send_error w (py "NOT_MEMBER") (py "you are not a member of this network").

Definition on_list_networks (cid : str) (w : nat) : M unit :=
  let! nets := gets (fun s => list_for_client (sv_networks s) cid) in
  send_new w NetworkList
    [(py "networks", JList (map (fun r => network_to_dict r None) nets))].

(** The first network of the requester that the peer is a member of. *)
Definition find_shared (nm : NetworkManager.NetworkManager) (nets : list str) (peer : str)
    : option str :=
  head (List.filter (fun nid => is_member nm nid peer) nets).

Definition on_request_peer_conn (cid : str) (w : nat) (msg : Message) : M unit :=
  let! peer := lift (validate_peer_id (msg_payload msg)) in
  let! s := gets (fun s => s) in
  match find_shared (sv_networks s) (set_order (networks_for (sv_registry s) cid)) peer with
  | None => send_error w (py "NO_SHARED_NETWORK") (py "no shared network with that peer")
  | Some nid =>
      match shared_endpoints_for (sv_networks s) (sv_registry s) nid cid peer with
      | None | Some [] =>
          send_error w (py "PEER_UNAVAILABLE") (py "peer is offline or endpoints hidden")
      | Some eps =>
          send_new w PeerEndpoints
            [(py "peer_id", JStr peer);
             (py "endpoints", JList (map (fun ep => JList [JStr (fst ep); JInt (snd ep)]) eps))]
      end
  end.

(** [payload.get("network_id") or networks[0].network_id] as a dictionary
    key: a list or an object is not hashable, another value that is not a
    string is no network's id. *)
Definition service_network (v : json) (first : str) : result (option str) :=
  if truthy v then
    match v with
    | JStr s => Ok (Some s)
    | JList _ => raise CTypeError (py "unhashable type: 'list'")
    | JObj _ => raise CTypeError (py "unhashable type: 'dict'")
    | _ => Ok None
    end
  else Ok (Some first).

(** [expose_service] returns the id of the new service, and the handler then
    reads [.service_id] of that string. *)
Definition on_expose_service (env : Env) (cid : str) (w : nat) (msg : Message) : M unit :=
  let! (sname, proto, host, port) := lift (validate_expose_service (msg_payload msg)) in
  let! nets := gets (fun s => list_for_client (sv_networks s) cid) in
  match nets with
  | [] => send_error w (py "NO_NETWORK") (py "join a network before exposing a service")
  | first :: _ =>
      let! nid := lift (service_network (pget (msg_payload msg) (py "network_id"))
                          (network_id first)) in
      let! exposed := gets (fun s =>
        match nid with
        | Some nid => expose_service (env_now env) (env_uuid env) (sv_networks s) nid cid
                        sname proto host port
        | None => raise CValueError (py "client not a member of this network")
        end) in
      let! (_, nm) := lift exposed in
      modify (set_nets nm) ;;;
      lift (raise CAttributeError (py "'str' object has no attribute 'service_id'"))
  end.

Definition on_unexpose_service (cid : str) (w : nat) (msg : Message) : M unit :=
  let! sid := lift (validate_service_id (msg_payload msg)) in
  let! removed := gets (fun s => unexpose_service_owner (sv_networks s) sid cid) in
  modify (set_nets (snd removed)) ;;;
  match fst removed with
  | None => send_error w (py "SERVICE_NOT_FOUND") (py "service not found")
  | Some nid => broadcast_service nid ServiceRemoved [(py "service_id", JStr sid)]
  end.

(** ** Relay (src/server/relay.py) *)

Definition path_id (a b : str) : str := a ++ py "->" ++ b.

Definition handle_relay_request (src dst : str) (w : nat) : M unit :=
  let! s := gets (fun s => s) in
  match get (sv_registry s) src, get (sv_registry s) dst with
  | Some src_record, Some dst_record =>
      if negb (online src_record && online dst_record)
      then send_error w (py "RELAY_FAILED") (py "peer is not online")
      else if negb (existsb (fun n => bool_decide (dst ∈ members_of (sv_networks s) (network_id n)))
                      (list_for_client (sv_networks s) src))
      then send_error w (py "RELAY_FAILED") (py "no shared network with that peer")
      else
        modify (fun s => set_relay (snd (register_relay_path (sv_relay s) src dst)) s) ;;;
        send_new w RelayGranted [(py "peer_id", JStr dst); (py "path_id", JStr (path_id src dst))] ;;;
        let! dst_writer := gets (fun s => dget (sv_writers s) dst) in
        match dst_writer with
        | Some dw => send_new dw RelayGranted
                       [(py "peer_id", JStr src); (py "path_id", JStr (path_id dst src))]
        | None => ret tt
        end
  | _, _ => send_error w (py "RELAY_FAILED") (py "unknown peer")
  end.

Definition deliver_relayed (cid : str) (w : nat) : M unit :=
  let! drained := gets (fun s => pending_frames (sv_relay s) cid) in
  modify (set_relay (snd drained)) ;;;
  for_each (fst drained) (fun sf =>
    send_new w RelayFrame
      [(py "src_id", JStr (fst sf)); (py "dst_id", JStr cid); (py "frame_b64", JStr (snd sf))]).

Definition on_relay_request (cid : str) (w : nat) (msg : Message) : M unit :=
  let! peer := lift (validate_peer_id (msg_payload msg)) in
  handle_relay_request cid peer w.

(** ** Dispatch *)

Definition run_command (env : Env) (cid : str) (w : nat) (msg : Message) : M unit :=
  let t := msg_type msg in
  if str_eqb t MSG_HEARTBEAT then on_heartbeat env cid w msg
  else if str_eqb t MSG_CREATE_NETWORK then on_create_network env cid w msg
  else if str_eqb t MSG_JOIN_NETWORK then on_join_network cid w msg
  else if str_eqb t MSG_LEAVE_NETWORK then on_leave_network cid w msg
  else if str_eqb t MSG_LIST_NETWORKS then on_list_networks cid w
  else if str_eqb t MSG_REQUEST_PEER_CONN then on_request_peer_conn cid w msg
  else if str_eqb t MSG_EXPOSE_SERVICE then on_expose_service env cid w msg
  else if str_eqb t MSG_UNEXPOSE_SERVICE then on_unexpose_service cid w msg
  else if str_eqb t MSG_RELAY_REQUEST then on_relay_request cid w msg
  else send_error w (py "UNKNOWN_MESSAGE") (py "unhandled message type " ++ t).

Definition dispatch (env : Env) (cid : str) (w : nat) (msg : Message) : M bool :=
  catch (run_command env cid w msg)
    (fun e =>
       if bool_decide (exc_cls e = CProtocolError)
       then send_error w (py "INVALID_MESSAGE") (exc_msg e)
       else send_error w (py "INTERNAL") (py "internal error: " ++ exc_msg e)) ;;;
  ret true.

(** ** Connections *)

Record Conn := mkConn {
  c_writer : nat;
  c_peer : str * Z;
  c_client : option str;
  c_registered : bool;
  c_authenticated : bool;
  c_open : bool                      (* the coroutine has not ended *)
}.

Definition new_conn (w : nat) (peer : str * Z) : Conn := mkConn w peer None false false true.

(** One iteration of the loop of [handle_client] once a message has been
    read: the new locals and whether the loop goes on. *)
Definition on_message (env : Env) (c : Conn) (data : bytes) : M (Conn * bool) :=
  let w := c_writer c in
  let! msg := lift (parse_message data) in
  if negb (c_registered c) then
    if negb (str_eqb (msg_type msg) MSG_REGISTER)
    then send_error w (py "REGISTER_REQUIRED") (py "register first") ;;; ret (c, true)
    else
      let! cid := on_register env w msg (c_peer c) in
      ret (mkConn w (c_peer c) cid (match cid with Some _ => true | None => false end) false true,
           true)
  else
    match c_client c with
    | None => ret (c, true)                (* not reached: registered means named *)
    | Some cid =>
        if negb (c_authenticated c) then
          if negb (str_eqb (msg_type msg) MSG_AUTH_RESPONSE)
          then send_error w (py "AUTH_REQUIRED") (py "authenticate first") ;;; ret (c, true)
          else
            let! (ok, detail) := on_auth env w cid msg in
            (if ok then ret tt else send_error w (py "AUTH_FAILED") detail) ;;;
            ret (mkConn w (c_peer c) (Some cid) true ok true, true)
        else
          let! go := dispatch env cid w msg in
          if go then deliver_relayed cid w ;;; ret (c, true) else ret (c, false)
    end.

(** The [finally] clause.  An exception of [_handle_disconnect] leaves it
    before the writer is closed. *)
Definition finish (c : Conn) : M unit :=
  match c_client c with
  | Some (x :: cid) => if c_authenticated c then handle_disconnect (x :: cid) else ret tt
  | _ => ret tt
  end ;;;
  close_writer (c_writer c).

Definition closed_conn (c : Conn) : Conn :=
  mkConn (c_writer c) (c_peer c) (c_client c) (c_registered c) (c_authenticated c) false.

(** One message of a connection: its effect on the connection and on the
    server.  Every exception ends the loop and runs [finally] with the
    locals as they were. *)
Definition recv (env : Env) (c : Conn) (header body : bytes) (s : MediationServer)
    : Conn * MediationServer :=
  if be_decode header >? MAX_MESSAGE_SIZE then (closed_conn c, snd (finish c s))
  else
    match on_message env c (header ++ body) s with
    | (Ok (c', true), s') => (c', s')
    | (Ok (c', false), s') => (closed_conn c', snd (finish c' s'))
    | (Err _, s') => (closed_conn c, snd (finish c s'))
    end.

(** End of stream, a short read or a reset. *)
Definition eof (c : Conn) (s : MediationServer) : Conn * MediationServer :=
  (closed_conn c, snd (finish c s)).

(** One turn of [_prune_loop] and of [_auth_expiry_loop]; an exception of the
    first ends its task. *)
Definition prune_tick (now : time) : M unit :=
  let! pruned := gets (fun s =>
    prune_stale now (sv_registry s) (cfg_heartbeat_timeout (sv_config s))) in
  modify (set_registry (snd pruned)) ;;;
  for_each (fst pruned) handle_disconnect.

Definition auth_expiry_tick (now : time) : M unit :=
  modify (fun s => set_auth (snd (expire_stale now (sv_auth s))) s).

(** [shutdown], the part that acts on the server's state. *)
Definition shutdown : M unit :=
  modify (fun s => set_closed (sv_closed s ∪ list_to_set (dvals (sv_writers s))) s) ;;;
  modify (set_writers []).

(** ** Reasoning about handlers *)

(** [m] preserves [P], whether it returns or raises. *)
Definition pres (P : MediationServer -> Prop) {A} (m : M A) : Prop :=
  forall s, P s -> P (snd (m s)).

Lemma bind_gets {A B} (f : MediationServer -> A) (k : A -> M B) s :
  bind (gets f) k s = k (f s) s.
Proof. done. Qed.
Lemma bind_modify {B} f (k : unit -> M B) s : bind (modify f) k s = k tt (f s).
Proof. done. Qed.
Lemma bind_lift {A B} (r : result A) (k : A -> M B) s :
  bind (lift r) k s = match r with Ok a => k a s | Err e => (Err e, s) end.
Proof. by destruct r. Qed.

Lemma pres_ret P {A} (a : A) : pres P (ret a).
Proof. by intros s. Qed.
Lemma pres_lift P {A} (r : result A) : pres P (lift r).
Proof. by intros s. Qed.
Lemma pres_gets P {A} (f : MediationServer -> A) : pres P (gets f).
Proof. by intros s. Qed.
Lemma pres_modify (P : MediationServer -> Prop) f : (forall s, P s -> P (f s)) -> pres P (modify f).
Proof. intros H s. apply H. Qed.
Lemma pres_bind P {A B} (m : M A) (k : A -> M B) :
  pres P m -> (forall a, pres P (k a)) -> pres P (bind m k).
Proof.
  intros Hm Hk s Hs. unfold bind. specialize (Hm s Hs).
  destruct (m s) as [[a|e] s']; simpl in *; [by apply Hk|done].
Qed.
Lemma pres_catch P {A} (m : M A) (h : exc -> M A) :
  pres P m -> (forall e, pres P (h e)) -> pres P (catch m h).
Proof.
  intros Hm Hh s Hs. unfold catch. specialize (Hm s Hs).
  destruct (m s) as [[a|e] s']; simpl in *; [done|by apply Hh].
Qed.
(** The same at one state. *)
Lemma bind_at (P : MediationServer -> Prop) {A B} (m : M A) (k : A -> M B) s :
  P (snd (m s)) -> (forall a, pres P (k a)) -> P (snd (bind m k s)).
Proof. intros Hm Hk. unfold bind. destruct (m s) as [[a|e] s']; simpl in *; [by apply Hk|done]. Qed.
Lemma catch_at (P : MediationServer -> Prop) {A} (m : M A) (h : exc -> M A) s :
  P (snd (m s)) -> (forall e, pres P (h e)) -> P (snd (catch m h s)).
Proof. intros Hm Hk. unfold catch. destruct (m s) as [[a|e] s']; simpl in *; [done|by apply Hk]. Qed.
Lemma pres_for_each P {A} (l : list A) (f : A -> M unit) :
  (forall x, pres P (f x)) -> pres P (for_each l f).
Proof.
  intros Hf. induction l as [|x l IH]; simpl; [apply pres_ret|].
  apply pres_bind; [apply Hf|intros; apply IH].
Qed.

Create HintDb server discriminated.
#[local] Hint Resolve pres_ret pres_lift pres_gets pres_bind pres_catch pres_for_each : server.

(** Properties that do not look at the log of messages. *)
Definition quiet (P : MediationServer -> Prop) : Prop := forall s x, P s -> P (set_out x s).

Section Sends.
Context (P : MediationServer -> Prop) (HP : quiet P).

Lemma pres_send w msg : pres P (send w msg).
Proof.
  unfold send. apply pres_bind; [apply pres_lift|]. intros _.
  apply pres_bind; [apply pres_gets|]. intros lost. case_match; [apply pres_lift|].
  apply pres_modify. intros s. apply HP.
Qed.

Lemma pres_send_new w cls kw : pres P (send_new w cls kw).
Proof. apply pres_bind; [apply pres_lift|]. intros. apply pres_send. Qed.

Lemma pres_send_error w code text : pres P (send_error w code text).
Proof. unfold send_error. apply pres_send_new. Qed.

Lemma pres_notify skip nid cls kw : pres P (notify_members skip nid cls kw).
Proof.
  apply pres_bind; [apply pres_gets|]. intros ms. apply pres_for_each. intros m.
  case_match; [apply pres_ret|]. apply pres_bind; [apply pres_gets|]. intros [w|];
    [apply pres_send_new|apply pres_ret].
Qed.

Lemma pres_announce_online cid : pres P (announce_peer_online cid).
Proof.
  apply pres_bind; [apply pres_gets|]. intros nets. apply pres_for_each. intros.
  apply pres_notify.
Qed.

Lemma pres_announce_offline cid nid : pres P (announce_peer_offline cid nid).
Proof. unfold announce_peer_offline. apply pres_notify. Qed.
End Sends.

(** ** Invariant of the server *)

Definition known (s : MediationServer) (c : str) : Prop := is_Some (dget (sv_registry s) c).

(** [K] is a set of clients that stay registered. *)
Record good (K : str -> Prop) (s : MediationServer) : Prop := {
  good_registry : reg_ok (sv_registry s);
  good_networks : consistent (sv_networks s) (sv_registry s);
  good_relay : relay_ok (sv_relay s);
  good_writers : dict_ok (sv_writers s);
  good_capacity : zlen (sv_writers s) <= cfg_max_clients (sv_config s);
  good_writers_known : forall c w, dget (sv_writers s) c = Some w -> known s c;
  good_pending : dict_ok (pending (sv_auth s));
  good_known : forall c, K c -> known s c
}.

Lemma quiet_good K : quiet (good K).
Proof. intros s x []. constructor; assumption. Qed.

(** A change of the registry that keeps ids, network sets and clients. *)
Definition same_networks (reg reg' : ClientRegistry) : Prop :=
  reg_ok reg'
  /\ forall c, match dget reg c with
               | Some r => exists r', dget reg' c = Some r' /\ networks r' = networks r
               | None => match dget reg' c with Some r' => networks r' = ∅ | None => True end
               end.

Lemma same_networks_in reg reg' n c :
  same_networks reg reg' -> in_network reg' n c <-> in_network reg n c.
Proof.
  intros [_ H]. specialize (H c). unfold in_network. simpl. unfold get.
  destruct (dget reg c) as [r|].
  - destruct H as (r' & -> & Hn). split; intros (x & [= <-] & Hx); eexists; (split; [done|]);
      by rewrite Hn in * || by rewrite <- Hn.
  - destruct (dget reg' c) as [r'|]; [|done]. split; [|naive_solver].
    intros (x & [= <-] & Hx). rewrite H in Hx. set_solver.
Qed.

Lemma good_set_registry K s reg :
  good K s -> same_networks (sv_registry s) reg -> good K (set_registry reg s).
Proof.
  intros [H1 H2 H3 H4 H5 H6 H7 H8] Hn.
  assert (Hk : forall c, known s c -> known (set_registry reg s) c).
  { intros c [r Hr]. destruct Hn as [_ Hn]. specialize (Hn c). rewrite Hr in Hn.
    destruct Hn as (r' & Hr' & _). by exists r'. }
  split; simpl; eauto; [by apply Hn|].
  destruct H2 as (Ha & Hb & Hc). split_and!; [done|done|]. intros n c. rewrite Hc.
  symmetry. by apply same_networks_in.
Qed.

Lemma same_networks_dalter f reg c :
  reg_ok reg -> (forall r, client_id (f r) = client_id r /\ networks (f r) = networks r) ->
  same_networks reg (dalter f reg c).
Proof.
  intros Hr Hf. split; [apply reg_ok_dalter; [apply Hf|done]|]. intros c'. rewrite dget_dalter.
  destruct (dget reg c') as [r|]; [|by destruct (decide (c = c'))].
  destruct (decide (c = c')); simpl; eexists; (split; [done|]); [apply Hf|done].
Qed.

Lemma same_networks_refl reg : reg_ok reg -> same_networks reg reg.
Proof. intros Hr. split; [done|]. intros c. destruct (dget reg c) eqn:Hc; eauto. Qed.

Lemma same_networks_register now reg c pem :
  reg_ok reg -> same_networks reg (register now reg c pem).
Proof.
  intros Hr. split; [eauto with pydb|]. intros c'. rewrite dget_register.
  destruct (decide (c = c')) as [<-|].
  - destruct (dget reg c); simpl; eauto.
  - destruct (dget reg c'); eauto.
Qed.

Lemma same_networks_prune now reg timeout :
  reg_ok reg -> same_networks reg (snd (prune_stale now reg timeout)).
Proof.
  intros Hr. split; [eauto with pydb|]. intros c. unfold prune_stale. rewrite prune_items_spec.
  simpl. rewrite dget_dmap. destruct (dget reg c) as [r|]; simpl; [|done].
  eexists. split; [done|]. by case_match.
Qed.

Lemma same_networks_set_online now reg c :
  reg_ok reg -> same_networks reg (snd (set_online now reg c)).
Proof.
  intros. unfold set_online. repeat case_match; simpl; try by apply same_networks_refl.
  by apply same_networks_dalter.
Qed.

Lemma same_networks_heartbeat now reg c :
  reg_ok reg -> same_networks reg (snd (heartbeat now reg c)).
Proof.
  intros. unfold heartbeat. case_match; simpl; [|by apply same_networks_refl].
  by apply same_networks_dalter.
Qed.

Lemma pres_registry K (f : MediationServer -> ClientRegistry) :
  (forall s, good K s -> same_networks (sv_registry s) (f s)) ->
  pres (good K) (modify (fun s => set_registry (f s) s)).
Proof. intros Hf. apply pres_modify. intros s Hs. by apply good_set_registry; [|apply Hf]. Qed.

Lemma good_set_relay K s r : good K s -> relay_ok r -> good K (set_relay r s).
Proof. intros [] ?. constructor; assumption. Qed.

Lemma good_set_auth K s a : good K s -> dict_ok (pending a) -> good K (set_auth a s).
Proof. intros [] ?. constructor; assumption. Qed.

Lemma good_set_authenticated K s x : good K s -> good K (set_authenticated x s).
Proof. intros []. constructor; assumption. Qed.

Lemma good_set_closed K s x : good K s -> good K (set_closed x s).
Proof. intros []. constructor; assumption. Qed.

Lemma good_set_lost K s x : good K s -> good K (set_lost x s).
Proof. intros []. constructor; assumption. Qed.

Lemma good_del_writer K s c : good K s -> good K (set_writers (ddel (sv_writers s) c) s).
Proof.
  intros [H1 H2 H3 H4 H5 H6 H7 H8]. split; simpl; eauto with pydb.
  - pose proof (length_ddel_le (sv_writers s) c). unfold zlen in *. lia.
  - intros c' w. rewrite dget_ddel. destruct (decide (c = c')); [done|]. apply H6.
Qed.

Lemma good_set_nets K s nm reg :
  good K s -> reg_ok reg -> consistent nm reg ->
  (forall c, known s c -> is_Some (dget reg c)) -> good K (set_registry reg (set_nets nm s)).
Proof.
  intros [H1 H2 H3 H4 H5 H6 H7 H8] Hr Hc Hk. split; simpl; try done; intros; apply Hk; eauto.
Qed.

Lemma good_set_nets_only K s nm :
  good K s -> nm_networks nm = nm_networks (sv_networks s) -> good K (set_nets nm s).
Proof.
  intros [] Hn. split; simpl; try done. by apply (consistent_networks (sv_networks s)).
Qed.

Lemma reg_ok_add_network reg c n : reg_ok reg -> reg_ok (add_network reg c n).
Proof. by apply reg_ok_dalter. Qed.
Lemma reg_ok_remove_network reg c n : reg_ok reg -> reg_ok (remove_network reg c n).
Proof. by apply reg_ok_dalter. Qed.
Lemma known_add_network reg c n c' :
  is_Some (dget reg c') -> is_Some (dget (add_network reg c n) c').
Proof. unfold add_network. rewrite dget_dalter. destruct (decide (c = c')); [by rewrite fmap_is_Some|done]. Qed.
Lemma known_remove_network reg c n c' :
  is_Some (dget reg c') -> is_Some (dget (remove_network reg c n) c').
Proof. unfold remove_network. rewrite dget_dalter. destruct (decide (c = c')); [by rewrite fmap_is_Some|done]. Qed.

(** ** Every handler preserves the invariant *)

Lemma pres_handle_disconnect K cid : pres (good K) (handle_disconnect cid).
Proof.
  unfold handle_disconnect. repeat (apply pres_bind; [|intros ?]).
  - apply pres_modify. intros s. apply good_del_writer.
  - apply pres_modify. intros s. apply good_set_authenticated.
  - apply pres_gets.
  - apply pres_registry. intros s Hs. apply same_networks_dalter; [apply Hs|done].
  - apply pres_modify. intros s Hs. apply good_set_relay; [done|]. apply relay_ok_drop, Hs.
  - apply pres_for_each. intros. apply pres_announce_offline, quiet_good.
Qed.

Lemma pres_finish K c : pres (good K) (finish c).
Proof.
  unfold finish. apply pres_bind.
  - repeat case_match; auto using pres_ret, pres_handle_disconnect.
  - intros _. apply pres_modify. intros s. apply good_set_closed.
Qed.

#[local] Hint Resolve quiet_good : core.

Lemma good_dset_writer K s c w :
  good K s -> known s c ->
  (zlen (sv_writers s) < cfg_max_clients (sv_config s) \/ dmem (sv_writers s) c = true) ->
  good K (set_writers (dset (sv_writers s) c w) s).
Proof.
  intros [H1 H2 H3 H4 H5 H6 H7 H8] Hk Hc. constructor; simpl; try assumption.
  - by apply dict_ok_dset.
  - unfold zlen in *. destruct Hc as [Hc|Hc%dmem_true].
    + pose proof (length_dset_le (sv_writers s) c w). lia.
    + by rewrite length_dset_old.
  - intros c' w'. rewrite dget_dset. destruct (decide (c = c')) as [<-|]; [done|apply H6].
Qed.

Lemma set_registry_twice x y s : set_registry x (set_registry y s) = set_registry x s.
Proof. by destruct s. Qed.

(** The new state after a successful registration, up to the challenge. *)
Lemma good_register_state K env w peer cid pem s :
  good K s ->
  (zlen (sv_writers s) >=? cfg_max_clients (sv_config s)) && negb (dmem (sv_writers s) cid) = false ->
  good K (set_writers (dset (sv_writers s) cid w)
    (set_registry (snd (set_online (env_now env)
       (update_endpoint (register (env_now env) (sv_registry s) cid pem) cid peer) cid)) s)).
Proof.
  intros Hs Hcap. set (reg1 := register (env_now env) (sv_registry s) cid pem).
  set (reg2 := update_endpoint reg1 cid peer).
  set (reg3 := snd (set_online (env_now env) reg2 cid)).
  assert (Hs1 : good K (set_registry reg1 s))
    by (apply good_set_registry; [done|apply same_networks_register, Hs]).
  assert (Hs2 : good K (set_registry reg2 s)).
  { rewrite <- (set_registry_twice reg2 reg1). apply good_set_registry; [done|].
    apply same_networks_dalter; [apply Hs1|done]. }
  assert (Hs3 : good K (set_registry reg3 s)).
  { rewrite <- (set_registry_twice reg3 reg2). apply good_set_registry; [done|].
    apply same_networks_set_online, Hs2. }
  apply (good_dset_writer K (set_registry reg3 s)); [done| |].
  - unfold known. simpl. unfold reg3, set_online, reg2, update_endpoint, reg1.
    assert (Hx : forall f, is_Some (dget (dalter f (register (env_now env) (sv_registry s) cid pem) cid) cid)).
    { intros f. rewrite dget_dalter, dget_register, !decide_True by done. eauto. }
    repeat case_match; simpl; auto. rewrite dget_dalter, decide_True by done.
    apply fmap_is_Some. apply Hx.
  - simpl. apply andb_false_iff in Hcap as [Hcap|Hcap%negb_false_iff]; [left|by right].
    rewrite Z.geb_leb in Hcap. by apply Z.leb_gt in Hcap.
Qed.

Lemma good_weaken (K K' : str -> Prop) s : good K s -> (forall x, K' x -> known s x) -> good K' s.
Proof. intros [] ?. constructor; assumption. Qed.

(** [_on_register] preserves the invariant, and the client it names is known. *)
Lemma good_on_register K env w msg peer s :
  good K s ->
  good (fun x => K x \/ fst (on_register env w msg peer s) = Ok (Some x))
    (snd (on_register env w msg peer s)).
Proof.
  intros Hs.
  assert (Herr : forall code text, good
    (fun x => K x \/ fst ((send_error w code text ;;; ret (@None str)) s) = Ok (Some x))
    (snd ((send_error w code text ;;; ret (@None str)) s))).
  { intros code text. pose proof (pres_send_error (good K) (quiet_good K) w code text s Hs) as H.
    unfold bind. destruct (send_error w code text s) as [[a|e] s']; simpl in *;
      (apply (good_weaken K); [done|]; intros x [Hx|[=]]; by apply H). }
  unfold on_register. destruct (validate_register _) as [[cid pem]|e].
  2:{ destruct (bool_decide _); [apply Herr|]. apply (good_weaken K); [done|].
      intros x [Hx|[=]]. by apply Hs. }
  rewrite bind_gets. destruct (_ && _) eqn:Hcap; [apply Herr|].
  destruct (is_banned _ _); [apply Herr|].
  pose proof (good_register_state K env w peer cid pem s Hs Hcap) as Hg.
  rewrite bind_modify, bind_gets.
  assert (Hold : forall k : unit -> M (option str), forall x,
    bind (match dget (sv_writers x) cid with
          | Some old => if bool_decide (old = w) then ret tt else close_writer old
          | None => ret tt
          end) k x = k tt (set_closed (match dget (sv_writers x) cid with
                                       | Some old => if bool_decide (old = w) then sv_closed x
                                                     else sv_closed x ∪ {[old]}
                                       | None => sv_closed x end) x)).
  { intros k x. destruct x. simpl. repeat case_match; done. }
  rewrite Hold. clear Hold. rewrite !bind_modify, bind_gets, bind_modify. cbv beta.
  set (cl := match dget _ cid with Some _ => _ | None => _ end). clearbody cl.
  match goal with |- good _ (snd (?k ?x)) => set (s1 := x); set (kk := k) end.
  assert (Hs1 : good (fun x => K x \/ x = cid) s1).
  { unfold s1. apply good_set_auth; [|apply dict_ok_dset; exact (good_pending _ _ Hs)].
    apply good_set_authenticated. apply (good_set_closed _ _ cl) in Hg.
    apply (good_weaken K); [exact Hg|]. intros x [Hx| ->]; [by apply Hg|].
    apply (good_writers_known _ _ Hg cid w). simpl. apply dget_dset_eq. }
  clearbody s1. assert (Hk : pres (good (fun x => K x \/ x = cid)) kk).
  { unfold kk. repeat (apply pres_bind; [first [apply pres_lift|by apply pres_send_new]|intros ?]).
    apply pres_ret. }
  eapply good_weaken; [by apply Hk|]. intros x [Hx|Hx]; (apply (good_known _ _ (Hk s1 Hs1))); [by left|].
  right. unfold kk in Hx. clear -Hx. revert Hx. rewrite !bind_lift. repeat (case_match; [|done]).
  rewrite !bind_lift. case_match; [|done]. unfold bind. repeat case_match; simpl; congruence.
Qed.

Lemma pres_on_register K env w msg peer : pres (good K) (on_register env w msg peer).
Proof.
  intros s Hs. eapply good_weaken; [by apply good_on_register|].
  intros x Hx. apply (good_known _ _ (good_on_register K env w msg peer s Hs)). by left.
Qed.

Lemma dict_ok_verify now a reg cid ch sig :
  dict_ok (pending a) -> dict_ok (pending (snd (verify now a reg cid ch sig))).
Proof.
  intros Hd. unfold verify, consume. repeat case_match; simplify_eq; simpl; eauto with pydb.
Qed.

Lemma pres_on_auth K env w cid msg : pres (good K) (on_auth env w cid msg).
Proof.
  unfold on_auth. destruct (validate_auth_response _) as [[ch sig]|e].
  2:{ case_match; [apply pres_ret|apply pres_lift]. }
  intros s Hs. rewrite bind_gets, bind_modify.
  match goal with |- good K (snd (?k ?x)) => set (s1 := x); set (kk := k) end.
  assert (Hs1 : good K s1) by (apply good_set_auth; [done|apply dict_ok_verify, Hs]).
  clearbody s1. assert (Hk : pres (good K) kk); [|by apply Hk]. unfold kk.
  apply pres_bind; [apply pres_lift|]. intros [ok detail]. apply pres_bind; [|intros; apply pres_ret].
  destruct ok; [|apply pres_ret].
  apply pres_bind; [apply pres_modify; intros ?; apply good_set_authenticated|intros ?].
  apply pres_bind; [by apply pres_send_new|intros ?]. by apply pres_announce_online.
Qed.

Lemma pres_on_heartbeat K env cid w msg : pres (good K) (on_heartbeat env cid w msg).
Proof. unfold on_heartbeat.
  apply pres_bind; [|intros; by apply pres_send_new]. apply pres_registry.
  intros s Hs. apply same_networks_heartbeat, Hs.
Qed.

(** The identifier that [create] may use is new (a version 4 UUID). *)
Definition fresh_env (env : Env) (s : MediationServer) : Prop :=
  env_uuid env <> [] /\ nm_get (sv_networks s) (env_uuid env) = None.

Lemma good_on_create K env cid w msg s :
  good K s -> K cid -> fresh_env env s -> good K (snd (on_create_network env cid w msg s)).
Proof.
  intros Hs Hk [Hne Hf]. unfold on_create_network. rewrite bind_lift.
  destruct (validate_create_network _) as [[[nname pw] topo]|e]; [|done].
  rewrite bind_gets, bind_lift. destruct (create _ _ _ _ _ _ _ _ _ _) as [[[r nm] reg]|e] eqn:Hc; [|done].
  rewrite bind_modify, bind_gets, bind_lift.
  assert (Hcon : consistent nm reg).
  { eapply consistent_create; [apply Hs| | |exact Hc]; [|done].
    destruct (good_known _ _ Hs cid Hk) as [x Hx]. by exists x. }
  assert (Hreg : exists n, reg = add_network (sv_registry s) cid n).
  { unfold create in Hc. destruct (negb _); [done|]. do 2 inv_bind Hc. apply Ok_inj in Hc.
    simplify_eq. eexists. reflexivity. }
  destruct Hreg as [n ->].
  assert (Hs1 : good K (set_registry (add_network (sv_registry s) cid n) (set_nets nm s))).
  { apply good_set_nets; [done|apply reg_ok_add_network, Hs|done|].
    intros c Hc'. by apply known_add_network. }
  simpl sv_networks. destruct (generate_invite_code _ _ nm _) as [[code nm2]|e] eqn:Hg; [|done].
  rewrite bind_modify.
  assert (Hn2 : nm_networks nm2 = nm_networks nm) by (by destruct (generate_code_maps _ _ _ _ _ _ Hg) as (_ & ? & _)).
  pose proof (good_set_nets_only K _ nm2 Hs1 Hn2) as Hs2.
  match goal with |- good K (snd (?k ?x)) => set (kk := k) end.
  assert (Hkk : pres (good K) kk); [|by apply Hkk]. unfold kk.
  apply pres_bind; [by apply pres_send_new|intros; by apply pres_announce_online].
Qed.

Lemma pres_confirm_join K cid w r : pres (good K) (confirm_join cid w r).
Proof. unfold confirm_join. apply pres_bind; [by apply pres_send_new|intros; by apply pres_announce_online]. Qed.

Lemma good_admit K s nid cid nm reg :
  good K s -> K cid ->
  consistent nm reg -> (nm, reg) = admit_member (sv_networks s) (sv_registry s) nid cid ->
  good K (set_registry reg (set_nets nm s)).
Proof.
  intros Hs Hk Hc [= -> ->]. apply good_set_nets; [done|apply reg_ok_add_network, Hs|done|].
  intros c Hc'. by apply known_add_network.
Qed.

Lemma good_same_state K s : good K s -> good K (set_registry (sv_registry s) (set_nets (sv_networks s) s)).
Proof. by destruct s. Qed.

Lemma good_on_join K cid w msg s :
  good K s -> K cid -> good K (snd (on_join_network cid w msg s)).
Proof.
  intros Hs Hk. unfold on_join_network. rewrite bind_lift.
  destruct (validate_join_network _) as [[nid pw]|e]; [|done]. rewrite bind_gets.
  assert (Hx : is_Some (store_get (sv_registry s) cid)) by (by apply (good_known _ _ Hs)).
  destruct (nm_is_banned _ _); [by apply pres_send_error|].
  destruct (nm_get (sv_networks s) nid) as [r|].
  - rewrite bind_gets, bind_lift. destruct (join _ _ _ _ _) as [[[b nm] reg]|e] eqn:Hj; [|done].
    rewrite bind_modify.
    assert (Hs1 : good K (set_registry reg (set_nets nm s))).
    { pose proof (consistent_join _ _ _ _ _ _ _ _ (good_networks _ _ Hs) Hx Hj) as Hc.
      apply join_cases in Hj. destruct b; [|destruct Hj as [-> ->]; by apply good_same_state].
      destruct Hj as (? & _ & _ & _ & Ha). by eapply good_admit. }
    destruct b; [by apply pres_confirm_join|by apply pres_send_error].
  - rewrite bind_gets, bind_lift.
    destruct (join_by_invite_code _ _ _ _ _) as [[[o nm] reg]|e] eqn:Hj; [|done].
    rewrite bind_modify.
    assert (Hs1 : good K (set_registry reg (set_nets nm s))).
    { pose proof (consistent_join_by_invite_code _ _ _ _ _ _ _ _ (good_networks _ _ Hs) Hx Hj) as Hc.
      apply join_by_invite_code_cases in Hj.
      destruct o; [|destruct Hj as [-> ->]; by apply good_same_state].
      destruct Hj as (nid' & ? & _ & _ & _ & _ & _ & Ha). by eapply good_admit. }
    destruct o; [by apply pres_confirm_join|by apply pres_send_error].
Qed.

Lemma pres_on_leave K cid w msg : pres (good K) (on_leave_network cid w msg).
Proof.
  intros s Hs. unfold on_leave_network. rewrite bind_lift.
  destruct (validate_network_id _) as [nid|e]; [|done]. rewrite bind_gets.
  destruct (leave _ _ _ _) as [[b nm] reg] eqn:Hl. rewrite bind_modify.
  assert (Hs1 : good K (set_registry reg (set_nets nm s))).
  { pose proof (consistent_leave _ _ _ _ _ _ _ (good_networks _ _ Hs) Hl) as Hc.
    assert (Hreg : reg = sv_registry s \/ exists n, reg = remove_network (sv_registry s) cid n).
    { unfold leave in Hl. repeat case_match; simplify_eq; eauto. }
    apply good_set_nets; [done| |done|].
    - destruct Hreg as [-> |[n ->]]; [apply Hs|apply reg_ok_remove_network, Hs].
    - intros c Hc'. destruct Hreg as [-> |[n ->]]; [done|by apply known_remove_network]. }
  destruct b; [|by apply pres_send_error].
  apply pres_bind; [by apply pres_send_new|intros; by apply pres_announce_offline|done].
Qed.

Lemma pres_on_list K cid w : pres (good K) (on_list_networks cid w).
Proof. unfold on_list_networks. apply pres_bind; [apply pres_gets|intros; by apply pres_send_new]. Qed.

Lemma pres_on_request_peer_conn K cid w msg : pres (good K) (on_request_peer_conn cid w msg).
Proof. unfold on_request_peer_conn.
  apply pres_bind; [apply pres_lift|intros peer]. apply pres_bind; [apply pres_gets|intros s].
  unfold send_error. repeat case_match; by apply pres_send_new.
Qed.

Lemma pres_on_expose K env cid w msg : pres (good K) (on_expose_service env cid w msg).
Proof. unfold on_expose_service.
  apply pres_bind; [apply pres_lift|intros [[[sname proto] host] port]].
  apply pres_bind; [apply pres_gets|intros nets]. destruct nets; [by apply pres_send_error|].
  apply pres_bind; [apply pres_lift|intros nid]. intros s Hs. rewrite bind_gets, bind_lift.
  destruct nid as [nid|]; [|done].
  destruct (expose_service _ _ _ _ _ _ _ _ _) as [[sid nm]|e] eqn:He; [|done].
  rewrite bind_modify. apply good_set_nets_only; [done|].
  unfold expose_service in He. repeat case_match; try done. by simplify_eq.
Qed.

Lemma pres_on_unexpose K cid w msg : pres (good K) (on_unexpose_service cid w msg).
Proof. unfold on_unexpose_service.
  apply pres_bind; [apply pres_lift|intros sid]. intros s Hs. rewrite bind_gets, bind_modify.
  assert (Hs1 : good K (set_nets (snd (unexpose_service_owner (sv_networks s) sid cid)) s)).
  { apply good_set_nets_only; [done|]. unfold unexpose_service_owner. by case_match. }
  destruct (unexpose_service_owner _ _ _) as [[nid|] nm]; simpl in *;
    [unfold broadcast_service; by apply pres_notify|by apply pres_send_error].
Qed.

Lemma pres_relay_request K src dst w : pres (good K) (handle_relay_request src dst w).
Proof. unfold handle_relay_request.
  apply pres_bind; [apply pres_gets|intros s0].
  destruct (get _ src) as [r1|]; [|by apply pres_send_error].
  destruct (get _ dst) as [r2|]; [|by apply pres_send_error].
  destruct (negb (online r1 && online r2)); [by apply pres_send_error|].
  destruct (negb (existsb _ _)); [by apply pres_send_error|].
  apply pres_bind; [|intros ?].
  { apply pres_modify. intros s Hs. apply good_set_relay; [done|]. apply relay_ok_register, Hs. }
  apply pres_bind; [by apply pres_send_new|intros ?].
  apply pres_bind; [apply pres_gets|intros [dw|]]; [by apply pres_send_new|apply pres_ret].
Qed.

Lemma pres_on_relay_request K cid w msg : pres (good K) (on_relay_request cid w msg).
Proof. apply pres_bind; [apply pres_lift|intros; apply pres_relay_request]. Qed.

Lemma pres_deliver K cid w : pres (good K) (deliver_relayed cid w).
Proof.
  intros s Hs. unfold deliver_relayed. rewrite bind_gets, bind_modify.
  assert (Hs1 : good K (set_relay (snd (pending_frames (sv_relay s) cid)) s)).
  { apply good_set_relay; [done|]. apply relay_ok_pending, Hs. }
  apply pres_for_each; [intros; by apply pres_send_new|done].
Qed.

Lemma good_run_command K env cid w msg s :
  good K s -> K cid -> fresh_env env s -> good K (snd (run_command env cid w msg s)).
Proof.
  intros Hs Hk Hf. unfold run_command. cbv zeta.
  destruct (str_eqb _ MSG_HEARTBEAT); [exact (pres_on_heartbeat K env cid w msg s Hs)|].
  destruct (str_eqb _ MSG_CREATE_NETWORK); [exact (good_on_create K env cid w msg s Hs Hk Hf)|].
  destruct (str_eqb _ MSG_JOIN_NETWORK); [exact (good_on_join K cid w msg s Hs Hk)|].
  destruct (str_eqb _ MSG_LEAVE_NETWORK); [exact (pres_on_leave K cid w msg s Hs)|].
  destruct (str_eqb _ MSG_LIST_NETWORKS); [exact (pres_on_list K cid w s Hs)|].
  destruct (str_eqb _ MSG_REQUEST_PEER_CONN); [exact (pres_on_request_peer_conn K cid w msg s Hs)|].
  destruct (str_eqb _ MSG_EXPOSE_SERVICE); [exact (pres_on_expose K env cid w msg s Hs)|].
  destruct (str_eqb _ MSG_UNEXPOSE_SERVICE); [exact (pres_on_unexpose K cid w msg s Hs)|].
  destruct (str_eqb _ MSG_RELAY_REQUEST); [exact (pres_on_relay_request K cid w msg s Hs)|].
  by apply pres_send_error.
Qed.

Lemma pres_dispatch_error K w e :
  pres (good K) (if bool_decide (exc_cls e = CProtocolError)
    then send_error w (py "INVALID_MESSAGE") (exc_msg e)
    else send_error w (py "INTERNAL") (py "internal error: " ++ exc_msg e)).
Proof. case_match; by apply pres_send_error. Qed.

Lemma good_dispatch K env cid w msg s :
  good K s -> K cid -> fresh_env env s -> good K (snd (dispatch env cid w msg s)).
Proof.
  intros Hs Hk Hf. unfold dispatch. apply bind_at; [|intros; apply pres_ret].
  apply catch_at; [by apply good_run_command|]. intros e. apply pres_dispatch_error.
Qed.

(** ** Connections *)

(** What the locals of [handle_client] satisfy: a connection is registered
    exactly when it has a name, it authenticates after that, and its client
    has a record. *)
Definition conn_ok (s : MediationServer) (c : Conn) : Prop :=
  match c_client c with
  | Some cid => c_registered c = true /\ known s cid
  | None => c_registered c = false /\ c_authenticated c = false
  end.

Lemma good_on_message K env c data s :
  good K s -> conn_ok s c -> (forall cid, c_client c = Some cid -> K cid) -> fresh_env env s ->
  good K (snd (on_message env c data s))
  /\ forall c' b, fst (on_message env c data s) = Ok (c', b) ->
       conn_ok (snd (on_message env c data s)) c' /\ c_writer c' = c_writer c.
Proof.
  intros Hs Hc HK Hf. unfold on_message. cbv zeta. rewrite bind_lift.
  destruct (parse_message data) as [msg|e]; [|by split].
  assert (Hsame : forall m : M unit, pres (good K) m ->
    good K (snd ((m ;;; ret (c, true)) s))
    /\ forall c' b, fst ((m ;;; ret (c, true)) s) = Ok (c', b) ->
         conn_ok (snd ((m ;;; ret (c, true)) s)) c' /\ c_writer c' = c_writer c).
  { intros m Hm. assert (Hp : good K (snd ((m ;;; ret (c, true)) s))).
    { apply pres_bind; [done|intros; apply pres_ret|done]. }
    split; [done|]. intros c' b Hb.
    assert (c' = c) as -> by (unfold bind in Hb; destruct (m s) as [[]?]; simpl in Hb; congruence).
    split; [|done]. unfold conn_ok in *. destruct (c_client c); [|done].
    split; [apply Hc|]. apply (good_known _ _ Hp). by apply HK. }
  destruct (c_registered c) eqn:Hreg; simpl.
  2:{ destruct (negb _); [by apply Hsame, pres_send_error|].
      pose proof (good_on_register K env (c_writer c) msg (c_peer c) s Hs) as Hr.
      unfold bind. destruct (on_register _ _ _ _ s) as [[o|e] s']; simpl in *.
      - split; [eapply good_weaken; [exact Hr|]; intros; apply (good_known _ _ Hr); by left|].
        intros c' b [= <- <-]. split; [|done]. unfold conn_ok. simpl.
        destruct o as [cid|]; [|done]. split; [done|]. apply (good_known _ _ Hr). by right.
      - split; [|done]. eapply good_weaken; [exact Hr|]. intros; apply (good_known _ _ Hr); by left. }
  unfold conn_ok in Hc. destruct (c_client c) as [cid|] eqn:Hcl; [|destruct Hc; congruence].
  assert (Hkc : K cid) by (by apply HK).
  destruct (c_authenticated c) eqn:Hau; simpl.
  - assert (Hgo : forall s, fst (dispatch env cid (c_writer c) msg s) = Ok true
      \/ exists e, fst (dispatch env cid (c_writer c) msg s) = Err e).
    { intros s0. unfold dispatch, bind. destruct (catch _ _ s0) as [[]?]; simpl; eauto. }
    specialize (Hgo s). pose proof (good_dispatch K env cid (c_writer c) msg s Hs Hkc Hf) as Hd.
    unfold bind at 1 3 5. destruct (dispatch env cid (c_writer c) msg s) as [[go|e] s']; simpl in *.
    + destruct Hgo as [[= ->]|[? [=]]].
      assert (Hp : pres (good K) (deliver_relayed cid (c_writer c) ;;; ret (c, true))).
      { apply pres_bind; [apply pres_deliver|intros; apply pres_ret]. }
      split; [by apply Hp|]. intros c' b Hb.
      assert (c' = c) as ->
        by (unfold bind in Hb; destruct (deliver_relayed _ _ s') as [[]?]; simpl in Hb; congruence).
      split; [|done]. unfold conn_ok. rewrite Hcl. split; [done|].
      by apply (good_known _ _ (Hp s' Hd)).
    + by split.
  - destruct (negb _).
    { specialize (Hsame _ (pres_send_error _ (quiet_good K) (c_writer c) (py "AUTH_REQUIRED") (py "authenticate first"))).
      exact Hsame. }
    assert (Hp : pres (good K) (let! (ok, detail) := on_auth env (c_writer c) cid msg in
      (if ok then ret tt else send_error (c_writer c) (py "AUTH_FAILED") detail) ;;;
      ret (mkConn (c_writer c) (c_peer c) (Some cid) true ok true, true))).
    { apply pres_bind; [apply pres_on_auth|intros [ok detail]].
      apply pres_bind; [|intros; apply pres_ret]. destruct ok; [apply pres_ret|by apply pres_send_error]. }
    split; [by apply Hp|]. intros c' b Hb. specialize (Hp s Hs).
    match type of Hb with fst (?m s) = _ => set (s' := snd (m s)) in * end.
    assert (Hc' : c_client c' = Some cid /\ c_registered c' = true /\ c_writer c' = c_writer c).
    { clearbody s'. unfold bind in Hb. destruct (on_auth _ _ _ _ s) as [[[ok detail]|e] s2]; [|done].
      destruct ok; simpl in Hb; [by simplify_eq|].
      destruct (send_error _ _ _ s2) as [[]?]; simpl in Hb; [by simplify_eq|done]. }
    destruct Hc' as (H1 & H2 & H3). split; [|done]. unfold conn_ok. rewrite H1. split; [done|].
    by apply (good_known _ _ Hp).
Qed.

(** One message, whatever it does to the connection. *)
Lemma good_recv K env c header body s :
  good K s -> conn_ok s c -> (forall cid, c_client c = Some cid -> K cid) -> fresh_env env s ->
  good K (snd (recv env c header body s))
  /\ conn_ok (snd (recv env c header body s)) (fst (recv env c header body s))
  /\ c_writer (fst (recv env c header body s)) = c_writer c.
Proof.
  intros Hs Hc HK Hf. unfold recv.
  assert (Hclosed : forall s0, good K s0 -> conn_ok (snd (finish c s0)) (closed_conn c)).
  { intros s0 Hs0. pose proof (pres_finish K c s0 Hs0) as Hp. unfold conn_ok in *. simpl.
    destruct (c_client c) as [cid|]; [|done]. split; [apply Hc|]. apply (good_known _ _ Hp). by apply HK. }
  destruct (be_decode header >? MAX_MESSAGE_SIZE).
  { split_and!; [by apply pres_finish|by apply Hclosed|done]. }
  destruct (good_on_message K env c (header ++ body) s Hs Hc HK Hf) as [Hg Hm].
  destruct (on_message env c (header ++ body) s) as [[[c' [|]]|e] s']; simpl in *.
  - destruct (Hm c' true eq_refl). by split_and!.
  - destruct (Hm c' false eq_refl) as [Hc' Hw].
    set (K' := fun x => K x \/ c_client c' = Some x).
    assert (Hg' : good K' s').
    { apply (good_weaken K); [done|]. intros x [Hx|Hx]; [by apply Hg|]. unfold conn_ok in Hc'.
      rewrite Hx in Hc'. apply Hc'. }
    pose proof (pres_finish K' c' s' Hg') as Hp. split_and!; [|..|done].
    + eapply good_weaken; [exact Hp|]. intros x Hx. apply (good_known _ _ Hp). by left.
    + unfold conn_ok in *. simpl. destruct (c_client c') as [cid|] eqn:Hcl; [|done].
      split; [apply Hc'|]. apply (good_known _ _ Hp). by right.
  - split_and!; [by apply pres_finish|by apply Hclosed|done].
Qed.

(** ** The system: the server and its connections

    A step is the arrival of a connection, one message or the end of one, a
    transport that breaks, or a turn of one of the two background loops.  An
    exception in the prune loop ends it. *)
Record System := mkSystem {
  sys_server : MediationServer;
  sys_conns : list (nat * Conn);
  sys_prune_alive : bool
}.

Definition ended {A} (r : result A) : bool := match r with Ok _ => false | Err _ => true end.

Inductive sys_step : System -> System -> Prop :=
  | step_accept s cs p w peer :
      dget cs w = None ->
      sys_step (mkSystem s cs p) (mkSystem s (dset cs w (new_conn w peer)) p)
  | step_recv s cs p env w c header body :
      dget cs w = Some c -> c_open c = true ->
      length header = 4%nat -> (be_decode header <= MAX_MESSAGE_SIZE -> zlen body = be_decode header) ->
      fresh_env env s ->
      sys_step (mkSystem s cs p)
        (mkSystem (snd (recv env c header body s)) (dset cs w (fst (recv env c header body s))) p)
  | step_eof s cs p w c :
      dget cs w = Some c -> c_open c = true ->
      sys_step (mkSystem s cs p) (mkSystem (snd (eof c s)) (dset cs w (fst (eof c s))) p)
  | step_lost s cs p w :
      sys_step (mkSystem s cs p) (mkSystem (set_lost (sv_lost s ∪ {[w]}) s) cs p)
  | step_prune s cs now :
      sys_step (mkSystem s cs true)
        (mkSystem (snd (prune_tick now s)) cs (negb (ended (fst (prune_tick now s)))))
  | step_expiry s cs p now :
      sys_step (mkSystem s cs p) (mkSystem (snd (auth_expiry_tick now s)) cs p).

Definition no_one (x : str) : Prop := False.

Definition sys_ok (sys : System) : Prop :=
  good no_one (sys_server sys)
  /\ forall w c, dget (sys_conns sys) w = Some c -> conn_ok (sys_server sys) c.

Lemma good_known_all K s : good K s -> good (known s) s.
Proof. intros Hs. by apply (good_weaken K). Qed.

Lemma conn_ok_mono s s' c :
  (forall x, known s x -> known s' x) -> conn_ok s c -> conn_ok s' c.
Proof. intros H. unfold conn_ok. case_match; naive_solver. Qed.

Lemma pres_prune_tick K now : pres (good K) (prune_tick now).
Proof.
  intros s Hs. unfold prune_tick. rewrite bind_gets, bind_modify.
  assert (Hs1 : good K (set_registry (snd (prune_stale now (sv_registry s)
    (cfg_heartbeat_timeout (sv_config s)))) s)).
  { apply good_set_registry; [done|]. apply same_networks_prune, Hs. }
  apply pres_for_each; [|done]. intros. apply pres_handle_disconnect.
Qed.

(** A step that only touches the server and keeps its clients. *)
Lemma sys_ok_server s s' cs p p' :
  (forall K, good K s -> good K s') -> sys_ok (mkSystem s cs p) -> sys_ok (mkSystem s' cs p').
Proof.
  intros Hp [Hs Hc]. simpl in *. split; simpl; [by apply Hp|].
  intros w c Hw. eapply conn_ok_mono; [|by eapply Hc].
  apply (good_known _ _ (Hp _ (good_known_all _ _ Hs))).
Qed.

Lemma sys_ok_step sys sys' : sys_step sys sys' -> sys_ok sys -> sys_ok sys'.
Proof.
  intros Hst Hok. destruct Hst.
  - destruct Hok as [Hs Hc]. split; [done|]. simpl in *. intros w' c. rewrite dget_dset.
    destruct (decide (w = w')); [by intros [= <-]|apply Hc].
  - destruct Hok as [Hs Hc]. simpl in *.
    destruct (good_recv (known s) env c header body s) as (Hg & Hk & _); eauto using good_known_all.
    { intros cid Hcid. specialize (Hc _ _ H). unfold conn_ok in Hc. rewrite Hcid in Hc. apply Hc. }
    split; simpl; [by apply (good_weaken (known s))|]. intros w' c'. rewrite dget_dset.
    destruct (decide (w = w')); [by intros [= <-]|]. intros Hw. eapply conn_ok_mono; [|by eapply Hc].
    apply (good_known _ _ Hg).
  - pose proof Hok as [_ Hc]. simpl in *.
    assert (Hok' : sys_ok (mkSystem (snd (eof c s)) cs p)).
    { eapply sys_ok_server; [|exact Hok]. intros K HK. by apply pres_finish. }
    destruct Hok' as [Hg Hc'].
    split; [done|]. simpl in *. intros w' c'. rewrite dget_dset.
    destruct (decide (w = w')); [|apply Hc']. intros [= <-].
    specialize (Hc' _ _ H). unfold conn_ok in *. simpl. done.
  - eapply sys_ok_server; [|done]. intros K. apply good_set_lost.
  - eapply sys_ok_server; [|done]. intros K. apply pres_prune_tick.
  - eapply sys_ok_server; [|done]. intros K HK. apply good_set_auth; [done|].
    apply dict_ok_foldl_ddel, HK.
Qed.

Lemma config_max_clients c : config_validate c = Ok tt -> 1 <= cfg_max_clients c.
Proof.
  unfold config_validate. destruct (negb _); [done|].
  destruct (cfg_web_port c) as [p|]; [destruct (negb (in_port_range p)); [done|]|];
    (destruct (Z.ltb_spec (cfg_max_clients c) 1); [done|lia]).
Qed.

Lemma good_init c s : server_init c = Ok s -> good no_one s.
Proof.
  unfold server_init. intros H. inv_bind H. destruct a. apply config_max_clients in Ha.
  apply Ok_inj in H. subst s. constructor; simpl; try done.
  - apply reg_ok_nil.
  - split_and!; [apply dict_ok_nil|done|]. intros n x. split; [done|]. by intros (? & [=] & _).
  - apply relay_ok_empty.
  - apply dict_ok_nil.
  - unfold zlen. simpl. lia.
  - apply dict_ok_nil.
Qed.

(** C1 Invariant of the whole server: in every state it can reach, from an
    accepted configuration, through any interleaving of connections,
    messages (well formed or not), broken transports, pruning and expiry:
    the two records of every membership agree, the relay's queues and paths
    are in order, there are never more than [max_clients] writers, every
    writer belongs to a client with a record, and every connection past
    registration is one of a client with a record. *)
Theorem system_invariant cfg s0 sys :
  server_init cfg = Ok s0 ->
  rtc sys_step (mkSystem s0 [] true) sys ->
  let s := sys_server sys in
  consistent (sv_networks s) (sv_registry s)
  /\ reg_ok (sv_registry s) /\ relay_ok (sv_relay s)
  /\ zlen (sv_writers s) <= cfg_max_clients (sv_config s)
  /\ (forall c w, dget (sv_writers s) c = Some w -> known s c)
  /\ (forall w c, dget (sys_conns sys) w = Some c -> conn_ok s c).
Proof.
  intros Hi Hr. assert (H0 : sys_ok (mkSystem s0 [] true)) by (split; [by eapply good_init|done]).
  assert (Hok : sys_ok sys).
  { revert H0. clear Hi. induction Hr; eauto using sys_ok_step. }
  destruct Hok as [[] Hc]. by split_and!.
Qed.

(** ** Authentication guards the commands *)

Lemma pres_guard_register nm r env w msg peer :
  pres (fun s => sv_networks s = nm /\ sv_relay s = r) (on_register env w msg peer).
Proof.
  assert (Hq : quiet (fun s => sv_networks s = nm /\ sv_relay s = r)) by (by intros s x).
  unfold on_register. destruct (validate_register _) as [[cid pem]|e].
  2:{ destruct (bool_decide _); [|apply pres_lift].
      apply pres_bind; [by apply pres_send_error|intros; apply pres_ret]. }
  apply pres_bind; [apply pres_gets|intros s0].
  destruct (_ && _); [apply pres_bind; [by apply pres_send_error|intros; apply pres_ret]|].
  destruct (is_banned _ _); [apply pres_bind; [by apply pres_send_error|intros; apply pres_ret]|].
  repeat (apply pres_bind; [first [apply pres_gets|apply pres_lift|by apply pres_modify
    |by apply pres_send_new|idtac]|intros ?]).
  - repeat case_match; first [apply pres_ret|by apply pres_modify].
  - apply pres_ret.
Qed.

Lemma pres_guard_auth nm r env w cid msg :
  pres (fun s => sv_networks s = nm /\ sv_relay s = r) (on_auth env w cid msg).
Proof.
  assert (Hq : quiet (fun s => sv_networks s = nm /\ sv_relay s = r)) by (by intros s x).
  unfold on_auth. destruct (validate_auth_response _) as [[ch sig]|e];
    [|destruct (bool_decide _); [apply pres_ret|apply pres_lift]].
  apply pres_bind; [apply pres_gets|intros v]. apply pres_bind; [by apply pres_modify|intros _].
  apply pres_bind; [apply pres_lift|intros [ok detail]]. apply pres_bind; [|intros; apply pres_ret].
  destruct ok; [|apply pres_ret]. apply pres_bind; [by apply pres_modify|intros _].
  apply pres_bind; [by apply pres_send_new|intros _]. by apply pres_announce_online.
Qed.

(** What a handler can return. *)
Definition returns {A} (Q : A -> Prop) (m : M A) : Prop :=
  forall s a s', m s = (Ok a, s') -> Q a.

Lemma returns_ret {A} (Q : A -> Prop) a : Q a -> returns Q (ret a).
Proof. by intros Ha s b s' [= <- _]. Qed.
Lemma returns_bind {A B} (Q : B -> Prop) (m : M A) (k : A -> M B) :
  (forall a, returns Q (k a)) -> returns Q (bind m k).
Proof.
  intros Hk s b s'. unfold bind. destruct (m s) as [[a|e] s1]; [apply Hk|done].
Qed.

(** Before authentication the loop ends only by an exception. *)
Lemma on_message_continues env c data :
  c_authenticated c = false -> returns (fun r => snd r = true) (on_message env c data).
Proof.
  intros Hau. unfold on_message. apply returns_bind. intros msg. destruct (c_registered c); simpl.
  - destruct (c_client c) as [cid|]; [|by apply returns_ret]. rewrite Hau. simpl.
    destruct (negb _); apply returns_bind; intros; [by apply returns_ret|].
    destruct a as [ok detail]. apply returns_bind. intros. by apply returns_ret.
  - destruct (negb _); apply returns_bind; intros; by apply returns_ret.
Qed.

(** C2 Authentication guards every command: a message on a connection that
    has not completed the challenge cannot create, join, leave or change a
    network, expose a service, or touch the relay; the networks and the
    relay are exactly what they were, whatever bytes are received. *)
Theorem unauthenticated_no_command env c header body s :
  c_authenticated c = false ->
  sv_networks (snd (recv env c header body s)) = sv_networks s
  /\ sv_relay (snd (recv env c header body s)) = sv_relay s.
Proof.
  intros Hau. set (P := fun s' => sv_networks s' = sv_networks s /\ sv_relay s' = sv_relay s).
  change (P (snd (recv env c header body s))).
  assert (Hq : quiet P) by (by intros x y). assert (Hs : P s) by done.
  assert (Hfin : pres P (finish c)).
  { unfold finish. rewrite Hau. apply pres_bind; [|intros; by apply pres_modify].
    repeat case_match; apply pres_ret. }
  assert (Hmsg : pres P (on_message env c (header ++ body))).
  { unfold on_message. apply pres_bind; [apply pres_lift|intros msg]. destruct (c_registered c); simpl.
    - destruct (c_client c) as [cid|]; [|apply pres_ret]. rewrite Hau. simpl. destruct (negb _).
      + apply pres_bind; [by apply pres_send_error|intros; apply pres_ret].
      + apply pres_bind; [apply pres_guard_auth|intros [ok detail]].
        apply pres_bind; [|intros; apply pres_ret]. destruct ok; [apply pres_ret|by apply pres_send_error].
    - destruct (negb _).
      + apply pres_bind; [by apply pres_send_error|intros; apply pres_ret].
      + apply pres_bind; [apply pres_guard_register|intros; apply pres_ret]. }
  unfold recv. destruct (_ >? _); [by apply Hfin|]. specialize (Hmsg s Hs).
  destruct (on_message env c (header ++ body) s) as [[[c' [|]]|e] s'] eqn:Hm; simpl in *; [done| |by apply Hfin].
  exfalso. by apply (on_message_continues env c (header ++ body) Hau) in Hm.
Qed.

(** ** What is sent to whom *)

Definition can_send (s : MediationServer) (w : nat) (msg : Message) : Prop :=
  (w ∉ sv_lost s) /\ (exists b, build_message msg = Ok b).

Lemma send_ok s w msg : can_send s w msg -> send w msg s = (Ok tt, set_out (sv_out s ++ [(w, msg)]) s).
Proof.
  intros [Hw [b Hb]]. unfold send. rewrite bind_lift, Hb, bind_gets.
  by rewrite bool_decide_false.
Qed.

(** The messages a loop of sends appends to the log. *)
Lemma for_each_sends {A} (l : list A) (f : A -> M unit) (g : A -> list (nat * Message)) s :
  (forall x out, x ∈ l ->
     f x (set_out out s) = (Ok tt, set_out (out ++ g x) s)) ->
  for_each l f s = (Ok tt, set_out (sv_out s ++ concat (map g l)) s).
Proof.
  intros Hf. assert (H : forall out, for_each l f (set_out out s) =
    (Ok tt, set_out (out ++ concat (map g l)) s)).
  { revert Hf. induction l as [|x l IH]; intros Hf out; simpl; [by rewrite app_nil_r|].
    unfold bind. rewrite Hf by left. rewrite IH; [by rewrite app_assoc|].
    intros y out' Hy. apply Hf. by right. }
  specialize (H (sv_out s)). by destruct s.
Qed.

(** The writers of the online members of [nid], [skip] left out. *)
Definition recipients (s : MediationServer) (skip : option str) (nid : str) : list nat :=
  omap (fun m => if bool_decide (Some (client_id m) = skip) then None
                 else dget (sv_writers s) (client_id m))
    (members_in_networks (sv_registry s) [nid]).

Lemma concat_omap {A B C} (o : A -> option B) (f : B -> C) (l : list A) :
  concat (map (fun x => match o x with Some y => [f y] | None => [] end) l) = map f (omap o l).
Proof. induction l as [|x l IH]; simpl; [done|]. rewrite IH. by destruct (o x). Qed.

Lemma notify_members_sends s skip nid cls kw msg out :
  make_message cls None kw = Ok msg ->
  (forall w, w ∈ recipients s skip nid -> can_send s w msg) ->
  notify_members skip nid cls kw (set_out out s) =
    (Ok tt, set_out (out ++ map (fun w => (w, msg)) (recipients s skip nid)) s).
Proof.
  intros Hm Hs. unfold notify_members. rewrite bind_gets.
  change (sv_registry (set_out out s)) with (sv_registry s). unfold recipients in *.
  set (o := fun m => if bool_decide (Some (client_id m) = skip) then None
                     else dget (sv_writers s) (client_id m)) in *.
  rewrite (for_each_sends _ _ (fun m => match o m with Some w => [(w, msg)] | None => [] end)).
  - rewrite (concat_omap o (fun w => (w, msg))). by destruct s.
  - intros m out' Hin. unfold o in *. destruct (bool_decide (Some (client_id m) = skip)) eqn:Hsk.
    { unfold ret. rewrite app_nil_r. by destruct s. }
    rewrite bind_gets. change (sv_writers (set_out out' (set_out out s))) with (sv_writers s).
    destruct (dget (sv_writers s) (client_id m)) as [w|] eqn:Hw.
    2:{ unfold ret. rewrite app_nil_r. by destruct s. }
    unfold send_new. rewrite bind_lift, Hm, send_ok; [by destruct s|].
    apply (Hs w). apply list_elem_of_omap. exists m. rewrite Hsk. by split.
Qed.

Definition peer_online_msg (nid cid : str) : Message :=
  mkMessage MSG_PEER_ONLINE
    [(KEY_TYPE, JStr MSG_PEER_ONLINE); (py "network_id", JStr nid); (py "peer_id", JStr cid)].

(** Presence: announcing a client sends, for each of its networks, one
    PEER_ONLINE with that network's id to each connected, online member of
    the network except the client itself, to nobody else, and changes nothing
    but the log of messages. *)
Theorem announce_online_exact s cid :
  (forall nid w, nid ∈ networks_for (sv_registry s) cid ->
     w ∈ recipients s (Some cid) nid -> can_send s w (peer_online_msg nid cid)) ->
  announce_peer_online cid s =
    (Ok tt,
     set_out (sv_out s ++
       concat (map (fun nid => map (fun w => (w, peer_online_msg nid cid))
                                 (recipients s (Some cid) nid))
                 (set_order (networks_for (sv_registry s) cid)))) s).
Proof.
  intros Hs. unfold announce_peer_online. rewrite bind_gets. apply for_each_sends.
  intros nid out Hn. apply notify_members_sends; [reflexivity|].
  intros w Hw. apply Hs; [|done]. by apply elem_of_set_order.
Qed.

(** A presence announcement that can be sent to every recipient only adds to
    the log. *)
Lemma announce_only_sends s cid :
  (forall nid w, nid ∈ networks_for (sv_registry s) cid ->
     w ∈ recipients s (Some cid) nid -> can_send s w (peer_online_msg nid cid)) ->
  exists l, announce_peer_online cid s = (Ok tt, set_out (sv_out s ++ l) s).
Proof.
  intros Hs. eexists. unfold announce_peer_online. rewrite bind_gets. apply for_each_sends.
  intros nid out Hn. apply notify_members_sends; [reflexivity|].
  intros w Hw. apply Hs; [|done]. by apply elem_of_set_order.
Qed.

(** ** Registration *)

Definition challenge_msg (cid : str) (nonce : bytes) : Message :=
  mkMessage MSG_AUTH_CHALLENGE
    [(KEY_TYPE, JStr MSG_AUTH_CHALLENGE); (py "challenge", JStr (hexlify nonce));
     (py "client_id", JStr cid)].

(** A valid REGISTER with room on the server, from a client that is not
    banned, is accepted: the client is then online under the key it sent and
    the address it called from, this connection is its writer, it has not
    authenticated, the fresh nonce is pending for it with no attempts used,
    and the challenge with that nonce is the one message sent.  Networks and
    memberships are untouched. *)
Theorem register_accepted env w msg peer s cid pem :
  validate_register (msg_payload msg) = Ok (cid, pem) ->
  (zlen (sv_writers s) < cfg_max_clients (sv_config s) \/ dmem (sv_writers s) cid = true) ->
  is_banned (sv_registry s) cid = false ->
  can_send s w (challenge_msg cid (env_nonce env)) ->
  exists s',
    on_register env w msg peer s = (Ok (Some cid), s')
    /\ (exists r, dget (sv_registry s') cid = Some r /\ online r = true
          /\ public_key_pem r = pem /\ public_endpoint r = Some peer
          /\ last_heartbeat r = env_now env
          /\ networks r = networks_for (sv_registry s) cid)
    /\ dget (sv_writers s') cid = Some w
    /\ dget (sv_authenticated s') cid = Some false
    /\ dget (pending (sv_auth s')) cid
         = Some (mkPendingAuth cid (env_nonce env) (env_now env) 0)
    /\ sv_out s' = sv_out s ++ [(w, challenge_msg cid (env_nonce env))]
    /\ sv_networks s' = sv_networks s
    /\ ttl (sv_auth s') = ttl (sv_auth s) /\ sv_lost s' = sv_lost s.
Proof.
  intros Hv Hcap Hban Hsend. unfold on_register. rewrite Hv, bind_gets.
  assert (Hc : (zlen (sv_writers s) >=? cfg_max_clients (sv_config s))
    && negb (dmem (sv_writers s) cid) = false).
  { apply andb_false_iff. rewrite Z.geb_leb, Z.leb_gt, negb_false_iff. done. }
  rewrite Hc, Hban, bind_modify, bind_gets.
  assert (Hold : forall k : unit -> M (option str), forall x, exists cl,
    bind (match dget (sv_writers x) cid with
          | Some old => if bool_decide (old = w) then ret tt else close_writer old
          | None => ret tt
          end) k x = k tt (set_closed cl x)).
  { intros k x. destruct (dget _ _) as [old|]; [destruct (bool_decide _)|];
      [exists (sv_closed x)|eexists; reflexivity|exists (sv_closed x)]; by destruct x. }
  match goal with |- context [bind (match _ with _ => _ end) ?k ?x] => destruct (Hold k x) as [cl ->] end.
  rewrite !bind_modify, bind_gets, bind_modify, bind_lift.
  change (fst (issue (env_now env) (env_nonce env) _ cid)) with
    (Ok [(KEY_TYPE, JStr MSG_AUTH_CHALLENGE); (py "challenge", JStr (hexlify (env_nonce env)));
         (py "client_id", JStr cid)]).
  cbv beta iota. rewrite bind_lift.
  change (attr _ (py "challenge")) with (Ok (JStr (hexlify (env_nonce env)))).
  cbv beta iota. rewrite bind_lift. change (attr _ (py "client_id")) with (Ok (JStr cid)).
  cbv beta iota. unfold bind at 1. unfold send_new. rewrite bind_lift.
  change (make_message AuthChallenge None _) with (Ok (challenge_msg cid (env_nonce env))).
  cbv beta iota. rewrite send_ok by exact Hsend. eexists. split; [reflexivity|].
  split_and!; simpl; try (apply dget_dset_eq); try done.
  set (reg1 := register (env_now env) (sv_registry s) cid pem).
  assert (Hr1 : dget reg1 cid = Some (set_public_key pem
    (default (new_record (env_now env) cid pem) (dget (sv_registry s) cid)))).
  { unfold reg1. rewrite dget_register. by rewrite decide_True. }
  set (reg2 := update_endpoint reg1 cid peer). unfold set_online.
  assert (Hr2 : dget reg2 cid = Some (set_client_ip (Some (fst peer)) (set_endpoint (Some peer)
    (set_public_key pem (default (new_record (env_now env) cid pem) (dget (sv_registry s) cid)))))).
  { unfold reg2, update_endpoint. rewrite dget_dalter, Hr1. by rewrite decide_True. }
  rewrite Hr2. unfold is_banned in Hban.
  replace (banned (set_client_ip _ _)) with false by (by destruct (dget (sv_registry s) cid)).
  eexists. simpl. rewrite dget_dalter, Hr2, decide_True by done. split; [reflexivity|].
  split_and!; try done. unfold networks_for. by destruct (dget (sv_registry s) cid).
Qed.

(** ** Where the code departs from its purpose *)

Definition internal_error_msg (text : str) : Message :=
  mkMessage MSG_ERROR
    [(KEY_TYPE, JStr MSG_ERROR); (py "code", JStr (py "INTERNAL"));
     (py "message", JStr (py "internal error: " ++ text))].

(** EXPOSE_SERVICE: whenever the service is registered, the client is
    told that an internal error occurred, and no member of the network is
    told about the service: the handler uses the id that [expose_service]
    returns as if it were the record. *)
Theorem expose_service_answers_error env cid w msg s sname proto host port first rest nid sid nm :
  msg_type msg = MSG_EXPOSE_SERVICE ->
  validate_expose_service (msg_payload msg) = Ok (sname, proto, host, port) ->
  list_for_client (sv_networks s) cid = first :: rest ->
  service_network (pget (msg_payload msg) (py "network_id")) (network_id first) = Ok (Some nid) ->
  expose_service (env_now env) (env_uuid env) (sv_networks s) nid cid sname proto host port
    = Ok (sid, nm) ->
  w ∉ sv_lost s ->
  dispatch env cid w msg s =
    (Ok true,
     set_out (sv_out s ++ [(w, internal_error_msg (py "'str' object has no attribute 'service_id'"))])
       (set_nets nm s)).
Proof.
  intros Ht Hv Hl Hn He Hw.
  assert (Hrun : run_command env cid w msg s =
    (raise CAttributeError (py "'str' object has no attribute 'service_id'"), set_nets nm s)).
  { assert (Hcmd : run_command env cid w msg = on_expose_service env cid w msg)
      by (unfold run_command; rewrite Ht; reflexivity).
    rewrite Hcmd. unfold on_expose_service. rewrite bind_lift, Hv, bind_gets, Hl, bind_lift, Hn, bind_gets, bind_lift, He.
    reflexivity. }
  assert (Herr : send_error w (py "INTERNAL")
      (py "internal error: " ++ py "'str' object has no attribute 'service_id'") (set_nets nm s)
    = (Ok tt, set_out (sv_out s ++
        [(w, internal_error_msg (py "'str' object has no attribute 'service_id'"))]) (set_nets nm s))).
  { unfold send_error, send_new. rewrite bind_lift.
    change (make_message ErrorMessage None _) with
      (Ok (internal_error_msg (py "'str' object has no attribute 'service_id'"))). cbv beta iota.
    rewrite send_ok; [reflexivity|]. split; [done|]. eexists. vm_compute. reflexivity. }
  unfold dispatch. match goal with |- bind (catch ?m ?h) _ _ = _ =>
    assert (Hc : catch m h s = (Ok tt, set_out (sv_out s ++
        [(w, internal_error_msg (py "'str' object has no attribute 'service_id'"))]) (set_nets nm s)))
      by (unfold catch; rewrite Hrun; exact Herr) end.
  unfold bind. rewrite Hc. reflexivity.
Qed.

(** When a connection of an authenticated client ends, the client's
    entry in the table of writers goes, whichever connection it belongs to:
    after a reconnect the end of the old connection takes the new one out of
    the table. *)
Theorem finish_drops_any_writer c x cid s :
  c_client c = Some (x :: cid) -> c_authenticated c = true ->
  dget (sv_writers (snd (finish c s))) (x :: cid) = None.
Proof.
  intros Hc Ha. set (P := fun s => dget (sv_writers s) (x :: cid) = None).
  change (P (snd (finish c s))). assert (Hq : quiet P) by (by intros ? ?).
  unfold finish. rewrite Hc, Ha. apply bind_at; [|intros; by apply pres_modify].
  unfold handle_disconnect. rewrite !bind_modify, bind_gets, !bind_modify.
  match goal with |- P (snd (?m ?st)) => assert (Hm : pres P m); [|apply Hm] end.
  - apply pres_for_each. intros. by apply pres_announce_offline.
  - unfold P. simpl. rewrite dget_ddel. by rewrite decide_True.
Qed.

(** A connection that ends before it has authenticated keeps its place in
    the table of writers, so that places are used up by connections that are
    gone. *)
Theorem unauthenticated_keeps_slot c s :
  c_authenticated c = false -> sv_writers (snd (finish c s)) = sv_writers s.
Proof. intros Ha. unfold finish. rewrite Ha. repeat case_match; done. Qed.
End Handlers.

(** ** Concrete runs *)

Section Runs.
#[local] Existing Instance plain_bcrypt.
#[local] Existing Instance ascii_only.
#[local] Existing Instance echo_verifier.
#[local] Instance str_order : SetOrder str := elements_order.

Definition a_id : str := py "alice-0001".
Definition b_id : str := py "bob-000001".
Definition pem_text : str := py "-----BEGIN PUBLIC KEY-----".

Definition env0 : Env :=
  mkEnv (10 * SEC) (py "net-1") [] [1; 2; 3] (fun _ => py "a3x9k2bc") (py "00ff00ff").

Definition start : MediationServer :=
  match server_init default_config with
  | Ok s => s
  | Err _ => mkServer default_config [] empty_manager (mkAuthSession 60 5 []) empty_relay [] [] [] ∅ ∅
  end.

Definition wire (m : Message) : bytes := match serialize m with Ok b => b | Err _ => [] end.

(** A connection that receives the messages [l]. *)
Definition play (c : Conn) (l : list Message) (s : MediationServer) : Conn * MediationServer :=
  foldl (fun cs m => recv env0 (fst cs) (take 4 (wire m)) (drop 4 (wire m)) (snd cs)) (c, s) l.

Definition m_register (cid : str) : Message :=
  mkMessage MSG_REGISTER [(py "client_id", JStr cid); (py "public_key", JStr pem_text)].
Definition m_auth : Message :=
  mkMessage MSG_AUTH_RESPONSE [(py "challenge", JStr (py "x")); (py "signature", JStr (py "010203"))].
Definition m_create : Message :=
  mkMessage MSG_CREATE_NETWORK [(py "name", JStr (py "lan")); (py "password", JStr (py "pw"))].
Definition m_join : Message :=
  mkMessage MSG_JOIN_NETWORK
    [(py "network_id", JStr (py "a3x9k2bc")); (py "password", JStr (py "pw"))].
Definition m_expose : Message :=
  mkMessage MSG_EXPOSE_SERVICE [(py "name", JStr (py "web")); (py "local_port", JInt 80)].

Definition run_alice : Conn * MediationServer :=
  play (new_conn 1 (py "10.0.0.1", 4001)) [m_register a_id; m_auth; m_create] start.
Definition run_bob : Conn * MediationServer :=
  play (new_conn 2 (py "10.0.0.2", 4002)) [m_register b_id; m_auth; m_join] (snd run_alice).

(** Two clients register, authenticate, and meet in a network by its invite
    code: the types of the messages each is sent. *)
Lemma run_bob_log :
  map (fun wm => (fst wm, msg_type (snd wm))) (sv_out (snd run_bob)) =
    [(1%nat, MSG_AUTH_CHALLENGE); (1%nat, MSG_AUTH_OK); (1%nat, MSG_NETWORK_CREATED);
     (2%nat, MSG_AUTH_CHALLENGE); (2%nat, MSG_AUTH_OK); (2%nat, MSG_NETWORK_JOINED);
     (1%nat, MSG_PEER_ONLINE)].
Proof. vm_compute. reflexivity. Qed.

Definition run_one : Conn * MediationServer :=
  recv env0 (new_conn 1 (py "10.0.0.1", 4001)) (take 4 (wire (m_register a_id)))
    (drop 4 (wire (m_register a_id))) start.
Definition run_sys : System :=
  mkSystem (snd run_one) (dset [(1%nat, new_conn 1 (py "10.0.0.1", 4001))] 1%nat (fst run_one)) true.

Lemma start_init : server_init default_config = Ok start.
Proof. vm_compute. reflexivity. Qed.

Lemma run_sys_reach : rtc sys_step (mkSystem start [] true) run_sys.
Proof.
  eapply rtc_l; [apply (step_accept start [] true 1 (py "10.0.0.1", 4001)); reflexivity|].
  apply rtc_once. unfold run_sys, run_one.
  apply (step_recv start [(1%nat, new_conn 1 (py "10.0.0.1", 4001))] true env0 1
    (new_conn 1 (py "10.0.0.1", 4001))).
  - reflexivity.
  - reflexivity.
  - vm_compute. reflexivity.
  - intros _. vm_compute. reflexivity.
  - split; [discriminate|reflexivity].
Qed.

Lemma system_invariant_witness :
  consistent (sv_networks (sys_server run_sys)) (sv_registry (sys_server run_sys)).
Proof.
  exact (proj1 (system_invariant default_config start run_sys start_init run_sys_reach)).
Defined.

Lemma unauthenticated_no_command_witness :
  let c := new_conn 3 (py "10.0.0.3", 4003) in
  let s' := snd (recv env0 c (take 4 (wire m_create)) (drop 4 (wire m_create)) (snd run_bob)) in
  sv_networks s' = sv_networks (snd run_bob) /\ sv_relay s' = sv_relay (snd run_bob).
Proof.
  exact (unauthenticated_no_command env0 (new_conn 3 (py "10.0.0.3", 4003))
    (take 4 (wire m_create)) (drop 4 (wire m_create)) (snd run_bob) eq_refl).
Defined.

Lemma announce_online_exact_witness :
  exists out, announce_peer_online b_id (snd run_bob) =
    (Ok tt, set_out (sv_out (snd run_bob) ++ out) (snd run_bob))
  /\ out = [(1%nat, peer_online_msg (py "net-1") b_id)].
Proof.
  eexists. split; [apply announce_online_exact|vm_compute; reflexivity].
  intros nid w Hn Hw.
  assert (Hn' : nid = py "net-1").
  { assert (He : networks_for (sv_registry (snd run_bob)) b_id = {[py "net-1"]})
      by (apply (bool_decide_unpack _); vm_compute; done).
    rewrite He in Hn. by apply elem_of_singleton in Hn. }
  subst nid. assert (Hw' : w = 1%nat).
  { assert (He : recipients (snd run_bob) (Some b_id) (py "net-1") = [1%nat])
      by (vm_compute; reflexivity).
    rewrite He in Hw. by apply list_elem_of_singleton in Hw. }
  subst w. split; [apply (bool_decide_unpack _); vm_compute; done|].
  eexists. vm_compute. reflexivity.
Defined.

Lemma register_accepted_witness :
  exists s', on_register env0 1 (m_register a_id) (py "10.0.0.1", 4001) start = (Ok (Some a_id), s')
    /\ dget (sv_writers s') a_id = Some 1%nat.
Proof.
  destruct (register_accepted env0 1 (m_register a_id) (py "10.0.0.1", 4001) start a_id pem_text)
    as (s' & H1 & _ & H2 & _).
  - vm_compute. reflexivity.
  - left. vm_compute. reflexivity.
  - reflexivity.
  - split; [apply (bool_decide_unpack _); vm_compute; done|]. eexists. vm_compute. reflexivity.
  - exists s'. split; [exact H1|exact H2].
Defined.

Lemma expose_service_answers_error_witness :
  exists nm, dispatch env0 a_id 1 m_expose (snd run_alice) =
    (Ok true, set_out (sv_out (snd run_alice) ++
       [(1%nat, internal_error_msg (py "'str' object has no attribute 'service_id'"))])
       (set_nets nm (snd run_alice)))
  /\ map sr_name (list_services nm (py "net-1")) = [py "web"].
Proof.
  eexists. split.
  - eapply (expose_service_answers_error env0 a_id 1 m_expose (snd run_alice) (py "web") (py "tcp")
      (py "127.0.0.1") (JInt 80)).
    + reflexivity.
    + vm_compute. reflexivity.
    + vm_compute. reflexivity.
    + vm_compute. reflexivity.
    + vm_compute. reflexivity.
    + apply (bool_decide_unpack _). vm_compute. done.
  - vm_compute. reflexivity.
Defined.

(** Alice reconnects on writer 9; then her first connection ends. *)
Definition run_again : Conn * MediationServer :=
  play (new_conn 9 (py "10.0.0.1", 4009)) [m_register a_id; m_auth] (snd run_alice).

Lemma finish_drops_any_writer_witness :
  dget (sv_writers (snd run_again)) a_id = Some 9%nat
  /\ dget (sv_writers (snd (finish (fst run_alice) (snd run_again)))) a_id = None.
Proof.
  split; [vm_compute; reflexivity|].
  apply (finish_drops_any_writer (fst run_alice)); vm_compute; reflexivity.
Defined.

Lemma unauthenticated_keeps_slot_witness :
  let cs := play (new_conn 4 (py "10.0.0.4", 4004)) [m_register b_id] start in
  sv_writers (snd (finish (fst cs) (snd cs))) = [(b_id, 4%nat)].
Proof.
  intros cs. rewrite (unauthenticated_keeps_slot (fst cs) (snd cs)); vm_compute; reflexivity.
Defined.
End Runs.
End Server.
