(* ===== verification/ServerMain.v ===== *)
(** * The server process (src/server/main.py: start, shutdown, main)

    The life of the process around the server object of [Server]: binding,
    the two background tasks and the task of the web panel, signals, and the
    way out of [main].  A process is the system of [Server] with the flags of
    [start] and [shutdown] and the point [main] has reached; the moves are a
    relation, so that a signal may come at any of them.

    Two facts of asyncio are part of the model.  Closing a server that is in
    [serve_forever] cancels it, so [start] leaves with [CancelledError].
    [Server.wait_closed] returns at once before Python 3.12 and waits for the
    open connections from then on: [waits] says which.  A KeyboardInterrupt
    leaves [start] suspended where it is.

    [shutdown] acts at once and then awaits [wait_closed]: [shutdown_process]
    is its action, and the wait of the last one, which [main] runs in its
    [finally] clause, is the phase [Finishing], in which the event loop goes on
    with the connections that are still open. *)

From S2P Require Import Prelude Constants PyStr Json Messages Protocol Registry NetworkManager Auth Relay Server.
Import Messages Protocol Registry NetworkManager Auth Relay Server.

Module ServerMain.

(** ** The process *)

(** Why [start] was left. *)
Inductive stop_cause :=
  | BindFailed (e : exc)      (* start_server raised *)
  | Cancelled                 (* the server was closed under serve_forever *)
  | Interrupted               (* KeyboardInterrupt *)
  | Aborted.                  (* KeyboardInterrupt in the last shutdown *)

(** The point [main] has reached. *)
Inductive phase :=
  | Created                   (* start_server has not returned yet *)
  | Serving                   (* in serve_forever *)
  | Stopping                  (* cancelled, in wait_closed *)
  | Unwound (c : stop_cause)  (* start was left, before the last shutdown *)
  | Finishing (c : stop_cause) (* the last shutdown, in wait_closed *)
  | Ended (c : stop_cause).

Record ServerProcess := mkServerProcess {
  pr_sys : System;
  pr_started_at : option time;
  pr_listening : bool;
  pr_expiry_alive : bool;
  pr_web_alive : bool;
  pr_shutting_down : bool;
  pr_phase : phase
}.

(** [MediationServer(config)] as [main] holds it before [start]. *)
Definition created (s : MediationServer) : ServerProcess :=
  mkServerProcess (mkSystem s [] false) None false false false false Created.

(** [if self.config.web_port and self.config.web_port > 0]. *)
Definition web_wanted (c : ServerConfig) : bool :=
  match cfg_web_port c with Some p => negb (p =? 0) && (0 <? p) | None => false end.

(** [_start_web_panel]: what is left of its task.  [aiohttp] says whether the
    imports succeed, [site] is what setting up the runner and binding gives. *)
Inductive panel_outcome :=
  | PanelServing (address : str * Z)
  | PanelSkipped                       (* ImportError, logged at DEBUG *)
  | PanelFailed (e : exc).             (* any other, logged as a warning *)

Definition start_web_panel (aiohttp : bool) (site : str * Z -> result unit) (c : ServerConfig)
    : panel_outcome :=
  if negb aiohttp then PanelSkipped
  else
    let address := (py "0.0.0.0", default 0 (cfg_web_port c)) in
    match site address with
    | Ok _ => PanelServing address
    | Err e => PanelFailed e
    end.

Definition panel_runs (o : panel_outcome) : bool :=
  match o with PanelServing _ => true | _ => false end.

(** [start] once the socket is bound: both loops are started, and the web
    panel's task when the configuration asks for it. *)
Definition start_bound (now : time) (p : ServerProcess) : ServerProcess :=
  let sys := pr_sys p in
  mkServerProcess (mkSystem (sys_server sys) (sys_conns sys) true) (Some now) true true
    (web_wanted (sv_config (sys_server sys))) (pr_shutting_down p) Serving.

(** [start] when [start_server] raises: [started_at] is set, nothing else. *)
Definition start_failed (now : time) (e : exc) (p : ServerProcess) : ServerProcess :=
  mkServerProcess (pr_sys p) (Some now) (pr_listening p) (pr_expiry_alive p) (pr_web_alive p)
    (pr_shutting_down p) (Unwound (BindFailed e)).

(** [shutdown] up to its await: both loops are cancelled, every writer of the
    table closed and the table emptied, and the listening socket closed. *)
Definition shutdown_process (p : ServerProcess) : ServerProcess :=
  let sys := pr_sys p in
  mkServerProcess (mkSystem (snd (shutdown (sys_server sys))) (sys_conns sys) false)
    (pr_started_at p) false false (pr_web_alive p) true (pr_phase p).

Definition with_phase (f : phase) (p : ServerProcess) : ServerProcess :=
  mkServerProcess (pr_sys p) (pr_started_at p) (pr_listening p) (pr_expiry_alive p) (pr_web_alive p)
    (pr_shutting_down p) f.
Definition with_sys (sys : System) (p : ServerProcess) : ServerProcess :=
  mkServerProcess sys (pr_started_at p) (pr_listening p) (pr_expiry_alive p) (pr_web_alive p)
    (pr_shutting_down p) (pr_phase p).
Definition without_web (p : ServerProcess) : ServerProcess :=
  mkServerProcess (pr_sys p) (pr_started_at p) (pr_listening p) (pr_expiry_alive p) false
    (pr_shutting_down p) (pr_phase p).

(** What the signal handler leads to: the server is closed, and when [start]
    is in [serve_forever] that cancels it. *)
Definition on_signal (p : ServerProcess) : ServerProcess :=
  with_phase (match pr_phase p with Serving => Stopping | f => f end) (shutdown_process p).

(** What [main] gives: it returns 0 only after a KeyboardInterrupt, and lets
    every other exception through. *)
Definition exit_of (c : stop_cause) : result Z :=
  match c with
  | BindFailed e => Err e
  | Cancelled => raise CException (py "CancelledError")
  | Interrupted => Ok 0
  | Aborted => raise CException (py "KeyboardInterrupt")
  end.

(** [main] is inside [start]; the event loop also runs in the last shutdown. *)
Definition in_start (f : phase) : bool :=
  match f with Created | Serving | Stopping => true | _ => false end.

Definition loop_runs (f : phase) : bool :=
  match f with Finishing _ => true | _ => in_start f end.

(** [wait_closed] may return. *)
Definition conn_open (cs : list (nat * Conn)) (w : nat) : bool :=
  match dget cs w with Some c => c_open c | None => false end.

Definition may_leave (waits : bool) (p : ServerProcess) : bool :=
  let cs := sys_conns (pr_sys p) in
  negb waits || forallb (fun w => negb (conn_open cs w)) (dkeys cs).

Section Life.
Context {SO : SetOrder str} {BC : Bcrypt} {UN : Unicode} {RV : RsaVerifier}.
Context (waits : bool).

Inductive proc_step : ServerProcess -> ServerProcess -> Prop :=
  | p_bound now p : pr_phase p = Created -> proc_step p (start_bound now p)
  | p_bind_failed now e p : pr_phase p = Created -> proc_step p (start_failed now e p)
  | p_accept p w peer :
      loop_runs (pr_phase p) = true -> pr_listening p = true ->
      let sys := pr_sys p in
      dget (sys_conns sys) w = None ->
      proc_step p (with_sys (mkSystem (sys_server sys) (dset (sys_conns sys) w (new_conn w peer))
                               (sys_prune_alive sys)) p)
  | p_recv p env w c header body :
      loop_runs (pr_phase p) = true ->
      let sys := pr_sys p in let s := sys_server sys in
      dget (sys_conns sys) w = Some c -> c_open c = true ->
      length header = 4%nat -> (be_decode header <= MAX_MESSAGE_SIZE -> zlen body = be_decode header) ->
      fresh_env env s ->
      proc_step p (with_sys (mkSystem (snd (recv env c header body s))
                       (dset (sys_conns sys) w (fst (recv env c header body s)))
                       (sys_prune_alive sys)) p)
  | p_eof p w c :
      loop_runs (pr_phase p) = true ->
      let sys := pr_sys p in let s := sys_server sys in
      dget (sys_conns sys) w = Some c -> c_open c = true ->
      proc_step p (with_sys (mkSystem (snd (eof c s)) (dset (sys_conns sys) w (fst (eof c s)))
                       (sys_prune_alive sys)) p)
  | p_lost p w :
      let sys := pr_sys p in let s := sys_server sys in
      proc_step p (with_sys (mkSystem (set_lost (sv_lost s ∪ {[w]}) s) (sys_conns sys)
                       (sys_prune_alive sys)) p)
  | p_prune p now :
      loop_runs (pr_phase p) = true ->
      let sys := pr_sys p in let s := sys_server sys in
      sys_prune_alive sys = true ->
      proc_step p (with_sys (mkSystem (snd (prune_tick now s)) (sys_conns sys)
                       (negb (ended (fst (prune_tick now s))))) p)
  | p_expiry p now :
      loop_runs (pr_phase p) = true -> pr_expiry_alive p = true ->
      let sys := pr_sys p in let s := sys_server sys in
      proc_step p (with_sys (mkSystem (snd (auth_expiry_tick now s)) (sys_conns sys)
                       (sys_prune_alive sys)) p)
  | p_web_done p aiohttp site :
      loop_runs (pr_phase p) = true -> pr_web_alive p = true ->
      panel_runs (start_web_panel aiohttp site (sv_config (sys_server (pr_sys p)))) = false ->
      proc_step p (without_web p)
  | p_signal p : loop_runs (pr_phase p) = true -> proc_step p (on_signal p)
  | p_unwind p :
      pr_phase p = Stopping -> may_leave waits p = true ->
      proc_step p (with_phase (Unwound Cancelled) (without_web p))
  | p_interrupt p :
      in_start (pr_phase p) = true -> proc_step p (with_phase (Unwound Interrupted) p)
  | p_last_shutdown p c :
      pr_phase p = Unwound c -> proc_step p (with_phase (Finishing c) (shutdown_process p))
  | p_late_unwind p :
      (* [start], which was left suspended, is resumed by the loop *)
      pr_phase p = Finishing Interrupted -> proc_step p (without_web p)
  | p_abort p c :
      pr_phase p = Finishing c -> proc_step p (with_phase (Ended Aborted) p)
  | p_end p c :
      pr_phase p = Finishing c -> may_leave waits p = true -> proc_step p (with_phase (Ended c) p).

(** ** Invariant *)

(** What is alive only while the server serves. *)
Definition proc_ok (p : ServerProcess) : Prop :=
  sys_ok (pr_sys p)
  /\ match pr_phase p with
     | Created => pr_listening p = false /\ sys_prune_alive (pr_sys p) = false
                  /\ pr_expiry_alive p = false /\ pr_web_alive p = false
                  /\ pr_started_at p = None
     | Serving => pr_listening p = true /\ pr_expiry_alive p = true
     | Stopping => pr_listening p = false /\ sys_prune_alive (pr_sys p) = false
                   /\ pr_expiry_alive p = false /\ pr_shutting_down p = true
     | Unwound c => c <> Aborted /\ (c <> Interrupted ->
                    pr_listening p = false /\ sys_prune_alive (pr_sys p) = false
                    /\ pr_expiry_alive p = false /\ pr_web_alive p = false)
     | Finishing c => c <> Aborted /\ pr_listening p = false /\ sys_prune_alive (pr_sys p) = false
                  /\ pr_expiry_alive p = false /\ pr_shutting_down p = true
                  /\ (c <> Interrupted -> pr_web_alive p = false)
     | Ended c => pr_listening p = false /\ sys_prune_alive (pr_sys p) = false
                  /\ pr_expiry_alive p = false /\ pr_shutting_down p = true
                  /\ (c <> Interrupted -> c <> Aborted -> pr_web_alive p = false)
                  /\ (c <> Aborted -> may_leave waits p = true)
     end.

Lemma shutdown_state s :
  snd (shutdown s) =
    set_writers [] (set_closed (sv_closed s ∪ list_to_set (dvals (sv_writers s))) s).
Proof. done. Qed.

Lemma pres_shutdown K : pres (good K) shutdown.
Proof.
  intros s Hs. rewrite shutdown_state.
  apply (good_set_closed K s (sv_closed s ∪ list_to_set (dvals (sv_writers s)))) in Hs.
  destruct Hs. constructor; simpl in *; try assumption; try done.
  - apply dict_ok_nil.
  - unfold zlen in *. simpl. lia.
Qed.

(** A move between states of the running server is one of the system. *)
Lemma sys_ok_shutdown sys p : sys_ok sys -> sys_ok (mkSystem (snd (shutdown (sys_server sys))) (sys_conns sys) p).
Proof. intros Hok. destruct sys. eapply sys_ok_server; [|exact Hok]. intros K. apply pres_shutdown. Qed.

Lemma sys_ok_flag sys p : sys_ok sys -> sys_ok (mkSystem (sys_server sys) (sys_conns sys) p).
Proof. by destruct sys. Qed.

Lemma sys_move sys sys' : sys_ok sys -> sys_step sys sys' -> sys_ok sys'.
Proof. eauto using sys_ok_step. Qed.

Lemma proc_ok_step p p' : proc_step p p' -> proc_ok p -> proc_ok p'.
Proof.
  intros Hst [Hok Hp].
  destruct Hst; (split;
    [ first [ exact Hok | by apply sys_ok_flag | by apply sys_ok_shutdown
            | apply (sys_move (pr_sys p)); [exact Hok|]; destruct (pr_sys p); simpl in *; subst; by econstructor ]
    | ]); destruct (pr_phase p) eqn:Hf; simpl in *; rewrite ?Hf in *; simplify_eq; try tauto; try (split_and?; tauto).
  all: try (split; [discriminate|tauto]).
  all: exfalso; unfold sys in *; destruct_and? Hp; congruence.
Qed.

Lemma proc_ok_reach s0 p : good no_one s0 -> rtc proc_step (created s0) p -> proc_ok p.
Proof.
  intros Hg Hr. assert (H0 : proc_ok (created s0)) by (split_and!; done).
  clear Hg. induction Hr; eauto using proc_ok_step.
Qed.

(** No connection of the table is open. *)
Definition none_open (p : ServerProcess) : Prop :=
  forall w, conn_open (sys_conns (pr_sys p)) w = false.

Lemma may_leave_spec p : may_leave waits p = true <-> waits = false \/ none_open p.
Proof.
  unfold may_leave, none_open. rewrite orb_true_iff, negb_true_iff, forallb_forall. split.
  - intros [H|H]; [by left|right]. intros w. destruct (conn_open _ w) eqn:Ho; [|done].
    specialize (H w). rewrite Ho in H. symmetry. apply H, list_elem_of_In, elem_of_dkeys.
    unfold conn_open in Ho. by destruct (dget _ w).
  - intros [H|H]; [by left|right]. intros w _. by rewrite H.
Qed.

(** C9 Invariant of the server process, from the configuration to the exit,
    whatever comes when: clients, broken transports, the loops' turns, a web
    panel that fails, signals at any moment (before the socket is bound and
    during the last shutdown too) and KeyboardInterrupt.  The memberships
    always agree and the writers never exceed the limit; once the server
    stops nothing listens and both loops are cancelled; the last shutdown of
    [main] closes every writer of the table and empties it; and when [main]
    is left nothing listens and both loops are cancelled.  Where [wait_closed]
    waits, no connection is then open unless a KeyboardInterrupt cut the last
    shutdown off; the task of the panel is cancelled unless a KeyboardInterrupt
    had cut off [start] or the last shutdown. *)
Theorem process_lifecycle cfg s0 p :
  server_init cfg = Ok s0 -> rtc proc_step (created s0) p ->
  let s := sys_server (pr_sys p) in
  consistent (sv_networks s) (sv_registry s)
  /\ zlen (sv_writers s) <= cfg_max_clients (sv_config s)
  /\ (pr_phase p = Stopping ->
      pr_listening p = false /\ sys_prune_alive (pr_sys p) = false /\ pr_expiry_alive p = false)
  /\ (forall c, pr_phase p = Unwound c ->
      let p' := with_phase (Finishing c) (shutdown_process p) in
      proc_step p p' /\ sv_writers (sys_server (pr_sys p')) = []
      /\ forall w, w ∈ dvals (sv_writers s) -> w ∈ sv_closed (sys_server (pr_sys p')))
  /\ (forall c, pr_phase p = Ended c ->
      pr_listening p = false /\ sys_prune_alive (pr_sys p) = false /\ pr_expiry_alive p = false
      /\ (waits = true -> c <> Aborted -> none_open p)
      /\ (c <> Interrupted -> c <> Aborted -> pr_web_alive p = false)).
Proof.
  intros Hi Hr. apply good_init in Hi. destruct (proc_ok_reach _ _ Hi Hr) as [[[] _] Hp].
  split_and!; [done..| | |].
  - intros Hf. rewrite Hf in Hp. naive_solver.
  - intros c Hf p'. split_and!; [by apply p_last_shutdown|done|]. intros w Hw.
    unfold p', shutdown_process. cbn -[shutdown]. rewrite shutdown_state. simpl. set_solver.
  - intros c Hf. rewrite Hf in Hp. destruct Hp as (H1 & H2 & H3 & _ & H4 & H5). split_and!; [done..| |done].
    intros Hw Hc. apply H5, may_leave_spec in Hc as [Hc|Hc]; [congruence|done].
Qed.

(** ** Shutting down *)

(** Every writer of the table is closed, no other is. *)
Lemma signal_closes p w :
  w ∈ sv_closed (sys_server (pr_sys (on_signal p)))
  <-> w ∈ sv_closed (sys_server (pr_sys p)) \/ w ∈ dvals (sv_writers (sys_server (pr_sys p))).
Proof. unfold on_signal, shutdown_process. cbn -[shutdown]. rewrite shutdown_state. simpl. set_solver. Qed.

Lemma shutdown_process_idemp p : shutdown_process (shutdown_process p) = shutdown_process p.
Proof.
  destruct p as [[[] cs pa] sa l e wb sd f]. unfold shutdown_process. simpl.
  by rewrite (right_id_L ∅ (∪)).
Qed.

(** While [start] waits, the ends of connections can come in, one by one. *)
Lemma drain_connections (l : list nat) p :
  pr_phase p = Stopping ->
  exists p', rtc proc_step p p' /\ pr_phase p' = Stopping
    /\ dkeys (sys_conns (pr_sys p')) = dkeys (sys_conns (pr_sys p))
    /\ forall w, conn_open (sys_conns (pr_sys p')) w = true ->
         conn_open (sys_conns (pr_sys p)) w = true /\ w ∉ l.
Proof.
  revert p. induction l as [|w l IH]; intros p Hf.
  { exists p. split_and!; [done..|]. intros w Hw. split; [done|set_solver]. }
  destruct (conn_open (sys_conns (pr_sys p)) w) eqn:Hw.
  - unfold conn_open in Hw. destruct (dget _ w) as [c|] eqn:Hc; [|done].
    set (p1 := with_sys (mkSystem (snd (eof c (sys_server (pr_sys p))))
      (dset (sys_conns (pr_sys p)) w (closed_conn c)) (sys_prune_alive (pr_sys p))) p).
    destruct (IH p1 Hf) as (p' & Hr & Hf' & Hk & Ho). exists p'. split_and!; [|done|..].
    + eapply rtc_l; [|exact Hr]. by apply (p_eof p w c); [rewrite Hf|..].
    + rewrite Hk. simpl. by apply dkeys_dset_old.
    + intros w' [Hw' Hl]%Ho. unfold conn_open in *. simpl in Hw'. rewrite dget_dset in Hw'.
      destruct (decide (w = w')); [done|]. split; [done|set_solver].
  - destruct (IH p Hf) as (p' & Hr & Hf' & Hk & Ho). exists p'. split_and!; [done..|].
    intros w' [Hw' Hl]%Ho. split; [done|]. intros [->|?]%elem_of_cons; congruence.
Qed.

(** Liveness of the shutdown: a signal to a serving process leads out of
    [main] as soon as the connections that are open end; before Python 3.12
    it needs nothing from them.  The way out is a CancelledError that [main]
    does not catch, never its [return 0]. *)
Theorem signal_leads_out p :
  pr_phase p = Serving ->
  (waits = false -> exists p1 p2 p3, proc_step (on_signal p) p1 /\ proc_step p1 p2
                       /\ proc_step p2 p3 /\ pr_phase p3 = Ended Cancelled)
  /\ exists p', proc_step p (on_signal p) /\ rtc proc_step (on_signal p) p'
     /\ pr_phase p' = Ended Cancelled
     /\ sv_writers (sys_server (pr_sys p')) = [] /\ pr_listening p' = false
     /\ pr_web_alive p' = false /\ ~ exists code, exit_of Cancelled = Ok code.
Proof.
  intros Hf.
  assert (Hs : pr_phase (on_signal p) = Stopping) by (unfold on_signal; by rewrite Hf).
  assert (Hout : forall q, pr_phase q = Stopping -> may_leave waits q = true ->
    let q1 := with_phase (Unwound Cancelled) (without_web q) in
    let q2 := with_phase (Finishing Cancelled) (shutdown_process q1) in
    let q3 := with_phase (Ended Cancelled) q2 in
    proc_step q q1 /\ proc_step q1 q2 /\ proc_step q2 q3).
  { intros q Hq Hl. split; [by apply p_unwind|]. split; [by apply p_last_shutdown|]. by apply p_end. }
  split.
  - intros Hw. destruct (Hout _ Hs) as (H1 & H2 & H3); [apply may_leave_spec; by left|].
    eexists _, _, _. split_and!; [exact H1|exact H2|exact H3|done].
  - destruct (drain_connections (dkeys (sys_conns (pr_sys (on_signal p)))) _ Hs)
      as (q & Hr & Hq & Hk & Ho).
    destruct (Hout q Hq) as (H1 & H2 & H3).
    { apply may_leave_spec. right. intros w. destruct (conn_open _ w) eqn:Hc; [|done].
      destruct (Ho w Hc) as [Hc' Hn]. exfalso. apply Hn, elem_of_dkeys. unfold conn_open in Hc'.
      by destruct (dget _ w). }
    exists (with_phase (Ended Cancelled) (with_phase (Finishing Cancelled)
      (shutdown_process (with_phase (Unwound Cancelled) (without_web q))))).
    split_and!; [apply p_signal; by rewrite Hf| |done..|].
    + transitivity q; [exact Hr|]. eapply rtc_l; [exact H1|]. eapply rtc_l; [exact H2|]. by apply rtc_once.
    + by intros [? [=]].
Qed.

(** A connection that has not registered is in no table: a signal leaves it
    open, and where [wait_closed] waits for it the process stays until its
    peer closes it. *)
Lemma idle_connection_blocks p p' w :
  waits = true -> pr_phase p = Stopping -> conn_open (sys_conns (pr_sys p)) w = true ->
  proc_step p p' -> pr_phase p' = Stopping \/ pr_phase p' = Unwound Interrupted.
Proof.
  intros Hw Hf Ho Hst. destruct Hst; simpl; rewrite ?Hf in *; auto; try discriminate.
  exfalso. match goal with Hl : may_leave _ _ = true |- _ => apply may_leave_spec in Hl as [?|Hl] end;
    [congruence|]. specialize (H0 w). congruence.
Qed.

(** A signal before the socket is bound is lost: the handler closes nothing,
    and [start] then serves as if it had not come. *)
Lemma early_signal_lost p now :
  pr_phase p = Created ->
  let p' := start_bound now (on_signal p) in
  proc_step p (on_signal p) /\ proc_step (on_signal p) p'
  /\ pr_phase p' = Serving /\ pr_listening p' = true /\ pr_shutting_down p' = true.
Proof.
  intros Hf. assert (Hs : pr_phase (on_signal p) = Created) by (unfold on_signal; by rewrite Hf).
  split_and!; [apply p_signal; by rewrite Hf|by apply p_bound|done..].
Qed.
End Life.

(** ** Concrete runs *)

Section Runs.
#[local] Existing Instance plain_bcrypt.
#[local] Existing Instance ascii_only.
#[local] Existing Instance echo_verifier.
#[local] Existing Instance str_order.

Definition c1 : Conn := new_conn 1 (py "10.0.0.1", 4001).
Definition header_of (m : Message) : bytes := take 4 (wire m).
Definition body_of_wire (m : Message) : bytes := drop 4 (wire m).

(** The process binds, a client registers, SIGTERM comes, the client's
    connection ends, [start] is left and [main] shuts down again. *)
Definition q0 : ServerProcess := start_bound SEC (created start).
Definition q1 : ServerProcess := with_sys (mkSystem start [(1%nat, c1)] true) q0.
Definition registered_one : Conn * MediationServer :=
  recv env0 c1 (header_of (m_register a_id)) (body_of_wire (m_register a_id)) (sys_server (pr_sys q1)).
Definition q2 : ServerProcess :=
  with_sys (mkSystem (snd registered_one) (dset (sys_conns (pr_sys q1)) 1%nat (fst registered_one))
    (sys_prune_alive (pr_sys q1))) q1.
Definition q3 : ServerProcess := on_signal q2.
Definition q4 : ServerProcess :=
  let s := sys_server (pr_sys q3) in
  with_sys (mkSystem (snd (eof (fst registered_one) s))
    (dset (sys_conns (pr_sys q3)) 1%nat (fst (eof (fst registered_one) s)))
    (sys_prune_alive (pr_sys q3))) q3.
Definition q5 : ServerProcess := with_phase (Unwound Cancelled) (without_web q4).
Definition q6 : ServerProcess := with_phase (Finishing Cancelled) (shutdown_process q5).
Definition q7 : ServerProcess := with_phase (Ended Cancelled) q6.

Lemma run_to_end : rtc (proc_step true) (created start) q7.
Proof.
  eapply rtc_l; [by apply (p_bound true SEC)|].
  eapply (rtc_l _ _ q1); [by apply (p_accept true q0 1 (py "10.0.0.1", 4001))|].
  eapply (rtc_l _ _ q2).
  { unfold q2, registered_one. apply (p_recv true q1 env0 1 c1 (header_of (m_register a_id)) (body_of_wire (m_register a_id)));
      [reflexivity..|vm_compute; reflexivity|intros _; vm_compute; reflexivity|].
    split; [discriminate|reflexivity]. }
  eapply (rtc_l _ _ q3); [by apply p_signal|].
  eapply (rtc_l _ _ q4); [unfold q4; apply (p_eof true q3 1 (fst registered_one)); vm_compute; reflexivity|].
  eapply (rtc_l _ _ q5); [apply p_unwind; vm_compute; reflexivity|].
  eapply (rtc_l _ _ q6); [by apply p_last_shutdown|].
  apply rtc_once. apply p_end; vm_compute; reflexivity.
Qed.

Lemma process_lifecycle_witness :
  zlen (sv_writers (sys_server (pr_sys q2))) = 1
  /\ pr_phase q7 = Ended Cancelled /\ none_open q7 /\ pr_web_alive q7 = false.
Proof.
  destruct (process_lifecycle true default_config start q7 start_init run_to_end)
    as (_ & _ & _ & _ & Hend). destruct (Hend Cancelled eq_refl) as (_ & _ & _ & Ho & Hp).
  split_and!; [vm_compute; reflexivity|reflexivity|by apply Ho|by apply Hp].
Defined.

Lemma signal_leads_out_witness :
  exists p', rtc (proc_step true) (on_signal q2) p' /\ pr_phase p' = Ended Cancelled.
Proof.
  destruct (signal_leads_out true q2 eq_refl) as [_ (p' & _ & Hr & Hf & _)]. by exists p'.
Defined.

(** A connection that never registers keeps a signalled process of a newer
    Python in [wait_closed]: it is open and no writer of it was closed. *)
Lemma idle_connection_example :
  let p := on_signal q1 in
  pr_phase p = Stopping /\ conn_open (sys_conns (pr_sys p)) 1 = true
  /\ sv_closed (sys_server (pr_sys p)) = ∅ /\ may_leave true p = false.
Proof. split_and!; vm_compute; reflexivity. Qed.
End Runs.
End ServerMain.
