(* ===== verification/AdminPanel.v ===== *)
(** * The admin panel of the server (src/server/web/auth.py, src/server/web/app.py)

    The module-wide dictionary [_sessions] is the state, threaded through
    every request.  A request is what the handlers read of an aiohttp
    request; [Router] is the path resolution of aiohttp, of which only its
    soundness is assumed: what it finds is a route of the table that matches
    the path.  Raising [HTTPFound] and returning it is the same response, and
    an exception of a handler is the response 500.  A request reads the clock
    once; the 32 bytes of a new session token are its argument.

    [last_grant] is the specification of the sessions: the time of the last
    login that issued a token, unless a logout with it came later. *)

From S2P Require Import Prelude Constants PyStr Json Messages Protocol Registry NetworkManager Auth Relay Server.
Import Protocol Registry NetworkManager Server.

Module AdminPanel.

(** ** Sessions (auth.py) *)

Definition ADMIN_USER_ENV : str := py "LNSERVER_ADMIN_USER".
Definition ADMIN_PASS_ENV : str := py "LNSERVER_ADMIN_PASS".
Definition SESSION_TIMEOUT : Z := 3600 * SEC.
Definition SESSION_COOKIE : str := py "ln_admin_session".

(** [secrets.token_urlsafe]: base 64 of random bytes in the URL alphabet,
    without padding. *)
Definition urlsafe_char (c : Z) : Z := if c =? 43 then 45 else if c =? 47 then 95 else c.

Definition token_urlsafe (random : bytes) : str :=
  rstrip_with (fun c => c =? 61) (map urlsafe_char (b64encode random)).

Definition get_admin_credentials (env : str -> option str) (random : bytes) : str * str :=
  let user := default (py "admin") (env ADMIN_USER_ENV) in
  let password := default [] (env ADMIN_PASS_ENV) in
  (user, if bool_decide (password = []) then token_urlsafe random else password).

Definition Sessions := list (str * time).

Definition create_session (random : bytes) (now : time) (s : Sessions) : str * Sessions :=
  let token := token_urlsafe random in (token, dset s token now).

Definition validate_session (token : option str) (now : time) (s : Sessions) : bool * Sessions :=
  match token with
  | None => (false, s)
  | Some tok =>
      if bool_decide (tok = []) then (false, s)
      else
        match dget s tok with
        | None => (false, s)
        | Some created =>
            if now - created >? SESSION_TIMEOUT then (false, ddel s tok) else (true, s)
        end
  end.

Definition destroy_session (token : str) (s : Sessions) : Sessions := ddel s token.

(** ** Requests and responses *)

Record Request := mkRequest {
  rq_method : str;
  rq_path : str;
  rq_cookie : option str;           (* the cookie ln_admin_session *)
  rq_query : list (str * str);
  rq_form : list (str * str);       (* of a posted form *)
  rq_now : time;
  rq_random : bytes
}.

Inductive cookie_action :=
  | KeepCookie
  | SetCookie (value : str) (max_age : Z)
  | DelCookie.

(** A value of a template's context. *)
Inductive value :=
  | Plain (j : json)
  | Client (r : option ClientRecord).

Inductive response :=
  | Html (template : str) (context : list (str * value))
  | JsonResponse (j : json) (status : Z)
  | Found (location : str) (cookie : cookie_action)
  | StaticFile (path : option str)
  | EventStream
  | NotFound
  | ServerError (e : exc).

(** ** The application (app.py) *)

Inductive handler :=
  | Dashboard | ClientsPage | ClientDetail | NetworksPage | NetworkDetail | RelayPage
  | ConfigPage | ConfigSave | LogsPage | AccessPage | LoginPage | LoginHandler | LogoutHandler
  | ApiDashboard | ApiClients | ApiNetworks | ApiRelay | ApiLogsStream | Static.

(** A path of a route: a text, a text before one variable, or a prefix. *)
Inductive pattern :=
  | Exactly (p : str)
  | OneVar (p : str)
  | Below (p : str).

Definition GET : str := py "GET".
Definition POST : str := py "POST".
Definition HEAD : str := py "HEAD".

Definition routes : list (str * pattern * handler) :=
  [(GET, Exactly (py "/"), Dashboard);
   (GET, Exactly (py "/clients"), ClientsPage);
   (GET, OneVar (py "/clients/"), ClientDetail);
   (GET, Exactly (py "/networks"), NetworksPage);
   (GET, OneVar (py "/networks/"), NetworkDetail);
   (GET, Exactly (py "/relay"), RelayPage);
   (GET, Exactly (py "/config"), ConfigPage);
   (POST, Exactly (py "/config"), ConfigSave);
   (GET, Exactly (py "/logs"), LogsPage);
   (GET, Exactly (py "/access"), AccessPage);
   (GET, Exactly (py "/login"), LoginPage);
   (POST, Exactly (py "/login"), LoginHandler);
   (GET, Exactly (py "/logout"), LogoutHandler);
   (GET, Exactly (py "/api/dashboard"), ApiDashboard);
   (GET, Exactly (py "/api/clients"), ApiClients);
   (GET, Exactly (py "/api/networks"), ApiNetworks);
   (GET, Exactly (py "/api/relay"), ApiRelay);
   (GET, Exactly (py "/api/logs/stream"), ApiLogsStream);
   (GET, Below (py "/static/"), Static)].

(** What a path gives for the variable of a pattern it matches. *)
Definition matches (pat : pattern) (path : str) : option (option str) :=
  match pat with
  | Exactly p => if str_eqb path p then Some None else None
  | OneVar p =>
      let rest := drop (length p) path in
      if startswith path p && negb (bool_decide (rest = []))
         && forallb (fun c => negb (bool_decide (c ∈ [47; 123; 125]))) rest
      then Some (Some rest) else None
  | Below p => if startswith path p then Some (Some (drop (length p) path)) else None
  end.

(** A GET route also answers HEAD. *)
Definition method_ok (route m : str) : bool :=
  str_eqb m route || (str_eqb m HEAD && str_eqb route GET).

Class Router := {
  resolve : str -> str -> option (handler * option str);
  resolve_sound m path h info :
    resolve m path = Some (h, info) ->
    exists rm pat, (rm, pat, h) ∈ routes /\ method_ok rm m = true /\ matches pat path = Some info
}.

Record App := mkApp {
  app_registry : option ClientRegistry;
  app_networks : option NetworkManager.NetworkManager;
  app_credentials : str * str;
  app_start_time : time
}.

(** [create_app]; the environment and the random password are arguments. *)
Definition create_app (reg : option ClientRegistry) (nm : option NetworkManager.NetworkManager)
    (env : str -> option str) (random : bytes) (start : time) : App :=
  mkApp reg nm (get_admin_credentials env random) start.

(** [_uptime]. *)
Definition uptime (start now : time) : str :=
  let seconds := Z.quot (now - start) SEC in
  if seconds <? 60 then dec seconds ++ py "s"
  else
    let minutes := seconds / 60 in let secs := seconds mod 60 in
    if minutes <? 60 then dec minutes ++ py "m " ++ dec secs ++ py "s"
    else
      let hours := minutes / 60 in let mins := minutes mod 60 in
      if hours <? 24 then dec hours ++ py "h " ++ dec mins ++ py "m"
      else dec (hours / 24) ++ py "d " ++ dec (hours mod 24) ++ py "h".

(** Methods that the classes of registry.py and network_manager.py do not
    have. *)
Definition no_attribute {A} (cls attr : str) : result A :=
  raise CAttributeError (py "'" ++ cls ++ py "' object has no attribute '" ++ attr ++ py "'").
Definition registry_list_all (_ : ClientRegistry) : result (list (str * json)) :=
  no_attribute (py "ClientRegistry") (py "list_all").
Definition registry_list_online (_ : ClientRegistry) : result (list json) :=
  no_attribute (py "ClientRegistry") (py "list_online").
Definition nm_list_networks (_ : NetworkManager.NetworkManager) : result (list json) :=
  no_attribute (py "NetworkManager") (py "list_networks").

(** [_render]; [name] is the template without .html. *)
Definition render (name : str) (context : list (str * value)) : response :=
  Html (name ++ py ".html")
    ((py "panel_name", Plain (JStr (py "Server Admin"))) :: context
     ++ [(py "active_page", Plain (JStr name))]).

Definition answer (r : result response) : response :=
  match r with Ok x => x | Err e => ServerError e end.

(** [if registry]: an object with [__len__] is true unless it is empty. *)
Definition truthy_registry (r : option ClientRegistry) : option ClientRegistry :=
  match r with Some reg => if registry_len reg =? 0 then None else Some reg | None => None end.
Definition truthy_networks (n : option NetworkManager.NetworkManager)
  : option NetworkManager.NetworkManager :=
  match n with Some nm => if nm_len nm =? 0 then None else Some nm | None => None end.

(** The value of key [k] of a dictionary, [d.get(k, dflt)]. *)
Definition field (j : json) (k : str) (dflt : json) : json :=
  match j with JObj d => default dflt (dget d k) | _ => dflt end.

(** [len(j)] of a value that has one. *)
Definition json_len (j : json) : Z :=
  match j with JStr s => zlen s | JList l => zlen l | JObj d => zlen d | _ => 0 end.

Definition client_row (item : str * json) : json :=
  let (cid, info) := item in
  JObj [(py "id", JStr cid);
        (py "status", JStr (if truthy (field info (py "online") JNull)
                            then py "online" else py "offline"));
        (py "connected_since", field info (py "connected_since") (JStr [8212]));
        (py "networks", JInt (json_len (field info (py "networks") (JList []))))].

Definition clients_page (a : App) : response :=
  answer (
    let? clients := match app_registry a with
                    | None => Ok []
                    | Some reg => let? items := registry_list_all reg in Ok (map client_row items)
                    end in
    Ok (render (py "clients") [(py "clients", Plain (JList clients))])).

Definition client_detail (a : App) (cid : str) : response :=
  render (py "client_detail")
    [(py "client", Client (match app_registry a with Some reg => get reg cid | None => None end));
     (py "client_id", Plain (JStr cid))].

Definition network_row (net : json) : json :=
  JObj [(py "id", field net (py "network_id") (JStr []));
        (py "name", field net (py "name") (JStr []));
        (py "owner", field net (py "owner_id") (JStr []));
        (py "topology", field net (py "topology") (JStr (py "mesh")));
        (py "members", field net (py "member_count") (JInt 0))].

Definition networks_page (a : App) : response :=
  answer (
    let? networks := match app_networks a with
                     | None => Ok []
                     | Some nm => let? nets := nm_list_networks nm in Ok (map network_row nets)
                     end in
    Ok (render (py "networks") [(py "networks", Plain (JList networks))])).

Definition api_dashboard (a : App) (now : time) : response :=
  answer (
    let? online := match truthy_registry (app_registry a) with
                   | Some reg => let? l := registry_list_online reg in Ok (zlen l)
                   | None => Ok 0
                   end in
    let? total := match truthy_registry (app_registry a) with
                  | Some reg => let? l := registry_list_all reg in Ok (zlen l)
                  | None => Ok 0
                  end in
    let? networks := match truthy_networks (app_networks a) with
                     | Some nm => let? l := nm_list_networks nm in Ok (zlen l)
                     | None => Ok 0
                     end in
    Ok (JsonResponse
          (JObj [(py "uptime", JStr (uptime (app_start_time a) now));
                 (py "clients_online", JInt online); (py "clients_total", JInt total);
                 (py "networks", JInt networks)]) 200)).

Definition api_clients (a : App) : response :=
  answer match app_registry a with
         | None => Ok (JsonResponse (JList []) 200)
         | Some reg => let? items := registry_list_all reg in Ok (JsonResponse (JList (dvals items)) 200)
         end.

Definition api_networks (a : App) : response :=
  answer match app_networks a with
         | None => Ok (JsonResponse (JList []) 200)
         | Some nm => let? nets := nm_list_networks nm in Ok (JsonResponse (JList nets) 200)
         end.

(** ** Login and logout (auth.py) *)

Definition login_page (rq : Request) : response :=
  Html (py "login.html")
    [(py "error", Plain (JStr (default [] (dget (rq_query rq) (py "error")))));
     (py "panel_name", Plain (JStr (py "Server Admin")))].

(** The form carries the credentials of the administrator. *)
Definition right_credentials (a : App) (rq : Request) : bool :=
  str_eqb (default [] (dget (rq_form rq) (py "username"))) (fst (app_credentials a))
  && str_eqb (default [] (dget (rq_form rq) (py "password"))) (snd (app_credentials a)).

Definition login_handler (a : App) (rq : Request) (s : Sessions) : response * Sessions :=
  if right_credentials a rq then
    let (token, s') := create_session (rq_random rq) (rq_now rq) s in
    (Found (py "/") (SetCookie token (SESSION_TIMEOUT / SEC)), s')
  else (Found (py "/login?error=Invalid+credentials") KeepCookie, s).

Definition logout_handler (rq : Request) (s : Sessions) : response * Sessions :=
  (Found (py "/login") DelCookie,
   match rq_cookie rq with
   | Some ((_ :: _) as token) => destroy_session token s
   | _ => s
   end).

(** ** Dispatch *)

Definition run_handler (a : App) (h : handler) (info : option str) (rq : Request) (s : Sessions)
  : response * Sessions :=
  match h with
  | Dashboard => (render (py "dashboard")
                    [(py "uptime", Plain (JStr (uptime (app_start_time a) (rq_now rq))))], s)
  | ClientsPage => (clients_page a, s)
  | ClientDetail => (client_detail a (default [] info), s)
  | NetworksPage => (networks_page a, s)
  | NetworkDetail => (render (py "network_detail")
                        [(py "network_id", Plain (JStr (default [] info)))], s)
  | RelayPage => (render (py "relay") [], s)
  | ConfigPage => (render (py "config") [], s)
  | ConfigSave => (Found (py "/config") KeepCookie, s)
  | LogsPage => (render (py "logs") [], s)
  | AccessPage => (render (py "access") [], s)
  | LoginPage => (login_page rq, s)
  | LoginHandler => login_handler a rq s
  | LogoutHandler => logout_handler rq s
  | ApiDashboard => (api_dashboard a (rq_now rq), s)
  | ApiClients => (api_clients a, s)
  | ApiNetworks => (api_networks a, s)
  | ApiRelay => (JsonResponse (JObj [(py "paths", JList []); (py "bytes_relayed", JInt 0)]) 200, s)
  | ApiLogsStream => (EventStream, s)
  | Static => (StaticFile info, s)
  end.

Definition public (path : str) : bool :=
  str_eqb path (py "/login") || startswith path (py "/static/").

Definition refuse (path : str) : response :=
  if startswith path (py "/api/")
  then JsonResponse (JObj [(py "error", JStr (py "unauthorized"))]) 401
  else Found (py "/login") KeepCookie.

Definition auth_middleware (handler : Request -> Sessions -> response * Sessions)
    (rq : Request) (s : Sessions) : response * Sessions :=
  if public (rq_path rq) then handler rq s
  else
    let (ok, s') := validate_session (rq_cookie rq) (rq_now rq) s in
    if ok then handler rq s' else (refuse (rq_path rq), s').

Section Panel.
Context {RT : Router}.

(** The handler that aiohttp calls inside the middleware. *)
Definition route_request (a : App) (rq : Request) (s : Sessions) : response * Sessions :=
  match resolve (rq_method rq) (rq_path rq) with
  | Some (h, info) => run_handler a h info rq s
  | None => (NotFound, s)
  end.

Definition serve (a : App) : Request -> Sessions -> response * Sessions :=
  auth_middleware (route_request a).

(** The sessions after a series of requests; the server behind the panel may
    be another one at each request, with the same credentials. *)
Definition after (s : Sessions) (tr : list (App * Request)) : Sessions :=
  foldl (fun s ev => snd (serve (fst ev) (snd ev) s)) s tr.

(** ** Specification *)

Definition resolves_to (h : handler) (rq : Request) : bool :=
  match resolve (rq_method rq) (rq_path rq), h with
  | Some (LoginHandler, _), LoginHandler | Some (LogoutHandler, _), LogoutHandler => true
  | _, _ => false
  end.

Definition grant_step (tok : str) (g : option time) (ev : App * Request) : option time :=
  let (a, rq) := ev in
  if resolves_to LoginHandler rq && right_credentials a rq && str_eqb (token_urlsafe (rq_random rq)) tok
  then Some (rq_now rq)
  else if resolves_to LogoutHandler rq && bool_decide (rq_cookie rq = Some tok) then None
  else g.

(** The time of the last login that issued [tok], unless it was logged out. *)
Definition last_grant (tr : list (App * Request)) (tok : str) : option time :=
  foldl (grant_step tok) None tr.

Definition authorized (tr : list (App * Request)) (rq : Request) : bool :=
  match rq_cookie rq with
  | Some tok =>
      match last_grant tr tok with
      | Some t => negb (bool_decide (tok = [])) && (rq_now rq - t <=? SESSION_TIMEOUT)
      | None => false
      end
  | None => false
  end.

(** The clock does not go back. *)
Fixpoint clock_ok (t : time) (tr : list (App * Request)) : Prop :=
  match tr with
  | [] => True
  | (_, rq) :: tr' => t <= rq_now rq /\ clock_ok (rq_now rq) tr'
  end.

(** ** Routes *)

Lemma session_routes m path h info :
  resolve m path = Some (h, info) ->
  (h = LoginHandler -> path = py "/login") /\ (h = LogoutHandler -> path = py "/logout").
Proof.
  intros (rm & pat & Hin & _ & Hm)%resolve_sound.
  unfold routes in Hin. set_unfold in Hin.
  split; intros ->; destruct_or?; simplify_eq; simpl in Hm; unfold str_eqb in Hm; by case_bool_decide.
Qed.

Lemma login_public rq : resolves_to LoginHandler rq = true -> public (rq_path rq) = true.
Proof.
  unfold resolves_to. destruct (resolve _ _) as [[h i]|] eqn:E; [|done].
  destruct (session_routes _ _ _ _ E) as [H _]. destruct h; try done. by rewrite H.
Qed.

Lemma logout_protected rq : resolves_to LogoutHandler rq = true -> public (rq_path rq) = false.
Proof.
  unfold resolves_to. destruct (resolve _ _) as [[h i]|] eqn:E; [|done].
  destruct (session_routes _ _ _ _ E) as [_ H]. destruct h; try done. by rewrite H.
Qed.

(** ** Handlers and the sessions *)

Lemma dispatch_response a rq s : fst (route_request a rq s) = fst (route_request a rq []).
Proof.
  unfold route_request. destruct (resolve _ _) as [[h i]|]; [|done].
  destruct h; try done. simpl. unfold login_handler. by case_match.
Qed.

Definition changed (a : App) (rq : Request) (s : Sessions) : Sessions :=
  if resolves_to LoginHandler rq && right_credentials a rq
  then dset s (token_urlsafe (rq_random rq)) (rq_now rq)
  else if resolves_to LogoutHandler rq
  then match rq_cookie rq with Some ((_ :: _) as tok) => ddel s tok | _ => s end
  else s.

Lemma dispatch_sessions a rq s : snd (route_request a rq s) = changed a rq s.
Proof.
  unfold route_request, changed, resolves_to. destruct (resolve _ _) as [[h i]|]; [|done].
  destruct h; try done. simpl. unfold login_handler. by case_match.
Qed.

(** ** The sessions implement the specification *)

Definition reflects (tr : list (App * Request)) (now : time) (s : Sessions) : Prop :=
  forall tok, tok <> [] ->
    (forall t, dget s tok = Some t -> last_grant tr tok = Some t) /\
    (forall t, last_grant tr tok = Some t -> dget s tok = None -> SESSION_TIMEOUT < now - t).

Lemma reflects_later tr now now' s : reflects tr now s -> now <= now' -> reflects tr now' s.
Proof. intros H Hle tok Hne. destruct (H tok Hne) as [H1 H2]. split; [done|]. intros t Ht Hn. specialize (H2 t Ht Hn). lia. Qed.

Lemma validate_authorized tr rq s :
  reflects tr (rq_now rq) s ->
  fst (validate_session (rq_cookie rq) (rq_now rq) s) = authorized tr rq /\
  reflects tr (rq_now rq) (snd (validate_session (rq_cookie rq) (rq_now rq) s)).
Proof.
  intros H. unfold validate_session, authorized.
  destruct (rq_cookie rq) as [tok|]; [|done].
  case_bool_decide as He; [by destruct (last_grant tr tok)|]. destruct (H tok He) as [H1 H2].
  destruct (dget s tok) as [t|] eqn:Hd.
  - rewrite (H1 t eq_refl). destruct (Z.gtb_spec (rq_now rq - t) SESSION_TIMEOUT); simpl.
    + split; [symmetry; apply Z.leb_gt; lia|]. intros tok'. rewrite dget_ddel.
      case_decide as Hk; [subst|apply H]. intros _. split; [done|]. intros t' Ht' _.
      rewrite (H1 t eq_refl) in Ht'. by simplify_eq.
    + split; [symmetry; apply Z.leb_le; lia|done].
  - split; [|done]. destruct (last_grant tr tok) as [t|]; [|done].
    specialize (H2 t eq_refl eq_refl). symmetry. apply Z.leb_gt. lia.
Qed.

Lemma last_grant_snoc tr ev tok : last_grant (tr ++ [ev]) tok = grant_step tok (last_grant tr tok) ev.
Proof. unfold last_grant. by rewrite foldl_app. Qed.

(** A request that reaches its handler. *)
Lemma changed_reflects tr a rq s :
  reflects tr (rq_now rq) s -> reflects (tr ++ [(a, rq)]) (rq_now rq) (changed a rq s).
Proof.
  intros H tok Hne. rewrite last_grant_snoc. destruct (H tok Hne) as [H1 H2].
  unfold changed, grant_step, str_eqb.
  destruct (resolves_to LoginHandler rq) eqn:Hl; simpl.
  - assert (resolves_to LogoutHandler rq = false) as ->.
    { apply login_public in Hl. destruct (resolves_to LogoutHandler rq) eqn:E; [|done].
      apply logout_protected in E. congruence. }
    destruct (right_credentials a rq); simpl; [|by split].
    rewrite dget_dset. case_bool_decide as Hk; case_decide; simplify_eq; try done.
  - destruct (resolves_to LogoutHandler rq); simpl; [|by split].
    case_bool_decide as Hc.
    + rewrite Hc. destruct tok as [|c tok]; [done|]. rewrite dget_ddel. by case_decide.
    + destruct (rq_cookie rq) as [[|c k]|]; [by split| |by split].
      rewrite dget_ddel. case_decide; [congruence|by split].
Qed.

Lemma refused_gone tok now s :
  tok <> [] -> fst (validate_session (Some tok) now s) = false ->
  dget (snd (validate_session (Some tok) now s)) tok = None.
Proof.
  intros Hne. unfold validate_session. rewrite bool_decide_false by done.
  destruct (dget s tok) eqn:Hd; [|done]. case_match; [|done]. intros _. simpl.
  rewrite dget_ddel. by case_decide.
Qed.

(** A request that is refused: it is no login, and a logout finds nothing. *)
Lemma refused_reflects tr a rq s :
  reflects tr (rq_now rq) s -> public (rq_path rq) = false ->
  (forall tok, rq_cookie rq = Some tok -> tok <> [] -> dget s tok = None) ->
  reflects (tr ++ [(a, rq)]) (rq_now rq) s.
Proof.
  intros H Hp Hgone tok Hne. rewrite last_grant_snoc. destruct (H tok Hne) as [H1 H2]. unfold grant_step.
  assert (resolves_to LoginHandler rq = false) as ->.
  { destruct (resolves_to LoginHandler rq) eqn:E; [|done]. apply login_public in E. congruence. }
  destruct (resolves_to LogoutHandler rq); simpl; [|by split].
  case_bool_decide as Hc; [|by split]. split; [|done]. by rewrite (Hgone tok Hc Hne).
Qed.

Lemma serve_reflects tr a rq s :
  reflects tr (rq_now rq) s -> reflects (tr ++ [(a, rq)]) (rq_now rq) (snd (serve a rq s)).
Proof.
  intros H. unfold serve, auth_middleware. destruct (public (rq_path rq)) eqn:Hp.
  { rewrite dispatch_sessions. by apply changed_reflects. }
  destruct (validate_authorized _ _ _ H) as [_ Hs].
  pose proof (fun tok => refused_gone tok (rq_now rq) s) as Hg.
  destruct (validate_session (rq_cookie rq) (rq_now rq) s) as [[] s'] eqn:Hv; cbn [fst snd] in *.
  - rewrite dispatch_sessions. by apply changed_reflects.
  - apply refused_reflects; [done..|]. intros tok Hc Hne. specialize (Hg tok Hne).
    rewrite <- Hc, Hv in Hg. by apply Hg.
Qed.

Lemma after_reflects tr a rq : forall pre t0 s,
  reflects pre t0 s -> clock_ok t0 (tr ++ [(a, rq)]) -> reflects (pre ++ tr) (rq_now rq) (after s tr).
Proof.
  induction tr as [|[b rq'] tr IH]; intros pre t0 s H; simpl.
  - intros [Hle _]. rewrite app_nil_r. by eapply reflects_later.
  - intros [Hle Hc]. rewrite (cons_middle (b, rq') pre tr), app_assoc. apply (IH _ (rq_now rq')); [|done].
    apply serve_reflects. by eapply reflects_later.
Qed.

Lemma grant_from_login tr tok t :
  last_grant tr tok = Some t ->
  exists a rq, (a, rq) ∈ tr /\ right_credentials a rq = true /\ rq_path rq = py "/login" /\
    token_urlsafe (rq_random rq) = tok /\ rq_now rq = t.
Proof.
  induction tr as [|[a rq] tr IH] using rev_ind; [done|]. rewrite last_grant_snoc. unfold grant_step.
  destruct (resolves_to LoginHandler rq && _ && _) eqn:E.
  - intros [= <-]. apply andb_true_iff in E as [[El Er]%andb_true_iff Et%bool_decide_eq_true_1].
    exists a, rq. repeat split; try done; [set_solver|].
    unfold resolves_to in El. destruct (resolve _ _) as [[h i]|] eqn:Hr; [|done].
    apply session_routes in Hr as [Hr _]. apply Hr. by destruct h.
  - case_match; [done|]. intros (b & rq' & Hin & H')%IH. exists b, rq'. split; [set_solver|done].
Qed.

(** C7 Access to the panel: whatever requests came before, a request gets the
    answer of its handler exactly when its path is public or its cookie is a
    token issued by a login at most an hour ago and not logged out since;
    otherwise it is redirected to the login page or answered 401.  Such a
    login carried the credentials of the administrator. *)
Theorem panel_access_exact t0 tr a rq :
  clock_ok t0 (tr ++ [(a, rq)]) ->
  fst (serve a rq (after [] tr)) =
    (if public (rq_path rq) || authorized tr rq then fst (route_request a rq []) else refuse (rq_path rq)) /\
  (authorized tr rq = true ->
   exists b login, (b, login) ∈ tr /\ right_credentials b login = true /\
     rq_path login = py "/login" /\ rq_cookie rq = Some (token_urlsafe (rq_random login)) /\
     rq_now rq - rq_now login <= SESSION_TIMEOUT).
Proof.
  intros Hc. split.
  - assert (reflects tr (rq_now rq) (after [] tr)) as H by (by apply (after_reflects tr a rq [] t0)).
    unfold serve, auth_middleware. destruct (public _); simpl; [apply dispatch_response|].
    destruct (validate_authorized _ _ _ H) as [<- _].
    destruct (validate_session _ _ _) as [[] s']; simpl; [apply dispatch_response|done].
  - unfold authorized. destruct (rq_cookie rq) as [tok|]; [|done].
    destruct (last_grant tr tok) as [t|] eqn:Hg; [|done]. intros [_ Hle%Z.leb_le]%andb_true_iff.
    apply grant_from_login in Hg as (b & login & ? & ? & ? & <- & <-). eauto 10.
Qed.

(** ** The pages over the server *)

(** With the registry and the networks of a running server, the pages of
    clients and networks and their API answer 500, and so does the dashboard
    API as soon as there is a client or a network. *)
Lemma panel_pages_fail reg nm env random start now (a := create_app (Some reg) (Some nm) env random start) :
  (exists e, clients_page a = ServerError e) /\ (exists e, networks_page a = ServerError e) /\
  (exists e, api_clients a = ServerError e) /\ (exists e, api_networks a = ServerError e) /\
  ((exists e, api_dashboard a now = ServerError e) <-> 0 < registry_len reg \/ 0 < nm_len nm).
Proof.
  repeat split; try (by eexists).
  - intros [e H]. unfold api_dashboard, truthy_registry, truthy_networks in H. simpl in H.
    destruct (Z.eqb_spec (registry_len reg) 0); [|left; unfold registry_len, zlen in *; lia].
    simpl in H. destruct (Z.eqb_spec (nm_len nm) 0); [done|right; unfold nm_len, zlen in *; lia].
  - intros H. unfold api_dashboard, truthy_registry, truthy_networks. simpl.
    destruct (Z.eqb_spec (registry_len reg) 0); [|by eexists].
    simpl. destruct (Z.eqb_spec (nm_len nm) 0); [lia|by eexists].
Qed.

(** ** Tokens and credentials *)

Lemma rstrip_head p c s : p c = false -> rstrip_with p (c :: s) <> [].
Proof.
  intros Hc. unfold rstrip_with. simpl. intros H%(f_equal (@rev Z)). rewrite rev_involutive in H.
  simpl in H. induction (rev s) as [|d l IH]; simpl in H; [by rewrite Hc in H|].
  destruct (p d); [by apply IH|done].
Qed.

(** A token is never empty, so that a generated password is not the empty
    one and a session can be used. *)
Lemma token_nonempty random : Forall is_byte random -> random <> [] -> token_urlsafe random <> [].
Proof.
  intros Hb Hne. destruct random as [|x l]; [done|]. inversion Hb as [|? ? Hx _]; subst.
  unfold is_byte in Hx. assert ((urlsafe_char (b64_char (x / 4)) =? 61) = false) as Hc.
  { apply Z.eqb_neq. unfold urlsafe_char, b64_char. assert (0 <= x / 4 < 64) by dlia.
    repeat case_match; lia. }
  unfold token_urlsafe. destruct l as [|y [|z l]]; by apply rstrip_head.
Qed.

Lemma password_nonempty env random :
  Forall is_byte random -> random <> [] -> snd (get_admin_credentials env random) <> [].
Proof.
  intros Hb Hne. unfold get_admin_credentials. simpl. case_bool_decide; [by apply token_nonempty|done].
Qed.

End Panel.

(** ** A concrete router and a run *)

Fixpoint first_match (m path : str) (l : list (str * pattern * handler)) : option (handler * option str) :=
  match l with
  | [] => None
  | (rm, pat, h) :: l' =>
      if method_ok rm m
      then match matches pat path with
           | Some info => Some (h, info)
           | None => first_match m path l'
           end
      else first_match m path l'
  end.

Lemma first_match_sound m path h info l :
  first_match m path l = Some (h, info) ->
  exists rm pat, (rm, pat, h) ∈ l /\ method_ok rm m = true /\ matches pat path = Some info.
Proof.
  induction l as [|[[rm pat] h'] l IH]; [done|]. simpl.
  assert (first_match m path l = Some (h, info) ->
    exists rm0 pat0, (rm0, pat0, h) ∈ (rm, pat, h') :: l /\ method_ok rm0 m = true /\
      matches pat0 path = Some info).
  { intros (rm0 & pat0 & ? & ?)%IH. exists rm0, pat0. split; [by right|done]. }
  case_match eqn:Hm; [|done]. case_match eqn:Hp; [|done]. intros [= -> ->].
  exists rm, pat. split; [by left|done].
Qed.

#[global] Instance table_router : Router :=
  {| resolve m path := first_match m path routes;
     resolve_sound m path h info := first_match_sound m path h info routes |}.

Definition sample_app : App :=
  create_app (Some []) (Some empty_manager) (fun _ => None) (repeat 7 16) 0.
Definition sample_token : str := token_urlsafe (repeat 9 32).
Definition sample_login : Request :=
  mkRequest POST (py "/login") None []
    [(py "username", py "admin"); (py "password", snd (app_credentials sample_app))] (10 * SEC) (repeat 9 32).
Definition sample_request (method path : str) (at_ : time) : Request :=
  mkRequest method path (Some sample_token) [] [] at_ [].

(** After a login the dashboard is shown; after the logout, the login page. *)
Lemma panel_access_exact_witness :
  fst (serve sample_app (sample_request GET (py "/api/relay") (20 * SEC))
         (after [] [(sample_app, sample_login)])) =
    fst (route_request sample_app (sample_request GET (py "/api/relay") (20 * SEC)) []) /\
  fst (serve sample_app (sample_request GET (py "/") (40 * SEC))
         (after [] [(sample_app, sample_login);
                    (sample_app, sample_request GET (py "/logout") (30 * SEC))])) =
    Found (py "/login") KeepCookie.
Proof.
  split.
  - pose proof (panel_access_exact 0 [(sample_app, sample_login)] sample_app
      (sample_request GET (py "/api/relay") (20 * SEC))) as [H _]; [simpl; unfold SEC; lia|].
    rewrite H. vm_compute. reflexivity.
  - pose proof (panel_access_exact 0 [(sample_app, sample_login);
        (sample_app, sample_request GET (py "/logout") (30 * SEC))] sample_app
      (sample_request GET (py "/") (40 * SEC))) as [H _]; [simpl; unfold SEC; lia|].
    rewrite H. vm_compute. reflexivity.
Defined.

End AdminPanel.
