(* ===== verification/Platform.v ===== *)
(** * Platform detection (src/client/platform_detection.py)

    What the probes ask of the operating system is a [Host]; an outcome that
    may be an exception of the kinds the probe catches is an [option].  The
    probes and the degradation flags are translated over it. *)

From S2P Require Import Prelude PyStr Json.

Module Platform.

Definition TERMUX_PREFIX : str := py "/data/data/com.termux/files/usr".
Definition LINUX_TUN_DEVICE : str := py "/dev/net/tun".

Record Host := mkHost {
  platform_system : str;            (* platform.system() *)
  sys_platform : str;               (* sys.platform *)
  sys_version : str;                (* sys.version.split()[0] *)
  environ_prefix : option str;      (* os.environ PREFIX *)
  is_user_admin : option bool;      (* IsUserAnAdmin(), None if it raises *)
  geteuid : option Z;               (* None where os has no geteuid *)
  can_open : str -> bool;           (* open(path) does not raise OSError *)
  path_exists : str -> bool;
  path_join : str -> str -> str;
  executable_dir : str;
  getcwd : str;
  raw_socket_opens : bool;          (* neither OSError nor AttributeError *)
  binds_port_80 : bool              (* no OSError *)
}.

Record PlatformCapabilities := mkCaps {
  os_name : str;
  has_root : bool;
  tun_available : bool;
  raw_sockets : bool;
  privileged_ports : bool;
  is_termux : bool;
  python_version : str
}.

#[global] Instance caps_eq_dec : EqDecision PlatformCapabilities.
Proof. solve_decision. Defined.

(** ** Degradation flags *)

Definition tun_mode_enabled (c : PlatformCapabilities) : bool := tun_available c && negb (is_termux c).
Definition gateway_mode_enabled (c : PlatformCapabilities) : bool := tun_mode_enabled c && has_root c.
Definition privileged_features_enabled (c : PlatformCapabilities) : bool := has_root c.

(** [PlatformCapabilities.to_dict]. *)
Definition caps_to_dict (c : PlatformCapabilities) : list (str * json) :=
  [(py "os", JStr (os_name c)); (py "has_root", JBool (has_root c));
   (py "tun_available", JBool (tun_available c)); (py "tun_mode_enabled", JBool (tun_mode_enabled c));
   (py "raw_sockets", JBool (raw_sockets c)); (py "privileged_ports", JBool (privileged_ports c));
   (py "is_termux", JBool (is_termux c)); (py "python_version", JStr (python_version c))].

(** The dictionary loses nothing of the capabilities. *)
Lemma caps_to_dict_inj c c' : caps_to_dict c = caps_to_dict c' -> c = c'.
Proof. destruct c, c'. unfold caps_to_dict. simpl. intros [= -> -> -> _ -> -> -> ->]. done. Qed.

(** ** Probes *)

Definition detect_os (h : Host) : str := platform_system h.

Definition detect_termux (h : Host) : bool :=
  let prefix := default [] (environ_prefix h) in
  negb (bool_decide (prefix = [])) && contains prefix TERMUX_PREFIX.

Definition detect_root (h : Host) : bool :=
  if startswith (sys_platform h) (py "win") then default false (is_user_admin h)
  else match geteuid h with Some uid => uid =? 0 | None => false end.

(** The candidates of [_windows_wintun_present]. *)
Definition windows_wintun_present (h : Host) : bool :=
  existsb (path_exists h)
    [path_join h (executable_dir h) (py "wintun.dll"); path_join h (getcwd h) (py "wintun.dll")].

Definition detect_tun (h : Host) (os : str) (termux : bool) : bool :=
  if termux then false
  else if str_eqb os (py "Linux") then can_open h LINUX_TUN_DEVICE
  else if str_eqb os (py "Darwin") then true
  else if str_eqb os (py "Windows") then windows_wintun_present h
  else false.

Definition detect_raw_sockets (h : Host) (os : str) (termux : bool) : bool :=
  if termux || negb (str_eqb os (py "Linux")) then false else raw_socket_opens h.

Definition detect_privileged_ports (h : Host) (root : bool) : bool :=
  if root then true
  else if startswith (sys_platform h) (py "win") then true
  else binds_port_80 h.

Definition detect_platform (h : Host) : PlatformCapabilities :=
  let os := detect_os h in
  let termux := detect_termux h in
  let root := detect_root h in
  mkCaps os root (detect_tun h os termux) (detect_raw_sockets h os termux)
    (detect_privileged_ports h root) termux (sys_version h).

(** ** The report *)

Definition yes_no (b : bool) : str := if b then py "yes" else py "no".

Definition notes (c : PlatformCapabilities) : list str :=
  (if is_termux c then [py "Termux detected: TUN mode is permanently disabled."]
   else if negb (tun_available c)
   then [py "No TUN interface available: running in service-exposure mode."] else [])
  ++ (if negb (has_root c) then [py "Running without root/admin: privileged features are off."] else []).

Definition print_capabilities (c : PlatformCapabilities) : str :=
  join [10]
    ([py "Platform capabilities:";
      py "  OS:                 " ++ os_name c;
      py "  Python:             " ++ python_version c;
      py "  Termux:             " ++ yes_no (is_termux c);
      py "  Root/admin:         " ++ yes_no (has_root c);
      py "  TUN interface:      " ++ yes_no (tun_available c);
      py "  Raw sockets:        " ++ yes_no (raw_sockets c);
      py "  Privileged ports:   " ++ yes_no (privileged_ports c);
      py "  TUN mode enabled:   " ++ yes_no (tun_mode_enabled c);
      py "  Gateway mode:       " ++ yes_no (gateway_mode_enabled c)]
     ++ map (fun note => py "  ! " ++ note) (notes c)).

(** ** What a platform gets *)

(** The degradation rules of the file: in Termux nothing that needs a device
    or a raw socket is on, without root no gateway, and TUN mode needs the
    device of its system. *)
Lemma degradation h (c := detect_platform h) :
  (is_termux c = true -> tun_mode_enabled c = false /\ raw_sockets c = false) /\
  (has_root c = false -> gateway_mode_enabled c = false) /\
  (tun_mode_enabled c = true <->
   is_termux c = false /\
   ((os_name c = py "Linux" /\ can_open h LINUX_TUN_DEVICE = true) \/
    os_name c = py "Darwin" \/
    (os_name c = py "Windows" /\ windows_wintun_present h = true))) /\
  (has_root c = true -> privileged_ports c = true).
Proof.
  subst c. unfold detect_platform, tun_mode_enabled, gateway_mode_enabled, detect_raw_sockets,
    detect_privileged_ports, detect_tun, str_eqb. cbn [is_termux tun_available has_root raw_sockets
    privileged_ports os_name].
  destruct (detect_termux h); cbn [negb orb andb]; rewrite ?andb_true_r, ?andb_false_r.
  { repeat split; try done; [by intros [??]|by intros ->]. }
  split; [done|]. split; [intros ->; by rewrite andb_false_r|]. split; [|by intros ->].
  assert (py "Linux" <> py "Darwin" /\ py "Linux" <> py "Windows" /\ py "Darwin" <> py "Windows")
    as (?&?&?) by done.
  repeat case_bool_decide; repeat split; intuition congruence.
Qed.

(** A report has a note exactly when something is off. *)
Lemma notes_exact c :
  notes c = [] <-> gateway_mode_enabled c = true /\ privileged_features_enabled c = true.
Proof.
  unfold notes, gateway_mode_enabled, tun_mode_enabled, privileged_features_enabled.
  destruct (is_termux c), (tun_available c), (has_root c); simpl; naive_solver.
Qed.

End Platform.
