(* ===== verification/Wizard.v ===== *)
(** * The setup wizard (src/client/setup_wizard.py)

    The terminal is the text that the user will still type.  A step of the
    wizard takes it and gives a value and the rest ([WOk]), or ends the
    process ([WExit], at the end of the input), raises, or reads for ever
    ([WLoops], a password prompt at the end of the input).  What is printed is
    left out, and so is the fallback for systems without termios. *)

From S2P Require Import Prelude Constants PyStr Json Messages Protocol Registry NetworkManager Auth Relay Server Platform Config.
Import Platform Config.

Module Wizard.

Inductive wres (A : Type) :=
  | WOk (a : A) (rest : str)
  | WExit
  | WLoops
  | WErr (e : exc).
Arguments WOk {A} a rest.
Arguments WExit {A}.
Arguments WLoops {A}.
Arguments WErr {A} e.

Definition W (A : Type) : Type := str -> wres A.

Definition wret {A} (a : A) : W A := WOk a.

Definition wbind {A B} (m : W A) (k : A -> W B) : W B :=
  fun s => match m s with
           | WOk a rest => k a rest
           | WExit => WExit
           | WLoops => WLoops
           | WErr e => WErr e
           end.

#[local] Notation "'ask' x := c 'in' k" := (wbind c (fun x => k)) (at level 10, x pattern, c at level 100, k at level 200).

Definition wlift {A} (r : result A) : W A := fun s => match r with Ok a => WOk a s | Err e => WErr e end.

(** ** Reading *)

(** [input()]: the text up to the line feed; [None] is [EOFError]. *)
Fixpoint read_line (s : str) : option (str * str) :=
  match s with
  | [] => None
  | 10 :: s' => Some ([], s')
  | c :: s' => match read_line s' with
               | Some (l, rest) => Some (c :: l, rest)
               | None => Some ([c], [])
               end
  end.

(** The loop of the password prompt in raw mode, the text so far in reverse;
    [None] when the input ends: [read(1)] then returns the empty text for
    ever. *)
Fixpoint read_secret (acc : str) (s : str) : option (str * str) :=
  match s with
  | [] => None
  | c :: s' =>
      if (c =? 10) || (c =? 13) then Some (rev acc, s')
      else if c =? 127 then read_secret (tail acc) s'
      else read_secret (c :: acc) s'
  end.

(** [_prompt]: each turn takes at least a character, so that the length of the
    input is fuel enough. *)
Fixpoint prompt_loop (fuel : nat) (default_ : str) (choices : list str) (secret : bool) : W str :=
  fun s =>
    match fuel with
    | O => WExit
    | S fuel' =>
        match (if secret then read_secret [] s else read_line s) with
        | None => if secret then WLoops else WExit
        | Some (line, rest) =>
            let result := if secret then line else strip line in
            match result, default_ with
            | [], _ :: _ => WOk default_ rest
            | [], [] => prompt_loop fuel' default_ choices secret rest
            | _, _ =>
                if bool_decide (choices <> [] /\ result ∉ choices)
                then prompt_loop fuel' default_ choices secret rest
                else WOk result rest
            end
        end
    end.

Definition prompt (default_ : str) (choices : list str) (secret : bool) : W str :=
  fun s => prompt_loop (S (length s)) default_ choices secret s.

Section Wizard.
Context {U : Unicode}.

Definition prompt_yes_no (dflt : bool) : W bool :=
  ask r := prompt (if dflt then py "y" else py "n") [] false in
  wret (bool_decide (lower_str r ∈ [py "y"; py "yes"])).

(** ** The paths *)

Definition wizard_join : W (list (str * pv)) :=
  ask network_id := prompt [] [] false in
  ask password := prompt [] [] true in
  wret [(py "auto_join_network", VStr network_id); (py "auto_join_password", VStr password)].

Definition topology_of (choice : str) : str :=
  if str_eqb choice (py "2") then py "hub_and_spoke"
  else if str_eqb choice (py "3") then py "gateway" else py "mesh".

Definition wizard_create : W (list (str * pv)) :=
  ask name := prompt [] [] false in
  ask password := prompt [] [] false in
  ask topo := prompt (py "1") [py "1"; py "2"; py "3"] false in
  wret [(py "auto_create_network", VStr name); (py "auto_create_password", VStr password);
        (py "auto_create_topology", VStr (topology_of topo))].

Definition wizard_hub : W (list (str * pv)) :=
  ask name := prompt (py "hub-network") [] false in
  ask password := prompt [] [] false in
  wret [(py "auto_create_network", VStr name); (py "auto_create_password", VStr password);
        (py "auto_create_topology", VStr (py "hub_and_spoke")); (py "is_hub", VBool true)].

Definition wizard_minimal : W (list (str * pv)) := wret [].

(** The server address that was typed. *)
Definition address_items (server : str) : result (list (str * pv)) :=
  if has_colon server then
    let (h, port) := rpartition_colon server in
    let? n := to_int (VStr port) in
    Ok [(py "server_host", VStr h); (py "server_port", VInt n)]
  else Ok [(py "server_host", VStr server)].

Definition run_setup_wizard (caps : PlatformCapabilities) : W (list (str * pv)) :=
  ask choice := prompt (py "1") [py "1"; py "2"; py "3"; py "4"] false in
  ask path := (if str_eqb choice (py "1") then wizard_join
               else if str_eqb choice (py "2") then wizard_create
               else if str_eqb choice (py "3") then wizard_hub
               else wizard_minimal) in
  ask server := prompt (py "localhost:54000") [] false in
  ask address := wlift (address_items server) in
  ask tun := (if tun_mode_enabled caps then prompt_yes_no true else wret false) in
  ask save := prompt_yes_no true in
  wret (if save : bool then path ++ address ++ [(py "tun_enabled", VBool tun)] else []).

(** ** The configuration file *)

Definition pv_json (v : pv) : json :=
  match v with
  | VStr s => JStr s | VInt n => JInt n | VBool b => JBool b | _ => JNull
  end.

(** The dictionary that [generate_config_file] dumps as YAML. *)
Definition config_file (overrides : list (str * pv)) : json :=
  let get k dflt := match dget overrides k with Some v => pv_json v | None => dflt end in
  JObj [(py "server", JObj [(py "host", get (py "server_host") (JStr (py "localhost")));
                            (py "port", get (py "server_port") (JInt 54000))]);
        (py "client", JObj [(py "tun_enabled", get (py "tun_enabled") (JBool false))])].

(** ** Prompts end *)

Lemma read_line_shorter s l rest : read_line s = Some (l, rest) -> (length rest < length s)%nat.
Proof.
  revert l rest. induction s as [|c s IH]; intros l rest; [done|]. simpl.
  assert (match read_line s with Some (l, rest) => Some (c :: l, rest) | None => Some ([c], []) end = Some (l, rest) ->
    (length rest < S (length s))%nat) as H.
  { destruct (read_line s) as [[l' r']|]; intros [= <- <-]; simpl; [|lia]. specialize (IH _ _ eq_refl). lia. }
  repeat (case_match; try done). all: intros E; simplify_eq; simpl; lia.
Qed.

Lemma read_secret_shorter s : forall acc l rest, read_secret acc s = Some (l, rest) -> (length rest < length s)%nat.
Proof.
  induction s as [|c s IH]; intros acc l rest; [done|]. simpl.
  destruct (_ || _); [intros [= <- <-]; lia|].
  destruct (c =? 127); intros H%IH; lia.
Qed.

(** A prompt without echo ends, whatever is typed; and its answer is one of
    the choices, or the default. *)
Lemma prompt_answers dflt choices s :
  (dflt = [] \/ dflt ∈ choices) -> choices <> [] ->
  match prompt dflt choices false s with
  | WOk a rest => a ∈ choices /\ (length rest < length s)%nat
  | WExit => True
  | _ => False
  end.
Proof.
  intros Hd Hc. unfold prompt.
  enough (forall fuel s, match prompt_loop fuel dflt choices false s with
    | WOk a rest => (a ∈ choices /\ (length rest < length s)%nat) | WExit => True | _ => False end) as H by apply H.
  clear s. induction fuel as [|fuel IH]; intros s; [done|]. simpl.
  destruct (read_line s) as [[l rest]|] eqn:Hl; [|done]. apply read_line_shorter in Hl.
  assert (match prompt_loop fuel dflt choices false rest with
    | WOk a r => (a ∈ choices /\ (length r < length s)%nat) | WExit => True | _ => False end) as Hrec.
  { specialize (IH rest). destruct (prompt_loop fuel dflt choices false rest); try done. destruct IH. split; [done|lia]. }
  destruct (strip l) as [|c t] eqn:Hs; [destruct dflt; [done|]; split; [set_solver|done]|].
  case_bool_decide as Hb; [done|]. split; [|done]. destruct (decide (c :: t ∈ choices)); [done|]. naive_solver.
Qed.

(** The fuel of a prompt is enough: more of it changes nothing. *)
Lemma prompt_fuel dflt choices secret : forall fuel fuel' s,
  (length s < fuel)%nat -> (fuel <= fuel')%nat ->
  prompt_loop fuel' dflt choices secret s = prompt_loop fuel dflt choices secret s.
Proof.
  induction fuel as [|fuel IH]; intros fuel' s Hs Hf; [lia|]. destruct fuel' as [|fuel']; [lia|]. simpl.
  destruct (if secret then read_secret [] s else read_line s) as [[l rest]|] eqn:Hr; [|done].
  assert (length rest < length s)%nat by (destruct secret; [by eapply read_secret_shorter|by eapply read_line_shorter]).
  repeat case_match; try done; apply IH; lia.
Qed.

(** A question without a default is asked again until something is typed: an
    empty password cannot be given. *)
Lemma empty_answer_refused secret s a rest : prompt [] [] secret s = WOk a rest -> a <> [].
Proof.
  unfold prompt. generalize (S (length s)). intros fuel. revert s.
  induction fuel as [|fuel IH]; intros s; [done|]. simpl.
  destruct (if secret then read_secret [] s else read_line s) as [[l r]|]; [|by destruct secret].
  destruct (if secret then l else strip l) as [|c t]; [apply IH|].
  by intros [= <- <-].
Qed.

(** At the end of the input a password prompt never returns. *)
Lemma secret_prompt_hangs dflt : prompt dflt [] true [] = WLoops.
Proof. reflexivity. Qed.

End Wizard.

(** ** Sessions *)

Definition typed_lines (l : list string) : str := concat (map (fun x => py x ++ [10]) l).

Definition answers (l : list string) : wres (list (str * pv)) :=
  run_setup_wizard (U := ascii_only) (detect_platform sample_host) (typed_lines l).

Example minimal_session :
  answers ["7"; "4"; "vpn.example:6000"; "n"; ""]%string =
  WOk [(py "server_host", VStr (py "vpn.example")); (py "server_port", VInt 6000);
       (py "tun_enabled", VBool false)] [].
Proof. vm_compute. reflexivity. Qed.

(** What the wizard returns for joining a network is no set of fields of the
    configuration: as overrides it is a TypeError. *)
Example join_overrides_rejected :
  match answers ["1"; "net-1"; "secret"; ""; ""; "y"]%string with
  | WOk overrides _ =>
      match client_from_env (U := ascii_only) (var_env []) sample_host overrides with
      | Err e => bool_decide (exc_cls e = CTypeError)
      | Ok _ => false
      end
  | _ => false
  end = true.
Proof. vm_compute. reflexivity. Qed.

End Wizard.
