(* ===== verification/Identity.v ===== *)
(** * The identity of a client (src/client/identity.py, and
      [ClientDaemon.ensure_identity] of src/client/main.py)

    The RSA keys, their PEM texts and SHA-256 of the cryptography package and
    hashlib are the class [Rsa]; [rsa_laws] is what the code relies on.  A
    file system is the map of its files, addressed by directory and name, with
    their permission bits; writing and creating the directory succeed, and
    whether [chmod] does is an argument.  [load_public_key] takes any path, so
    what is at a path is an argument there. *)

From S2P Require Import Prelude Constants PyStr Json Messages Protocol.
Import Protocol.

Module Identity.

Class Rsa := {
  rsa_private : Type;
  rsa_public : Type;
  rsa_public_of : rsa_private -> rsa_public;
  private_pem : rsa_private -> bytes;
  public_pem : rsa_public -> bytes;
  (* the exception, or the key, [None] if it is none of RSA *)
  load_pem_private_key : bytes -> result (option rsa_private);
  load_pem_public_key : bytes -> result (option rsa_public);
  rsa_sign : rsa_private -> bytes -> bytes;
  rsa_verify : rsa_public -> bytes -> bytes -> result unit;
  sha256 : bytes -> bytes
}.

Definition PRIVATE_KEY_FILENAME : str := py "identity.pem".
Definition PUBLIC_KEY_FILENAME : str := py "identity.pub".

Record file := mkFile { f_data : bytes; f_mode : Z }.
Abbreviation FileSystem := (gmap (str * str) file).

(** stat.S_IRUSR | stat.S_IWUSR. *)
Definition OWNER_ONLY : Z := Z.lor 256 128.

Definition identity_error {A} : result A := raise CIdentityError [].

Section Keys.
Context {R : Rsa}.

(** ** Names and signatures *)

Definition public_key_fingerprint (pk : rsa_public) : str :=
  join (py ":") (map hex02 (take 16 (sha256 (public_pem pk)))).

Definition client_id_for_public_key (pk : rsa_public) : str :=
  List.filter (fun c => negb (c =? 58)) (public_key_fingerprint pk).

Definition sign_challenge (sk : rsa_private) (challenge : bytes) : result bytes :=
  if bool_decide (challenge = []) then identity_error else Ok (rsa_sign sk challenge).

Definition verify_challenge (pk : rsa_public) (challenge signature : bytes) : result bool :=
  match rsa_verify pk signature challenge with
  | Ok _ => Ok true
  | Err e => if bool_decide (exc_cls e = CInvalidSignature) || is_ValueError e then Ok false else Err e
  end.

(** ** What the code relies on *)

Record rsa_laws : Prop := {
  private_roundtrip k : load_pem_private_key (private_pem k) = Ok (Some k);
  public_roundtrip k : load_pem_public_key (public_pem k) = Ok (Some k);
  sign_verify k m : rsa_verify (rsa_public_of k) (rsa_sign k m) m = Ok tt;
  digest_length b : length (sha256 b) = 32%nat;
  digest_bytes b : Forall is_byte (sha256 b)
}.

(** ** Hexadecimal ids *)

Lemma hex02_byte b : is_byte b -> hex02 b = hex_byte b.
Proof.
  unfold is_byte. intros Hb. unfold hex02, hex_byte. rewrite Z.abs_eq by lia.
  assert (Z.log2 b < 8) as Hl by (destruct (Z.eq_dec b 0); [subst; done|apply Z.log2_lt_pow2; lia]).
  destruct (Z.ltb_spec b 0); [lia|]. cbn [hex_digits]. destruct (Z.ltb_spec b 16).
  - unfold zlen. simpl. replace (b / 16) with 0 by dlia. by replace (b mod 16) with b by dlia.
  - assert (4 <= Z.log2 b) by (change 4 with (Z.log2 16); apply Z.log2_le_mono; lia).
    destruct (Z.to_nat (Z.log2 b)) as [|n] eqn:En; [lia|]. cbn [hex_digits].
    replace (b / 16 <? 16) with true by (symmetry; apply Z.ltb_lt; dlia). reflexivity.
Qed.

Definition id_bytes (pk : rsa_public) : bytes := take 16 (sha256 (public_pem pk)).

Lemma hex_char_id d : 0 <= d < 16 -> id_char (hex_char d) = true /\ (hex_char d =? 58) = false.
Proof.
  intros Hd. unfold hex_char, id_char, is_alnum, is_digit, is_upper, is_lower.
  destruct (Z.ltb_spec d 10); split; lia.
Qed.

Lemma filter_join_hex l :
  Forall is_byte l ->
  List.filter (fun c => negb (c =? 58)) (join (py ":") (map hex02 l)) = hexlify l.
Proof.
  assert (forall b, is_byte b ->
    List.filter (fun c => negb (c =? 58)) (hex_byte b) = hex_byte b) as Hf.
  { intros b Hb. unfold is_byte in Hb. unfold hex_byte. cbn [List.filter].
    destruct (hex_char_id (b / 16)) as [_ ->]; [dlia|].
    by destruct (hex_char_id (b mod 16)) as [_ ->]; [dlia|]. }
  induction l as [|b l IH]; [done|]. intros [Hb Hl]%Forall_cons.
  unfold hexlify in *. cbn [map concat]. rewrite <- IH, hex02_byte by done.
  destruct l as [|b' l]; cbn [map join].
  - by rewrite Hf, app_nil_r.
  - rewrite !List.filter_app, Hf by done. reflexivity.
Qed.

Lemma client_id_hex (L : rsa_laws) pk : client_id_for_public_key pk = hexlify (id_bytes pk).
Proof.
  apply filter_join_hex. apply Forall_take, digest_bytes, L.
Qed.

Lemma hexlify_ids l : Forall is_byte l -> forallb id_char (hexlify l) = true.
Proof.
  unfold hexlify. induction 1 as [|b l Hb _ IH]; [done|]. cbn [map concat hex_byte app forallb].
  unfold is_byte in Hb. destruct (hex_char_id (b / 16)) as [-> _]; [dlia|].
  by destruct (hex_char_id (b mod 16)) as [-> _]; [dlia|].
Qed.

Lemma length_hexlify l : length (hexlify l) = (2 * length l)%nat.
Proof. unfold hexlify. induction l as [|b l IH]; [done|]. simpl in *. lia. Qed.

(** The id that the client derives from its key is one the server accepts,
    and two keys get the same id only if their digests agree in the first 16
    bytes. *)
Theorem client_id_accepted {U : Unicode} (L : rsa_laws) pk :
  (forall pem, PEM_RE (strip pem) = true ->
   validate_register [(py "client_id", JStr (client_id_for_public_key pk)); (py "public_key", JStr pem)]
     = Ok (client_id_for_public_key pk, pem)) /\
  (forall pk', client_id_for_public_key pk' = client_id_for_public_key pk ->
   id_bytes pk' = id_bytes pk).
Proof.
  assert (forall k, Forall is_byte (id_bytes k)) as Hb by (intros; apply Forall_take, digest_bytes, L).
  rewrite (client_id_hex L). split.
  - intros pem Hp. unfold validate_register, require, pget.
    assert (zlen (hexlify (id_bytes pk)) = 32) as Hl.
    { unfold zlen, id_bytes. rewrite length_hexlify, length_take, (digest_length L). done. }
    change (dget [(py "client_id", JStr (hexlify (id_bytes pk))); (py "public_key", JStr pem)]
      (py "client_id")) with (Some (JStr (hexlify (id_bytes pk)))).
    change (dget [(py "client_id", JStr (hexlify (id_bytes pk))); (py "public_key", JStr pem)]
      (py "public_key")) with (Some (JStr pem)). cbn [default id].
    destruct (hexlify (id_bytes pk)) as [|c s] eqn:E; [done|].
    destruct pem as [|c0 pem]; [done|]. cbn [rbind py_str].
    assert (ID_RE (c :: s) = true) as ->.
    { unfold ID_RE, before_newline. rewrite Hl, <- E, hexlify_ids by done. done. }
    rewrite Hp. done.
  - intros pk' H. rewrite (client_id_hex L) in H. apply (f_equal unhexlify) in H.
    rewrite !unhexlify_hexlify in H by done. by simplify_eq.
Qed.

Context (expanduser : str -> str).
Context (default_mode : Z).           (* of a new file, from the umask *)

(** ** Files *)

Definition write_bytes (path : str * str) (data : bytes) (fs : FileSystem) : FileSystem :=
  <[path := mkFile data (match fs !! path with Some f => f_mode f | None => default_mode end)]> fs.

Definition chmod_private (ok : bool) (path : str * str) (fs : FileSystem) : FileSystem :=
  if ok then alter (fun f => mkFile (f_data f) OWNER_ONLY) path fs else fs.

Definition private_path (dir : str) : str * str := (expanduser dir, PRIVATE_KEY_FILENAME).
Definition public_path (dir : str) : str * str := (expanduser dir, PUBLIC_KEY_FILENAME).

Definition save_identity (chmod_ok : bool) (sk : rsa_private) (pk : rsa_public) (dir : str)
    (fs : FileSystem) : FileSystem :=
  chmod_private chmod_ok (private_path dir)
    (write_bytes (public_path dir) (public_pem pk)
       (write_bytes (private_path dir) (private_pem sk) fs)).

(** [except (ValueError, TypeError)] around the two parsers. *)
Definition parse_failure {A} (e : exc) : result A :=
  if is_ValueError e || bool_decide (exc_cls e = CTypeError) then identity_error else Err e.

Definition load_identity (dir : str) (fs : FileSystem) : result (rsa_private * rsa_public) :=
  match fs !! private_path dir, fs !! public_path dir with
  | Some f, Some g =>
      match load_pem_private_key (f_data f) with
      | Err e => parse_failure e
      | Ok sk =>
          match load_pem_public_key (f_data g) with
          | Err e => parse_failure e
          | Ok pk =>
              match sk, pk with
              | None, _ => identity_error
              | Some _, None => identity_error
              | Some sk, Some pk => Ok (sk, pk)
              end
          end
      end
  | _, _ => identity_error
  end.

(** What is at a path. *)
Inductive path_node := IsDir | IsFile (data : bytes).

(** [load_public_key]: a path that does not exist is expanded, a directory
    stands for the file in it.  Exceptions of the parser escape. *)
Definition load_public_key (at_path : str -> option path_node) (path : str) : result rsa_public :=
  let p0 := match at_path path with Some _ => path | None => expanduser path end in
  let p1 := match at_path p0 with Some IsDir => p0 ++ py "/" ++ PUBLIC_KEY_FILENAME | _ => p0 end in
  match at_path p1 with
  | None => identity_error
  | Some IsDir => raise COSError []
  | Some (IsFile data) =>
      let? key := load_pem_public_key data in
      match key with Some pk => Ok pk | None => identity_error end
  end.

(** From the directory of a saved identity it reads the public key, and from
    the file itself. *)
Lemma load_public_key_saved (L : rsa_laws) at_path dir pk :
  let name := dir ++ py "/" ++ PUBLIC_KEY_FILENAME in
  at_path dir = Some IsDir -> at_path name = Some (IsFile (public_pem pk)) ->
  load_public_key at_path dir = Ok pk /\ load_public_key at_path name = Ok pk.
Proof.
  intros name Hd Hf. unfold load_public_key. rewrite !Hd. fold name. rewrite !Hf.
  by rewrite (public_roundtrip L).
Qed.

(** A file that is no PEM raises the parser's exception, where
    [load_identity] turns it into an IdentityError. *)
Lemma load_public_key_garbage at_path path data e :
  at_path path = Some (IsFile data) -> load_pem_public_key data = Err e ->
  load_public_key at_path path = Err e.
Proof. intros Hp He. unfold load_public_key. by rewrite !Hp, He. Qed.

(** [ensure_identity]; [fresh] is the key that [generate_identity] draws. *)
Definition ensure_identity (chmod_ok : bool) (fresh : rsa_private) (dir : str) (fs : FileSystem)
  : result (rsa_private * rsa_public) * FileSystem :=
  match load_identity dir fs with
  | Ok keys => (Ok keys, fs)
  | Err e =>
      if bool_decide (exc_cls e = CIdentityError) then
        let pk := rsa_public_of fresh in
        (Ok (fresh, pk), save_identity chmod_ok fresh pk dir fs)
      else (Err e, fs)
  end.

(** ** Persistence *)

Lemma paths_differ dir : private_path dir <> public_path dir.
Proof. unfold private_path, public_path. intros [= H]. Qed.

Lemma load_saved (L : rsa_laws) ok sk pk dir fs :
  load_identity dir (save_identity ok sk pk dir fs) = Ok (sk, pk).
Proof.
  pose proof (paths_differ dir) as Hd. pose proof (not_eq_sym Hd). unfold load_identity, save_identity, chmod_private, write_bytes.
  destruct ok; rewrite ?lookup_alter_eq, ?lookup_alter_ne, ?lookup_insert_eq, ?lookup_insert_ne,
    ?lookup_insert_eq by done; simpl;
    by rewrite (private_roundtrip L), (public_roundtrip L).
Qed.

(** C35 An identity is kept: once [ensure_identity] has returned keys, every
    later start returns the same keys and leaves the files alone.  A directory
    whose two key files can be read is left as it is and its keys are
    returned; otherwise a new pair is returned, which verifies what it signs,
    and its private key is for the owner only if the [chmod] succeeds. *)
Theorem identity_persistent (L : rsa_laws) ok fresh dir fs keys fs' :
  ensure_identity ok fresh dir fs = (Ok keys, fs') ->
  (forall ok' fresh', ensure_identity ok' fresh' dir fs' = (Ok keys, fs')) /\
  match load_identity dir fs with
  | Ok stored => keys = stored /\ fs' = fs
  | Err _ =>
      keys = (fresh, rsa_public_of fresh) /\
      (ok = true -> f_mode <$> fs' !! private_path dir = Some OWNER_ONLY) /\
      forall challenge, challenge <> [] ->
        exists s, sign_challenge (fst keys) challenge = Ok s /\
          verify_challenge (snd keys) challenge s = Ok true
  end.
Proof.
  unfold ensure_identity at 1. destruct (load_identity dir fs) as [k|e] eqn:Hl.
  - intros [= -> <-]. split; [|done]. intros. unfold ensure_identity. by rewrite Hl.
  - case_bool_decide; [|done]. intros [= <- <-]. split.
    { intros. unfold ensure_identity. by rewrite (load_saved L). }
    split; [done|]. split.
    + intros ->. pose proof (paths_differ dir) as Hd. pose proof (not_eq_sym Hd). unfold save_identity, chmod_private, write_bytes.
      rewrite lookup_alter_eq, lookup_insert_ne, lookup_insert_eq by done. done.
    + intros c Hc. unfold sign_challenge, verify_challenge. simpl. rewrite bool_decide_false by done.
      eexists. split; [done|]. by rewrite (sign_verify L).
Qed.

(** Without the public file the private key is not read but replaced. *)
Lemma missing_public_replaces_private ok fresh dir fs :
  fs !! public_path dir = None ->
  exists f, (ensure_identity ok fresh dir fs).2 !! private_path dir = Some f /\
    f_data f = private_pem fresh.
Proof.
  intros Hn. pose proof (paths_differ dir) as Hd. pose proof (not_eq_sym Hd). unfold ensure_identity, load_identity. rewrite Hn.
  assert ((match fs !! private_path dir with Some _ => identity_error | None => identity_error end
    : result (rsa_private * rsa_public)) = identity_error) as -> by by destruct (fs !! private_path dir).
  unfold identity_error, raise. cbn [exc_cls]. rewrite bool_decide_true by done. cbn [snd].
  unfold save_identity, chmod_private, write_bytes.
  destruct ok; rewrite ?lookup_alter_eq, ?lookup_insert_ne, ?lookup_insert_eq by done; by eexists.
Qed.

(** Between its creation and the [chmod] the private key has the mode that
    the umask gives. *)
Lemma private_key_window sk dir fs :
  fs !! private_path dir = None ->
  f_mode <$> write_bytes (private_path dir) (private_pem sk) fs !! private_path dir = Some default_mode.
Proof. intros Hn. unfold write_bytes. rewrite lookup_insert_eq, Hn. done. Qed.

End Keys.

(** ** A concrete instance *)

Definition sample_load (tag : Z) (b : bytes) : result (option bytes) :=
  match b with
  | t :: k => if t =? tag then Ok (Some k) else Ok None
  | [] => raise CValueError []
  end.

#[local] Instance sample_rsa : Rsa :=
  {| rsa_private := bytes; rsa_public := bytes; rsa_public_of := id;
     private_pem k := 1 :: k; public_pem k := 2 :: k;
     load_pem_private_key := sample_load 1; load_pem_public_key := sample_load 2;
     rsa_sign k m := k ++ m;
     rsa_verify k s m := if bool_decide (s = k ++ m) then Ok tt else raise CInvalidSignature [];
     sha256 b := take 32 (map (fun x => x mod 256) b ++ repeat 0 32) |}.

Lemma sample_laws : rsa_laws.
Proof.
  constructor; try done.
  - intros k m. simpl. by rewrite bool_decide_true.
  - intros b. cbn [sha256 sample_rsa]. rewrite length_take, length_app, (repeat_length 0 32). lia.
  - intros b. cbn [sha256 sample_rsa]. apply Forall_take, Forall_app. split.
    + apply Forall_map, Forall_true. intros x. unfold is_byte. simpl. dlia.
    + apply Forall_forall. intros x Hx%list_elem_of_In%repeat_spec. subst. done.
Qed.

Lemma client_id_accepted_witness :
  validate_register (U := ascii_only)
    [(py "client_id", JStr (client_id_for_public_key [7; 8])); (py "public_key", JStr (py "-----BEGIN PUBLIC KEY-----"))]
  = Ok (py "02070800000000000000000000000000", py "-----BEGIN PUBLIC KEY-----").
Proof. apply (client_id_accepted (U := ascii_only) sample_laws [7; 8]). reflexivity. Defined.

Lemma identity_persistent_witness :
  let fs' := (ensure_identity id 420 true [5] (py "dir") ∅).2 in
  ensure_identity id 420 false [6] (py "dir") fs' = (Ok ([5], [5]), fs').
Proof.
  apply (identity_persistent id 420 sample_laws true [5] (py "dir") ∅ ([5], [5])). reflexivity.
Defined.

End Identity.
