(* ===== verification/ControlChannel.v ===== *)
(** * The client's control channel (src/client/control_channel.py)

    [ControlChannel] is shared by several coroutines: the operations of its
    user, the background reader [_event_loop], the heartbeats and the
    reconnect loop.  An operation is a program [prog]: its straight-line
    parts run without interruption ([Atomic]), and it suspends only in
    [request].  A task is such a program, or a request that waits for its
    reply; [step] interleaves the tasks, the background reader and the
    network at exactly these points.

    The lock of [request] is held from the moment [_expected_type] is set
    until it is cleared, with no suspension in between on either side, so
    that the lock is free exactly when [ch_expected] is [None].

    A pair of [_reader] and [_writer] is a number, the index of a stream;
    a coroutine that waits in [readexactly] keeps the stream it started on. *)

From S2P Require Import Prelude Constants PyStr Json Messages Protocol Registry NetworkManager Auth Relay Server.
Import Messages Protocol.

Module ControlChannel.

(** [sign_challenge(private_key, challenge)]: RSA of the [cryptography]
    package. *)
Class Signer := {
  private_key : Type;
  sign_challenge : private_key -> bytes -> bytes
}.

(** ** Streams *)

Record Stream := mkStream {
  st_in : bytes;          (* received, not yet read *)
  st_eof : bool;          (* no more bytes will come *)
  st_lost : bool;         (* the transport is gone: [drain] raises *)
  st_out : bytes          (* written by the client *)
}.

Definition new_stream : Stream := mkStream [] false false [].

Definition closed_error : exc := Exc CControlChannelError (py "channel is not connected").
Definition lost_error : exc := Exc CControlChannelError (py "connection lost").
Definition incomplete_read : exc := Exc CIncompleteReadError [].
Definition connection_reset : exc := Exc CConnectionError (py "Connection lost").

(** [recv_message] on a stream: [None] while it waits for bytes. *)
Definition read_message (st : Stream) : option (result Message * Stream) :=
  let stuck := if st_eof st then Some (Err incomplete_read, mkStream [] true (st_lost st) (st_out st))
               else None in
  if zlen (st_in st) <? 4 then stuck
  else
    let data := take 4 (st_in st) in
    let length := be_decode data in
    if length >? MAX_MESSAGE_SIZE then
      Some (raise CControlChannelError
              (py "server sent oversized message (" ++ dec length ++ py " bytes)"),
            mkStream (drop 4 (st_in st)) (st_eof st) (st_lost st) (st_out st))
    else if zlen (st_in st) <? 4 + length then stuck
    else
      let body := take (Z.to_nat length) (drop 4 (st_in st)) in
      Some (deserialize (data ++ body),
            mkStream (drop (Z.to_nat (4 + length)) (st_in st)) (st_eof st) (st_lost st) (st_out st)).

(** ** State *)

(** Where a request waits: [_responses.get()] or [readexactly] on a stream. *)
Inductive wait := OnQueue | OnStream (i : nat).

#[global] Instance wait_eq_dec : EqDecision wait.
Proof. solve_decision. Defined.

(** [_event_task]: absent or done, about to test the loop's condition, or
    waiting for a message of a stream. *)
Inductive reader_task := ReaderNone | ReaderReady | Reading (i : nat).

(** The heartbeat and reconnect loops: ended, in [sleep], or in their body. *)
Inductive loop_task := LoopOff | LoopSleeping | LoopBusy.

Section Channel.
Context {SG : Signer}.

Record Channel := mkChannel {
  ch_client_id : str;
  ch_public_key_pem : option str;
  ch_private_key : option private_key;
  ch_pending_challenge : json;
  ch_authenticated : bool;
  ch_connected : bool;
  ch_events : list Message;
  ch_responses : list (option Message);
  ch_expected : option str;
  ch_reader_owned : bool;
  ch_io : option nat;                  (* [_reader], [_writer] *)
  ch_streams : list Stream;
  ch_event_task : reader_task;
  ch_heartbeat : loop_task;
  ch_reconnect : loop_task;
  ch_backoff : Z;
  ch_stopped : bool;
  ch_base_delay : Z;
  ch_max_delay : Z
}.

Definition channel_init (cid : str) (base max : Z) : Channel :=
  mkChannel cid None None JNull false false [] [] None false None [] ReaderNone LoopOff LoopOff
    base false base max.

(** Assignments to the attributes. *)
Definition set_identity (cid pem : str) (ch : Channel) : Channel :=
  let (_, _, k, p, a, c, ev, rs, ex, ro, io, sts, et, hb, rc, bo, sp, b, m) := ch in
  mkChannel cid (Some pem) k p a c ev rs ex ro io sts et hb rc bo sp b m.
Definition set_pending (p : json) (ch : Channel) : Channel :=
  let (i, pm, k, _, a, c, ev, rs, ex, ro, io, sts, et, hb, rc, bo, sp, b, m) := ch in
  mkChannel i pm k p a c ev rs ex ro io sts et hb rc bo sp b m.
Definition set_auth_key (k : private_key) (ch : Channel) : Channel :=
  let (i, pm, _, p, _, c, ev, rs, ex, ro, io, sts, et, hb, rc, bo, sp, b, m) := ch in
  mkChannel i pm (Some k) p true c ev rs ex ro io sts et hb rc bo sp b m.
Definition set_link (a c : bool) (io : option nat) (ch : Channel) : Channel :=
  let (i, pm, k, p, _, _, ev, rs, ex, ro, _, sts, et, hb, rc, bo, sp, b, m) := ch in
  mkChannel i pm k p a c ev rs ex ro io sts et hb rc bo sp b m.
Definition set_events (ev : list Message) (ch : Channel) : Channel :=
  let (i, pm, k, p, a, c, _, rs, ex, ro, io, sts, et, hb, rc, bo, sp, b, m) := ch in
  mkChannel i pm k p a c ev rs ex ro io sts et hb rc bo sp b m.
Definition set_responses (rs : list (option Message)) (ch : Channel) : Channel :=
  let (i, pm, k, p, a, c, ev, _, ex, ro, io, sts, et, hb, rc, bo, sp, b, m) := ch in
  mkChannel i pm k p a c ev rs ex ro io sts et hb rc bo sp b m.
Definition set_expected (ex : option str) (ch : Channel) : Channel :=
  let (i, pm, k, p, a, c, ev, rs, _, ro, io, sts, et, hb, rc, bo, sp, b, m) := ch in
  mkChannel i pm k p a c ev rs ex ro io sts et hb rc bo sp b m.
Definition set_reader (ro : bool) (et : reader_task) (ch : Channel) : Channel :=
  let (i, pm, k, p, a, c, ev, rs, ex, _, io, sts, _, hb, rc, bo, sp, b, m) := ch in
  mkChannel i pm k p a c ev rs ex ro io sts et hb rc bo sp b m.
Definition set_streams (sts : list Stream) (ch : Channel) : Channel :=
  let (i, pm, k, p, a, c, ev, rs, ex, ro, io, _, et, hb, rc, bo, sp, b, m) := ch in
  mkChannel i pm k p a c ev rs ex ro io sts et hb rc bo sp b m.
Definition set_heartbeat (hb : loop_task) (ch : Channel) : Channel :=
  let (i, pm, k, p, a, c, ev, rs, ex, ro, io, sts, et, _, rc, bo, sp, b, m) := ch in
  mkChannel i pm k p a c ev rs ex ro io sts et hb rc bo sp b m.
Definition set_reconnect (rc : loop_task) (ch : Channel) : Channel :=
  let (i, pm, k, p, a, c, ev, rs, ex, ro, io, sts, et, hb, _, bo, sp, b, m) := ch in
  mkChannel i pm k p a c ev rs ex ro io sts et hb rc bo sp b m.
Definition set_backoff (bo : Z) (ch : Channel) : Channel :=
  let (i, pm, k, p, a, c, ev, rs, ex, ro, io, sts, et, hb, rc, _, sp, b, m) := ch in
  mkChannel i pm k p a c ev rs ex ro io sts et hb rc bo sp b m.
Definition set_stopped (sp : bool) (ch : Channel) : Channel :=
  let (i, pm, k, p, a, c, ev, rs, ex, ro, io, sts, et, hb, rc, bo, _, b, m) := ch in
  mkChannel i pm k p a c ev rs ex ro io sts et hb rc bo sp b m.

(** [writer.close()] of stream [i]: nothing is sent or received any more and
    a reader of the stream is woken by the end of file. *)
Definition close_stream (i : nat) (ch : Channel) : Channel :=
  set_streams (alter (fun st => mkStream (st_in st) true true (st_out st)) i (ch_streams ch)) ch.

(** ** Connection lifecycle *)

(** [connect]; [ok] is whether [open_connection] succeeds. *)
Definition connect (ok : bool) (ch : Channel) : result unit * Channel :=
  if ok then
    (Ok tt,
     set_backoff (ch_base_delay ch)
       (set_link (ch_authenticated ch) true (Some (length (ch_streams ch)))
          (set_streams (ch_streams ch ++ [new_stream]) ch)))
  else (raise COSError [], ch).

Definition start_reconnect (ch : Channel) : Channel :=
  match ch_reconnect ch with
  | LoopOff => if ch_stopped ch then ch else set_reconnect LoopSleeping ch
  | _ => ch
  end.

Definition on_connection_lost (ch : Channel) : Channel :=
  if ch_stopped ch || negb (ch_connected ch) then ch
  else
    let ch1 := match ch_io ch with Some i => close_stream i ch | None => ch end in
    let ch2 := set_link false false None ch1 in
    start_reconnect (set_responses (ch_responses ch2 ++ [None]) ch2).

(** ** Message I/O *)

Definition send_message (msg : Message) (ch : Channel) : result unit * Channel :=
  match ch_io ch with
  | None => (Err closed_error, ch)
  | Some i =>
      match serialize msg, ch_streams ch !! i with
      | Ok b, Some st =>
          if st_lost st then (Err connection_reset, ch)
          else (Ok tt, set_streams (<[i := mkStream (st_in st) (st_eof st) (st_lost st)
                                                (st_out st ++ b)]> (ch_streams ch)) ch)
      | Err e, _ => (Err e, ch)
      | Ok _, None => (Err closed_error, ch)     (* not reached: [_writer] is a stream *)
      end
  end.

(** [recv_message] on the stream a coroutine waits on. *)
Definition recv_message (i : nat) (ch : Channel) : option (result Message * Channel) :=
  match ch_streams ch !! i with
  | Some st =>
      match read_message st with
      | Some (r, st') => Some (r, set_streams (<[i := st']> (ch_streams ch)) ch)
      | None => None
      end
  | None => None
  end.

(** The head of the loop of [request]: which wait the next turn enters. *)
Definition next_wait (ch : Channel) : result wait :=
  if ch_reader_owned ch then Ok OnQueue
  else match ch_io ch with Some i => Ok (OnStream i) | None => Err closed_error end.

(** The lock is taken, the expected type set and the message sent. *)
Definition request_start (msg : Message) (expected : str) (ch : Channel) : result wait * Channel :=
  let (r, ch1) := send_message msg (set_expected (Some expected) ch) in
  match (let? _ := r in next_wait ch1) with
  | Ok w => (Ok w, ch1)
  | Err e => (Err e, set_expected None ch1)
  end.

(** [f"{payload.get('code', 'ERROR')}: {payload.get('message', '')}"]. *)
Definition error_text `{Unicode} (payload : list (str * json)) : str :=
  py_str (default (JStr (py "ERROR")) (dget payload (py "code"))) ++ py ": "
  ++ py_str (default (JStr []) (dget payload (py "message"))).

(** What a turn of the loop does with a reply. *)
Inductive turn := Return (r : result Message) | Again (w : wait).

Definition judge `{Unicode} (expected : str) (reply : Message) (ch : Channel) : turn :=
  if str_eqb (msg_type reply) MSG_ERROR then
    Return (raise CControlChannelError (error_text (msg_payload reply)))
  else if str_eqb (msg_type reply) expected then Return (Ok reply)
  else match next_wait ch with Ok w => Again w | Err e => Return (Err e) end.

(** The reply a wait yields, [None] while it blocks. *)
Definition take_reply (w : wait) (ch : Channel) : option (result Message * Channel) :=
  match w with
  | OnQueue =>
      match ch_responses ch with
      | [] => None
      | None :: q => Some (Err lost_error, set_responses q ch)
      | Some m :: q => Some (Ok m, set_responses q ch)
      end
  | OnStream i => recv_message i ch
  end.

(** One turn of the loop of [request]; its [finally] clears the type. *)
Definition request_turn `{Unicode} (expected : str) (w : wait) (ch : Channel)
    : option (turn * Channel) :=
  match take_reply w ch with
  | None => None
  | Some (r, ch1) =>
      let t := match r with Ok m => judge expected m ch1 | Err e => Return (Err e) end in
      Some (t, match t with Return _ => set_expected None ch1 | Again _ => ch1 end)
  end.

(** ** Programs: coroutines that use the channel

    [Atomic f k] changes the channel by [f] and goes on with [k], which sees
    the channel as it was. *)

Inductive prog (A : Type) :=
  | Done (r : result A)
  | Atomic (f : Channel -> Channel) (k : Channel -> prog A)
  | Request (msg : Message) (expected : str) (timed : bool) (k : result Message -> prog A).
#[global] Arguments Done {A} r.
#[global] Arguments Atomic {A} f k.
#[global] Arguments Request {A} msg expected timed k.

(** [try: x = await p] followed by [k], which is given the exception too. *)
Fixpoint ptry {A B} (p : prog A) (k : result A -> prog B) : prog B :=
  match p with
  | Done r => k r
  | Atomic f k' => Atomic f (fun ch => ptry (k' ch) k)
  | Request m e t k' => Request m e t (fun r => ptry (k' r) k)
  end.

Definition pbind {A B} (p : prog A) (k : A -> prog B) : prog B :=
  ptry p (fun r => match r with Ok a => k a | Err e => Done (Err e) end).

Definition pure {A} (r : result A) : prog A := Done r.
Definition act (f : Channel -> Channel) : prog unit := Atomic f (fun _ => Done (Ok tt)).
Definition acts (f : Channel -> result unit * Channel) : prog unit :=
  Atomic (fun ch => snd (f ch)) (fun ch => Done (fst (f ch))).
Definition asks {A} (f : Channel -> A) : prog A := Atomic (fun ch => ch) (fun ch => Done (Ok (f ch))).

Declare Scope prog_scope.
Delimit Scope prog_scope with prog.
Notation "'let*' x := c 'in' k" := (pbind c%prog (fun x => k%prog))
  (at level 10, x pattern, c at level 100, k at level 200) : prog_scope.
Open Scope prog_scope.

(** [await self.request(make_message(cls, ...), expected=..., timeout=...)]. *)
Definition request (cls : dataclass) (kwargs : instance) (expected : str) (timed : bool)
    : prog Message :=
  match make_message cls None kwargs with
  | Ok m => Request m expected timed (fun r => Done r)
  | Err e => Done (Err e)
  end.

(** ** Registration and authentication *)

Definition register (cid pem : str) : prog unit :=
  let* _ := act (set_identity cid pem) in
  let* challenge := request RegisterMessage
    [(py "client_id", JStr cid); (py "public_key", JStr pem); (py "version", JStr (py "0.1.0"))]
    MSG_AUTH_CHALLENGE false in
  act (set_pending (default (JStr []) (dget (msg_payload challenge) (py "challenge")))).

(** [binascii.unhexlify] of a JSON value. *)
Definition unhex_json (j : json) : result bytes :=
  match j with
  | JStr s => match unhexlify s with Some b => Ok b | None => raise CValueError [] end
  | _ => raise CTypeError []
  end.

Definition start_background_tasks (ch : Channel) : Channel :=
  let ch1 := set_reader true
    (match ch_event_task ch with ReaderNone => ReaderReady | t => t end) ch in
  set_heartbeat (match ch_heartbeat ch with LoopOff => LoopSleeping | t => t end) ch1.

Definition authenticate (key : private_key) (pem : str) : prog unit :=
  let* cid := asks ch_client_id in
  let* _ := register cid pem in
  let* challenge_hex := asks ch_pending_challenge in
  let* challenge := pure (unhex_json challenge_hex) in
  let* reply := request AuthResponse
    [(py "signature", JStr (hexlify (sign_challenge key challenge)));
     (py "challenge", challenge_hex)] MSG_AUTH_OK false in
  act (fun ch => start_background_tasks (set_auth_key key ch)).

(** ** Network operations *)

Definition create_network (name password topology : str) : prog (json * json) :=
  let* reply := request CreateNetwork
    [(py "name", JStr name); (py "password", JStr password); (py "topology", JStr topology)]
    MSG_NETWORK_CREATED false in
  pure (Ok (default (JStr []) (dget (msg_payload reply) (py "network_id")),
            default (JStr []) (dget (msg_payload reply) (py "invite_code")))).

(** [reply.payload.get("virtual_ip") or ""]. *)
Definition join_network (network_id password : str) : prog json :=
  let* reply := request JoinNetwork
    [(py "network_id", JStr network_id); (py "password", JStr password)]
    MSG_NETWORK_JOINED false in
  let ip := pget (msg_payload reply) (py "virtual_ip") in
  pure (Ok (if truthy ip then ip else JStr [])).

Definition leave_network (network_id : str) : prog unit :=
  let* _ := request LeaveNetwork [(py "network_id", JStr network_id)] MSG_NETWORK_LEFT false in
  pure (Ok tt).

(** Iteration over a JSON value: the items of a list, the characters of a
    string, the keys of an object. *)
Definition iter_json (j : json) : result (list json) :=
  match j with
  | JList l => Ok l
  | JStr s => Ok (map (fun c => JStr [c]) s)
  | JObj d => Ok (map (fun kv => JStr (fst kv)) d)
  | _ => raise CTypeError []
  end.

Definition list_networks : prog (list json) :=
  let* reply := request ListNetworks [] MSG_NETWORK_LIST false in
  pure (iter_json (default (JList []) (dget (msg_payload reply) (py "networks")))).

(** [int(port)]; of a float literal it is the argument [int_of_float]. *)
Definition int_json `{Unicode} (int_of_float : str -> result Z) (j : json) : result Z :=
  match j with
  | JInt n => Ok n
  | JBool b => Ok (if b then 1 else 0)
  | JFloat lit => int_of_float lit
  | JStr s => match int_of_str s with Some n => Ok n | None => raise CValueError [] end
  | _ => raise CTypeError []
  end.

(** [host, port = item]. *)
Definition unpack2 (item : json) : result (json * json) :=
  let? l := iter_json item in
  match l with [a; b] => Ok (a, b) | _ => raise CValueError [] end.

Fixpoint endpoint_list `{Unicode} (int_of_float : str -> result Z) (l : list json)
    : result (list (json * Z)) :=
  match l with
  | [] => Ok []
  | item :: l' =>
      let? (host, port) := unpack2 item in
      let? p := int_json int_of_float port in
      let? rest := endpoint_list int_of_float l' in
      Ok ((host, p) :: rest)
  end.

Definition request_peer_endpoints `{Unicode} (int_of_float : str -> result Z) (peer_id : str)
    : prog (list (json * Z)) :=
  let* reply := request RequestPeerConn [(py "peer_id", JStr peer_id)] MSG_PEER_ENDPOINTS false in
  pure (let? l := iter_json (default (JList []) (dget (msg_payload reply) (py "endpoints"))) in
        endpoint_list int_of_float l).

Definition request_relay (peer_id : str) : prog unit :=
  let* _ := request RelayRequest [(py "peer_id", JStr peer_id)] MSG_RELAY_GRANTED false in
  pure (Ok tt).

(** [ts] is the literal of [time.time()]. *)
Definition send_heartbeat (ts : str) : prog unit :=
  let* connected := asks ch_connected in
  if negb connected then pure (Ok tt)
  else
    let* _ := request Heartbeat [(py "ts", JFloat ts)] MSG_HEARTBEAT_ACK true in
    pure (Ok tt).

(** ** The loops that run operations *)

(** [while self._connected and not self._stopped]. *)
Definition loop_goes_on (ch : Channel) : bool := ch_connected ch && negb (ch_stopped ch).

(** The body of [_heartbeat_loop] behind its [sleep], and the test of the
    condition that follows. *)
Definition heartbeat_turn (ts : str) : prog unit :=
  ptry (send_heartbeat ts) (fun r =>
    let* _ := match r with Ok _ => pure (Ok tt) | Err _ => act on_connection_lost end in
    act (fun ch => set_heartbeat (if loop_goes_on ch then LoopSleeping else LoopOff) ch)).

(** The body of [_reconnect_loop] behind its [sleep]. *)
Definition reconnect_attempt (open_ok : bool) : prog unit :=
  let* _ := acts (connect open_ok) in
  let* pem := asks ch_public_key_pem in
  let* key := asks ch_private_key in
  let* cid := asks ch_client_id in
  let* _ := match pem, key with
            | Some ((_ :: _) as p), Some k => authenticate k p
            | _, _ => register cid (default [] pem)
            end in
  act (fun ch => set_backoff (ch_base_delay ch) ch).

(** Its [except] clause and the test of the loop's condition. *)
Definition reconnect_after (r : result unit) : prog unit :=
  let* _ := match r with
            | Ok _ => pure (Ok tt)
            | Err _ => act (fun ch => set_backoff (Z.min (ch_backoff ch * 2) (ch_max_delay ch)) ch)
            end in
  act (fun ch => set_reconnect (if ch_stopped ch then LoopOff else LoopSleeping) ch).

Definition reconnect_turn (open_ok : bool) : prog unit :=
  ptry (reconnect_attempt open_ok) reconnect_after.

(** ** The background reader *)

(** Where [_event_loop] puts a message. *)
Definition route (msg : Message) (ch : Channel) : Channel :=
  match ch_expected ch with
  | Some e =>
      if str_eqb (msg_type msg) e || str_eqb (msg_type msg) MSG_ERROR
      then set_responses (ch_responses ch ++ [Some msg]) ch
      else set_events (ch_events ch ++ [msg]) ch
  | None => set_events (ch_events ch ++ [msg]) ch
  end.

(** The condition of the loop and the call of [recv_message], up to its wait. *)
Definition event_head (ch : Channel) : Channel :=
  if loop_goes_on ch then
    match ch_io ch with
    | Some i => set_reader true (Reading i) ch
    | None => set_reader false ReaderNone (on_connection_lost ch)
    end
  else set_reader false ReaderNone ch.

(** One turn of [_event_loop]; [None] while it waits or does not run. *)
Definition event_turn (ch : Channel) : option Channel :=
  match ch_event_task ch with
  | ReaderNone => None
  | ReaderReady => Some (event_head ch)
  | Reading i =>
      match recv_message i ch with
      | None => None
      | Some (Ok msg, ch1) => Some (event_head (route msg ch1))
      | Some (Err _, ch1) => Some (set_reader false ReaderNone (on_connection_lost ch1))
      end
  end.

(** [listen_events]: the next event, when there is one. *)
Definition next_event (ch : Channel) : option (Message * Channel) :=
  match ch_events ch with
  | [] => None
  | m :: q => Some (m, set_events q ch)
  end.

(** [close], the tasks it cancels apart. *)
Definition close (ch : Channel) : Channel :=
  let ch1 := set_reconnect LoopOff (set_stopped true ch) in
  let ch2 := set_heartbeat LoopOff (set_reader false ReaderNone ch1) in
  let ch3 := match ch_io ch2 with Some i => close_stream i ch2 | None => ch2 end in
  set_link false false None ch3.

(** ** Tasks and their interleaving *)

(** Run a program up to its next request or to its end. *)
Fixpoint settle {A} (p : prog A) (ch : Channel) : prog A * Channel :=
  match p with
  | Atomic f k => settle (k ch) (f ch)
  | _ => (p, ch)
  end.

(** The result of a user's operation goes to its caller. *)
Definition discard {A} (p : prog A) : prog unit := ptry p (fun _ => Done (Ok tt)).

Inductive op :=
  | OpConnect (open_ok : bool)
  | OpRegister (cid pem : str)
  | OpAuthenticate (key : private_key) (pem : str)
  | OpCreate (name password topology : str)
  | OpJoin (network_id password : str)
  | OpLeave (network_id : str)
  | OpList
  | OpEndpoints (int_of_float : str -> result Z) (peer_id : str)
  | OpRelay (peer_id : str)
  | OpHeartbeat (ts : str).

Inductive owner := User | HeartbeatLoop | ReconnectLoop.

(** A task between two suspensions: in front of a request or at its end
    ([Ready]), or in the loop of a request. *)
Inductive activity :=
  | Ready (p : prog unit)
  | Waiting (expected : str) (w : wait) (timed : bool) (k : result Message -> prog unit).

Definition Sys : Type := list (owner * activity) * Channel.

Section Steps.
Context {UN : Unicode}.

Definition op_prog (o : op) : prog unit :=
  match o with
  | OpConnect ok => acts (connect ok)
  | OpRegister cid pem => register cid pem
  | OpAuthenticate key pem => authenticate key pem
  | OpCreate n pw t => discard (create_network n pw t)
  | OpJoin n pw => discard (join_network n pw)
  | OpLeave n => leave_network n
  | OpList => discard list_networks
  | OpEndpoints int_of_float p => discard (request_peer_endpoints int_of_float p)
  | OpRelay p => request_relay p
  | OpHeartbeat ts => send_heartbeat ts
  end.

(** Start a program as a new task. *)
Definition spawn (o : owner) (p : prog unit) (s : Sys) : Sys :=
  let (p', ch) := settle p (snd s) in (fst s ++ [(o, Ready p')], ch).

(** Task [n] goes on with [p]. *)
Definition resume (n : nat) (o : owner) (p : prog unit) (ts : list (owner * activity)) (ch : Channel)
    : Sys :=
  let (p', ch') := settle p ch in (<[n := (o, Ready p')]> ts, ch').

(** The header has not arrived: the wait that a timeout bounds. *)
Definition header_waits (w : wait) (ch : Channel) : Prop :=
  match w with
  | OnQueue => ch_responses ch = []
  | OnStream i => exists st, ch_streams ch !! i = Some st /\ zlen (st_in st) < 4 /\ st_eof st = false
  end.

Definition timeout_error : exc := Exc CTimeoutError [].

Definition is_waiting (t : owner * activity) : bool :=
  match snd t with Waiting _ _ _ _ => true | Ready _ => false end.

(** [task.cancel()] of the tasks of the owners [gone]: a request among them
    runs its [finally]. *)
Definition cancel (gone : owner -> bool) (s : Sys) : Sys :=
  let hit := List.filter (fun t => gone (fst t)) (fst s) in
  (List.filter (fun t => negb (gone (fst t))) (fst s),
   if existsb is_waiting hit then set_expected None (snd s) else snd s).

Definition is_reconnect (o : owner) : bool := match o with ReconnectLoop => true | _ => false end.
Definition is_background (o : owner) : bool := match o with User => false | _ => true end.

(** What the network does to a stream. *)
Definition receive (bs : bytes) (st : Stream) : Stream :=
  if st_eof st then st else mkStream (st_in st ++ bs) (st_eof st) (st_lost st) (st_out st).
Definition end_of_stream (lost : bool) (st : Stream) : Stream :=
  mkStream (st_in st) true (st_lost st || lost) (st_out st).

Inductive step : Sys -> Sys -> Prop :=
  | s_spawn s o : step s (spawn User (op_prog o) s)
  | s_start ts ch n o m e t k :
      ts !! n = Some (o, Ready (Request m e t k)) -> ch_expected ch = None ->
      step (ts, ch)
        (match request_start m e ch with
         | (Ok w, ch') => (<[n := (o, Waiting e w t k)]> ts, ch')
         | (Err x, ch') => resume n o (k (Err x)) ts ch'
         end)
  | s_turn ts ch n o e w t k tr ch' :
      ts !! n = Some (o, Waiting e w t k) -> request_turn e w ch = Some (tr, ch') ->
      step (ts, ch)
        (match tr with
         | Again w' => (<[n := (o, Waiting e w' t k)]> ts, ch')
         | Return r => resume n o (k r) ts ch'
         end)
  | s_timeout ts ch n o e w k :
      ts !! n = Some (o, Waiting e w true k) -> header_waits w ch ->
      step (ts, ch) (resume n o (k (Err timeout_error)) ts (set_expected None ch))
  | s_done ts ch n o r :
      ts !! n = Some (o, Ready (Done r)) -> step (ts, ch) (delete n ts, ch)
  | s_event ts ch ch' : event_turn ch = Some ch' -> step (ts, ch) (ts, ch')
  | s_next_event ts ch m ch' : next_event ch = Some (m, ch') -> step (ts, ch) (ts, ch')
  | s_heartbeat ts ch lit :
      ch_heartbeat ch = LoopSleeping ->
      step (ts, ch) (spawn HeartbeatLoop (heartbeat_turn lit) (ts, set_heartbeat LoopBusy ch))
  | s_reconnect ts ch ok :
      ch_reconnect ch = LoopSleeping ->
      step (ts, ch) (spawn ReconnectLoop (reconnect_turn ok) (ts, set_reconnect LoopBusy ch))
  | s_start_reconnect ts ch : step (ts, ch) (ts, start_reconnect ch)
  | s_stop_reconnect ts ch :
      step (ts, ch) (cancel is_reconnect (ts, set_reconnect LoopOff ch))
  | s_close ts ch : step (ts, ch) (cancel is_background (ts, close ch))
  | s_receive ts ch i bs :
      step (ts, ch) (ts, set_streams (alter (receive bs) i (ch_streams ch)) ch)
  | s_end ts ch i lost :
      step (ts, ch) (ts, set_streams (alter (end_of_stream lost) i (ch_streams ch)) ch).

(** ** The invariant of the channel *)

Section Invariant.
Context (base max : Z) (Hdelays : 0 < base <= max).

(** The requests in flight. *)
Definition waits (ts : list (owner * activity)) : list (str * wait) :=
  omap (fun t => match snd t with Waiting e w _ _ => Some (e, w) | Ready _ => None end) ts.

(** The lock: at most one request is in flight, and it is the one whose type
    the background reader looks for. *)
Definition lock_ok (ts : list (owner * activity)) (ch : Channel) : Prop :=
  match ch_expected ch with
  | None => waits ts = []
  | Some e => exists w, waits ts = [(e, w)]
  end.

(** No request reads a stream while the background reader runs. *)
Definition sole_reader (ts : list (owner * activity)) (ch : Channel) : Prop :=
  forall e i, (e, OnStream i) ∈ waits ts -> ch_reader_owned ch = false.

Definition chan_ok (ch : Channel) : Prop :=
  (match ch_io ch with
   | Some i => ch_connected ch = true /\ (i < length (ch_streams ch))%nat
   | None => ch_connected ch = false
   end)
  /\ (ch_reader_owned ch = true <-> ch_event_task ch <> ReaderNone)
  /\ ch_base_delay ch = base /\ ch_max_delay ch = max /\ base <= ch_backoff ch <= max.

(** What the straight-line parts of a program may do.  Only behind a request,
    where the lock has just been released ([free]), may a part take the
    stream for the background reader. *)
Definition part_ok (free : bool) (f : Channel -> Channel) : Prop :=
  forall ch, chan_ok ch ->
    chan_ok (f ch) /\ ch_expected (f ch) = ch_expected ch
    /\ (free = false -> ch_reader_owned ch = false -> ch_reader_owned (f ch) = false).

Fixpoint safe_prog {A} (free : bool) (p : prog A) : Prop :=
  match p with
  | Done _ => True
  | Atomic f k => part_ok free f /\ forall ch, safe_prog free (k ch)
  | Request _ _ _ k => forall r, safe_prog true (k r)
  end.

Definition task_safe (t : owner * activity) : Prop :=
  match snd t with
  | Ready p => safe_prog false p
  | Waiting _ _ _ k => forall r, safe_prog true (k r)
  end.

Definition sys_ok (s : Sys) : Prop :=
  lock_ok (fst s) (snd s) /\ sole_reader (fst s) (snd s) /\ chan_ok (snd s)
  /\ Forall task_safe (fst s).

(** *** Programs are safe *)

Lemma part_ok_mono f : part_ok false f -> part_ok true f.
Proof. intros H ch Hch. destruct (H ch Hch) as (? & ? & ?). by split_and!. Qed.

Lemma safe_mono {A} (p : prog A) : safe_prog false p -> safe_prog true p.
Proof.
  induction p as [r|f k IH|m e t k IH]; simpl; [done| |done].
  intros [Hf Hk]. split; [by apply part_ok_mono|]. intros ch. apply IH, Hk.
Qed.

Lemma safe_ptry {A B} free (p : prog A) (k : result A -> prog B) :
  safe_prog free p -> (forall r, safe_prog false (k r)) -> safe_prog free (ptry p k).
Proof.
  intros Hp Hk. revert free Hp. induction p as [r|f k' IH|m e t k' IH]; intros free Hp; simpl in *.
  - destruct free; [by apply safe_mono|done].
  - destruct Hp as [Hf Hp]. split; [done|]. intros ch. by apply IH.
  - intros r. by apply IH.
Qed.

Lemma safe_bind {A B} free (p : prog A) (k : A -> prog B) :
  safe_prog free p -> (forall a, safe_prog false (k a)) -> safe_prog free (pbind p k).
Proof. intros Hp Hk. apply safe_ptry; [done|]. intros [a|e]; [apply Hk|done]. Qed.

(** Behind a request the continuation has the lock's interval to itself. *)
Lemma safe_request {B} free cls kw e t (k : Message -> prog B) :
  (forall m, safe_prog true (k m)) -> safe_prog free (pbind (request cls kw e t) k).
Proof.
  intros Hk. unfold request, pbind. destruct (make_message cls None kw); simpl; [|done].
  intros [m|x]; simpl; [apply Hk|done].
Qed.
Lemma safe_act free f : part_ok free f -> safe_prog free (act f).
Proof. intros H. by split. Qed.

(** Settling a program preserves what its parts preserve. *)
Lemma settle_safe {A} free (p : prog A) ch :
  safe_prog free p -> chan_ok ch ->
  let '(p', ch') := settle p ch in
  chan_ok ch' /\ ch_expected ch' = ch_expected ch
  /\ (free = false -> ch_reader_owned ch = false -> ch_reader_owned ch' = false)
  /\ safe_prog free p'
  /\ (forall f k, p' <> Atomic f k).
Proof.
  revert ch. induction p as [r|f k IH|m e t k IH]; intros ch Hp Hch; simpl; [by split_and!| |by split_and!].
  destruct Hp as [Hf Hk]. destruct (Hf ch Hch) as (Hc & He & Hr).
  specialize (IH ch (f ch) (Hk ch) Hc). destruct (settle (k ch) (f ch)) as [p' ch'].
  destruct IH as (? & He' & ? & ? & ?). split_and!; try done; [congruence|auto].
Qed.

Lemma safe_head {A} (p : prog A) :
  (forall f k, p <> Atomic f k) -> safe_prog true p -> safe_prog false p.
Proof. destruct p; [done| |done]. intros H. by destruct (H f k). Qed.

(** The parts: attributes that the invariant does not mention, the link, and
    the background tasks. *)
Ltac part := intros []; unfold chan_ok; simpl; intros (Hio & Hown & -> & -> & Hb); split_and!; try done; try lia.

Lemma part_id free : part_ok free (fun ch => ch).
Proof. by intros ch Hch. Qed.
Lemma part_identity free cid pem : part_ok free (set_identity cid pem).
Proof. part. Qed.
Lemma part_pending free p : part_ok free (set_pending p).
Proof. part. Qed.
Lemma part_heartbeat free (g : Channel -> loop_task) : part_ok free (fun ch => set_heartbeat (g ch) ch).
Proof. part. Qed.
Lemma part_reconnect free (g : Channel -> loop_task) : part_ok free (fun ch => set_reconnect (g ch) ch).
Proof. part. Qed.
Lemma part_base free : part_ok free (fun ch => set_backoff (ch_base_delay ch) ch).
Proof. part. Qed.
Lemma part_double free :
  part_ok free (fun ch => set_backoff (Z.min (ch_backoff ch * 2) (ch_max_delay ch)) ch).
Proof. part. Qed.

Lemma part_connect free ok : part_ok free (fun ch => snd (connect ok ch)).
Proof.
  destruct ok; [|apply part_id]. part. rewrite length_app. simpl. lia.
Qed.

Lemma part_start_reconnect free : part_ok free start_reconnect.
Proof.
  intros ch Hch. unfold start_reconnect. destruct (ch_reconnect ch); [destruct (ch_stopped ch)|..];
    by apply (part_id free) || apply (part_reconnect free (fun _ => LoopSleeping)).
Qed.

Lemma part_close_link free :
  part_ok free (fun ch => set_link false false None
    (match ch_io ch with Some i => close_stream i ch | None => ch end)).
Proof.
  intros []. unfold chan_ok, close_stream. simpl. intros (Hio & Hown & -> & -> & Hb).
  destruct ch_io0; simpl; split_and!; try done; lia.
Qed.

Lemma part_responses free (g : Channel -> list (option Message)) :
  part_ok free (fun ch => set_responses (g ch) ch).
Proof. part. Qed.

Lemma part_comp free f g : part_ok free f -> part_ok free g -> part_ok free (fun ch => f (g ch)).
Proof.
  intros Hf Hg ch Hch. destruct (Hg ch Hch) as (Hc & He & Hr), (Hf _ Hc) as (Hc' & He' & Hr').
  split_and!; [done|congruence|auto].
Qed.

Lemma part_connection_lost free : part_ok free on_connection_lost.
Proof.
  intros ch Hch. unfold on_connection_lost. case_match; [by apply part_id|].
  apply (part_comp free start_reconnect _ (part_start_reconnect free)
    (part_comp free _ _ (part_responses free (fun c => ch_responses c ++ [None]))
      (part_close_link free)) ch Hch).
Qed.

Lemma part_background key : part_ok true (fun ch => start_background_tasks (set_auth_key key ch)).
Proof.
  intros []. unfold chan_ok, start_background_tasks. simpl. intros (Hio & Hown & -> & -> & Hb).
  split_and!; try done; try lia. by destruct ch_event_task0.
Qed.

Create HintDb channel discriminated.
#[local] Hint Resolve part_id part_identity part_pending part_heartbeat part_reconnect part_base
  part_double part_connect part_connection_lost part_background : channel.

(** Every program of the channel is safe. *)
Lemma safe_register cid pem : safe_prog false (register cid pem).
Proof.
  unfold register. apply safe_bind; [apply safe_act; auto with channel|intros _].
  apply safe_request. intros m. apply safe_act. auto with channel.
Qed.

Lemma safe_asks {A} (f : Channel -> A) : safe_prog false (asks f).
Proof. split; [apply part_id|done]. Qed.

Lemma safe_authenticate key pem : safe_prog false (authenticate key pem).
Proof.
  unfold authenticate. apply safe_bind; [apply safe_asks|intros cid].
  apply safe_bind; [apply safe_register|intros _]. apply safe_bind; [apply safe_asks|intros hex].
  apply safe_bind; [done|intros b]. apply safe_request. intros m. apply safe_act. auto with channel.
Qed.

Lemma safe_heartbeat ts : safe_prog false (send_heartbeat ts).
Proof.
  unfold send_heartbeat. apply safe_bind; [apply safe_asks|intros c]. destruct c; [|done].
  by apply safe_request.
Qed.

Lemma safe_heartbeat_turn ts : safe_prog false (heartbeat_turn ts).
Proof.
  apply safe_ptry; [apply safe_heartbeat|]. intros r. apply safe_bind.
  - destruct r; [done|]. apply safe_act. auto with channel.
  - intros _. apply safe_act. auto with channel.
Qed.

Lemma safe_reconnect_turn ok : safe_prog false (reconnect_turn ok).
Proof.
  apply safe_ptry.
  - unfold reconnect_attempt. apply safe_bind; [split; [apply part_connect|done]|intros _].
    apply safe_bind; [apply safe_asks|intros pem]. apply safe_bind; [apply safe_asks|intros key].
    apply safe_bind; [apply safe_asks|intros cid]. apply safe_bind.
    + destruct pem as [[|x p]|]; [apply safe_register| |apply safe_register].
      destruct key; [apply safe_authenticate|apply safe_register].
    + intros _. apply safe_act. auto with channel.
  - intros r. apply safe_bind.
    + destruct r; [done|]. apply safe_act. auto with channel.
    + intros _. apply safe_act. auto with channel.
Qed.

Lemma safe_discard_request {A} cls kw e t (k : Message -> prog A) :
  (forall m, safe_prog true (k m)) -> safe_prog false (discard (pbind (request cls kw e t) k)).
Proof. intros Hk. apply safe_ptry; [by apply safe_request|done]. Qed.

Lemma safe_op o : safe_prog false (op_prog o).
Proof.
  destruct o; simpl op_prog.
  - split; [apply part_connect|done].
  - apply safe_register.
  - apply safe_authenticate.
  - by apply safe_discard_request.
  - by apply safe_discard_request.
  - by apply safe_request.
  - by apply safe_discard_request.
  - by apply safe_discard_request.
  - by apply safe_request.
  - apply safe_heartbeat.
Qed.

(** *** Steps keep the invariant *)

Lemma waits_app ts ts' : waits (ts ++ ts') = waits ts ++ waits ts'.
Proof. apply omap_app. Qed.

(** Replacing a task that does not wait, or the one that waits. *)
Lemma waits_insert_ready ts n o p o' p' :
  ts !! n = Some (o, Ready p) -> waits (<[n := (o', Ready p')]> ts) = waits ts.
Proof.
  intros Hn. rewrite insert_take_drop by (by eapply lookup_lt_Some).
  rewrite <- (take_drop_middle ts n _ Hn) at 3. by rewrite !waits_app.
Qed.

Lemma waits_single ts n o e w t k a l :
  ts !! n = Some (o, Waiting e w t k) -> waits ts = a -> (exists x, a = [x]) ->
  waits (<[n := (o, l)]> ts) = waits [(o, l)] /\ a = [(e, w)].
Proof.
  intros Hn Ha [x Hx]. rewrite insert_take_drop by (by eapply lookup_lt_Some).
  rewrite <- (take_drop_middle ts n _ Hn), !waits_app in Ha. subst a.
  change (waits ((o, Waiting e w t k) :: ?l)) with ((e, w) :: waits l) in Hx.
  assert (Hl : waits (take n ts) = [] /\ waits (drop (S n) ts) = []).
  { destruct (waits (take n ts)) as [|y [|z q]]; [|done..].
    split; [done|]. simpl in Hx. by simplify_eq. }
  destruct Hl as [Hl1 Hl2]. rewrite !waits_app. rewrite Hl1. change ((o, l) :: ?q) with ([(o, l)] ++ q).
  rewrite waits_app, Hl2, app_nil_r. split; [done|].
  change (waits ((o, Waiting e w t k) :: ?l)) with ((e, w) :: waits l). by rewrite Hl2.
Qed.

Lemma waits_elem ts n o e w t k :
  ts !! n = Some (o, Waiting e w t k) -> (e, w) ∈ waits ts.
Proof.
  intros Hn. apply list_elem_of_omap. exists (o, Waiting e w t k).
  split; [by eapply list_elem_of_lookup_2|done].
Qed.

Lemma lock_waiting ts ch n o e w t k :
  lock_ok ts ch -> ts !! n = Some (o, Waiting e w t k) ->
  ch_expected ch = Some e /\ waits ts = [(e, w)].
Proof.
  unfold lock_ok. intros Hl Hn. pose proof (waits_elem _ _ _ _ _ _ _ Hn) as Hin.
  destruct (ch_expected ch) as [e'|].
  - destruct Hl as [w' Hw]. rewrite Hw in Hin. apply list_elem_of_singleton in Hin. by simplify_eq.
  - rewrite Hl in Hin. by apply elem_of_nil in Hin.
Qed.

(** A task that has no request in flight goes on, the lock being free. *)
Lemma resume_ok n o p ts ch :
  chan_ok ch -> ch_expected ch = None -> Forall task_safe ts -> safe_prog true p ->
  (forall l, waits (<[n := (o, Ready l)]> ts) = []) ->
  sys_ok (resume n o p ts ch).
Proof.
  intros Hch He Hts Hp Hw. pose proof (settle_safe true p ch Hp Hch) as Hs. unfold resume.
  destruct (settle p ch) as [p' ch']. destruct Hs as (Hc' & He' & _ & Hp' & Hn).
  split_and!; simpl.
  - unfold lock_ok. by rewrite He', He, Hw.
  - intros e i Hin. rewrite Hw in Hin. by apply elem_of_nil in Hin.
  - done.
  - apply Forall_insert; [done|]. simpl. by apply safe_head.
Qed.

Lemma spawn_ok o p s : sys_ok s -> safe_prog false p -> sys_ok (spawn o p s).
Proof.
  intros (Hl & Hr & Hc & Ht) Hp. unfold spawn.
  pose proof (settle_safe false p (snd s) Hp Hc) as Hs.
  destruct (settle p (snd s)) as [p' ch']. destruct Hs as (Hc' & He' & Ho & Hp' & Hn).
  assert (Hw : waits (fst s ++ [(o, Ready p')]) = waits (fst s)).
  { rewrite waits_app. apply app_nil_r. }
  split_and!; simpl.
  - unfold lock_ok in *. by rewrite He', Hw.
  - intros e i Hin. rewrite Hw in Hin. apply Ho; [done|]. by eapply Hr.
  - done.
  - apply Forall_app. split; [done|]. by constructor.
Qed.

(** Changes of the channel that leave the lock and the reader alone. *)
Lemma quiet_ok ts ch ch' :
  sys_ok (ts, ch) -> chan_ok ch' -> ch_expected ch' = ch_expected ch ->
  (ch_reader_owned ch = false -> ch_reader_owned ch' = false) -> sys_ok (ts, ch').
Proof.
  intros (Hl & Hr & Hc & Ht) Hc' He Ho. split_and!; simpl in *; try done.
  - unfold lock_ok in *. by rewrite He.
  - intros e i Hin. apply Ho. by eapply Hr.
Qed.

Lemma part_step f ts ch : part_ok false f -> sys_ok (ts, ch) -> sys_ok (ts, f ch).
Proof.
  intros Hf Hs. destruct (Hf ch) as (Hc & He & Ho); [apply Hs|]. eapply quiet_ok; eauto.
Qed.

(** Messages move through the streams without touching anything else. *)
Lemma chan_ok_streams sts ch :
  length sts = length (ch_streams ch) -> chan_ok ch -> chan_ok (set_streams sts ch).
Proof. destruct ch. unfold chan_ok. simpl. intros ->. done. Qed.

Lemma set_streams_frame sts ch :
  ch_expected (set_streams sts ch) = ch_expected ch
  /\ ch_reader_owned (set_streams sts ch) = ch_reader_owned ch
  /\ ch_event_task (set_streams sts ch) = ch_event_task ch.
Proof. by destruct ch. Qed.

Lemma chan_ok_expected e ch : chan_ok ch -> chan_ok (set_expected e ch).
Proof. by destruct ch. Qed.
Lemma expected_set e ch : ch_expected (set_expected e ch) = e.
Proof. by destruct ch. Qed.
Lemma owned_set_expected e ch : ch_reader_owned (set_expected e ch) = ch_reader_owned ch.
Proof. by destruct ch. Qed.
#[local] Hint Resolve chan_ok_streams chan_ok_expected : channel.

Lemma send_message_frame msg ch r ch' :
  send_message msg ch = (r, ch') -> chan_ok ch ->
  chan_ok ch' /\ ch_expected ch' = ch_expected ch /\ ch_reader_owned ch' = ch_reader_owned ch.
Proof.
  unfold send_message. intros H Hc. repeat case_match; simplify_eq; try done.
  edestruct set_streams_frame as (-> & -> & _).
  split_and!; try done. apply chan_ok_streams; [by rewrite length_insert|done].
Qed.

Lemma recv_message_frame i ch r ch' :
  recv_message i ch = Some (r, ch') -> chan_ok ch ->
  chan_ok ch' /\ ch_expected ch' = ch_expected ch /\ ch_reader_owned ch' = ch_reader_owned ch
  /\ ch_event_task ch' = ch_event_task ch.
Proof.
  unfold recv_message. intros H Hc. repeat case_match; simplify_eq.
  edestruct set_streams_frame as (-> & -> & ->).
  split_and!; try done. apply chan_ok_streams; [by rewrite length_insert|done].
Qed.

Lemma take_reply_frame w ch r ch' :
  take_reply w ch = Some (r, ch') -> chan_ok ch ->
  chan_ok ch' /\ ch_expected ch' = ch_expected ch /\ ch_reader_owned ch' = ch_reader_owned ch.
Proof.
  destruct w as [|i]; simpl; intros H Hc.
  - repeat case_match; simplify_eq; by destruct ch.
  - apply recv_message_frame in H as (? & ? & ? & _); [|done]. done.
Qed.

(** A request waits on a stream only while it owns it. *)
Lemma next_wait_stream ch w i :
  next_wait ch = Ok w -> w = OnStream i -> ch_reader_owned ch = false.
Proof. unfold next_wait. intros. repeat case_match; by simplify_eq. Qed.

Lemma step_start_ok ts ch n o m e t k :
  sys_ok (ts, ch) -> ts !! n = Some (o, Ready (Request m e t k)) -> ch_expected ch = None ->
  sys_ok (match request_start m e ch with
          | (Ok w, ch') => (<[n := (o, Waiting e w t k)]> ts, ch')
          | (Err x, ch') => resume n o (k (Err x)) ts ch'
          end).
Proof.
  intros (Hl & Hr & Hc & Ht) Hn He. simpl in *. unfold lock_ok in Hl. rewrite He in Hl.
  pose proof (Forall_lookup_1 _ _ _ _ Ht Hn) as Hk. simpl in Hk.
  unfold request_start.
  destruct (send_message m (set_expected (Some e) ch)) as [r ch1] eqn:Hs.
  apply send_message_frame in Hs as (Hc1 & He1 & Ho1); [|auto with channel].
  rewrite expected_set in He1. rewrite owned_set_expected in Ho1.
  destruct (let? _ := r in next_wait ch1) as [w|x] eqn:Hw.
  - assert (Hnw : next_wait ch1 = Ok w) by (by destruct r).
    assert (Hins : waits (<[n := (o, Waiting e w t k)]> ts) = [(e, w)]).
    { rewrite insert_take_drop by (by eapply lookup_lt_Some).
      rewrite <- (take_drop_middle ts n _ Hn), waits_app in Hl.
      apply app_nil in Hl as [H1 H2]. change (waits (drop (S n) ts) = []) in H2.
      rewrite waits_app, H1. change (waits ((o, Waiting e w t k) :: ?l)) with ((e, w) :: waits l).
      by rewrite H2. }
    split_and!; simpl; [| |done|by apply Forall_insert].
    + unfold lock_ok. rewrite He1, Hins. eauto.
    + intros e' i. rewrite Hins. intros [= -> <-]%list_elem_of_singleton.
      by eapply next_wait_stream.
  - apply resume_ok; [auto with channel|apply expected_set|done|done|].
    intros l. by rewrite (waits_insert_ready _ _ _ _ _ _ Hn).
Qed.

(** The request in flight ends. *)
Lemma finish_request_ok ts ch n o e w t k r :
  sys_ok (ts, ch) -> ts !! n = Some (o, Waiting e w t k) ->
  forall ch', chan_ok ch' -> ch_expected ch' = None -> sys_ok (resume n o (k r) ts ch').
Proof.
  intros (Hl & Hr & Hc & Ht) Hn ch' Hc' He'.
  pose proof (Forall_lookup_1 _ _ _ _ Ht Hn) as Hk. simpl in *.
  destruct (lock_waiting _ _ _ _ _ _ _ _ Hl Hn) as [_ Hws].
  apply resume_ok; [done|done|done|apply Hk|]. intros l.
  by destruct (waits_single ts n o e w t k _ (Ready l) Hn Hws (ex_intro _ _ eq_refl)).
Qed.

Lemma step_turn_ok ts ch n o e w t k tr ch' :
  sys_ok (ts, ch) -> ts !! n = Some (o, Waiting e w t k) -> request_turn e w ch = Some (tr, ch') ->
  sys_ok (match tr with
          | Again w' => (<[n := (o, Waiting e w' t k)]> ts, ch')
          | Return r => resume n o (k r) ts ch'
          end).
Proof.
  intros Hs Hn Hq. unfold request_turn in Hq.
  destruct (take_reply w ch) as [[r ch1]|] eqn:Hr; [|done].
  apply take_reply_frame in Hr as (Hc1 & He1 & Ho1); [|apply Hs].
  injection Hq as <- <-. destruct (match r with Ok m => _ | Err _ => _ end) as [r'|w'] eqn:Hj.
  - eapply finish_request_ok; [done|done|auto with channel|apply expected_set].
  - destruct Hs as (Hl & Hsr & Hc & Ht). simpl in *.
    destruct (lock_waiting _ _ _ _ _ _ _ _ Hl Hn) as [Hex Hws].
    destruct (waits_single ts n o e w t k _ (Waiting e w' t k) Hn Hws (ex_intro _ _ eq_refl)) as [Hw' _].
    split_and!; simpl; [| |done|].
    + unfold lock_ok. rewrite He1, Hex, Hw'. simpl. eauto.
    + intros e' i. rewrite Hw'. intros [= -> <-]%list_elem_of_singleton.
      destruct r as [m|]; [|done]. unfold judge in Hj.
      destruct (str_eqb _ _); [done|]. destruct (str_eqb _ _); [done|].
      destruct (next_wait ch1) eqn:Hnw; simplify_eq. by eapply next_wait_stream.
    + apply Forall_insert; [done|]. exact (Forall_lookup_1 _ _ _ _ Ht Hn).
Qed.

(** The background reader runs only while no request reads a stream. *)
Lemma event_turn_ok ch ch' :
  event_turn ch = Some ch' -> chan_ok ch ->
  chan_ok ch' /\ ch_expected ch' = ch_expected ch /\ ch_reader_owned ch = true.
Proof.
  intros H Hc. assert (Hown : ch_event_task ch <> ReaderNone -> ch_reader_owned ch = true) by apply Hc.
  assert (Hset : forall b t c, (b = true <-> t <> ReaderNone) -> chan_ok c ->
    chan_ok (set_reader b t c) /\ ch_expected (set_reader b t c) = ch_expected c).
  { intros b t [] Hb (? & ? & ?). by split. }
  assert (Hoff : forall c, chan_ok c -> chan_ok (set_reader false ReaderNone (on_connection_lost c))
    /\ ch_expected (set_reader false ReaderNone (on_connection_lost c)) = ch_expected c).
  { intros c Hc0. destruct (part_connection_lost false c Hc0) as (Hl & He & _). rewrite <- He.
    by apply Hset. }
  assert (Hhead : forall c, chan_ok c -> chan_ok (event_head c) /\ ch_expected (event_head c) = ch_expected c).
  { intros c Hc0. unfold event_head. destruct (loop_goes_on c); [|by apply Hset].
    destruct (ch_io c); [by apply Hset|by apply Hoff]. }
  unfold event_turn in H. destruct (ch_event_task ch) as [| |i] eqn:Ht; [done|..].
  - injection H as <-. destruct (Hhead ch Hc). by split_and!; [..|apply Hown].
  - destruct (recv_message i ch) as [[r ch1]|] eqn:Hr; [|done].
    apply recv_message_frame in Hr as (Hc1 & He1 & _); [|done].
    rewrite <- He1. destruct r as [msg|x]; injection H as <-.
    + assert (Hro : chan_ok (route msg ch1) /\ ch_expected (route msg ch1) = ch_expected ch1).
      { unfold route. repeat case_match; destruct ch1; by split. }
      destruct Hro as [Hc2 He2]. destruct (Hhead _ Hc2) as [? ->]. by split_and!; [..|apply Hown].
    + destruct (Hoff ch1 Hc1). by split_and!; [..|apply Hown].
Qed.

Lemma part_close free : part_ok free close.
Proof.
  intros []. unfold chan_ok, close. simpl. intros (Hio & Hown & -> & -> & Hb).
  destruct ch_io0; simpl; split_and!; try done; lia.
Qed.

Lemma waits_filter (g : owner * activity -> bool) ts :
  (forall t, t ∈ ts -> g t = false -> is_waiting t = false) -> waits (List.filter g ts) = waits ts.
Proof.
  induction ts as [|[o a] ts IH]; intros H; simpl; [done|].
  rewrite <- IH by (intros t ?; apply H; by right).
  destruct (g (o, a)) eqn:Hg; [done|]. assert (Hw := H (o, a) (list_elem_of_here _ _) Hg).
  by destruct a.
Qed.

Lemma cancel_ok gone s : sys_ok s -> sys_ok (cancel gone s).
Proof.
  destruct s as [ts ch]. intros (Hl & Hr & Hc & Ht). unfold cancel. simpl in *.
  assert (Ht' : Forall task_safe (List.filter (fun t => negb (gone (fst t))) ts)).
  { rewrite Forall_forall in Ht |- *. intros t Hin. apply Ht.
    apply list_elem_of_In in Hin. apply filter_In in Hin as [Hin _]. by apply list_elem_of_In. }
  destruct (existsb is_waiting (List.filter (fun t => gone (fst t)) ts)) eqn:Hh.
  - apply existsb_exists in Hh as ([o a] & Hin & Hwa).
    apply filter_In in Hin as [Hin%list_elem_of_In Hg]. simpl in Hg, Hwa.
    destruct a as [|e w t k]; [done|]. apply list_elem_of_lookup in Hin as [n Hn].
    destruct (lock_waiting _ _ _ _ _ _ _ _ Hl Hn) as [_ Hws].
    assert (Hnil : waits (List.filter (fun t => negb (gone (fst t))) ts) = []).
    { rewrite <- (take_drop_middle ts n _ Hn), waits_app in Hws.
      change (waits ((o, Waiting e w t k) :: ?l)) with ((e, w) :: waits l) in Hws.
      rewrite <- (take_drop_middle ts n _ Hn), List.filter_app. simpl. rewrite Hg. simpl.
      destruct (waits (take n ts)) as [|y [|z q]] eqn:H1; [|done..]. simpl in Hws. simplify_eq.
      rewrite waits_app. enough (Hsub : forall l (g : owner * activity -> bool),
        waits l = [] -> waits (List.filter g l) = []) by (by rewrite !Hsub).
      clear. intros l g. induction l as [|[o a] l IH]; simpl; [done|].
      destruct a; simpl; [|done]. destruct (g _); auto. }
    split_and!; simpl; [| |auto with channel|done].
    + unfold lock_ok. simpl. by rewrite expected_set.
    + intros e' i Hin. simpl in Hin. rewrite Hnil in Hin. by apply elem_of_nil in Hin.
  - assert (Hw : waits (List.filter (fun t => negb (gone (fst t))) ts) = waits ts).
    { apply waits_filter. intros t Hin Hg. apply negb_false_iff in Hg.
      destruct (is_waiting t) eqn:Hwt; [|done]. rewrite <- Hh. symmetry. apply existsb_exists.
      exists t. split; [|done]. apply filter_In. split; [by apply list_elem_of_In|done]. }
    split_and!; simpl; [|  |done|done].
    + unfold lock_ok. by rewrite Hw.
    + intros e i. rewrite Hw. apply Hr.
Qed.

Lemma step_ok s s' : sys_ok s -> step s s' -> sys_ok s'.
Proof.
  intros Hs Hst. destruct Hst.
  - apply spawn_ok; [done|apply safe_op].
  - by apply step_start_ok.
  - by eapply step_turn_ok.
  - eapply finish_request_ok; [done|done|apply chan_ok_expected, Hs|apply expected_set].
  - destruct Hs as (Hl & Hr & Hc & Ht). assert (Hw : waits (delete n ts) = waits ts).
    { rewrite delete_take_drop. rewrite <- (take_drop_middle ts n _ H) at 3. by rewrite !waits_app. }
    split_and!; simpl; [|  |done|].
    + unfold lock_ok in *. by rewrite Hw.
    + intros e i. rewrite Hw. apply Hr.
    + by apply Forall_delete.
  - edestruct event_turn_ok as (Hc & He & Ho); [done|apply Hs|].
    eapply quiet_ok; [done|done|done|]. by rewrite Ho.
  - unfold next_event in H. destruct ch. simpl in H. case_match; simplify_eq. done.
  - apply spawn_ok; [|apply safe_heartbeat_turn].
    by apply (part_step _ ts ch (part_heartbeat false (fun _ => LoopBusy))).
  - apply spawn_ok; [|apply safe_reconnect_turn].
    by apply (part_step _ ts ch (part_reconnect false (fun _ => LoopBusy))).
  - by apply part_step; [apply part_start_reconnect|].
  - apply cancel_ok. by apply (part_step _ ts ch (part_reconnect false (fun _ => LoopOff))).
  - apply cancel_ok. by apply part_step; [apply part_close|].
  - destruct (set_streams_frame (alter (receive bs) i (ch_streams ch)) ch) as (He & Ho & _).
    eapply quiet_ok; [done|apply chan_ok_streams; [by rewrite length_alter|apply Hs]|done|by rewrite Ho].
  - destruct (set_streams_frame (alter (end_of_stream lost) i (ch_streams ch)) ch) as (He & Ho & _).
    eapply quiet_ok; [done|apply chan_ok_streams; [by rewrite length_alter|apply Hs]|done|by rewrite Ho].
Qed.

(** C5 Over every interleaving of the user's operations, the heartbeats, the
    reconnect loop, the background reader and the network: at most one
    request is in flight, and it is the one whose reply type the reader
    looks for; while the background reader runs no request reads a stream,
    so that no two coroutines read one stream; the channel is connected
    exactly when it has a stream; and the backoff stays between the base and
    the maximal delay. *)
Theorem channel_invariant cid s :
  rtc step ([], channel_init cid base max) s ->
  lock_ok (fst s) (snd s)
  /\ (ch_event_task (snd s) <> ReaderNone -> forall e i, (e, OnStream i) ∉ waits (fst s))
  /\ (ch_connected (snd s) = true <-> is_Some (ch_io (snd s)))
  /\ base <= ch_backoff (snd s) <= max.
Proof.
  intros Hr. assert (Hs : sys_ok s).
  { assert (Hgen : forall a b, rtc step a b -> sys_ok a -> sys_ok b).
    { induction 1; eauto using step_ok. }
    apply (Hgen _ _ Hr). split; [reflexivity|].
    split; [intros e i Hin; by apply elem_of_nil in Hin|]. split; [|constructor].
    unfold chan_ok. simpl. split_and!; try done; lia. }
  destruct Hs as (Hl & Hsr & (Hio & Hown & _ & _ & Hb) & _). split_and!; try done; try lia.
  - intros Ht e i Hin. apply Hown in Ht. by rewrite (Hsr e i Hin) in Ht.
  - destruct (ch_io (snd s)) as [i|]; [by destruct Hio as [-> _]|]. rewrite Hio. by split; [|intros []].
Qed.
End Invariant.

(** ** What the background reader does with the stream *)

Lemma read_message_app m b rest st :
  msg_ok m = true -> serialize m = Ok b -> st_in st = b ++ rest ->
  read_message st = Some (Ok m, mkStream rest (st_eof st) (st_lost st) (st_out st)).
Proof.
  intros Hm Hs Hin. pose proof (deserialize_app m b [] Hm Hs) as Hd. rewrite app_nil_r in Hd.
  apply serialize_body_Ok in Hs as (data & Hu & Hl & Hb).
  pose proof (zlen_nonneg data). pose proof (zlen_nonneg rest).
  assert (Hz : zlen b = 4 + zlen data) by (subst b; rewrite zlen_app, zlen_be_encode; lia).
  assert (Hdl : be_decode (take 4 (b ++ rest)) = zlen data).
  { subst b. by apply (declared_length_app data rest). }
  unfold read_message. rewrite Hin, zlen_app, Hz, Hdl, Z.gtb_ltb. decide_Z.
  assert (Hlen : length b = (4 + Z.to_nat (zlen data))%nat) by (unfold zlen in *; lia).
  replace (take 4 (b ++ rest) ++ take (Z.to_nat (zlen data)) (drop 4 (b ++ rest))) with b.
  - rewrite Hd. do 3 f_equal.
    rewrite drop_app_ge by (unfold zlen in *; lia).
    replace (Z.to_nat (4 + zlen data) - length b)%nat with O by (unfold zlen in *; lia). done.
  - rewrite take_app_le, drop_app_le by lia. rewrite <- (take_drop 4 b) at 1. f_equal.
    rewrite take_app_le by (rewrite length_drop; lia). rewrite take_ge; [done|].
    rewrite length_drop. lia.
Qed.

(** The messages [_event_loop] takes for replies. *)
Definition is_reply (expected : option str) (m : Message) : bool :=
  match expected with
  | Some e => str_eqb (msg_type m) e || str_eqb (msg_type m) MSG_ERROR
  | None => false
  end.

Fixpoint event_turns (n : nat) (ch : Channel) : option Channel :=
  match n with
  | O => Some ch
  | S n => match event_turn ch with Some ch' => event_turns n ch' | None => None end
  end.

Lemma route_spec m ch :
  route m ch =
    set_responses (ch_responses ch ++ (if is_reply (ch_expected ch) m then [Some m] else []))
      (set_events (ch_events ch ++ (if is_reply (ch_expected ch) m then [] else [m])) ch).
Proof.
  destruct ch. unfold route, is_reply. simpl.
  destruct ch_expected0 as [e|]; [destruct (_ || _)|]; simpl; by rewrite ?app_nil_r.
Qed.

(** C6 The background reader loses nothing, repeats nothing and keeps the
    order: from any concatenation of serialized messages it delivers, one
    turn per message, exactly the messages of the expected type and the
    errors to the waiting request, in order, and all the others to the event
    queue, in order; the bytes behind them stay in the stream. *)
Theorem reader_routes ms bs rest ch i st :
  ch_event_task ch = Reading i -> ch_io ch = Some i -> loop_goes_on ch = true ->
  ch_streams ch !! i = Some st -> st_in st = concat bs ++ rest ->
  Forall2 (fun m b => msg_ok m = true /\ serialize m = Ok b) ms bs ->
  exists ch',
    event_turns (length ms) ch = Some ch'
    /\ ch_events ch' = ch_events ch ++ List.filter (fun m => negb (is_reply (ch_expected ch) m)) ms
    /\ ch_responses ch'
         = ch_responses ch ++ map Some (List.filter (is_reply (ch_expected ch)) ms)
    /\ ch_event_task ch' = Reading i /\ ch_expected ch' = ch_expected ch
    /\ exists st', ch_streams ch' !! i = Some st' /\ st_in st' = rest.
Proof.
  intros Ht Hio Hgo Hst Hin HF. revert ch st Ht Hio Hgo Hst Hin.
  induction HF as [|m b ms bs [Hm Hb] HF IH]; intros ch st Ht Hio Hgo Hst Hin.
  { exists ch. simpl. rewrite !app_nil_r. by split_and!; try exists st. }
  cbn [concat] in Hin. rewrite <- app_assoc in Hin.
  cbn [length event_turns]. unfold event_turn at 1. rewrite Ht. unfold recv_message.
  rewrite Hst, (read_message_app m b _ st Hm Hb Hin).
  set (ch1 := route m _). unfold event_head.
  assert (Hg1 : loop_goes_on ch1 = true /\ ch_io ch1 = Some i).
  { unfold ch1. rewrite route_spec. by destruct ch. }
  destruct Hg1 as [-> Hio1]. rewrite Hio1.
  destruct (IH (set_reader true (Reading i) ch1)
    (mkStream (concat bs ++ rest) (st_eof st) (st_lost st) (st_out st)))
    as (ch' & Hrun & Hev & Hre & Ht' & He & st' & Hst' & Hin').
  5: done.
  1-4: unfold ch1; rewrite route_spec; destruct ch; simpl in *; try done.
  { rewrite list_lookup_insert_eq; [done|by eapply lookup_lt_Some]. }
  exists ch'. assert (Hf : ch_expected (set_reader true (Reading i) ch1) = ch_expected ch
    /\ ch_events (set_reader true (Reading i) ch1)
       = ch_events ch ++ (if is_reply (ch_expected ch) m then [] else [m])
    /\ ch_responses (set_reader true (Reading i) ch1)
       = ch_responses ch ++ (if is_reply (ch_expected ch) m then [Some m] else [])).
  { unfold ch1. rewrite route_spec. by destruct ch. }
  destruct Hf as (Hf1 & Hf2 & Hf3). rewrite Hf1, ?Hf2, ?Hf3 in *.
  split_and!; try done; [..|by exists st']; simpl.
  - rewrite Hev, <- app_assoc. by destruct (is_reply _ m).
  - rewrite Hre, <- app_assoc. by destruct (is_reply _ m).
Qed.

(** ** Reconnection *)

(** [n] attempts that fail to connect, with the sleeps between them. *)
Fixpoint failed_attempts (n : nat) (ch : Channel) : Channel :=
  match n with
  | O => ch
  | S n => failed_attempts n (snd (settle (reconnect_turn false) (set_reconnect LoopBusy ch)))
  end.

(** The backoff doubles with every failure, up to the maximal delay. *)
Lemma backoff_after_failures n ch :
  0 < ch_backoff ch <= ch_max_delay ch ->
  ch_backoff (failed_attempts n ch) = Z.min (ch_backoff ch * 2 ^ Z.of_nat n) (ch_max_delay ch).
Proof.
  revert ch. induction n as [|n IH]; intros ch Hb; cbn [failed_attempts].
  - simpl Z.of_nat. rewrite Z.pow_0_r. lia.
  - rewrite IH; [|destruct ch; simpl in *; lia].
    replace (2 ^ Z.of_nat (S n)) with (2 * 2 ^ Z.of_nat n)
      by (rewrite Nat2Z.inj_succ, Z.pow_succ_r by lia; done).
    assert (1 <= 2 ^ Z.of_nat n) by (pose proof (Z.pow_pos_nonneg 2 (Z.of_nat n)); lia).
    destruct ch. simpl in *. nia.
Qed.

(** The loop goes on after an attempt that succeeded: its condition looks at
    [_stopped] alone, so that a connected client connects again after the
    next sleep. *)
Lemma reconnect_never_ends r ch :
  ch_stopped ch = false ->
  ch_reconnect (snd (settle (reconnect_after r) ch)) = LoopSleeping.
Proof. destruct ch, r; simpl; intros ->; done. Qed.

(** A connection lost while no request waits leaves a wake-up in
    [_responses]: the first request after the reconnection fails with
    "connection lost", whatever the state of the new connection. *)
Lemma stale_wakeup ch ch' e :
  ch_stopped ch = false -> ch_connected ch = true -> ch_responses ch = [] ->
  ch_responses ch' = ch_responses (on_connection_lost ch) ->
  request_turn e OnQueue ch' =
    Some (Return (Err lost_error), set_expected None (set_responses [] ch')).
Proof.
  intros Hs Hc Hr H. unfold on_connection_lost, start_reconnect, close_stream in H.
  destruct ch. simpl in *. rewrite Hs, Hc, Hr in H. simpl in H.
  unfold request_turn, take_reply. destruct ch'. simpl in *. subst.
  destruct ch_io0; destruct ch_reconnect0; simpl; done.
Qed.

(** [close] cancels the reader but wakes nobody: a request that waits for
    the queue without a timeout waits for ever, and keeps the lock. *)
Lemma close_strands_request ts ch n e k :
  ts !! n = Some (User, Waiting e OnQueue false k) -> lock_ok ts ch -> ch_responses ch = [] ->
  let s := cancel is_background (ts, close ch) in
  ch_expected (snd s) = Some e /\ request_turn e OnQueue (snd s) = None
  /\ (exists n', fst s !! n' = Some (User, Waiting e OnQueue false k))
  /\ event_turn (snd s) = None /\ on_connection_lost (snd s) = snd s.
Proof.
  intros Hn Hl Hr s. destruct (lock_waiting _ _ _ _ _ _ _ _ Hl Hn) as [He Hw].
  assert (Hno : existsb is_waiting (List.filter (fun t => is_background (fst t)) ts) = false).
  { destruct (existsb _ _) eqn:Hx; [|done].
    apply existsb_exists in Hx as ([o a] & Hin & Ha). apply filter_In in Hin as [Hin Ho]. simpl in *.
    destruct a as [|e' w' t' k']; [done|].
    apply list_elem_of_In, list_elem_of_lookup in Hin as [n' Hn'].
    destruct (decide (n' = n)) as [->|Hne]; [by simplify_eq/=|]. exfalso.
    assert (Hlen : (length (waits ts) <= 1)%nat) by (by rewrite Hw).
    revert Hlen. clear -Hn Hn' Hne. revert n n' Hn Hn' Hne. induction ts as [|[o1 a1] ts IH]; [done|].
    intros [|n] [|n'] Hn Hn' Hne; simplify_eq/=; [..|].
    - pose proof (waits_elem _ _ _ _ _ _ _ Hn') as Hin. destruct (waits ts); [by apply elem_of_nil in Hin|].
      simpl. lia.
    - pose proof (waits_elem _ _ _ _ _ _ _ Hn) as Hin. destruct (waits ts); [by apply elem_of_nil in Hin|].
      simpl. lia.
    - intros Hlen. apply (IH n n'); [done|done|congruence|].
      destruct a1; simpl in Hlen; lia. }
  subst s. unfold cancel. simpl. rewrite Hno. split_and!.
  - destruct ch. simpl in *. by destruct ch_io0.
  - unfold request_turn, take_reply. destruct ch. simpl in *. by destruct ch_io0; simpl; rewrite Hr.
  - assert (Hin : (User, Waiting e OnQueue false k) ∈
      List.filter (fun t => negb (is_background (fst t))) ts).
    { apply list_elem_of_In, filter_In. split; [|done]. apply list_elem_of_In.
      by eapply list_elem_of_lookup_2. }
    by apply list_elem_of_lookup in Hin.
  - destruct ch. simpl. by destruct ch_io0.
  - unfold on_connection_lost. destruct ch. simpl. by destruct ch_io0.
Qed.
End Steps.
End Channel.

(** ** A client and the server

    One task of a client, its channel, the server's coroutine for the
    connection and the server.  The server reads what the client wrote on
    stream [i] message by message; what it sends to the connection's writer
    arrives on that stream. *)
Section Handshake.
Context {SG : Signer} {SO : SetOrder str} {BC : NetworkManager.Bcrypt} {UN : Unicode} {RV : Auth.RsaVerifier}.
Import Server.

Record World := mkWorld {
  wd_task : activity;
  wd_chan : Channel;
  wd_conn : Conn;
  wd_server : MediationServer
}.

(** The client's task goes on, when it can. *)
Definition client_step (wd : World) : option World :=
  let ch := wd_chan wd in
  match wd_task wd with
  | Ready (Request m e t k) =>
      match ch_expected ch, request_start m e ch with
      | Some _, _ => None
      | None, (Ok w, ch') => Some (mkWorld (Waiting e w t k) ch' (wd_conn wd) (wd_server wd))
      | None, (Err x, ch') =>
          let (p, ch2) := settle (k (Err x)) ch' in
          Some (mkWorld (Ready p) ch2 (wd_conn wd) (wd_server wd))
      end
  | Ready _ => None
  | Waiting e w t k =>
      match request_turn e w ch with
      | None => None
      | Some (Again w', ch') => Some (mkWorld (Waiting e w' t k) ch' (wd_conn wd) (wd_server wd))
      | Some (Return r, ch') =>
          let (p, ch2) := settle (k r) ch' in
          Some (mkWorld (Ready p) ch2 (wd_conn wd) (wd_server wd))
      end
  end.

(** The bytes the server has added for writer [w] to its log. *)
Definition sent_to (w : nat) (l : list (nat * Message)) : bytes :=
  concat (map (fun wm => if bool_decide (fst wm = w) then wire (snd wm) else []) l).

(** The server reads one message of stream [i]. *)
Definition server_step (i : nat) (env : Env) (wd : World) : option World :=
  match ch_streams (wd_chan wd) !! i with
  | None => None
  | Some st =>
      let len := be_decode (take 4 (st_out st)) in
      if (zlen (st_out st) <? 4) || (zlen (st_out st) <? 4 + len) || negb (c_open (wd_conn wd))
      then None
      else
        let body := take (Z.to_nat len) (drop 4 (st_out st)) in
        let (c', s') := recv env (wd_conn wd) (take 4 (st_out st)) body (wd_server wd) in
        let news := drop (length (sv_out (wd_server wd))) (sv_out s') in
        let st' := receive (sent_to (c_writer c') news)
                     (mkStream (st_in st) (st_eof st) (st_lost st)
                        (drop (Z.to_nat (4 + len)) (st_out st))) in
        Some (mkWorld (wd_task wd) (set_streams (<[i := st']> (ch_streams (wd_chan wd))) (wd_chan wd))
                c' s')
  end.

Inductive turn_of := Client | Srv (env : Env).

Fixpoint run (i : nat) (schedule : list turn_of) (wd : World) : option World :=
  match schedule with
  | [] => Some wd
  | t :: l =>
      match (match t with Client => client_step wd | Srv env => server_step i env wd end) with
      | Some wd' => run i l wd'
      | None => None
      end
  end.

Definition register_msg (cid pem : str) : Message :=
  mkMessage MSG_REGISTER
    [(KEY_TYPE, JStr MSG_REGISTER); (py "client_id", JStr cid); (py "public_key", JStr pem);
     (py "version", JStr (py "0.1.0"))].

Definition auth_response_msg (signature nonce : bytes) : Message :=
  mkMessage MSG_AUTH_RESPONSE
    [(KEY_TYPE, JStr MSG_AUTH_RESPONSE); (py "signature", JStr (hexlify signature));
     (py "challenge", JStr (hexlify nonce))].

Definition auth_ok_msg : Message :=
  mkMessage MSG_AUTH_OK
    [(KEY_TYPE, JStr MSG_AUTH_OK); (py "ok", JBool true);
     (py "message", JStr (py "authenticated"))].

(** A message whose bytes reach the other end. *)
Definition wire_ok (m : Message) : Prop := msg_ok m = true /\ exists b, serialize m = Ok b.

Lemma wire_spec m : wire_ok m -> serialize m = Ok (wire m) /\ msg_ok m = true.
Proof. intros [Hm [b Hb]]. unfold wire. by rewrite Hb. Qed.

Lemma wire_shape m :
  wire_ok m -> exists n, length (wire m) = (4 + n)%nat /\ be_decode (take 4 (wire m)) = Z.of_nat n
    /\ Z.of_nat n <= MAX_MESSAGE_SIZE.
Proof.
  intros [Hb _]%wire_spec. apply serialize_body_Ok in Hb as (data & _ & Hl & Hw).
  pose proof (declared_length_app data [] Hl) as Hd. rewrite app_nil_r, <- Hw in Hd.
  exists (length data). split_and!; [|exact Hd|exact Hl].
  rewrite Hw, length_app, length_be_encode. done.
Qed.

(** The server's turn on a stream that holds one message. *)
Lemma server_reads i env a ch c s st m c' s' :
  ch_streams ch !! i = Some st -> wire_ok m -> st_out st = wire m -> c_open c = true ->
  st_eof st = false ->
  on_message env c (wire m) s = (Ok (c', true), s') ->
  server_step i env (mkWorld a ch c s) =
    Some (mkWorld a
      (set_streams (<[i := mkStream (st_in st ++
          sent_to (c_writer c') (drop (length (sv_out s)) (sv_out s'))) false (st_lost st) []]>
        (ch_streams ch)) ch) c' s').
Proof.
  intros Hst Hm Hout Ho Heof Hon. destruct (wire_shape m Hm) as (n & Hl & Hd & Hmax).
  unfold server_step. simpl. rewrite Hst, Hout, Hd, Ho.
  replace (zlen (wire m)) with (4 + Z.of_nat n) by (unfold zlen; lia). decide_Z. simpl.
  rewrite Nat2Z.id. rewrite (take_ge (drop 4 (wire m))) by (rewrite length_drop; lia).
  unfold recv. rewrite Hd, Z.gtb_ltb. decide_Z. rewrite take_drop, Hon.
  rewrite (drop_ge (wire m)) by lia. unfold receive. simpl. by rewrite Heof.
Qed.

(** The client's turn on a stream that starts with the reply it waits for. *)
Lemma client_gets i e t k ch c s st m rest :
  ch_streams ch !! i = Some st -> wire_ok m -> st_in st = wire m ++ rest ->
  msg_type m = e -> e <> MSG_ERROR ->
  client_step (mkWorld (Waiting e (OnStream i) t k) ch c s) =
    let ch1 := set_expected None (set_streams
      (<[i := mkStream rest (st_eof st) (st_lost st) (st_out st)]> (ch_streams ch)) ch) in
    let (p, ch2) := settle (k (Ok m)) ch1 in Some (mkWorld (Ready p) ch2 c s).
Proof.
  intros Hst Hm Hin Hty Hne. apply wire_spec in Hm as [Hs Hm].
  unfold client_step. simpl. unfold request_turn, take_reply, recv_message.
  rewrite Hst, (read_message_app m (wire m) rest st Hm Hs Hin). unfold judge, str_eqb.
  rewrite bool_decide_false by congruence. by rewrite bool_decide_true.
Qed.

(** The client's turn that sends a request. *)
Lemma client_sends i m e t k ch c s st :
  ch_expected ch = None -> ch_io ch = Some i -> ch_reader_owned ch = false ->
  ch_streams ch !! i = Some st -> st_lost st = false -> wire_ok m ->
  client_step (mkWorld (Ready (Request m e t k)) ch c s) =
    Some (mkWorld (Waiting e (OnStream i) t k)
      (set_streams (<[i := mkStream (st_in st) (st_eof st) false (st_out st ++ wire m)]> (ch_streams ch))
         (set_expected (Some e) ch)) c s).
Proof.
  intros He Hio Hro Hst Hl [Hs _]%wire_spec. unfold client_step, request_start, send_message. simpl.
  destruct ch. simpl in *. rewrite He, Hio, Hs, Hst, Hl. unfold next_wait. simpl.
  by rewrite Hro.
Qed.

Lemma parse_wire m : wire_ok m -> parse_message (wire m) = Ok m.
Proof.
  intros [Hs Hm]%wire_spec. unfold parse_message. rewrite <- (app_nil_r (wire m)).
  by apply deserialize_app.
Qed.

(** What the client signs with [key], the server verifies under [pem]: the
    documented behaviour of RSA signatures. *)
Definition key_pair (key : private_key) (pem : str) : Prop :=
  (forall challenge,
     Auth.verify_auth_response pem challenge (sign_challenge key challenge) = Ok true)
  /\ forall challenge, Forall is_byte (sign_challenge key challenge)
       /\ sign_challenge key challenge <> [].

(** REGISTER on a fresh connection. *)
Lemma server_registers env w peer s cid pem :
  wire_ok (register_msg cid pem) ->
  validate_register (msg_payload (register_msg cid pem)) = Ok (cid, pem) ->
  (zlen (sv_writers s) < cfg_max_clients (sv_config s) \/ dmem (sv_writers s) cid = true) ->
  Registry.is_banned (sv_registry s) cid = false ->
  can_send s w (challenge_msg cid (env_nonce env)) ->
  exists s' r,
    on_message env (new_conn w peer) (wire (register_msg cid pem)) s
      = (Ok (mkConn w peer (Some cid) true false true, true), s')
    /\ dget (sv_registry s') cid = Some r /\ Registry.public_key_pem r = pem
    /\ Registry.networks r = Registry.networks_for (sv_registry s) cid
    /\ dget (Auth.pending (sv_auth s')) cid
         = Some (Auth.mkPendingAuth cid (env_nonce env) (env_now env) 0)
    /\ Auth.ttl (sv_auth s') = Auth.ttl (sv_auth s)
    /\ dget (sv_writers s') cid = Some w
    /\ sv_lost s' = sv_lost s
    /\ sv_out s' = sv_out s ++ [(w, challenge_msg cid (env_nonce env))].
Proof.
  intros Hm Hv Hcap Hban Hcan.
  destruct (register_accepted env w (register_msg cid pem) peer s cid pem Hv Hcap Hban Hcan)
    as (s' & Hreg & (r & Hr & _ & Hpem & _ & _ & Hn) & Hw & _ & Hpend & Hout & _ & Httl & Hlost).
  exists s', r. unfold on_message. rewrite bind_lift, (parse_wire _ Hm).
  cbn [new_conn c_registered c_writer c_peer negb].
  unfold str_eqb. rewrite bool_decide_true by done. cbn [negb].
  unfold bind. rewrite Hreg. by split_and!.
Qed.

Lemma auth_response_valid signature nonce :
  nonce <> [] -> signature <> [] ->
  validate_auth_response (msg_payload (auth_response_msg signature nonce))
    = Ok (hexlify nonce, hexlify signature).
Proof. intros Hn Hs. destruct nonce, signature; try done. Qed.

(** AUTH_RESPONSE with a signature of the pending nonce. *)
Lemma server_authenticates env w peer s cid pem r key nonce t0 :
  wire_ok (auth_response_msg (sign_challenge key nonce) nonce) ->
  key_pair key pem -> nonce <> [] ->
  dget (sv_registry s) cid = Some r -> Registry.public_key_pem r = pem ->
  dget (Auth.pending (sv_auth s)) cid = Some (Auth.mkPendingAuth cid nonce t0 0) ->
  env_now env - t0 <= Auth.ttl (sv_auth s) * SEC ->
  sv_lost s = ∅ -> (exists b, serialize auth_ok_msg = Ok b) ->
  (forall nid, nid ∈ Registry.networks r -> exists b, serialize (peer_online_msg nid cid) = Ok b) ->
  exists s' l,
    on_message env (mkConn w peer (Some cid) true false true)
      (wire (auth_response_msg (sign_challenge key nonce) nonce)) s
      = (Ok (mkConn w peer (Some cid) true true true, true), s')
    /\ dget (sv_authenticated s') cid = Some true
    /\ sv_writers s' = sv_writers s
    /\ sv_out s' = sv_out s ++ (w, auth_ok_msg) :: l.
Proof.
  intros Hm [Hver Hsb] Hn0 Hr Hpem Hpend Ht Hlost Hok Hann.
  unfold on_message. rewrite bind_lift, (parse_wire _ Hm).
  cbn [c_registered c_client c_authenticated c_writer c_peer negb].
  unfold str_eqb. rewrite bool_decide_true by done. cbn [negb].
  assert (Hauth : exists s' l, on_auth env w cid (auth_response_msg (sign_challenge key nonce) nonce) s
      = (Ok (true, py "authenticated"), s')
    /\ dget (sv_authenticated s') cid = Some true /\ sv_writers s' = sv_writers s
    /\ sv_out s' = sv_out s ++ (w, auth_ok_msg) :: l).
  2:{ destruct Hauth as (s' & l & Hauth & ? & ? & ?). exists s', l. unfold bind. rewrite Hauth.
      by split_and!. }
  unfold on_auth. rewrite auth_response_valid by (done || apply Hsb). rewrite bind_gets, bind_modify.
  assert (Hv : exists a', Auth.verify (env_now env) (sv_auth s) (sv_registry s) cid (hexlify nonce)
    (hexlify (sign_challenge key nonce)) = (Ok (true, py "authenticated"), a')).
  { unfold Auth.verify, Auth.consume. rewrite Hpend. cbn [Auth.pa_created_at].
    rewrite Z.gtb_ltb. decide_Z. rewrite unhexlify_hexlify by apply Hsb.
    unfold Registry.get. rewrite Hr, Hpem. cbn [Auth.pa_challenge]. rewrite Hver. eauto. }
  destruct Hv as [a' Hv]. rewrite Hv. cbn [fst snd]. rewrite bind_lift.
  unfold bind at 1. rewrite bind_modify. unfold bind at 1. unfold send_new. rewrite bind_lift.
  change (make_message AuthResult None _) with (Ok auth_ok_msg). cbv beta iota.
  rewrite send_ok.
  2:{ split; [simpl; rewrite Hlost; apply not_elem_of_empty|exact Hok]. }
  cbv beta iota. cbn [sv_out set_authenticated set_auth set_out].
  match goal with |- context [announce_peer_online cid ?st] =>
    destruct (announce_only_sends st cid) as [l Hl] end.
  { intros nid w' Hin _. split; [simpl; rewrite Hlost; apply not_elem_of_empty|].
    apply Hann. unfold Registry.networks_for in Hin. simpl in Hin. by rewrite Hr in Hin. }
  rewrite Hl. eexists _, l. split; [reflexivity|]. simpl. split_and!; [apply dget_dset_eq|done|].
  by rewrite <- app_assoc.
Qed.

Lemma auth_ok_wire : wire_ok auth_ok_msg.
Proof. split; [reflexivity|]. eexists. vm_compute. reflexivity. Qed.

(** [authenticate] is two requests, and the start of the background tasks. *)
Lemma settle_first key pem ch :
  exists k, settle (authenticate key pem) ch =
      (Request (register_msg (ch_client_id ch) pem) MSG_AUTH_CHALLENGE false k,
       set_identity (ch_client_id ch) pem ch)
    /\ forall cid nonce ch', Forall is_byte nonce ->
         exists k2, settle (k (Ok (challenge_msg cid nonce))) ch' =
           (Request (auth_response_msg (sign_challenge key nonce) nonce) MSG_AUTH_OK false k2,
            set_pending (JStr (hexlify nonce)) ch')
         /\ forall m ch'', settle (k2 (Ok m)) ch'' =
              (Done (Ok tt), start_background_tasks (set_auth_key key ch'')).
Proof.
  eexists. split; [reflexivity|]. intros cid nonce ch' Hb.
  assert (Hp : ch_pending_challenge (set_pending (JStr (hexlify nonce)) ch') = JStr (hexlify nonce))
    by (by destruct ch').
  cbn [ptry settle]. change (default (JStr []) (dget (msg_payload (challenge_msg cid nonce)) (py "challenge")))
    with (JStr (hexlify nonce)).
  unfold act, asks, pure, pbind. cbn [ptry settle]. rewrite Hp. unfold unhex_json.
  rewrite unhexlify_hexlify by done. cbn [ptry settle]. unfold request.
  change (make_message AuthResponse None _) with
    (Ok (auth_response_msg (sign_challenge key nonce) nonce)).
  cbn [ptry settle]. eexists. split; [reflexivity|]. done.
Qed.

(** C4 Liveness of the handshake: a client on a fresh connection whose stream
    nobody else reads calls [authenticate] with a key pair and an id that
    passes the server's validation.  If every message of the exchange (and of
    the announcements it causes) fits the wire, the challenge is not empty, the
    server has room or knows the client already, does not ban it, has no
    writer whose transport is lost, and the answer comes within the time to
    live of the challenge, then after two exchanges the call returns, the
    channel is authenticated with the background reader and the heartbeats
    started, and for the server the connection belongs to the client, is
    authenticated and is the client's writer. *)
Theorem handshake_live i w peer env1 env2 ch s key pem :
  let cid := ch_client_id ch in
  let nonce := env_nonce env1 in
  ch_expected ch = None -> ch_io ch = Some i -> ch_reader_owned ch = false ->
  ch_streams ch !! i = Some new_stream ->
  key_pair key pem ->
  nonce <> [] -> Forall is_byte nonce ->
  wire_ok (register_msg cid pem) -> wire_ok (challenge_msg cid nonce) ->
  wire_ok (auth_response_msg (sign_challenge key nonce) nonce) ->
  (forall nid, nid ∈ Registry.networks_for (sv_registry s) cid ->
     exists b, serialize (peer_online_msg nid cid) = Ok b) ->
  validate_register (msg_payload (register_msg cid pem)) = Ok (cid, pem) ->
  (zlen (sv_writers s) < cfg_max_clients (sv_config s) \/ dmem (sv_writers s) cid = true) ->
  Registry.is_banned (sv_registry s) cid = false ->
  sv_lost s = ∅ ->
  env_now env2 - env_now env1 <= Auth.ttl (sv_auth s) * SEC ->
  let (p, ch0) := settle (authenticate key pem) ch in
  exists ch' c' s',
    run i [Client; Srv env1; Client; Client; Srv env2; Client]
      (mkWorld (Ready p) ch0 (new_conn w peer) s)
      = Some (mkWorld (Ready (Done (Ok tt))) ch' c' s')
    /\ ch_authenticated ch' = true /\ ch_reader_owned ch' = true
    /\ ch_event_task ch' <> ReaderNone /\ ch_heartbeat ch' <> LoopOff
    /\ c_client c' = Some cid /\ c_authenticated c' = true
    /\ dget (sv_authenticated s') cid = Some true /\ dget (sv_writers s') cid = Some w.
Proof.
  intros cid nonce He Hio Hro Hst Hkey Hn0 Hnb Hm1 Hm2 Hm3 Hann Hv Hcap Hban Hlost Htime.
  destruct (settle_first key pem ch) as (k & -> & Hk).
  destruct (server_registers env1 w peer s cid pem Hm1 Hv Hcap Hban)
    as (s1 & r & Hon1 & Hr & Hpem & Hnets & Hpend & Httl & Hw1 & Hl1 & Hout1).
  { split; [rewrite Hlost; apply not_elem_of_empty|]. apply Hm2. }
  destruct (server_authenticates env2 w peer s1 cid pem r key nonce (env_now env1) Hm3 Hkey Hn0
    Hr Hpem Hpend) as (s2 & l & Hon2 & Ha2 & Hw2 & Hout2).
  { rewrite Httl. exact Htime. } { congruence. } { apply auth_ok_wire. } { by rewrite Hnets. }
  assert (Hlt : (i < length (ch_streams ch))%nat) by (by eapply lookup_lt_Some).
  destruct ch. cbn [ch_client_id ch_expected ch_io ch_reader_owned ch_streams set_identity] in *.
  subst cid. cbn [run].
  rewrite (client_sends i _ _ _ _ _ _ _ new_stream) by done.
  cbn [set_streams set_expected ch_streams new_stream st_in st_eof st_out app].
  erewrite (server_reads i env1); [|by apply list_lookup_insert_eq|exact Hm1|done..|exact Hon1].
  rewrite Hout1, drop_app_length.
  cbn [set_streams ch_streams st_in st_lost c_writer app]. rewrite list_insert_insert_eq.
  unfold sent_to. cbn [map concat fst snd]. rewrite bool_decide_true by done.
  erewrite (client_gets i); [|by apply list_lookup_insert_eq|exact Hm2|cbn [st_in]; reflexivity|done..].
  cbn [set_streams set_expected ch_streams st_eof st_lost st_out]. rewrite list_insert_insert_eq.
  match goal with |- context [settle (k _) ?c] =>
    destruct (Hk ch_client_id0 nonce c Hnb) as (k2 & -> & Hk2) end.
  cbn [set_pending].
  erewrite (client_sends i); [|done..|by apply list_lookup_insert_eq|done|exact Hm3].
  cbn [set_streams set_expected ch_streams st_in st_eof st_out app]. rewrite list_insert_insert_eq.
  erewrite (server_reads i env2); [|by apply list_lookup_insert_eq|exact Hm3|done..|exact Hon2].
  rewrite Hout2, drop_app_length.
  cbn [set_streams ch_streams st_in st_lost c_writer app]. rewrite list_insert_insert_eq.
  unfold sent_to. cbn [map concat fst snd]. rewrite bool_decide_true by done.
  erewrite (client_gets i); [|by apply list_lookup_insert_eq|exact auth_ok_wire|reflexivity|done..].
  cbn [set_streams set_expected ch_streams st_eof st_lost st_out]. rewrite Hk2.
  eexists _, _, _. split; [reflexivity|]. unfold start_background_tasks. simpl.
  split_and!; try done; [by destruct ch_event_task0|by destruct ch_heartbeat0|by rewrite Hw2].
Qed.
End Handshake.

(** ** Concrete runs *)

Section Runs.
#[local] Existing Instance NetworkManager.plain_bcrypt.
#[local] Existing Instance ascii_only.
#[local] Instance str_order : SetOrder str := elements_order.
#[local] Instance toy_signer : Signer := {| private_key := unit; sign_challenge _ c := [zlen c mod 256; 7] |}.
Import Server.

(** A verifier for the signatures of [toy_signer]. *)
#[local] Instance toy_verifier : Auth.RsaVerifier := {|
  Auth.public_key := unit;
  Auth.load_pem_public_key _ := Ok tt;
  Auth.is_rsa _ := true;
  Auth.rsa_verify _ s c := if bool_decide (s = [zlen c mod 256; 7]) then Ok tt else raise CInvalidSignature []
|}.

Definition fresh : Channel :=
  snd (connect true (channel_init a_id (RECONNECT_BASE_DELAY * SEC) (RECONNECT_MAX_DELAY * SEC))).

Lemma handshake_live_witness :
  let (p, ch0) := settle (authenticate tt pem_text) fresh in
  exists ch' c' s',
    run 0 [Client; Srv env0; Client; Client; Srv env0; Client]
      (mkWorld (Ready p) ch0 (new_conn 1 (py "10.0.0.1", 4001)) start)
      = Some (mkWorld (Ready (Done (Ok tt))) ch' c' s')
    /\ ch_authenticated ch' = true /\ ch_reader_owned ch' = true
    /\ ch_event_task ch' <> ReaderNone /\ ch_heartbeat ch' <> LoopOff
    /\ c_client c' = Some a_id /\ c_authenticated c' = true
    /\ dget (sv_authenticated s') a_id = Some true /\ dget (sv_writers s') a_id = Some 1%nat.
Proof.
  apply (handshake_live 0 1 (py "10.0.0.1", 4001) env0 env0 fresh start tt pem_text).
  1-4: reflexivity.
  - split; [|intros challenge; split].
    + intros challenge. unfold Auth.verify_auth_response. simpl. by rewrite bool_decide_true.
    + repeat constructor; try lia; apply Z.mod_pos_bound; lia.
    + done.
  - done.
  - by_eval.
  - split; [reflexivity|]. eexists. vm_compute. reflexivity.
  - split; [reflexivity|]. eexists. vm_compute. reflexivity.
  - split; [reflexivity|]. eexists. vm_compute. reflexivity.
  - intros nid Hn. by apply elem_of_empty in Hn.
  - vm_compute. reflexivity.
  - left. vm_compute. reflexivity.
  - reflexivity.
  - reflexivity.
  - vm_compute. discriminate.
Defined.

(** A connected reader with a request in flight. *)
Definition reading (bs : bytes) : Channel :=
  set_expected (Some MSG_NETWORK_LIST)
    (set_reader true (Reading 0)
      (set_streams [mkStream bs false false []] fresh)).

Definition push_msg : Message := peer_online_msg (py "net-1") b_id.
Definition list_msg : Message := mkMessage MSG_NETWORK_LIST [(py "networks", JList [])].

Lemma reader_routes_witness :
  exists ch', event_turns 3 (reading (concat [wire push_msg; wire list_msg; wire push_msg] ++ [0])) = Some ch'
    /\ ch_events ch' = [push_msg; push_msg] /\ ch_responses ch' = [Some list_msg].
Proof.
  destruct (reader_routes [push_msg; list_msg; push_msg] [wire push_msg; wire list_msg; wire push_msg]
    [0] (reading (concat [wire push_msg; wire list_msg; wire push_msg] ++ [0])) 0
    (mkStream (concat [wire push_msg; wire list_msg; wire push_msg] ++ [0]) false false []))
    as (ch' & H1 & H2 & H3 & _); try reflexivity.
  - repeat (constructor; [split; vm_compute; reflexivity|]). constructor.
  - exists ch'. split; [exact H1|]. split; [rewrite H2|rewrite H3]; reflexivity.
Defined.

(** The client connects and sends a request. *)
Definition connected_sys : Sys :=
  spawn User (op_prog OpList)
    (spawn User (op_prog (OpConnect true)) ([], channel_init a_id SEC (60 * SEC))).

Definition requesting : Sys :=
  match fst connected_sys !! 1%nat with
  | Some (o, Ready (Request m e t k)) =>
      match request_start m e (snd connected_sys) with
      | (Ok w, ch') => (<[1%nat := (o, Waiting e w t k)]> (fst connected_sys), ch')
      | (Err x, ch') => resume 1 o (k (Err x)) (fst connected_sys) ch'
      end
  | _ => connected_sys
  end.

Lemma channel_invariant_witness :
  lock_ok (fst requesting) (snd requesting)
  /\ waits (fst requesting) = [(MSG_NETWORK_LIST, OnStream 0)]
  /\ ch_connected (snd requesting) = true.
Proof.
  destruct (channel_invariant SEC (60 * SEC) ltac:(unfold SEC; lia) a_id requesting) as (H & _).
  - eapply rtc_l; [apply (s_spawn _ (OpConnect true))|]. eapply rtc_l; [apply (s_spawn _ OpList)|].
    apply rtc_once.
    exact (s_start (fst connected_sys) (snd connected_sys) 1 _ _ _ _ _ eq_refl eq_refl).
  - split; [exact H|]. split; vm_compute; reflexivity.
Defined.
End Runs.
End ControlChannel.
