(* ===== verification/Cli.v ===== *)
(** * The management command line (src/client/main.py, [cli_main])

    A command of [localnetwork-cli] is a program of the control channel:
    connect, authenticate, one request, close; then it prints the reply and
    ends with an exit code.  The texts of [argparse] are left out, the parsed
    arguments are [command].

    [serve] runs such a program against the mediation server of module
    [Server] over a connection that is up. *)

From S2P Require Import Prelude Constants PyStr Json Messages Protocol Registry NetworkManager Auth Relay Server ControlChannel.
Import Messages Protocol ControlChannel.

Module Cli.

Inductive command :=
  | CmdCreate (name password topology : str)
  | CmdJoin (network password : str)
  | CmdLeave (network : str)
  | CmdList
  | CmdStatus
  | CmdInfo (network : str)
  | CmdVersion.

(** What the process prints and returns, or the exception that escapes. *)
Record outcome := mkOutcome {
  oc_out : list str;
  oc_err : list str;
  oc_exit : result Z
}.

Section Commands.
Context {SG : Signer} {UN : Unicode}.

Definition topology_map (t : str) : str :=
  if str_eqb t (py "hub") then py "hub_and_spoke" else t.

(** ** Printing *)

(** [network[key]]. *)
Definition item (n : json) (key : str) : result json :=
  match n with
  | JObj d => match dget d key with Some v => Ok v | None => raise CKeyError (repr_str key) end
  | _ => raise CTypeError []
  end.

(** [f"{v:<24}"]: strings and numbers take the format, [bool] as a number. *)
Definition left24 (v : json) : result str :=
  let fill s := s ++ replicate (24 - length s) 32 in
  match v with
  | JStr s => Ok (fill s)
  | JInt _ | JFloat _ => Ok (fill (py_str v))
  | JBool b => Ok (fill (if b then py "1" else py "0"))
  | JNull | JList _ | JObj _ => raise CTypeError []
  end.

Definition list_row (n : json) : result str :=
  let? name := item n (py "name") in
  let? name24 := left24 name in
  let? id := item n (py "network_id") in
  let? topology := item n (py "topology") in
  let? count := item n (py "member_count") in
  Ok (py "  " ++ name24 ++ py " " ++ py_str id ++ py "  topology=" ++ py_str topology
        ++ py "  members=" ++ py_str count).

Definition status_row (n : json) : result str :=
  let? name := item n (py "name") in
  let? name24 := left24 name in
  let? id := item n (py "network_id") in
  let? count := item n (py "member_count") in
  Ok (py "  " ++ name24 ++ py " " ++ py_str id ++ py "  members=" ++ py_str count).

(** Lines printed one by one, up to the first exception. *)
Fixpoint print_rows (row : json -> result str) (l : list json) (code : Z) : list str * result Z :=
  match l with
  | [] => ([], Ok code)
  | n :: l' =>
      match row n with
      | Ok s => let (out, r) := print_rows row l' code in (s :: out, r)
      | Err e => ([], Err e)
      end
  end.

Definition show_create (name : str) (r : json * json) : list str * result Z :=
  ([py "Created network " ++ repr_str name; py "  Network ID:  " ++ py_str (fst r)]
   ++ (if truthy (snd r) then [py "  Invite code: " ++ py_str (snd r)] else [])
   ++ [py "Share the invite code (or network ID) and password with friends."], Ok 0).

Definition show_join (network : str) (ip : json) : list str * result Z :=
  ([py "Joined network " ++ network]
   ++ (if truthy ip then [py "Virtual IP: " ++ py_str ip] else []), Ok 0).

Definition show_list (nets : list json) : list str * result Z :=
  match nets with
  | [] => ([py "You are not a member of any network."], Ok 0)
  | _ => print_rows list_row nets 0
  end.

(** [n["network_id"] == args.network or n["name"] == args.network]. *)
Definition matches (network : str) (n : json) : result bool :=
  let? id := item n (py "network_id") in
  if bool_decide (id = JStr network) then Ok true
  else let? name := item n (py "name") in Ok (bool_decide (name = JStr network)).

Fixpoint matching (network : str) (nets : list json) : result (list json) :=
  match nets with
  | [] => Ok []
  | n :: nets' =>
      let? m := matches network n in
      let? rest := matching network nets' in
      Ok (if m : bool then n :: rest else rest)
  end.

Definition info_rows (n : json) : list (result str) :=
  map (fun lk => let? v := item n (snd lk) in Ok (fst lk ++ py_str v))
    [(py "Name:      ", py "name"); (py "ID:        ", py "network_id"); (py "Owner:     ", py "owner_id");
     (py "Topology:  ", py "topology"); (py "Members:   ", py "member_count")].

Fixpoint print_all (l : list (result str)) (code : Z) : list str * result Z :=
  match l with
  | [] => ([], Ok code)
  | Ok s :: l' => let (out, r) := print_all l' code in (s :: out, r)
  | Err e :: _ => ([], Err e)
  end.

Definition show_info (network : str) (nets : list json) : list str * result Z :=
  match matching network nets with
  | Err e => ([], Err e)
  | Ok [] => ([py "Network " ++ repr_str network ++ py " not found."], Ok 1)
  | Ok (n :: _) => print_all (info_rows n) 0
  end.

(** ** A session *)

(** The [except] clauses of [cli_main]. *)
Definition report (host : str) (port : Z) (before : list str) (shown : list str * result Z) : outcome :=
  let out := before ++ fst shown in
  match snd shown with
  | Ok code => mkOutcome out [] (Ok code)
  | Err e =>
      match exc_cls e with
      | CIdentityError => mkOutcome out [py "Identity error: " ++ exc_msg e] (Ok 1)
      | CControlChannelError => mkOutcome out [py "Server error: " ++ exc_msg e] (Ok 1)
      | COSError | CConnectionError =>
          mkOutcome out [py "Cannot reach server at " ++ host ++ py ":" ++ dec port ++ py ": " ++ exc_msg e] (Ok 1)
      | _ => mkOutcome out [] (Err e)
      end
  end.

(** The [try] around the command, whose [finally] closes the channel. *)
Definition closing {A} (p : prog A) : prog A := ptry p (fun r => Atomic close (fun _ => Done r)).

(** [_run_cli_command]; [ident] is the outcome of [load_identity] with the PEM
    text of the public key, [open_ok] whether the server is reached. *)
Definition run_session {A} (ident : result (private_key * str)) (open_ok : bool) (p : prog A) : prog A :=
  match ident with
  | Err e => Done (Err e)
  | Ok (key, pem) =>
      pbind (acts (connect open_ok)) (fun _ => pbind (authenticate key pem) (fun _ => closing p))
  end.

Definition shown {A} (show : A -> list str * result Z) (r : result A) : list str * result Z :=
  match r with Ok a => show a | Err e => ([], Err e) end.

Record cli_env := mkCliEnv {
  ce_host : str;
  ce_port : Z;
  ce_ident : result (private_key * str);
  ce_open : bool;
  ce_tun : bool                               (* detect_platform().tun_mode_enabled *)
}.

(** The session [p] of a command, then what it prints. *)
Definition with_session {A} (e : cli_env) (before : list str) (session : prog A)
    (show : A -> list str * result Z) : prog outcome :=
  ptry session (fun r => Done (Ok (report (ce_host e) (ce_port e) before (shown show r)))).

Definition status_head (e : cli_env) : list str :=
  [py "Server:            " ++ ce_host e ++ py ":" ++ dec (ce_port e);
   py "TUN mode:          " ++ (if ce_tun e then py "enabled" else py "disabled");
   py "Networks:"].

(** The commands, over the way [go] to run their requests in a session. *)
Definition cli_with (go : forall A, prog A -> prog A) (e : cli_env) (c : command) : prog outcome :=
  match c with
  | CmdCreate name password t => with_session e [] (go _ (create_network name password (topology_map t))) (show_create name)
  | CmdJoin network password => with_session e [] (go _ (join_network network password)) (show_join network)
  | CmdLeave network => with_session e [] (go _ (leave_network network)) (fun _ => ([py "Left network " ++ network], Ok 0))
  | CmdList => with_session e [] (go _ list_networks) show_list
  | CmdStatus => with_session e (status_head e) (go _ list_networks) (fun nets => print_rows status_row nets 0)
  | CmdInfo network => with_session e [] (go _ list_networks) (show_info network)
  | CmdVersion => Done (Ok (mkOutcome [py "localnetwork-cli 0.1.0"] [] (Ok 0)))
  end.

Definition cli_main (e : cli_env) (c : command) : prog outcome :=
  cli_with (fun A => run_session (A := A) (ce_ident e) (ce_open e)) e c.

End Commands.

(** ** Against the mediation server *)

Section WithServer.
Context {SG : Signer} {SO : SetOrder str} {BC : NetworkManager.Bcrypt} {UN : Unicode} {RV : Auth.RsaVerifier}.
Import Server.

(** The first of the messages that [request] returns or raises for. *)
Fixpoint first_reply (expected : str) (msgs : list Message) (ch : Channel) : option (result Message) :=
  match msgs with
  | [] => None
  | m :: msgs' =>
      match judge expected m ch with
      | Return r => Some r
      | Again _ => first_reply expected msgs' ch
      end
  end.

(** What the server appends to its log for writer [w]. *)
Definition news_for (w : nat) (before after : MediationServer) : list Message :=
  omap (fun wm => if bool_decide (fst wm = w) then Some (snd wm) else None)
    (drop (length (sv_out before)) (sv_out after)).

(** A program of the authenticated client [cid], request by request; [None]
    when a request gets no reply. *)
Fixpoint serve {A} (env : Env) (cid : str) (w : nat) (p : prog A) (ch : Channel) (sv : MediationServer)
    : option (result A * Channel * MediationServer) :=
  match p with
  | Done r => Some (r, ch, sv)
  | Atomic f k => serve env cid w (k ch) (f ch) sv
  | Request m e _ k =>
      let sv' := snd (dispatch env cid w m sv) in
      match first_reply e (news_for w sv sv') ch with
      | Some r => serve env cid w (k r) ch sv'
      | None => None
      end
  end.

Lemma serve_ptry {A B} env cid w (p : prog A) (k : result A -> prog B) ch sv :
  serve env cid w (ptry p k) ch sv =
  match serve env cid w p ch sv with
  | Some (r, ch', sv') => serve env cid w (k r) ch' sv'
  | None => None
  end.
Proof.
  revert ch sv. induction p as [r|f k' IH|m e t k' IH]; intros ch sv; cbn [ptry serve]; [done|by rewrite IH|].
  destruct (first_reply _ _ _); [|done]. by rewrite IH.
Qed.

(** The row of a network as the server describes it. *)
Definition network_row (r : NetworkManager.NetworkRecord) : str :=
  py "  " ++ (NetworkManager.name r ++ replicate (24 - length (NetworkManager.name r)) 32) ++ py " "
  ++ NetworkManager.network_id r ++ py "  topology=" ++ NetworkManager.topology r
  ++ py "  members=" ++ dec (Z.of_nat (size (NetworkManager.members r))).

Lemma list_row_network r : list_row (NetworkManager.network_to_dict r None) = Ok (network_row r).
Proof. reflexivity. Qed.

Lemma print_list_rows l code :
  print_rows list_row (map (fun r => NetworkManager.network_to_dict r None) l) code
  = (map network_row l, Ok code).
Proof. induction l as [|r l IH]; [done|]. cbn [print_rows map]. by rewrite list_row_network, IH. Qed.

(** Messages as [make_message] builds them: the type is part of the payload. *)
Definition typed_message (ty : str) (payload : list (str * json)) : Message :=
  mkMessage ty ((KEY_TYPE, JStr ty) :: payload).

Definition ask_list : Message := typed_message MSG_LIST_NETWORKS [].
Definition ask_leave (network : str) : Message :=
  typed_message MSG_LEAVE_NETWORK [(py "network_id", JStr network)].

Definition listing (nets : list NetworkManager.NetworkRecord) : Message :=
  typed_message MSG_NETWORK_LIST
    [(py "networks", JList (map (fun r => NetworkManager.network_to_dict r None) nets))].

Definition refusal (code message : str) : Message :=
  typed_message MSG_ERROR [(py "code", JStr code); (py "message", JStr message)].

Definition not_member : Message :=
  refusal (py "NOT_MEMBER") (py "you are not a member of this network").

Definition fits (m : Message) : Prop := exists b, build_message m = Ok b.

Lemma reply_news w sv m : news_for w sv (set_out (sv_out sv ++ [(w, m)]) sv) = [m].
Proof. unfold news_for. destruct sv. simpl. rewrite drop_app_length. simpl. by rewrite bool_decide_true. Qed.

Lemma send_reply w m sv :
  fits m -> w ∉ sv_lost sv -> send w m sv = (Ok tt, set_out (sv_out sv ++ [(w, m)]) sv).
Proof.
  intros [b Hb] Hw. unfold send, bind, lift, gets, modify. rewrite Hb.
  by rewrite bool_decide_false.
Qed.

Lemma dispatch_reply env cid w m reply sv :
  run_command env cid w m sv = send w reply sv -> fits reply -> w ∉ sv_lost sv ->
  snd (dispatch env cid w m sv) = set_out (sv_out sv ++ [(w, reply)]) sv.
Proof. intros Hr Hf Hw. unfold dispatch, catch, bind, ret. by rewrite Hr, send_reply. Qed.

Lemma send_new_reply w cls kw m sv : make_message cls None kw = Ok m -> send_new w cls kw sv = send w m sv.
Proof. intros Hm. unfold send_new, bind, lift. by rewrite Hm. Qed.

Lemma make_listing l :
  make_message NetworkList None [(py "networks", JList l)]
  = Ok (typed_message MSG_NETWORK_LIST [(py "networks", JList l)]).
Proof. by vm_compute. Qed.

Lemma make_refusal code message :
  make_message ErrorMessage None [(py "code", JStr code); (py "message", JStr message)]
  = Ok (refusal code message).
Proof. by vm_compute. Qed.

Lemma run_list env cid w sv :
  run_command env cid w ask_list sv
  = send w (listing (NetworkManager.list_for_client (sv_networks sv) cid)) sv.
Proof.
  change (run_command env cid w ask_list sv) with (on_list_networks cid w sv).
  unfold on_list_networks, bind at 1, gets. apply send_new_reply, make_listing.
Qed.

Lemma list_networks_eq :
  list_networks = Request ask_list MSG_NETWORK_LIST false (fun r =>
    match r with
    | Ok reply => Done (iter_json (default (JList []) (dget (msg_payload reply) (py "networks"))))
    | Err e => Done (Err e)
    end).
Proof. reflexivity. Qed.

Lemma served_listing env cid w ch sv :
  let nets := NetworkManager.list_for_client (sv_networks sv) cid in
  fits (listing nets) -> w ∉ sv_lost sv ->
  serve env cid w list_networks ch sv
  = Some (Ok (map (fun r => NetworkManager.network_to_dict r None) nets), ch,
          set_out (sv_out sv ++ [(w, listing nets)]) sv).
Proof.
  intros nets Hf Hw. rewrite list_networks_eq. cbn [serve].
  by rewrite (dispatch_reply _ _ _ _ _ _ (run_list env cid w sv) Hf Hw), reply_news.
Qed.

Lemma run_leave env cid w network sv :
  network <> [] -> NetworkManager.is_member (sv_networks sv) network cid = false ->
  run_command env cid w (ask_leave network) sv = send w not_member sv.
Proof.
  intros Hn Hm. destruct network as [|c network]; [done|].
  change (run_command env cid w (ask_leave (c :: network)) sv) with (on_leave_network cid w (ask_leave (c :: network)) sv).
  unfold on_leave_network. unfold bind at 1, lift.
  change (validate_network_id (msg_payload (ask_leave (c :: network)))) with (Ok (c :: network) : result str).
  cbv beta iota. unfold bind at 1, gets. cbv beta iota.
  unfold NetworkManager.is_member in Hm. unfold NetworkManager.leave.
  destruct (NetworkManager.nm_get (sv_networks sv) (c :: network)) as [r|]; [rewrite Hm|].
  all: unfold bind, modify; cbv beta iota; destruct sv; apply send_new_reply, make_refusal.
Qed.

Lemma leave_network_eq network :
  leave_network network = Request (ask_leave network) MSG_NETWORK_LEFT false (fun r =>
    match r with Ok _ => Done (Ok tt) | Err e => Done (Err e) end).
Proof.
  unfold leave_network, request.
  assert (Hm : make_message LeaveNetwork None [(py "network_id", JStr network)] = Ok (ask_leave network))
    by by vm_compute.
  by rewrite Hm.
Qed.

Lemma served_refusal env cid w network ch sv :
  network <> [] -> NetworkManager.is_member (sv_networks sv) network cid = false -> w ∉ sv_lost sv ->
  serve env cid w (leave_network network) ch sv
  = Some (raise CControlChannelError (py "NOT_MEMBER: you are not a member of this network"), ch,
          set_out (sv_out sv ++ [(w, not_member)]) sv).
Proof.
  intros Hn Hm Hw. rewrite leave_network_eq. cbn [serve].
  assert (Hf : fits not_member) by (eexists; vm_compute; reflexivity).
  rewrite (dispatch_reply _ _ _ _ _ _ (run_leave env cid w network sv Hn Hm) Hf Hw), reply_news.
  reflexivity.
Qed.

Lemma serve_session {A} env cid w e before (p : prog A) show ch sv r ch' sv' :
  serve env cid w p ch sv = Some (r, ch', sv') ->
  serve env cid w (with_session e before (closing p) show) ch sv
  = Some (Ok (report (ce_host e) (ce_port e) before (shown show r)), close ch', sv').
Proof. intros Hp. unfold with_session, closing. by rewrite !serve_ptry, Hp. Qed.

(** ** What [info] looks for *)

Definition wanted (network : str) (r : NetworkManager.NetworkRecord) : bool :=
  bool_decide (NetworkManager.network_id r = network) || bool_decide (NetworkManager.name r = network).

Definition info_lines (r : NetworkManager.NetworkRecord) : list str :=
  [py "Name:      " ++ NetworkManager.name r; py "ID:        " ++ NetworkManager.network_id r;
   py "Owner:     " ++ NetworkManager.owner_id r; py "Topology:  " ++ NetworkManager.topology r;
   py "Members:   " ++ dec (Z.of_nat (size (NetworkManager.members r)))].

Lemma JStr_eqb a b : bool_decide (JStr a = JStr b) = bool_decide (a = b).
Proof. apply bool_decide_ext. split; [by intros [=]|by intros ->]. Qed.

Lemma matching_networks network nets :
  matching network (map (fun r => NetworkManager.network_to_dict r None) nets)
  = Ok (map (fun r => NetworkManager.network_to_dict r None) (List.filter (wanted network) nets)).
Proof.
  induction nets as [|r nets IH]; [done|]. cbn [matching map List.filter]. rewrite IH.
  unfold matches.
  change (item (NetworkManager.network_to_dict r None) (py "network_id")) with (Ok (JStr (NetworkManager.network_id r)) : result json).
  change (item (NetworkManager.network_to_dict r None) (py "name")) with (Ok (JStr (NetworkManager.name r)) : result json).
  unfold wanted. cbn [rbind]. rewrite !JStr_eqb.
  by destruct (bool_decide (_ = _)), (bool_decide (_ = _)).
Qed.

Lemma show_info_networks network nets :
  show_info network (map (fun r => NetworkManager.network_to_dict r None) nets)
  = match List.filter (wanted network) nets with
    | [] => ([py "Network " ++ repr_str network ++ py " not found."], Ok 1)
    | r :: _ => (info_lines r, Ok 0)
    end.
Proof. unfold show_info. rewrite matching_networks. by destruct (List.filter _ _). Qed.

Lemma show_list_networks nets :
  show_list (map (fun r => NetworkManager.network_to_dict r None) nets)
  = (if bool_decide (nets = []) then [py "You are not a member of any network."] else map network_row nets, Ok 0).
Proof.
  destruct nets as [|r nets]; [done|].
  rewrite bool_decide_false by done. apply (print_list_rows (r :: nets)).
Qed.

Lemma member_of_none nm cid network :
  NetworkManager.list_for_client nm cid = [] -> NetworkManager.is_member nm network cid = false.
Proof.
  intros Hn. unfold NetworkManager.is_member, NetworkManager.nm_get.
  destruct (dget _ _) as [r|] eqn:Hg; [|done]. apply bool_decide_false. intros Hr.
  assert (Hin : In r (NetworkManager.list_for_client nm cid)).
  { apply filter_In. split; [|by apply bool_decide_true].
    apply in_map_iff. exists (network, r). split; [done|].
    by apply list_elem_of_In, dget_elem. }
  by rewrite Hn in Hin.
Qed.

(** What list, info and leave print, on an authenticated connection of the
    client [cid] to this server: list one row for each network of which [cid]
    is a member, in the server's order, and info the five lines of the first
    whose id or name was asked for; both close the channel.  In no network, list
    says so (exit code 0), info finds nothing and leave fails (exit code 1
    each).  An invocation of the program draws a new id, so that the last case
    is the usual one: see [created_network_not_listed]. *)
Theorem cli_shows_membership env cid w ch sv e :
  let nets := NetworkManager.list_for_client (sv_networks sv) cid in
  let run c := serve env cid w (cli_with (@closing _) e c) ch sv in
  fits (listing nets) -> w ∉ sv_lost sv ->
  (exists sv', run CmdList = Some (Ok (mkOutcome
     (if bool_decide (nets = []) then [py "You are not a member of any network."] else map network_row nets)
     [] (Ok 0)), close ch, sv'))
  /\ (forall network, exists sv', run (CmdInfo network) = Some (Ok
        (match List.filter (wanted network) nets with
         | [] => mkOutcome [py "Network " ++ repr_str network ++ py " not found."] [] (Ok 1)
         | r :: _ => mkOutcome (info_lines r) [] (Ok 0)
         end), close ch, sv'))
  /\ (nets = [] -> forall network, network <> [] -> exists sv',
        run (CmdLeave network) = Some (Ok (mkOutcome []
          [py "Server error: NOT_MEMBER: you are not a member of this network"] (Ok 1)), close ch, sv')).
Proof.
  intros nets run Hf Hw. pose proof (served_listing env cid w ch sv Hf Hw) as Hl. fold nets in Hl.
  split_and!; [|intros network|intros Hn network Hne]; eexists; unfold run, cli_with.
  - rewrite (serve_session _ _ _ _ _ _ _ _ _ _ _ _ Hl). cbn [shown]. by rewrite show_list_networks.
  - rewrite (serve_session _ _ _ _ _ _ _ _ _ _ _ _ Hl). cbn [shown]. rewrite show_info_networks.
    by destruct (List.filter _ _).
  - rewrite (serve_session _ _ _ _ _ _ _ _ _ _ _ _
      (served_refusal env cid w network ch sv Hne (member_of_none _ _ _ Hn) Hw)). reflexivity.
Qed.

End WithServer.

(** ** Concrete sessions *)

Section Runs.
#[local] Existing Instance NetworkManager.plain_bcrypt.
#[local] Existing Instance ascii_only.
#[local] Existing Instance Auth.echo_verifier.
#[local] Existing Instance Server.str_order.
#[local] Existing Instance toy_signer.
Import Server.

Definition sample_env : cli_env := mkCliEnv (py "localhost") 54000 (Ok (tt, pem_text)) true false.

Lemma cli_shows_membership_witness :
  fits (listing (NetworkManager.list_for_client (sv_networks (snd run_alice)) a_id))
  /\ exists sv', serve env0 a_id 1 (cli_with (@closing _) sample_env CmdList) fresh (snd run_alice)
     = Some (Ok (mkOutcome [py "  lan                      net-1  topology=mesh  members=1"] [] (Ok 0)), close fresh, sv').
Proof.
  assert (Hf : fits (listing (NetworkManager.list_for_client (sv_networks (snd run_alice)) a_id)))
    by (eexists; vm_compute; reflexivity).
  split; [exact Hf|].
  destruct (cli_shows_membership env0 a_id 1 fresh (snd run_alice) sample_env Hf) as (H & _);
    [by_eval|exact H].
Defined.

(** Two invocations: the first, as the client [a_id], creates a network; the
    second draws a new id, as every [ControlChannel] without [client_id] does,
    and is told that there is none. *)
Definition second_invocation : option (list str) :=
  match serve env0 a_id 1 (cli_with (@closing _) sample_env (CmdCreate (py "home") (py "pw") (py "hub"))) fresh
          (snd (play (new_conn 1 (py "10.0.0.1", 4001)) [m_register a_id; m_auth] start)) with
  | Some (_, _, sv) =>
      match serve env0 b_id 2 (cli_with (@closing _) sample_env CmdList) fresh
              (snd (play (new_conn 2 (py "10.0.0.1", 4002)) [m_register b_id; m_auth] sv)) with
      | Some (Ok o, _, _) => Some (oc_out o)
      | _ => None
      end
  | None => None
  end.

Example created_network_not_listed :
  second_invocation = Some [py "You are not a member of any network."].
Proof. by_eval. Qed.

End Runs.

End Cli.
