(* ===== verification/Indicator.v ===== *)
(** * Status indicator of the client (src/client/status_indicator.py)

    An indicator is one of two classes over the same state: the terminal line
    and the tray icon.  What [print] writes, the icon that is shown and the
    pages that are opened are part of the state; the drawing of the icon is
    its colour.  Whether [pystray] can be imported and whether its icon starts
    are arguments. *)

From S2P Require Import Prelude PyStr.

Module Indicator.

Definition STATE_GREEN : str := py "green".
Definition STATE_YELLOW : str := py "yellow".
Definition STATE_RED : str := py "red".
Definition STATE_GRAY : str := py "gray".

Definition STATUS_TEXT : list (str * str) :=
  [(STATE_GREEN, [128994; 32] ++ py "Connected"); (STATE_YELLOW, [128993; 32] ++ py "Degraded");
   (STATE_RED, [128308; 32] ++ py "Disconnected"); (STATE_GRAY, [9898; 32] ++ py "Idle")].

Definition DEFAULT_WEB_PORT : Z := 54002.

(** The daemon as the indicator sees it: the web port of its configuration,
    if it has one, and whether its shutdown was requested. *)
Record DaemonRef := mkDaemonRef { dr_web_port : option Z; dr_shutdown : bool }.

(** [port or DEFAULT_WEB_PORT]: zero counts as missing. *)
Definition web_port (d : option DaemonRef) : Z :=
  match d with
  | None => DEFAULT_WEB_PORT
  | Some d => match dr_web_port d with
              | Some p => if p =? 0 then DEFAULT_WEB_PORT else p
              | None => DEFAULT_WEB_PORT
              end
  end.

Definition web_url (d : option DaemonRef) (path : str) : str :=
  py "http://localhost:" ++ dec (web_port d) ++ path.

Record icon := mkIcon { ic_title : str; ic_color : Z * Z * Z }.

Inductive kind :=
  | TerminalIndicator
  | SystemTrayIndicator (available : bool) (shown : option icon).

Record Indicator := mkIndicator {
  in_kind : kind;
  in_state : str;
  in_tooltip : str;
  in_daemon : option DaemonRef;
  in_output : str;                         (* written to the terminal *)
  in_opened : list str                     (* pages opened in the browser *)
}.

Definition STARTING : str := py "LocalNetwork " ++ [8212] ++ py " starting" ++ [8230].

Definition new_indicator (k : kind) : Indicator := mkIndicator k STATE_GRAY STARTING None [] [].

Definition set_daemon (d : DaemonRef) (i : Indicator) : Indicator :=
  mkIndicator (in_kind i) (in_state i) (in_tooltip i) (Some d) (in_output i) (in_opened i).
Definition set_kind (k : kind) (i : Indicator) : Indicator :=
  mkIndicator k (in_state i) (in_tooltip i) (in_daemon i) (in_output i) (in_opened i).
Definition write (s : str) (i : Indicator) : Indicator :=
  mkIndicator (in_kind i) (in_state i) (in_tooltip i) (in_daemon i) (in_output i ++ s) (in_opened i).
Definition browse (url : str) (i : Indicator) : Indicator :=
  mkIndicator (in_kind i) (in_state i) (in_tooltip i) (in_daemon i) (in_output i) (in_opened i ++ [url]).

(** The colour of a state, gray for any other text. *)
Definition color_of (state : str) : Z * Z * Z :=
  if str_eqb state STATE_GREEN then (34, 197, 94)
  else if str_eqb state STATE_YELLOW then (245, 158, 11)
  else if str_eqb state STATE_RED then (239, 68, 68)
  else (128, 128, 128).

Definition status_line (i : Indicator) : str :=
  [13] ++ default (in_state i) (dget STATUS_TEXT (in_state i)) ++ py "  " ++ in_tooltip i ++ py "  ".

Definition render (i : Indicator) : Indicator :=
  match in_kind i with
  | TerminalIndicator => write (status_line i) i
  | SystemTrayIndicator true (Some _) =>
      set_kind (SystemTrayIndicator true (Some (mkIcon (in_tooltip i) (color_of (in_state i))))) i
  | SystemTrayIndicator _ _ => i
  end.

Definition update (state tooltip : option str) (i : Indicator) : Indicator :=
  render (mkIndicator (in_kind i) (default (in_state i) state) (default (in_tooltip i) tooltip)
            (in_daemon i) (in_output i) (in_opened i)).

(** How the tray comes up: the icon runs, cannot be created, or does not run. *)
Inductive tray := Runs | NotCreated | NotRun.

Definition start (t : tray) (i : Indicator) : Indicator :=
  match in_kind i with
  | TerminalIndicator => render (update (Some STATE_GRAY) (Some STARTING) i)
  | SystemTrayIndicator false _ => i
  | SystemTrayIndicator true _ =>
      let i1 := update (Some STATE_GRAY) (Some STARTING) i in
      let new := Some (mkIcon (py "LocalNetwork") (128, 128, 128)) in
      set_kind (match t, in_kind i1 with
                | Runs, _ => SystemTrayIndicator true new
                | NotRun, _ => SystemTrayIndicator false new
                | NotCreated, SystemTrayIndicator _ shown => SystemTrayIndicator false shown
                | NotCreated, k => k
                end) i1
  end.

Definition stop (i : Indicator) : Indicator :=
  match in_kind i with
  | TerminalIndicator => write [10] i
  | SystemTrayIndicator a _ => set_kind (SystemTrayIndicator a None) i
  end.

Definition open_dashboard (i : Indicator) : Indicator := browse (web_url (in_daemon i) []) i.
Definition share_service (i : Indicator) : Indicator := browse (web_url (in_daemon i) (py "/services")) i.

Definition quit (i : Indicator) : Indicator :=
  match in_daemon i with
  | Some d => set_daemon (mkDaemonRef (dr_web_port d) true) i
  | None => i
  end.

(** ** The choice of the class *)

Definition has_display (platform : str) (getenv : str -> option str) : bool :=
  let set_ name := match getenv name with Some (_ :: _) => true | _ => false end in
  if str_eqb platform (py "linux") then set_ (py "DISPLAY") || set_ (py "WAYLAND_DISPLAY")
  else str_eqb platform (py "darwin") || str_eqb platform (py "win32").

Definition create_status_indicator (isatty : bool) (platform : str) (getenv : str -> option str)
    (pystray : bool) : Indicator :=
  if negb isatty || negb (has_display platform getenv) then new_indicator TerminalIndicator
  else if pystray then new_indicator (SystemTrayIndicator true None)
  else new_indicator TerminalIndicator.

(** ** What is shown *)

Definition is_known (state : str) : bool :=
  bool_decide (state ∈ [STATE_GREEN; STATE_YELLOW; STATE_RED; STATE_GRAY]).

(** After any update the terminal ends in the line of the current state, and a
    tray icon that is up has the title and colour of the current state. *)
Theorem update_shows state tooltip i :
  let i' := update state tooltip i in
  in_state i' = default (in_state i) state /\ in_tooltip i' = default (in_tooltip i) tooltip
  /\ match in_kind i with
     | TerminalIndicator => in_output i' = in_output i ++ status_line i'
     | SystemTrayIndicator true (Some _) =>
         in_kind i' = SystemTrayIndicator true (Some (mkIcon (in_tooltip i') (color_of (in_state i'))))
     | _ => in_kind i' = in_kind i /\ in_output i' = in_output i
     end.
Proof. destruct i as [[|[] [ic|]] st tt d out op]; cbn; done. Qed.

(** The four states are told apart, in the terminal and by colour. *)
Lemma states_distinct s1 s2 :
  is_known s1 = true -> is_known s2 = true ->
  (dget STATUS_TEXT s1 = dget STATUS_TEXT s2 \/ color_of s1 = color_of s2) -> s1 = s2.
Proof.
  unfold is_known. intros H1%bool_decide_eq_true H2%bool_decide_eq_true He.
  repeat (apply elem_of_cons in H1 as [->|H1]); try (by inversion H1);
    repeat (apply elem_of_cons in H2 as [->|H2]); try (by inversion H2); try done;
    exfalso; destruct He as [He|He]; vm_compute in He; discriminate He.
Qed.

(** A tray that cannot start shows nothing from then on, although the log says
    that the terminal is used. *)
Lemma failed_tray_shows_nothing state tooltip t i :
  in_kind i = SystemTrayIndicator true None -> t <> Runs ->
  in_kind (update state tooltip (start t i)) = in_kind (start t i)
  /\ in_output (update state tooltip (start t i)) = in_output i.
Proof. destruct i; cbn. intros -> Ht. by destruct t. Qed.

(** Starting the terminal indicator writes the same line twice. *)
Lemma terminal_starts_twice i :
  in_kind i = TerminalIndicator ->
  let line := status_line (mkIndicator TerminalIndicator STATE_GRAY STARTING (in_daemon i) [] []) in
  in_output (start Runs i) = in_output i ++ line ++ line.
Proof. destruct i; cbn. intros ->. cbn. by rewrite <- app_assoc. Qed.

(** The tray is chosen exactly on an interactive terminal with a display and
    the package. *)
Lemma tray_chosen isatty platform getenv pystray :
  in_kind (create_status_indicator isatty platform getenv pystray) = SystemTrayIndicator true None
  <-> isatty = true /\ has_display platform getenv = true /\ pystray = true.
Proof.
  unfold create_status_indicator.
  destruct isatty, (has_display platform getenv), pystray; cbn; split; naive_solver.
Qed.

(** The pages opened from the menu are pages of the panel's port. *)
Lemma menu_urls i p :
  in_daemon i = Some (mkDaemonRef (Some p) false) -> p <> 0 ->
  in_opened (share_service (open_dashboard i))
  = in_opened i ++ [py "http://localhost:" ++ dec p; py "http://localhost:" ++ dec p ++ py "/services"].
Proof.
  intros Hd Hp. unfold share_service, open_dashboard, browse. cbn [in_daemon in_opened]. rewrite Hd.
  unfold web_url, web_port. cbn [dr_web_port]. rewrite (proj2 (Z.eqb_neq p 0)) by done.
  by rewrite app_nil_r, <- app_assoc.
Qed.

End Indicator.
