(* ===== verification/Encryption.v ===== *)
(** * Tunnel encryption (src/client/encryption.py)

    X25519 key agreement, HKDF and AES-256-GCM come from the [cryptography]
    package and are parameters ([TunnelCrypto]); what the code relies on them
    for is [crypto_laws].  The nonce of [encrypt] ([os.urandom]) is an
    argument. *)

From S2P Require Import Prelude Constants.

Module Encryption.

Definition HKDF_INFO : bytes := py "localnetwork-tunnel-v1".
Definition SESSION_KEY_LENGTH : Z := 32.
Definition NONCE_LENGTH : Z := 12.
Definition TAG_LENGTH : Z := 16.

Class TunnelCrypto := {
  x_private : Type;
  x_public : Type;
  x_public_key : x_private -> x_public;
  x_public_bytes : x_public -> bytes;                  (* raw encoding *)
  x_from_public_bytes : bytes -> result x_public;
  x_exchange : x_private -> x_public -> result bytes;
  hkdf_sha256 : bytes -> bytes -> bytes;               (* info, key material *)
  aesgcm_encrypt : bytes -> bytes -> bytes -> bytes -> result bytes; (* key nonce data ad *)
  aesgcm_decrypt : bytes -> bytes -> bytes -> bytes -> result bytes
}.

(** The documented behaviour of the primitives: public keys are 32 bytes and
    decode to themselves, both sides of an exchange get the same secret, HKDF
    returns the length asked for, GCM encrypts under a key of 32 bytes and a
    nonce of 12 whatever is shorter than 2^31 bytes, decryption inverts it
    under the same key, nonce and associated data, and the tag has 16 bytes. *)
Record crypto_laws `{TC : TunnelCrypto} : Prop := {
  law_public_length p : zlen (x_public_bytes p) = 32;
  law_public_decode p : x_from_public_bytes (x_public_bytes p) = Ok p;
  law_exchange a b : x_exchange a (x_public_key b) = x_exchange b (x_public_key a);
  law_hkdf_length i s : zlen (hkdf_sha256 i s) = SESSION_KEY_LENGTH;
  law_gcm_ok k n d ad :
    zlen k = SESSION_KEY_LENGTH -> zlen n = NONCE_LENGTH -> zlen d < 2 ^ 31 -> zlen ad < 2 ^ 31 ->
    exists sealed, aesgcm_encrypt k n d ad = Ok sealed;
  law_gcm k n d ad sealed :
    aesgcm_encrypt k n d ad = Ok sealed ->
    aesgcm_decrypt k n sealed ad = Ok d /\ zlen sealed = zlen d + TAG_LENGTH
}.
Arguments crypto_laws : clear implicits.

Section Ops.
Context {TC : TunnelCrypto}.

Definition ecdh_public_bytes (priv : x_private) : bytes := x_public_bytes (x_public_key priv).

Definition ecdh_public_from_bytes (data : bytes) : result x_public :=
  if negb (zlen data =? 32) then raise CEncryptionError []
  else x_from_public_bytes data.

Definition derive_session_key (ours : x_private) (peer : x_public) : result bytes :=
  let? shared := x_exchange ours peer in Ok (hkdf_sha256 HKDF_INFO shared).

Definition derive_session_key_from_bytes (ours : x_private) (peer_bytes : bytes) : result bytes :=
  let? peer := ecdh_public_from_bytes peer_bytes in derive_session_key ours peer.

(** [CipherContext(session_key)]: the context holds the key. *)
Definition cipher_context (session_key : bytes) : result bytes :=
  if negb (zlen session_key =? SESSION_KEY_LENGTH) then raise CEncryptionError []
  else Ok session_key.

Definition encrypt (key nonce plaintext ad : bytes) : result (bytes * bytes) :=
  let? sealed := aesgcm_encrypt key nonce plaintext ad in
  let cut := (length sealed - Z.to_nat TAG_LENGTH)%nat in
  Ok (nonce ++ take cut sealed, drop cut sealed).

Definition decrypt (key ciphertext tag ad : bytes) : result bytes :=
  if zlen ciphertext <? NONCE_LENGTH then raise CDecryptionError []
  else
    let nonce := take (Z.to_nat NONCE_LENGTH) ciphertext in
    let body := drop (Z.to_nat NONCE_LENGTH) ciphertext in
    match aesgcm_decrypt key nonce (body ++ tag) ad with
    | Ok p => Ok p
    | Err e =>
        if bool_decide (exc_cls e = CInvalidTag) then raise CDecryptionError [] else Err e
    end.

Definition encrypt_full (key nonce plaintext ad : bytes) : result bytes :=
  let? (c, t) := encrypt key nonce plaintext ad in Ok (c ++ t).

(** ** Theorems *)

Context (Hlaws : crypto_laws TC).

(** The receiver recovers the plaintext; the parts have the sizes the frame
    layout expects. *)
Lemma encrypt_decrypt key nonce plaintext ad c t :
  zlen nonce = NONCE_LENGTH -> encrypt key nonce plaintext ad = Ok (c, t) ->
  decrypt key c t ad = Ok plaintext /\ zlen t = TAG_LENGTH
  /\ zlen c = NONCE_LENGTH + zlen plaintext.
Proof.
  intros Hn H. unfold encrypt in H. inv_bind H. apply Ok_inj in H. simplify_eq.
  destruct (law_gcm Hlaws _ _ _ _ _ Ha) as [Hd Hl]. unfold NONCE_LENGTH, TAG_LENGTH, zlen in *.
  assert (Hnl : length nonce = Z.to_nat 12) by lia.
  split_and!.
  - unfold decrypt, NONCE_LENGTH. unfold zlen. rewrite length_app. decide_Z.
    rewrite take_app_length', drop_app_length' by done. rewrite take_drop, Hd. done.
  - rewrite length_drop. simpl Z.to_nat. lia.
  - rewrite length_app, length_take. simpl Z.to_nat. lia.
Qed.

(** Key agreement: whatever the two ephemeral keys are, both ends of a
    tunnel derive the same outcome from each other's encoded public key, and
    a derived key is always accepted by [CipherContext]. *)
Theorem session_keys_agree a b :
  derive_session_key_from_bytes a (ecdh_public_bytes b)
    = derive_session_key_from_bytes b (ecdh_public_bytes a)
  /\ forall k, derive_session_key_from_bytes a (ecdh_public_bytes b) = Ok k -> cipher_context k = Ok k.
Proof.
  assert (Hd : forall x y, derive_session_key_from_bytes x (ecdh_public_bytes y)
    = let? shared := x_exchange x (x_public_key y) in Ok (hkdf_sha256 HKDF_INFO shared)).
  { intros x y. unfold derive_session_key_from_bytes, ecdh_public_from_bytes, ecdh_public_bytes.
    rewrite (law_public_length Hlaws). simpl. by rewrite (law_public_decode Hlaws). }
  rewrite !Hd, (law_exchange Hlaws). split; [done|]. intros k H. inv_bind H. apply Ok_inj in H.
  subst k. unfold cipher_context. by rewrite (law_hkdf_length Hlaws).
Qed.
End Ops.

(** ** A concrete instance that satisfies the laws

    Keys are numbers, the shared secret their product, and sealing appends a
    tag of zeros: enough to evaluate the definitions. *)
Definition zero_tag : bytes := replicate 16 0.

Definition toy_crypto : TunnelCrypto := {|
  x_private := Z;
  x_public := Z;
  x_public_key a := a;
  x_public_bytes p := p :: replicate 31 0;
  x_from_public_bytes b := match b with p :: _ => Ok p | [] => raise CValueError [] end;
  x_exchange a b := Ok [a * b];
  hkdf_sha256 _ s := match s with x :: _ => x :: replicate 31 7 | [] => replicate 32 7 end;
  aesgcm_encrypt k n d ad := Ok (d ++ zero_tag);
  aesgcm_decrypt k n s ad :=
    if bool_decide (drop (length s - 16) s = zero_tag)
    then Ok (take (length s - 16) s) else raise CInvalidTag []
|}.

Lemma toy_laws : crypto_laws toy_crypto.
Proof.
  constructor.
  - done.
  - done.
  - intros a b. simpl. by rewrite Z.mul_comm.
  - intros i [|x s]; done.
  - intros k n d ad _ _ _ _. by eexists.
  - intros k n d ad sealed [= <-]. simpl. unfold zlen. rewrite length_app.
    change (length zero_tag) with 16%nat. rewrite Nat.add_sub, drop_app_length, take_app_length, bool_decide_true by done.
    split; [done|]. unfold TAG_LENGTH. lia.
Qed.

Lemma session_keys_agree_witness :
  derive_session_key_from_bytes (TC := toy_crypto) 3 (ecdh_public_bytes (TC := toy_crypto) 5)
  = derive_session_key_from_bytes (TC := toy_crypto) 5 (ecdh_public_bytes (TC := toy_crypto) 3).
Proof. exact (proj1 (session_keys_agree (TC := toy_crypto) toy_laws 3 5)). Defined.
End Encryption.
