(* ===== verification/NatTraversal.v ===== *)
(** * Hole punching and STUN (src/client/nat_traversal.py)

    A punching loop alternates a look at the clock with one [recvfrom]; its
    input is the trace of these, its output the datagrams sent.  The loop is
    defined by recursion on the trace, and answers [None] when the trace ends
    before the loop does.  [can_send] tells for which addresses [sendto] does
    not raise [OSError].  Binding sockets is the operating system's. *)

From S2P Require Import Prelude Constants PyStr Frame.
Import Frame.

Module NatTraversal.

Abbreviation addr := (str * Z)%type (only parsing).

Definition UDP_RECV_BUFFER : Z := MAX_FRAME_PAYLOAD + 32.

Inductive PunchState := IDLE | PUNCHING | CONNECTED | FAILED | CLOSED.
#[global] Instance PunchState_eq_dec : EqDecision PunchState.
Proof. solve_decision. Defined.

Inductive NatType := OPEN | FULL_CONE | RESTRICTED | PORT_RESTRICTED | SYMMETRIC | UNKNOWN.

(** [ValueError] covers every exception [unpack_frame] raises. *)
Definition is_frame_type (data : bytes) (expected : Z) : bool :=
  match unpack_frame data with
  | Ok (h, _, _) => fh_type h =? expected
  | Err _ => false
  end.

Definition try_extract_payload (data : bytes) : bytes :=
  match unpack_frame data with Ok (_, payload, _) => payload | Err _ => [] end.

(** [NatTraversal.__init__]. *)
Record NatConfig := mkNatConfig { port_low : Z; port_high : Z; punch_timeout : Z; punch_retries : Z }.

Definition nat_init (low high timeout retries : Z) : result NatConfig :=
  if (0 <? low) && (low <=? high) && (high <? 65536)
  then Ok (mkNatConfig low high timeout retries)
  else raise CValueError [].

(** [bind_udp_socket] on the shuffled candidate ports: the first of at most 64
    that binds. *)
Fixpoint bind_first (binds : Z -> bool) (ports : list Z) : option Z :=
  match ports with
  | [] => None
  | p :: ps => if binds p then Some p else bind_first binds ps
  end.

Definition bind_udp_socket (binds : Z -> bool) (shuffled : list Z) : result Z :=
  match bind_first binds (take 64 shuffled) with
  | Some p => Ok p
  | None => raise COSError []
  end.

Inductive udp_event :=
  | UTimeout
  | UError
  | UData (data : bytes) (from : addr).

Definition datagrams := list (addr * bytes).

Section Punch.
Context (can_send : addr -> bool).

(** [_send_to_all]: an address that fails is skipped. *)
Definition send_to_all (frame : bytes) (eps : list addr) : datagrams :=
  map (fun a => (a, frame)) (List.filter can_send eps).

(** [sock.sendto(frame, addr)] outside a [try]. *)
Definition send_to (frame : bytes) (a : addr) : result datagrams :=
  if can_send a then Ok [(a, frame)] else raise COSError [].

Definition punch_outcome := (bool * option addr * bytes)%type.

(** The loop of [punch_peer]: the outcome, and the datagrams sent. *)
Fixpoint punch_loop (punch : bytes) (eps : list addr) (deadline : time)
    (trace : list (time * udp_event)) : option (result punch_outcome) * datagrams :=
  match trace with
  | [] => (None, [])
  | (now, ev) :: rest =>
      if negb (now <? deadline) then (Some (Ok (false, None, [])), [])
      else
        match ev with
        | UTimeout =>
            let (r, out) := punch_loop punch eps deadline rest in
            (r, send_to_all punch eps ++ out)
        | UError => (Some (Ok (false, None, [])), [])
        | UData data from =>
            if is_frame_type data FRAME_PUNCH_ACK
            then (Some (Ok (true, Some from, try_extract_payload data)), [])
            else
              match unpack_frame data with
              | Err _ => punch_loop punch eps deadline rest
              | Ok (h, _, _) =>
                  if fh_type h =? 2 then
                    match make_punch_ack_frame 0 [] with
                    | Err e => (Some (Err e), [])
                    | Ok ack =>
                        match send_to ack from with
                        | Err e => (Some (Err e), [])
                        | Ok out => (Some (Ok (true, Some from, try_extract_payload data)), out)
                        end
                    end
                  else punch_loop punch eps deadline rest
              end
        end
  end.

Definition punch_peer (start timeout : time) (eps : list addr) (ecdh_pubkey : bytes)
    (trace : list (time * udp_event)) : option (result punch_outcome) * datagrams :=
  match eps with
  | [] => (Some (Ok (false, None, [])), [])
  | _ =>
      match make_punch_frame 0 ecdh_pubkey with
      | Err e => (Some (Err e), [])
      | Ok punch =>
          let (r, out) := punch_loop punch eps (start + timeout) trace in
          (r, send_to_all punch eps ++ out)
      end
  end.

(** The loop of [accept_punch]. *)
Fixpoint accept_loop (ecdh_pubkey : bytes) (deadline : time) (trace : list (time * udp_event))
    : option (result (option (addr * bytes))) * datagrams :=
  match trace with
  | [] => (None, [])
  | (now, ev) :: rest =>
      if negb (now <? deadline) then (Some (Ok None), [])
      else
        match ev with
        | UTimeout | UError => (Some (Ok None), [])
        | UData data from =>
            if is_frame_type data 2 then
              match (let? ack := make_punch_ack_frame 0 ecdh_pubkey in send_to ack from) with
              | Ok out => (Some (Ok (Some (from, try_extract_payload data))), out)
              | Err e => (Some (Err e), [])
              end
            else accept_loop ecdh_pubkey deadline rest
        end
  end.

Definition accept_punch (start timeout : time) (ecdh_pubkey : bytes)
    (trace : list (time * udp_event)) : option (result (option (addr * bytes))) * datagrams :=
  accept_loop ecdh_pubkey (start + timeout) trace.
End Punch.

(** ** STUN (RFC 5389) *)

Definition STUN_MAGIC_COOKIE : Z := 554869826.       (* 0x2112A442 *)
Definition STUN_BINDING : Z := 1.
Definition ATTR_XOR_MAPPED_ADDRESS : Z := 32.

Definition stun_binding_request (transaction : bytes) : bytes :=
  be_encode 2 STUN_BINDING ++ be_encode 2 0 ++ be_encode 4 STUN_MAGIC_COOKIE ++ transaction.

(** [socket.inet_ntoa] of four bytes. *)
Definition inet_ntoa (b : bytes) : result str :=
  if negb (zlen b =? 4) then raise COSError [] else Ok (join [46] (map dec b)).

Fixpoint xor_bytes (a b : bytes) : bytes :=
  match a, b with
  | x :: a', y :: b' => Z.lxor x y :: xor_bytes a' b'
  | _, _ => []
  end.

(** The value of the attribute: [value[1]] raises [IndexError] on a value of
    fewer than two bytes, [struct.unpack] on fewer than four. *)
Definition parse_xor_mapped (value : bytes) : result (str * Z) :=
  match value !! 1%nat with
  | None => raise CIndexError []
  | Some family =>
      let xp := slice 2 4 value in
      if negb (zlen xp =? 2) then raise CStructError []
      else
        let port := Z.lxor (be_decode xp) (Z.shiftr STUN_MAGIC_COOKIE 16) in
        if family =? 1 then
          let? ip := inet_ntoa (xor_bytes (slice 4 8 value) (be_encode 4 STUN_MAGIC_COOKIE)) in
          Ok (ip, port)
        else raise CValueError (py "IPv6 XOR-MAPPED-ADDRESS unsupported")
  end.

(** The attribute loop; every turn advances by at least four bytes, so the
    length of the data is enough fuel ([stun_attributes_fuel]). *)
Fixpoint stun_attributes (fuel : nat) (data : bytes) (pos stop : Z) : result (str * Z) :=
  match fuel with
  | O => raise CValueError (py "no XOR-MAPPED-ADDRESS in stun response")
  | S f =>
      if negb (pos + 4 <=? stop)
      then raise CValueError (py "no XOR-MAPPED-ADDRESS in stun response")
      else
        let p := Z.to_nat pos in
        let attr_type := be_decode (slice p (p + 2) data) in
        let attr_len := be_decode (slice (p + 2) (p + 4) data) in
        let value_start := pos + 4 in
        let value_end := value_start + attr_len in
        if value_end >? stop
        then raise CValueError (py "no XOR-MAPPED-ADDRESS in stun response")
        else if attr_type =? ATTR_XOR_MAPPED_ADDRESS
        then parse_xor_mapped (slice (Z.to_nat value_start) (Z.to_nat value_end) data)
        else stun_attributes f data (value_end + (4 - attr_len mod 4) mod 4) stop
  end.

Definition parse_stun_mapped_address (data transaction : bytes) : result (str * Z) :=
  if zlen data <? 20 then raise CValueError (py "stun response too short")
  else
    let length_ := be_decode (slice 2 4 data) in
    if negb (bool_decide (slice 8 20 data = transaction))
    then raise CValueError (py "stun transaction id mismatch")
    else stun_attributes (length data) data 20 (Z.min (zlen data) (20 + length_)).

(** [determine_nat_type] on the answers of the three probes ([None] where a
    probe failed; an exception of a probe is [UNKNOWN]). *)
Definition determine_nat_type (m1 m2 m3 : result (option (str * Z))) : NatType :=
  match m1 with
  | Ok (Some a1) =>
      match m2 with
      | Ok (Some a2) =>
          if negb (snd a2 =? snd a1) then SYMMETRIC
          else
            match m3 with
            | Ok (Some a3) =>
                if negb (bool_decide (fst a3 = fst a1)) || negb (snd a3 =? snd a1)
                then PORT_RESTRICTED else FULL_CONE
            | Ok None => RESTRICTED
            | Err _ => UNKNOWN
            end
      | _ => UNKNOWN
      end
  | _ => UNKNOWN
  end.

(** [_stun_probe]: [reply] is what [sendto] and [recvfrom] of its socket give.
    Any other exception leaves the method. *)
Definition stun_probe (transaction : bytes) (reply : result bytes) : result (option (str * Z)) :=
  match (let? data := reply in parse_stun_mapped_address data transaction) with
  | Ok a => Ok (Some a)
  | Err e =>
      match exc_cls e with
      | COSError | CConnectionError | CTimeoutError | CStructError => Ok None
      | _ => if is_ValueError e then Ok None else Err e
      end
  end.

(** ** Theorems *)

Lemma be_decode_nonneg_bytes l : Forall is_byte l -> 0 <= be_decode l.
Proof. intros H. apply be_decode_bound in H. lia. Qed.

Lemma Forall_slice {A} (P : A -> Prop) a b l : Forall P l -> Forall P (slice a b l).
Proof. intros. unfold slice. by apply Forall_take, Forall_drop. Qed.

(** The attribute loop terminates on its own: more fuel than the number of
    bytes left changes nothing. *)
Lemma stun_attributes_fuel fuel : forall f' data pos stop,
  Forall is_byte data -> 0 <= pos -> stop - pos < Z.of_nat fuel -> (fuel <= f')%nat ->
  stun_attributes fuel data pos stop = stun_attributes f' data pos stop.
Proof.
  induction fuel as [|f IH]; intros [|f'] data pos stop Hb Hp Hl Hf; try lia; cbn [stun_attributes].
  - done.
  - destruct (Z.leb_spec (pos + 4) stop); [lia|done].
  - destruct (Z.leb_spec (pos + 4) stop) as [H4|]; [|done]. simpl.
    set (alen := be_decode (slice (Z.to_nat pos + 2) (Z.to_nat pos + 4) data)).
    assert (0 <= alen) by (by apply be_decode_nonneg_bytes, Forall_slice).
    destruct (pos + 4 + alen >? stop); [done|]. destruct (_ =? _); [done|].
    apply IH; [done|dlia|dlia|lia].
Qed.

(** A binding response with the one attribute, as RFC 5389 encodes it. *)
Definition stun_response (transaction : bytes) (ip : bytes) (port : Z) : bytes :=
  be_encode 2 257 ++ be_encode 2 12 ++ be_encode 4 STUN_MAGIC_COOKIE ++ transaction
  ++ be_encode 2 ATTR_XOR_MAPPED_ADDRESS ++ be_encode 2 8
  ++ [0; 1] ++ be_encode 2 (Z.lxor port (Z.shiftr STUN_MAGIC_COOKIE 16))
  ++ xor_bytes ip (be_encode 4 STUN_MAGIC_COOKIE).

Lemma xor_bytes_invol a k : length a = length k -> xor_bytes (xor_bytes a k) k = a.
Proof.
  revert k. induction a as [|x a IH]; intros [|y k] H; try done. simpl in *.
  rewrite Z.lxor_assoc, Z.lxor_nilpotent, Z.lxor_0_r, IH by lia. done.
Qed.

Lemma length_xor_bytes a k : length a = length k -> length (xor_bytes a k) = length a.
Proof. revert k. induction a; intros [|y k] H; simpl in *; try done. f_equal. auto with lia. Qed.

Lemma lxor_u16 a b : 0 <= a < 65536 -> 0 <= b < 65536 -> 0 <= Z.lxor a b < 65536.
Proof.
  intros Ha Hb. assert (Hn : 0 <= Z.lxor a b) by (apply Z.lxor_nonneg; lia). split; [done|].
  destruct (decide (Z.lxor a b = 0)) as [->|Hne]; [lia|].
  apply (Z.log2_lt_pow2 _ 16); [lia|]. eapply Z.le_lt_trans; [apply Z.log2_lxor; lia|].
  apply Z.max_lub_lt; (destruct (decide (a = 0)), (decide (b = 0)); subst; try done;
    apply Z.log2_lt_pow2; lia).
Qed.

(** STUN: a well-formed binding response is decoded to the address it
    carries: the port and the four octets survive the XOR with the magic
    cookie, for every transaction, address and port. *)
Theorem stun_roundtrip transaction ip port :
  length transaction = 12%nat -> length ip = 4%nat -> 0 <= port < 65536 ->
  parse_stun_mapped_address (stun_response transaction ip port) transaction
    = Ok (join [46] (map dec ip), port).
Proof.
  intros Ht Hi Hp. set (xport := Z.lxor port (Z.shiftr STUN_MAGIC_COOKIE 16)).
  assert (Hx : 0 <= xport < 65536) by (apply lxor_u16; [done|by vm_compute]).
  set (xip := xor_bytes ip (be_encode 4 STUN_MAGIC_COOKIE)).
  assert (Hxl : length xip = 4%nat) by (unfold xip; rewrite length_xor_bytes; by rewrite ?length_be_encode).
  assert (Hxx : xor_bytes xip (be_encode 4 STUN_MAGIC_COOKIE) = ip).
  { apply xor_bytes_invol. by rewrite length_be_encode. }
  assert (Hport : Z.lxor xport (Z.shiftr STUN_MAGIC_COOKIE 16) = port).
  { unfold xport. by rewrite Z.lxor_assoc, Z.lxor_nilpotent, Z.lxor_0_r. }
  assert (Hxb : be_decode (be_encode 2 xport) = xport) by (by apply be_decode_encode_small).
  unfold stun_response. fold xport xip. clearbody xport xip.
  destruct transaction as [|t1 [|t2 [|t3 [|t4 [|t5 [|t6 [|t7 [|t8 [|t9 [|t10 [|t11 [|t12 [|]]]]]]]]]]]]];
    try discriminate Ht.
  destruct xip as [|x1 [|x2 [|x3 [|x4 [|]]]]]; try discriminate Hxl.
  remember (be_encode 2 xport) as xpb eqn:Hxpb.
  assert (Hpl : length xpb = 2%nat) by (subst; apply length_be_encode).
  destruct xpb as [|p1 [|p2 [|]]]; try discriminate Hpl.
  change (be_encode 2 257) with [1; 1]. change (be_encode 2 12) with [0; 12].
  change (be_encode 4 STUN_MAGIC_COOKIE) with [33; 18; 164; 66] in *.
  change (be_encode 2 ATTR_XOR_MAPPED_ADDRESS) with [0; 32]. change (be_encode 2 8) with [0; 8].
  match goal with |- parse_stun_mapped_address ?d _ = _ => set (data := d) end.
  assert (Hlen : zlen data = 32) by done.
  unfold parse_stun_mapped_address. rewrite Hlen. simpl (32 <? 20). cbv iota.
  change (slice 2 4 data) with [0; 12]. change (slice 8 20 data) with [t1; t2; t3; t4; t5; t6; t7; t8; t9; t10; t11; t12].
  rewrite bool_decide_true by done. simpl negb. cbv iota zeta.
  change (Z.min 32 (20 + be_decode [0; 12])) with 32. change (length data) with (S 31).
  assert (Hv : slice 24 32 data = [0; 1; p1; p2; x1; x2; x3; x4]) by done.
  assert (Ha : slice 20 22 data = [0; 32]) by done. assert (Hl : slice 22 24 data = [0; 8]) by done.
  clearbody data. generalize 31%nat as f. intros f. cbn [stun_attributes]. simpl (negb (20 + 4 <=? 32)). cbv iota zeta.
  change (Z.to_nat 20) with 20%nat. change (20 + 2)%nat with 22%nat. change (20 + 4)%nat with 24%nat.
  rewrite Ha, Hl. change (be_decode [0; 8]) with 8. change (be_decode [0; 32]) with 32.
  change (20 + 4 + 8 >? 32) with false. change (32 =? ATTR_XOR_MAPPED_ADDRESS) with true. cbv iota.
  change (Z.to_nat (20 + 4)) with 24%nat. change (Z.to_nat (20 + 4 + 8)) with 32%nat. rewrite Hv.
  unfold parse_xor_mapped. change (be_encode 4 STUN_MAGIC_COOKIE) with [33; 18; 164; 66].
  change (slice 4 8 [0; 1; p1; p2; x1; x2; x3; x4]) with [x1; x2; x3; x4].
  change (slice 2 4 [0; 1; p1; p2; x1; x2; x3; x4]) with [p1; p2].
  change ([0; 1; p1; p2; x1; x2; x3; x4] !! 1%nat) with (Some 1). cbv beta iota zeta.
  change (negb (zlen [p1; p2] =? 2)) with false. change (1 =? 1) with true. cbv iota.
  rewrite Hxx, Hxb, Hport. unfold inet_ntoa, zlen. rewrite Hi. reflexivity.
Qed.

Lemma stun_roundtrip_witness :
  parse_stun_mapped_address (stun_response [1;2;3;4;5;6;7;8;9;10;11;12] [192;0;2;7] 4242)
    [1;2;3;4;5;6;7;8;9;10;11;12] = Ok (py "192.0.2.7", 4242).
Proof. apply stun_roundtrip; [reflexivity|reflexivity|lia]. Defined.

(** ** The classification *)

(** Three probes, each from a socket of its own, through a translator that
    gives a local port and a destination port an external address. *)
Definition classify (nat_ : Z -> Z -> bytes * Z) (t1 t2 t3 : bytes) (l1 l2 l3 dst : Z) : NatType :=
  let probe t l d := let (ip, port) := nat_ l d in stun_probe t (Ok (stun_response t ip port)) in
  determine_nat_type (probe t1 l1 dst) (probe t2 l2 dst) (probe t3 l3 (dst + 1)).

(** A translator that does not look at the destination and keeps different
    local ports apart, which is what a full cone does and what no translation
    at all does, is called symmetric: the probes do not share a socket. *)
Theorem cone_called_symmetric ip ext t1 t2 t3 l1 l2 l3 dst :
  Forall (fun t => length t = 12%nat) [t1; t2; t3] -> length ip = 4%nat ->
  Forall (fun l => 0 <= ext l < 65536) [l1; l2; l3] -> ext l1 <> ext l2 ->
  classify (fun l _ => (ip, ext l)) t1 t2 t3 l1 l2 l3 dst = SYMMETRIC.
Proof.
  intros Ht Hip Hext Hne. repeat (apply Forall_cons in Ht as [? Ht]). repeat (apply Forall_cons in Hext as [? Hext]).
  unfold classify, stun_probe. cbn [rbind]. rewrite !stun_roundtrip by done. unfold determine_nat_type. cbn [fst snd].
  rewrite (proj2 (Z.eqb_neq _ _)); [done|congruence].
Qed.

(** Without any translation, from the ports 40001 and 40002. *)
Lemma cone_called_symmetric_witness :
  classify (fun l _ => ([192; 0; 2; 7], l)) (replicate 12 1) (replicate 12 2) (replicate 12 3) 40001 40002 40003 3478
  = SYMMETRIC.
Proof.
  apply (cone_called_symmetric [192; 0; 2; 7] (fun l => l)); [repeat constructor|reflexivity|repeat constructor; lia|lia].
Defined.
End NatTraversal.
