(* ===== verification/Tunnel.v ===== *)
(** * Tunnels (src/client/tunnel_manager.py, src/client/keepalive.py)

    A [PeerTunnel] is a mutable object that the manager's table and its
    callers share, so tunnels live in a store, and the table maps peer ids to
    references.  Sockets are numbers; [sendto] either succeeds or raises
    [OSError], as the argument [up] says, and the datagrams that leave are
    part of the results.  [create_tunnel] and [accept_tunnel] suspend while
    the punching runs in another thread, and are two functions each: up to
    the punching, and from its outcome on. *)

From S2P Require Import Prelude Constants PyStr Frame Encryption NatTraversal.
Import Frame Encryption NatTraversal.

Module Tunnel.

Section Tunnels.
Context {TC : TunnelCrypto}.

Record PeerTunnel := mkPeerTunnel {
  pt_peer_id : str;
  pt_peer_ip : str;
  pt_state : PunchState;
  pt_socket : option nat;
  pt_cipher : option bytes;
  pt_last_rx : time;
  pt_tx_seq : Z;
  pt_rx_seq : Z;
  pt_remote_addr : option addr;
  pt_fallback_relay : bool;
  pt_ecdh_private : option x_private
}.

Definition alive (t : PeerTunnel) : bool :=
  match pt_state t with PUNCHING | CONNECTED => true | _ => false end.

Definition is_connected (t : PeerTunnel) : bool :=
  match pt_state t with CONNECTED => true | _ => false end.

Definition set_state (x : PunchState) (t : PeerTunnel) : PeerTunnel :=
  mkPeerTunnel (pt_peer_id t) (pt_peer_ip t) x (pt_socket t) (pt_cipher t) (pt_last_rx t)
    (pt_tx_seq t) (pt_rx_seq t) (pt_remote_addr t) (pt_fallback_relay t) (pt_ecdh_private t).
Definition set_socket (x : option nat) (t : PeerTunnel) : PeerTunnel :=
  mkPeerTunnel (pt_peer_id t) (pt_peer_ip t) (pt_state t) x (pt_cipher t) (pt_last_rx t)
    (pt_tx_seq t) (pt_rx_seq t) (pt_remote_addr t) (pt_fallback_relay t) (pt_ecdh_private t).
Definition set_cipher (x : option bytes) (t : PeerTunnel) : PeerTunnel :=
  mkPeerTunnel (pt_peer_id t) (pt_peer_ip t) (pt_state t) (pt_socket t) x (pt_last_rx t)
    (pt_tx_seq t) (pt_rx_seq t) (pt_remote_addr t) (pt_fallback_relay t) (pt_ecdh_private t).
Definition set_last_rx (x : time) (t : PeerTunnel) : PeerTunnel :=
  mkPeerTunnel (pt_peer_id t) (pt_peer_ip t) (pt_state t) (pt_socket t) (pt_cipher t) x
    (pt_tx_seq t) (pt_rx_seq t) (pt_remote_addr t) (pt_fallback_relay t) (pt_ecdh_private t).
Definition set_tx_seq (x : Z) (t : PeerTunnel) : PeerTunnel :=
  mkPeerTunnel (pt_peer_id t) (pt_peer_ip t) (pt_state t) (pt_socket t) (pt_cipher t)
    (pt_last_rx t) x (pt_rx_seq t) (pt_remote_addr t) (pt_fallback_relay t) (pt_ecdh_private t).
Definition set_rx_seq (x : Z) (t : PeerTunnel) : PeerTunnel :=
  mkPeerTunnel (pt_peer_id t) (pt_peer_ip t) (pt_state t) (pt_socket t) (pt_cipher t)
    (pt_last_rx t) (pt_tx_seq t) x (pt_remote_addr t) (pt_fallback_relay t) (pt_ecdh_private t).
Definition set_remote_addr (x : option addr) (t : PeerTunnel) : PeerTunnel :=
  mkPeerTunnel (pt_peer_id t) (pt_peer_ip t) (pt_state t) (pt_socket t) (pt_cipher t)
    (pt_last_rx t) (pt_tx_seq t) (pt_rx_seq t) x (pt_fallback_relay t) (pt_ecdh_private t).
Definition set_fallback_relay (x : bool) (t : PeerTunnel) : PeerTunnel :=
  mkPeerTunnel (pt_peer_id t) (pt_peer_ip t) (pt_state t) (pt_socket t) (pt_cipher t)
    (pt_last_rx t) (pt_tx_seq t) (pt_rx_seq t) (pt_remote_addr t) x (pt_ecdh_private t).

(** ** Data plane of one tunnel *)

(** The frame [send_data] builds: encrypted when there is a cipher. *)
Definition data_frame (t : PeerTunnel) (nonce packet : bytes) (seq : Z) : result bytes :=
  match pt_cipher t with
  | Some key =>
      let? (ciphertext, tag) := encrypt key nonce packet [] in
      pack_frame FRAME_DATA ciphertext seq FRAME_VERSION (Some tag)
  | None => pack_frame FRAME_DATA packet seq FRAME_VERSION None
  end.

Definition send_data (t : PeerTunnel) (nonce packet : bytes) (up : bool)
    : result Z * PeerTunnel * datagrams :=
  if negb (is_connected t) then (Ok 0, t, [])
  else
    match pt_socket t, pt_remote_addr t with
    | Some _, Some a =>
        let t1 := set_tx_seq (pt_tx_seq t + 1) t in
        match data_frame t1 nonce packet (pt_tx_seq t1) with
        | Err e => (Err e, t1, [])
        | Ok frame => if up then (Ok (zlen frame), t1, [(a, frame)]) else (Ok 0, t1, [])
        end
    | _, _ => (Ok 0, t, [])
    end.

Definition send_keepalive (t : PeerTunnel) (up : bool) : result bool * datagrams :=
  if negb (is_connected t) then (Ok false, [])
  else
    match pt_socket t, pt_remote_addr t with
    | Some _, Some a =>
        match make_keepalive_frame (pt_tx_seq t) with
        | Err e => (Err e, [])
        | Ok frame => if up then (Ok true, [(a, frame)]) else (Ok false, [])
        end
    | _, _ => (Ok false, [])
    end.

Definition handle_frame (t : PeerTunnel) (data : bytes) (from : addr) (now : time) (up : bool)
    : option bytes * PeerTunnel * datagrams :=
  match unpack_frame data with
  | Err _ => (None, t, [])
  | Ok (header, payload, tag) =>
      let ty := fh_type header in
      if ty =? FRAME_DATA then
        match (match pt_cipher t with
               | Some key => decrypt key payload tag []
               | None => Ok payload
               end) with
        | Err _ => (None, t, [])
        | Ok plaintext =>
            let t1 := set_last_rx now (set_rx_seq (fh_seq_num header) t) in
            (Some plaintext, set_remote_addr (Some from) t1, [])
        end
      else if ty =? FRAME_KEEPALIVE then (None, set_last_rx now t, [])
      else if ty =? FRAME_CLOSE then (None, set_state CLOSED t, [])
      else if ty =? FRAME_PUNCH then
        match pt_socket t, make_punch_ack_frame 0 [] with
        | Some _, Ok ack => (None, t, if up then [(from, ack)] else [])
        | _, _ => (None, t, [])
        end
      else if ty =? FRAME_PUNCH_ACK then (None, set_last_rx now t, [])
      else (None, t, [])
  end.

Definition recv_data (t : PeerTunnel) (ev : udp_event) (now : time) (up : bool)
    : option bytes * PeerTunnel * datagrams :=
  match pt_socket t with
  | None => (None, t, [])
  | Some _ =>
      if negb (is_connected t) then (None, t, [])
      else
        match ev with
        | UTimeout | UError => (None, t, [])
        | UData data from => handle_frame t data from now up
        end
  end.

(** ** The manager *)

Record TunnelManager := mkTunnelManager {
  tm_objs : list (nat * PeerTunnel);      (* the store of tunnel objects *)
  tm_tunnels : list (str * nat);          (* [_tunnels]: peer id -> object *)
  tm_stale_timeout : Z;
  tm_running : bool;
  tm_closed_socks : list nat              (* sockets that were closed *)
}.

Definition with_objs (o : list (nat * PeerTunnel)) (m : TunnelManager) : TunnelManager :=
  mkTunnelManager o (tm_tunnels m) (tm_stale_timeout m) (tm_running m) (tm_closed_socks m).
Definition with_tunnels (d : list (str * nat)) (m : TunnelManager) : TunnelManager :=
  mkTunnelManager (tm_objs m) d (tm_stale_timeout m) (tm_running m) (tm_closed_socks m).
Definition with_closed (l : list nat) (m : TunnelManager) : TunnelManager :=
  mkTunnelManager (tm_objs m) (tm_tunnels m) (tm_stale_timeout m) (tm_running m) l.

Definition new_manager (stale_timeout : Z) : TunnelManager :=
  mkTunnelManager [] [] stale_timeout false [].

Definition get_tunnel (m : TunnelManager) (peer : str) : option nat := dget (tm_tunnels m) peer.
Definition list_tunnels (m : TunnelManager) : list nat := dvals (tm_tunnels m).

(** [create_tunnel], up to the punching: [fresh] is the new object, [bound]
    the socket or the exception of [bind_udp_socket]. *)
Definition create_begin (m : TunnelManager) (fresh : nat) (peer_id peer_ip : str)
    (ecdh : x_private) (bound : result nat) : result nat * TunnelManager :=
  let m1 := with_tunnels (ddel (tm_tunnels m) peer_id) m in
  match bound with
  | Err e => (Err e, m1)
  | Ok sock =>
      let t := mkPeerTunnel peer_id peer_ip PUNCHING (Some sock) None 0 0 0 None false (Some ecdh) in
      (Ok fresh, with_tunnels (dset (tm_tunnels m1) peer_id fresh) (with_objs (dset (tm_objs m1) fresh t) m1))
  end.

(** The session key from the peer's public key, when it sent one. *)
Definition install_key (ecdh : x_private) (peer_pubkey : bytes) (t : PeerTunnel)
    : result PeerTunnel :=
  match peer_pubkey with
  | [] => Ok t
  | _ =>
      let? key := derive_session_key_from_bytes ecdh peer_pubkey in
      let? c := cipher_context key in
      Ok (set_cipher (Some c) t)
  end.

Definition connect (a : option addr) (now : time) (t : PeerTunnel) : PeerTunnel :=
  set_last_rx now (set_remote_addr a (set_state CONNECTED t)).

(** [create_tunnel], from the outcome of the punching on.  [control] is the
    answer of [request_relay] when there is a control channel. *)
Definition create_finish (t : PeerTunnel) (ecdh : x_private) (punched : result punch_outcome)
    (control : option (result unit)) (now : time) : result PeerTunnel :=
  let? (success, a, key) :=
    match punched with
    | Ok r => Ok r
    | Err e => if bool_decide (exc_cls e = COSError) then Ok (false, None, []) else Err e
    end in
  match success, a with
  | true, Some a => let? t1 := install_key ecdh key t in Ok (connect (Some a) now t1)
  | _, _ =>
      match control, success with
      | Some relayed, false =>
          let? _ := relayed in
          Ok (set_last_rx now (set_state CONNECTED (set_fallback_relay true t)))
      | _, _ => Ok (set_state FAILED t)
      end
  end.

Definition accept_begin (m : TunnelManager) (fresh : nat) (peer_id peer_ip : str) (sock : nat)
    (ecdh : x_private) : TunnelManager :=
  let t := mkPeerTunnel peer_id peer_ip PUNCHING (Some sock) None 0 0 0 None false (Some ecdh) in
  with_tunnels (dset (tm_tunnels m) peer_id fresh) (with_objs (dset (tm_objs m) fresh t) m).

(** [accept_tunnel], from the outcome of [accept_punch] on: the tunnel, and
    whether the caller gets it. *)
Definition accept_finish (t : PeerTunnel) (ecdh : x_private)
    (accepted : result (option (addr * bytes))) (now : time) : result (bool * PeerTunnel) :=
  let? r := accepted in
  match r with
  | None => Ok (false, set_state FAILED t)
  | Some (a, key) => let? t1 := install_key ecdh key t in Ok (true, connect (Some a) now t1)
  end.

(** [close_tunnel(tunnel)] on the object [i]. *)
Definition close_tunnel (m : TunnelManager) (i : nat) (up : bool) : TunnelManager * datagrams :=
  match dget (tm_objs m) i with
  | None => (m, [])
  | Some t =>
      let out := match pt_socket t, pt_remote_addr t, make_close_frame (pt_tx_seq t) with
                 | Some _, Some a, Ok f => if up then [(a, f)] else []
                 | _, _, _ => []
                 end in
      let m1 := with_tunnels (ddel (tm_tunnels m) (pt_peer_id t)) m in
      let m2 := match pt_socket t with
                | Some sock => with_closed (tm_closed_socks m1 ++ [sock]) m1
                | None => m1
                end in
      (with_objs (dalter (fun t => set_socket None (set_state CLOSED t)) (tm_objs m2) i) m2, out)
  end.

(** A tunnel that has been silent for longer than [timeout] (seconds). *)
Definition is_stale (now : time) (timeout : Z) (t : PeerTunnel) : bool :=
  is_connected t && (0 <? pt_last_rx t) && (now - pt_last_rx t >? timeout * SEC).

(** One turn of a loop over a snapshot of the table. *)
Fixpoint prune_list (m : TunnelManager) (now : time) (timeout : Z) (up : bool) (l : list nat)
    : list nat * TunnelManager * datagrams :=
  match l with
  | [] => ([], m, [])
  | i :: l' =>
      match dget (tm_objs m) i with
      | Some t =>
          if is_stale now timeout t then
            let (m1, out) := close_tunnel m i up in
            let '(stale, m2, out2) := prune_list m1 now timeout up l' in
            (i :: stale, m2, out ++ out2)
          else prune_list m now timeout up l'
      | None => prune_list m now timeout up l'
      end
  end.

(** [timeout or self._stale_timeout]. *)
Definition prune_stale (m : TunnelManager) (now : time) (timeout : option Z) (up : bool)
    : list nat * TunnelManager * datagrams :=
  let limit := match timeout with
               | Some x => if x =? 0 then tm_stale_timeout m else x
               | None => tm_stale_timeout m
               end in
  prune_list m now limit up (list_tunnels m).

Definition shutdown (m : TunnelManager) (up : bool) : TunnelManager * datagrams :=
  let m0 := mkTunnelManager (tm_objs m) (tm_tunnels m) (tm_stale_timeout m) false (tm_closed_socks m) in
  let '(m1, out) := foldl (fun acc i => let (m', o) := close_tunnel (fst acc) i up in (m', snd acc ++ o))
                      (m0, []) (list_tunnels m) in
  (with_tunnels [] m1, out).

(** ** Keep-alive *)

Definition KEEPALIVE_SUSPECT_TIMEOUT : Z := 30.

Record KeepAliveManager := mkKeepAlive {
  ka_suspect_timeout : Z;
  ka_stale_timeout : Z;
  ka_suspects : gset str
}.

Definition with_suspects (x : gset str) (k : KeepAliveManager) : KeepAliveManager :=
  mkKeepAlive (ka_suspect_timeout k) (ka_stale_timeout k) x.

(** The loop of [_tick] over the snapshot [l]; an exception of
    [send_keepalive] ends the tick. *)
Fixpoint tick_list (k : KeepAliveManager) (m : TunnelManager) (now : time) (up : bool) (l : list nat)
    : KeepAliveManager * TunnelManager * datagrams :=
  match l with
  | [] => (k, m, [])
  | i :: l' =>
      match dget (tm_objs m) i with
      | None => tick_list k m now up l'
      | Some t =>
          if negb (is_connected t) then tick_list k m now up l'
          else
            match send_keepalive t up with
            | (Err _, out) => (k, m, out)
            | (Ok _, out) =>
                let since := now - pt_last_rx t in
                let '(k1, m1, out1) :=
                  if 0 <? pt_last_rx t then
                    if since >? ka_stale_timeout k * SEC then
                      let (m1, o) := close_tunnel m i up in
                      (with_suspects (ka_suspects k ∖ {[pt_peer_id t]}) k, m1, o)
                    else if since >? ka_suspect_timeout k * SEC then
                      (with_suspects (ka_suspects k ∪ {[pt_peer_id t]}) k, m, [])
                    else (with_suspects (ka_suspects k ∖ {[pt_peer_id t]}) k, m, [])
                  else (k, m, []) in
                let '(k2, m2, out2) := tick_list k1 m1 now up l' in
                (k2, m2, out ++ out1 ++ out2)
            end
      end
  end.

Definition keepalive_tick (k : KeepAliveManager) (m : TunnelManager) (now : time) (up : bool)
    : KeepAliveManager * TunnelManager * datagrams := tick_list k m now up (list_tunnels m).

(** ** Theorems *)

Lemma data_frame_opens t1 nonce packet seq frame key :
  crypto_laws TC -> zlen nonce = NONCE_LENGTH ->
  pt_cipher t1 = Some key -> data_frame t1 nonce packet seq = Ok frame ->
  exists c tag, unpack_frame frame = Ok (mkFrameHeader FRAME_VERSION FRAME_DATA (zlen c) (seq mod 2 ^ 32), c, tag)
    /\ decrypt key c tag [] = Ok packet.
Proof.
  intros Hlaws Hn Hk H. unfold data_frame in H. rewrite Hk in H. inv_bind H. destruct a as [c tag].
  destruct (encrypt_decrypt Hlaws key nonce packet [] c tag Hn Ha) as (Hd & _ & _).
  exists c, tag. split; [|done]. rewrite <- (app_nil_r frame).
  by rewrite (unpack_pack_frame _ _ _ _ _ _ [] H).
Qed.

(** Delivery: what one end of a tunnel sends, the other end with the same
    session key receives.  The datagram that [send_data] emits makes
    [_handle_frame] return exactly the packet, record the sender's sequence
    number modulo 2^32, the time and the address it came from, and send
    nothing back. *)
Theorem tunnel_delivery t1 t2 nonce packet n t1' a frame from now up key :
  crypto_laws TC ->
  pt_cipher t1 = Some key -> pt_cipher t2 = Some key -> zlen nonce = NONCE_LENGTH ->
  send_data t1 nonce packet true = (Ok n, t1', [(a, frame)]) ->
  pt_remote_addr t1 = Some a /\ n = zlen frame /\ pt_tx_seq t1' = pt_tx_seq t1 + 1
  /\ handle_frame t2 frame from now up =
       (Some packet,
        set_remote_addr (Some from)
          (set_last_rx now (set_rx_seq (pt_tx_seq t1' mod 2 ^ 32) t2)), []).
Proof.
  intros Hlaws Hk1 Hk2 Hn H. unfold send_data in H. destruct (negb _); [done|].
  destruct (pt_socket t1); [|done]. destruct (pt_remote_addr t1) as [a'|]; [|done].
  destruct (data_frame _ nonce packet _) as [f|e] eqn:Hf; [|done]. simplify_eq.
  destruct (data_frame_opens _ nonce packet _ frame key Hlaws Hn Hk1 Hf) as (c & tag & Hu & Hd).
  split_and!; try done. unfold handle_frame. rewrite Hu. cbv beta iota zeta. cbn [fh_type fh_seq_num].
  rewrite Z.eqb_refl, Hk2, Hd. done.
Qed.

(** A packet sent without a cipher is only framed. *)
Lemma plain_frame t nonce packet seq frame :
  pt_cipher t = None -> data_frame t nonce packet seq = Ok frame ->
  unpack_frame frame = Ok (mkFrameHeader FRAME_VERSION FRAME_DATA (zlen packet) (seq mod 2 ^ 32), packet, default_tag).
Proof.
  intros Hc H. unfold data_frame in H. rewrite Hc in H. rewrite <- (app_nil_r frame).
  by rewrite (unpack_pack_frame _ _ _ _ _ _ [] H).
Qed.

(** ** The handshake *)

Lemma install_key_nonempty ecdh k t key :
  k <> [] -> derive_session_key_from_bytes ecdh k = Ok key -> cipher_context key = Ok key ->
  install_key ecdh k t = Ok (set_cipher (Some key) t).
Proof. intros Hk Hd Hc. destruct k; [done|]. unfold install_key. rewrite Hd. simpl. by rewrite Hc. Qed.

(** What a received frame of type PUNCH or PUNCH_ACK means to the loops. *)
Lemma punch_frame_view ty payload w :
  pack_frame ty payload 0 FRAME_VERSION None = Ok w ->
  (forall x, is_frame_type w x = (ty =? x)) /\ try_extract_payload w = payload
  /\ unpack_frame w = Ok (mkFrameHeader FRAME_VERSION ty (zlen payload) 0, payload, default_tag).
Proof.
  intros Hw. pose proof (unpack_pack_frame _ _ _ _ _ _ [] Hw) as Hu. rewrite app_nil_r in Hu.
  unfold is_frame_type, try_extract_payload. rewrite Hu. by split_and!.
Qed.

(** [key] is derived by both ends. *)
Definition agreed (x y : x_private) (key : bytes) : Prop :=
  derive_session_key_from_bytes x (ecdh_public_bytes y) = Ok key
  /\ derive_session_key_from_bytes y (ecdh_public_bytes x) = Ok key
  /\ cipher_context key = Ok key.

Lemma agreed_of_laws x y key :
  crypto_laws TC -> derive_session_key_from_bytes x (ecdh_public_bytes y) = Ok key -> agreed x y key.
Proof.
  intros Hl H.
  assert (Hd : forall u v, derive_session_key_from_bytes u (ecdh_public_bytes v)
    = let? shared := x_exchange u (x_public_key v) in Ok (hkdf_sha256 HKDF_INFO shared)).
  { intros u v. unfold derive_session_key_from_bytes, ecdh_public_from_bytes, ecdh_public_bytes.
    rewrite (law_public_length Hl). simpl. by rewrite (law_public_decode Hl). }
  split_and!; [done|rewrite Hd, <- (law_exchange Hl), <- Hd; done|].
  rewrite Hd in H. inv_bind H. apply Ok_inj in H. subst key. unfold cipher_context.
  by rewrite (law_hkdf_length Hl).
Qed.

Lemma pubkey_nonempty x : crypto_laws TC -> ecdh_public_bytes x <> [].
Proof. intros Hl H. pose proof (law_public_length Hl (x_public_key x)) as Hx. unfold ecdh_public_bytes in H. by rewrite H in Hx. Qed.

Lemma punch_frame_fits x ty :
  crypto_laws TC -> 0 <= ty < 256 ->
  exists w, pack_frame ty (ecdh_public_bytes x) 0 FRAME_VERSION None = Ok w.
Proof.
  intros Hl Hty. eexists. apply pack_frame_ok. unfold packable, ecdh_public_bytes.
  rewrite (law_public_length Hl). by vm_compute (MAX_FRAME_PAYLOAD).
Qed.

(** The two ends of a handshake that saw each other's key. *)
Lemma finish_both x y key tA tB addrA addrB nowA nowB control :
  crypto_laws TC -> derive_session_key_from_bytes x (ecdh_public_bytes y) = Ok key ->
  create_finish tA x (Ok (true, Some addrB, ecdh_public_bytes y)) control nowA
    = Ok (connect (Some addrB) nowA (set_cipher (Some key) tA))
  /\ accept_finish tB y (Ok (Some (addrA, ecdh_public_bytes x))) nowB
    = Ok (true, connect (Some addrA) nowB (set_cipher (Some key) tB)).
Proof.
  intros Hl Hkey. destruct (agreed_of_laws x y key Hl Hkey) as (Hx & Hy & Hc).
  unfold create_finish, accept_finish. simpl.
  rewrite (install_key_nonempty _ _ tA key (pubkey_nonempty y Hl) Hx Hc).
  by rewrite (install_key_nonempty _ _ tB key (pubkey_nonempty x Hl) Hy Hc).
Qed.

(** C17 The active/passive handshake agrees: when the active side's PUNCH
    reaches the passive side before its deadline, the passive side answers
    the sender with its own key, and when that answer reaches the active side
    before its deadline, both tunnels end up connected with the same session
    key, each knowing the other's address. *)
Theorem handshake_agrees can_send x y key punch tA tB addrA addrB start timeout now1 now2 nowA nowB eps :
  crypto_laws TC ->
  derive_session_key_from_bytes x (ecdh_public_bytes y) = Ok key ->
  make_punch_frame 0 (ecdh_public_bytes x) = Ok punch ->
  eps <> [] -> can_send addrA = true ->
  now1 < start + timeout -> now2 < start + timeout ->
  exists ack tA' tB',
    accept_punch can_send start timeout (ecdh_public_bytes y) [(now1, UData punch addrA)]
      = (Some (Ok (Some (addrA, ecdh_public_bytes x))), [(addrA, ack)])
    /\ fst (punch_peer can_send start timeout eps (ecdh_public_bytes x) [(now2, UData ack addrB)])
       = Some (Ok (true, Some addrB, ecdh_public_bytes y))
    /\ create_finish tA x (Ok (true, Some addrB, ecdh_public_bytes y)) None nowA = Ok tA'
    /\ accept_finish tB y (Ok (Some (addrA, ecdh_public_bytes x))) nowB = Ok (true, tB')
    /\ pt_cipher tA' = Some key /\ pt_cipher tB' = Some key
    /\ pt_state tA' = CONNECTED /\ pt_state tB' = CONNECTED
    /\ pt_remote_addr tA' = Some addrB /\ pt_remote_addr tB' = Some addrA.
Proof.
  intros Hl Hkey Hp He Hs H1 H2.
  destruct (agreed_of_laws x y key Hl Hkey) as (Hx & Hy & Hc).
  destruct (punch_frame_fits y FRAME_PUNCH_ACK Hl) as [ack Hack]; [by vm_compute|].
  destruct (punch_frame_view _ _ _ Hp) as (Hpt & Hpe & _).
  destruct (punch_frame_view _ _ _ Hack) as (Hat & Hae & _).
  exists ack, (connect (Some addrB) nowA (set_cipher (Some key) tA)),
    (connect (Some addrA) nowB (set_cipher (Some key) tB)).
  split_and!; try done.
  - unfold accept_punch. cbn [accept_loop]. rewrite (proj2 (Z.ltb_lt _ _) H1).
    simpl negb. cbv iota. rewrite Hpt. simpl (FRAME_PUNCH =? 2). cbv iota.
    unfold make_punch_ack_frame. rewrite Hack. simpl. unfold send_to. by rewrite Hs, Hpe.
  - unfold punch_peer. destruct eps; [done|]. rewrite Hp. cbn [punch_loop].
    rewrite (proj2 (Z.ltb_lt _ _) H2). simpl negb. cbv iota. rewrite Hat. simpl (_ =? _). cbv iota.
    by rewrite Hae.
  - by apply (finish_both x y key tA tB addrA addrB nowA nowB None).
  - by apply (finish_both x y key tA tB addrA addrB nowA nowB None).
Qed.

(** ** Packets through a tunnel *)

(** The largest payload of a UDP datagram over IPv4. *)
Definition MAX_DATAGRAM : Z := 65507.

(** A packet whose frame (header, nonce, ciphertext, tag) is one datagram. *)
Definition fits_datagram (packet : bytes) : Prop :=
  8 + NONCE_LENGTH + zlen packet + TAG_LENGTH <= MAX_DATAGRAM.

(** [send_data] on packets one after the other, each with the nonce that the
    cipher draws; every [sendto] succeeds. *)
Fixpoint send_all (t : PeerTunnel) (ps : list (bytes * bytes)) : datagrams * PeerTunnel :=
  match ps with
  | [] => ([], t)
  | (nonce, packet) :: ps' =>
      let '(_, t1, out) := send_data t nonce packet true in
      let (outs, t2) := send_all t1 ps' in (out ++ outs, t2)
  end.

(** [recv_data] on datagrams one after the other. *)
Fixpoint recv_all (t : PeerTunnel) (evs : list (bytes * addr * time)) : list (option bytes) * PeerTunnel :=
  match evs with
  | [] => ([], t)
  | (data, from, now) :: evs' =>
      let '(p, t1, _) := recv_data t (UData data from) now true in
      let (rest, t2) := recv_all t1 evs' in (p :: rest, t2)
  end.

(** Connected, with a socket and a session key. *)
Definition ready (t : PeerTunnel) (key : bytes) : Prop :=
  is_connected t = true /\ is_Some (pt_socket t) /\ pt_cipher t = Some key.

(** [t1] carries packets to [t2]: every series of packets leaves as one
    datagram each for the address [a], and however the network loses,
    reorders or repeats these datagrams, [t2] gets from every one that arrives
    exactly the packet it was made of. *)
Definition carries (t1 t2 : PeerTunnel) (a : addr) : Prop :=
  forall ps, Forall (fun np => zlen (fst np) = NONCE_LENGTH /\ fits_datagram (snd np)) ps ->
  exists frames t1', send_all t1 ps = (map (pair a) frames, t1') /\ length frames = length ps
    /\ Forall (fun f => zlen f <= MAX_DATAGRAM) frames
    /\ forall arrivals : list (nat * addr * time),
         Forall (fun x => (fst (fst x) < length ps)%nat) arrivals ->
         fst (recv_all t2 (map (fun '(i, from, now) => (nth i frames [], from, now)) arrivals))
         = map (fun '(i, _, _) => Some (snd (nth i ps ([], [])))) arrivals.

(** A data frame that fits a datagram can be built. *)
Lemma data_frame_fits t nonce packet seq key :
  crypto_laws TC -> zlen key = SESSION_KEY_LENGTH -> pt_cipher t = Some key ->
  zlen nonce = NONCE_LENGTH -> fits_datagram packet ->
  exists frame, data_frame t nonce packet seq = Ok frame /\ zlen frame <= MAX_DATAGRAM.
Proof.
  unfold fits_datagram. intros Hl Hk Hc Hn Hp. unfold data_frame. rewrite Hc.
  assert (Hd : zlen packet < 2 ^ 31) by (unfold MAX_DATAGRAM, TAG_LENGTH, NONCE_LENGTH in *; lia).
  destruct (law_gcm_ok Hl key nonce packet [] Hk Hn Hd) as [sealed He]; [done|].
  destruct (encrypt key nonce packet []) as [[c tag]|e] eqn:Henc; [|by unfold encrypt in Henc; rewrite He in Henc].
  destruct (encrypt_decrypt Hl _ _ _ _ _ _ Hn Henc) as (_ & Ht & Hlc). cbn [rbind].
  eexists. split; [apply pack_frame_ok; split_and!; [|done|exact Ht|done|done]|].
  - unfold MAX_DATAGRAM, MAX_FRAME_PAYLOAD, TAG_LENGTH in *. lia.
  - rewrite !zlen_app, !zlen_be_encode. cbn [tag_of]. lia.
Qed.

(** The frames that open to the packets of [ps]. *)
Definition opens_to (key : bytes) (frame packet : bytes) : Prop :=
  exists h c tag, unpack_frame frame = Ok (h, c, tag) /\ fh_type h = FRAME_DATA /\ decrypt key c tag [] = Ok packet.

Lemma send_all_ready t a key ps :
  crypto_laws TC -> zlen key = SESSION_KEY_LENGTH -> ready t key -> pt_remote_addr t = Some a ->
  Forall (fun np => zlen (fst np) = NONCE_LENGTH /\ fits_datagram (snd np)) ps ->
  exists frames t', send_all t ps = (map (pair a) frames, t')
    /\ Forall2 (fun f np => opens_to key f (snd np) /\ zlen f <= MAX_DATAGRAM) frames ps.
Proof.
  intros Hl Hk Hr Ha Hps. revert t Hr Ha. induction Hps as [|[nonce packet] ps [Hn Hp] Hps IH]; intros t Hr Ha.
  { by exists [], t. }
  pose proof Hr as (Hc & [sock Hs] & Hkey). simpl in Hn, Hp.
  set (t1 := set_tx_seq (pt_tx_seq t + 1) t).
  destruct (data_frame_fits t1 nonce packet (pt_tx_seq t1) key Hl Hk Hkey Hn Hp) as (f & Hf & Hlen).
  destruct (IH t1 Hr Ha) as (frames & t' & Hsend & Hopen).
  exists (f :: frames), t'. split.
  - cbn [send_all]. unfold send_data. rewrite Hc, Hs, Ha. cbn [negb]. fold t1. rewrite Hf. cbv iota beta zeta.
    by rewrite Hsend.
  - constructor; [|done]. split; [|done].
    destruct (data_frame_opens t1 nonce packet _ f key Hl Hn Hkey Hf) as (c & tag & Hu & Hd).
    eexists _, c, tag. by split_and!.
Qed.

Lemma recv_ready t key frame packet from now :
  ready t key -> opens_to key frame packet ->
  exists t', recv_data t (UData frame from) now true = (Some packet, t', []) /\ ready t' key.
Proof.
  intros (Hc & [sock Hs] & Hk) (h & c & tag & Hu & Hty & Hd). eexists. split.
  - unfold recv_data. rewrite Hs, Hc. cbn [negb]. unfold handle_frame. rewrite Hu, Hty. cbv zeta.
    rewrite Z.eqb_refl, Hk, Hd. reflexivity.
  - split_and!; [exact Hc|simpl; eauto|exact Hk].
Qed.

Lemma ready_carries t1 t2 a key :
  crypto_laws TC -> zlen key = SESSION_KEY_LENGTH ->
  ready t1 key -> pt_remote_addr t1 = Some a -> ready t2 key -> carries t1 t2 a.
Proof.
  intros Hl Hk H1 Ha H2 ps Hps.
  destruct (send_all_ready t1 a key ps Hl Hk H1 Ha Hps) as (frames & t1' & Hs & Hf).
  exists frames, t1'. split_and!; [done|by eapply Forall2_length| |].
  { clear -Hf. induction Hf as [|f np frames ps [_ Hl] Hf IH]; by constructor. }
  intros arrivals Harr. revert t2 H2. induction Harr as [|[[i from] now] arrivals Hi Harr IH]; intros t2 H2; [done|].
  simpl in Hi.
  assert (Hop : opens_to key (nth i frames []) (snd (nth i ps ([], [])))).
  { clear -Hf Hi. revert i Hi. induction Hf as [|f np frames ps [Ho _] Hf IH]; intros i Hi; [simpl in Hi; lia|].
    destruct i as [|i]; [done|]. apply IH. simpl in Hi. lia. }
  destruct (recv_ready t2 key _ _ from now H2 Hop) as (t2' & Hr & Hready).
  cbn [map recv_all]. rewrite Hr. specialize (IH t2' Hready).
  destruct (recv_all t2' _) as [rest t3]. simpl in *. by rewrite IH.
Qed.


(** Simultaneous punching loses the encryption on one side: an active
    side that is reached by the peer's PUNCH answers with a PUNCH_ACK that
    carries no key.  The peer, active too, takes that answer and connects
    without a cipher, so that it sends its packets in the clear. *)
Theorem simultaneous_punch_plaintext can_send y punchB addrA addrB start timeout now1 now2 nowB eps keyA tB control :
  make_punch_frame 0 (ecdh_public_bytes y) = Ok punchB ->
  eps <> [] -> can_send addrB = true -> now1 < start + timeout -> now2 < start + timeout ->
  zlen keyA <= MAX_FRAME_PAYLOAD -> pt_cipher tB = None ->
  exists ack outA tB',
    punch_peer can_send start timeout eps keyA [(now1, UData punchB addrB)]
      = (Some (Ok (true, Some addrB, ecdh_public_bytes y)), outA ++ [(addrB, ack)])
    /\ fst (punch_peer can_send start timeout eps (ecdh_public_bytes y) [(now2, UData ack addrA)])
      = Some (Ok (true, Some addrA, []))
    /\ create_finish tB y (Ok (true, Some addrA, [])) control nowB = Ok tB'
    /\ pt_state tB' = CONNECTED /\ pt_cipher tB' = None
    /\ forall nonce packet frame, data_frame tB' nonce packet 1 = Ok frame ->
         try_extract_payload frame = packet.
Proof.
  intros Hp He Hs H1 H2 Hka Hcb.
  assert (Hack : exists ack, make_punch_ack_frame 0 [] = Ok ack) by (eexists; reflexivity).
  destruct Hack as [ack Hack].
  destruct (punch_frame_view _ _ _ Hp) as (Hpt & Hpe & Hpu).
  destruct (punch_frame_view _ _ _ Hack) as (Hat & Hae & _).
  assert (HpA : exists pA, make_punch_frame 0 keyA = Ok pA).
  { eexists. apply pack_frame_ok. split_and!; done. }
  destruct HpA as [pA HpA]. exists ack, (send_to_all can_send pA eps), (connect (Some addrA) nowB tB).
  split_and!; try done.
  - unfold punch_peer. destruct eps; [done|]. rewrite HpA. cbn [punch_loop].
    rewrite (proj2 (Z.ltb_lt _ _) H1). simpl negb. cbv iota. rewrite Hpt. simpl (_ =? FRAME_PUNCH_ACK).
    cbv iota. rewrite Hpu. cbn [fh_type]. simpl (_ =? 2). cbv iota. rewrite Hack. unfold send_to.
    by rewrite Hs, Hpe.
  - unfold punch_peer. destruct eps; [done|]. rewrite Hp. cbn [punch_loop].
    rewrite (proj2 (Z.ltb_lt _ _) H2). simpl negb. cbv iota. rewrite Hat. simpl (_ =? _). cbv iota.
    by rewrite Hae.
  - intros nonce packet frame Hf. unfold try_extract_payload. by rewrite (plain_frame _ _ _ _ _ Hcb Hf).
Qed.

(** No replay protection: a data frame that was accepted is accepted again,
    with the same packet, however often it arrives. *)
Lemma replay_accepted t data from now up packet t' out now2 from2 :
  handle_frame t data from now up = (Some packet, t', out) ->
  exists t2, handle_frame t' data from2 now2 up = (Some packet, t2, []).
Proof.
  unfold handle_frame. destruct (unpack_frame data) as [[[h p] tag]|]; [|done].
  destruct (fh_type h =? FRAME_DATA); [|repeat case_match; done].
  destruct (match pt_cipher t with Some _ => _ | None => _ end) as [pl|] eqn:Hd; [|done].
  intros [= <- <- <-]. simpl. rewrite Hd. by eexists.
Qed.

(** A CLOSE frame needs no key: anybody who can send a datagram to the socket
    closes the tunnel. *)
Lemma forged_close_accepted t f from now up :
  make_close_frame 0 = Ok f -> pt_state (snd (fst (handle_frame t f from now up))) = CLOSED.
Proof.
  intros Hf. destruct (punch_frame_view _ _ _ Hf) as (_ & _ & Hu). unfold handle_frame.
  by rewrite Hu.
Qed.

(** ** Pruning *)

(** Every entry of the table is an object filed under its own peer id. *)
Definition tm_ok (m : TunnelManager) : Prop :=
  dict_ok (tm_tunnels m)
  /\ forall p i, dget (tm_tunnels m) p = Some i ->
       exists t, dget (tm_objs m) i = Some t /\ pt_peer_id t = p.

Definition stale_obj (m : TunnelManager) (now : time) (timeout : Z) (i : nat) : bool :=
  match dget (tm_objs m) i with Some t => is_stale now timeout t | None => false end.

Lemma close_tunnel_state m i up t :
  dget (tm_objs m) i = Some t ->
  let m' := fst (close_tunnel m i up) in
  tm_tunnels m' = ddel (tm_tunnels m) (pt_peer_id t)
  /\ forall j, dget (tm_objs m') j =
       if decide (i = j) then (fun t => set_socket None (set_state CLOSED t)) <$> dget (tm_objs m) j
       else dget (tm_objs m) j.
Proof.
  intros Ht. unfold close_tunnel. rewrite Ht. simpl. destruct (pt_socket t); simpl;
    (split; [done|]; intros j; apply dget_dalter).
Qed.

Lemma tm_ok_close m i up : tm_ok m -> tm_ok (fst (close_tunnel m i up)).
Proof.
  intros [Hd Ho]. destruct (dget (tm_objs m) i) as [t|] eqn:Ht; [|unfold close_tunnel; by rewrite Ht].
  destruct (close_tunnel_state m i up t Ht) as [H1 H2]. split; [rewrite H1; by apply dict_ok_ddel|].
  intros p j. rewrite H1, dget_ddel. destruct (decide (pt_peer_id t = p)); [done|]. intros Hj.
  destruct (Ho p j Hj) as (t' & Ht' & Hp). rewrite H2. destruct (decide (i = j)) as [->|].
  - rewrite Ht'. eexists. by split.
  - by exists t'.
Qed.

(** Closing removes the one entry of the object, leaves the others. *)
Lemma close_tunnel_entries m p i up :
  tm_ok m -> dget (tm_tunnels m) p = Some i ->
  let m' := fst (close_tunnel m i up) in
  (forall q, dget (tm_tunnels m') q = if decide (p = q) then None else dget (tm_tunnels m) q)
  /\ (forall now timeout j, stale_obj m' now timeout j = if decide (i = j) then false else stale_obj m now timeout j).
Proof.
  intros [Hd Ho] Hp. destruct (Ho p i Hp) as (t & Ht & <-).
  destruct (close_tunnel_state m i up t Ht) as [H1 H2]. split.
  - intros q. rewrite H1. apply dget_ddel.
  - intros now timeout j. unfold stale_obj. rewrite H2. destruct (decide (i = j)) as [<-|]; [|done].
    by rewrite Ht.
Qed.

Lemma prune_list_exact now timeout up l : forall m,
  tm_ok m -> (forall i, i ∈ l -> exists p, dget (tm_tunnels m) p = Some i) -> NoDup l ->
  let '(stale, m', out) := prune_list m now timeout up l in
  tm_ok m'
  /\ stale = List.filter (stale_obj m now timeout) l
  /\ forall p, dget (tm_tunnels m') p =
       match dget (tm_tunnels m) p with
       | Some i => if bool_decide (i ∈ l) && stale_obj m now timeout i then None else Some i
       | None => None
       end.
Proof.
  induction l as [|i l IH]; intros m Hok Hl Hnd; cbn [prune_list].
  { split_and!; [done|done|]. intros p. destruct (dget (tm_tunnels m) p); [|done].
    by rewrite bool_decide_false by apply not_elem_of_nil. }
  apply NoDup_cons in Hnd as [Hi Hnd]. destruct (Hl i) as [p Hp]; [left|].
  pose proof Hok as [Hd Ho]. destruct (Ho p i Hp) as (t & Ht & Hpt). rewrite Ht.
  assert (Hinj : forall q, dget (tm_tunnels m) q = Some i -> q = p).
  { intros q Hq. destruct (Ho q i Hq) as (t' & Ht' & Hq'). congruence. }
  assert (Hst : stale_obj m now timeout i = is_stale now timeout t) by (unfold stale_obj; by rewrite Ht).
  destruct (is_stale now timeout t) eqn:Hs.
  - destruct (close_tunnel_entries m p i up Hok Hp) as [H1 H2].
    pose proof (tm_ok_close m i up Hok) as Hok1. destruct (close_tunnel m i up) as [m1 o]. simpl in *.
    specialize (IH m1 Hok1). destruct (prune_list m1 now timeout up l) as [[stale m2] o2].
    destruct IH as (Hok2 & -> & Ht2); [|done|].
    { intros j Hj. destruct (Hl j) as [q Hq]; [by right|]. exists q. rewrite H1, decide_False; [done|].
      intros <-. congruence. }
    assert (Hne : forall j, j ∈ l -> i <> j) by (intros j Hj ->; done).
    split_and!; [done| |].
    + rewrite Hst. f_equal. clear -H2 Hne. induction l as [|j l IH]; simpl; [done|].
      rewrite H2, decide_False by (apply Hne; left). rewrite IH; [done|]. intros k Hk. apply Hne. by right.
    + intros q. rewrite Ht2, H1. destruct (decide (p = q)) as [<-|Hpq].
      * rewrite Hp. rewrite bool_decide_true by left. by rewrite Hst.
      * destruct (dget (tm_tunnels m) q) as [j|] eqn:Hq; [|done].
        assert (Hij : i <> j) by (intros ->; by rewrite (Hinj q Hq) in Hpq).
        rewrite H2, decide_False by done.
        by rewrite (bool_decide_ext (j ∈ i :: l) (j ∈ l)) by (rewrite elem_of_cons; naive_solver).
  - specialize (IH m Hok). destruct (prune_list m now timeout up l) as [[stale m2] o2].
    destruct IH as (Hok2 & -> & Ht2); [|done|].
    { intros j Hj. apply Hl. by right. }
    split_and!; [done|simpl; by rewrite Hst|]. intros q. rewrite Ht2.
    destruct (dget (tm_tunnels m) q) as [j|] eqn:Hq; [|done].
    destruct (decide (i = j)) as [<-|Hij].
    + rewrite Hst, !andb_false_r. done.
    + by rewrite (bool_decide_ext (j ∈ i :: l) (j ∈ l)) by (rewrite elem_of_cons; naive_solver).
Qed.

(** Pruning is exact: [prune_stale] removes from the table precisely the
    tunnels that are connected, have received something, and have been silent
    for longer than the timeout, and reports these. *)
Theorem prune_tunnels_exact m now timeout up :
  tm_ok m -> timeout <> 0 ->
  let '(stale, m', _) := prune_stale m now (Some timeout) up in
  (forall i, i ∈ stale <-> (exists p, dget (tm_tunnels m) p = Some i) /\ stale_obj m now timeout i = true)
  /\ forall p, dget (tm_tunnels m') p =
       match dget (tm_tunnels m) p with
       | Some i => if stale_obj m now timeout i then None else Some i
       | None => None
       end.
Proof.
  intros Hok Ht. unfold prune_stale. rewrite (proj2 (Z.eqb_neq timeout 0) Ht).
  assert (Hin : forall i, i ∈ list_tunnels m <-> exists p, dget (tm_tunnels m) p = Some i).
  { intros i. unfold list_tunnels, dvals. rewrite list_elem_of_fmap. split.
    - intros ([p j] & -> & Hin). exists p. apply elem_dget; [apply Hok|done].
    - intros [p Hp]. exists (p, i). split; [done|]. by apply dget_elem. }
  assert (Hnd : NoDup (list_tunnels m)).
  { destruct Hok as [Hd Ho]. unfold list_tunnels, dvals.
    assert (Hinj : forall p q i, (p, i) ∈ tm_tunnels m -> (q, i) ∈ tm_tunnels m -> p = q).
    { intros p q i Hp%elem_dget Hq%elem_dget; [|done|done].
      destruct (Ho p i Hp) as (t & H1 & <-), (Ho q i Hq) as (t' & H2 & <-). congruence. }
    clear Ho Hin. unfold dict_ok, dkeys in Hd. revert Hd Hinj.
    induction (tm_tunnels m) as [|[p i] d IH]; simpl; intros Hd Hinj; [constructor|].
    apply NoDup_cons in Hd as [Hp Hd]. apply NoDup_cons. split.
    - intros ([q j] & Hj & Hq)%list_elem_of_fmap. simpl in Hj. subst j.
      assert (p = q) as -> by (eapply Hinj; [left|right; exact Hq]).
      apply Hp. apply list_elem_of_fmap. by exists (q, i).
    - apply IH; [done|]. intros a b j Ha Hb. eapply Hinj; right; eassumption. }
  pose proof (prune_list_exact now timeout up (list_tunnels m) m Hok (fun i Hi => proj1 (Hin i) Hi) Hnd) as Hp.
  destruct (prune_list m now timeout up (list_tunnels m)) as [[stale m'] out].
  destruct Hp as (_ & -> & Ht'). split.
  - intros i. rewrite list_elem_of_In, filter_In, <- list_elem_of_In, Hin. done.
  - intros p. rewrite Ht'. destruct (dget (tm_tunnels m) p) as [i|] eqn:Hp; [|done].
    rewrite bool_decide_true; [done|]. apply Hin. by exists p.
Qed.
End Tunnels.

(** ** Concrete runs *)

Section Runs.
#[local] Existing Instance toy_crypto.

Definition addr1 : str * Z := (py "192.0.2.1", 5001).
Definition addr2 : str * Z := (py "192.0.2.2", 5002).

Definition run_tunnel (key : option bytes) : PeerTunnel :=
  mkPeerTunnel (py "bob-000001") (py "10.0.0.2") CONNECTED (Some 1%nat) key SEC 41 0 (Some addr2) false None.

Lemma tunnel_delivery_witness :
  exists frame t', send_data (run_tunnel (Some [1])) (replicate 12 9) [69; 0; 1] true
      = (Ok 39, t', [(addr2, frame)])
    /\ fst (fst (handle_frame (run_tunnel (Some [1])) frame addr1 (2 * SEC) true)) = Some [69; 0; 1].
Proof.
  eexists _, _. split; [vm_compute; reflexivity|].
  edestruct (tunnel_delivery (run_tunnel (Some [1])) (run_tunnel (Some [1])) (replicate 12 9) [69; 0; 1])
    as (_ & _ & _ & H).
  - exact toy_laws.
  - reflexivity.
  - reflexivity.
  - reflexivity.
  - vm_compute. reflexivity.
  - rewrite H. reflexivity.
Defined.

Definition idle_tunnel : PeerTunnel :=
  mkPeerTunnel (py "bob-000001") (py "10.0.0.2") PUNCHING (Some 1%nat) None 0 0 0 None false None.

Lemma handshake_agrees_witness :
  exists tA tB, pt_cipher tA = Some (15 :: replicate 31 7) /\ pt_cipher tB = pt_cipher tA.
Proof.
  destruct (handshake_agrees (TC := toy_crypto) (fun _ => true) 3 5 (15 :: replicate 31 7)
    (match make_punch_frame 0 (ecdh_public_bytes (TC := toy_crypto) 3) with Ok w => w | Err _ => [] end)
    idle_tunnel idle_tunnel addr1 addr2 0 (5 * SEC) SEC (2 * SEC) SEC SEC [addr2])
    as (_ & tA & tB & _ & _ & _ & _ & HA & HB & _).
  - exact toy_laws.
  - reflexivity.
  - vm_compute. reflexivity.
  - discriminate.
  - reflexivity.
  - reflexivity.
  - reflexivity.
  - exists tA, tB. rewrite HA, HB. split; reflexivity.
Defined.


Lemma simultaneous_punch_plaintext_witness :
  exists tB, pt_state tB = CONNECTED /\ pt_cipher tB = None.
Proof.
  destruct (simultaneous_punch_plaintext (TC := toy_crypto) (fun _ => true) 5
    (match make_punch_frame 0 (ecdh_public_bytes (TC := toy_crypto) 5) with Ok w => w | Err _ => [] end)
    addr1 addr2 0 (5 * SEC) SEC (2 * SEC) SEC [addr2] [3] idle_tunnel None)
    as (_ & _ & tB & _ & _ & _ & H1 & H2 & _).
  - vm_compute. reflexivity.
  - discriminate.
  - reflexivity.
  - reflexivity.
  - reflexivity.
  - vm_compute. discriminate.
  - reflexivity.
  - exists tB. split; [exact H1|exact H2].
Defined.

Definition run_manager : TunnelManager :=
  mkTunnelManager [(1%nat, run_tunnel None)] [(py "bob-000001", 1%nat)] 60 false [].

Lemma prune_tunnels_exact_witness :
  dget (tm_tunnels (snd (fst (prune_stale run_manager (100 * SEC) (Some 60) true)))) (py "bob-000001") = None.
Proof.
  assert (Hok : tm_ok run_manager).
  { split; [apply NoDup_singleton|]. intros p i. unfold run_manager. cbn [tm_tunnels dget].
    case_decide; [|done]. intros [= <-]. exists (run_tunnel None). split; [reflexivity|done]. }
  pose proof (prune_tunnels_exact run_manager (100 * SEC) 60 true Hok ltac:(discriminate)) as H.
  destruct (prune_stale run_manager (100 * SEC) (Some 60) true) as [[stale m'] out].
  simpl. rewrite (proj2 H). vm_compute. reflexivity.
Defined.
End Runs.
End Tunnel.
