(* ===== verification/Keepalive.v ===== *)
(** * The task of the keep-alive manager (src/client/keepalive.py: start, run, stop)

    [Tunnel.keepalive_tick] is one cycle.  Here are the tasks that run it:
    [start] creates a task, [stop] clears the flag and cancels it, and a task
    that was cancelled stays alive until the event loop runs it again, so a
    [start] may come in between.  The state keeps every task that is not
    done.  An exception inside a cycle is caught by the loop, which
    [keepalive_tick] expresses by ending the cycle where it is. *)

From S2P Require Import Prelude Constants PyStr Frame Encryption NatTraversal Tunnel.
Import Encryption NatTraversal Tunnel.

Module Keepalive.

(** A task of [run]: created and not yet run, asleep in the loop, or with a
    cancellation on its way. *)
Inductive task_state := New | Sleeping | Cancelling.

#[global] Instance task_state_eq_dec : EqDecision task_state.
Proof. solve_decision. Defined.

Section Run.
Context {TC : TunnelCrypto}.

Record Runner := mkRunner {
  kr_manager : KeepAliveManager;
  kr_tunnels : TunnelManager;
  kr_running : bool;
  kr_task : option nat;                  (* [self._task] *)
  kr_live : list (nat * task_state);     (* the tasks that are not done *)
  kr_next : nat;                         (* the next task to be created *)
  kr_sent : datagrams
}.

Definition new_runner (k : KeepAliveManager) (m : TunnelManager) : Runner :=
  mkRunner k m false None [] 0 [].

(** [self._task is None or self._task.done()]. *)
Definition may_start (r : Runner) : bool :=
  match kr_task r with None => true | Some t => negb (dmem (kr_live r) t) end.

Definition kstart (r : Runner) : Runner :=
  if may_start r then
    mkRunner (kr_manager r) (kr_tunnels r) (kr_running r) (Some (kr_next r))
      (kr_live r ++ [(kr_next r, New)]) (S (kr_next r)) (kr_sent r)
  else r.

Definition kstop (r : Runner) : Runner :=
  mkRunner (kr_manager r) (kr_tunnels r) false None
    (match kr_task r with
     | Some t => dalter (fun _ => Cancelling) (kr_live r) t
     | None => kr_live r
     end) (kr_next r) (kr_sent r).

(** [wait_closed]: the task it awaits, if any. *)
Definition wait_closed (r : Runner) : option nat := kr_task r.

(** The first turn of a task: it sets the flag, finds it set and sleeps. *)
Definition begin_run (t : nat) (r : Runner) : Runner :=
  mkRunner (kr_manager r) (kr_tunnels r) true (kr_task r)
    (dset (kr_live r) t Sleeping) (kr_next r) (kr_sent r).

(** A turn of a task that slept: one cycle, and back to sleep if the flag is
    still set. *)
Definition wake (t : nat) (now : time) (up : bool) (r : Runner) : Runner :=
  let '(k, m, out) := keepalive_tick (kr_manager r) (kr_tunnels r) now up in
  mkRunner k m (kr_running r) (kr_task r)
    (if kr_running r then kr_live r else ddel (kr_live r) t) (kr_next r) (kr_sent r ++ out).

(** A turn of a task that was cancelled: CancelledError ends it. *)
Definition end_cancelled (t : nat) (r : Runner) : Runner :=
  mkRunner (kr_manager r) (kr_tunnels r) (kr_running r) (kr_task r)
    (ddel (kr_live r) t) (kr_next r) (kr_sent r).

Inductive label := LStart | LStop | LLoop.

(** [LStart] and [LStop] are calls of the owner, [LLoop] a turn of the event
    loop; the rest of the client works on the tunnels in between. *)
Inductive run_step : label -> Runner -> Runner -> Prop :=
  | run_start r : run_step LStart r (kstart r)
  | run_stop r : run_step LStop r (kstop r)
  | run_begin r t : dget (kr_live r) t = Some New -> run_step LLoop r (begin_run t r)
  | run_wake r t now up : dget (kr_live r) t = Some Sleeping -> run_step LLoop r (wake t now up r)
  | run_cancelled r t : dget (kr_live r) t = Some Cancelling -> run_step LLoop r (end_cancelled t r).

Definition any_step (r r' : Runner) : Prop := exists l, run_step l r r'.

(** A task that will still do something. *)
Definition active (r : Runner) (t : nat) : Prop :=
  dget (kr_live r) t = Some New \/ dget (kr_live r) t = Some Sleeping.

Record runner_ok (r : Runner) : Prop := {
  ok_fresh : forall t, is_Some (dget (kr_live r) t) -> (t < kr_next r)%nat;
  ok_task : forall t, active r t <-> kr_task r = Some t;
  ok_flag : forall t, dget (kr_live r) t = Some Sleeping -> kr_running r = true
}.

Lemma runner_ok_new k m : runner_ok (new_runner k m).
Proof.
  constructor; simpl; [by intros t [? [=]]| |done]. unfold active. simpl. naive_solver.
Qed.

Lemma active_alive r t : active r t -> is_Some (dget (kr_live r) t).
Proof. intros [H|H]; rewrite H; eauto. Qed.

Lemma ok_start r : runner_ok r -> runner_ok (kstart r).
Proof.
  intros [Hf Ht Hg]. unfold kstart, may_start.
  assert (Hn : dget (kr_live r) (kr_next r) = None).
  { destruct (dget (kr_live r) (kr_next r)) eqn:E; [|done].
    assert (kr_next r < kr_next r)%nat by (apply Hf; eauto). lia. }
  destruct (kr_task r) as [t|] eqn:Hk.
  - assert (Ha : active r t) by (by apply Ht). apply active_alive, dmem_true in Ha.
    rewrite Ha. simpl. by constructor; [..|rewrite Hk|].
  - rewrite <- (dset_new _ _ New) by done.
    constructor; simpl; intros t; unfold active; simpl; rewrite dget_dset;
      destruct (decide (kr_next r = t)) as [<-|Hne]; try done; try lia.
    + intros Hs. apply Hf in Hs. lia.
    + naive_solver.
    + rewrite (Ht t). split; [by intros [=]|congruence].
    + apply Hg.
Qed.

Lemma ok_stop r : runner_ok r -> runner_ok (kstop r).
Proof.
  intros [Hf Ht Hg]. unfold kstop. constructor; simpl.
  - intros t Hs. apply Hf. destruct (kr_task r); [|done].
    rewrite dget_dalter in Hs. destruct (decide _); [|done]. by apply fmap_is_Some in Hs.
  - intros t. split; [|done]. unfold active. simpl. destruct (kr_task r) as [t0|] eqn:Hk.
    + rewrite dget_dalter. destruct (decide (t0 = t)) as [->|Hne].
      * destruct (dget _ t); simpl; naive_solver.
      * intros Ha. exfalso. apply Hne. apply Ht in Ha. congruence.
    + intros Ha. by apply Ht in Ha.
  - intros t Hs. exfalso. destruct (kr_task r) as [t0|] eqn:Hk.
    + rewrite dget_dalter in Hs. destruct (decide (t0 = t)) as [->|Hne].
      * by destruct (dget _ t).
      * apply Hne. assert (Ha : active r t) by (by right). apply Ht in Ha. congruence.
    + assert (Ha : active r t) by (by right). by apply Ht in Ha.
Qed.

Lemma ok_begin r t : dget (kr_live r) t = Some New -> runner_ok r -> runner_ok (begin_run t r).
Proof.
  intros Hn [Hf Ht Hg]. constructor; simpl; [| |done].
  - intros t'. rewrite dget_dset. destruct (decide (t = t')) as [<-|]; [|apply Hf].
    intros _. apply Hf. eauto.
  - intros t'. unfold active. simpl. rewrite <- (Ht t'), dget_dset. unfold active.
    destruct (decide (t = t')) as [<-|]; [rewrite Hn|]; naive_solver.
Qed.

(** The flag is set whenever a task sleeps: the test of the loop never ends
    it. *)
Lemma wake_live r t now up :
  runner_ok r -> dget (kr_live r) t = Some Sleeping ->
  kr_live (wake t now up r) = kr_live r /\ kr_running (wake t now up r) = true
  /\ kr_task (wake t now up r) = kr_task r /\ kr_next (wake t now up r) = kr_next r.
Proof.
  intros [_ _ Hg] Hs. unfold wake. destruct (keepalive_tick _ _ _ _) as [[k m] out]. simpl.
  by rewrite (Hg t Hs).
Qed.

Lemma ok_wake r t now up :
  dget (kr_live r) t = Some Sleeping -> runner_ok r -> runner_ok (wake t now up r).
Proof.
  intros Hs Hok. destruct (wake_live r t now up Hok Hs) as (Hl & Hr & Hk & Hn).
  destruct Hok as [Hf Ht Hg]. constructor; unfold active; rewrite ?Hl, ?Hr, ?Hk, ?Hn; auto.
Qed.

Lemma ok_cancelled r t :
  dget (kr_live r) t = Some Cancelling -> runner_ok r -> runner_ok (end_cancelled t r).
Proof.
  intros Hc [Hf Ht Hg]. constructor; simpl; intros t'; unfold active; simpl; rewrite ?dget_ddel.
  - destruct (decide _); [by intros [? [=]]|apply Hf].
  - rewrite <- (Ht t'). unfold active. destruct (decide (t = t')) as [<-|]; [|done].
    rewrite Hc. naive_solver.
  - destruct (decide _); [done|apply Hg].
Qed.

Lemma ok_step l r r' : run_step l r r' -> runner_ok r -> runner_ok r'.
Proof. destruct 1; auto using ok_start, ok_stop, ok_begin, ok_wake, ok_cancelled. Qed.

Lemma ok_reach k m r : rtc any_step (new_runner k m) r -> runner_ok r.
Proof.
  intros Hr. assert (H0 := runner_ok_new k m). induction Hr as [|r1 r2 r3 [l Hl] _ IH]; [done|].
  apply IH. eauto using ok_step.
Qed.

(** C11 The keep-alive manager runs at most one loop, and runs it as long as it
    is meant to: after any calls of [start] and [stop] and any turns of the
    event loop, the task the manager holds is the only one that will still
    act; it goes back to sleep after every cycle, whatever the cycle met;
    and a manager without a task has none left that acts. *)
Theorem keepalive_one_loop k m r :
  rtc any_step (new_runner k m) r ->
  (forall t t', active r t -> active r t' -> t = t')
  /\ (forall t, kr_task r = Some t -> active r t)
  /\ (kr_task r = None -> forall t, ~ active r t)
  /\ (forall t now up, dget (kr_live r) t = Some Sleeping ->
      dget (kr_live (wake t now up r)) t = Some Sleeping).
Proof.
  intros Hr. apply ok_reach in Hr. pose proof Hr as [Hf Ht Hg]. split_and!.
  - intros t t' H1%Ht H2%Ht. congruence.
  - intros t. apply Ht.
  - intros Hk t Ha%Ht. congruence.
  - intros t now up Hs. by rewrite (proj1 (wake_live r t now up Hr Hs)).
Qed.

(** After [stop] nothing is sent and no tunnel is touched until [start]. *)
Lemma stopped_is_quiet r r' :
  runner_ok r -> kr_task r = None -> rtc (run_step LLoop) r r' ->
  kr_tunnels r' = kr_tunnels r /\ kr_sent r' = kr_sent r /\ kr_manager r' = kr_manager r
  /\ kr_task r' = None.
Proof.
  intros Hok Hk Hr. induction Hr as [r|r1 r2 r3 Hst _ IH]; [done|].
  assert (Hok2 := ok_step _ _ _ Hst Hok).
  assert (Hno : forall t, ~ active r1 t) by (intros t Ha%(ok_task _ Hok); congruence).
  inversion Hst as [| |x t Hd|x t now up Hd|x t Hd]; subst.
  - exfalso. apply (Hno t). by left.
  - exfalso. apply (Hno t). by right.
  - by destruct (IH Hok2 Hk) as (-> & -> & -> & ->).
Qed.

(** [stop] forgets the task it cancels, so a [wait_closed] after it returns
    while the task is still there. *)
Lemma wait_closed_after_stop r t :
  runner_ok r -> kr_task r = Some t ->
  wait_closed (kstop r) = None /\ dget (kr_live (kstop r)) t = Some Cancelling.
Proof.
  intros Hok Ht. split; [done|]. unfold kstop. simpl. rewrite Ht, dget_dalter, decide_True by done.
  destruct (active_alive r t) as [x ->]; [|done]. by apply (ok_task _ Hok).
Qed.

(** Starting twice is starting once. *)
Lemma start_twice r : runner_ok r -> kstart (kstart r) = kstart r.
Proof.
  intros Hok. unfold kstart at 1, may_start.
  assert (Hs : exists t, kr_task (kstart r) = Some t).
  { unfold kstart, may_start. destruct (kr_task r) eqn:Hk; [|by eauto].
    destruct (negb _); simpl; eauto. }
  destruct Hs as [t Ht]. rewrite Ht.
  pose proof (proj2 (ok_task _ (ok_start _ Hok) t) Ht) as Ha.
  apply active_alive, dmem_true in Ha. by rewrite Ha.
Qed.
End Run.

Section Runs.
#[local] Existing Instance toy_crypto.

Definition idle_manager : KeepAliveManager := mkKeepAlive KEEPALIVE_SUSPECT_TIMEOUT TUNNEL_STALE_TIMEOUT ∅.

(** Started, stopped and started again before the event loop ran the first
    task: the first one ends, the second one runs. *)
Definition restarted : Runner :=
  let r := kstart (kstop (kstart (new_runner idle_manager (new_manager TUNNEL_STALE_TIMEOUT)))) in
  begin_run 1 (end_cancelled 0 r).

Lemma keepalive_one_loop_witness : active restarted 1 /\ kr_live restarted = [(1%nat, Sleeping)].
Proof.
  assert (Hr : rtc any_step (new_runner idle_manager (new_manager TUNNEL_STALE_TIMEOUT)) restarted).
  { eapply rtc_l; [exists LStart; apply run_start|].
    eapply rtc_l; [exists LStop; apply run_stop|].
    eapply rtc_l; [exists LStart; apply run_start|].
    eapply rtc_l; [exists LLoop; apply (run_cancelled _ 0); reflexivity|].
    apply rtc_once. exists LLoop. apply run_begin. reflexivity. }
  destruct (keepalive_one_loop _ _ restarted Hr) as (_ & Ha & _). split; [by apply Ha|reflexivity].
Defined.
End Runs.
End Keepalive.
