(* ===== verification/Topology.v ===== *)
(** * Topology managers (src/client/topology.py)

    The three strategies as one type with a constructor per class, and the
    abstract methods as functions by cases. *)

From S2P Require Import Prelude Constants.

Module Topology.

Record MeshTopology := mkMesh { mesh_peers : list (str * str) }.

Record HubAndSpokeTopology := mkHub {
  hs_hub_id : str;
  hs_is_hub : bool;
  hs_spokes : list (str * str)
}.

Record GatewayTopology := mkGateway {
  gw_gateway_id : str;
  gw_is_gateway : bool;
  gw_peers : list (str * str);
  gw_arp_table : list (str * str)
}.

Inductive TopologyManager :=
  | Mesh (m : MeshTopology)
  | HubAndSpoke (h : HubAndSpokeTopology)
  | Gateway (g : GatewayTopology).

Definition topology_name (t : TopologyManager) : str :=
  match t with
  | Mesh _ => TOPOLOGY_MESH
  | HubAndSpoke _ => TOPOLOGY_HUB_AND_SPOKE
  | Gateway _ => TOPOLOGY_GATEWAY
  end.

Definition mesh_online (m : MeshTopology) (peer ip : str) : bool * MeshTopology :=
  (true, mkMesh (dset (mesh_peers m) peer ip)).
Definition mesh_offline (m : MeshTopology) (peer : str) : bool * MeshTopology :=
  (true, mkMesh (ddel (mesh_peers m) peer)).

Definition hub_online (h : HubAndSpokeTopology) (peer ip : str) : bool * HubAndSpokeTopology :=
  if hs_is_hub h
  then (true, mkHub (hs_hub_id h) true (dset (hs_spokes h) peer ip))
  else (bool_decide (peer = hs_hub_id h), h).
Definition hub_offline (h : HubAndSpokeTopology) (peer : str) : bool * HubAndSpokeTopology :=
  if hs_is_hub h
  then (true, mkHub (hs_hub_id h) true (ddel (hs_spokes h) peer))
  else (bool_decide (peer = hs_hub_id h), h).

Definition gateway_online (g : GatewayTopology) (peer ip : str) : bool * GatewayTopology :=
  let g' := mkGateway (gw_gateway_id g) (gw_is_gateway g) (dset (gw_peers g) peer ip)
              (gw_arp_table g) in
  (if gw_is_gateway g then true else bool_decide (peer = gw_gateway_id g), g').
Definition gateway_offline (g : GatewayTopology) (peer : str) : bool * GatewayTopology :=
  (true, mkGateway (gw_gateway_id g) (gw_is_gateway g) (ddel (gw_peers g) peer)
           (ddel (gw_arp_table g) peer)).

Definition on_peer_online (t : TopologyManager) (peer ip network : str) : bool * TopologyManager :=
  match t with
  | Mesh m => let (b, m') := mesh_online m peer ip in (b, Mesh m')
  | HubAndSpoke h => let (b, h') := hub_online h peer ip in (b, HubAndSpoke h')
  | Gateway g => let (b, g') := gateway_online g peer ip in (b, Gateway g')
  end.

Definition on_peer_offline (t : TopologyManager) (peer network : str) : bool * TopologyManager :=
  match t with
  | Mesh m => let (b, m') := mesh_offline m peer in (b, Mesh m')
  | HubAndSpoke h => let (b, h') := hub_offline h peer in (b, HubAndSpoke h')
  | Gateway g => let (b, g') := gateway_offline g peer in (b, Gateway g')
  end.

Definition get_peers_to_connect (t : TopologyManager) : gset str :=
  match t with
  | Mesh m => list_to_set (dkeys (mesh_peers m))
  | HubAndSpoke h => if hs_is_hub h then list_to_set (dkeys (hs_spokes h)) else {[hs_hub_id h]}
  | Gateway g => if gw_is_gateway g then list_to_set (dkeys (gw_peers g)) else {[gw_gateway_id g]}
  end.

Definition is_hub (t : TopologyManager) : bool :=
  match t with HubAndSpoke h => hs_is_hub h | _ => false end.
Definition is_gateway (t : TopologyManager) : bool :=
  match t with Gateway g => gw_is_gateway g | _ => false end.

Definition get_spoke_ip (h : HubAndSpokeTopology) (spoke : str) : option str := dget (hs_spokes h) spoke.
Definition set_arp_entry (g : GatewayTopology) (ip mac : str) : GatewayTopology :=
  mkGateway (gw_gateway_id g) (gw_is_gateway g) (gw_peers g) (dset (gw_arp_table g) ip mac).
Definition get_arp_entry (g : GatewayTopology) (ip : str) : option str := dget (gw_arp_table g) ip.
Definition get_peer_ip (g : GatewayTopology) (peer : str) : option str := dget (gw_peers g) peer.

Definition create_topology_manager (topology hub_id gateway_id : str) (ishub isgw : bool)
    : result TopologyManager :=
  if bool_decide (topology = TOPOLOGY_MESH) then Ok (Mesh (mkMesh []))
  else if bool_decide (topology = TOPOLOGY_HUB_AND_SPOKE) then Ok (HubAndSpoke (mkHub hub_id ishub []))
  else if bool_decide (topology = TOPOLOGY_GATEWAY) then Ok (Gateway (mkGateway gateway_id isgw [] []))
  else raise CValueError (py "unknown topology: " ++ topology).

(** ** Theorems *)

Inductive event := Online (peer ip : str) | Offline (peer : str).

Definition apply_event (t : TopologyManager) (e : event) : TopologyManager :=
  match e with
  | Online p ip => snd (on_peer_online t p ip [])
  | Offline p => snd (on_peer_offline t p [])
  end.

(** The peers that are online after a series of events. *)
Definition online_after (es : list event) : gset str :=
  foldl (fun s e => match e with Online p _ => s ∪ {[p]} | Offline p => s ∖ {[p]} end) ∅ es.

(** What each role is meant to connect to. *)
Definition wanted (t : TopologyManager) (online : gset str) : gset str :=
  match t with
  | Mesh _ => online
  | HubAndSpoke h => if hs_is_hub h then online else {[hs_hub_id h]}
  | Gateway g => if gw_is_gateway g then online else {[gw_gateway_id g]}
  end.

Lemma keys_dset (d : list (str * str)) k v :
  list_to_set (dkeys (dset d k v)) = (list_to_set (dkeys d) ∪ {[k]} : gset str).
Proof.
  apply set_eq. intros x. rewrite elem_of_union, elem_of_singleton, !elem_of_list_to_set, !elem_of_dkeys, dget_dset.
  case_decide; [split; [by right|eauto]|]. naive_solver.
Qed.

Lemma keys_ddel (d : list (str * str)) k :
  list_to_set (dkeys (ddel d k)) = (list_to_set (dkeys d) ∖ {[k]} : gset str).
Proof.
  apply set_eq. intros x. rewrite elem_of_difference, elem_of_singleton, !elem_of_list_to_set, !elem_of_dkeys, dget_ddel.
  case_decide; [split; [by intros [? ?]|naive_solver]|]. naive_solver.
Qed.

(** The role of a manager does not change. *)
Lemma wanted_apply t e online : wanted (apply_event t e) online = wanted t online.
Proof.
  destruct t as [m|h|g], e; simpl; try done; unfold hub_online, hub_offline;
    destruct (hs_is_hub h) eqn:Hh; simpl; by rewrite ?Hh.
Qed.

Lemma peers_apply t e online :
  get_peers_to_connect t = wanted t online ->
  get_peers_to_connect (apply_event t e)
    = wanted t (match e with Online p _ => online ∪ {[p]} | Offline p => online ∖ {[p]} end).
Proof.
  destruct t as [m|h|g], e; simpl; unfold hub_online, hub_offline;
    try (destruct (hs_is_hub h) eqn:Hh); try (destruct (gw_is_gateway g) eqn:Hg); simpl;
    rewrite ?Hh, ?Hg, ?keys_dset, ?keys_ddel; congruence.
Qed.

(** The topologies are what they say: after any series of peers coming
    and going, a mesh client, a hub and a gateway want tunnels to exactly the
    peers that are online, and a spoke or a remote client to its hub or
    gateway and nobody else; and when a peer comes online, a tunnel to it is
    asked for exactly when it is wanted. *)
Theorem topology_decisions name hub gw ishub isgw t es peer ip network :
  create_topology_manager name hub gw ishub isgw = Ok t ->
  let t' := foldl apply_event t es in
  get_peers_to_connect t' = wanted t (online_after es)
  /\ (fst (on_peer_online t' peer ip network) = true <->
      peer ∈ get_peers_to_connect (snd (on_peer_online t' peer ip network))).
Proof.
  intros Hc t'. split.
  - assert (Hi : get_peers_to_connect t = wanted t ∅).
    { unfold create_topology_manager in Hc. repeat case_bool_decide; simplify_eq; simpl;
        try (destruct ishub); try (destruct isgw); done. }
    unfold t', online_after. clear t' Hc. revert t Hi. generalize (∅ : gset str).
    induction es as [|e es IH]; intros s t Hi; simpl; [done|].
    rewrite (IH (match e with Online p _ => s ∪ {[p]} | Offline p => s ∖ {[p]} end)).
    + apply wanted_apply.
    + rewrite wanted_apply. by apply peers_apply.
  - clear. destruct t' as [m|h|g]; simpl.
    + rewrite keys_dset. set_solver.
    + unfold hub_online. destruct (hs_is_hub h) eqn:Hh; simpl; rewrite ?Hh, ?keys_dset; [set_solver|].
      rewrite bool_decide_eq_true. set_solver.
    + destruct (gw_is_gateway g) eqn:Hg; simpl; rewrite ?Hg, ?keys_dset; [set_solver|].
      rewrite bool_decide_eq_true. set_solver.
Qed.

Lemma topology_decisions_witness :
  get_peers_to_connect (foldl apply_event (HubAndSpoke (mkHub (py "h") false []))
    [Online (py "a") (py "10.0.0.1"); Online (py "h") (py "10.0.0.9")]) = {[py "h"]}.
Proof.
  rewrite (proj1 (topology_decisions TOPOLOGY_HUB_AND_SPOKE (py "h") [] false false
    (HubAndSpoke (mkHub (py "h") false []))
    [Online (py "a") (py "10.0.0.1"); Online (py "h") (py "10.0.0.9")] [] [] [] eq_refl)).
  reflexivity.
Defined.

(** The address table of a gateway is keyed by address, and a peer that goes
    offline is removed from it by peer id: its entry stays. *)
Lemma arp_entry_survives g peer ip :
  ip <> peer -> get_arp_entry (snd (gateway_offline g peer)) ip = get_arp_entry g ip.
Proof. intros Hne. unfold get_arp_entry. simpl. rewrite dget_ddel. by rewrite decide_False. Qed.
End Topology.
