(* ===== verification/LoadBalancer.v ===== *)
(** * Load balancing (src/proxy/load_balancer.py, UpstreamServer of src/proxy/config.py)

    The four balancers as one state type with a constructor per class, and
    [select] by cases.  The reference definition is [expand]: the list in which
    every server occurs as many times as its weight.  The file shows that the
    three weighted algorithms pick from it: round robin walks it cyclically,
    [ip_hash] and [random] index it without building it. *)

From S2P Require Import Prelude PyStr.

Module LoadBalancer.

Record UpstreamServer := mkServer {
  us_host : str;
  us_port : Z;
  us_weight : Z;
  us_max_conns : Z;
  us_backup : bool;
  us_down : bool
}.

#[global] Instance UpstreamServer_eq_dec : EqDecision UpstreamServer.
Proof. solve_decision. Defined.

(** [f"{host}:{port}"]. *)
Definition server_key (host : str) (port : Z) : str := host ++ py ":" ++ dec port.

(** ** Round robin *)

Definition rr_available (servers : list UpstreamServer) : list UpstreamServer :=
  let primary := List.filter (fun s => negb (us_down s) && negb (us_backup s)) servers in
  match primary with
  | [] => List.filter (fun s => us_backup s && negb (us_down s)) servers
  | _ => primary
  end.

(** The nested [for _ in range(weight): weighted.append(server)]: [range] of a
    negative weight is empty. *)
Definition expand (servers : list UpstreamServer) : list UpstreamServer :=
  concat (map (fun s => replicate (Z.to_nat (us_weight s)) s) servers).

(** [weighted[index]]; the index is never negative. *)
Definition rr_select (index : Z) (servers : list UpstreamServer)
    : result (option UpstreamServer) * Z :=
  let available := rr_available servers in
  match available with
  | [] => (Ok None, index)
  | _ =>
      let weighted := expand available in
      match weighted !! Z.to_nat index with
      | None => (raise CIndexError (py "list index out of range"), index)
      | Some r => (Ok (Some r), (index + 1) mod zlen weighted)
      end
  end.

(** ** Least connections *)

Definition up (servers : list UpstreamServer) : list UpstreamServer :=
  List.filter (fun s => negb (us_down s)) servers.

Definition conns_of (conns : list (str * Z)) (s : UpstreamServer) : Z :=
  match dget conns (server_key (us_host s) (us_port s)) with Some n => n | None => 0 end.

(** [key(a) < key(b)], the quotients compared by cross multiplication.  The
    code compares floats; the two orders agree while the counts and the
    weights stay below 2^26. *)
Definition less_loaded (conns : list (str * Z)) (a b : UpstreamServer) : bool :=
  conns_of conns a * Z.max (us_weight b) 1 <? conns_of conns b * Z.max (us_weight a) 1.

(** [min(available, key=key)]: the first of the least elements. *)
Fixpoint min_by (lt : UpstreamServer -> UpstreamServer -> bool) (best : UpstreamServer)
    (rest : list UpstreamServer) : UpstreamServer :=
  match rest with
  | [] => best
  | s :: rest' => min_by lt (if lt s best then s else best) rest'
  end.

Definition lc_select (conns : list (str * Z)) (servers : list UpstreamServer)
    : option UpstreamServer :=
  match up servers with
  | [] => None
  | s :: rest => Some (min_by (less_loaded conns) s rest)
  end.

Definition increment (conns : list (str * Z)) (s : UpstreamServer) : list (str * Z) :=
  let key := server_key (us_host s) (us_port s) in
  dset conns key ((match dget conns key with Some n => n | None => 0 end) + 1).

Definition decrement (conns : list (str * Z)) (s : UpstreamServer) : list (str * Z) :=
  let key := server_key (us_host s) (us_port s) in
  dset conns key (Z.max 0 ((match dget conns key with Some n => n | None => 1 end) - 1)).

(** ** Hash of the client address *)

Definition total_weight (servers : list UpstreamServer) : Z :=
  foldr (fun s acc => us_weight s + acc) 0 servers.

(** The [for server in available] loop; [None] when it runs out. *)
Fixpoint hash_walk (idx : Z) (servers : list UpstreamServer) : option UpstreamServer :=
  match servers with
  | [] => None
  | s :: rest => if idx <? us_weight s then Some s else hash_walk (idx - us_weight s) rest
  end.

(** [md5 b] is [int(hashlib.md5(b).hexdigest(), 16)]. *)
Definition ih_select (md5 : bytes -> Z) (servers : list UpstreamServer) (client_ip : str)
    : result (option UpstreamServer) :=
  match up servers with
  | [] => Ok None
  | (s0 :: _) as available =>
      match client_ip with
      | [] => Ok (Some s0)
      | _ =>
          let? b := encode client_ip in
          let h := md5 b in
          let total := total_weight available in
          if total =? 0 then Ok None
          else Ok (match hash_walk (h mod total) available with
                   | Some s => Some s
                   | None => last available
                   end)
      end
  end.

(** ** Weighted random choice

    [random.choices] of the standard library: accumulate the weights, draw
    [random() * total] and bisect.  A draw of [random()] is [k / 2^53] with
    [0 <= k < 2^53]; the product is taken exactly. *)

Fixpoint cumulate (acc : Z) (servers : list UpstreamServer) : list Z :=
  match servers with
  | [] => []
  | s :: rest => (acc + us_weight s) :: cumulate (acc + us_weight s) rest
  end.

(** [bisect.bisect(a, x, lo, hi)] with the test [x < a[mid]] given as [lt]. *)
Fixpoint bisect (fuel : nat) (lt : nat -> bool) (lo hi : nat) : nat :=
  match fuel with
  | O => lo
  | S fuel' =>
      if (lo <? hi)%nat then
        let mid := ((lo + hi) / 2)%nat in
        if lt mid then bisect fuel' lt lo mid else bisect fuel' lt (S mid) hi
      else lo
  end.

Definition choices (k : Z) (available : list UpstreamServer) : result (option UpstreamServer) :=
  let cum := cumulate 0 available in
  let total := total_weight available in
  if total <=? 0 then raise CValueError (py "Total of weights must be greater than zero")
  else
    let lt mid := k * total <? (match cum !! mid with Some c => c | None => 0 end) * 2 ^ 53 in
    let n := length available in
    Ok (available !! bisect n lt 0 (n - 1)).

Definition rnd_select (k : Z) (servers : list UpstreamServer) : result (option UpstreamServer) :=
  match up servers with
  | [] => Ok None
  | available => choices k available
  end.

(** ** The interface *)

Inductive Balancer :=
  | RoundRobinBalancer (index : Z)
  | LeastConnBalancer (active_conns : list (str * Z))
  | IpHashBalancer
  | RandomBalancer.

(** [balancer.select(servers, client_ip)] with the draw [k] of [random()]. *)
Definition select (md5 : bytes -> Z) (k : Z) (b : Balancer) (servers : list UpstreamServer)
    (client_ip : str) : result (option UpstreamServer) * Balancer :=
  match b with
  | RoundRobinBalancer i =>
      let (r, i') := rr_select i servers in (r, RoundRobinBalancer i')
  | LeastConnBalancer c => (Ok (lc_select c servers), b)
  | IpHashBalancer => (ih_select md5 servers client_ip, b)
  | RandomBalancer => (rnd_select k servers, b)
  end.

Definition create_balancer (algorithm : str) : result Balancer :=
  if str_eqb algorithm (py "round_robin") then Ok (RoundRobinBalancer 0)
  else if str_eqb algorithm (py "least_conn") then Ok (LeastConnBalancer [])
  else if str_eqb algorithm (py "ip_hash") then Ok IpHashBalancer
  else if str_eqb algorithm (py "random") then Ok RandomBalancer
  else raise CValueError (py "unknown load balancing algorithm: " ++ algorithm).

Lemma server_key_inj h p h' p' : server_key h p = server_key h' p' -> h = h' /\ p = p'.
Proof.
  intros [-> ?%dec_inj]%app_sep_inj; [done|apply dec_no_colon..].
Qed.

(** A run of [n] selections on an unchanged list of servers. *)
Fixpoint rr_run (n : nat) (index : Z) (servers : list UpstreamServer)
    : list (result (option UpstreamServer)) * Z :=
  match n with
  | O => ([], index)
  | S n' =>
      let (r, index') := rr_select index servers in
      let (rs, index'') := rr_run n' index' servers in
      (r :: rs, index'')
  end.

(** The state in which a balancer serves a given list of servers. *)
Definition balancer_ok (b : Balancer) (servers : list UpstreamServer) : Prop :=
  match b with
  | RoundRobinBalancer i => 0 <= i < zlen (expand (rr_available servers))
  | _ => True
  end.

(** ** The reference list *)

Lemma expand_cons s l : expand (s :: l) = replicate (Z.to_nat (us_weight s)) s ++ expand l.
Proof. done. Qed.

Lemma expand_app l k : expand (l ++ k) = expand l ++ expand k.
Proof. unfold expand. by rewrite map_app, concat_app. Qed.

Lemma elem_of_expand s l : s ∈ expand l <-> s ∈ l /\ 0 < us_weight s.
Proof.
  induction l as [|a l IH]; [split; [by intros ?%elem_of_nil|by intros [?%elem_of_nil _]]|].
  rewrite expand_cons, elem_of_app, elem_of_replicate, IH, elem_of_cons.
  split; [|destruct (decide (s = a)); naive_solver lia].
  intros [[-> ?]|[? ?]]; split; auto; lia.
Qed.

Definition weights_nonneg (l : list UpstreamServer) : Prop := Forall (fun s => 0 <= us_weight s) l.

Lemma zlen_expand l : weights_nonneg l -> zlen (expand l) = total_weight l.
Proof.
  induction 1 as [|s l Hs _ IH]; [done|].
  rewrite expand_cons, zlen_app, IH. unfold zlen. rewrite length_replicate. simpl. lia.
Qed.

Lemma total_weight_app l k : total_weight (l ++ k) = total_weight l + total_weight k.
Proof. induction l as [|s l IH]; simpl; [done|]. rewrite IH. lia. Qed.

Lemma total_weight_nonneg l : weights_nonneg l -> 0 <= total_weight l.
Proof. induction 1; simpl; lia. Qed.

(** The server at position [i] of the list covers the indices from the weight
    before it up to the weight through it. *)
Lemma expand_lookup_at l i s j :
  weights_nonneg l -> l !! i = Some s ->
  total_weight (take i l) <= j < total_weight (take i l) + us_weight s ->
  expand l !! Z.to_nat j = Some s.
Proof.
  intros Hl Hi Hj. rewrite <- (take_drop_middle l i s Hi), expand_app, expand_cons.
  assert (Ht : weights_nonneg (take i l)) by by apply Forall_take.
  pose proof (zlen_expand _ Ht) as Hlen. pose proof (total_weight_nonneg _ Ht).
  unfold zlen in Hlen. rewrite lookup_app_r by lia.
  rewrite lookup_app_l by (rewrite length_replicate; lia).
  apply lookup_replicate. split; [done|lia].
Qed.

(** ** Round robin *)

Lemma rr_select_at i servers w :
  0 <= i -> expand (rr_available servers) !! Z.to_nat i = Some w ->
  rr_select i servers = (Ok (Some w), (i + 1) mod zlen (expand (rr_available servers))).
Proof.
  intros Hi Hw. unfold rr_select. destruct (rr_available servers) as [|a l]; [done|].
  by rewrite Hw.
Qed.

Lemma rr_run_lookup n i servers :
  let W := expand (rr_available servers) in
  0 <= i < zlen W ->
  rr_run n i servers =
    (map (fun j => Ok (W !! Z.to_nat ((i + Z.of_nat j) mod zlen W))) (seq 0 n),
     (i + Z.of_nat n) mod zlen W).
Proof.
  intros W. revert i. induction n as [|n IH]; intros i Hi; simpl.
  - by rewrite Z.add_0_r, Z.mod_small.
  - destruct (lookup_lt_is_Some_2 W (Z.to_nat i)) as [w Hw]; [unfold zlen in Hi; lia|].
    rewrite (rr_select_at i servers w) by (done || lia). fold W.
    rewrite IH by (fold W; apply Z.mod_pos_bound; lia). fold W. f_equal; [f_equal|].
    + by rewrite Z.add_0_r, Z.mod_small, Hw by done.
    + rewrite <- seq_shift, map_map. apply map_ext. intros j.
      rewrite Zplus_mod_idemp_l.
      by replace (i + 1 + Z.of_nat j) with (i + Z.of_nat (S j)) by lia.
    + rewrite Zplus_mod_idemp_l.
      by replace (i + 1 + Z.of_nat n) with (i + Z.of_nat (S n)) by lia.
Qed.

(** Weighted round robin is fair: from any position, one round of
    selections on an unchanged server list returns the weighted list rotated
    to that position, so every server is chosen exactly as often as it occurs
    in the weighted list, and the balancer is back where it was. *)
Theorem round_robin_cycle i servers :
  let W := expand (rr_available servers) in
  0 <= i < zlen W ->
  rr_run (length W) i servers = (map (fun s => Ok (Some s)) (rotate (Z.to_nat i) W), i) /\
  rotate (Z.to_nat i) W ≡ₚ W.
Proof.
  intros W Hi. assert (Hlen : Z.of_nat (length W) = zlen W) by done. split.
  - rewrite rr_run_lookup by done. fold W. f_equal.
    + apply list_eq. intros j. rewrite !list_lookup_fmap.
      destruct (decide (j < length W)%nat) as [Hj|Hj].
      * rewrite lookup_seq_lt by done. rewrite lookup_rotate_r by done. simpl.
        unfold rotate_nat_add. destruct (lookup_lt_is_Some_2 W
          (Z.to_nat ((Z.of_nat (Z.to_nat i) + Z.of_nat j) mod Z.of_nat (length W)))) as [w Hw].
        { assert (0 <= (Z.of_nat (Z.to_nat i) + Z.of_nat j) mod Z.of_nat (length W) < Z.of_nat (length W))
            by (apply Z.mod_pos_bound; lia). lia. }
        rewrite Hw. simpl. rewrite Z2Nat.id in Hw by lia. rewrite <- Hlen, Hw. done.
      * rewrite lookup_seq_ge by lia. rewrite (lookup_ge_None_2 (rotate _ _)); [done|].
        rewrite length_rotate. lia.
    + rewrite Hlen, Z.add_mod, Z.mod_same, Z.add_0_r, Z.mod_mod by lia. by apply Z.mod_small.
  - unfold rotate. rewrite Permutation_app_comm. by rewrite take_drop.
Qed.

(** A position past the end of a list that became shorter raises, and keeps
    raising: the position does not change. *)
Lemma round_robin_shrunk_raises i servers :
  rr_available servers <> [] -> zlen (expand (rr_available servers)) <= i ->
  rr_select i servers = (raise CIndexError (py "list index out of range"), i).
Proof.
  intros Hne Hi. unfold rr_select. destruct (rr_available servers) as [|a l]; [done|].
  rewrite (lookup_ge_None_2 (expand _)); [done|]. unfold zlen in Hi. lia.
Qed.

(** ** Hash and random choice *)

Lemma hash_walk_expand l idx :
  weights_nonneg l -> 0 <= idx -> hash_walk idx l = expand l !! Z.to_nat idx.
Proof.
  intros Hl. revert idx. induction Hl as [|s l Hs _ IH]; intros idx Hidx; [done|].
  rewrite expand_cons. simpl. destruct (Z.ltb_spec idx (us_weight s)).
  - rewrite lookup_app_l by (rewrite length_replicate; lia).
    symmetry. apply lookup_replicate. split; [done|lia].
  - rewrite lookup_app_r by (rewrite length_replicate; lia).
    rewrite length_replicate, IH by lia. f_equal. lia.
Qed.

Lemma bisect_spec fuel lt lo hi :
  (hi - lo <= fuel)%nat -> (lo <= hi)%nat ->
  (forall i j, (i <= j < hi)%nat -> lt i = true -> lt j = true) ->
  let r := bisect fuel lt lo hi in
  (lo <= r <= hi)%nat /\ (forall i, (lo <= i < r)%nat -> lt i = false) /\
  ((r < hi)%nat -> lt r = true).
Proof.
  revert lo hi. induction fuel as [|fuel IH]; intros lo hi Hf Hle Hm; cbn [bisect].
  - split_and!; intros; lia.
  - destruct (Nat.ltb_spec lo hi) as [Hlt|]; [|split_and!; intros; lia].
    assert (Hmid : (lo <= (lo + hi) / 2 < hi)%nat).
    { split; [apply Nat.div_le_lower_bound; lia|apply Nat.Div0.div_lt_upper_bound; lia]. }
    set (mid := ((lo + hi) / 2)%nat) in *.
    destruct (lt mid) eqn:Hlm.
    + destruct (IH lo mid) as (Hr & Hb & Ha); [lia|lia| |].
      { intros i j Hij. apply Hm. lia. }
      split_and!; [lia|lia|done|]. intros _.
      destruct (decide (bisect fuel lt lo mid = mid)) as [->|]; [done|]. apply Ha. lia.
    + destruct (IH (S mid) hi) as (Hr & Hb & Ha); [lia|lia|done|].
      split_and!; [lia|lia| |done]. intros i Hi.
      destruct (decide (i <= mid)%nat); [|apply Hb; lia].
      destruct (lt i) eqn:Hli; [|done]. rewrite (Hm i mid) in Hlm; [done|lia|done].
Qed.

Lemma lookup_cumulate l acc i :
  (i < length l)%nat -> cumulate acc l !! i = Some (acc + total_weight (take (S i) l)).
Proof.
  revert acc i. induction l as [|s l IH]; intros acc i Hi; simpl in Hi; [lia|].
  destruct i as [|i]; cbn [cumulate lookup list_lookup take total_weight foldr].
  - f_equal. destruct l; simpl; lia.
  - rewrite IH by lia. cbn [total_weight foldr]. f_equal.
    change (foldr (fun s acc => us_weight s + acc) 0 (take (S i) l)) with (total_weight (take (S i) l)).
    lia.
Qed.

Lemma total_weight_take_S l i s :
  l !! i = Some s -> total_weight (take (S i) l) = total_weight (take i l) + us_weight s.
Proof. intros Hi. rewrite (take_S_r l i s Hi), total_weight_app. simpl. lia. Qed.

Lemma total_weight_take_mono l i j :
  weights_nonneg l -> (i <= j)%nat -> total_weight (take i l) <= total_weight (take j l).
Proof.
  intros Hl Hij. rewrite <- (take_drop i (take j l)), total_weight_app.
  rewrite take_take, Nat.min_l by done.
  assert (0 <= total_weight (drop i (take j l))); [|lia].
  apply total_weight_nonneg. by apply Forall_drop, Forall_take.
Qed.

Lemma choices_expand k l :
  weights_nonneg l -> 0 < total_weight l -> 0 <= k < 2 ^ 53 ->
  choices k l = Ok (expand l !! Z.to_nat (k * total_weight l / 2 ^ 53)).
Proof.
  intros Hl Ht Hk. unfold choices. rewrite (proj2 (Z.leb_gt _ _)) by lia. f_equal.
  set (T := total_weight l) in *. set (j := k * T / 2 ^ 53).
  assert (Hj : 0 <= j < T).
  { split; [apply Z.div_pos; lia|apply Z.div_lt_upper_bound; nia]. }
  assert (Hcmp : forall c, (k * T <? c * 2 ^ 53) = true <-> j < c).
  { intros c. rewrite Z.ltb_lt. unfold j. split; intros H.
    - apply Z.div_lt_upper_bound; lia.
    - pose proof (Z.mul_succ_div_gt (k * T) (2 ^ 53)). lia. }
  set (lt := fun mid => k * T <? _ * 2 ^ 53).
  assert (Hlt : forall i, (i < length l)%nat -> lt i = true <-> j < total_weight (take (S i) l)).
  { intros i Hi. unfold lt. by rewrite (lookup_cumulate l 0 i Hi), Hcmp. }
  assert (Hne : (0 < length l)%nat) by (destruct l; simpl; [done|lia]).
  destruct (bisect_spec (length l) lt 0 (length l - 1)) as (Hr & Hb & Ha); [lia|lia| |].
  { intros a b Hab. rewrite !Hlt by lia. intros.
    pose proof (total_weight_take_mono l (S a) (S b) Hl). lia. }
  set (r := bisect _ _ _ _) in *.
  destruct (lookup_lt_is_Some_2 l r) as [s Hs]; [lia|].
  rewrite Hs. symmetry. apply (expand_lookup_at l r); [done|done|].
  rewrite <- total_weight_take_S by done. split.
  - destruct r as [|r']; [rewrite take_0; simpl; lia|].
    destruct (lt r') eqn:Hlr; [rewrite Hb in Hlr by lia; done|].
    assert (~ j < total_weight (take (S r') l)) by (rewrite <- Hlt by lia; by rewrite Hlr). lia.
  - destruct (decide (r < length l - 1)%nat) as [Hlast|Hlast].
    + apply Hlt; [lia|by apply Ha].
    + rewrite take_ge by lia. fold T. lia.
Qed.

Lemma weights_nonneg_up l : weights_nonneg l -> weights_nonneg (up l).
Proof.
  unfold weights_nonneg, up. rewrite !Forall_forall. intros H s Hs. apply H.
  apply list_elem_of_In, filter_In in Hs as [Hs _]. by apply list_elem_of_In.
Qed.

(** [ip_hash] and [random] select from the same weighted list as round
    robin without building it: with weights that are not negative and not all
    zero, the hash walk returns the entry at [md5(ip) mod total] and the
    bisection of [random.choices] the entry at [floor(random() * total)]. *)
Theorem weighted_selection md5 k servers ip b :
  let W := expand (up servers) in
  weights_nonneg servers -> 0 < total_weight (up servers) ->
  ip <> [] -> encode ip = Ok b -> 0 <= k < 2 ^ 53 ->
  ih_select md5 servers ip = Ok (W !! Z.to_nat (md5 b mod zlen W)) /\
  rnd_select k servers = Ok (W !! Z.to_nat (k * zlen W / 2 ^ 53)).
Proof.
  intros W Hw Ht Hip Hb Hk. assert (Hu := weights_nonneg_up _ Hw).
  unfold W. rewrite zlen_expand by done. unfold ih_select, rnd_select.
  destruct (up servers) as [|s0 l] eqn:Hup; [done|]. split.
  - destruct ip as [|c ip]; [done|]. rewrite Hb. cbn [rbind]. cbv zeta.
    rewrite (proj2 (Z.eqb_neq (total_weight (s0 :: l)) 0)) by lia. f_equal.
    pose proof (Z.mod_pos_bound (md5 b) (total_weight (s0 :: l)) Ht).
    rewrite hash_walk_expand by (done || lia).
    destruct (lookup_lt_is_Some_2 (expand (s0 :: l))
      (Z.to_nat (md5 b mod total_weight (s0 :: l)))) as [w ->]; [|done].
    pose proof (zlen_expand _ Hu). unfold zlen in *. lia.
  - by apply choices_expand.
Qed.

(** ** Least connections *)

(** The order of the loads is transitive. *)
Lemma less_loaded_trans conns a b c :
  less_loaded conns b a = false -> less_loaded conns c b = false -> less_loaded conns c a = false.
Proof.
  unfold less_loaded. rewrite !Z.ltb_ge. intros Hab Hbc.
  apply (Z.mul_le_mono_pos_r _ _ (Z.max (us_weight b) 1)); [lia|].
  transitivity (conns_of conns b * Z.max (us_weight a) 1 * Z.max (us_weight c) 1).
  - replace (conns_of conns a * Z.max (us_weight c) 1 * Z.max (us_weight b) 1)
      with (conns_of conns a * Z.max (us_weight b) 1 * Z.max (us_weight c) 1) by ring.
    apply Z.mul_le_mono_nonneg_r; lia.
  - replace (conns_of conns b * Z.max (us_weight a) 1 * Z.max (us_weight c) 1)
      with (conns_of conns b * Z.max (us_weight c) 1 * Z.max (us_weight a) 1) by ring.
    replace (conns_of conns c * Z.max (us_weight a) 1 * Z.max (us_weight b) 1)
      with (conns_of conns c * Z.max (us_weight b) 1 * Z.max (us_weight a) 1) by ring.
    apply Z.mul_le_mono_nonneg_r; lia.
Qed.

Lemma less_loaded_asym conns a b : less_loaded conns a b = true -> less_loaded conns b a = false.
Proof. unfold less_loaded. rewrite Z.ltb_lt, Z.ltb_ge. lia. Qed.

Lemma less_loaded_refl conns a : less_loaded conns a a = false.
Proof. unfold less_loaded. rewrite Z.ltb_ge. lia. Qed.

Lemma min_by_spec conns l best :
  let m := min_by (less_loaded conns) best l in
  m ∈ best :: l /\ (forall s, s ∈ best :: l -> less_loaded conns s m = false).
Proof.
  revert best. induction l as [|a l IH]; intros best; simpl.
  - split; [by left|]. intros s [->|?%elem_of_nil]%elem_of_cons; [|done]. apply less_loaded_refl.
  - destruct (IH (if less_loaded conns a best then a else best)) as [Hin Hmin].
    set (m := min_by _ _ l) in *. split; [case_match; set_solver|].
    assert (Hx := Hmin _ ltac:(by left)).
    intros s [->|[->|Hs]%elem_of_cons]%elem_of_cons; [| |apply Hmin; by right].
    all: destruct (less_loaded conns a best) eqn:E; try done.
    + by eapply less_loaded_trans, less_loaded_asym.
    + by eapply less_loaded_trans.
Qed.

Lemma elem_of_up s servers : s ∈ up servers <-> s ∈ servers /\ us_down s = false.
Proof.
  unfold up. rewrite !list_elem_of_In, filter_In. by rewrite negb_true_iff.
Qed.

(** The counts of a dictionary that only [increment] and [decrement] change. *)
Definition conns_ok (conns : list (str * Z)) : Prop :=
  forall key n, dget conns key = Some n -> 0 <= n.

Lemma conns_ok_increment conns s : conns_ok conns -> conns_ok (increment conns s).
Proof.
  intros H key n. unfold increment. rewrite dget_dset. case_decide; [|apply H].
  intros [= <-]. destruct (dget conns _) eqn:Hg; [apply H in Hg|]; lia.
Qed.

Lemma conns_ok_decrement conns s : conns_ok conns -> conns_ok (decrement conns s).
Proof.
  intros H key n. unfold decrement. rewrite dget_dset. case_decide; [|apply H].
  intros [= <-]. lia.
Qed.

(** An [increment] and the [decrement] that follows it leave every count as it was. *)
Lemma decrement_increment conns s t :
  conns_ok conns -> conns_of (decrement (increment conns s) s) t = conns_of conns t.
Proof.
  intros H. unfold conns_of, decrement, increment. rewrite dget_dset_eq, !dget_dset.
  repeat case_decide; try done.
  rewrite H0. destruct (dget conns _) eqn:Hg; [apply H in Hg|]; lia.
Qed.

(** Least connections returns a server that is up and whose load
    (connections per unit of weight) no server that is up has less of; the
    counts it compares never go below zero, and a forwarded request, which
    increments and then decrements, leaves them unchanged. *)
Theorem least_conn_least conns servers s :
  conns_ok conns -> s ∈ servers -> us_down s = false ->
  (exists m, lc_select conns servers = Some m /\ m ∈ servers /\ us_down m = false /\
     forall t, t ∈ servers -> us_down t = false ->
       conns_of conns m * Z.max (us_weight t) 1 <= conns_of conns t * Z.max (us_weight m) 1) /\
  conns_ok (increment conns s) /\ conns_ok (decrement conns s) /\
  (forall t, conns_of (decrement (increment conns s) s) t = conns_of conns t).
Proof.
  intros Hc Hs Hd. split_and!;
    [|by apply conns_ok_increment|by apply conns_ok_decrement|intros; by apply decrement_increment].
  assert (Hup : s ∈ up servers) by by apply elem_of_up.
  unfold lc_select. destruct (up servers) as [|a l] eqn:E; [by apply elem_of_nil in Hup|].
  destruct (min_by_spec conns l a) as [Hin Hmin].
  eexists. split; [done|]. rewrite <- E, elem_of_up in Hin. destruct Hin as [Hin Hmd].
  split_and!; [done|done|]. intros t Ht Htd.
  apply Z.ltb_ge, (Hmin t). rewrite <- E. by apply elem_of_up.
Qed.

(** ** Every balancer *)

Lemma rr_available_up s servers : s ∈ rr_available servers -> s ∈ servers /\ us_down s = false.
Proof.
  unfold rr_available.
  destruct (List.filter (fun s => negb (us_down s) && negb (us_backup s)) servers) eqn:E;
    [|rewrite <- E]; rewrite !list_elem_of_In, filter_In, andb_true_iff, !negb_true_iff; naive_solver.
Qed.

(** No balancer ever hands out a server that is marked down or that is not
    in the list, and a selection keeps the balancer able to serve the list. *)
Theorem select_sound md5 k b servers ip s b' :
  balancer_ok b servers -> select md5 k b servers ip = (Ok (Some s), b') ->
  s ∈ servers /\ us_down s = false /\ balancer_ok b' servers.
Proof.
  intros Hok. destruct b as [i|c| |]; simpl.
  - destruct (lookup_lt_is_Some_2 (expand (rr_available servers)) (Z.to_nat i)) as [w Hw].
    { simpl in Hok. unfold zlen in Hok. lia. }
    rewrite (rr_select_at i servers w) by (done || apply Hok). intros [= <- <-].
    apply list_elem_of_lookup_2, elem_of_expand in Hw as [Hw _].
    apply rr_available_up in Hw as [? ?]. split_and!; [done|done|].
    simpl. simpl in Hok. apply Z.mod_pos_bound. lia.
  - intros [= Hs <-]. enough (s ∈ up servers) as [? ?]%elem_of_up by done.
    unfold lc_select in Hs. destruct (up servers) as [|a l]; [done|]. simplify_eq.
    clear. revert a. induction l as [|x l IH]; intros a; simpl; [by left|].
    specialize (IH (if less_loaded c x a then x else a)). case_match; set_solver.
  - intros [= Hs <-]. enough (s ∈ up servers) as [? ?]%elem_of_up by done.
    unfold ih_select in Hs. destruct (up servers) as [|a l] eqn:E; [done|].
    destruct ip; [simplify_eq; by left|]. inv_bind Hs. cbv zeta in Hs.
    destruct (total_weight (a :: l) =? 0); [done|]. apply Ok_inj in Hs. revert Hs.
    generalize (md5 a0 mod total_weight (a :: l)). intros n.
    destruct (hash_walk n (a :: l)) as [w|] eqn:Hw; intros Hs; [simplify_eq|by apply last_Some_elem_of].
    revert n Hw. generalize (a :: l). clear. intros k. induction k as [|x k IH]; intros n; simpl; [done|].
    case_match; intros; simplify_eq; [by left|right; eauto].
  - intros [= Hs <-]. enough (s ∈ up servers) as [? ?]%elem_of_up by done.
    unfold rnd_select, choices in Hs. destruct (up servers) as [|a l] eqn:E; [done|].
    cbv zeta in Hs. destruct (total_weight (a :: l) <=? 0); [done|].
    apply Ok_inj in Hs. by eapply list_elem_of_lookup_2.
Qed.

(** ** Concrete pool *)

Definition pool : list UpstreamServer :=
  [mkServer (py "a") 80 2 0 false false; mkServer (py "b") 80 1 0 false false;
   mkServer (py "c") 80 5 0 false true].

Example pool_round :
  fst (rr_run 3 1 pool) = [Ok (pool !! 0%nat); Ok (pool !! 1%nat); Ok (pool !! 0%nat)].
Proof. vm_compute. reflexivity. Qed.

Lemma round_robin_cycle_witness :
  rr_run 3 1 pool =
    (map (fun s => Ok (Some s)) (rotate 1 (expand (rr_available pool))), 1).
Proof. apply (round_robin_cycle 1 pool). vm_compute. by split. Defined.

Lemma weighted_selection_witness :
  ih_select be_decode pool (py "1") = Ok (pool !! 0%nat) /\
  rnd_select (2 ^ 53 - 1) pool = Ok (pool !! 1%nat).
Proof.
  destruct (weighted_selection be_decode (2 ^ 53 - 1) pool (py "1") [49]) as [H1 H2];
    [repeat constructor; vm_compute; discriminate|by vm_compute|discriminate|reflexivity|lia|].
  split; [rewrite H1|rewrite H2]; vm_compute; reflexivity.
Defined.

Lemma least_conn_least_witness :
  exists m, lc_select [(py "a:80", 3); (py "b:80", 1)] pool = Some m /\ m ∈ pool.
Proof.
  destruct (least_conn_least [(py "a:80", 3); (py "b:80", 1)] pool
    (mkServer (py "a") 80 2 0 false false)) as [(m & Hm & Hin & _) _].
  - intros key n. simpl. repeat case_decide; intros [=]; lia.
  - left.
  - reflexivity.
  - by exists m.
Defined.

Lemma select_sound_witness : us_down (mkServer (py "b") 80 1 0 false false) = false.
Proof.
  apply (select_sound be_decode 0 (RoundRobinBalancer 2) pool [] _ (RoundRobinBalancer 0)).
  - vm_compute. by split.
  - vm_compute. reflexivity.
Defined.

End LoadBalancer.
