(* ===== verification/HealthCheck.v ===== *)
(** * Passive health checks (src/proxy/health_check.py)

    The failure counts of the upstream servers.  A [ServerHealth] is only
    reached through the dictionary, so its mutation is an update of the entry.
    The clock reading of each operation is an argument. *)

From S2P Require Import Prelude PyStr LoadBalancer.
Import LoadBalancer.

Module HealthCheck.

Record ServerHealth := mkHealth {
  sh_host : str;
  sh_port : Z;
  failures : Z;
  last_failure : time;
  unavailable : bool;
  unavailable_since : time;
  total_failures : Z
}.

Record HealthMonitor := mkMonitor {
  max_failures : Z;
  fail_timeout : Z;              (* microseconds *)
  hm_servers : list (str * ServerHealth)
}.

Definition new_monitor (max timeout : Z) : HealthMonitor := mkMonitor max timeout [].

(** [_key]. *)
Definition health_key (host : str) (port : Z) : str := server_key host port.

Definition put (m : HealthMonitor) (key : str) (h : ServerHealth) : HealthMonitor :=
  mkMonitor (max_failures m) (fail_timeout m) (dset (hm_servers m) key h).

Definition record_failure (m : HealthMonitor) (host : str) (port : Z) (now : time) : HealthMonitor :=
  let key := health_key host port in
  let h := match dget (hm_servers m) key with
           | Some h => h
           | None => mkHealth host port 0 0 false 0 0
           end in
  let kept := if now - last_failure h >? fail_timeout m then 0 else failures h in
  let n := kept + 1 in
  let trip := max_failures m <=? n in
  put m key (mkHealth (sh_host h) (sh_port h) n now
               (if trip then true else unavailable h)
               (if trip then now else unavailable_since h)
               (total_failures h + 1)).

Definition record_success (m : HealthMonitor) (host : str) (port : Z) : HealthMonitor :=
  let key := health_key host port in
  match dget (hm_servers m) key with
  | None => m
  | Some h => put m key (mkHealth (sh_host h) (sh_port h) 0 (last_failure h) false
                           (unavailable_since h) (total_failures h))
  end.

Definition is_available (m : HealthMonitor) (host : str) (port : Z) (now : time)
    : bool * HealthMonitor :=
  let key := health_key host port in
  match dget (hm_servers m) key with
  | None => (true, m)
  | Some h =>
      if negb (unavailable h) then (true, m)
      else if now - unavailable_since h >? fail_timeout m
      then (true, put m key (mkHealth (sh_host h) (sh_port h) 0 (last_failure h) false
                               (unavailable_since h) (total_failures h)))
      else (false, m)
  end.

Definition get_health (m : HealthMonitor) (host : str) (port : Z) : option ServerHealth :=
  dget (hm_servers m) (health_key host port).

(** [list_all]. *)
Definition list_health (m : HealthMonitor) : list ServerHealth := dvals (hm_servers m).

(** ** Runs: the calls a connection makes, each with its clock reading *)

Inductive call :=
  | Failure (host : str) (port : Z)
  | Success (host : str) (port : Z)
  | Query (host : str) (port : Z).

Definition run_call (m : HealthMonitor) (c : time * call) : HealthMonitor :=
  match snd c with
  | Failure h p => record_failure m h p (fst c)
  | Success h p => record_success m h p
  | Query h p => snd (is_available m h p (fst c))
  end.

(** The server a call is about. *)
Definition about (host : str) (port : Z) (c : time * call) : bool :=
  match snd c with
  | Failure h p | Success h p | Query h p => bool_decide (h = host /\ p = port)
  end.

(** Times that follow each other within the timeout. *)
Fixpoint close_together (timeout : Z) (t : time) (ts : list time) : Prop :=
  match ts with
  | [] => True
  | t' :: ts' => 0 <= t' - t <= timeout /\ close_together timeout t' ts'
  end.

(** No failure of the server counts at time [t]. *)
Definition clear_at (m : HealthMonitor) (host : str) (port : Z) (t : time) : Prop :=
  match get_health m host port with
  | None => True
  | Some h => unavailable h = false /\ (failures h = 0 \/ fail_timeout m < t - last_failure h)
  end.

(** After [n] failures in a row, the last at [t]. *)
Definition failed (m : HealthMonitor) (host : str) (port : Z) (n : Z) (t : time) : Prop :=
  exists h, get_health m host port = Some h /\ failures h = n /\ last_failure h = t /\
    unavailable h = (max_failures m <=? n) /\
    (max_failures m <= n -> unavailable_since h = t).

Lemma run_call_settings m c :
  max_failures (run_call m c) = max_failures m /\ fail_timeout (run_call m c) = fail_timeout m.
Proof.
  destruct c as [t [h p|h p|h p]]; unfold run_call, record_failure, record_success, is_available;
    simpl; repeat case_match; done.
Qed.

Lemma run_call_other m c host port :
  about host port c = false -> get_health (run_call m c) host port = get_health m host port.
Proof.
  intros Hab. assert (Hne : forall h p, bool_decide (h = host /\ p = port) = false ->
    health_key h p <> health_key host port).
  { intros h p ?%bool_decide_eq_false Heq. by apply server_key_inj in Heq. }
  destruct c as [t [h p|h p|h p]]; simpl in Hab; apply Hne in Hab;
    unfold run_call, record_failure, record_success, is_available, get_health, put; simpl;
    repeat case_match; simpl; rewrite ?dget_dset_ne by done; done.
Qed.

Lemma first_failure m host port t :
  clear_at m host port t -> failed (record_failure m host port t) host port 1 t.
Proof.
  unfold clear_at, failed, record_failure, get_health, put. cbv zeta. cbn [hm_servers max_failures].
  rewrite dget_dset_eq. intros H. eexists. split; [done|].
  destruct (dget (hm_servers m) _) as [h|]; cbn [failures last_failure unavailable unavailable_since].
  - destruct H as [Hu Hf]. rewrite Hu, Z.gtb_ltb.
    assert (Hz : (if fail_timeout m <? t - last_failure h then 0 else failures h) = 0).
    { destruct (Z.ltb_spec (fail_timeout m) (t - last_failure h)); lia. }
    rewrite Hz. split_and!; [done|done|by destruct (_ <=? _)|].
    intros ?. by rewrite (proj2 (Z.leb_le _ _)).
  - assert (Hz : (if t - 0 >? fail_timeout m then 0 else 0) = 0) by by destruct (_ >? _).
    rewrite Hz. split_and!; [done|done|by destruct (_ <=? _)|].
    intros ?. by rewrite (proj2 (Z.leb_le _ _)).
Qed.

Lemma next_failure m host port n t t' :
  failed m host port n t -> 0 <= t' - t <= fail_timeout m ->
  failed (record_failure m host port t') host port (n + 1) t'.
Proof.
  intros (h & Hg & Hn & Hl & Hu & Hs) Ht. unfold failed, record_failure, get_health, put in *.
  cbv zeta. cbn [hm_servers max_failures]. rewrite dget_dset_eq, Hg. eexists. split; [done|].
  cbn [failures last_failure unavailable unavailable_since].
  rewrite Hl, Hn, Z.gtb_ltb, (proj2 (Z.ltb_ge _ _)) by lia. split_and!; [done|done| |].
  - destruct (Z.leb_spec (max_failures m) (n + 1)); [done|]. rewrite Hu. apply Z.leb_gt. lia.
  - intros. by rewrite (proj2 (Z.leb_le _ _)).
Qed.

Lemma failed_run host port timeout calls : forall m n t ts,
  fail_timeout m = timeout -> failed m host port n t -> close_together timeout t ts ->
  List.filter (about host port) calls = map (fun t => (t, Failure host port)) ts ->
  failed (foldl run_call m calls) host port (n + zlen ts) (default t (last ts)) /\
  fail_timeout (foldl run_call m calls) = timeout /\
  max_failures (foldl run_call m calls) = max_failures m.
Proof.
  induction calls as [|c calls IH]; intros m n t ts Htm Hf Hc Hown; simpl.
  - destruct ts; [|done]. simpl. rewrite Z.add_0_r. done.
  - destruct (run_call_settings m c) as [Hmax Htime]. simpl in Hown.
    destruct (about host port c) eqn:Hab.
    + destruct ts as [|t' ts]; [done|]. injection Hown as -> Hown. destruct Hc as [Hc1 Hc2].
      destruct (IH (run_call m (t', Failure host port)) (n + 1) t' ts) as (HA & HB & HC);
        [congruence|by apply next_failure with t; [done|rewrite Htm]|done|done|].
      split_and!; [|done|congruence]. rewrite last_cons.
      replace (n + zlen (t' :: ts)) with (n + 1 + zlen ts) by (unfold zlen; simpl; lia).
      by destruct (last ts).
    + destruct (IH (run_call m c) n t ts) as (HA & HB & HC); [congruence| |done|done|].
      { unfold failed in *. rewrite (run_call_other m c host port Hab), Hmax. done. }
      split_and!; [done|done|congruence].
Qed.

(** C39 A server trips exactly when it should: from a state in which no failure
    of it counts, a first failure followed by failures that come within the
    timeout of each other, interleaved with any calls about other servers,
    leaves it available exactly while it has had fewer than [max_failures]
    failures or once more than the timeout has passed since the last one. *)
Theorem health_trip_exact m host port calls1 t1 calls2 ts t :
  clear_at m host port t1 -> close_together (fail_timeout m) t1 ts ->
  List.filter (about host port) calls1 = [] ->
  List.filter (about host port) calls2 = map (fun t => (t, Failure host port)) ts ->
  let m' := foldl run_call m (calls1 ++ (t1, Failure host port) :: calls2) in
  fst (is_available m' host port t) =
    (zlen ts + 1 <? max_failures m) || (fail_timeout m <? t - default t1 (last ts)).
Proof.
  intros Hclear Hclose H1 H2. cbv zeta. rewrite foldl_app. cbn [foldl].
  assert (Hpre : get_health (foldl run_call m calls1) host port = get_health m host port /\
    fail_timeout (foldl run_call m calls1) = fail_timeout m /\
    max_failures (foldl run_call m calls1) = max_failures m).
  { clear -H1. revert m. induction calls1 as [|c calls1 IH]; intros m; [done|].
    simpl in *. destruct (about host port c) eqn:Hab; [done|].
    destruct (IH H1 (run_call m c)) as (-> & -> & ->).
    rewrite run_call_other by done. destruct (run_call_settings m c) as [-> ->]. done. }
  destruct Hpre as (Hg & Ht & Hm). set (m1 := foldl run_call m calls1) in *.
  assert (Hf : failed (run_call m1 (t1, Failure host port)) host port 1 t1).
  { apply first_failure. unfold clear_at. by rewrite Hg, Ht. }
  destruct (run_call_settings m1 (t1, Failure host port)) as [Hm2 Ht2].
  destruct (failed_run host port (fail_timeout m) calls2 (run_call m1 (t1, Failure host port)) 1 t1 ts
    ltac:(congruence) Hf Hclose H2)
    as ((h & Hh & Hn & Hl & Hu & Hs) & HB & HC).
  unfold is_available. change (dget _ (health_key host port)) with
    (get_health (foldl run_call (run_call m1 (t1, Failure host port)) calls2) host port).
  rewrite Hh, Hu, HC, HB, Hm2, Hm in *. rewrite (Z.add_comm 1) in *.
  destruct (Z.leb_spec (max_failures m) (zlen ts + 1)) as [Hle|Hgt]; simpl.
  - rewrite (proj2 (Z.ltb_ge _ _)) by lia. rewrite Hs, Z.gtb_ltb by done. simpl.
    by destruct (_ <? _).
  - by rewrite (proj2 (Z.ltb_lt _ _)).
Qed.

(** After the timeout the server is not probed once: it is available again with
    a clean count, and the next failure does not take it out. *)
Lemma retry_is_not_a_probe :
  let m := foldl run_call (new_monitor 3 10)
             [(1, Failure (py "a") 80); (2, Failure (py "a") 80); (3, Failure (py "a") 80);
              (20, Query (py "a") 80); (21, Failure (py "a") 80)] in
  fst (is_available m (py "a") 80 22) = true.
Proof. vm_compute. reflexivity. Qed.

Lemma health_trip_exact_witness :
  fst (is_available (foldl run_call (new_monitor 3 10)
    ([(0, Failure (py "b") 80)] ++ (1, Failure (py "a") 80) ::
     [(2, Failure (py "a") 80); (2, Success (py "b") 80); (3, Failure (py "a") 80)]))
    (py "a") 80 9) = false.
Proof.
  rewrite (health_trip_exact (new_monitor 3 10) (py "a") 80 [(0, Failure (py "b") 80)] 1
    [(2, Failure (py "a") 80); (2, Success (py "b") 80); (3, Failure (py "a") 80)] [2; 3] 9).
  - reflexivity.
  - vm_compute. exact I.
  - vm_compute. intuition discriminate.
  - vm_compute. reflexivity.
  - vm_compute. reflexivity.
Defined.

End HealthCheck.
