(* ===== verification/RateLimiter.v ===== *)
(** * Request rate limiting (src/proxy/security/rate_limiter.py)

    The windows and the burst credits of the limiter.  Rates and burst sizes
    are floats in the code; here they are integers of [RATE_UNIT]-ths of a
    request, as time stamps are integers of microseconds.  [allow] reads the
    clock twice (once itself, once in the default of [window_start]), so the
    operation takes both readings. *)

From S2P Require Import Prelude.

Module RateLimiter.

Definition RATE_UNIT : Z := 1000000.

Record RateWindow := mkWindow { rw_count : Z; rw_start : time }.

Record RateLimiter := mkLimiter {
  zone_size : Z;
  windows : list (str * RateWindow);
  bursts : list (str * time)
}.

Definition new_limiter (zone : Z) : RateLimiter := mkLimiter zone [] [].

(** The window the request is counted in: a new one when the key has none or
    when its window is more than a second old. *)
Definition current_window (l : RateLimiter) (key : str) (now now' : time) : RateWindow :=
  match dget (windows l) key with
  | Some w => if now - rw_start w >? SEC then mkWindow 0 now' else w
  | None => mkWindow 0 now'
  end.

Definition allow (l : RateLimiter) (key : str) (rate burst : Z) (now now' : time)
    : bool * RateLimiter :=
  if rate <=? 0 then (true, l)
  else
    let w := current_window l key now now' in
    let count := rw_count w + 1 in
    let l' := mkLimiter (zone_size l) (dset (windows l) key (mkWindow count (rw_start w))) (bursts l) in
    let effective_limit := rate + Z.max 0 burst in
    if count * RATE_UNIT <=? effective_limit then (true, l')
    else
      let burst_expiry := match dget (bursts l) key with Some t => t | None => 0 end in
      if (0 <? burst) && (now <? burst_expiry) then (true, l') else (false, l').

Definition set_burst (l : RateLimiter) (key : str) (burst_duration : Z) (now : time) : RateLimiter :=
  mkLimiter (zone_size l) (windows l) (dset (bursts l) key (now + burst_duration)).

Definition cleanup (l : RateLimiter) (now : time) : RateLimiter :=
  let ws := dfilter (fun _ w => negb (now - rw_start w >? 10 * SEC)) (windows l) in
  let bs := dfilter (fun _ t => negb (now >? t)) (bursts l) in
  let ws' := if zlen ws >? zone_size l then drop (Z.to_nat (zlen ws - zone_size l)) ws else ws in
  mkLimiter (zone_size l) ws' bs.

(** ** Runs

    A request of some key with the two clock readings of its [allow]. *)
Record request := mkRequest { req_key : str; req_now : time; req_now' : time }.

Fixpoint serve (l : RateLimiter) (rate burst : Z) (rs : list request) : list (request * bool) * RateLimiter :=
  match rs with
  | [] => ([], l)
  | r :: rs' =>
      let (b, l') := allow l (req_key r) rate burst (req_now r) (req_now' r) in
      let (out, l'') := serve l' rate burst rs' in
      ((r, b) :: out, l'')
  end.

(** The clock does not go backwards. *)
Fixpoint clock_ok (t : time) (rs : list request) : Prop :=
  match rs with
  | [] => True
  | r :: rs' => t <= req_now r <= req_now' r /\ clock_ok (req_now' r) rs'
  end.

(** The requests of [key] admitted in the second that starts at [a]. *)
Definition admitted (key : str) (a : time) (out : list (request * bool)) : Z :=
  zlen (List.filter (fun rb => bool_decide (req_key (fst rb) = key) && snd rb &&
    (a <=? req_now (fst rb)) && (req_now (fst rb) <=? a + SEC)) out).

Definition whole_limit (rate burst : Z) : Z := (rate + Z.max 0 burst) / RATE_UNIT.

(** What the limiter remembers bounds what it admitted: [t] is the time
    reached and [adm] the number of requests of [key] admitted so far in the
    second from [a]. *)
Definition budget (L : Z) (key : str) (a t : time) (adm : Z) (l : RateLimiter) : Prop :=
  0 <= adm /\ (t < a -> adm = 0) /\
  match dget (windows l) key with
  | None => adm = 0
  | Some w =>
      rw_start w <= t /\ 1 <= rw_count w /\
      (rw_start w < a -> adm <= Z.max 0 (Z.min (rw_count w) L - 1)) /\
      (a <= rw_start w <= a + SEC -> adm <= Z.max 0 (L - 1) + Z.min (rw_count w) L) /\
      (a + SEC < rw_start w -> adm <= Z.max 0 (2 * L - 1))
  end.

Lemma budget_bound L key a t adm l : 0 <= L -> budget L key a t adm l -> adm <= Z.max 0 (2 * L - 1).
Proof. unfold budget. intros HL (? & ? & H). destruct (dget (windows l) key); lia. Qed.

(** The admission test of a limiter without burst credits. *)
Lemma allow_no_credit l key rate burst now now' :
  0 < rate -> 0 <= now -> bursts l = [] ->
  let w := current_window l key now now' in
  allow l key rate burst now now' =
    (rw_count w + 1 <=? whole_limit rate burst,
     mkLimiter (zone_size l) (dset (windows l) key (mkWindow (rw_count w + 1) (rw_start w))) []).
Proof.
  intros Hr Hn Hb w. unfold allow. rewrite (proj2 (Z.leb_gt _ _)) by lia. fold w. rewrite Hb.
  cbn [dget]. rewrite (proj2 (Z.ltb_ge now 0)) by lia. rewrite andb_false_r. cbv zeta.
  assert (Heq : ((rw_count w + 1) * RATE_UNIT <=? rate + Z.max 0 burst) =
                (rw_count w + 1 <=? whole_limit rate burst)).
  { apply eq_bool_prop_intro. rewrite !Is_true_true, !Z.leb_le. unfold whole_limit, RATE_UNIT. dlia. }
  rewrite Heq. by destruct (rw_count w + 1 <=? whole_limit rate burst).
Qed.

Lemma budget_step L key a t adm l rate burst r :
  0 < rate -> 0 <= t -> bursts l = [] -> L = whole_limit rate burst ->
  budget L key a t adm l -> t <= req_now r <= req_now' r ->
  let (b, l') := allow l (req_key r) rate burst (req_now r) (req_now' r) in
  bursts l' = [] /\
  budget L key a (req_now' r) (adm + admitted key a [(r, b)]) l'.
Proof.
  intros Hr Ht Hb HL (Hpos & Hearly & Hw) Hclock.
  rewrite allow_no_credit by (done || lia). rewrite <- HL. split; [done|].
  assert (HL0 : 0 <= L) by (rewrite HL; unfold whole_limit, RATE_UNIT; dlia).
  unfold budget, admitted. cbn [windows List.filter fst snd]. rewrite dget_dset.
  destruct (decide (req_key r = key)) as [Hk|Hk].
  - rewrite bool_decide_true by done. subst key. cbn [andb].
    set (w' := current_window _ _ _ _).
    assert (Hw' : (w' = mkWindow 0 (req_now' r) /\
                   match dget (windows l) (req_key r) with
                   | Some w => SEC < req_now r - rw_start w | None => True end) \/
                  (dget (windows l) (req_key r) = Some w' /\ req_now r - rw_start w' <= SEC)).
    { unfold w', current_window. destruct (dget (windows l) (req_key r)) as [w|]; [|by left].
      rewrite Z.gtb_ltb. destruct (Z.ltb_spec SEC (req_now r - rw_start w)); auto. }
    destruct (Z.leb_spec (rw_count w' + 1) L), (Z.leb_spec a (req_now r)),
      (Z.leb_spec (req_now r) (a + SEC)); unfold zlen; cbn [andb length rw_start rw_count];
      (destruct Hw' as [[-> Hold]|[Heq Hold]];
       [destruct (dget (windows l) (req_key r)) as [w|] | rewrite Heq in Hw]);
      cbn [rw_start rw_count] in *; clear Hr Hb HL; split_and!; intros; lia.
  - rewrite bool_decide_false by done. cbn [andb]. rewrite Z.add_0_r.
    split_and!; [lia|lia|]. destruct (dget (windows l) key); lia.
Qed.

Lemma admitted_cons key a rb out :
  admitted key a (rb :: out) = admitted key a [rb] + admitted key a out.
Proof. unfold admitted. cbn [List.filter]. case_match; unfold zlen; cbn [length]; lia. Qed.

Lemma serve_budget L key a rate burst rs : forall t adm l,
  0 < rate -> 0 <= t -> bursts l = [] -> L = whole_limit rate burst ->
  budget L key a t adm l -> clock_ok t rs ->
  let (out, l') := serve l rate burst rs in
  exists t', budget L key a t' (adm + admitted key a out) l'.
Proof.
  induction rs as [|r rs IH]; intros t adm l Hr Ht Hb HL Hbud Hc; cbn [serve].
  - exists t. change (admitted key a []) with 0. by rewrite Z.add_0_r.
  - destruct Hc as [Hc Hrs].
    pose proof (budget_step L key a t adm l rate burst r Hr Ht Hb HL Hbud Hc) as Hstep.
    destruct (allow _ _ _ _ _ _) as [b l1]. destruct Hstep as [Hb1 Hbud1].
    specialize (IH (req_now' r) _ l1 Hr ltac:(lia) Hb1 HL Hbud1 Hrs).
    destruct (serve l1 rate burst rs) as [out l2]. destruct IH as [t' IH]. exists t'.
    by rewrite admitted_cons, Z.add_assoc.
Qed.

(** The rate limit bounds every second: whatever the sequence of requests
    of any clients on a clock that does not go backwards, a fresh limiter
    without burst credits admits of one client, in any interval of one second,
    at most [2 * L - 1] requests, where [L] is the whole part of
    [rate + burst]. *)
Theorem rate_limit_bound zone rate burst key a t rs :
  0 < rate -> 0 <= t -> clock_ok t rs ->
  admitted key a (fst (serve (new_limiter zone) rate burst rs)) <= Z.max 0 (2 * whole_limit rate burst - 1).
Proof.
  intros Hr Ht Hc.
  pose proof (serve_budget _ key a rate burst rs t 0 (new_limiter zone) Hr Ht eq_refl eq_refl) as H.
  destruct (serve _ _ _ _) as [out l']. destruct H as [t' H]; [done|done|].
  apply budget_bound in H; [by rewrite Z.add_0_l in H|].
  unfold whole_limit, RATE_UNIT. dlia.
Qed.

(** [cleanup] keeps the number of tracked clients within the zone, and while
    the zone is not full it forgets only windows that are ten seconds old. *)
Lemma cleanup_bounded l now :
  zlen (windows (cleanup l now)) <= Z.max 0 (zone_size l) /\
  (zlen (windows l) <= zone_size l -> dict_ok (windows l) ->
   forall key w, dget (windows l) key = Some w -> now - rw_start w <= 10 * SEC ->
     dget (windows (cleanup l now)) key = Some w).
Proof.
  unfold cleanup. cbn [windows]. rewrite Z.gtb_ltb. split.
  - destruct (Z.ltb_spec (zone_size l) (zlen (dfilter (fun _ w => negb (now - rw_start w >? 10 * SEC)) (windows l))));
      [|lia]. unfold zlen in *. rewrite length_drop. lia.
  - intros Hlen Hok key w Hget Hold.
    assert (Hle : zlen (dfilter (fun _ w => negb (now - rw_start w >? 10 * SEC)) (windows l)) <= zlen (windows l)).
    { unfold zlen, dfilter. apply inj_le, List.filter_length_le. }
    rewrite (proj2 (Z.ltb_ge _ _)) by lia. rewrite dget_dfilter, Hget by done.
    by rewrite Z.gtb_ltb, (proj2 (Z.ltb_ge _ _)) by lia.
Qed.

(** ** One second of a client *)

(** What happens to a limiter: requests of any clients, and cleanups. *)
Inductive rl_op := Ask (r : request) | Clean (now : time).

Fixpoint serve_ops (l : RateLimiter) (rate burst : Z) (ops : list rl_op) : list (request * bool) :=
  match ops with
  | [] => []
  | Ask r :: ops' =>
      let (b, l') := allow l (req_key r) rate burst (req_now r) (req_now' r) in
      (r, b) :: serve_ops l' rate burst ops'
  | Clean now :: ops' => serve_ops (cleanup l now) rate burst ops'
  end.

(** The decisions on the requests of [key], in order. *)
Definition decisions (key : str) (out : list (request * bool)) : list bool :=
  map snd (List.filter (fun rb => bool_decide (req_key (fst rb) = key)) out).

(** The requests of [key] fall within [lo] and [hi], and the cleanups are not
    later. *)
Definition within (key : str) (lo hi : time) (op : rl_op) : Prop :=
  match op with
  | Ask r => req_key r = key -> lo <= req_now r <= hi
  | Clean now => now <= hi
  end.

(** The limiter has room for its clients and gives [key] no burst credit. *)
Definition roomy (l : RateLimiter) (key : str) (n : Z) : Prop :=
  dict_ok (windows l) /\ zlen (windows l) + n <= zone_size l /\ dget (bursts l) key = None.

Lemma zlen_dset_le {A} (d : list (str * A)) k v : zlen (dset d k v) <= zlen d + 1.
Proof. unfold zlen. induction d as [|[k' v'] d IH]; simpl; [lia|]. case_decide; simpl; lia. Qed.

Lemma roomy_less l key n m : roomy l key n -> m <= n -> roomy l key m.
Proof. unfold roomy. intuition lia. Qed.

Lemma roomy_allow l key rate burst k now now' n :
  0 < rate -> roomy l key (n + 1) -> roomy (snd (allow l k rate burst now now')) key n.
Proof.
  intros Hr (H1 & H2 & H3). unfold allow. rewrite (proj2 (Z.leb_gt _ _)) by lia. cbv zeta.
  pose proof (zlen_dset_le (windows l) k (mkWindow (rw_count (current_window l k now now') + 1)
    (rw_start (current_window l k now now')))).
  repeat case_match; simpl; (split_and!; simpl; [by apply dict_ok_dset|lia|done]).
Qed.

Lemma roomy_cleanup l key now n : 0 <= n -> roomy l key n -> roomy (cleanup l now) key n.
Proof.
  intros Hn (H1 & H2 & H3). unfold cleanup.
  set (ws := dfilter _ (windows l)).
  assert (Hle : zlen ws <= zlen (windows l)) by (unfold zlen, ws, dfilter; apply inj_le, List.filter_length_le).
  rewrite Z.gtb_ltb, (proj2 (Z.ltb_ge _ _)) by lia. split_and!; simpl; [by apply dict_ok_dfilter|lia|].
  clear -H3. induction (bursts l) as [|[k v] d IH]; simpl in *; [done|]. case_decide; [done|].
  destruct (negb _); simpl; [rewrite decide_False by done|]; auto.
Qed.

(** The decision on a request whose window is known. *)
Lemma allow_counts l key rate burst now now' c s :
  0 < rate -> 0 <= now -> dget (bursts l) key = None -> current_window l key now now' = mkWindow c s ->
  allow l key rate burst now now' =
    (c + 1 <=? whole_limit rate burst,
     mkLimiter (zone_size l) (dset (windows l) key (mkWindow (c + 1) s)) (bursts l)).
Proof.
  intros Hr Hn Hb Hw. unfold allow. rewrite (proj2 (Z.leb_gt _ _)) by lia. rewrite Hw, Hb. cbv zeta.
  cbn [rw_count rw_start]. rewrite (proj2 (Z.ltb_ge now 0)) by lia. rewrite andb_false_r.
  assert (Heq : ((c + 1) * RATE_UNIT <=? rate + Z.max 0 burst) = (c + 1 <=? whole_limit rate burst)).
  { apply eq_bool_prop_intro. rewrite !Is_true_true, !Z.leb_le. unfold whole_limit, RATE_UNIT. dlia. }
  rewrite Heq. by destruct (c + 1 <=? whole_limit rate burst).
Qed.

Lemma allow_other l key k rate burst now now' :
  k <> key -> dget (windows (snd (allow l k rate burst now now'))) key = dget (windows l) key.
Proof.
  intros Hk. unfold allow. destruct (rate <=? 0); [done|]. cbv zeta.
  repeat case_match; simpl; by rewrite dget_dset_ne.
Qed.

Lemma decisions_cons_other key r b out :
  req_key r <> key -> decisions key ((r, b) :: out) = decisions key out.
Proof. intros Hk. unfold decisions. simpl. by rewrite bool_decide_false. Qed.

Lemma decisions_cons_own key r b out :
  req_key r = key -> decisions key ((r, b) :: out) = b :: decisions key out.
Proof. intros Hk. unfold decisions. simpl. by rewrite bool_decide_true. Qed.

Lemma seq_decisions_S (f : nat -> bool) n : map f (seq 0 (S n)) = f 0%nat :: map (fun i => f (S i)) (seq 0 n).
Proof. simpl. by rewrite <- seq_shift, map_map. Qed.

(** While its window is open, [c] requests into it. *)
Lemma serve_open key rate burst s ops : forall l c,
  0 < rate -> 0 <= s -> roomy l key (zlen ops) -> dget (windows l) key = Some (mkWindow c s) ->
  Forall (within key s (s + SEC)) ops ->
  let ds := decisions key (serve_ops l rate burst ops) in
  ds = map (fun i => c + Z.of_nat i + 1 <=? whole_limit rate burst) (seq 0 (length ds)).
Proof.
  induction ops as [|op ops IH]; intros l c Hr Hs Hroom Hw Hin; [done|].
  apply Forall_cons in Hin as [Hop Hin].
  assert (Hz : zlen (op :: ops) = zlen ops + 1) by (unfold zlen; simpl; lia). rewrite Hz in Hroom.
  destruct op as [r|now]; cbn [serve_ops].
  - pose proof (roomy_allow l key rate burst (req_key r) (req_now r) (req_now' r) _ Hr Hroom) as Hroom'.
    destruct (decide (req_key r = key)) as [Hk|Hk].
    + simpl in Hop. specialize (Hop Hk). subst key.
      assert (Hcw : current_window l (req_key r) (req_now r) (req_now' r) = mkWindow c s).
      { unfold current_window. rewrite Hw. simpl. rewrite Z.gtb_ltb, (proj2 (Z.ltb_ge _ _)) by lia. done. }
      rewrite (allow_counts _ _ _ _ _ _ c s Hr) in Hroom' |- *; [|lia|apply Hroom|done|lia|apply Hroom|done].
      simpl in Hroom'. rewrite decisions_cons_own by done.
      specialize (IH _ (c + 1) Hr Hs Hroom' (dget_dset_eq _ _ _) Hin). cbv zeta in *.
      cbn [length]. rewrite seq_decisions_S. f_equal; [by rewrite Z.add_0_r|]. rewrite IH at 1.
      apply map_ext. intros i. f_equal. lia.
    + pose proof (allow_other l key (req_key r) rate burst (req_now r) (req_now' r) Hk) as Hkeep.
      destruct (allow l (req_key r) rate burst (req_now r) (req_now' r)) as [b l']. simpl in Hroom', Hkeep.
      rewrite decisions_cons_other by done. apply IH; [done|done|done|by rewrite Hkeep|done].
  - simpl in Hop. assert (Hroom' : roomy l key (zlen ops)) by (eapply roomy_less; [done|lia]).
    apply IH; [done|done|apply roomy_cleanup; [apply zlen_nonneg|done]| |done].
    apply cleanup_bounded; [|apply Hroom'|done|simpl; unfold SEC in *; lia].
    destruct Hroom' as (_ & Hz' & _). pose proof (zlen_nonneg ops). lia.
Qed.

(** The client rests: it has no window, or one that is more than a second old
    at time [t]. *)
Definition rested (l : RateLimiter) (key : str) (t : time) : Prop :=
  match dget (windows l) key with Some w => t - rw_start w > SEC | None => True end.

(** C20 The rate limit in the second of a client's first request is exact: of
    a client that has not been seen for more than a second (or ever) and has
    no burst credit, whatever requests of other clients and cleanups come in
    between, exactly the first [L] of the requests that follow within a second
    of the first are admitted, where [L] is the whole part of [rate + burst];
    every further one is refused.  (The rate is positive, the clock has
    started at 0 and the zone has room for the clients.) *)
Theorem rate_limit_exact l rate burst r ops :
  let key := req_key r in
  0 < rate -> 0 <= req_now r <= req_now' r ->
  roomy l key (1 + zlen ops) -> rested l key (req_now r) ->
  Forall (within key (req_now' r) (req_now' r + SEC)) ops ->
  let ds := decisions key (serve_ops l rate burst (Ask r :: ops)) in
  ds = map (fun i => Z.of_nat i <? whole_limit rate burst) (seq 0 (length ds)).
Proof.
  intros key Hr Hnow Hroom Hrest Hin. cbn [serve_ops]. fold key.
  assert (Hcw : current_window l key (req_now r) (req_now' r) = mkWindow 0 (req_now' r)).
  { unfold rested in Hrest. unfold current_window. destruct (dget (windows l) key) as [w|]; [|done].
    rewrite Z.gtb_ltb. by rewrite (proj2 (Z.ltb_lt _ _)) by lia. }
  rewrite Z.add_comm in Hroom.
  pose proof (roomy_allow l key rate burst key (req_now r) (req_now' r) _ Hr Hroom) as Hroom'.
  rewrite (allow_counts _ _ _ _ _ _ 0 (req_now' r) Hr) in Hroom' |- *; [|lia|apply Hroom|done|lia|apply Hroom|done].
  simpl in Hroom'. rewrite decisions_cons_own by done.
  pose proof (serve_open key rate burst (req_now' r) ops _ 1 Hr ltac:(lia) Hroom' (dget_dset_eq _ _ _) Hin) as H.
  cbv zeta in *. cbn [length]. rewrite seq_decisions_S. f_equal.
  - destruct (Z.leb_spec (0 + 1) (whole_limit rate burst)), (Z.ltb_spec (Z.of_nat 0) (whole_limit rate burst)); lia.
  - rewrite H at 1. apply map_ext. intros i.
    destruct (Z.leb_spec (1 + Z.of_nat i + 1) (whole_limit rate burst)),
      (Z.ltb_spec (Z.of_nat (S i)) (whole_limit rate burst)); lia.
Qed.

(** The bound is reached: the window is fixed at the first request and not
    sliding, so a client allowed three requests a second has five admitted
    within a second. *)
Definition straddle : list request :=
  map (fun t => mkRequest (py "10.0.0.1") t t)
    [0; SEC - 1; SEC; SEC + 1; SEC + 1; SEC + 2; SEC + 3].

Lemma rate_limit_tight :
  whole_limit (3 * RATE_UNIT) 0 = 3 /\
  admitted (py "10.0.0.1") (SEC - 1) (fst (serve (new_limiter 10) (3 * RATE_UNIT) 0 straddle)) = 5.
Proof. split; vm_compute; reflexivity. Qed.

(** Three requests a second: the fourth is refused, another client is not
    affected, and a cleanup changes nothing. *)
Lemma rate_limit_exact_witness :
  decisions (py "10.0.0.1") (serve_ops (new_limiter 10) (3 * RATE_UNIT) 0
    [Ask (mkRequest (py "10.0.0.1") 5 6); Ask (mkRequest (py "10.0.0.1") 7 7); Clean 8;
     Ask (mkRequest (py "10.0.0.9") 9 9); Ask (mkRequest (py "10.0.0.1") 10 10);
     Ask (mkRequest (py "10.0.0.1") 11 11)])
  = [true; true; true; false].
Proof.
  pose proof (rate_limit_exact (new_limiter 10) (3 * RATE_UNIT) 0 (mkRequest (py "10.0.0.1") 5 6)
    [Ask (mkRequest (py "10.0.0.1") 7 7); Clean 8; Ask (mkRequest (py "10.0.0.9") 9 9);
     Ask (mkRequest (py "10.0.0.1") 10 10); Ask (mkRequest (py "10.0.0.1") 11 11)]) as H.
  cbv zeta in H. etransitivity; [apply H|].
  - reflexivity.
  - simpl. lia.
  - split_and!; [apply dict_ok_nil|vm_compute; discriminate|reflexivity].
  - exact I.
  - repeat constructor; simpl; intros; unfold SEC; lia.
  - vm_compute. reflexivity.
Defined.

Lemma rate_limit_bound_witness :
  admitted (py "10.0.0.1") (SEC - 1) (fst (serve (new_limiter 10) (3 * RATE_UNIT) 0 straddle)) <= 5.
Proof.
  apply (rate_limit_bound 10 (3 * RATE_UNIT) 0 (py "10.0.0.1") (SEC - 1) 0 straddle);
    vm_compute; intuition discriminate.
Defined.

End RateLimiter.
