(* ===== verification/UpstreamPool.v ===== *)
(** * Pool of upstream connections (src/proxy/upstream.py)

    The keep-alive pool.  Stream objects are numbered; a connection is only
    reached through the list of its server, so mutating it is an update of
    that list.  [get_connection] awaits the opening of a connection between
    its search and its registration, so it is two operations. *)

From S2P Require Import Prelude PyStr LoadBalancer.
Import LoadBalancer.

Module UpstreamPool.

Record PooledConnection := mkConn {
  pc_reader : nat;
  pc_writer : nat;
  pc_host : str;
  pc_port : Z;
  pc_created_at : time;
  pc_last_used : time;
  pc_in_use : bool
}.

#[global] Instance PooledConnection_eq_dec : EqDecision PooledConnection.
Proof. solve_decision. Defined.

Record UpstreamPool := mkPool {
  max_idle_per_server : Z;
  idle_timeout : Z;                                   (* microseconds *)
  pools : list (str * list PooledConnection);
  closed : list nat                                   (* writers closed so far *)
}.

Definition new_pool (max_idle timeout : Z) : UpstreamPool := mkPool max_idle timeout [] [].

Definition pool_key (host : str) (port : Z) : str := server_key host port.

Definition conn_is_stale (p : UpstreamPool) (c : PooledConnection) (now : time) : bool :=
  now - pc_last_used c >? idle_timeout p.

Definition use (c : PooledConnection) (in_use : bool) (now : time) : PooledConnection :=
  mkConn (pc_reader c) (pc_writer c) (pc_host c) (pc_port c) (pc_created_at c) now in_use.

(** [self._pools.get(key, [])]. *)
Definition pool_of (p : UpstreamPool) (key : str) : list PooledConnection :=
  match dget (pools p) key with Some l => l | None => [] end.

Definition with_pool (p : UpstreamPool) (key : str) (l : list PooledConnection) : UpstreamPool :=
  mkPool (max_idle_per_server p) (idle_timeout p) (dset (pools p) key l) (closed p).

Definition close_writer (p : UpstreamPool) (w : nat) : UpstreamPool :=
  mkPool (max_idle_per_server p) (idle_timeout p) (pools p) (closed p ++ [w]).

(** The first connection of the list that passes the test, changed in place. *)
Fixpoint update_first (test : PooledConnection -> bool) (f : PooledConnection -> PooledConnection)
    (l : list PooledConnection) : option (PooledConnection * list PooledConnection) :=
  match l with
  | [] => None
  | c :: l' =>
      if test c then Some (c, f c :: l')
      else match update_first test f l' with
           | Some (d, l'') => Some (d, c :: l'')
           | None => None
           end
  end.

(** [get_connection] up to the await: an idle connection that is not stale. *)
Definition get_idle (p : UpstreamPool) (host : str) (port : Z) (now : time)
    : option (nat * nat) * UpstreamPool :=
  let key := pool_key host port in
  match update_first (fun c => negb (pc_in_use c) && negb (conn_is_stale p c now))
          (fun c => use c true now) (pool_of p key) with
  | Some (c, l) => (Some (pc_reader c, pc_writer c), with_pool p key l)
  | None => (None, p)
  end.

(** [get_connection] after the await, when a new connection was opened. *)
Definition add_connection (p : UpstreamPool) (host : str) (port : Z) (reader writer : nat)
    (created used : time) : UpstreamPool :=
  let key := pool_key host port in
  with_pool p key (pool_of p key ++ [mkConn reader writer host port created used true]).

Definition release (p : UpstreamPool) (host : str) (port : Z) (writer : nat) (now : time)
    : UpstreamPool :=
  let key := pool_key host port in
  match update_first (fun c => bool_decide (pc_writer c = writer)) (fun c => use c false now)
          (pool_of p key) with
  | Some (_, l) => with_pool p key l
  | None => close_writer p writer
  end.

(** [pool.remove(conn)]: the first element equal to it. *)
Fixpoint remove_first (c : PooledConnection) (l : list PooledConnection) : list PooledConnection :=
  match l with
  | [] => []
  | d :: l' => if decide (d = c) then l' else d :: remove_first c l'
  end.

Definition close_connection (p : UpstreamPool) (host : str) (port : Z) (writer : nat)
    : UpstreamPool :=
  let key := pool_key host port in
  let pool := pool_of p key in
  match List.find (fun c => bool_decide (pc_writer c = writer)) pool with
  | Some c => close_writer (with_pool p key (remove_first c pool)) writer
  | None => p
  end.

(** The inner loop of [prune_idle] over a copy [snapshot] of the list. *)
Fixpoint prune_pool (p : UpstreamPool) (now : time) (snapshot pool : list PooledConnection)
    : list PooledConnection * list nat :=
  match snapshot with
  | [] => (pool, [])
  | c :: rest =>
      if negb (pc_in_use c) && conn_is_stale p c now
      then let (pool', ws) := prune_pool p now rest (remove_first c pool) in (pool', pc_writer c :: ws)
      else prune_pool p now rest pool
  end.

(** The outer loop; an emptied list loses its key. *)
Fixpoint prune_pools (p : UpstreamPool) (now : time) (d : list (str * list PooledConnection))
    : list (str * list PooledConnection) * list nat :=
  match d with
  | [] => ([], [])
  | (key, l) :: d' =>
      let (l', ws) := prune_pool p now l l in
      let (d'', ws') := prune_pools p now d' in
      (match l' with [] => d'' | _ => (key, l') :: d'' end, ws ++ ws')
  end.

Definition prune_idle (p : UpstreamPool) (now : time) : Z * UpstreamPool :=
  let (d, ws) := prune_pools p now (pools p) in
  (zlen ws, mkPool (max_idle_per_server p) (idle_timeout p) d (closed p ++ ws)).

Definition all_conns (p : UpstreamPool) : list PooledConnection := concat (dvals (pools p)).

Definition active_connections (p : UpstreamPool) : Z := zlen (List.filter pc_in_use (all_conns p)).
Definition idle_connections (p : UpstreamPool) : Z :=
  zlen (List.filter (fun c => negb (pc_in_use c)) (all_conns p)).

(** [shutdown]. *)
Definition pool_shutdown (p : UpstreamPool) : UpstreamPool :=
  mkPool (max_idle_per_server p) (idle_timeout p) [] (closed p ++ map pc_writer (all_conns p)).

(** ** Use of the pool

    The requests that share a pool: a lease is a key and a writer that some
    request holds.  A request gives back only what it holds.  The state has
    two sets of leases: those of connections that the pool lists, and those
    that [shutdown] cut, whose holders do not know it. *)

Definition leases := gset (str * nat).

Definition writers (l : list PooledConnection) : list nat := map pc_writer l.

Definition pool_state : Type := UpstreamPool * leases * leases.

Inductive pool_step : pool_state -> pool_state -> Prop :=
  | step_reuse p L D host port now r w p' :
      get_idle p host port now = (Some (r, w), p') ->
      pool_step (p, L, D) (p', L ∪ {[(pool_key host port, w)]}, D)
  | step_miss p L D host port now p' :
      get_idle p host port now = (None, p') -> pool_step (p, L, D) (p', L, D)
  | step_opened p L D host port r w created used :
      w ∉ writers (all_conns p) -> w ∉ closed p ->
      pool_step (p, L, D) (add_connection p host port r w created used, L ∪ {[(pool_key host port, w)]}, D)
  | step_release p L D host port w now :
      (pool_key host port, w) ∈ L ∪ D ->
      pool_step (p, L, D)
        (release p host port w now, L ∖ {[(pool_key host port, w)]}, D ∖ {[(pool_key host port, w)]})
  | step_close p L D host port w :
      (pool_key host port, w) ∈ L ∪ D ->
      pool_step (p, L, D)
        (close_connection p host port w, L ∖ {[(pool_key host port, w)]}, D ∖ {[(pool_key host port, w)]})
  | step_prune p L D now :
      pool_step (p, L, D) (snd (prune_idle p now), L, D)
  | step_shutdown p L D :
      pool_step (p, L, D) (pool_shutdown p, ∅, D ∪ L).

Inductive pool_reachable (max_idle timeout : Z) : pool_state -> Prop :=
  | reach_new : pool_reachable max_idle timeout (new_pool max_idle timeout, ∅, ∅)
  | reach_step s s' : pool_reachable max_idle timeout s -> pool_step s s' -> pool_reachable max_idle timeout s'.

Record pool_inv (p : UpstreamPool) (L : leases) : Prop := {
  pi_dict : dict_ok (pools p);
  pi_nodup : NoDup (writers (all_conns p));
  pi_lease key w : (key, w) ∈ L <->
    exists c, c ∈ pool_of p key /\ pc_writer c = w /\ pc_in_use c = true;
  pi_closed w : w ∈ closed p -> w ∉ writers (all_conns p);
}.

(** ** Lists of connections *)

Lemma update_first_Some test f l c l' :
  update_first test f l = Some (c, l') ->
  exists l1 l2, l = l1 ++ c :: l2 /\ l' = l1 ++ f c :: l2 /\ test c = true.
Proof.
  revert l'. induction l as [|d l IH]; intros l'; simpl; [done|].
  destruct (test d) eqn:Hd; [intros; simplify_eq; by exists [], l|].
  destruct (update_first test f l) as [[e l'']|]; [|done]. intros; simplify_eq.
  destruct (IH l'' eq_refl) as (l1 & l2 & -> & -> & ?). by exists (d :: l1), l2.
Qed.

Lemma update_first_None test f l c : update_first test f l = None -> c ∈ l -> test c = false.
Proof.
  induction l as [|d l IH]; simpl; [by intros ? ?%elem_of_nil|].
  destruct (test d) eqn:Hd; [done|]. destruct (update_first test f l) as [[]|]; [done|].
  intros _ [->|?]%elem_of_cons; auto.
Qed.

Lemma NoDup_map_inj {A B} (f : A -> B) l x y :
  NoDup (map f l) -> x ∈ l -> y ∈ l -> f x = f y -> x = y.
Proof.
  induction l as [|a l IH]; [by intros ? ?%elem_of_nil|]. simpl.
  intros [Hn Hd]%NoDup_cons [->|Hx]%elem_of_cons [->|Hy]%elem_of_cons Heq; auto.
  - exfalso. apply Hn. rewrite Heq. by apply list_elem_of_fmap_2.
  - exfalso. apply Hn. rewrite <- Heq. by apply list_elem_of_fmap_2.
Qed.

Lemma elem_of_writers w l : w ∈ writers l <-> exists c, c ∈ l /\ pc_writer c = w.
Proof.
  unfold writers. rewrite list_elem_of_fmap. split; intros (c & H1 & H2); exists c; naive_solver.
Qed.

Lemma writers_app l k : writers (l ++ k) = writers l ++ writers k.
Proof. apply map_app. Qed.

(** The connections of one key and the rest. *)
Lemma all_split p key : exists rest,
  all_conns p ≡ₚ pool_of p key ++ rest /\
  forall l' cl, all_conns (mkPool (max_idle_per_server p) (idle_timeout p) (dset (pools p) key l') cl)
                ≡ₚ l' ++ rest.
Proof.
  unfold all_conns, pool_of. cbn [pools]. induction (pools p) as [|[k0 l0] d IH]; cbn [dget dset dvals map concat].
  - exists []. split; [done|]. intros. simpl. by rewrite !app_nil_r.
  - destruct (decide (k0 = key)) as [->|Hne].
    + exists (concat (dvals d)). by split.
    + destruct IH as (rest & H1 & H2). exists (l0 ++ rest). cbn [dvals map snd concat] in *. split.
      * change (map snd d) with (dvals d). rewrite H1.
        rewrite !(assoc_L (++)). apply Permutation_app_tail, Permutation_app_comm.
      * intros l' cl. specialize (H2 l' cl). change (map snd (dset d key l')) with (dvals (dset d key l')).
        rewrite H2. rewrite !(assoc_L (++)). apply Permutation_app_tail, Permutation_app_comm.
Qed.

Lemma pool_of_dset p key key' l cl :
  pool_of (mkPool (max_idle_per_server p) (idle_timeout p) (dset (pools p) key l) cl) key' =
    if decide (key = key') then l else pool_of p key'.
Proof. unfold pool_of. cbn [pools]. rewrite dget_dset. by destruct (decide (key = key')). Qed.

(** Replacing the connections of one key keeps the invariant when the new
    list has no writer twice, each of them old or fresh, when what is closed
    leaves the list, and when the leases of the key follow it. *)
Lemma inv_update p L key l' cl L' :
  pool_inv p L -> NoDup (writers l') ->
  (forall w, w ∈ writers l' ->
     w ∈ writers (pool_of p key) \/ ((w ∉ writers (all_conns p)) /\ (w ∉ closed p))) ->
  (forall w, w ∈ cl -> w ∈ closed p \/ ((w ∈ writers (pool_of p key)) /\ (w ∉ writers l'))) ->
  (forall k w, (k, w) ∈ L' <->
     if decide (k = key) then exists c, c ∈ l' /\ pc_writer c = w /\ pc_in_use c = true
     else (k, w) ∈ L) ->
  pool_inv (mkPool (max_idle_per_server p) (idle_timeout p) (dset (pools p) key l') cl) L'.
Proof.
  intros [Hd Hn Hl Hc] Hnd Hold Hcl HL. destruct (all_split p key) as (rest & H1 & H2).
  assert (Hw : writers (all_conns p) ≡ₚ writers (pool_of p key) ++ writers rest).
  { unfold writers. rewrite H1. by rewrite map_app. }
  assert (Hw' : writers (all_conns (mkPool (max_idle_per_server p) (idle_timeout p)
    (dset (pools p) key l') cl)) ≡ₚ writers l' ++ writers rest).
  { unfold writers. rewrite (H2 l' cl). by rewrite map_app. }
  rewrite Hw, NoDup_app in Hn. destruct Hn as (Hn1 & Hn2 & Hn3).
  split; cbn [pools closed].
  - by apply dict_ok_dset.
  - rewrite Hw'. apply NoDup_app. split_and!; [done| |done].
    intros w [Hin|[Hfresh _]]%Hold; [by apply Hn2|].
    contradict Hfresh. rewrite Hw. set_solver.
  - intros k w. rewrite HL, pool_of_dset. destruct (decide (k = key)) as [->|Hne].
    + by rewrite decide_True.
    + rewrite decide_False by done. apply Hl.
  - intros w [Hin|[Hin Hnin]]%Hcl; rewrite Hw', not_elem_of_app.
    + pose proof (Hc w Hin) as Hc'. rewrite Hw, not_elem_of_app in Hc'. split; [|tauto].
      intros [?|[_ ?]]%Hold; tauto.
    + split; [done|by apply Hn2].
Qed.

(** ** Pruning *)

Definition keep (p : UpstreamPool) (now : time) (c : PooledConnection) : bool :=
  negb (negb (pc_in_use c) && conn_is_stale p c now).

Lemma remove_first_app c l k : c ∉ l -> remove_first c (l ++ c :: k) = l ++ k.
Proof.
  induction l as [|d l IH]; simpl; intros Hn; [by rewrite decide_True|].
  apply not_elem_of_cons in Hn as [? ?]. rewrite decide_False by done. by rewrite IH.
Qed.

(** Removing the stale connections one by one filters the list. *)
Lemma prune_pool_filter p now l pre :
  prune_pool p now l (List.filter (keep p now) pre ++ l) =
    (List.filter (keep p now) (pre ++ l), writers (List.filter (fun c => negb (keep p now c)) l)).
Proof.
  revert pre. induction l as [|c l IH]; intros pre; simpl; [by rewrite !app_nil_r|].
  destruct (negb (pc_in_use c) && conn_is_stale p c now) eqn:Hc.
  - assert (Hk : keep p now c = false) by (unfold keep; by rewrite Hc). rewrite Hk. simpl.
    rewrite remove_first_app.
    + rewrite (IH pre), !List.filter_app. simpl. by rewrite Hk.
    + intros [_ Hk']%list_elem_of_In%filter_In. by rewrite Hk in Hk'.
  - assert (Hk : keep p now c = true) by (unfold keep; by rewrite Hc). rewrite Hk. simpl.
    specialize (IH (pre ++ [c])). rewrite List.filter_app, <- !app_assoc in IH. simpl in IH.
    by rewrite Hk in IH.
Qed.

Lemma prune_pools_spec p now d :
  let r := prune_pools p now d in
  concat (dvals (fst r)) = List.filter (keep p now) (concat (dvals d)) /\
  snd r = writers (List.filter (fun c => negb (keep p now c)) (concat (dvals d))) /\
  (forall key, dkeys (fst r) `sublist_of` dkeys d /\
     (dict_ok d -> default [] (dget (fst r) key) = List.filter (keep p now) (default [] (dget d key)))).
Proof.
  induction d as [|[k l] d IH]; simpl; [by split_and!|].
  destruct IH as (H1 & H2 & H3).
  pose proof (prune_pool_filter p now l []) as Hp. simpl in Hp. rewrite Hp.
  destruct (prune_pools p now d) as [d' ws']. simpl in *.
  rewrite !List.filter_app, writers_app, <- H2. split_and!.
  - destruct (List.filter (keep p now) l) eqn:Hf; simpl; [done|]. by rewrite <- H1.
  - done.
  - intros key. destruct (H3 key) as [Hs Hg]. split.
    + destruct (List.filter (keep p now) l); simpl; [by apply sublist_cons|by apply sublist_skip].
    + intros [Hnk Hd]%NoDup_cons. specialize (Hg Hd).
      assert (Hnone : k = key -> dget d' key = None).
      { intros ->. apply not_elem_of_dkeys. contradict Hnk. by eapply elem_of_sublist. }
      destruct (List.filter (keep p now) l) eqn:Hf; simpl; destruct (decide (k = key)); simpl;
        try done; by rewrite Hnone.
Qed.

Lemma writers_filter f l : writers (List.filter f l) `sublist_of` writers l.
Proof.
  induction l as [|c l IH]; simpl; [done|].
  destruct (f c); simpl; [by apply sublist_skip|by apply sublist_cons].
Qed.

Lemma inv_prune p L now : pool_inv p L -> pool_inv (snd (prune_idle p now)) L.
Proof.
  intros [Hd Hn Hl Hc]. unfold prune_idle.
  destruct (prune_pools_spec p now (pools p)) as (H1 & H2 & H3).
  destruct (prune_pools p now (pools p)) as [d ws]. simpl in *.
  assert (Hin : forall c, c ∈ List.filter (keep p now) (all_conns p) <-> c ∈ all_conns p /\ keep p now c = true).
  { intros c. by rewrite !list_elem_of_In, filter_In. }
  assert (Hall : all_conns (mkPool (max_idle_per_server p) (idle_timeout p) d (closed p ++ ws)) =
    List.filter (keep p now) (all_conns p)) by exact H1.
  split; cbn [pools closed]; rewrite ?Hall.
  - destruct (H3 []) as [Hs _]. by eapply sublist_NoDup.
  - eapply sublist_NoDup; [exact Hn|]. apply writers_filter.
  - intros key w. rewrite Hl. destruct (H3 key) as [_ Hg]. specialize (Hg Hd).
    assert (Hpo : pool_of (mkPool (max_idle_per_server p) (idle_timeout p) d (closed p ++ ws)) key =
      List.filter (keep p now) (pool_of p key)).
    { unfold pool_of. cbn [pools]. by destruct (dget d key), (dget (pools p) key). }
    rewrite Hpo. split; intros (c & H & Hw & Hu); exists c; (split; [|done]).
    + apply list_elem_of_In, filter_In. split; [by apply list_elem_of_In|].
      unfold keep. by rewrite Hu.
    + apply list_elem_of_In, filter_In in H as [H _]. by apply list_elem_of_In.
  - intros w Hw. rewrite elem_of_writers. intros (c & Hc1 & <-).
    apply Hin in Hc1 as [Hc1 Hk]. apply elem_of_app in Hw as [Hw|Hw].
    + apply (Hc _ Hw), elem_of_writers. by exists c.
    + rewrite H2 in Hw. apply elem_of_writers in Hw as (c' & Hc' & Heq).
      apply list_elem_of_In, filter_In in Hc' as [Hc' Hk']. apply list_elem_of_In in Hc'.
      assert (c' = c) as -> by by apply (NoDup_map_inj pc_writer (all_conns p)).
      by rewrite Hk in Hk'.
Qed.

(** ** Every step keeps the invariant *)

Lemma pool_NoDup p L key : pool_inv p L -> NoDup (writers (pool_of p key)).
Proof.
  intros [_ Hn _ _]. destruct (all_split p key) as (rest & H1 & _).
  unfold writers in *. rewrite H1, map_app, NoDup_app in Hn. tauto.
Qed.

Lemma pool_of_all p key c : c ∈ pool_of p key -> c ∈ all_conns p.
Proof. destruct (all_split p key) as (rest & H1 & _). rewrite H1. set_solver. Qed.

(** [use] on one connection of a list keeps the writers. *)
Lemma writers_use l1 c l2 b now : writers (l1 ++ use c b now :: l2) = writers (l1 ++ c :: l2).
Proof. by rewrite !writers_app. Qed.

(** After [use], the leases of the list gain or lose exactly the writer used. *)
Lemma leased_use l1 c l2 b now w :
  NoDup (writers (l1 ++ c :: l2)) ->
  (exists d, d ∈ l1 ++ use c b now :: l2 /\ pc_writer d = w /\ pc_in_use d = true) <->
  (w = pc_writer c /\ b = true) \/
  (w <> pc_writer c /\ exists d, d ∈ l1 ++ c :: l2 /\ pc_writer d = w /\ pc_in_use d = true).
Proof.
  intros Hn. assert (Hu : forall d, d ∈ l1 ++ l2 -> pc_writer d <> pc_writer c).
  { rewrite writers_app in Hn. simpl in Hn. rewrite <- Permutation_middle, NoDup_cons in Hn.
    destruct Hn as [Hn _]. intros d Hd Heq. apply Hn. rewrite <- writers_app.
    apply elem_of_writers. by exists d. }
  assert (Hmid : forall x d, d ∈ l1 ++ x :: l2 <-> d = x \/ d ∈ l1 ++ l2) by set_solver.
  setoid_rewrite Hmid. split.
  - intros (d & [->|Hd] & <- & Hb); [by left|]. right. split; [by apply Hu|]. exists d. auto.
  - intros [[-> ->]|[Hne (d & [->|Hd] & <- & Hb)]]; [by exists (use c true now); auto|done|].
    exists d. auto.
Qed.

Lemma inv_use p L key l1 c l2 b now L' :
  pool_inv p L -> pool_of p key = l1 ++ c :: l2 ->
  (forall k w, (k, w) ∈ L' <-> if decide (k = key /\ w = pc_writer c) then b = true else (k, w) ∈ L) ->
  pool_inv (with_pool p key (l1 ++ use c b now :: l2)) L'.
Proof.
  intros HI Hp HL'. pose proof (pool_NoDup p L key HI) as Hn. rewrite Hp in Hn.
  apply (inv_update p L); [done|by rewrite writers_use| | |].
  - intros w Hw. left. rewrite writers_use in Hw. by rewrite Hp.
  - by left.
  - intros k w. rewrite HL'. destruct (decide (k = key)) as [->|Hk].
    + rewrite leased_use by done. pose proof (pi_lease _ _ HI key w) as Hl. rewrite Hp in Hl.
      destruct (decide (w = pc_writer c)) as [->|Hw].
      * rewrite decide_True by done. naive_solver.
      * rewrite decide_False by naive_solver. rewrite Hl. naive_solver.
    + rewrite decide_False by naive_solver. done.
Qed.

Lemma remove_first_spec c l :
  c ∈ l -> exists l1 l2, l = l1 ++ c :: l2 /\ remove_first c l = l1 ++ l2.
Proof.
  induction l as [|d l IH]; [by intros ?%elem_of_nil|]. simpl.
  destruct (decide (d = c)) as [->|Hne]; [by exists [], l|].
  intros [->|Hin]%elem_of_cons; [done|]. destruct (IH Hin) as (l1 & l2 & -> & ->).
  by exists (d :: l1), l2.
Qed.

Lemma inv_remove p L key l1 c l2 L' :
  pool_inv p L -> pool_of p key = l1 ++ c :: l2 ->
  (forall k w, (k, w) ∈ L' <-> (k, w) ∈ L /\ ~ (k = key /\ w = pc_writer c)) ->
  pool_inv (close_writer (with_pool p key (l1 ++ l2)) (pc_writer c)) L'.
Proof.
  intros HI Hp HL'. pose proof (pool_NoDup p L key HI) as Hn. rewrite Hp in Hn.
  rewrite writers_app in Hn. simpl in Hn. rewrite <- Permutation_middle, NoDup_cons in Hn.
  rewrite <- writers_app in Hn. destruct Hn as [Hc Hn].
  assert (Hin : forall w, w ∈ writers (pool_of p key) <-> w = pc_writer c \/ w ∈ writers (l1 ++ l2)).
  { intros w. rewrite Hp, !writers_app. simpl. set_solver. }
  apply (inv_update p L); [done|done| | |].
  - intros w Hw. left. rewrite Hin. by right.
  - intros w [?| ->%list_elem_of_singleton]%elem_of_app; [by left|right].
    rewrite Hin. split; [by left|done].
  - intros k w. rewrite HL'. destruct (decide (k = key)) as [->|Hk]; [|naive_solver].
    rewrite (pi_lease _ _ HI), Hp. split.
    + intros [(d & Hd & <- & Hu) Hne]. exists d. split; [|done]. set_solver.
    + intros (d & Hd & <- & Hu). split; [exists d; set_solver|].
      intros [_ Heq]. apply Hc. rewrite <- Heq. apply elem_of_writers. by exists d.
Qed.

(** What was closed stays closed. *)
Lemma closed_step p L D p' L' D' : pool_step (p, L, D) (p', L', D') -> closed p ⊆ closed p'.
Proof.
  assert (Happ : forall (l l' : list nat), l ⊆ l ++ l') by (intros l l' x Hx; apply elem_of_app; by left).
  intros Hs. inversion Hs; subst; clear Hs; try (by simpl); try apply Happ.
  - unfold get_idle in *. destruct (update_first _ _ _) as [[c l]|]; simplify_eq; done.
  - unfold get_idle in *. destruct (update_first _ _ _) as [[c l]|]; simplify_eq; done.
  - unfold release. destruct (update_first _ _ _) as [[c l]|]; simpl; [done|apply Happ].
  - unfold close_connection. destruct (List.find _ _); simpl; [apply Happ|done].
  - unfold prune_idle. destruct (prune_pools _ _ _) as [d ws]. simpl. apply Happ.
Qed.

(** A lease that a shutdown cut is of a connection that is not listed. *)
Lemma inv_release_cut p L w :
  pool_inv p L -> w ∈ closed p -> pool_inv (close_writer p w) L.
Proof.
  intros HI Hw. split; simpl; try apply HI.
  intros x [Hx| ->%list_elem_of_singleton]%elem_of_app; by apply (pi_closed _ _ HI).
Qed.

Lemma unlisted p L key w f : pool_inv p L -> w ∈ closed p ->
  update_first (fun c => bool_decide (pc_writer c = w)) f (pool_of p key) = None
  /\ List.find (fun c => bool_decide (pc_writer c = w)) (pool_of p key) = None.
Proof.
  intros HI Hw. assert (Hno : forall c, c ∈ pool_of p key -> pc_writer c <> w).
  { intros c Hc%pool_of_all <-. apply (pi_closed _ _ HI _ Hw), elem_of_writers. by exists c. }
  split.
  - destruct (update_first _ _ _) as [[c l]|] eqn:Hu; [|done].
    apply update_first_Some in Hu as (l1 & l2 & Hp & _ & Hc%bool_decide_eq_true).
    destruct (Hno c); [rewrite Hp; set_solver|done].
  - destruct (List.find _ _) as [c|] eqn:Hf; [|done].
    apply find_some in Hf as [Hc%list_elem_of_In Heq%bool_decide_eq_true]. by destruct (Hno c).
Qed.

Lemma inv_give_back p L host port w now :
  pool_inv p L -> (pool_key host port, w) ∈ L ->
  pool_inv (release p host port w now) (L ∖ {[(pool_key host port, w)]})
  /\ pool_inv (close_connection p host port w) (L ∖ {[(pool_key host port, w)]}).
Proof.
  intros HI Hin. apply (pi_lease _ _ HI) in Hin as Hc. destruct Hc as (c & Hc & <- & Hu). split.
  - unfold release. destruct (update_first _ _ _) as [[d l]|] eqn:Hup.
    + apply update_first_Some in Hup as (l1 & l2 & Hp & -> & Hd%bool_decide_eq_true).
      apply (inv_use p L); [done|done|]. intros k w.
      destruct (decide (k = pool_key host port /\ w = pc_writer d)) as [[-> ->]|]; [|set_solver].
      rewrite Hd. set_solver.
    + apply (update_first_None _ _ _ c) in Hup; [|done]. by apply bool_decide_eq_false in Hup.
  - unfold close_connection.
    destruct (List.find _ _) as [d|] eqn:Hfind.
    + apply find_some in Hfind as [Hd Heq%bool_decide_eq_true]. apply list_elem_of_In in Hd.
      destruct (remove_first_spec d _ Hd) as (l1 & l2 & Hp & ->). rewrite <- Heq.
      apply (inv_remove p L); [done|done|]. set_solver.
    + apply (find_none _ _) with (x := c) in Hfind; [|by apply list_elem_of_In].
      by apply bool_decide_eq_false in Hfind.
Qed.

Lemma inv_opened p L host port r w tc tu :
  pool_inv p L -> w ∉ writers (all_conns p) -> w ∉ closed p ->
  pool_inv (add_connection p host port r w tc tu) (L ∪ {[(pool_key host port, w)]}).
Proof.
  intros HI Hf Hc. apply (inv_update p L); [done| | | |].
  - rewrite writers_app. apply NoDup_app. split_and!; [by eapply pool_NoDup| |apply NoDup_singleton].
    intros x Hx Hxw. change (x ∈ [w]) in Hxw. apply list_elem_of_singleton in Hxw as ->.
    apply Hf, elem_of_writers.
    apply elem_of_writers in Hx as (c & Hc' & <-). exists c. split; [by eapply pool_of_all|done].
  - intros x. rewrite writers_app, elem_of_app. intros [?|Hxw]; [by left|right].
    change (x ∈ [w]) in Hxw. by apply list_elem_of_singleton in Hxw as ->.
  - by left.
  - intros k x. rewrite elem_of_union, elem_of_singleton.
    destruct (decide (k = pool_key host port)) as [->|]; [|naive_solver].
    rewrite (pi_lease _ _ HI). setoid_rewrite elem_of_app. setoid_rewrite list_elem_of_singleton.
    split; [|naive_solver].
    intros [(c & ? & ? & ?)|[= ->]]; [exists c; auto|eexists; split; [by right|done]].
Qed.

(** The invariant of the whole state: the leases that were cut are of closed
    connections. *)
Definition state_inv (s : pool_state) : Prop :=
  let '(p, L, D) := s in pool_inv p L /\ forall key w, (key, w) ∈ D -> w ∈ closed p.

Lemma inv_step s s' : pool_step s s' -> state_inv s -> state_inv s'.
Proof.
  destruct s as [[p L] D], s' as [[p' L'] D']. intros Hs [HI HD]. pose proof (closed_step _ _ _ _ _ _ Hs) as Hcl.
  assert (HLD : forall key w, (key, w) ∈ L -> (key, w) ∉ D).
  { intros key w (c & Hc%pool_of_all & <- & _)%(pi_lease _ _ HI) Hd%HD.
    apply (pi_closed _ _ HI _ Hd), elem_of_writers. by exists c. }
  assert (Hcut : forall host port w now, (pool_key host port, w) ∈ D ->
    pool_inv (release p host port w now) (L ∖ {[(pool_key host port, w)]})
    /\ pool_inv (close_connection p host port w) (L ∖ {[(pool_key host port, w)]})).
  { intros host port w now Hd. pose proof (HD _ _ Hd) as Hw.
    destruct (unlisted p L (pool_key host port) w (fun c => use c false now) HI Hw) as [H1 H2].
    replace (L ∖ {[(pool_key host port, w)]}) with L
      by (apply set_eq; intros x; destruct (decide (x = (pool_key host port, w))); set_solver).
    unfold release, close_connection. rewrite H1, H2. split; [by apply inv_release_cut|done]. }
  assert (HD' : forall key w, (key, w) ∈ D' -> w ∈ closed p').
  { assert (Hsub : D' ⊆ D -> forall key w, (key, w) ∈ D' -> w ∈ closed p').
    { intros Hsub key w Hd. by apply Hcl, (HD key), Hsub. }
    inversion Hs; subst; try (apply Hsub; first [done|apply subseteq_difference_l; done]).
    intros key w [Hd|Hl]%elem_of_union; [by apply Hcl, (HD key)|].
    apply (pi_lease _ _ HI) in Hl as (c & Hc%pool_of_all & <- & _). simpl. apply elem_of_app. right.
    apply elem_of_writers. by exists c. }
  inversion Hs; subst; clear Hs; (split; [|done]).
  - unfold get_idle in *. destruct (update_first _ _ _) as [[c l]|] eqn:Hu; simplify_eq.
    apply update_first_Some in Hu as (l1 & l2 & Hp & -> & _).
    apply (inv_use p L); [done|done|]. intros k w.
    destruct (decide (k = pool_key host port /\ w = pc_writer c)) as [[-> ->]|]; set_solver.
  - unfold get_idle in *. destruct (update_first _ _ _) as [[c l]|]; by simplify_eq.
  - by apply inv_opened.
  - match goal with H : _ ∈ _ ∪ _ |- _ => apply elem_of_union in H as [Hl|Hd] end;
      [by apply inv_give_back|by apply Hcut].
  - match goal with H : _ ∈ _ ∪ _ |- _ => apply elem_of_union in H as [Hl|Hd] end;
      [by apply (inv_give_back p L host port w 0)|by apply (Hcut host port w 0)].
  - by apply inv_prune.
  - split; simpl; [apply dict_ok_nil|apply NoDup_nil_2|set_solver|set_solver].
Qed.

(** C19 The pool never shares a connection: in every state reachable by
    requests that give back (by [release] or [close_connection]) only what
    they hold, by pruning and by [shutdown], no connection is listed twice,
    one that a request holds has been closed exactly when a [shutdown] cut its
    lease, and the connection that [get_connection] reuses is held by no
    request and is not closed. *)
Theorem pool_exclusive max_idle timeout p L D :
  pool_reachable max_idle timeout (p, L, D) ->
  NoDup (writers (all_conns p)) /\
  (forall key w, (key, w) ∈ L -> w ∉ closed p) /\
  (forall key w, (key, w) ∈ D -> w ∈ closed p) /\
  (forall host port now r w p', get_idle p host port now = (Some (r, w), p') ->
     (w ∉ closed p) /\ forall key, (key, w) ∉ L ∪ D).
Proof.
  intros Hr. assert (HI : state_inv (p, L, D)).
  { induction Hr as [|s s' _ IH Hs]; [|by eapply inv_step].
    split; [split; simpl; [apply dict_ok_nil|apply NoDup_nil_2|set_solver|set_solver]|set_solver]. }
  destruct HI as [HI HD].
  assert (Hlive : forall c, c ∈ all_conns p -> pc_writer c ∉ closed p).
  { intros c Hc Hcl. apply (pi_closed _ _ HI _ Hcl), elem_of_writers. by exists c. }
  split_and!; [apply HI| |done|].
  - intros key w (c & Hc%pool_of_all & <- & _)%(pi_lease _ _ HI). by apply Hlive.
  - intros host port now r w p' Hget. unfold get_idle in Hget.
    destruct (update_first _ _ _) as [[c l]|] eqn:Hu; [|done]. injection Hget as _ <- _.
    apply update_first_Some in Hu as (l1 & l2 & Hp & _ & [Hidle _]%andb_true_iff).
    assert (Hin : c ∈ all_conns p) by (apply (pool_of_all p (pool_key host port)); rewrite Hp; set_solver).
    split; [by apply Hlive|].
    intros key [(d & Hd%pool_of_all & Heq & Hud)%(pi_lease _ _ HI)|Hd%HD]%elem_of_union; [|by eapply Hlive].
    apply (NoDup_map_inj pc_writer (all_conns p)) in Heq; [|apply HI|done|done]. subst d.
    by rewrite Hud in Hidle.
Qed.

(** ** A concrete run: a connection is opened and given back, and another is
    opened; then the pool is shut down under its holder, and a third is opened
    and given back, which the next request gets. *)

Definition first_pool : UpstreamPool :=
  add_connection (release (add_connection (new_pool 32 60) (py "a") 80 1 2 5 5) (py "a") 80 2 7)
    (py "b") 80 3 4 5 5.
Definition second_pool : UpstreamPool :=
  release (add_connection (pool_shutdown first_pool) (py "a") 80 5 6 9 9) (py "a") 80 6 10.

Lemma second_pool_reachable :
  exists L D, pool_reachable 32 60 (second_pool, L, D) /\ (pool_key (py "b") 80, 4%nat) ∈ D.
Proof.
  eexists _, _. split.
  - eapply reach_step; [eapply reach_step; [eapply reach_step; [eapply reach_step; [eapply reach_step;
      [eapply reach_step; [apply reach_new|]|]|]|]|]|].
    + apply (step_opened _ _ _ (py "a") 80 1 2 5 5); set_solver.
    + apply (step_release _ _ _ (py "a") 80 2 7). set_solver.
    + apply (step_opened _ _ _ (py "b") 80 3 4 5 5); by apply (bool_decide_unpack _); vm_compute.
    + apply step_shutdown.
    + apply (step_opened _ _ _ (py "a") 80 5 6 9 9); by apply (bool_decide_unpack _); vm_compute.
    + apply (step_release _ _ _ (py "a") 80 6 10). set_solver.
  - by apply (bool_decide_unpack _); vm_compute.
Qed.

Lemma pool_exclusive_witness :
  fst (get_idle second_pool (py "a") 80 11) = Some (5%nat, 6%nat)
  /\ (6%nat ∉ closed second_pool) /\ 4%nat ∈ closed second_pool.
Proof.
  split; [vm_compute; reflexivity|].
  destruct second_pool_reachable as (L & D & Hr & Hd).
  destruct (pool_exclusive 32 60 second_pool L D Hr) as (_ & _ & Hcut & H). split; [|by apply (Hcut (pool_key (py "b") 80))].
  apply (H (py "a") 80 11 5%nat 6%nat (snd (get_idle second_pool (py "a") 80 11))).
  vm_compute. reflexivity.
Defined.

End UpstreamPool.
