(* ===== verification/Status.v ===== *)
(** * Connection states and status counters
      (src/proxy/status.py, the state machine of src/proxy/connection.py)

    The counters of the status page, the states a proxied connection goes
    through in [Connection.handle], and the system of the connections of a
    worker with the collector they share. *)

From S2P Require Import Prelude PyStr LoadBalancer HealthCheck.
Import LoadBalancer HealthCheck.

Module Status.

(** ** The collector *)

Inductive category := STATE_READING | STATE_WRITING | STATE_WAITING.

#[global] Instance category_eq_dec : EqDecision category.
Proof. solve_decision. Defined.

Record StatusCollector := mkCollector {
  start_time : time;
  sc_accepted : Z;
  sc_handled : Z;
  sc_active : Z;
  sc_requests : Z;
  sc_reading : Z;
  sc_writing : Z;
  sc_waiting : Z
}.

Definition new_collector (start : time) : StatusCollector := mkCollector start 0 0 0 0 0 0 0.

Definition increment_accepted (s : StatusCollector) : StatusCollector :=
  mkCollector (start_time s) (sc_accepted s + 1) (sc_handled s) (sc_active s + 1) (sc_requests s)
    (sc_reading s) (sc_writing s) (sc_waiting s).

Definition decrement_active (s : StatusCollector) : StatusCollector :=
  mkCollector (start_time s) (sc_accepted s) (sc_handled s) (Z.max 0 (sc_active s - 1)) (sc_requests s)
    (sc_reading s) (sc_writing s) (sc_waiting s).

Definition increment_handled (s : StatusCollector) : StatusCollector :=
  mkCollector (start_time s) (sc_accepted s) (sc_handled s + 1) (sc_active s) (sc_requests s + 1)
    (sc_reading s) (sc_writing s) (sc_waiting s).

Definition enter_state (s : StatusCollector) (c : option category) : StatusCollector :=
  let mk := mkCollector (start_time s) (sc_accepted s) (sc_handled s) (sc_active s) (sc_requests s) in
  match c with
  | Some STATE_READING => mk (sc_reading s + 1) (sc_writing s) (sc_waiting s)
  | Some STATE_WRITING => mk (sc_reading s) (sc_writing s + 1) (sc_waiting s)
  | Some STATE_WAITING => mk (sc_reading s) (sc_writing s) (sc_waiting s + 1)
  | None => s
  end.

Definition leave_state (s : StatusCollector) (c : option category) : StatusCollector :=
  let mk := mkCollector (start_time s) (sc_accepted s) (sc_handled s) (sc_active s) (sc_requests s) in
  match c with
  | Some STATE_READING => mk (Z.max 0 (sc_reading s - 1)) (sc_writing s) (sc_waiting s)
  | Some STATE_WRITING => mk (sc_reading s) (Z.max 0 (sc_writing s - 1)) (sc_waiting s)
  | Some STATE_WAITING => mk (sc_reading s) (sc_writing s) (Z.max 0 (sc_waiting s - 1))
  | None => s
  end.

Definition transition_state (s : StatusCollector) (old new : option category) : StatusCollector :=
  enter_state (leave_state s old) new.

(** ** The summary of the upstreams *)

Record UpstreamBlock := mkBlock { ub_name : str; ub_servers : list UpstreamServer }.

Record server_summary := mkServerSummary {
  ss_host : str; ss_state : str; ss_active : Z; ss_failures : Z
}.

(** [_active_connections]: only the least-connections balancer has counts. *)
Definition active_count (b : option Balancer) (host : str) (port : Z) : Z :=
  match b with
  | Some (LeastConnBalancer conns) =>
      match dget conns (server_key host port) with Some n => n | None => 0 end
  | _ => 0
  end.

Definition summarize_server (monitor : option HealthMonitor) (b : option Balancer) (s : UpstreamServer)
    : server_summary :=
  let health := match monitor with
                | Some m => get_health m (us_host s) (us_port s)
                | None => None
                end in
  let state :=
    if us_down s then py "down"
    else match health with
         | Some h => if unavailable h then py "unavailable" else py "up"
         | None => py "up"
         end in
  mkServerSummary (server_key (us_host s) (us_port s)) state (active_count b (us_host s) (us_port s))
    (match health with Some h => total_failures h | None => 0 end).

Definition upstream_summary (upstreams : list UpstreamBlock) (monitor : option HealthMonitor)
    (balancers : list (str * Balancer)) : list (str * list server_summary) :=
  map (fun u => (ub_name u,
    map (summarize_server monitor (dget balancers (ub_name u))) (ub_servers u))) upstreams.

(** ** The states of a connection *)

Inductive ConnState :=
  | READ_REQUEST | MATCH_ROUTE | CONNECT_UPSTREAM | FORWARD | RESPOND | CLOSED.

#[global] Instance ConnState_eq_dec : EqDecision ConnState.
Proof. solve_decision. Defined.

(** [_STATE_CATEGORY.get(state)]; the state of a new connection is [None]. *)
Definition state_category (s : option ConnState) : option category :=
  match s with
  | Some READ_REQUEST => Some STATE_READING
  | Some MATCH_ROUTE | Some CONNECT_UPSTREAM | Some FORWARD => Some STATE_WAITING
  | Some RESPOND => Some STATE_WRITING
  | Some CLOSED | None => None
  end.

(** [_set_state] with a collector. *)
Definition set_conn_state (s : StatusCollector) (old : option ConnState) (new : ConnState)
    : StatusCollector :=
  if decide (state_category old = state_category (Some new)) then s
  else transition_state s (state_category old) (state_category (Some new)).

(** [_close]. *)
Definition close_conn (s : StatusCollector) (old : option ConnState) : StatusCollector :=
  decrement_active (set_conn_state s old CLOSED).

(** The transitions of [handle]: [go a b] when its loop can set the state [b]
    while the state is [a].  Any exit of the loop, an exception included, ends
    in [_close]. *)
Definition go (a : option ConnState) (b : ConnState) : bool :=
  match a, b with
  | None, READ_REQUEST => true                         (* first turn of the loop *)
  | Some READ_REQUEST, MATCH_ROUTE => true             (* a request was read *)
  | Some MATCH_ROUTE, READ_REQUEST => true             (* no route, keep-alive *)
  | Some MATCH_ROUTE, RESPOND => true                  (* a static file *)
  | Some MATCH_ROUTE, CONNECT_UPSTREAM => true         (* proxied or upgraded *)
  | Some CONNECT_UPSTREAM, READ_REQUEST => true        (* no upstream, keep-alive *)
  | Some CONNECT_UPSTREAM, FORWARD => true
  | Some FORWARD, RESPOND => true
  | Some RESPOND, READ_REQUEST => true                 (* keep-alive *)
  | _, _ => false
  end.

(** ** The connections of a worker *)

Record worker := mkWorker { conns : list (nat * option ConnState); stats : StatusCollector }.

Inductive worker_step : worker -> worker -> Prop :=
  | w_accept w i :
      dget (conns w) i = None ->
      worker_step w (mkWorker (dset (conns w) i None) (increment_accepted (stats w)))
  | w_go w i a b :
      dget (conns w) i = Some a -> go a b = true ->
      worker_step w (mkWorker (dset (conns w) i (Some b)) (set_conn_state (stats w) a b))
  | w_handled w i :
      dget (conns w) i = Some (Some RESPOND) ->
      worker_step w (mkWorker (conns w) (increment_handled (stats w)))
  | w_close w i a :
      dget (conns w) i = Some a -> a <> Some CLOSED ->
      worker_step w (mkWorker (dset (conns w) i (Some CLOSED)) (close_conn (stats w) a)).

Inductive worker_reachable (start : time) : worker -> Prop :=
  | wr_start : worker_reachable start (mkWorker [] (new_collector start))
  | wr_step w w' : worker_reachable start w -> worker_step w w' -> worker_reachable start w'.

(** The number of connections whose state passes a test. *)
Definition count_conns (test : option ConnState -> bool) (d : list (nat * option ConnState)) : Z :=
  zlen (List.filter test (dvals d)).

Definition in_category (c : category) (s : option ConnState) : bool :=
  bool_decide (state_category s = Some c).
Definition is_open (s : option ConnState) : bool := bool_decide (s <> Some CLOSED).

Definition stats_exact (w : worker) : Prop :=
  sc_accepted (stats w) = zlen (conns w) /\
  sc_active (stats w) = count_conns is_open (conns w) /\
  sc_reading (stats w) = count_conns (in_category STATE_READING) (conns w) /\
  sc_writing (stats w) = count_conns (in_category STATE_WRITING) (conns w) /\
  sc_waiting (stats w) = count_conns (in_category STATE_WAITING) (conns w).

Definition b2z (b : bool) : Z := if b then 1 else 0.

Lemma count_cons test i s d : count_conns test ((i, s) :: d) = b2z (test s) + count_conns test d.
Proof. unfold count_conns, dvals. simpl. destruct (test s); unfold zlen; simpl; lia. Qed.

Lemma count_new test d i s :
  dget d i = None -> count_conns test (dset d i s) = count_conns test d + b2z (test s).
Proof.
  induction d as [|[j t] d IH]; cbn [dget dset]; [intros; rewrite count_cons; lia|].
  destruct (decide (j = i)); [done|]. intros. rewrite !count_cons, IH by done. lia.
Qed.

Lemma count_set test d i s t :
  dget d i = Some s -> count_conns test (dset d i t) = count_conns test d - b2z (test s) + b2z (test t).
Proof.
  induction d as [|[j u] d IH]; cbn [dget dset]; [done|].
  destruct (decide (j = i)); intros; simplify_eq; rewrite !count_cons; [lia|]. rewrite IH by done. lia.
Qed.

Lemma count_ge test d i s : dget d i = Some s -> b2z (test s) <= count_conns test d.
Proof.
  intros H. pose proof (count_set test d i s None H) as E.
  induction d as [|[j u] d IH]; cbn [dget] in H; [done|]. rewrite count_cons.
  assert (0 <= count_conns test d) by apply zlen_nonneg.
  destruct (decide (j = i)); simplify_eq; [lia|].
  assert (b2z (test s) <= count_conns test d) by (apply IH; [done|by apply count_set]).
  destruct (test u); simpl; lia.
Qed.

Lemma stats_exact_step w w' : worker_step w w' -> stats_exact w -> stats_exact w'.
Proof.
  intros Hs (H0 & H1 & H2 & H3 & H4). unfold stats_exact.
  destruct Hs as [w i Hi|w i a b Hi Hgo|w i Hi|w i a Hi Ha]; cbn [conns stats].
  - rewrite !(count_new _ _ i None Hi). rewrite dset_new by done. rewrite zlen_app.
    unfold increment_accepted; simpl. change (zlen [(i, None)]) with 1. lia.
  - assert (Hlen : zlen (dset (conns w) i (Some b)) = zlen (conns w)).
    { unfold zlen. by rewrite length_dset_old. }
    rewrite Hlen, !(count_set _ _ i a (Some b) Hi).
    pose proof (count_ge (in_category STATE_READING) _ _ _ Hi).
    pose proof (count_ge (in_category STATE_WRITING) _ _ _ Hi).
    pose proof (count_ge (in_category STATE_WAITING) _ _ _ Hi).
    destruct a as [[]|], b; try discriminate Hgo; vm_compute b2z in *;
      unfold set_conn_state; simpl in *; split_and!; lia.
  - simpl. auto.
  - assert (Hlen : zlen (dset (conns w) i (Some CLOSED)) = zlen (conns w)).
    { unfold zlen. by rewrite length_dset_old. }
    rewrite Hlen, !(count_set _ _ i a (Some CLOSED) Hi).
    pose proof (count_ge is_open _ _ _ Hi).
    pose proof (count_ge (in_category STATE_READING) _ _ _ Hi).
    pose proof (count_ge (in_category STATE_WRITING) _ _ _ Hi).
    pose proof (count_ge (in_category STATE_WAITING) _ _ _ Hi).
    destruct a as [[]|]; try done; vm_compute b2z in *;
      unfold close_conn, set_conn_state; simpl in *; split_and!; lia.
Qed.

(** C38 The status page is exact: whatever the interleaving of the connections
    of a worker, [accepted] counts the connections, [active] the open ones, and
    [reading], [writing] and [waiting] the connections in a state of the
    category; the clamps at zero are never reached. *)
Theorem status_exact start w : worker_reachable start w -> stats_exact w.
Proof. induction 1 as [|w w' _ IH Hs]; [by repeat split|by eapply stats_exact_step]. Qed.

Lemma status_exact_witness :
  exists w, worker_reachable 0 w /\ sc_reading (stats w) = count_conns (in_category STATE_READING) (conns w) /\
    sc_reading (stats w) = 1.
Proof.
  assert (Hr : exists w, worker_reachable 0 w /\ sc_reading (stats w) = 1).
  { eexists. split.
    - eapply wr_step; [eapply wr_step; [apply wr_start|apply (w_accept _ 1%nat); reflexivity]|].
      apply (w_go _ 1%nat None READ_REQUEST); reflexivity.
    - reflexivity. }
  destruct Hr as (w & Hw & H1). exists w. split; [exact Hw|]. split; [|exact H1].
  apply (status_exact 0 w Hw).
Defined.

End Status.
