(* ===== verification/Http.v ===== *)
(** * HTTP requests (src/proxy/connection.py)

    The hand-written request parser, chunked bodies included, the choice of a
    location, the request sent upstream and the responses sent back.  The
    chunk loop of the code need not end, so it runs on fuel: the result [None]
    says that it is still running when the fuel is used up. *)

From S2P Require Import Prelude PyStr LoadBalancer.
Import LoadBalancer.

Module Http.

Section Http.
Context {U : Unicode}.

Definition MAX_HEADER_SIZE : Z := 16384.

Definition CRLF : bytes := [13; 10].
Definition CRLF2 : bytes := [13; 10; 13; 10].

Record HttpRequest := mkRequest {
  method : str;
  path : str;
  version : str;
  headers : list (str * str);
  body : bytes;
  client_ip : str
}.

(** [headers.get(key, d)]. *)
Definition header (hs : list (str * str)) (key : str) (d : str) : str :=
  match dget hs key with Some v => v | None => d end.

Definition req_host (r : HttpRequest) : str := header (headers r) (py "host") [].

Definition content_length (hs : list (str * str)) : Z :=
  match int_of_str (header hs (py "content-length") (py "0")) with Some n => n | None => 0 end.

Definition is_chunked (hs : list (str * str)) : bool :=
  str_eqb (lower_str (header hs (py "transfer-encoding") [])) (py "chunked").

Definition is_keepalive (r : HttpRequest) : bool :=
  let conn := lower_str (header (headers r) (py "connection") []) in
  if str_eqb (version r) (py "HTTP/1.0") then str_eqb conn (py "keep-alive")
  else negb (str_eqb conn (py "close")).

(** ** Chunked bodies *)

(** The index that a slice bound stands for. *)
Definition norm_index {A} (l : list A) (i : Z) : nat :=
  Z.to_nat (Z.min (zlen l) (if i <? 0 then Z.max 0 (i + zlen l) else i)).

(** [l[a:b]]. *)
Definition pyslice {A} (a b : Z) (l : list A) : list A :=
  slice (norm_index l a) (norm_index l b) l.

(** [data.find(needle, start)]; [None] is [-1]. *)
Definition find_from (data needle : bytes) (start : Z) : option Z :=
  if start >? zlen data then None
  else
    let i := norm_index data start in
    match find (drop i data) needle with
    | Some j => Some (Z.of_nat (i + j))
    | None => None
    end.

(** One turn per chunk. *)
Fixpoint parse_chunked (fuel : nat) (data acc : bytes) (pos : Z)
    : option (result (option bytes * Z)) :=
  match fuel with
  | O => None
  | S fuel' =>
      if zlen data <=? pos then Some (Ok (None, 0))
      else
        match find_from data CRLF pos with
        | None => Some (Ok (None, 0))
        | Some eol =>
            match int16_of_bytes (pyslice pos eol data) with
            | None => Some (raise CValueError (py "invalid chunk size"))
            | Some chunk_size =>
                let pos := eol + 2 in
                if chunk_size =? 0 then
                  match find_from data CRLF2 pos with
                  | None => Some (Ok (None, 0))
                  | Some p => Some (Ok (Some acc, p + 4))
                  end
                else if pos + chunk_size + 2 >? zlen data then Some (Ok (None, 0))
                else parse_chunked fuel' data (acc ++ pyslice pos (pos + chunk_size) data)
                       (pos + chunk_size + 2)
            end
        end
  end.

(** ** The parser *)

(** [for line in lines[1:]]: lines without a colon are skipped. *)
Definition add_header (hs : list (str * str)) (line : str) : list (str * str) :=
  let '(key, found, value) := partition_char 58 line in
  if found then dset hs (lower_str (strip key)) (strip value) else hs.

(** [_try_parse] on a buffer: the request, if there is one, and the new buffer. *)
Definition try_parse (fuel : nat) (buffer : bytes)
    : option (result (option HttpRequest) * bytes) :=
  match find buffer CRLF2 with
  | None =>
      if zlen buffer >? MAX_HEADER_SIZE
      then Some (raise CValueError (py "request headers too large"), buffer)
      else Some (Ok None, buffer)
  | Some idx =>
      let header_block := utf8_replace (take idx buffer) in
      match split header_block CRLF None with
      | [] => Some (Ok None, buffer)
      | line0 :: lines =>
          match split line0 [32] (Some 2%nat) with
          | m :: p :: more =>
              let v := match more with v :: _ => v | [] => py "HTTP/1.1" end in
              let hs := foldl add_header [] lines in
              let request b := mkRequest (upper_str m) p v hs b (py "127.0.0.1") in
              let body_start := (idx + 4)%nat in
              let rest := drop body_start buffer in
              if is_chunked hs then
                match parse_chunked fuel rest [] 0 with
                | None => None
                | Some (Err e) => Some (Err e, buffer)
                | Some (Ok (None, _)) => Some (Ok None, buffer)
                | Some (Ok (Some b, consumed)) =>
                    Some (Ok (Some (request b)), drop (Z.to_nat consumed) rest)
                end
              else if 0 <? content_length hs then
                if zlen rest <? content_length hs then Some (Ok None, buffer)
                else Some (Ok (Some (request (take (Z.to_nat (content_length hs)) rest))),
                           drop (Z.to_nat (content_length hs)) rest)
              else Some (Ok (Some (request [])), [])
          | _ => Some (raise CValueError (py "invalid request line: " ++ line0), buffer)
          end
      end
  end.

Definition feed (fuel : nat) (buffer data : bytes) : option (result (option HttpRequest) * bytes) :=
  try_parse fuel (buffer ++ data).

(** ** Locations *)

Record LocationBlock := mkLocation {
  loc_path : str;
  loc_upstream : str;
  loc_root : str;
  loc_ssl : bool;
  loc_cache : bool;
  loc_cache_ttl : Z;
  loc_compress : bool;
  loc_rate_limit : Z;
  loc_basic_auth : str;
  loc_ws_enabled : bool;
  loc_ws_timeout : time;
  loc_ws_max_message_size : Z;
  loc_ws_ping_interval : time
}.

Fixpoint match_from (p : str) (best : option LocationBlock) (best_len : Z) (locs : list LocationBlock)
    : option LocationBlock :=
  match locs with
  | [] => best
  | loc :: locs' =>
      if startswith p (loc_path loc) && (zlen (loc_path loc) >? best_len)
      then match_from p (Some loc) (zlen (loc_path loc)) locs'
      else match_from p best best_len locs'
  end.

Definition match_route (locs : list LocationBlock) (p : str) : option LocationBlock :=
  match_from p None (-1) locs.

(** ** The request sent upstream *)

Definition HOP_BY_HOP : list str :=
  map py ["connection"; "keep-alive"; "proxy-authenticate"; "proxy-authorization"; "te"; "trailer";
          "transfer-encoding"; "upgrade"]%string.

Definition upstream_headers (r : HttpRequest) (server : UpstreamServer) : list (str * str) :=
  let h1 := dset (headers r) (py "host") (server_key (us_host server) (us_port server)) in
  let h2 := dset h1 (py "x-real-ip") (client_ip r) in
  let existing := header h2 (py "x-forwarded-for") [] in
  let h3 := dset h2 (py "x-forwarded-for")
              (match existing with [] => client_ip r | _ => existing ++ py ", " ++ client_ip r end) in
  foldl ddel h3 HOP_BY_HOP.

Definition header_lines (hs : list (str * str)) : str :=
  concat (map (fun kv => fst kv ++ py ": " ++ snd kv ++ CRLF) hs) ++ CRLF.

(** What [_forward_request] writes before it waits for the response. *)
Definition upstream_request (r : HttpRequest) (server : UpstreamServer) : result bytes :=
  let? line := encode (method r ++ py " " ++ path r ++ py " HTTP/1.1" ++ CRLF) in
  let? hs := encode (header_lines (upstream_headers r server)) in
  Ok (line ++ hs ++ body r).

(** ** Responses *)

Record HttpResponse := mkResponse {
  status : Z;
  reason : str;
  resp_headers : list (str * str);
  resp_body : bytes
}.

Definition set_default (hs : list (str * str)) (key value : str) : list (str * str) :=
  if dmem hs key then hs else dset hs key value.

(** What [_send_response] writes. *)
Definition send_response (r : HttpResponse) : result bytes :=
  let h1 := set_default (resp_headers r) (py "content-length") (dec (zlen (resp_body r))) in
  let h2 := set_default h1 (py "server") (py "LocalNetworkProxy/0.1.0") in
  let h3 := set_default h2 (py "connection") (py "keep-alive") in
  let? line := encode (py "HTTP/1.1 " ++ dec (status r) ++ py " " ++ reason r ++ CRLF) in
  let? hs := encode (header_lines h3) in
  Ok (line ++ hs ++ resp_body r).

Definition send_error (code : Z) (message : str) : result bytes :=
  let? b := encode (py "<html><body><h1>" ++ dec code ++ py " " ++ message ++
                    py "</h1><hr><em>LocalNetwork Proxy</em></body></html>") in
  send_response (mkResponse code message
    [(py "content-type", py "text/html"); (py "connection", py "close")] b).

(** ** Chunked bodies are read back *)

(** A chunk on the wire: its size line and its data. *)
Definition chunk_ok (c : bytes * bytes) : Prop :=
  (13 ∉ fst c) /\ int16_of_bytes (fst c) = Some (zlen (snd c)) /\ snd c <> [].

Definition render_chunks (cs : list (bytes * bytes)) : bytes :=
  concat (map (fun c => fst c ++ CRLF ++ snd c ++ CRLF) cs).

Lemma norm_index_inside {A} (l : list A) i : 0 <= i <= zlen l -> norm_index l i = Z.to_nat i.
Proof. intros. unfold norm_index. rewrite (proj2 (Z.ltb_ge _ _)) by lia. f_equal. lia. Qed.

Lemma find_from_app pre s needle :
  find_from (pre ++ s) needle (zlen pre) = (fun j => zlen pre + Z.of_nat j) <$> find s needle.
Proof.
  unfold find_from. rewrite zlen_app, Z.gtb_ltb. pose proof (zlen_nonneg s). pose proof (zlen_nonneg pre).
  rewrite (proj2 (Z.ltb_ge _ _)) by lia. rewrite norm_index_inside by (rewrite zlen_app; lia).
  unfold zlen at 1 2. rewrite Nat2Z.id, drop_app_length.
  destruct (find s needle); simpl; [|done]. f_equal. unfold zlen. lia.
Qed.

Lemma pyslice_mid {A} (pre l s : list A) :
  pyslice (zlen pre) (zlen pre + zlen l) (pre ++ l ++ s) = l.
Proof.
  pose proof (zlen_nonneg pre). pose proof (zlen_nonneg l). pose proof (zlen_nonneg s).
  unfold pyslice. rewrite !norm_index_inside by (rewrite !zlen_app; lia).
  apply slice_app_mid; unfold zlen; lia.
Qed.

(** One turn of the loop over one chunk. *)
Lemma parse_one_chunk fuel pre c tl acc :
  chunk_ok c ->
  let data := pre ++ (fst c ++ CRLF ++ snd c ++ CRLF) ++ tl in
  parse_chunked (S fuel) data acc (zlen pre) =
    parse_chunked fuel data (acc ++ snd c) (zlen (pre ++ fst c ++ CRLF ++ snd c ++ CRLF)).
Proof.
  intros (Hcr & Hsize & Hne) data. destruct c as [l d]; cbn [fst snd] in *.
  assert (Hlen : zlen data = zlen pre + zlen l + 2 + zlen d + 2 + zlen tl).
  { unfold data. rewrite !zlen_app. change (zlen CRLF) with 2. lia. }
  assert (Hd : 0 < zlen d) by (destruct d; [done|unfold zlen; simpl; lia]).
  pose proof (zlen_nonneg pre). pose proof (zlen_nonneg l). pose proof (zlen_nonneg tl).
  cbn [parse_chunked]. rewrite (proj2 (Z.leb_gt _ _)) by lia.
  assert (Hfind : find_from data CRLF (zlen pre) = Some (zlen pre + zlen l)).
  { unfold data. rewrite <- !app_assoc, find_from_app. unfold CRLF at 1 2.
    rewrite (find_app_char 13 [10] l) by done. reflexivity. }
  rewrite Hfind. unfold data at 1. rewrite <- !app_assoc, pyslice_mid, Hsize.
  rewrite (proj2 (Z.eqb_neq _ _)) by lia. rewrite Z.gtb_ltb, (proj2 (Z.ltb_ge _ _)) by lia.
  assert (Hpos : zlen pre + zlen l + 2 = zlen (pre ++ l ++ CRLF)).
  { rewrite !zlen_app. change (zlen CRLF) with 2. lia. }
  assert (Hdata : data = (pre ++ l ++ CRLF) ++ d ++ CRLF ++ tl) by (unfold data; by rewrite <- !app_assoc).
  rewrite Hpos. rewrite Hdata at 2. rewrite pyslice_mid. f_equal.
  rewrite !zlen_app. change (zlen CRLF) with 2. lia.
Qed.

Lemma parse_chunks cs : forall fuel pre tl acc,
  Forall chunk_ok cs ->
  parse_chunked (length cs + fuel) (pre ++ render_chunks cs ++ tl) acc (zlen pre) =
    parse_chunked fuel (pre ++ render_chunks cs ++ tl) (acc ++ concat (map snd cs))
      (zlen (pre ++ render_chunks cs)).
Proof.
  induction cs as [|c cs IH]; intros fuel pre tl acc Hall.
  - simpl. by rewrite !app_nil_r.
  - apply Forall_cons in Hall as [Hc Hcs]. cbn [length Nat.add].
    change (render_chunks (c :: cs)) with ((fst c ++ CRLF ++ snd c ++ CRLF) ++ render_chunks cs).
    rewrite <- (app_assoc _ (render_chunks cs) tl), (parse_one_chunk _ pre c _ acc Hc).
    set (p := fst c ++ CRLF ++ snd c ++ CRLF).
    specialize (IH fuel (pre ++ p) tl (acc ++ snd c) Hcs).
    rewrite <- (app_assoc pre p (render_chunks cs ++ tl)) in IH. rewrite IH.
    cbn [map concat]. by rewrite <- !app_assoc.
Qed.

(** Chunked bodies: a body sent in any chunks, with the last chunk followed
    by a trailer, is put together again and exactly the encoded bytes are
    consumed.  Without a trailer, the usual case, the body is never complete:
    the parser looks for an empty line after the line end of the last chunk
    and not at it. *)
Theorem chunked_body cs last_line trailer rest fuel :
  Forall chunk_ok cs -> 13 ∉ last_line -> int16_of_bytes last_line = Some 0 ->
  find (trailer ++ CRLF2 ++ rest) CRLF2 = Some (length trailer) ->
  (length cs < fuel)%nat ->
  let wire := render_chunks cs ++ last_line ++ CRLF ++ trailer ++ CRLF2 in
  parse_chunked fuel (wire ++ rest) [] 0 = Some (Ok (Some (concat (map snd cs)), zlen wire)) /\
  parse_chunked fuel (render_chunks cs ++ last_line ++ CRLF ++ CRLF) [] 0 = Some (Ok (None, 0)).
Proof.
  intros Hall Hcr Hzero Htr Hf wire.
  replace fuel with (length cs + S (fuel - length cs - 1))%nat by lia.
  assert (Hlast : forall t, parse_chunked (length cs + S (fuel - length cs - 1))
      (render_chunks cs ++ last_line ++ CRLF ++ t) [] 0 =
      match find_from (render_chunks cs ++ last_line ++ CRLF ++ t) CRLF2
              (zlen (render_chunks cs ++ last_line ++ CRLF)) with
      | None => Some (Ok (None, 0))
      | Some p => Some (Ok (Some (concat (map snd cs)), p + 4))
      end).
  { intros t. pose proof (parse_chunks cs (S (fuel - length cs - 1)) [] (last_line ++ CRLF ++ t) [] Hall) as H.
    cbn [app] in H. change (zlen []) with 0 in H. rewrite H. clear H.
    set (pre := render_chunks cs). cbn [parse_chunked].
    pose proof (zlen_nonneg last_line). pose proof (zlen_nonneg t).
    rewrite (proj2 (Z.leb_gt _ _)) by (rewrite !zlen_app; change (zlen CRLF) with 2; lia).
    rewrite find_from_app. unfold CRLF at 1 2. rewrite (find_app_char 13 [10] last_line) by done.
    cbn [fmap option_fmap option_map]. change (Z.of_nat (length last_line)) with (zlen last_line).
    change (13 :: [10]) with CRLF. rewrite pyslice_mid, Hzero. rewrite Z.eqb_refl.
    assert (Hpos : zlen pre + zlen last_line + 2 = zlen (pre ++ last_line ++ CRLF)).
    { rewrite !zlen_app. change (zlen CRLF) with 2. lia. }
    by rewrite Hpos. }
  split.
  - unfold wire. rewrite <- !app_assoc, Hlast.
    replace (render_chunks cs ++ last_line ++ CRLF ++ trailer ++ CRLF2 ++ rest)
      with ((render_chunks cs ++ last_line ++ CRLF) ++ trailer ++ CRLF2 ++ rest) by by rewrite <- !app_assoc.
    rewrite find_from_app, Htr. cbn [fmap option_fmap option_map]. do 4 f_equal.
    rewrite !zlen_app. change (zlen CRLF2) with 4. unfold zlen. lia.
  - rewrite Hlast.
    replace (render_chunks cs ++ last_line ++ CRLF ++ CRLF)
      with ((render_chunks cs ++ last_line ++ CRLF) ++ CRLF) by by rewrite <- !app_assoc.
    by rewrite find_from_app.
Qed.

(** ** When the chunk loop ends *)

Lemma find_bound s needle i : find s needle = Some i -> (i <= length s)%nat.
Proof.
  revert i. induction s as [|c s IH]; intros i; cbn [find].
  - destruct (startswith [] needle); intros; simplify_eq. simpl. lia.
  - destruct (startswith (c :: s) needle); [intros; simplify_eq; simpl; lia|].
    destruct (find s needle) as [j|]; [|done]. intros; simplify_eq/=. specialize (IH j eq_refl). lia.
Qed.

Lemma find_from_ge data needle pos e :
  0 <= pos -> find_from data needle pos = Some e -> pos <= e.
Proof.
  intros Hp. unfold find_from. rewrite Z.gtb_ltb. destruct (Z.ltb_spec (zlen data) pos); [done|].
  rewrite norm_index_inside by lia. destruct (find _ needle); [|done]. intros; simplify_eq. lia.
Qed.

(** The length of the data is fuel enough, unless a chunk size is negative. *)
Lemma chunked_ends fuel data acc pos :
  0 <= pos -> (0 < fuel)%nat -> zlen data - pos < Z.of_nat fuel ->
  parse_chunked fuel data acc pos = None ->
  exists a b n, int16_of_bytes (pyslice a b data) = Some n /\ n < 0.
Proof.
  revert acc pos. induction fuel as [|fuel IH]; intros acc pos Hp H0 Hf; [lia|]. cbn [parse_chunked].
  destruct (Z.leb_spec (zlen data) pos); [done|].
  destruct (find_from data CRLF pos) as [eol|] eqn:Hfind; [|done].
  apply find_from_ge in Hfind; [|done].
  destruct (int16_of_bytes (pyslice pos eol data)) as [n|] eqn:Hint; [|done].
  destruct (Z.eqb_spec n 0); [by destruct (find_from _ _ _)|].
  rewrite Z.gtb_ltb. destruct (Z.ltb_spec (zlen data) (eol + 2 + n + 2)); [done|].
  destruct (decide (n < 0)) as [Hn|Hn]; [intros _; by exists pos, eol, n|].
  intros Hnone. apply IH in Hnone; [done|lia|lia|lia].
Qed.

(** It does not end when the size moves the position back to the line. *)
Lemma chunked_negative_diverges fuel acc : parse_chunked fuel (py "-6" ++ CRLF) acc 0 = None.
Proof.
  revert acc. induction fuel as [|fuel IH]; intros acc; [done|].
  change (parse_chunked (S fuel) (py "-6" ++ CRLF) acc 0) with
    (parse_chunked fuel (py "-6" ++ CRLF) (acc ++ []) 0). apply IH.
Qed.

(** ** Routing *)

Lemma match_from_spec p locs best n :
  match match_from p best n locs with
  | None => best = None /\ forall x, x ∈ locs -> startswith p (loc_path x) = true -> zlen (loc_path x) <= n
  | Some loc =>
      (best = Some loc /\ forall x, x ∈ locs -> startswith p (loc_path x) = true -> zlen (loc_path x) <= n) \/
      (exists l1 l2, locs = l1 ++ loc :: l2 /\ startswith p (loc_path loc) = true /\ n < zlen (loc_path loc) /\
        (forall x, x ∈ l1 -> startswith p (loc_path x) = true -> zlen (loc_path x) < zlen (loc_path loc)) /\
        (forall x, x ∈ l2 -> startswith p (loc_path x) = true -> zlen (loc_path x) <= zlen (loc_path loc)))
  end.
Proof.
  revert best n. induction locs as [|a locs IH]; intros best n; cbn [match_from].
  - destruct best; [left|]; (split; [done|]); by intros x ?%elem_of_nil.
  - rewrite Z.gtb_ltb. destruct (startswith p (loc_path a)) eqn:Hs; cbn [andb];
      [destruct (Z.ltb_spec n (zlen (loc_path a))) as [Hlt|Hge]|].
    + specialize (IH (Some a) (zlen (loc_path a))).
      destruct (match_from p (Some a) (zlen (loc_path a)) locs) as [loc|]; [|by destruct IH].
      right. destruct IH as [[[= ->] Hle]|(l1 & l2 & -> & H1 & H2 & H3 & H4)].
      * exists [], locs. split_and!; [done|done|done|by intros x ?%elem_of_nil|done].
      * exists (a :: l1), l2. split_and!; [done|done|lia| |done].
        intros x [->|Hx]%elem_of_cons ?; [lia|auto].
    + specialize (IH best n). destruct (match_from p best n locs) as [loc|].
      * destruct IH as [[-> Hle]|(l1 & l2 & -> & H1 & H2 & H3 & H4)]; [left|right].
        -- split; [done|]. intros x [->|Hx]%elem_of_cons ?; [lia|auto].
        -- exists (a :: l1), l2. split_and!; try done. intros x [->|Hx]%elem_of_cons ?; [lia|auto].
      * destruct IH as [-> Hle]. split; [done|]. intros x [->|Hx]%elem_of_cons ?; [lia|auto].
    + specialize (IH best n). destruct (match_from p best n locs) as [loc|].
      * destruct IH as [[-> Hle]|(l1 & l2 & -> & H1 & H2 & H3 & H4)]; [left|right].
        -- split; [done|]. intros x [->|Hx]%elem_of_cons ?; [congruence|auto].
        -- exists (a :: l1), l2. split_and!; try done. intros x [->|Hx]%elem_of_cons ?; [congruence|auto].
      * destruct IH as [-> Hle]. split; [done|]. intros x [->|Hx]%elem_of_cons ?; [congruence|auto].
Qed.

(** C40 Routing picks the longest match: the location returned is the first of
    those with the longest path that the request path starts with, and none is
    returned only when the request path starts with no location's path. *)
Theorem match_route_longest locs p :
  match match_route locs p with
  | None => forall x, x ∈ locs -> startswith p (loc_path x) = false
  | Some loc =>
      exists l1 l2, locs = l1 ++ loc :: l2 /\ startswith p (loc_path loc) = true /\
        (forall x, x ∈ l1 -> startswith p (loc_path x) = true -> zlen (loc_path x) < zlen (loc_path loc)) /\
        (forall x, x ∈ l2 -> startswith p (loc_path x) = true -> zlen (loc_path x) <= zlen (loc_path loc))
  end.
Proof.
  pose proof (match_from_spec p locs None (-1)) as H. unfold match_route.
  destruct (match_from p None (-1) locs) as [loc|].
  - destruct H as [[[=] _]|(l1 & l2 & -> & H1 & _ & H3 & H4)]. by exists l1, l2.
  - destruct H as [_ H]. intros x Hx. destruct (startswith p (loc_path x)) eqn:Hs; [|done].
    specialize (H x Hx Hs). pose proof (zlen_nonneg (loc_path x)). lia.
Qed.

(** ** What goes upstream *)

(** The headers sent upstream, key by key: no hop-by-hop header; [host] is
    the chosen server, [x-real-ip] the client, and [x-forwarded-for] what the
    request had with the client appended; every other header as received. *)
Theorem upstream_headers_exact r server k :
  dget (upstream_headers r server) k =
    if decide (k ∈ HOP_BY_HOP) then None
    else if decide (k = py "host") then Some (server_key (us_host server) (us_port server))
    else if decide (k = py "x-real-ip") then Some (client_ip r)
    else if decide (k = py "x-forwarded-for") then
      Some (match dget (headers r) k with
            | Some (c :: old) => (c :: old) ++ py ", " ++ client_ip r
            | _ => client_ip r
            end)
    else dget (headers r) k.
Proof.
  unfold upstream_headers. cbv zeta. rewrite dget_foldl_ddel.
  destruct (decide (k ∈ HOP_BY_HOP)); [done|]. unfold header.
  rewrite (dget_dset_ne _ (py "x-real-ip") (py "x-forwarded-for")) by done.
  rewrite (dget_dset_ne _ (py "host") (py "x-forwarded-for")) by done.
  rewrite !dget_dset.
  destruct (decide (k = py "host")) as [->|Hh]; [by rewrite !decide_False by done|].
  destruct (decide (k = py "x-real-ip")) as [->|Hr];
    [rewrite decide_False by done; by rewrite decide_True by done|].
  destruct (decide (k = py "x-forwarded-for")) as [->|Hx].
  - rewrite decide_True by done. by destruct (dget (headers r) (py "x-forwarded-for")) as [[|]|].
  - by rewrite !decide_False by congruence.
Qed.

(** A chunked request loses its framing: its body is sent on with neither a
    [transfer-encoding] nor, as it had none, a [content-length]. *)
Lemma chunked_forward_unframed r server :
  dget (headers r) (py "content-length") = None ->
  dget (upstream_headers r server) (py "transfer-encoding") = None /\
  dget (upstream_headers r server) (py "content-length") = None.
Proof.
  intros H. unfold upstream_headers. cbv zeta. rewrite !dget_foldl_ddel.
  split; [by rewrite decide_True by (vm_compute; set_solver)|].
  case_decide; [done|]. by rewrite !dget_dset_ne by done.
Qed.

(** ** Requests are read back *)

Definition header_line (kv : str * str) : str := fst kv ++ py ": " ++ snd kv.

Definition request_line (m p v : str) : str := m ++ [32] ++ p ++ [32] ++ v.

Definition head_lines (m p v : str) (hs : list (str * str)) : str :=
  join CRLF (request_line m p v :: map header_line hs).

Definition render_request (m p v : str) (hs : list (str * str)) (b : bytes) : bytes :=
  head_lines m p v hs ++ CRLF2 ++ b.

Definition header_ok (kv : str * str) : Prop :=
  is_ascii (fst kv) /\ is_ascii (snd kv) /\ (13 ∉ fst kv) /\ (13 ∉ snd kv) /\ (58 ∉ fst kv) /\
  lower_str (strip (fst kv)) = fst kv /\ strip (snd kv) = snd kv.

Record request_ok (m p v : str) (hs : list (str * str)) : Prop := {
  ok_ascii : is_ascii m /\ is_ascii p /\ is_ascii v;
  ok_cr : (13 ∉ m) /\ (13 ∉ p) /\ (13 ∉ v);
  ok_space : (32 ∉ m) /\ (32 ∉ p);
  ok_upper : upper_str m = m;
  ok_headers : Forall header_ok hs;
  ok_keys : dict_ok hs;
}.

Lemma find_skip c sep x s : c ∉ x ->
  find (x ++ s) (c :: sep) = (fun i => length x + i)%nat <$> find s (c :: sep).
Proof.
  induction x as [|d x IH]; intros Hin; [simpl; by destruct (find s (c :: sep))|].
  apply not_elem_of_cons in Hin as [Hne Hin]. cbn [app find startswith].
  rewrite (proj2 (Z.eqb_neq _ _)) by done. cbn [andb]. rewrite IH by done.
  by destruct (find s (c :: sep)).
Qed.

(** The empty line ends the head: no line of it is empty. *)
Lemma find_head_end x lines t :
  (13 ∉ x) -> Forall (fun l => l <> [] /\ 13 ∉ l) lines ->
  find (join CRLF (x :: lines) ++ CRLF2 ++ t) CRLF2 = Some (length (join CRLF (x :: lines))).
Proof.
  revert x. induction lines as [|y lines IH]; intros x Hx Hl.
  - by apply (find_app_char 13 [10; 13; 10]).
  - apply Forall_cons in Hl as [[Hy1 Hy2] Hl]. specialize (IH y Hy2 Hl).
    change (join CRLF (x :: y :: lines)) with (x ++ CRLF ++ join CRLF (y :: lines)).
    rewrite <- !app_assoc. unfold CRLF2 at 2. rewrite find_skip by done. fold CRLF2.
    assert (Hskip : forall s, (exists d s', s = d :: s' /\ d <> 13) ->
      find (CRLF ++ s) CRLF2 = (fun i => S (S i)) <$> find s CRLF2).
    { intros s (d & s' & -> & Hd). unfold CRLF, CRLF2. cbn [app]. cbn [find].
      cbn [startswith]. rewrite !Z.eqb_refl. cbn [andb].
      rewrite (proj2 (Z.eqb_neq 13 d)) by congruence. cbn [andb].
      change (13 =? 10) with false. cbn [andb].
      by destruct (find s' [13; 10; 13; 10]). }
    rewrite Hskip.
    + rewrite IH. cbn [fmap option_fmap option_map]. f_equal. rewrite !length_app. simpl. lia.
    + destruct y as [|d y]; [done|]. apply not_elem_of_cons in Hy2 as [Hd _].
      destruct lines; cbn [join app]; eauto.
Qed.

Lemma split_request_line m p v :
  (32 ∉ m) -> (32 ∉ p) -> split (request_line m p v) [32] (Some 2%nat) = [m; p; v].
Proof.
  intros Hm Hp. unfold split, request_line.
  assert (Hlen : exists n, length (m ++ [32] ++ p ++ [32] ++ v) = S n).
  { rewrite !length_app. simpl. exists (length m + (length p + S (length v)))%nat. lia. }
  destruct Hlen as [n ->]. cbn [split_go]. rewrite (find_app_char 32 []) by done. f_equal.
  - by rewrite take_app_length.
  - rewrite <- drop_drop, drop_app_length.
    change (drop (length [32]) ([32] ++ p ++ [32] ++ v)) with (p ++ [32] ++ v).
    rewrite (find_app_char 32 [] p v) by done. f_equal.
    + by rewrite take_app_length.
    + rewrite <- drop_drop, drop_app_length. by destruct n.
Qed.

Lemma partition_char_app c k t : c ∉ k -> partition_char c (k ++ c :: t) = (k, true, t).
Proof.
  induction k as [|d k IH]; intros Hin; simpl; [by rewrite Z.eqb_refl|].
  apply not_elem_of_cons in Hin as [Hne Hin]. rewrite (proj2 (Z.eqb_neq _ _)) by congruence.
  by rewrite IH.
Qed.

Lemma add_headers hs d :
  Forall header_ok hs -> dict_ok (d ++ hs) -> foldl add_header d (map header_line hs) = d ++ hs.
Proof.
  revert d. induction hs as [|[k w] hs IH]; intros d Hok Hd; [by rewrite app_nil_r|].
  apply Forall_cons in Hok as [(_ & _ & _ & _ & Hk & Hl & Hs) Hok]. cbn [fst snd] in *.
  assert (Hadd : add_header d (header_line (k, w)) = d ++ [(k, w)]).
  { unfold add_header, header_line. cbn [fst snd].
    change (py ": " ++ w) with (58 :: 32 :: w). rewrite partition_char_app by done.
    change (strip (32 :: w)) with (strip w). rewrite Hl, Hs. apply dset_new.
    apply not_elem_of_dkeys. unfold dict_ok, dkeys in Hd. rewrite map_app in Hd.
    apply NoDup_app in Hd as (_ & Hd & _). intros Hin. apply (Hd k Hin). simpl. by left. }
  cbn [map foldl]. rewrite Hadd, IH; [by rewrite <- app_assoc|done|by rewrite <- app_assoc].
Qed.

Lemma ascii_join l : Forall is_ascii l -> is_ascii (join CRLF l).
Proof.
  unfold is_ascii. induction 1 as [|x l Hx Hl IH]; [constructor|].
  destruct l as [|y l]; [done|].
  change (join CRLF (x :: y :: l)) with (x ++ CRLF ++ join CRLF (y :: l)).
  rewrite !Forall_app. split_and!; [done| |done]. repeat constructor; lia.
Qed.

Lemma try_parse_incomplete fuel b b' : try_parse fuel b = Some (Ok None, b') -> b' = b.
Proof.
  unfold try_parse. destruct (find b CRLF2) as [idx|].
  - destruct (split _ CRLF None) as [|l0 lines]; [congruence|].
    destruct (split l0 [32] (Some 2%nat)) as [|m [|p more]]; [congruence|congruence|]. cbv zeta.
    destruct (is_chunked _).
    + destruct (parse_chunked _ _ _ _) as [[[[bd|] n]|e]|]; congruence.
    + destruct (0 <? _); [destruct (_ <? _)|]; congruence.
  - destruct (_ >? _); congruence.
Qed.

Lemma head_facts m p v hs :
  request_ok m p v hs ->
  is_ascii (head_lines m p v hs) /\ (13 ∉ request_line m p v) /\
  Forall (fun l => l <> [] /\ 13 ∉ l) (map header_line hs).
Proof.
  intros [(A1 & A2 & A3) (C1 & C2 & C3) _ _ Hh _].
  assert (Hlines : Forall (fun l => is_ascii l /\ l <> [] /\ 13 ∉ l) (map header_line hs)).
  { apply Forall_fmap. eapply Forall_impl; [exact Hh|].
    intros [k w] (K1 & K2 & K3 & K4 & _). simpl in *. unfold header_line. cbn [fst snd].
    change (py ": " ++ w) with (58 :: 32 :: w). split_and!.
    - unfold is_ascii in *. rewrite Forall_app, !Forall_cons. split_and!; try done; lia.
    - by destruct k.
    - set_solver. }
  split_and!.
  - apply ascii_join, Forall_cons. split.
    + unfold request_line, is_ascii in *. rewrite !Forall_app, !Forall_cons.
      split_and!; try done; try lia; constructor.
    + eapply Forall_impl; [exact Hlines|]. naive_solver.
  - unfold request_line. set_solver.
  - eapply Forall_impl; [exact Hlines|]. naive_solver.
Qed.

(** Parsing what begins with the head of a request that is not chunked. *)
Lemma try_parse_head fuel m p v hs t :
  request_ok m p v hs -> is_chunked hs = false ->
  let buffer := head_lines m p v hs ++ CRLF2 ++ t in
  let request b := mkRequest m p v hs b (py "127.0.0.1") in
  try_parse fuel buffer =
  if 0 <? content_length hs then
    if zlen t <? content_length hs then Some (Ok None, buffer)
    else Some (Ok (Some (request (take (Z.to_nat (content_length hs)) t))), drop (Z.to_nat (content_length hs)) t)
  else Some (Ok (Some (request [])), []).
Proof.
  intros Hok Hch buffer request. destruct (head_facts m p v hs Hok) as (Hasc & Hcr & Hlines).
  destruct Hok as [_ _ (S1 & S2) Hup Hh Hd]. unfold try_parse.
  assert (Hf : find buffer CRLF2 = Some (length (head_lines m p v hs)))
    by (by apply (find_head_end (request_line m p v) (map header_line hs))).
  assert (Hr : drop (length (head_lines m p v hs) + 4) buffer = t)
    by (unfold buffer; by rewrite <- drop_drop, drop_app_length).
  rewrite Hf. unfold buffer at 1. rewrite take_app_length, utf8_replace_ascii by done.
  unfold head_lines at 1, CRLF at 1. rewrite split_join.
  2: { apply Forall_cons. split; [done|]. eapply Forall_impl; [exact Hlines|]. naive_solver. }
  rewrite split_request_line by done. cbv zeta. rewrite add_headers by done. cbn [app].
  by rewrite Hch, Hup, Hr.
Qed.

Lemma startswith_app_l s p t : (length p <= length s)%nat -> startswith (s ++ t) p = startswith s p.
Proof.
  revert s. induction p as [|c p IH]; intros [|d s] Hl; simpl in Hl; try lia; [by destruct t|done|].
  cbn [startswith app]. by rewrite IH by lia.
Qed.

Lemma startswith_length s p : startswith s p = true -> (length p <= length s)%nat.
Proof.
  revert s. induction p as [|c p IH]; intros [|d s]; cbn; try done; [lia|].
  intros [_ H]%andb_true_iff. apply IH in H. lia.
Qed.

(** The first occurrence stays the first when the text grows. *)
Lemma find_app_some s needle i t :
  find s needle = Some i -> find (s ++ t) needle = Some i /\ (i + length needle <= length s)%nat.
Proof.
  revert i. induction s as [|c s IH]; intros i.
  - cbn [find]. destruct (startswith [] needle) eqn:E; [|done]. intros [= <-].
    apply startswith_length in E. destruct needle; [|simpl in E; lia]. split; [by destruct t|done].
  - cbn [find]. destruct (startswith (c :: s) needle) eqn:E.
    + intros [= <-]. pose proof (startswith_length _ _ E) as Hl. split; [|done].
      change ((c :: s) ++ t) with (c :: s ++ t). cbn [find].
      change (c :: s ++ t) with ((c :: s) ++ t). by rewrite startswith_app_l, E.
    + destruct (find s needle) as [j|] eqn:F; [|done]. intros [= <-].
      destruct (IH j eq_refl) as [Ht Hj]. split; [|simpl; lia].
      change ((c :: s) ++ t) with (c :: s ++ t). cbn [find].
      change (c :: s ++ t) with ((c :: s) ++ t). rewrite startswith_app_l, E by (simpl; lia).
      by rewrite Ht.
Qed.

(** No proper prefix of a request is taken for one. *)
Lemma try_parse_prefix fuel m p v hs b x y :
  request_ok m p v hs -> is_chunked hs = false -> content_length hs = zlen b ->
  zlen (head_lines m p v hs) + 3 <= MAX_HEADER_SIZE ->
  render_request m p v hs b = x ++ y -> y <> [] -> try_parse fuel x = Some (Ok None, x).
Proof.
  intros Hok Hch Hcl Hmax Hxy Hy. unfold render_request in Hxy.
  destruct (decide (length (head_lines m p v hs ++ CRLF2) <= length x)%nat) as [Hl|Hl].
  - assert (Hx : x = head_lines m p v hs ++ CRLF2 ++ drop (length (head_lines m p v hs ++ CRLF2)) x).
    { rewrite app_assoc, <- (take_drop (length (head_lines m p v hs ++ CRLF2)) x) at 1. f_equal.
      rewrite <- (take_app_le x y), <- Hxy by done. rewrite app_assoc. apply take_app_length. }
    set (t := drop _ x) in Hx. assert (Hb : b = t ++ y).
    { rewrite Hx in Hxy. rewrite <- !app_assoc in Hxy. by apply app_inv_head, app_inv_head in Hxy. }
    rewrite Hx, try_parse_head, Hcl, Hb by done. rewrite zlen_app.
    assert (0 < zlen y) by (destruct y; [done|unfold zlen; simpl; lia]). pose proof (zlen_nonneg t).
    rewrite (proj2 (Z.ltb_lt 0 _)) by lia. by rewrite (proj2 (Z.ltb_lt _ _)) by lia.
  - rewrite length_app in Hl. change (length CRLF2) with 4%nat in Hl.
    destruct (head_facts m p v hs Hok) as (_ & Hcr & Hlines). unfold try_parse.
    destruct (find x CRLF2) as [i|] eqn:Hf.
    + exfalso. apply (find_app_some _ _ _ y) in Hf as [Hf Hi]. rewrite <- Hxy in Hf.
      unfold head_lines in Hf. rewrite (find_head_end (request_line m p v) (map header_line hs) b Hcr Hlines) in Hf.
      apply Some_inj in Hf. unfold head_lines in Hl. change (length CRLF2) with 4%nat in Hi. lia.
    + rewrite Z.gtb_ltb, (proj2 (Z.ltb_ge _ _)); [done|]. unfold zlen in *. lia.
Qed.

(** A request is read back: a well-formed request with a [content-length]
    body is parsed to its method, path, version, headers and body, however it
    is cut in two on the way.  The bytes behind it stay in the buffer if the
    request has a body; behind a request without a body they are thrown away. *)
Theorem request_roundtrip fuel m p v hs b rest :
  request_ok m p v hs -> is_chunked hs = false -> content_length hs = zlen b ->
  let wire := render_request m p v hs b ++ rest in
  let parsed := Some (Ok (Some (mkRequest m p v hs b (py "127.0.0.1"))),
                      match b with [] => [] | _ => rest end) in
  feed fuel [] wire = parsed /\
  (forall x y buf, wire = x ++ y -> feed fuel [] x = Some (Ok None, buf) -> feed fuel buf y = parsed).
Proof.
  intros Hok Hch Hcl wire parsed.
  assert (Hw : try_parse fuel wire = parsed).
  { unfold wire, render_request. rewrite <- !app_assoc, try_parse_head, Hcl by done.
    destruct b as [|c b']; [done|].
    rewrite (proj2 (Z.ltb_lt _ _)) by (unfold zlen; simpl; lia).
    rewrite (proj2 (Z.ltb_ge _ _)) by (rewrite zlen_app; pose proof (zlen_nonneg rest); lia).
    unfold zlen. by rewrite Nat2Z.id, take_app_length, drop_app_length. }
  split; [exact Hw|]. intros x y buf Hxy Hx. apply try_parse_incomplete in Hx as ->.
  unfold feed. cbn [app]. by rewrite <- Hxy.
Qed.

End Http.

(** ** Concrete requests *)

#[local] Existing Instance ascii_only.

Definition post_headers : list (str * str) :=
  [(py "host", py "example.org"); (py "content-length", py "5")].

Example post_parsed :
  feed 9 [] (py "post /a HTTP/1.1" ++ CRLF ++ py "HOST:  example.org " ++ CRLF ++
             py "Content-Length: 5" ++ CRLF2 ++ py "helloGET") =
  Some (Ok (Some (mkRequest (py "POST") (py "/a") (py "HTTP/1.1") post_headers (py "hello")
                    (py "127.0.0.1"))), py "GET").
Proof. vm_compute. reflexivity. Qed.

Lemma post_ok : request_ok (py "POST") (py "/a") (py "HTTP/1.1") post_headers.
Proof.
  split.
  - split_and!; repeat constructor; discriminate.
  - split_and!; by_eval.
  - split_and!; by_eval.
  - reflexivity.
  - repeat constructor; try discriminate; try by_eval.
  - by_eval.
Qed.

Lemma request_roundtrip_witness :
  feed 9 [] (render_request (py "POST") (py "/a") (py "HTTP/1.1") post_headers (py "hello") ++ py "GET") =
  Some (Ok (Some (mkRequest (py "POST") (py "/a") (py "HTTP/1.1") post_headers (py "hello")
                    (py "127.0.0.1"))), py "GET").
Proof.
  apply (request_roundtrip 9 (py "POST") (py "/a") (py "HTTP/1.1") post_headers (py "hello") (py "GET")).
  - exact post_ok.
  - vm_compute. reflexivity.
  - vm_compute. reflexivity.
Defined.

Lemma chunked_body_witness :
  parse_chunked 3 (py "3" ++ CRLF ++ py "abc" ++ CRLF ++ py "1" ++ CRLF ++ py "d" ++ CRLF ++
                   py "0" ++ CRLF ++ CRLF) [] 0 = Some (Ok (None, 0)).
Proof.
  apply (chunked_body [(py "3", py "abc"); (py "1", py "d")] (py "0") (py "x: y") [] 3).
  - repeat constructor; try discriminate; by_eval.
  - by_eval.
  - reflexivity.
  - vm_compute. reflexivity.
  - simpl. lia.
Defined.

End Http.
