(* ===== verification/WebSocket.v ===== *)
(** * WebSocket proxying (src/proxy/websocket.py)

    Frames are read from and written to byte streams.  A reader is the bytes
    that will still arrive, with what follows them ([ending]): the end of the
    stream, or silence until the timeout.  [WebSocketRelay.relay] runs two
    directions and a ping loop over a shared event [done]; [ws_step]
    interleaves them frame by frame (each reader belongs to one task, so that
    a frame is read as a whole).

    SHA-1 is a parameter.  [asyncio.TimeoutError] is an [OSError] from
    Python 3.11 on and not before; the package supports both, so this is the
    parameter [timeout_is_oserror]. *)

From S2P Require Import Prelude PyStr LoadBalancer Http.
Import LoadBalancer Http.

Module WebSocket.

Definition OP_CONTINUATION : Z := 0.
Definition OP_TEXT : Z := 1.
Definition OP_BINARY : Z := 2.
Definition OP_CLOSE : Z := 8.
Definition OP_PING : Z := 9.
Definition OP_PONG : Z := 10.

Definition WS_MAGIC_GUID : bytes := py "258EAFA5-E914-47DA-95CA-C5AB0DC85B11".
Definition DEFAULT_WS_MAX_MSG : Z := 1024 * 1024.

(** ** Frames *)

Inductive ending := AtEof | Silent.

(** [asyncio.wait_for(reader.readexactly(n), timeout)]. *)
Definition readexactly (e : ending) (n : nat) (buf : bytes) : result (bytes * bytes) :=
  if (n <=? length buf)%nat then Ok (take n buf, drop n buf)
  else raise (match e with AtEof => CIncompleteReadError | Silent => CTimeoutError end) [].

(** [bytes(b ^ mask_key[i % 4] for i, b in enumerate(payload))]. *)
Definition unmask (key payload : bytes) : bytes :=
  imap (fun i b => Z.lxor b (nth (i mod 4) key 0)) payload.

Definition read_length (e : ending) (len0 : Z) (buf : bytes) : result (Z * bytes) :=
  if len0 =? 126 then let? (ext, b) := readexactly e 2 buf in Ok (be_decode ext, b)
  else if len0 =? 127 then let? (ext, b) := readexactly e 8 buf in Ok (be_decode ext, b)
  else Ok (len0, buf).

(** [_read_frame]: the frame, or [None] for an empty header, and the bytes
    behind it. *)
Definition read_frame (max : Z) (e : ending) (buf : bytes) : result (option (Z * bytes) * bytes) :=
  match readexactly e 2 buf with
  | Err x => if bool_decide (exc_cls x = CTimeoutError) then raise CWebSocketError (py "read timeout")
             else Err x
  | Ok ([byte0; byte1], b1) =>
      let opcode := Z.land byte0 15 in
      let masked := negb (Z.land byte1 128 =? 0) in
      let? (payload_len, b2) := read_length e (Z.land byte1 127) b1 in
      if payload_len >? max then raise CWebSocketError (py "frame too large")
      else
        let? (mask_key, b3) := if masked then readexactly e 4 b2 else Ok ([], b2) in
        let? (payload, b4) := if payload_len >? 0 then readexactly e (Z.to_nat payload_len) b3
                              else Ok ([], b3) in
        Ok (Some (opcode, match mask_key with [] => payload | _ => unmask mask_key payload end), b4)
  | Ok (_, b1) => Ok (None, b1)
  end.

(** [_send_frame]: the bytes written. *)
Definition send_frame (opcode : Z) (payload : bytes) : result bytes :=
  let plen := zlen payload in
  let? len := if plen <? 126 then Ok [plen]
              else if plen <? 65536 then let? b := struct_pack 2 plen in Ok (126 :: b)
              else let? b := struct_pack 8 plen in Ok (127 :: b) in
  Ok (Z.lor 128 (Z.land opcode 15) :: len ++ payload).

(** ** One direction of the relay *)

Section Relay.
Context (timeout_is_oserror : bool).

(** The exceptions [_relay_one_way] catches. *)
Definition caught (x : exc) : bool :=
  match exc_cls x with
  | CConnectionError | CIncompleteReadError | COSError | CWebSocketError => true
  | CTimeoutError => timeout_is_oserror
  | _ => false
  end.

(** The frame sent for a frame received. *)
Definition forward (frame : Z * bytes) : Z * bytes :=
  let (opcode, payload) := frame in
  if opcode =? OP_CLOSE then (OP_CLOSE, payload)
  else if opcode =? OP_PING then (OP_PONG, payload)
  else if opcode =? OP_PONG then (OP_PONG, payload)
  else (opcode, payload).

(** One turn of the loop: the bytes left, the frame written if any, and
    whether the event is set and the task goes on.  [write_ok] is whether the
    writer accepts the frame. *)
Definition relay_turn (max : Z) (write_ok : bool) (e : ending) (buf : bytes)
    : bytes * option (Z * bytes) * bool * bool :=
  match read_frame max e buf with
  | Err x => (buf, None, caught x, false)
  | Ok (None, b) => (b, None, true, false)
  | Ok (Some (opcode, payload), b) =>
      let out := forward (opcode, payload) in
      match send_frame (fst out) (snd out) with
      | Err x => (b, None, caught x, false)
      | Ok _ =>
          if write_ok then
            if opcode =? OP_CLOSE then (b, Some out, true, false) else (b, Some out, false, true)
          else (b, None, true, false)
      end
  end.

(** [_relay_one_way] while nothing else sets the event: the frames written
    and whether it set the event.  [None]: out of fuel. *)
Fixpoint relay_one_way (fuel : nat) (max : Z) (e : ending) (buf : bytes)
    : option (list (Z * bytes) * bool) :=
  match fuel with
  | O => None
  | S fuel =>
      match relay_turn max true e buf with
      | (b, out, done, false) => Some (option_list out, done)
      | (b, out, _, true) =>
          match relay_one_way fuel max e b with
          | Some (outs, done) => Some (option_list out ++ outs, done)
          | None => None
          end
      end
  end.

(** ** The relay *)

Record WsRelay := mkRelay {
  rl_client : bytes;                  (* what the client still sends *)
  rl_upstream : bytes;
  rl_to_upstream : list (Z * bytes);  (* the frames written *)
  rl_to_client : list (Z * bytes);
  rl_done : bool;
  rl_c2u : bool;                      (* the tasks that have not ended *)
  rl_u2c : bool;
  rl_ping : bool
}.

Definition relay_start (client upstream : bytes) : WsRelay :=
  mkRelay client upstream [] [] false true true true.

Definition step_c2u (max : Z) (ok : bool) (e : ending) (r : WsRelay) : WsRelay :=
  let '(b, out, done, goes_on) := relay_turn max ok e (rl_client r) in
  mkRelay b (rl_upstream r) (rl_to_upstream r ++ option_list out) (rl_to_client r)
    (rl_done r || done) goes_on (rl_u2c r) (rl_ping r).

Definition step_u2c (max : Z) (ok : bool) (e : ending) (r : WsRelay) : WsRelay :=
  let '(b, out, done, goes_on) := relay_turn max ok e (rl_upstream r) in
  mkRelay (rl_client r) b (rl_to_upstream r) (rl_to_client r ++ option_list out)
    (rl_done r || done) (rl_c2u r) goes_on (rl_ping r).

(** [_ping_loop] behind its sleep. *)
Definition step_ping (ok : bool) (r : WsRelay) : WsRelay :=
  if ok then mkRelay (rl_client r) (rl_upstream r) (rl_to_upstream r ++ [(OP_PING, [])])
               (rl_to_client r) (rl_done r) (rl_c2u r) (rl_u2c r) (rl_ping r)
  else mkRelay (rl_client r) (rl_upstream r) (rl_to_upstream r)
         (rl_to_client r) true (rl_c2u r) (rl_u2c r) false.

Inductive ws_step (max : Z) (ec eu : ending) : WsRelay -> WsRelay -> Prop :=
  | rs_c2u r ok : rl_c2u r = true -> rl_done r = false ->
      ws_step max ec eu r (step_c2u max ok ec r)
  | rs_u2c r ok : rl_u2c r = true -> rl_done r = false ->
      ws_step max ec eu r (step_u2c max ok eu r)
  | rs_ping r ok : rl_ping r = true -> rl_done r = false ->
      ws_step max ec eu r (step_ping ok r).

(** [close]: the close frame written to both sides, once. *)
Definition ws_close (closing : bool) (code : Z) (reason : bytes) : result (option (Z * bytes) * bool) :=
  if closing then Ok (None, true)
  else let? c := struct_pack 2 code in Ok (Some (OP_CLOSE, c ++ reason), true).

(** ** The upgrade *)

Section Upgrade.
Context {U : Unicode} (sha1 : bytes -> bytes).

Definition compute_accept_key (client_key : str) : result str :=
  let? combined := encode (client_key ++ WS_MAGIC_GUID) in
  Ok (b64encode (sha1 combined)).

Definition is_websocket_upgrade (hs : list (str * str)) : bool :=
  str_eqb (lower_str (header hs (py "upgrade") [])) (py "websocket")
  && contains (lower_str (header hs (py "connection") [])) (py "upgrade").

(** [perform_upgrade]: the response sent to the client. *)
Definition perform_upgrade (client_key : str) (client_protocol : option str) : result bytes :=
  let? accept_key := compute_accept_key client_key in
  encode (py "HTTP/1.1 101 Switching Protocols" ++ CRLF
          ++ py "Upgrade: websocket" ++ CRLF
          ++ py "Connection: Upgrade" ++ CRLF
          ++ py "Sec-WebSocket-Accept: " ++ accept_key ++ CRLF
          ++ match client_protocol with
             | Some ((_ :: _) as p) => py "Sec-WebSocket-Protocol: " ++ p ++ CRLF
             | _ => []
             end
          ++ CRLF).

(** [readuntil(b"\r\n\r\n")] with the stream's limit of 64 KiB. *)
Definition STREAM_LIMIT : nat := Z.to_nat 65536.

Definition readuntil (e : ending) (buf : bytes) : result (bytes * bytes) :=
  match find buf CRLF2 with
  | Some i => if (STREAM_LIMIT <? i)%nat then raise CException []
              else Ok (take (i + 4) buf, drop (i + 4) buf)
  | None => if (STREAM_LIMIT + 3 <? length buf)%nat then raise CException []
            else raise (match e with AtEof => CIncompleteReadError | Silent => CTimeoutError end) []
  end.

(** The accept key and the protocol of the upstream's response. *)
Definition response_header (acc : str * str) (line : str) : str * str :=
  if negb (contains line [58]) then acc
  else
    let '(k, _, v) := partition_char 58 line in
    let key := lower_str (strip k) in
    let val := strip v in
    if str_eqb key (py "sec-websocket-accept") then (val, snd acc)
    else if str_eqb key (py "sec-websocket-protocol") then (fst acc, val)
    else acc.

Definition choose_accept (own upstream : str) : str :=
  match upstream with
  | [] => own
  | _ => if str_eqb upstream own then own else upstream
  end.

(** How the handler ends: an error response to the client, an exception
    (with what had been written to the client), or the relay. *)
Inductive upgrade :=
  | UpError (to_client : result bytes)
  | UpRaise (to_client : bytes) (x : exc)
  | UpRelay (to_client : bytes) (max : Z) (upstream_rest : bytes).

Definition bad_gateway : upgrade := UpError (send_error 502 (py "Bad Gateway")).

(** The handler once the upstream has answered. *)
Definition upgrade_response (client_key : str) (client_protocol : option str) (max : Z)
    (response_data rest : bytes) : upgrade :=
  match split (utf8_replace response_data) CRLF None with
  | [] => bad_gateway
  | line0 :: lines =>
      match split line0 (py " ") (Some 2%nat) with
      | _ :: code :: _ =>
          match int_of_str code with
          | None => UpRaise [] (Exc CValueError [])
          | Some status_code =>
              if negb (status_code =? 101) then
                (* [await writer.write(body)]: [write] returns [None] *)
                UpRaise response_data (Exc CTypeError [])
              else
                let (upstream_accept, upstream_protocol) :=
                  foldl response_header ([], []) lines in
                match (let? own := compute_accept_key client_key in
                       perform_upgrade (choose_accept own upstream_accept)
                         (match upstream_protocol with
                          | [] => client_protocol
                          | _ => Some upstream_protocol
                          end)) with
                | Ok b => UpRelay b max rest
                | Err x => UpRaise [] x
                end
          end
      | _ => bad_gateway
      end
  end.

(** [handle_websocket_upgrade] up to the relay: the request written to the
    upstream, and the outcome. *)
Definition handle_websocket_upgrade (r : HttpRequest) (loc : LocationBlock)
    (e : ending) (upstream : bytes) : result bytes * upgrade :=
  match header (headers r) (py "sec-websocket-key") [] with
  | [] => (Ok [], UpError (send_error 400 (py "Bad Request")))
  | client_key =>
      let req_headers := dset (headers r) (py "host") (header (headers r) (py "host") []) in
      match (let? line := encode (method r ++ py " " ++ path r ++ py " HTTP/1.1" ++ CRLF) in
             let? hs := encode (header_lines req_headers) in Ok (line ++ hs)) with
      | Err x => (Err x, UpRaise [] x)
      | Ok sent =>
          (Ok sent,
           match readuntil e upstream with
           | Err x => if bool_decide (exc_cls x = CException) then UpRaise [] x else bad_gateway
           | Ok (response_data, rest) =>
               upgrade_response client_key (dget (headers r) (py "sec-websocket-protocol"))
                 (loc_ws_max_message_size loc) response_data rest
           end)
      end
  end.
End Upgrade.

(** ** RFC 6455 frames, as a reference *)

(** The length field: the 7-bit length or its marker, and the extension. *)
Definition ws_length (n : Z) : Z * bytes :=
  if n <? 126 then (n, []) else if n <? 65536 then (126, be_encode 2 n) else (127, be_encode 8 n).

Definition ws_frame (fin : bool) (opcode : Z) (mask : option bytes) (payload : bytes) : bytes :=
  let (len, ext) := ws_length (zlen payload) in
  ((if fin then 128 else 0) + opcode) :: ((match mask with Some _ => 128 | None => 0 end) + len)
  :: ext ++ match mask with Some key => key ++ unmask key payload | None => payload end.

Definition frame_ok (opcode : Z) (mask : option bytes) (payload : bytes) (max : Z) : Prop :=
  0 <= opcode < 16 /\ zlen payload <= max /\ max < 2 ^ 64
  /\ match mask with Some key => length key = 4%nat | None => True end.

Lemma land_15 x : Z.land x 15 = x mod 16.
Proof. exact (Z.land_ones x 4 ltac:(lia)). Qed.
Lemma land_127 x : Z.land x 127 = x mod 128.
Proof. exact (Z.land_ones x 7 ltac:(lia)). Qed.

Lemma land_128 x : 0 <= x < 256 -> (Z.land x 128 =? 0) = (x <? 128).
Proof.
  intros Hx.
  assert (Hall : forallb (fun x => Bool.eqb (Z.land x 128 =? 0) (x <? 128)) (seqZ 0 256) = true)
    by (vm_compute; reflexivity).
  rewrite forallb_forall in Hall. apply eqb_prop, Hall, list_elem_of_In, elem_of_seqZ. lia.
Qed.

Lemma lor_128 x : 0 <= x < 16 -> Z.lor 128 x = 128 + x.
Proof.
  intros Hx. assert (Hall : forallb (fun x => Z.lor 128 x =? 128 + x) (seqZ 0 16) = true)
    by (vm_compute; reflexivity).
  rewrite forallb_forall in Hall. apply Z.eqb_eq, Hall, list_elem_of_In, elem_of_seqZ. lia.
Qed.

Lemma length_unmask key p : length (unmask key p) = length p.
Proof. apply length_imap. Qed.

Lemma unmask_involutive key p : unmask key (unmask key p) = p.
Proof.
  apply list_eq. intros i. unfold unmask. rewrite !list_lookup_imap.
  destruct (p !! i) as [b|]; simpl; [|done]. f_equal.
  by rewrite Z.lxor_assoc, Z.lxor_nilpotent, Z.lxor_0_r.
Qed.

Lemma readexactly_app e n a b : length a = n -> readexactly e n (a ++ b) = Ok (a, b).
Proof.
  intros <-. unfold readexactly. rewrite (proj2 (Nat.leb_le _ _)) by (rewrite length_app; lia).
  by rewrite take_app_length, drop_app_length.
Qed.

Lemma ws_length_spec n e rest len ext :
  0 <= n < 2 ^ 64 -> ws_length n = (len, ext) ->
  0 <= len < 128 /\ read_length e len (ext ++ rest) = Ok (n, rest).
Proof.
  unfold ws_length, read_length. intros Hn H.
  destruct (Z.ltb_spec n 126); [simplify_eq; split; [lia|]; by decide_Z|].
  destruct (Z.ltb_spec n 65536); simplify_eq; (split; [lia|]); cbn [Z.eqb Pos.eqb];
    rewrite readexactly_app by apply length_be_encode; cbn [rbind];
    rewrite be_decode_encode_small; try done; lia.
Qed.

(** Reading a well-formed frame. *)
Lemma read_ws_frame fin opcode mask payload max e rest :
  frame_ok opcode mask payload max ->
  read_frame max e (ws_frame fin opcode mask payload ++ rest) = Ok (Some (opcode, payload), rest).
Proof.
  intros (Hop & Hmax & H64 & Hkey). pose proof (zlen_nonneg payload) as H0.
  unfold ws_frame. destruct (ws_length (zlen payload)) as [len ext] eqn:Hl.
  set (tl := match mask with Some key => key ++ unmask key payload | None => payload end).
  destruct (ws_length_spec (zlen payload) e (tl ++ rest) len ext ltac:(lia) Hl) as [Hlen Hread].
  unfold read_frame. cbn [app].
  change (readexactly e 2 (?a :: ?b :: ?l)) with (@Ok (list Z * list Z) ([a; b], l)). cbv iota beta.
  rewrite land_15, land_127, land_128 by (destruct mask; lia).
  replace (((if fin then 128 else 0) + opcode) mod 16) with opcode by (destruct fin; dlia).
  replace (((match mask with Some _ => 128 | None => 0 end) + len) mod 128) with len
    by (destruct mask; dlia).
  rewrite <- app_assoc, Hread. cbn [rbind]. rewrite Z.gtb_ltb. decide_Z.
  destruct mask as [key|]; subst tl.
  + decide_Z. cbn [negb]. rewrite <- app_assoc, readexactly_app by done. cbn [rbind].
    assert (Hp : (if 0 <? zlen payload then
        readexactly e (Z.to_nat (zlen payload)) (unmask key payload ++ rest)
      else Ok ([], unmask key payload ++ rest)) = Ok (unmask key payload, rest)).
    { destruct (Z.ltb_spec 0 (zlen payload)).
      - apply readexactly_app. rewrite length_unmask. unfold zlen. lia.
      - destruct payload; [done|]. unfold zlen in *. simpl in *. lia. }
    rewrite Z.gtb_ltb, Hp. cbn [rbind]. rewrite unmask_involutive.
    by destruct key.
  + decide_Z. cbn [negb rbind]. rewrite Z.gtb_ltb.
    assert (Hp : (if 0 <? zlen payload then
        readexactly e (Z.to_nat (zlen payload)) (payload ++ rest)
      else Ok ([], payload ++ rest)) = Ok (payload, rest)).
    { destruct (Z.ltb_spec 0 (zlen payload)).
      - apply readexactly_app. unfold zlen. lia.
      - destruct payload; [done|]. unfold zlen in *. simpl in *. lia. }
    by rewrite Hp.
Qed.

(** What [_send_frame] writes. *)
Lemma send_ws_frame opcode payload :
  0 <= opcode < 16 -> zlen payload < 2 ^ 64 ->
  send_frame opcode payload = Ok (ws_frame true opcode None payload).
Proof.
  intros Hop H64. pose proof (zlen_nonneg payload) as H0.
  unfold send_frame, ws_frame, ws_length. rewrite land_15, lor_128 by dlia.
  rewrite Z.mod_small by lia.
  destruct (Z.ltb_spec (zlen payload) 126); [done|].
  destruct (Z.ltb_spec (zlen payload) 65536);
    rewrite struct_pack_ok by (simpl Z.of_nat; lia); done.
Qed.


(** ** What the relay forwards *)

Lemma readexactly_Ok e n buf a b :
  readexactly e n buf = Ok (a, b) -> buf = a ++ b /\ length a = n.
Proof.
  unfold readexactly. destruct (Nat.leb_spec n (length buf)); [|done]. intros [= <- <-].
  rewrite take_drop, length_take. split; [done|lia].
Qed.

Lemma read_length_shorter e l buf n b :
  read_length e l buf = Ok (n, b) -> (length b <= length buf)%nat.
Proof.
  unfold read_length. intros H. destruct (l =? 126); [|destruct (l =? 127)].
  1,2: inv_bind H; destruct a as [ext b']; apply readexactly_Ok in Ha as [-> _];
       injection H as _ <-; rewrite length_app; lia.
  by injection H as _ <-.
Qed.

(** A frame takes at least two bytes, and its payload is within the limit. *)
Lemma read_frame_shorter max e buf op p b :
  read_frame max e buf = Ok (Some (op, p), b) ->
  (length b + 2 <= length buf)%nat /\ zlen p <= Z.max 0 max.
Proof.
  unfold read_frame. destruct (readexactly e 2 buf) as [[hd b1]|x] eqn:Hr; [|by case_match].
  apply readexactly_Ok in Hr as [-> Hlen].
  destruct hd as [|byte0 [|byte1 [|]]]; try done. intros H. inv_bind H. destruct a as [len b2].
  apply read_length_shorter in Ha. destruct (len >? max) eqn:Hmax; [done|].
  rewrite Z.gtb_ltb in Hmax. apply Z.ltb_ge in Hmax.
  inv_bind H. destruct a as [key b3]. inv_bind H. destruct a as [pl b4].
  assert (Hb3 : (length b3 <= length b2)%nat).
  { destruct (negb _); [|by injection Ha0 as _ <-].
    apply readexactly_Ok in Ha0 as [-> _]. rewrite length_app. lia. }
  assert (Hb4 : (length b4 <= length b3)%nat /\ zlen pl <= Z.max 0 max).
  { destruct (len >? 0); [|injection Ha1 as <- <-; split; [done|]; unfold zlen; simpl; lia].
    apply readexactly_Ok in Ha1 as [-> Hl]. rewrite length_app. unfold zlen. lia. }
  assert (Hp : p = pl \/ p = unmask key pl) by (destruct key; injection H; auto).
  assert (b = b4) as -> by (by injection H). rewrite length_app, Hlen. split; [lia|].
  destruct Hp as [-> | ->]; [apply Hb4|]. unfold zlen. rewrite length_unmask. apply Hb4.
Qed.

Lemma send_frame_Ok op p : zlen p < 2 ^ 64 -> exists b, send_frame op p = Ok b.
Proof.
  intros Hp. pose proof (zlen_nonneg p). unfold send_frame.
  destruct (_ <? 126); [eauto|]. destruct (Z.ltb_spec (zlen p) 65536);
    rewrite struct_pack_ok by (simpl Z.of_nat; lia); eauto.
Qed.

(** The frames of a byte stream, up to and including the first close frame. *)
Fixpoint frames_go (fuel : nat) (max : Z) (e : ending) (buf : bytes) : list (Z * bytes) :=
  match fuel with
  | O => []
  | S fuel =>
      match read_frame max e buf with
      | Ok (Some f, b) => f :: (if fst f =? OP_CLOSE then [] else frames_go fuel max e b)
      | _ => []
      end
  end.
Definition frames (max : Z) (e : ending) (buf : bytes) : list (Z * bytes) :=
  frames_go (S (length buf)) max e buf.

Lemma frames_go_fuel max e n : forall m buf,
  (length buf < n)%nat -> (length buf < m)%nat -> frames_go n max e buf = frames_go m max e buf.
Proof.
  induction n as [|n IH]; intros [|m] buf Hn Hm; try lia. cbn [frames_go].
  destruct (read_frame max e buf) as [[[[op p]|] b]|] eqn:Hr; try done.
  apply read_frame_shorter in Hr as [Hr _]. f_equal. case_match; [done|]. apply IH; lia.
Qed.

Lemma frames_eq max e buf :
  frames max e buf =
    match read_frame max e buf with
    | Ok (Some f, b) => f :: (if fst f =? OP_CLOSE then [] else frames max e b)
    | _ => []
    end.
Proof.
  unfold frames at 1. cbn [frames_go].
  destruct (read_frame max e buf) as [[[[op p]|] b]|] eqn:Hr; try done.
  apply read_frame_shorter in Hr as [Hr _]. f_equal. case_match; [done|].
  apply frames_go_fuel; lia.
Qed.

(** A direction ends by itself, except that on Python 3.10 a peer that falls
    silent inside a frame ends the task and leaves the relay waiting. *)
Definition sets_done (e : ending) : Prop := e = AtEof \/ timeout_is_oserror = true.

Lemma read_frame_error max e buf x :
  read_frame max e buf = Err x ->
  exc_cls x = CWebSocketError \/ exc_cls x = (match e with AtEof => CIncompleteReadError | Silent => CTimeoutError end).
Proof.
  assert (Hre : forall n b y, readexactly e n b = Err y ->
    exc_cls y = match e with AtEof => CIncompleteReadError | Silent => CTimeoutError end).
  { intros n b y. unfold readexactly. case_match; [done|]. by intros [= <-]. }
  unfold read_frame. destruct (readexactly e 2 buf) as [[hd b1]|y] eqn:Hr.
  2:{ destruct (bool_decide _); intros [= <-]; [by left|right; by eapply Hre]. }
  destruct hd as [|byte0 [|byte1 [|]]]; try done.
  destruct (read_length e (Z.land byte1 127) b1) as [[len b2]|y] eqn:Hl; cbn [rbind].
  2:{ intros [= <-]. right. unfold read_length in Hl.
      destruct (_ =? 126); [|destruct (_ =? 127); [|done]];
        destruct (readexactly e _ b1) as [[]|z] eqn:Hz; simplify_eq/=; by eapply Hre. }
  destruct (len >? max); [intros [= <-]; by left|].
  destruct (if negb _ then _ else _) as [[key b3]|y] eqn:Hk; cbn [rbind].
  2:{ intros [= <-]. right. destruct (negb _); [by eapply Hre|done]. }
  destruct (if len >? 0 then _ else _) as [[pl b4]|y] eqn:Hp; cbn [rbind]; [done|].
  intros [= <-]. right. destruct (len >? 0); [by eapply Hre|done].
Qed.

(** Each direction of the relay terminates on every input, whatever the peer
    sends, within one turn per two bytes. *)
Lemma relay_one_way_total max e buf fuel :
  max < 2 ^ 64 -> (length buf < fuel)%nat ->
  exists done,
    relay_one_way fuel max e buf = Some (map forward (frames max e buf), done)
    /\ (sets_done e -> done = true).
Proof.
  intros Hmax. revert buf. induction fuel as [|fuel IH]; intros buf Hf; [lia|].
  cbn [relay_one_way]. rewrite frames_eq. unfold relay_turn.
  destruct (read_frame max e buf) as [[[[op p]|] b]|x] eqn:Hr.
  - pose proof Hr as [Hs Hp]%read_frame_shorter. cbn [fst].
    assert (Hfw : snd (forward (op, p)) = p) by (unfold forward; repeat case_match; done).
    destruct (send_frame_Ok (fst (forward (op, p))) (snd (forward (op, p)))) as [fb ->];
      [rewrite Hfw; lia|].
    destruct (op =? OP_CLOSE); [exists true; by split|].
    destruct (IH b) as (done & -> & Hd); [lia|]. exists done. by split.
  - exists true. by split.
  - exists (caught x). split; [done|]. intros Hd. apply read_frame_error in Hr. unfold caught.
    destruct Hr as [-> | ->]; [done|]. destruct Hd as [-> | Hd]; [done|]. by destruct e.
Qed.

(** *** The stream of a peer that sends whole messages

    A frame of the peer, with its mask; the stream is the frames as RFC 6455
    encodes them, then a close frame and anything behind it, or the end. *)
Record wframe := mkWframe { wf_mask : option bytes; wf_opcode : Z; wf_payload : bytes }.

Definition wire (f : wframe) : bytes := ws_frame true (wf_opcode f) (wf_mask f) (wf_payload f).
Definition content (f : wframe) : Z * bytes := (wf_opcode f, wf_payload f).

Definition stream_bytes (fs : list wframe) (close : option (wframe * bytes)) : bytes :=
  concat (map wire fs) ++ match close with Some (c, junk) => wire c ++ junk | None => [] end.
Definition stream_frames (fs : list wframe) (close : option (wframe * bytes)) : list (Z * bytes) :=
  map content fs ++ match close with Some (c, _) => [content c] | None => [] end.

(** Frames within the limits; a message is neither a ping nor a close frame. *)
Definition message_ok (max : Z) (f : wframe) : Prop :=
  frame_ok (wf_opcode f) (wf_mask f) (wf_payload f) max
  /\ wf_opcode f <> OP_CLOSE /\ wf_opcode f <> OP_PING.
Definition stream_ok (max : Z) (fs : list wframe) (close : option (wframe * bytes)) : Prop :=
  Forall (message_ok max) fs
  /\ match close with
     | Some (c, _) => frame_ok (wf_opcode c) (wf_mask c) (wf_payload c) max /\ wf_opcode c = OP_CLOSE
     | None => True
     end.

(** What is on the wire for the frames that a direction sends. *)
Fixpoint written (outs : list (Z * bytes)) : result bytes :=
  match outs with
  | [] => Ok []
  | (opcode, payload) :: outs' =>
      let? b := send_frame opcode payload in let? bs := written outs' in Ok (b ++ bs)
  end.

Definition unmasked (f : Z * bytes) : bytes := ws_frame true (fst f) None (snd f).

Lemma read_end max e : exists x, read_frame max e [] = Err x.
Proof. destruct e; eexists; reflexivity. Qed.

Lemma stream_read max e fs close :
  stream_ok max fs close -> frames max e (stream_bytes fs close) = stream_frames fs close.
Proof.
  intros [Hfs Hc]. unfold stream_bytes, stream_frames.
  induction Hfs as [|f fs (Hf & H1 & H2) Hfs IH].
  - cbn [map concat app]. rewrite frames_eq. destruct close as [[c junk]|].
    + destruct Hc as [Hok Hop]. unfold wire, content. rewrite read_ws_frame by done. cbn [fst map app].
      rewrite Hop. done.
    + destruct (read_end max e) as [x ->]. done.
  - cbn [map concat]. rewrite <- !app_assoc, frames_eq. unfold wire at 1. rewrite read_ws_frame by done.
    cbn [fst]. rewrite (proj2 (Z.eqb_neq _ _) H1). rewrite IH. done.
Qed.

Lemma message_forward max f : message_ok max f -> forward (content f) = content f.
Proof.
  intros (_ & H1 & H2). unfold content, forward. rewrite !(proj2 (Z.eqb_neq (wf_opcode f) _)) by done.
  by destruct (Z.eqb_spec (wf_opcode f) OP_PONG) as [->|].
Qed.

Lemma stream_forward max fs close :
  stream_ok max fs close -> map forward (stream_frames fs close) = stream_frames fs close.
Proof.
  intros [Hfs Hc]. unfold stream_frames. rewrite map_app. f_equal.
  - induction Hfs as [|f fs Hf Hfs IH]; [done|]. cbn [map]. by rewrite IH, (message_forward max).
  - destruct close as [[c junk]|]; [|done]. destruct Hc as [_ Hop]. unfold content, forward. simpl. by rewrite Hop.
Qed.

Lemma stream_written max fs close :
  stream_ok max fs close ->
  written (stream_frames fs close) = Ok (concat (map unmasked (stream_frames fs close))).
Proof.
  intros [Hfs Hc].
  assert (Hall : Forall (fun f => 0 <= fst f < 16 /\ zlen (snd f) < 2 ^ 64) (stream_frames fs close)).
  { unfold stream_frames. apply Forall_app. split.
    - clear Hc. induction Hfs as [|f fs (Hf & _) Hfs IH]; constructor; [|done].
      destruct Hf as (? & ? & ? & _). simpl. lia.
    - destruct close as [[c junk]|]; [|constructor]. destruct Hc as [(? & ? & ? & _) _].
      repeat constructor; simpl; lia. }
  induction Hall as [|[op p] l [Hop Hp] Hl IH]; [done|]. cbn [written map concat fst snd] in *.
  rewrite send_ws_frame by done. cbn [rbind]. rewrite IH. done.
Qed.


(** ** Interleaved directions *)

(** One direction: what was read is what was written and what is left. *)
Definition dir_ok (max : Z) (e : ending) (buf0 buf : bytes) (goes_on : bool) (out : list (Z * bytes))
    : Prop :=
  if goes_on then map forward (frames max e buf0) = out ++ map forward (frames max e buf)
  else out `prefix_of` map forward (frames max e buf0).

Lemma turn_dir_ok max ok e buf0 buf out b o done goes_on :
  max < 2 ^ 64 -> dir_ok max e buf0 buf true out -> relay_turn max ok e buf = (b, o, done, goes_on) ->
  dir_ok max e buf0 b goes_on (out ++ option_list o).
Proof.
  unfold dir_ok, relay_turn. intros Hmax Hd Ht. rewrite Hd, frames_eq. clear Hd.
  destruct (read_frame max e buf) as [[[[op p]|] b']|x] eqn:Hr.
  - pose proof Hr as [_ Hp]%read_frame_shorter.
    assert (Hfw : snd (forward (op, p)) = p) by (unfold forward; repeat case_match; done).
    destruct (send_frame_Ok (fst (forward (op, p))) (snd (forward (op, p)))) as [fb Hs];
      [rewrite Hfw; lia|]. rewrite Hs in Ht. cbn [fst].
    destruct ok; [destruct (op =? OP_CLOSE)|]; simplify_eq; cbn [option_list map].
    + by rewrite app_nil_r || done.
    + by rewrite <- app_assoc.
    + rewrite app_nil_r. by apply prefix_app_r.
  - simplify_eq. simpl. by rewrite !app_nil_r.
  - simplify_eq. simpl. by rewrite !app_nil_r.
Qed.

Definition not_ping (f : Z * bytes) : bool := negb (fst f =? OP_PING).

Lemma forward_not_ping f : not_ping (forward f) = true.
Proof.
  destruct f as [op p]. unfold not_ping, forward.
  destruct (Z.eqb_spec op OP_CLOSE); [done|]. destruct (Z.eqb_spec op OP_PING); [done|].
  destruct (Z.eqb_spec op OP_PONG); [done|]. simpl. by rewrite (proj2 (Z.eqb_neq _ _)).
Qed.

Lemma turn_out max ok e buf b o done goes_on :
  relay_turn max ok e buf = (b, o, done, goes_on) -> o = None \/ exists f, o = Some (forward f).
Proof.
  unfold relay_turn. destruct (read_frame max e buf) as [[[[op p]|] b']|x].
  - destruct (send_frame _ _); [|intros [= _ <- _ _]; by left].
    destruct ok; [|intros [= _ <- _ _]; by left].
    destruct (op =? OP_CLOSE); intros Ho; right; exists (op, p); congruence.
  - intros [= _ <- _ _]. by left.
  - intros [= _ <- _ _]. by left.
Qed.

Lemma filter_forwards fs : List.filter not_ping (map forward fs) = map forward fs.
Proof.
  induction fs as [|f fs IH]; [done|]. cbn [map List.filter]. by rewrite forward_not_ping, IH.
Qed.

Lemma relay_prefixes max ec eu client upstream r :
  max < 2 ^ 64 ->
  rtc (ws_step max ec eu) (relay_start client upstream) r ->
  rl_to_client r `prefix_of` map forward (frames max eu upstream)
  /\ List.filter not_ping (rl_to_upstream r) `prefix_of` map forward (frames max ec client).
Proof.
  intros Hmax Hr.
  assert (Hinv : dir_ok max eu upstream (rl_upstream r) (rl_u2c r) (rl_to_client r)
    /\ dir_ok max ec client (rl_client r) (rl_c2u r) (List.filter not_ping (rl_to_upstream r))).
  { assert (Hgen : forall a b, rtc (ws_step max ec eu) a b ->
      dir_ok max eu upstream (rl_upstream a) (rl_u2c a) (rl_to_client a)
      /\ dir_ok max ec client (rl_client a) (rl_c2u a) (List.filter not_ping (rl_to_upstream a)) ->
      dir_ok max eu upstream (rl_upstream b) (rl_u2c b) (rl_to_client b)
      /\ dir_ok max ec client (rl_client b) (rl_c2u b) (List.filter not_ping (rl_to_upstream b))).
    { induction 1 as [|a b c Hs _ IH]; [done|]. intros [Hu Hc]. apply IH. clear IH.
      destruct Hs as [a ok Ha _|a ok Ha _|a ok Ha _].
      - unfold step_c2u. destruct (relay_turn max ok ec (rl_client a)) as [[[b' o] d] g] eqn:Ht.
        rewrite Ha in Hc. simpl. split; [done|].
        rewrite List.filter_app.
        replace (List.filter not_ping (option_list o)) with (option_list o);
          [by eapply turn_dir_ok|].
        destruct (turn_out _ _ _ _ _ _ _ _ Ht) as [-> | [f ->]]; [done|].
        change (List.filter not_ping (option_list (Some (forward f)))) with (List.filter not_ping (map forward [f])).
        by rewrite filter_forwards.
      - unfold step_u2c. destruct (relay_turn max ok eu (rl_upstream a)) as [[[b' o] d] g] eqn:Ht.
        rewrite Ha in Hu. simpl. split; [|done]. by eapply turn_dir_ok.
      - unfold step_ping. destruct ok; simpl; [|done]. rewrite List.filter_app. simpl.
        by rewrite app_nil_r. }
    by apply (Hgen _ _ Hr). }
  destruct Hinv as [Hu Hc]. unfold dir_ok in *. split.
  - destruct (rl_u2c r); [rewrite Hu; by apply prefix_app_r|done].
  - destruct (rl_c2u r); [rewrite Hc; by apply prefix_app_r|done].
Qed.

(** The pings written are those of the ping loop, which carry nothing. *)
Lemma pings_empty max ec eu client upstream r :
  rtc (ws_step max ec eu) (relay_start client upstream) r ->
  Forall (fun f => not_ping f = true \/ f = (OP_PING, [])) (rl_to_upstream r).
Proof.
  assert (Hgen : forall a b, rtc (ws_step max ec eu) a b ->
    Forall (fun f => not_ping f = true \/ f = (OP_PING, [])) (rl_to_upstream a) ->
    Forall (fun f => not_ping f = true \/ f = (OP_PING, [])) (rl_to_upstream b)).
  { induction 1 as [|a b c Hs _ IH]; [done|]. intros Ha. apply IH. clear IH.
    destruct Hs as [a ok _ _|a ok _ _|a ok _ _].
    - unfold step_c2u. destruct (relay_turn max ok ec (rl_client a)) as [[[b' o] d] g] eqn:Ht. simpl.
      apply Forall_app. split; [done|].
      destruct (turn_out _ _ _ _ _ _ _ _ Ht) as [-> | [f ->]]; [constructor|].
      apply Forall_singleton. left. apply forward_not_ping.
    - unfold step_u2c. by destruct (relay_turn max ok eu (rl_upstream a)) as [[[b' o] d] g].
    - unfold step_ping. destruct ok; [|done]. simpl. apply Forall_app. split; [done|].
      apply Forall_singleton. by right. }
  intros Hr. by apply (Hgen _ _ Hr).
Qed.


(** ** Where the code departs from the protocol *)

(** A fragment of a message ([FIN] clear) is sent on as a whole message. *)
Lemma fragments_become_messages op payload max e rest :
  frame_ok op None payload max -> op <> OP_CLOSE -> op <> OP_PING ->
  relay_turn max true e (ws_frame false op None payload ++ rest) = (rest, Some (op, payload), false, true)
  /\ send_frame op payload = Ok (ws_frame true op None payload).
Proof.
  intros Hf Hc Hp. pose proof Hf as (Hop & Hm & H64 & _).
  assert (Hs : send_frame op payload = Ok (ws_frame true op None payload))
    by (apply send_ws_frame; lia).
  split; [|done]. unfold relay_turn. rewrite read_ws_frame by done.
  assert (Hfw : forward (op, payload) = (op, payload)).
  { unfold forward. rewrite !(proj2 (Z.eqb_neq op _)) by done.
    by destruct (Z.eqb_spec op OP_PONG) as [->|]. }
  rewrite Hfw. cbn [fst snd]. rewrite Hs. by rewrite (proj2 (Z.eqb_neq op _)).
Qed.

(** A ping is answered with a pong to the other side, not to the sender. *)
Lemma ping_goes_across payload : forward (OP_PING, payload) = (OP_PONG, payload).
Proof. reflexivity. Qed.
End Relay.

Section UpgradeFacts.
Context {U : Unicode} (sha1 : bytes -> bytes).

(** Against an upstream that accepts the upgrade with the right key (or with
    none), the client is sent the hash of the accept key instead of the
    accept key: [perform_upgrade], which computes the accept key of its
    argument, is called with an accept key. *)
Lemma accept_hashed_twice key proto max data rest line0 lines ver code l accept p own :
  split (utf8_replace data) CRLF None = line0 :: lines ->
  split line0 (py " ") (Some 2%nat) = ver :: code :: l ->
  int_of_str code = Some 101 ->
  foldl response_header ([], []) lines = (accept, p) ->
  compute_accept_key sha1 key = Ok own -> accept = [] \/ accept = own ->
  upgrade_response sha1 key proto max data rest =
    match perform_upgrade sha1 own (match p with [] => proto | _ => Some p end) with
    | Ok b => UpRelay b max rest
    | Err x => UpRaise [] x
    end.
Proof.
  intros H1 H2 H3 H4 H5 H6. unfold upgrade_response. rewrite H1, H2, H3. cbn [negb Z.eqb Pos.eqb].
  rewrite H4, H5. cbn [rbind]. replace (choose_accept own accept) with own; [done|].
  unfold choose_accept. destruct H6 as [-> | ->]; [done|]. destruct own; [done|].
  unfold str_eqb. by rewrite bool_decide_true.
Qed.

(** A response other than 101 reaches the client, and then the handler fails:
    it awaits the result of [write]. *)
Lemma refused_upgrade_raises key proto max data rest line0 lines ver code l n :
  split (utf8_replace data) CRLF None = line0 :: lines ->
  split line0 (py " ") (Some 2%nat) = ver :: code :: l ->
  int_of_str code = Some n -> n <> 101 ->
  upgrade_response sha1 key proto max data rest = UpRaise data (Exc CTypeError []).
Proof.
  intros H1 H2 H3 Hn. unfold upgrade_response. rewrite H1, H2, H3.
  by rewrite (proj2 (Z.eqb_neq _ _)).
Qed.
End UpgradeFacts.

(** ** Concrete runs *)

Definition masked_text : bytes := ws_frame false OP_TEXT (Some [1; 2; 3; 4]) (py "hello").
Definition close_bytes : bytes := ws_frame true OP_CLOSE None [3; 232].


Definition hello_frames : list wframe := [mkWframe (Some [1; 2; 3; 4]) OP_TEXT (py "hello")].
Definition bye : option (wframe * bytes) := Some (mkWframe None OP_CLOSE [3; 232], [129; 5]).

Lemma hello_ok max : 100 <= max < 2 ^ 64 -> stream_ok max hello_frames bye.
Proof.
  intros Hm. split; [apply Forall_singleton; split; [|done]|split; [|done]];
    (split_and!; [done|done|unfold zlen; simpl; lia|lia|done]).
Qed.


Definition run_relay : WsRelay :=
  step_u2c true 100 true AtEof (step_ping true (step_c2u true 100 true AtEof
    (relay_start (stream_bytes hello_frames bye) (stream_bytes [] bye)))).

End WebSocket.
