(* ===== verification/Connection.v ===== *)
(** * The proxy's requests from end to end (src/proxy/connection.py and
      src/proxy/compression.py)

    [Http] parses requests and renders; this file is the rest of
    [Connection]: the choice of an upstream server and the connection to it,
    the response that is read from it, compression, static files, one turn of
    [handle] that puts them together, and the loop over the client's bytes.

    A reader is the bytes that will still arrive and what follows them
    ([ending]); an outcome [None] means that the call never returns.  The file
    system, [mimetypes.guess_type] and zlib are parameters. *)

From S2P Require Import Prelude PyStr LoadBalancer HealthCheck Status Http WebSocket.
Import LoadBalancer HealthCheck Http WebSocket.

Module Connection.

(** ** Reading the upstream's response *)

(** [reader.readline()]; a line beyond the limit is a [ValueError]. *)
Definition readline (e : ending) (buf : bytes) : option (result (bytes * bytes)) :=
  match find buf [10] with
  | Some i => if (STREAM_LIMIT <? i)%nat then Some (raise CValueError [])
              else Some (Ok (take (i + 1) buf, drop (i + 1) buf))
  | None =>
      if (STREAM_LIMIT <? length buf)%nat then Some (raise CValueError [])
      else match e with AtEof => Some (Ok (buf, [])) | Silent => None end
  end.

(** The same with a timeout. *)
Definition readline_timeout (e : ending) (buf : bytes) : result (bytes * bytes) :=
  match readline e buf with Some r => r | None => raise CTimeoutError [] end.

Section Connection.
Context {U : Unicode}.

(** [_read_chunked_body]: the body and the rest of the stream.  Each turn reads
    a line, so that the length of the stream is fuel enough. *)
Fixpoint read_chunked_body (fuel : nat) (e : ending) (buf acc : bytes) : option (result (bytes * bytes)) :=
  match fuel with
  | O => None
  | S fuel' =>
      match readline_timeout e buf with
      | Err x => Some (Err x)
      | Ok (line, buf1) =>
          match int16_of_bytes line with
          | None => Some (Ok (acc, buf1))
          | Some n =>
              if n =? 0 then
                match readline e buf1 with
                | Some (Ok (_, buf2)) => Some (Ok (acc, buf2))
                | Some (Err x) => Some (Err x)
                | None => None
                end
              else if n + 2 <? 0 then Some (raise CValueError [])
              else
                match readexactly e (Z.to_nat (n + 2)) buf1 with
                | Err x => Some (Err x)
                | Ok (chunk, buf2) => read_chunked_body fuel' e buf2 (acc ++ take (length chunk - 2) chunk)
                end
          end
      end
  end.

(** [_read_upstream_response]. *)
Definition read_upstream_response (fuel : nat) (e : ending) (buf : bytes) : option (result (HttpResponse * bytes)) :=
  match readuntil e buf with
  | Err x => Some (Err x)
  | Ok (data, rest) =>
      let lines := split (utf8_replace data) CRLF None in
      let parts := split (hd [] lines) (py " ") (Some 2%nat) in
      match (match parts with _ :: code :: _ => int_of_str code | _ => Some 200 end) with
      | None => Some (raise CValueError [])
      | Some st =>
          let reason := match parts with _ :: _ :: r :: _ => r | _ => py "OK" end in
          let hs := foldl add_header [] (tail lines) in
          match int_of_str (header hs (py "content-length") (py "0")) with
          | None => Some (raise CValueError [])
          | Some cl =>
              if cl >? 0 then
                Some (let? (b, rest') := readexactly e (Z.to_nat cl) rest in
                      Ok (mkResponse st reason hs b, rest'))
              else if is_chunked hs then
                match read_chunked_body fuel e rest [] with
                | None => None
                | Some r => Some (let? (b, rest') := r in Ok (mkResponse st reason hs b, rest'))
                end
              else Some (Ok (mkResponse st reason hs [], rest))
          end
      end
  end.

(** ** Compression *)

Definition COMPRESSIBLE_TYPES : list str :=
  map py ["text/html"; "text/css"; "text/plain"; "text/xml"; "text/javascript"; "application/javascript";
          "application/json"; "application/xml"; "application/xhtml+xml"; "image/svg+xml"]%string.

Record GzipCompressor := mkGzip { gz_level : Z; gz_min_length : Z }.

Definition should_compress (content_type accept_encoding : str) : bool :=
  if str_eqb accept_encoding [] || negb (contains (lower_str accept_encoding) (py "gzip")) then false
  else if negb (str_eqb content_type [])
          && negb (bool_decide (strip (hd [] (split content_type (py ";") None)) ∈ COMPRESSIBLE_TYPES))
  then false else true.

(** [zlib_gzip level data] is what the compressor object returns. *)
Definition compress (zlib_gzip : Z -> bytes -> bytes) (g : GzipCompressor) (data : bytes) : bytes :=
  if zlen data <? gz_min_length g then data else zlib_gzip (gz_level g) data.

Definition apply_compression (zlib_gzip : Z -> bytes -> bytes) (g : option GzipCompressor) (loc : LocationBlock)
    (r : HttpRequest) (resp : HttpResponse) : HttpResponse :=
  match g with
  | Some g =>
      if loc_compress loc
         && should_compress (header (resp_headers resp) (py "content-type") [])
              (header (headers r) (py "accept-encoding") []) then
        let compressed := compress zlib_gzip g (resp_body resp) in
        if zlen compressed <? zlen (resp_body resp) then
          mkResponse (status resp) (reason resp)
            (dset (dset (resp_headers resp) (py "content-encoding") (py "gzip"))
               (py "content-length") (dec (zlen compressed))) compressed
        else resp
      else resp
  | None => resp
  end.

(** ** Static files *)

(** [os.path.join(a, b)] of two parts. *)
Definition path_join (a b : str) : str :=
  if startswith b (py "/") then b
  else match List.last a 0 with
       | 47 => a ++ b
       | _ => match a with [] => b | _ => a ++ py "/" ++ b end
       end.

(** The loop of [posixpath.normpath] over the components, the result so far
    in reverse. *)
Definition norm_step (rooted : bool) (acc : list str) (comp : str) : list str :=
  if str_eqb comp [] || str_eqb comp (py ".") then acc
  else if negb (str_eqb comp (py ".."))
          || match acc with [] => negb rooted | c :: _ => str_eqb c (py "..") end
  then comp :: acc
  else tail acc.

Definition initial_slashes (p : str) : nat :=
  if negb (startswith p (py "/")) then 0
  else if startswith p (py "//") && negb (startswith p (py "///")) then 2 else 1.

Definition norm_comps (p : str) : list str :=
  rev (foldl (norm_step (negb (Nat.eqb (initial_slashes p) 0))) [] (split p (py "/") None)).

Definition normpath (p : str) : str :=
  match p with
  | [] => py "."
  | _ =>
      match replicate (initial_slashes p) 47 ++ join (py "/") (norm_comps p) with
      | [] => py "."
      | q => q
      end
  end.

(** What a path of the file system is. *)
Inductive node := File (content : bytes) | Unreadable | Dir | Missing.

Definition is_file (n : node) : bool := match n with File _ | Unreadable => true | _ => false end.

Definition text_response (code : Z) (why : str) : HttpResponse :=
  mkResponse code why [(py "content-type", py "text/plain"); (py "connection", py "close")]
    (dec code ++ py " " ++ why).

(** The file the request maps to, before the check. *)
Definition static_path (p root : str) (loc : LocationBlock) : str :=
  let relative :=
    if startswith p (loc_path loc) then drop (length (loc_path loc)) p
    else lstrip_with (fun c => c =? 47) p in
  let relative := if str_eqb relative [] || str_eqb relative (py "/") then py "index.html" else relative in
  normpath (path_join root (lstrip_with (fun c => c =? 47) relative)).

(** The file that is opened, if any: inside the root by the check of the
    prefix, with [index.html] for a directory. *)
Inductive chosen := Forbidden | NotFound | Opens (filepath : str).

Definition choose_file (fs : str -> node) (p root : str) (loc : LocationBlock) : chosen :=
  let filepath := static_path p root loc in
  if negb (startswith filepath (normpath root)) then Forbidden
  else if is_file (fs filepath) then Opens filepath
  else
    let filepath' := match fs filepath with Dir => path_join filepath (py "index.html") | _ => filepath end in
    if is_file (fs filepath') then Opens filepath' else NotFound.

Definition serve_static_file (fs : str -> node) (guess_type : str -> option str)
    (p root : str) (loc : LocationBlock) : HttpResponse :=
  match choose_file fs p root loc with
  | Forbidden => text_response 403 (py "Forbidden")
  | NotFound => text_response 404 (py "Not Found")
  | Opens filepath =>
      match fs filepath with
      | File content =>
          mkResponse 200 (py "OK")
            [(py "content-type", match guess_type filepath with
                                 | Some t => t
                                 | None => py "application/octet-stream"
                                 end);
             (py "content-length", dec (zlen content));
             (py "cache-control", if loc_cache_ttl loc >? 0 then py "max-age=" ++ dec (loc_cache_ttl loc)
                                  else py "no-cache")] content
      | _ => text_response 403 (py "Forbidden")
      end
  end.

(** ** Upstream servers *)

Record Proxy := mkProxy {
  px_locations : list LocationBlock;
  px_upstreams : list (str * list UpstreamServer);
  px_balancers : list (str * Balancer);
  px_monitor : option HealthMonitor;
  px_compressor : option GzipCompressor
}.

Definition set_balancer (name : str) (b : Balancer) (px : Proxy) : Proxy :=
  mkProxy (px_locations px) (px_upstreams px) (dset (px_balancers px) name b) (px_monitor px) (px_compressor px).
Definition set_monitor (m : option HealthMonitor) (px : Proxy) : Proxy :=
  mkProxy (px_locations px) (px_upstreams px) (px_balancers px) m (px_compressor px).

(** [balancer.increment] and [decrement], where there are any. *)
Definition bal_increment (b : Balancer) (s : UpstreamServer) : Balancer :=
  match b with LeastConnBalancer c => LeastConnBalancer (increment c s) | _ => b end.
Definition bal_decrement (b : Balancer) (s : UpstreamServer) : Balancer :=
  match b with LeastConnBalancer c => LeastConnBalancer (decrement c s) | _ => b end.

(** What the world does during a turn: the hash and the draw for the
    balancers, the clock, whether the connection succeeds, whether the request
    can be written, and what the upstream sends. *)
Record World := mkWorld {
  w_md5 : bytes -> Z;
  w_draw : Z;
  w_now : time;
  w_connects : bool;
  w_write : result unit;
  w_reply : ending * bytes;
  w_fs : str -> node;
  w_guess : str -> option str;
  w_gzip : Z -> bytes -> bytes
}.

(** [_connect_upstream]: the server, or [None] when the client was sent 502. *)
Definition connect_upstream (w : World) (r : HttpRequest) (loc : LocationBlock) (px : Proxy)
    : result (option UpstreamServer) * Proxy :=
  match dget (px_upstreams px) (loc_upstream loc), dget (px_balancers px) (loc_upstream loc) with
  | Some servers, Some b =>
      let (choice, b1) := select (w_md5 w) (w_draw w) b servers (client_ip r) in
      let px1 := set_balancer (loc_upstream loc) b1 px in
      match choice with
      | Err x => (Err x, px1)
      | Ok None => (Ok None, px1)
      | Ok (Some s) =>
          if w_connects w then
            let px2 := set_monitor ((fun m => record_success m (us_host s) (us_port s)) <$> px_monitor px1) px1 in
            (Ok (Some s), set_balancer (loc_upstream loc) (bal_increment b1 s) px2)
          else
            (Ok None,
             set_monitor ((fun m => record_failure m (us_host s) (us_port s) (w_now w)) <$> px_monitor px1) px1)
      end
  | _, _ => (Ok None, px)
  end.

(** [_forward_request]: what is written to the upstream, the response, and the
    state after the [finally] clause. *)
Definition forward_request (w : World) (fuel : nat) (r : HttpRequest) (s : UpstreamServer) (loc : LocationBlock)
    (px : Proxy) : option (result HttpResponse) * Proxy :=
  let px' :=
    match dget (px_balancers px) (loc_upstream loc) with
    | Some b => set_balancer (loc_upstream loc) (bal_decrement b s) px
    | None => px
    end in
  match (let? _ := upstream_request r s in w_write w) with
  | Err x => (Some (Err x), px')
  | Ok _ =>
      match read_upstream_response fuel (fst (w_reply w)) (snd (w_reply w)) with
      | None => (None, px)                     (* still waiting *)
      | Some (Err x) => (Some (Err x), px')
      | Some (Ok (resp, _)) => (Some (Ok (apply_compression (w_gzip w) (px_compressor px) loc r resp)), px')
      end
  end.

(** ** One request *)

(** How a turn of [handle] ends: with what was written to the client the loop
    goes on or the connection is closed; or an exception closes it; or it is a
    WebSocket from now on; or it waits for ever. *)
Inductive turn_end :=
  | Next (written : bytes)
  | Last (written : bytes)
  | Fails (x : exc)
  | Upgraded (u : upgrade)
  | Hangs.

Definition reply (r : HttpRequest) (written : result bytes) : turn_end :=
  match written with
  | Err x => Fails x
  | Ok b => if is_keepalive r then Next b else Last b
  end.

Definition handle_turn (sha1 : bytes -> bytes) (w : World) (fuel : nat) (r : HttpRequest) (px : Proxy)
    : turn_end * Proxy :=
  match match_route (px_locations px) (path r) with
  | None => (reply r (send_error 404 (py "Not Found")), px)
  | Some loc =>
      if negb (str_eqb (loc_root loc) []) && str_eqb (method r) (py "GET") then
        (reply r (send_response (serve_static_file (w_fs w) (w_guess w) (path r) (loc_root loc) loc)), px)
      else
        let (connected, px1) := connect_upstream w r loc px in
        match connected with
        | Err x => (Fails x, px1)
        | Ok None => (reply r (send_error 502 (py "Bad Gateway")), px1)
        | Ok (Some s) =>
            if loc_ws_enabled loc && is_websocket_upgrade (headers r) then
              (Upgraded (snd (handle_websocket_upgrade sha1 r loc (fst (w_reply w)) (snd (w_reply w)))), px1)
            else
              match forward_request w fuel r s loc px1 with
              | (None, px2) => (Hangs, px2)
              | (Some (Err x), px2) => (Fails x, px2)
              | (Some (Ok resp), px2) => (reply r (send_response resp), px2)
              end
        end
  end.

(** ** A connection *)

(** What [wait_for(reader.read(4096))] gives: data, of which none is the end
    of the stream, or a timeout. *)
Inductive arrival := Arrives (data : bytes) | TimedOut.

Definition with_client (ip : str) (r : HttpRequest) : HttpRequest :=
  mkRequest (method r) (path r) (version r) (headers r) (body r) ip.

(** [_read_request]: the request, if there is one, with the buffer of the
    parser and what has not been read yet; [None] while it waits. *)
Fixpoint read_request (fuel : nat) (ip : str) (buf : bytes) (l : list arrival)
    : option (result (option HttpRequest) * bytes * list arrival) :=
  match l with
  | [] => None
  | TimedOut :: l' => Some (Ok None, buf, l')
  | Arrives [] :: l' => Some (Ok None, buf, l')
  | Arrives data :: l' =>
      match feed fuel buf data with
      | None => None
      | Some (Err x, buf') => Some (Err x, buf', l')
      | Some (Ok (Some r), buf') => Some (Ok (Some (with_client ip r)), buf', l')
      | Some (Ok None, buf') => read_request fuel ip buf' l'
      end
  end.

(** How a connection stands: closed, with an exception at most, handed over to
    the WebSocket relay, or waiting for the client or the upstream. *)
Inductive conn_end := Closes | Relays (u : upgrade) | Waits.

(** [handle]; each turn has its [World]. *)
Fixpoint handle (sha1 : bytes -> bytes) (fuel : nat) (ip : str) (ws : list World) (buf : bytes)
    (l : list arrival) (px : Proxy) : bytes * conn_end * Proxy :=
  match ws with
  | [] => ([], Waits, px)
  | w :: ws' =>
      match read_request fuel ip buf l with
      | None => ([], Waits, px)
      | Some (Ok (Some r), buf', l') =>
          match handle_turn sha1 w fuel r px with
          | (Next b, px') =>
              let '(out, e, px'') := handle sha1 fuel ip ws' buf' l' px' in (b ++ out, e, px'')
          | (Last b, px') => (b, Closes, px')
          | (Fails _, px') => ([], Closes, px')
          | (Upgraded u, px') => ([], Relays u, px')
          | (Hangs, px') => ([], Waits, px')
          end
      | Some (_, _, _) => ([], Closes, px)
      end
  end.

(** ** Theorems *)

(** *** A connection as a series of requests *)

(** The same loop over requests instead of bytes. *)
Fixpoint handle_requests (sha1 : bytes -> bytes) (fuel : nat) (ws : list World) (rs : list HttpRequest) (px : Proxy)
    : bytes * conn_end * Proxy :=
  match ws, rs with
  | w :: ws', r :: rs' =>
      match handle_turn sha1 w fuel r px with
      | (Next b, px') =>
          let '(out, e, px'') := handle_requests sha1 fuel ws' rs' px' in (b ++ out, e, px'')
      | (Last b, px') => (b, Closes, px')
      | (Fails _, px') => ([], Closes, px')
      | (Upgraded u, px') => ([], Relays u, px')
      | (Hangs, px') => ([], Waits, px')
      end
  | _, _ => ([], Waits, px)
  end.

(** A well-formed request within the limit, and a way to send it in pieces. *)
Record sendable (r : HttpRequest) (pieces : list bytes) : Prop := {
  sd_ok : request_ok (method r) (path r) (version r) (headers r);
  sd_plain : is_chunked (headers r) = false;
  sd_length : content_length (headers r) = zlen (body r);
  sd_head : zlen (head_lines (method r) (path r) (version r) (headers r)) + 3 <= MAX_HEADER_SIZE;
  sd_pieces : concat pieces = render_request (method r) (path r) (version r) (headers r) (body r);
  sd_nonempty : Forall (fun d => d <> []) pieces
}.

Lemma read_pieces fuel ip r pieces l : forall pre todo,
  sendable r pieces -> pieces = pre ++ todo -> todo <> [] ->
  read_request fuel ip (concat pre) (map Arrives todo ++ l) = Some (Ok (Some (with_client ip r)), [], l).
Proof.
  intros pre todo [Hok Hch Hcl Hhd Hp Hne]. revert pre.
  induction todo as [|d todo IH]; intros pre Hd Ht; [done|].
  assert (Hdn : d <> []) by (rewrite Hd in Hne; apply Forall_app in Hne as [_ Hne]; by inversion Hne).
  cbn [map app read_request]. destruct d as [|c d]; [done|]. unfold feed.
  destruct todo as [|d' todo].
  - assert (Hw : concat pre ++ c :: d = render_request (method r) (path r) (version r) (headers r) (body r)).
    { rewrite <- Hp, Hd, concat_app. simpl. by rewrite app_nil_r. }
    rewrite Hw. unfold render_request. rewrite try_parse_head, Hcl by done.
    destruct (body r) as [|x b] eqn:Hb; [simpl; unfold with_client; by rewrite Hb|].
    rewrite (proj2 (Z.ltb_lt 0 _)) by (unfold zlen; simpl; lia). rewrite Z.ltb_irrefl.
    unfold zlen. rewrite Nat2Z.id, firstn_all, drop_all. simpl. unfold with_client. by rewrite Hb.
  - erewrite (try_parse_prefix fuel _ _ _ _ (body r) (concat pre ++ c :: d) (concat (d' :: todo))); try done.
    + specialize (IH (pre ++ [c :: d])). rewrite concat_app in IH. cbn [concat] in IH. rewrite app_nil_r in IH.
      apply IH; [|done]. by rewrite Hd, <- app_assoc.
    + rewrite <- Hp, Hd, concat_app. cbn [concat]. by rewrite <- app_assoc.
    + rewrite Hd in Hne. apply Forall_app in Hne as [_ Hne]. inversion Hne as [|?? _ Hne']; subst.
      inversion Hne'; subst. by destruct d'.
Qed.

(** C21 A connection at the level of bytes does what a loop over the requests does: when a client sends well-formed requests, each cut into any non-empty pieces, the proxy answers them one after the other, in order, up to the first that ends the connection, and every request is seen with its method, path, version, headers and body. *)
Theorem connection_refines_requests sha1 fuel ip rqs ws px :
  Forall (fun rq => sendable (fst rq) (snd rq)) rqs ->
  handle sha1 fuel ip ws [] (concat (map (fun rq => map Arrives (snd rq)) rqs)) px
  = handle_requests sha1 fuel ws (map (fun rq => with_client ip (fst rq)) rqs) px.
Proof.
  intros Hs. revert ws px. induction Hs as [|[r pieces] rqs Hr Hs IH]; intros ws px; [by destruct ws|].
  destruct ws as [|w ws]; [done|]. cbn [map concat fst snd handle handle_requests] in *.
  assert (Hne : pieces <> []).
  { intros ->. destruct Hr as [_ _ _ _ Hp _]. unfold render_request in Hp. simpl in Hp.
    symmetry in Hp. apply app_nil in Hp as [_ Hp]. done. }
  pose proof (read_pieces fuel ip r pieces (concat (map (fun rq => map Arrives (snd rq)) rqs)) [] pieces Hr eq_refl Hne) as Hread.
  cbn [concat] in Hread. rewrite Hread.
  destruct (handle_turn sha1 w fuel (with_client ip r) px) as [[| | | |] px']; try done. by rewrite IH.
Qed.

(** *** Responses *)

Lemma utf8_encode_ascii s : is_ascii s -> utf8_encode s = Some s.
Proof.
  induction 1 as [|c s Hc Hs IH]; [done|]. simpl. unfold utf8_char. decide_Z. rewrite IH. done.
Qed.
Lemma encode_ascii s : is_ascii s -> encode s = Ok s.
Proof. intros H. unfold encode. by rewrite utf8_encode_ascii. Qed.

(** The headers that [_send_response] sends. *)
Definition sent_headers (hs : list (str * str)) (b : bytes) : list (str * str) :=
  set_default (set_default (set_default hs (py "content-length") (dec (zlen b)))
    (py "server") (py "LocalNetworkProxy/0.1.0")) (py "connection") (py "keep-alive").

Lemma render_eq m p v hs b :
  render_request m p v hs b = request_line m p v ++ CRLF ++ header_lines hs ++ b.
Proof.
  unfold render_request, head_lines, header_lines.
  assert (H : forall x l, join CRLF (x :: map header_line l) ++ CRLF
    = x ++ CRLF ++ concat (map (fun kv => fst kv ++ py ": " ++ snd kv ++ CRLF) l)).
  { intros x l. revert x. induction l as [|[k w] l IH]; intros x; [by rewrite app_nil_r|].
    cbn [map concat]. change (join CRLF (x :: header_line (k, w) :: map header_line l))
      with (x ++ CRLF ++ join CRLF (header_line (k, w) :: map header_line l)).
    rewrite <- !app_assoc, IH. unfold header_line. cbn [fst snd]. by rewrite <- !app_assoc. }
  change (CRLF2 ++ b) with (CRLF ++ CRLF ++ b). rewrite app_assoc, H, <- !app_assoc. done.
Qed.

Record response_ok (version : str) (st : Z) (why : str) (hs : list (str * str)) : Prop := {
  rok_head : request_ok version (dec st) why hs;
  rok_status : 0 <= st
}.

(** A response with a [content-length] is read back. *)
Lemma response_read fuel e v st why hs b rest :
  response_ok v st why hs ->
  int_of_str (header hs (py "content-length") (py "0")) = Some (zlen b) ->
  (b = [] -> is_chunked hs = false) ->
  (length (head_lines v (dec st) why hs) <= STREAM_LIMIT)%nat ->
  read_upstream_response fuel e (render_request v (dec st) why hs b ++ rest)
  = Some (Ok (mkResponse st why hs b, rest)).
Proof.
  intros [Hok Hst] Hcl Hch Hlim. destruct (head_facts _ _ _ _ Hok) as (Hasc & Hcr & Hlines).
  destruct Hok as [_ _ (S1 & S2) Hup Hh Hd].
  unfold read_upstream_response, readuntil, render_request. rewrite <- !app_assoc.
  rewrite (find_head_end (request_line v (dec st) why) (map header_line hs)) by done.
  fold (head_lines v (dec st) why hs). rewrite (proj2 (Nat.ltb_ge _ _)) by done.
  set (head := head_lines v (dec st) why hs) in *.
  assert (Hdata : take (length head + 4) (head ++ CRLF2 ++ b ++ rest) = head ++ CRLF2).
  { rewrite app_assoc, take_app_length'; [done|]. by rewrite length_app. }
  assert (Hrest : drop (length head + 4) (head ++ CRLF2 ++ b ++ rest) = b ++ rest).
  { rewrite app_assoc, drop_app_length'; [done|]. by rewrite length_app. }
  rewrite Hdata, Hrest. rewrite utf8_replace_ascii.
  2: { unfold is_ascii in *. rewrite Forall_app. split; [done|]. repeat constructor; lia. }
  assert (Hsplit : split (head ++ CRLF2) CRLF None = (request_line v (dec st) why :: map header_line hs) ++ [[]; []]).
  { assert (Hj : head ++ CRLF2 = join CRLF ((request_line v (dec st) why :: map header_line hs) ++ [[]; []])).
    { unfold head, head_lines. generalize (request_line v (dec st) why) (map header_line hs). clear.
      intros x l. revert x. induction l as [|y l IH]; intros x; [done|].
      change (join CRLF (x :: y :: l)) with (x ++ CRLF ++ join CRLF (y :: l)).
      rewrite <- !app_assoc, IH. done. }
    rewrite Hj. unfold CRLF. cbn [app]. rewrite split_join; [done|].
    apply Forall_cons. split; [done|]. apply Forall_app. split; [|repeat constructor; set_solver].
    eapply Forall_impl; [exact Hlines|]. naive_solver. }
  rewrite Hsplit. cbn [app hd tail]. change (py " ") with [32]. rewrite split_request_line by done.
  rewrite int_of_str_dec by done. rewrite foldl_app, add_headers by done. cbn [app foldl].
  change (add_header hs []) with hs. change (add_header hs []) with hs. rewrite Hcl. destruct b as [|c b'].
  - rewrite Hch by done. done.
  - rewrite Z.gtb_ltb, (proj2 (Z.ltb_lt _ _)) by (unfold zlen; simpl; lia).
    unfold readexactly, zlen. rewrite Nat2Z.id.
    rewrite (proj2 (Nat.leb_le _ _)) by (rewrite length_app; lia).
    rewrite take_app_length, drop_app_length. done.
Qed.

Lemma set_default_get hs k v k' :
  dget (set_default hs k v) k' = if decide (k' = k) then Some (default v (dget hs k)) else dget hs k'.
Proof.
  unfold set_default, dmem. destruct (dget hs k) as [w|] eqn:Hk; simpl.
  - case_decide; [by subst|done].
  - rewrite dget_dset. repeat case_decide; by subst.
Qed.

Lemma set_default_ok hs k v : Forall header_ok hs -> header_ok (k, v) -> Forall header_ok (set_default hs k v).
Proof.
  intros Hh Hkv. unfold set_default, dmem. destruct (dget hs k) eqn:Hk; [done|].
  rewrite dset_new by done. by apply Forall_app; auto.
Qed.
Lemma set_default_dict hs k v : dict_ok hs -> dict_ok (set_default hs k v).
Proof. intros H. unfold set_default. destruct (dmem hs k); [done|by apply dict_ok_dset]. Qed.

Lemma dec_ascii n : is_ascii (dec n).
Proof.
  apply Forall_forall. intros c [H| ->]%dec_digit_or_minus; [|lia]. unfold is_digit in H. lia.
Qed.
Lemma strip_dec n : 0 <= n -> strip (dec n) = dec n.
Proof.
  intros Hn. apply strip_digits, Forall_forall. intros c Hc. unfold dec in Hc.
  rewrite (proj2 (Z.ltb_ge n 0)) in Hc by done. destruct (dec_nonneg_spec n Hn) as (_ & H & _).
  rewrite Forall_forall in H. by apply H.
Qed.

Lemma sent_headers_ok hs b : Forall header_ok hs -> Forall header_ok (sent_headers hs b).
Proof.
  intros H. unfold sent_headers. apply set_default_ok; [apply set_default_ok; [apply set_default_ok|]|].
  - done.
  - split_and!; simpl; [by_eval|apply dec_ascii|by_eval|by apply dec_not_in|by_eval|reflexivity|].
    apply strip_dec. unfold zlen. lia.
  - split_and!; simpl; try by_eval; reflexivity.
  - split_and!; simpl; try by_eval; reflexivity.
Qed.

(** The head is well formed after the defaults are set. *)
Lemma sent_response_ok v st why hs b :
  response_ok v st why hs -> response_ok (py "HTTP/1.1") st why (sent_headers hs b).
Proof.
  intros [[(A1 & A2 & A3) (C1 & C2 & C3) (S1 & S2) Hup Hh Hd] Hst]. split; [|done]. split.
  - split_and!; [by_eval|done|done].
  - split_and!; [by_eval|done|done].
  - split; [by_eval|done].
  - reflexivity.
  - by apply sent_headers_ok.
  - unfold sent_headers. by repeat apply set_default_dict.
Qed.

Lemma header_lines_ascii hs : Forall header_ok hs -> is_ascii (header_lines hs).
Proof.
  intros Hh. unfold header_lines, is_ascii. rewrite Forall_app. split; [|repeat constructor; lia].
  induction Hh as [|[k w] hs (H1 & H2 & _) Hh IH]; [constructor|]. cbn [map concat fst snd] in *.
  unfold is_ascii in *. rewrite !Forall_app. split_and!; try done; repeat constructor; lia.
Qed.

(** What is sent to the client, rendered. *)
Lemma send_response_render v st why hs b :
  response_ok v st why hs ->
  send_response (mkResponse st why hs b)
  = Ok (render_request (py "HTTP/1.1") (dec st) why (sent_headers hs b) b).
Proof.
  intros Hok. destruct (sent_response_ok v st why hs b Hok) as [[(A1 & A2 & A3) _ _ _ Hh _] _].
  unfold send_response. cbn [resp_headers resp_body status reason]. fold (sent_headers hs b).
  rewrite render_eq. unfold request_line.
  assert (Hline : is_ascii (py "HTTP/1.1 " ++ dec st ++ py " " ++ why ++ CRLF)).
  { unfold is_ascii in *. rewrite !Forall_app. split_and!; try done; try by_eval. }
  rewrite (encode_ascii _ Hline). cbn [rbind]. rewrite (encode_ascii _ (header_lines_ascii _ Hh)). cbn [rbind].
  f_equal. rewrite <- !app_assoc. done.
Qed.

(** A response that was sent is read back by the same reader. *)
Lemma sent_reads_back fuel e v st why hs b rest :
  response_ok v st why hs ->
  int_of_str (header hs (py "content-length") (py "0")) = Some (zlen b) -> (b = [] -> is_chunked hs = false) ->
  (length (head_lines (py "HTTP/1.1") (dec st) why (sent_headers hs b)) <= STREAM_LIMIT)%nat ->
  read_upstream_response fuel e (render_request (py "HTTP/1.1") (dec st) why (sent_headers hs b) b ++ rest)
  = Some (Ok (mkResponse st why (sent_headers hs b) b, rest)).
Proof.
  intros Hok Hcl Hch Hl. apply response_read; [by eapply sent_response_ok| | |done].
  - unfold header, sent_headers. rewrite !set_default_get.
    rewrite !decide_False by done. rewrite decide_True by done. unfold header in Hcl.
    destruct (dget hs (py "content-length")) as [w|]; simpl; [done|].
    apply int_of_str_dec. unfold zlen. lia.
  - intros Hb. specialize (Hch Hb). unfold is_chunked, header, sent_headers in *. rewrite !set_default_get.
    rewrite !decide_False by done. exact Hch.
Qed.

Lemma dset_ok (P : str * str -> Prop) hs k v : Forall P hs -> P (k, v) -> Forall P (dset hs k v).
Proof.
  intros Hh Hkv. induction Hh as [|[k0 v0] hs Hp Hh IH]; simpl; [by constructor|].
  case_decide as Hk; [subst k0|]; by constructor.
Qed.

(** What compression makes of a well-formed response is well formed. *)
Lemma gzip_response_ok v st why hs (b : bytes) :
  response_ok v st why hs ->
  response_ok v st why (dset (dset hs (py "content-encoding") (py "gzip")) (py "content-length") (dec (zlen b))).
Proof.
  intros [[H1 H2 H3 H4 Hh Hd] Hst]. split; [|done]. split; try done.
  - apply dset_ok; [apply dset_ok; [done|split_and!; simpl; try by_eval; reflexivity]|].
    split_and!; simpl; [by_eval|apply dec_ascii|by_eval|by apply dec_not_in|by_eval|reflexivity|].
    apply strip_dec. unfold zlen. lia.
  - by repeat apply dict_ok_dset.
Qed.

(** The client takes gzip and the response is of a type and at a location to
    compress: what [_forward_request] asks before it compresses. *)
Definition asks_gzip (g : option GzipCompressor) (loc : LocationBlock) (r : HttpRequest) (hs : list (str * str))
    : option GzipCompressor :=
  match g with
  | Some g' =>
      if loc_compress loc
         && should_compress (header hs (py "content-type") []) (header (headers r) (py "accept-encoding") [])
      then Some g' else None
  | None => None
  end.

Lemma apply_compression_cases zlib g loc r st why hs b :
  apply_compression zlib g loc r (mkResponse st why hs b) = mkResponse st why hs b
  \/ exists g', asks_gzip g loc r hs = Some g' /\ zlen (zlib (gz_level g') b) < zlen b
      /\ apply_compression zlib g loc r (mkResponse st why hs b)
        = mkResponse st why (dset (dset hs (py "content-encoding") (py "gzip"))
            (py "content-length") (dec (zlen (zlib (gz_level g') b)))) (zlib (gz_level g') b).
Proof.
  unfold apply_compression, asks_gzip. destruct g as [g'|]; [|by left]. cbn [resp_headers resp_body status reason].
  destruct (loc_compress loc && _); [|by left].
  destruct (Z.ltb_spec (zlen (compress zlib g' b)) (zlen b)) as [Hlt|]; [|by left]. right. exists g'.
  unfold compress in *. destruct (zlen b <? gz_min_length g'); [lia|]. by split_and!.
Qed.


(** A response that ends with its connection loses its body. *)
Lemma unframed_body_lost fuel e v st why hs b :
  response_ok v st why hs -> dget hs (py "content-length") = None -> is_chunked hs = false ->
  (length (head_lines v (dec st) why hs) <= STREAM_LIMIT)%nat ->
  read_upstream_response fuel e (render_request v (dec st) why hs b)
  = Some (Ok (mkResponse st why hs [], b)).
Proof.
  intros Hok Hcl Hch Hl. change (render_request v (dec st) why hs b) with (head_lines v (dec st) why hs ++ CRLF2 ++ b).
  pose proof (response_read fuel e v st why hs [] b Hok) as H. unfold render_request in H.
  rewrite <- !app_assoc in H. apply H; [|done|done]. unfold header. rewrite Hcl. reflexivity.
Qed.

(** *** Static files *)

(** Splitting at one character leaves no part that holds it. *)
Lemma find_char_spec s c :
  match find s [c] with
  | Some i => (c ∉ take i s) /\ (i < length s)%nat
  | None => c ∉ s
  end.
Proof.
  induction s as [|d s IH]; [vm_compute; set_solver|]. cbn [find startswith].
  destruct (Z.eqb_spec c d) as [<-|Hne]; [simpl; split; [set_solver|lia]|].
  cbn [andb]. destruct (find s [c]) as [i|]; simpl; [|set_solver].
  destruct IH. split; [set_solver|lia].
Qed.

Lemma split_no_sep c fuel s : (length s < fuel)%nat -> Forall (fun x => c ∉ x) (split_go fuel [c] s None).
Proof.
  revert s. induction fuel as [|fuel IH]; intros s Hf; [lia|]. cbn [split_go].
  pose proof (find_char_spec s c) as H. destruct (find s [c]) as [i|]; [|by constructor].
  destruct H as [Hc Hi]. constructor; [done|]. apply IH. rewrite length_drop. simpl. lia.
Qed.

(** A component as [normpath] leaves it in a rooted path. *)
Definition plain_comp (c : str) : Prop := (47 ∉ c) /\ c <> [] /\ c <> py "..".

Lemma norm_steps_plain comps acc :
  Forall (fun x => 47 ∉ x) comps -> Forall plain_comp acc ->
  Forall plain_comp (foldl (norm_step true) acc comps).
Proof.
  intros Hc. revert acc. induction Hc as [|x comps Hx Hc IH]; intros acc Ha; [done|]. cbn [foldl]. apply IH.
  unfold norm_step, str_eqb. case_bool_decide as H0; [done|]. cbn [orb].
  case_bool_decide; [done|]. case_bool_decide as Hdd; cbn [orb negb].
  - destruct acc as [|a acc]; [done|]. apply Forall_cons in Ha as [(H1 & H2 & H3) Ha].
    rewrite bool_decide_false by done. done.
  - constructor; [|done]. by split_and!.
Qed.

Lemma norm_comps_plain p : startswith p (py "/") = true -> startswith p (py "//") = false ->
  Forall plain_comp (norm_comps p) /\ normpath p = 47 :: join [47] (norm_comps p).
Proof.
  intros H1 H2. assert (Hi : initial_slashes p = 1%nat).
  { unfold initial_slashes. by rewrite H1, H2. }
  split.
  - unfold norm_comps. rewrite Hi. apply Forall_rev, norm_steps_plain; [|done].
    unfold split. apply split_no_sep. lia.
  - unfold normpath. destruct p as [|c p]; [done|]. rewrite Hi. done.
Qed.

Lemma app_first_sep (c : Z) l1 r1 l2 r2 :
  c ∉ l1 -> c ∉ l2 -> l1 ++ c :: r1 = l2 ++ c :: r2 -> l1 = l2 /\ r1 = r2.
Proof.
  revert l2. induction l1 as [|x l1 IH]; intros [|y l2] H1 H2 Heq; simplify_eq/=; [done|set_solver..|].
  destruct (IH l2) as [-> ->]; [set_solver|set_solver|done|done].
Qed.

(** A path whose text continues that of the root: the components of the root
    but the last, then one that continues the last. *)
Definition inside (root comps : list str) : Prop :=
  root = [] \/ exists r' r x rest, root = r' ++ [r] /\ comps = r' ++ x :: rest /\ startswith x r = true.

Lemma prefix_inside rs cs :
  Forall plain_comp rs -> Forall plain_comp cs ->
  startswith (join [47] cs) (join [47] rs) = true -> inside rs cs.
Proof.
  intros Hr. revert cs. induction Hr as [|r rs (Hr1 & Hr2 & _) Hrs IH]; intros cs Hc H; [by left|]. right.
  destruct cs as [|c cs]; [exfalso; destruct r as [|y r]; [done|]; destruct rs; discriminate H|].
  apply Forall_cons in Hc as [(Hc1 & Hc2 & _) Hc]. apply startswith_spec in H as [t Ht].
  destruct rs as [|r2 rs].
  - exists [], r, c, cs. split_and!; [done|done|]. apply startswith_spec.
    destruct cs as [|c2 cs]; [exists t; exact Ht|].
    change (join [47] (c :: c2 :: cs)) with (c ++ 47 :: join [47] (c2 :: cs)) in Ht.
    cbn [join] in Ht. apply app_eq_inv in Ht as [(k & -> & _)|(k & -> & Hk)]; [by exists k|].
    destruct k as [|y k]; [exists []; by rewrite !app_nil_r|]. cbn [app] in Hk. injection Hk as <- _.
    exfalso. apply Hr1, elem_of_app. right. by left.
  - change (join [47] (r :: r2 :: rs)) with (r ++ 47 :: join [47] (r2 :: rs)) in Ht.
    destruct cs as [|c2 cs].
    + exfalso. apply Hc1. cbn [join] in Ht. rewrite Ht, !elem_of_app. left. right. by left.
    + change (join [47] (c :: c2 :: cs)) with (c ++ 47 :: join [47] (c2 :: cs)) in Ht.
      rewrite <- app_assoc in Ht. cbn [app] in Ht.
      apply app_first_sep in Ht as [-> Ht]; [|done|done].
      destruct (IH (c2 :: cs) Hc) as [?|(r' & rr & x & rest & E1 & E2 & E3)];
        [by apply startswith_spec; exists t|done|].
      exists (r :: r'), rr, x, rest. rewrite E1, E2. done.
Qed.

Lemma last_app_ne {A} (a b : list A) d : b <> [] -> List.last (a ++ b) d = List.last b d.
Proof.
  intros Hb. induction a as [|x a IH]; [done|]. cbn [app]. rewrite <- IH.
  destruct (a ++ b) eqn:E; [|done]. apply app_eq_nil in E as [_ ?]. done.
Qed.

Lemma lstrip_head p (s : str) : match lstrip_with p s with [] => True | c :: _ => p c = false end.
Proof. induction s as [|c s IH]; simpl; [done|]. destruct (p c) eqn:H; [exact IH|done]. Qed.

(** The path under a rooted directory is rooted. *)
Lemma path_join_rooted root rel :
  startswith root (py "/") = true -> startswith root (py "//") = false ->
  match rel with [] => True | c :: _ => (c =? 47) = false end ->
  startswith (path_join root rel) (py "/") = true /\ startswith (path_join root rel) (py "//") = false.
Proof.
  intros H1 H2 H3. unfold path_join. change (py "/") with [47] in *. change (py "//") with [47; 47] in *.
  assert (Hrel : startswith rel [47] = false).
  { destruct rel as [|c rel]; [done|]. cbn [startswith]. rewrite Z.eqb_sym, H3. done. }
  rewrite Hrel. destruct root as [|c [|d root]]; [done| |].
  - cbn [startswith] in H1. rewrite andb_true_r in H1. apply Z.eqb_eq in H1 as <-.
    match goal with |- startswith ?q _ = true /\ _ => change q with (47 :: rel) end.
    split; [done|]. destruct rel as [|x rel]; [done|]. cbn [startswith]. rewrite (Z.eqb_sym 47 x), H3. done.
  - assert (Ha : forall t, startswith ((c :: d :: root) ++ t) [47] = true
      /\ startswith ((c :: d :: root) ++ t) [47; 47] = false).
    { intros t. cbn [startswith app] in *. done. }
    repeat case_match; apply Ha.
Qed.

(** Every file that is opened continues the text of the root's path: its
    components are those of the root but the last, then one that begins with
    the last, none of them goes up; or it is the [index.html] of such a
    directory.  What was checked exists. *)
Lemma choose_file_inside fs p root loc f :
  startswith root (py "/") = true -> startswith root (py "//") = false ->
  choose_file fs p root loc = Opens f ->
  exists comps, (f = 47 :: join [47] comps \/ f = 47 :: join [47] (comps ++ [py "index.html"]))
    /\ Forall plain_comp comps /\ inside (norm_comps root) comps
    /\ fs (47 :: join [47] comps) <> Missing.
Proof.
  intros H1 H2 Hf. unfold choose_file in Hf.
  destruct (startswith (static_path p root loc) (normpath root)) eqn:Hpre; [|done]. cbn [negb] in Hf.
  set (sp := static_path p root loc) in *.
  assert (Hsp : exists comps, sp = 47 :: join [47] comps /\ Forall plain_comp comps).
  { unfold sp, static_path. match goal with |- context [path_join root ?r] => set (rel := r) end.
    destruct (path_join_rooted root rel H1 H2 (lstrip_head _ _)) as [J1 J2].
    destruct (norm_comps_plain _ J1 J2) as [Hplain Hnorm]. eexists. by split. }
  destruct Hsp as (comps & Hsp & Hplain). exists comps.
  assert (Hin : inside (norm_comps root) comps).
  { destruct (norm_comps_plain root H1 H2) as [Hr Hn]. apply prefix_inside; [done|done|].
    rewrite Hsp, Hn in Hpre. cbn [startswith] in Hpre. by rewrite Z.eqb_refl in Hpre. }
  assert (Hex : fs (47 :: join [47] comps) <> Missing).
  { rewrite <- Hsp. intros Hm. rewrite Hm in Hf. simpl in Hf. by rewrite Hm in Hf. }
  split_and!; [|done|done|done]. destruct (is_file (fs sp)); [injection Hf as <-; by left|].
  destruct (is_file _); [|done]. injection Hf as <-. destruct (fs sp); try (by left). right.
  rewrite Hsp. destruct comps as [|c comps]; [done|].
  assert (Hl : List.last (47 :: join [47] (c :: comps)) 0 <> 47).
  { clear -Hplain. revert c Hplain. induction comps as [|c2 comps IH]; intros c Hp.
    - apply Forall_cons in Hp as [(Hc & Hne & _) _]. cbn [join].
      destruct c as [|x c] using rev_ind; [done|]. change (47 :: c ++ [x]) with ((47 :: c) ++ [x]).
      rewrite last_last. intros ->. apply Hc, elem_of_app. right. by left.
    - apply Forall_cons in Hp as [_ Hp]. specialize (IH c2 Hp).
      change (47 :: join [47] (c :: c2 :: comps)) with ((47 :: c) ++ (47 :: join [47] (c2 :: comps))).
      rewrite last_app_ne; done. }
  unfold path_join. change (startswith (py "index.html") (py "/")) with false. cbn [negb].
  assert (Hj : 47 :: join [47] ((c :: comps) ++ [py "index.html"]) = (47 :: join [47] (c :: comps)) ++ py "/" ++ py "index.html").
  { clear. cbn [app]. f_equal. revert c. induction comps as [|c2 comps IH]; intros c; [done|].
    change (join [47] (c :: (c2 :: comps) ++ [py "index.html"])) with (c ++ 47 :: join [47] (c2 :: comps ++ [py "index.html"])).
    change (join [47] (c :: c2 :: comps)) with (c ++ 47 :: join [47] (c2 :: comps)).
    rewrite IH, <- app_assoc. done. }
  rewrite Hj. destruct (List.last _ 0) as [|q|q]; [done| |done].
  repeat (destruct q as [q|q|]; try done).
Qed.

(** Nothing beside the root has a name that begins with the root's name. *)
Definition lone_root (fs : str -> node) (root : str) : Prop :=
  forall r' r x rest, norm_comps root = r' ++ [r] -> 47 ∉ x -> startswith x r = true -> x <> r ->
    fs (47 :: join [47] (r' ++ x :: rest)) = Missing.

(** C24 Directory traversal is prevented: with an absolute root (one leading
    slash) and no neighbour of it whose name begins with its name, whatever
    path is requested, the file that is opened lies under the root: its path
    is that of the root followed by components of which none is empty, holds
    a slash or goes up. *)
Theorem static_confined fs p root loc f :
  startswith root (py "/") = true -> startswith root (py "//") = false -> lone_root fs root ->
  choose_file fs p root loc = Opens f ->
  exists rest, f = 47 :: join [47] (norm_comps root ++ rest) /\ Forall plain_comp (norm_comps root ++ rest).
Proof.
  intros H1 H2 Hlone Hf. destruct (choose_file_inside fs p root loc f H1 H2 Hf) as (comps & Hp & Hplain & Hin & Hex).
  assert (Hunder : exists rest, comps = norm_comps root ++ rest).
  { destruct Hin as [->|(r' & r & x & rest & Hr & -> & Hx)]; [by exists comps|].
    destruct (decide (x = r)) as [->|Hne]; [exists rest; by rewrite Hr, <- app_assoc|].
    apply Forall_app in Hplain as [_ [(Hslash & _) _]%Forall_cons].
    destruct Hex. by apply (Hlone r' r). }
  destruct Hunder as [rest ->]. destruct Hp as [->| ->]; [by exists rest|].
  exists (rest ++ [py "index.html"]). rewrite app_assoc. split; [done|].
  apply Forall_app. split; [done|]. repeat constructor; by apply (bool_decide_unpack _); vm_compute.
Qed.

(** The neighbour: the check compares texts, not components, so that the root
    [/srv/www] also opens [/srv/www-private]. *)
Lemma sibling_served fs loc content :
  loc_path loc = py "/" -> fs (py "/srv/www-private/key") = File content ->
  choose_file fs (py "/../www-private/key") (py "/srv/www") loc = Opens (py "/srv/www-private/key").
Proof.
  intros Hl Hf. unfold choose_file, static_path. rewrite Hl.
  assert (Hn : normpath (path_join (py "/srv/www") (lstrip_with (fun c => c =? 47)
    (let relative := if startswith (py "/../www-private/key") (py "/") then drop (length (py "/")) (py "/../www-private/key")
       else lstrip_with (fun c => c =? 47) (py "/../www-private/key") in
     if str_eqb relative [] || str_eqb relative (py "/") then py "index.html" else relative)))
    = py "/srv/www-private/key") by (vm_compute; reflexivity).
  cbv zeta in Hn. rewrite Hn. change (startswith (py "/srv/www-private/key") (normpath (py "/srv/www"))) with true.
  cbn [negb]. by rewrite Hf.
Qed.

(** *** The load of the servers *)

Definition bal_conns (b : Balancer) (t : UpstreamServer) : Z :=
  match b with LeastConnBalancer c => conns_of c t | _ => 0 end.
Definition bal_ok (b : Balancer) : Prop :=
  match b with LeastConnBalancer c => conns_ok c | _ => True end.

(** The requests that an upstream's balancer counts for a server. *)
Definition load (px : Proxy) (name : str) (t : UpstreamServer) : Z :=
  match dget (px_balancers px) name with Some b => bal_conns b t | None => 0 end.
Definition proxy_ok (px : Proxy) : Prop := forall name b, dget (px_balancers px) name = Some b -> bal_ok b.

Lemma select_conns md5 k b servers ip t :
  bal_ok b -> let b1 := snd (select md5 k b servers ip) in bal_conns b1 t = bal_conns b t /\ bal_ok b1.
Proof.
  intros Hb. destruct b; simpl; try done. by destruct (rr_select index servers).
Qed.

Lemma bal_round_trip b s t : bal_ok b ->
  bal_conns (bal_decrement (bal_increment b s) s) t = bal_conns b t /\ bal_ok (bal_decrement (bal_increment b s) s).
Proof.
  intros Hb. destruct b; simpl; try done. split; [by apply decrement_increment|].
  by apply conns_ok_decrement, conns_ok_increment.
Qed.

Lemma load_set name b px name' t :
  load (set_balancer name b px) name' t = if decide (name = name') then bal_conns b t else load px name' t.
Proof. unfold load. simpl. rewrite dget_dset. by case_decide. Qed.
Lemma ok_set name b px : bal_ok b -> proxy_ok px -> proxy_ok (set_balancer name b px).
Proof. intros Hb Hp n b'. simpl. rewrite dget_dset. case_decide; [by intros [= <-]|apply Hp]. Qed.

(** Connecting counts one request more for the server that is returned, and
    changes no count otherwise. *)
Lemma connect_load w r loc px : proxy_ok px ->
  let '(c, px1) := connect_upstream w r loc px in
  match c with
  | Ok (Some s) => exists b, bal_ok b /\ dget (px_balancers px1) (loc_upstream loc) = Some (bal_increment b s)
      /\ proxy_ok (set_balancer (loc_upstream loc) b px1)
      /\ forall name t, load (set_balancer (loc_upstream loc) b px1) name t = load px name t
  | _ => proxy_ok px1 /\ forall name t, load px1 name t = load px name t
  end.
Proof.
  intros Hp. unfold connect_upstream. destruct (dget (px_upstreams px) _) as [servers|]; [|done].
  destruct (dget (px_balancers px) (loc_upstream loc)) as [b|] eqn:Hb; [|done].
  pose proof (fun t => select_conns (w_md5 w) (w_draw w) b servers (client_ip r) t (Hp _ _ Hb)) as Hsel.
  destruct (select _ _ b servers _) as [choice b1]. simpl in Hsel. set (px1 := set_balancer _ b1 px).
  assert (Hb1 : bal_ok b1) by apply (Hsel (mkServer [] 0 0 0 false false)).
  assert (H1 : proxy_ok px1 /\ forall name t, load px1 name t = load px name t).
  { split; [by apply ok_set|]. intros name t. unfold px1. rewrite load_set. case_decide as Hn; [|done]. subst name.
    unfold load. rewrite Hb. apply Hsel. }
  destruct choice as [[s|]|x]; [|exact H1|exact H1]. destruct (w_connects w); [|exact H1].
  exists b1. split; [done|]. simpl. rewrite dget_dset_eq. split; [done|].
  split.
  - intros n b'. simpl. rewrite !dset_twice. apply H1.
  - intros name t. unfold load. simpl. rewrite !dset_twice. apply (proj2 H1).
Qed.

(** The work of the theorem below. *)
Lemma turn_load sha1 w fuel r px :
  proxy_ok px ->
  let '(end_, px') := handle_turn sha1 w fuel r px in
  match end_ with
  | Upgraded _ | Hangs => True
  | _ => proxy_ok px' /\ forall name t, load px' name t = load px name t
  end.
Proof.
  intros Hp. unfold handle_turn. destruct (match_route _ _) as [loc|].
  2: { unfold reply. destruct (send_error _ _); [destruct (is_keepalive r)|]; done. }
  destruct (_ && str_eqb _ _).
  { unfold reply. destruct (send_response _); [destruct (is_keepalive r)|]; done. }
  pose proof (connect_load w r loc px Hp) as Hc. destruct (connect_upstream w r loc px) as [[[s|]|x] px1].
  - destruct Hc as (b & Hb & Hget & Hok & Hload). destruct (_ && _); [done|].
    assert (Hfin : proxy_ok (set_balancer (loc_upstream loc) (bal_decrement (bal_increment b s) s) px1)
      /\ forall name t, load (set_balancer (loc_upstream loc) (bal_decrement (bal_increment b s) s) px1) name t
           = load px name t).
    { split.
      - intros n b'. simpl. rewrite dget_dset. case_decide as Hn.
        + intros [= <-]. apply (bal_round_trip b s (mkServer [] 0 0 0 false false) Hb).
        + intros Hg. apply (Hok n). simpl. by rewrite dget_dset_ne.
      - intros name t. rewrite <- Hload, !load_set. case_decide; [|done]. by apply bal_round_trip. }
    unfold forward_request. rewrite Hget.
    destruct (rbind _ _); [|exact Hfin].
    destruct (read_upstream_response _ _ _) as [[[resp rest]|x]|]; [|exact Hfin|done].
    unfold reply. destruct (send_response _); [destruct (is_keepalive r)|]; exact Hfin.
  - unfold reply. destruct (send_error _ _); [destruct (is_keepalive r)|]; exact Hc.
  - exact Hc.
Qed.

(** The same over a whole connection that is closed. *)
Lemma connection_load sha1 fuel ip : forall ws buf l px,
  proxy_ok px ->
  let '(_, e, px') := handle sha1 fuel ip ws buf l px in
  e = Closes -> proxy_ok px' /\ forall name t, load px' name t = load px name t.
Proof.
  induction ws as [|w ws IH]; intros buf l px Hp; cbn [handle]; [done|].
  destruct (read_request fuel ip buf l) as [[[[[r|]|x] buf'] l']|]; [|done..].
  pose proof (turn_load sha1 w fuel r px Hp) as Ht.
  destruct (handle_turn sha1 w fuel r px) as [[b|b|x|u|] px1]; [|tauto..|done|done].
  destruct Ht as [Hp1 H1]. specialize (IH buf' l' px1 Hp1).
  destruct (handle sha1 fuel ip ws buf' l' px1) as [[out e] px2]. intros He.
  destruct (IH He) as [Hp2 H2]. split; [done|]. intros name t. by rewrite H2.
Qed.

(** C23 No request leaks load: whatever the request, the upstream and the
    network do (no route, no server, a refused connection, a broken or
    malformed response, success), a turn that is over and not a WebSocket
    leaves the number of requests counted for every server as it was. *)
Theorem load_returns sha1 w fuel r px :
  proxy_ok px ->
  let '(end_, px') := handle_turn sha1 w fuel r px in
  match end_ with
  | Upgraded _ | Hangs => True
  | _ => proxy_ok px' /\ forall name t, load px' name t = load px name t
  end.
Proof. apply turn_load. Qed.

(** A WebSocket counts for ever: the connection is counted when it is opened
    and never discounted. *)
Lemma websocket_leaks_load sha1 w fuel r px loc s px1 :
  match_route (px_locations px) (path r) = Some loc -> loc_root loc = [] ->
  connect_upstream w r loc px = (Ok (Some s), px1) ->
  loc_ws_enabled loc = true -> is_websocket_upgrade (headers r) = true ->
  exists u, handle_turn sha1 w fuel r px = (Upgraded u, px1).
Proof.
  intros H1 H2 H3 H4 H5. unfold handle_turn. rewrite H1, H2. change (str_eqb [] []) with true.
  cbn [negb andb]. rewrite H3, H4, H5. by eexists.
Qed.

(** *** Chunked responses *)

Lemma lstrip_app p (x y : bytes) :
  lstrip_with p (x ++ y) = match lstrip_with p x with [] => lstrip_with p y | l => l ++ y end.
Proof. induction x as [|c x IH]; [done|]. simpl. destruct (p c); [exact IH|done]. Qed.

Lemma int16_crlf x : int16_of_bytes (x ++ CRLF) = int16_of_bytes x.
Proof.
  unfold int16_of_bytes. f_equal. rewrite lstrip_app.
  destruct (lstrip_with is_ascii_space x) as [|c l]; [done|].
  unfold rstrip_with. rewrite rev_app_distr. done.
Qed.

Definition line_ok (l : bytes) : Prop := (13 ∉ l) /\ (10 ∉ l) /\ (length l < STREAM_LIMIT)%nat.

Lemma readline_crlf e l t : line_ok l -> readline e (l ++ CRLF ++ t) = Some (Ok (l ++ CRLF, t)).
Proof.
  intros (H1 & H2 & H3). unfold readline.
  replace (l ++ CRLF ++ t) with ((l ++ [13]) ++ [10] ++ t) by (by rewrite <- app_assoc).
  rewrite (find_app_char 10 []) by set_solver. rewrite length_app. cbn [length].
  rewrite (proj2 (Nat.ltb_ge _ _)) by lia.
  replace (l ++ CRLF) with ((l ++ [13]) ++ [10]) by (by rewrite <- app_assoc).
  rewrite (app_assoc (l ++ [13]) [10] t), take_app_length', drop_app_length'; [done|..];
    rewrite !length_app; simpl; lia.
Qed.

(** Chunks with the usual end are put together again, and nothing behind them
    is read. *)
Lemma chunked_response fuel e cs last rest acc :
  Forall (fun c => chunk_ok c /\ line_ok (fst c)) cs -> line_ok last -> int16_of_bytes last = Some 0 ->
  (length cs < fuel)%nat ->
  read_chunked_body fuel e (render_chunks cs ++ last ++ CRLF ++ CRLF ++ rest) acc
  = Some (Ok (acc ++ concat (map snd cs), rest)).
Proof.
  intros Hc Hl Hz. revert fuel acc. induction Hc as [|[l d] cs [(Hcr & Hsz & Hne) Hlo] Hc IH]; intros fuel acc Hf;
    (destruct fuel as [|fuel]; [simpl in Hf; lia|]); cbn [read_chunked_body render_chunks map concat].
  - unfold readline_timeout. cbn [app]. rewrite (readline_crlf e last (CRLF ++ rest)) by done.
    rewrite int16_crlf, Hz. cbn [Z.eqb].
    assert (Hnil : line_ok []) by (split_and!; [set_solver..|apply Nat.ltb_lt; vm_compute; reflexivity]).
    pose proof (readline_crlf e [] rest Hnil) as Hr. change ([] ++ CRLF ++ rest) with (CRLF ++ rest) in Hr.
    rewrite Hr. by rewrite app_nil_r.
  - cbn [fst snd] in *. rewrite <- !app_assoc. unfold readline_timeout. rewrite readline_crlf by done.
    rewrite int16_crlf, Hsz. assert (Hd : 0 < zlen d) by (destruct d; [done|unfold zlen; simpl; lia]).
    rewrite (proj2 (Z.eqb_neq _ _)), (proj2 (Z.ltb_ge _ _)) by lia.
    assert (Hn : Z.to_nat (zlen d + 2) = length (d ++ CRLF)) by (rewrite length_app; unfold zlen; simpl; lia).
    rewrite Hn. unfold readexactly. rewrite (app_assoc d CRLF).
    rewrite (proj2 (Nat.leb_le _ _)) by (rewrite (length_app (d ++ CRLF)); lia).
    rewrite take_app_length, drop_app_length.
    assert (Ht : take (length (d ++ CRLF) - 2) (d ++ CRLF) = d).
    { rewrite length_app. replace (length d + length CRLF - 2)%nat with (length d) by (simpl; lia).
      apply take_app_length. }
    rewrite Ht. fold (render_chunks cs). rewrite IH by (simpl in Hf; lia). by rewrite <- app_assoc.
Qed.

(** It is sent on unchunked under the header that says it is chunked, next to
    a length: the client cannot read it. *)
Lemma chunked_response_corrupt st why hs b v :
  response_ok v st why hs -> dget hs (py "transfer-encoding") = Some (py "chunked") ->
  dget hs (py "content-length") = None ->
  send_response (mkResponse st why hs b)
    = Ok (render_request (py "HTTP/1.1") (dec st) why (sent_headers hs b) b)
  /\ dget (sent_headers hs b) (py "transfer-encoding") = Some (py "chunked")
  /\ dget (sent_headers hs b) (py "content-length") = Some (dec (zlen b)).
Proof.
  intros Hok Hte Hcl. split; [by eapply send_response_render|]. unfold sent_headers.
  rewrite !set_default_get. rewrite !decide_False by done. rewrite decide_True by done. by rewrite Hcl.
Qed.

(** The loop ends: a turn consumes its line. *)
Lemma readline_shorter e buf line rest : readline_timeout e buf = Ok (line, rest) ->
  buf = line ++ rest /\ (line = [] -> buf = []).
Proof.
  unfold readline_timeout, readline. destruct (find buf [10]) as [i|] eqn:Hf.
  - destruct (_ <? _)%nat; [done|]. intros [= <- <-]. split; [by rewrite take_drop|].
    pose proof (find_char_spec buf 10) as H. rewrite Hf in H. destruct H as [_ H].
    intros Ht. apply (f_equal length) in Ht. rewrite length_take in Ht. simpl in Ht. lia.
  - destruct (_ <? _)%nat; [done|]. destruct e; [|done]. intros [= <- <-]. by rewrite app_nil_r.
Qed.

Lemma chunked_reading_ends fuel buf acc : (length buf < fuel)%nat ->
  is_Some (read_chunked_body fuel AtEof buf acc).
Proof.
  revert buf acc. induction fuel as [|fuel IH]; intros buf acc Hf; [lia|]. cbn [read_chunked_body].
  destruct (readline_timeout AtEof buf) as [[line buf1]|x] eqn:Hr; [|by eexists].
  apply readline_shorter in Hr as [-> Hl].
  destruct (int16_of_bytes line) as [n|] eqn:Hi; [|by eexists].
  assert (Hne : line <> []) by (by intros ->). rewrite length_app in Hf.
  assert (0 < length line)%nat by (destruct line; [done|simpl; lia]).
  destruct (n =? 0).
  - unfold readline. repeat case_match; simplify_eq; eauto.
  - destruct (_ <? _); [by eexists|]. unfold readexactly. destruct (_ <=? _)%nat; [|by eexists].
    apply IH. rewrite length_drop. lia.
Qed.
End Connection.

(** ** Concrete runs *)

Section Runs.
#[local] Existing Instance ascii_only.

Definition ok_headers : list (str * str) := [(py "content-type", py "text/plain"); (py "content-length", py "5")].

Lemma ok_response_ok : response_ok (py "HTTP/1.1") 200 (py "OK") ok_headers.
Proof.
  split; [|lia]. split.
  - split_and!; by_eval.
  - split_and!; by_eval.
  - split_and!; by_eval.
  - reflexivity.
  - repeat constructor; try by_eval.
  - by_eval.
Qed.

Definition www : LocationBlock :=
  mkLocation (py "/") [] (py "/srv/www") false false 300 true 0 [] true SEC 1024 SEC.
Definition run_fs (f : str) : node := if str_eqb f (py "/srv/www/docs/index.html") then File (py "hi")
  else if str_eqb f (py "/srv/www/docs") then Dir else Missing.

Lemma run_fs_lone : lone_root run_fs (py "/srv/www").
Proof.
  intros r' r x rest Hr Hsl Hx Hne.
  assert (Hn : norm_comps (py "/srv/www") = [py "srv"; py "www"]) by (vm_compute; reflexivity).
  rewrite Hn in Hr. destruct r' as [|a [|b r']]; [discriminate Hr| |].
  2: { apply (f_equal length) in Hr. rewrite !length_app in Hr. simpl in Hr. lia. }
  injection Hr as <- <-. apply startswith_spec in Hx as [[|y t] ->]; [by rewrite app_nil_r in Hne|].
  assert (Hj : exists z, 47 :: join [47] ([py "srv"] ++ (py "www" ++ y :: t) :: rest) = py "/srv/www" ++ y :: z).
  { destruct rest as [|q rest]; [by exists t|]. by exists (t ++ 47 :: join [47] (q :: rest)). }
  destruct Hj as [z ->]. assert (Hy : y <> 47) by (intros ->; apply Hsl, elem_of_app; right; left).
  unfold run_fs, str_eqb. rewrite !bool_decide_false; [done| |]; vm_compute; intros Heq; injection Heq; congruence.
Qed.

Lemma static_confined_witness :
  choose_file run_fs (py "/a/../docs/") (py "/srv/www") www = Opens (py "/srv/www/docs/index.html")
  /\ exists rest, py "/srv/www/docs/index.html" = 47 :: join [47] (norm_comps (py "/srv/www") ++ rest)
      /\ Forall plain_comp (norm_comps (py "/srv/www") ++ rest).
Proof.
  assert (H : choose_file run_fs (py "/a/../docs/") (py "/srv/www") www = Opens (py "/srv/www/docs/index.html"))
    by (vm_compute; reflexivity).
  split; [exact H|]. exact (static_confined run_fs _ (py "/srv/www") www _ eq_refl eq_refl run_fs_lone H).
Defined.

Definition api : LocationBlock :=
  mkLocation (py "/") (py "app") [] false false 300 true 0 [] true SEC 1024 SEC.
Definition run_proxy : Proxy :=
  mkProxy [api] [(py "app", [mkServer (py "10.0.0.5") 80 1 0 false false])]
    [(py "app", LeastConnBalancer [])] None None.
Definition run_world : World :=
  mkWorld (fun _ => 0) 0 SEC true (Ok tt) (AtEof, py "garbage") run_fs (fun _ => None) (fun _ b => b).
Definition run_request : HttpRequest := mkRequest (py "GET") (py "/x") (py "HTTP/1.1") [] [] (py "10.0.0.9").

(** The upstream says hello to a client that takes gzip; the compressor of the
    run makes one byte of everything. *)
Definition gzip_proxy : Proxy :=
  mkProxy [api] [(py "app", [mkServer (py "10.0.0.5") 80 1 0 false false])]
    [(py "app", LeastConnBalancer [])] None (Some (mkGzip 6 4)).
Definition hello_world : World :=
  mkWorld (fun _ => 0) 0 SEC true (Ok tt)
    (AtEof, render_request (py "HTTP/1.1") (dec 200) (py "OK") ok_headers (py "hello") ++ [])
    run_fs (fun _ => None) (fun _ _ => [120]).
Definition gzip_request : HttpRequest :=
  mkRequest (py "GET") (py "/x") (py "HTTP/1.1") [(py "accept-encoding", py "gzip")] [] (py "10.0.0.9").


(** The upstream answers garbage: the turn fails, and the count is back. *)
Lemma load_returns_witness :
  exists x px', handle_turn (fun b => b) run_world 9 run_request run_proxy = (Fails x, px')
    /\ load px' (py "app") (mkServer (py "10.0.0.5") 80 1 0 false false) = 0.
Proof.
  assert (Hp : proxy_ok run_proxy).
  { intros name b. unfold run_proxy. simpl. case_decide; [|done]. intros [= <-]. done. }
  pose proof (load_returns (fun b => b) run_world 9 run_request run_proxy Hp) as H.
  destruct (handle_turn (fun b => b) run_world 9 run_request run_proxy) as [e px'] eqn:He.
  assert (Hf : match fst (handle_turn (fun b => b) run_world 9 run_request run_proxy) with Fails _ => true | _ => false end = true)
    by (vm_compute; reflexivity).
  rewrite He in Hf. simpl in Hf. destruct e; try discriminate Hf. exists x, px'. split; [reflexivity|].
  rewrite (proj2 H). vm_compute. reflexivity.
Defined.
Definition post_request : HttpRequest :=
  mkRequest (py "POST") (py "/a") (py "HTTP/1.1") post_headers (py "hello") (py "127.0.0.1").
Definition post_wire : bytes := render_request (py "POST") (py "/a") (py "HTTP/1.1") post_headers (py "hello").
Definition post_pieces : list bytes := [take 5 post_wire; take 40 (drop 5 post_wire); drop 45 post_wire].

Lemma post_sendable : sendable post_request post_pieces.
Proof.
  split; [exact post_ok|vm_compute; reflexivity..| |vm_compute; reflexivity|].
  - apply Z.leb_le. vm_compute. reflexivity.
  - repeat constructor; discriminate.
Qed.

(** Two requests in three pieces each, the second answered after the first. *)
Lemma connection_refines_requests_witness :
  let '(out, e, px') := handle (fun b => b) 9 (py "10.0.0.9") [run_world; run_world] []
      (concat (map (fun rq => map Arrives (snd rq)) [(post_request, post_pieces); (post_request, post_pieces)]))
      (mkProxy [www] [] [] None None) in
  exists bad_gateway, send_error 502 (py "Bad Gateway") = Ok bad_gateway
    /\ out = bad_gateway ++ bad_gateway /\ e = Waits.
Proof.
  assert (Hs : Forall (fun rq => sendable (fst rq) (snd rq))
                 [(post_request, post_pieces); (post_request, post_pieces)])
    by (do 2 (apply Forall_cons; split; [exact post_sendable|]); apply Forall_nil_2).
  rewrite (connection_refines_requests (fun b => b) 9 (py "10.0.0.9")
             [(post_request, post_pieces); (post_request, post_pieces)] [run_world; run_world]
             (mkProxy [www] [] [] None None) Hs).
  vm_compute. eexists. split_and!; reflexivity.
Defined.

End Runs.
End Connection.
