(* ===== verification/Cache.v ===== *)
(** * The response cache (src/proxy/cache)

    [DiskCache] keeps responses in memory and in files, evicts the least
    recently used ones, and serves none past its time to live;
    [CacheManager] decides what is cacheable and for how long;
    [MetadataIndex] is the index that is rebuilt from the files.

    The disk is a dictionary from paths to contents.  SHA-256 and the JSON
    text of a file's header are parameters; a header that [json.loads] reads
    is represented by its fields.  What the operating system does with a
    write, and which files it lets be removed ([rm]), are arguments. *)

From S2P Require Import Prelude PyStr.

Module Cache.

Record Meta := mkMeta {
  me_key : str;
  me_status : Z;
  me_headers : list (str * str);
  me_ttl : Z;
  me_created : time
}.

Class CacheOs := {
  sha256_hex : str -> str;                  (* [sha256(key.encode()).hexdigest()] *)
  meta_text : Meta -> bytes;                (* [json.dumps({...}).encode()] *)
  meta_load : bytes -> result Meta          (* [json.loads] and the lookups *)
}.

(** [json.loads] inverts [json.dumps]. *)
Definition json_inverts `{OS : CacheOs} : Prop := forall m, meta_load (meta_text m) = Ok m.

Record CacheEntry := mkEntry {
  ce_key : str;
  ce_status : Z;
  ce_headers : list (str * str);
  ce_body : bytes;
  ce_ttl : Z;
  ce_created_at : time;
  ce_last_access : time
}.

Definition expired (now : time) (e : CacheEntry) : bool := now - ce_created_at e >? ce_ttl e * SEC.
Definition entry_size (e : CacheEntry) : Z := zlen (ce_body e).

Record DiskCache := mkCache {
  dc_max_size : Z;
  dc_entries : list (str * CacheEntry);
  dc_size : Z;
  dc_files : list ((str * str) * bytes)     (* the files: directory and name *)
}.

Definition cache_init (max_size : Z) : DiskCache := mkCache max_size [] 0 [].

Definition set_entries x c := mkCache (dc_max_size c) x (dc_size c) (dc_files c).
Definition set_size x c := mkCache (dc_max_size c) (dc_entries c) x (dc_files c).
Definition set_files x c := mkCache (dc_max_size c) (dc_entries c) (dc_size c) x.

(** The outcome of opening and writing a file; a write that fails may leave
    some bytes behind. *)
Inductive write_outcome := Written | OpenFails | WriteFails (rest : bytes).

Section Cache.
Context {OS : CacheOs}.

Definition entry_path (key : str) : str * str := let h := sha256_hex key in (take 2 h, h).

(** ** Storage *)

(** [os.remove(path)] with its [OSError] ignored; [rm] tells which files can be
    removed. *)
Definition unlink (rm : str * str -> bool) (path : str * str) (files : list ((str * str) * bytes))
    : list ((str * str) * bytes) := if rm path then ddel files path else files.

(** [_remove]. *)
Definition remove (rm : str * str -> bool) (key : str) (c : DiskCache) : DiskCache :=
  let c1 :=
    match dget (dc_entries c) key with
    | Some e => set_size (Z.max 0 (dc_size c - entry_size e)) (set_entries (ddel (dc_entries c) key) c)
    | None => c
    end in
  set_files (unlink rm (entry_path key) (dc_files c1)) c1.

(** [min(entries, key=last_access)]: the first of the least. *)
Fixpoint lru_of (best : str * CacheEntry) (l : list (str * CacheEntry)) : str :=
  match l with
  | [] => fst best
  | x :: l' => lru_of (if ce_last_access (snd x) <? ce_last_access (snd best) then x else best) l'
  end.

Definition evict_one (rm : str * str -> bool) (c : DiskCache) : DiskCache :=
  match dc_entries c with
  | [] => c
  | x :: l => remove rm (lru_of x l) c
  end.

(** The loop of [store]: at most one turn for each entry. *)
Fixpoint evict_loop (rm : str * str -> bool) (fuel : nat) (size : Z) (c : DiskCache) : DiskCache :=
  match fuel with
  | O => c
  | S fuel' =>
      if (dc_size c + size >? dc_max_size c) && negb (bool_decide (dc_entries c = []))
      then evict_loop rm fuel' size (evict_one rm c) else c
  end.

Definition file_bytes (m : Meta) (body : bytes) : bytes :=
  let text := meta_text m in be_encode 4 (zlen text) ++ text ++ body.

Definition store (rm : str * str -> bool) (key : str) (status : Z) (headers : list (str * str)) (body : bytes) (ttl : Z) (now : time)
    (w : write_outcome) (c : DiskCache) : result unit * DiskCache :=
  let entry := mkEntry key status headers body ttl now now in
  let c1 := evict_loop rm (length (dc_entries c)) (entry_size entry) c in
  let meta := mkMeta key status headers ttl now in
  let path := entry_path key in
  match w with
  | OpenFails => (Ok tt, c1)
  | WriteFails rest => (Ok tt, set_files (dset (dc_files c1) path rest) c1)
  | Written =>
      if zlen (meta_text meta) <? 2 ^ 32 then
        let c2 := set_files (dset (dc_files c1) path (file_bytes meta body)) c1 in
        (Ok tt, set_size (dc_size c2 + entry_size entry) (set_entries (dset (dc_entries c2) key entry) c2))
      else (raise CException [], set_files (dset (dc_files c1) path []) c1)
  end.

Definition response : Type := Z * list (str * str) * bytes.

Definition load_caught (e : exc) : bool :=
  match exc_cls e with COSError | CJSONDecodeError | CKeyError => true | _ => false end.

(** The part of [retrieve] that reads the file. *)
Definition retrieve_file (rm : str * str -> bool) (key : str) (now : time) (c : DiskCache)
    : result (option response) * DiskCache :=
  match dget (dc_files c) (entry_path key) with
  | None => (Ok None, c)
  | Some data =>
      let meta_len := Z.to_nat (be_decode (take 4 data)) in
      match meta_load (take meta_len (drop 4 data)) with
      | Err e => (if load_caught e then Ok None else Err e, c)
      | Ok m =>
          let body := drop meta_len (drop 4 data) in
          if now - me_created m >? me_ttl m * SEC
          then (Ok None, set_files (unlink rm (entry_path key) (dc_files c)) c)
          else (Ok (Some (me_status m, me_headers m, body)), c)
      end
  end.

Definition touch (now : time) (e : CacheEntry) : CacheEntry :=
  mkEntry (ce_key e) (ce_status e) (ce_headers e) (ce_body e) (ce_ttl e) (ce_created_at e) now.

Definition retrieve (rm : str * str -> bool) (key : str) (now : time) (c : DiskCache)
    : result (option response) * DiskCache :=
  match dget (dc_entries c) key with
  | Some e =>
      if expired now e then (Ok None, remove rm key c)
      else (Ok (Some (ce_status e, ce_headers e, ce_body e)),
            set_entries (dset (dc_entries c) key (touch now e)) c)
  | None => retrieve_file rm key now c
  end.

(** [purge]: the number of entries purged. *)
Definition purge (rm : str * str -> bool) (pattern : str) (c : DiskCache) : Z * DiskCache :=
  let keys := filter (fun k => startswith k pattern = true) (dkeys (dc_entries c)) in
  (zlen keys, foldl (fun c k => remove rm k c) c keys).

Definition entry_count (c : DiskCache) : Z := zlen (dc_entries c).

(** ** The manager *)

Definition CACHEABLE_STATUSES : list Z := [200; 203; 204; 206; 300; 301; 404; 405; 410; 414; 501].
Definition CACHEABLE_METHODS : list str := [py "GET"; py "HEAD"].

(** Insertion into the keys sorted by code points. *)
Fixpoint str_le (a b : str) : bool :=
  match a, b with
  | [], _ => true
  | _ :: _, [] => false
  | x :: a', y :: b' => if x =? y then str_le a' b' else x <? y
  end.
Fixpoint insert_key (x : str * str) (l : list (str * str)) : list (str * str) :=
  match l with
  | [] => [x]
  | y :: l' => if str_le (fst x) (fst y) then x :: l else y :: insert_key x l'
  end.
Definition sort_headers (l : list (str * str)) : list (str * str) := foldr insert_key [] l.

(** The text that is hashed. *)
Definition raw_cache_key `{Unicode} (method path : str) (vary_headers : list (str * str)) : str :=
  join [124] ([upper_str method; path]
              ++ map (fun kv => fst kv ++ py ":" ++ snd kv) (sort_headers vary_headers)).
Definition get_cache_key `{Unicode} (method path : str) (vary_headers : list (str * str)) : str :=
  sha256_hex (raw_cache_key method path vary_headers).

Definition header (headers : list (str * str)) (k : str) : str := default [] (dget headers k).

Definition is_cacheable `{Unicode} (method : str) (status : Z) (response_headers : list (str * str)) : bool :=
  if negb (bool_decide (upper_str method ∈ CACHEABLE_METHODS)) then false
  else if negb (bool_decide (status ∈ CACHEABLE_STATUSES)) then false
  else
    let cache_control := lower_str (header response_headers (py "cache-control")) in
    if contains cache_control (py "no-store") || contains cache_control (py "no-cache") then false
    else if contains cache_control (py "private") then false
    else true.

(** [int(cache_control.split(name)[1].split(",")[0].strip())], [None] for the
    exceptions that are caught. *)
Definition directive_value `{Unicode} (cache_control name : str) : option Z :=
  match split cache_control name None with
  | _ :: rest :: _ => int_of_str (strip (hd [] (split rest (py ",") None)))
  | _ => None
  end.

(** [get_ttl]; [parsedate] is [parsedate_to_datetime(expires).timestamp()]. *)
Definition get_ttl `{Unicode} (parsedate : str -> option time) (default_ttl : Z) (now : time)
    (response_headers : list (str * str)) : Z :=
  let cc := lower_str (header response_headers (py "cache-control")) in
  let from name := if contains cc name then directive_value cc name else None in
  match from (py "max-age="), from (py "s-maxage=") with
  | Some n, _ => n
  | None, Some n => n
  | None, None =>
      match header response_headers (py "expires") with
      | [] => default_ttl
      | e => match parsedate e with
             | Some expiry => Z.max 0 (Z.quot (expiry - now) SEC)
             | None => default_ttl
             end
      end
  end.

Definition is_fresh (rm : str * str -> bool) (storage : option DiskCache) (key : str) (now : time) : result bool * option DiskCache :=
  match storage with
  | None => (Ok false, None)
  | Some c =>
      let (r, c') := retrieve rm key now c in
      (match r with Ok (Some _) => Ok true | Ok None => Ok false | Err e => Err e end, Some c')
  end.

Definition is_stale (rm : str * str -> bool) (storage : option DiskCache) (key : str) (now : time) : result bool * option DiskCache :=
  match storage with
  | None => (Ok false, None)
  | Some c =>
      let (r, c') := retrieve rm key now c in
      (match r with
       | Ok None => Ok (dmem (dc_entries c') key)
       | Ok (Some _) => Ok false
       | Err e => Err e
       end, Some c')
  end.

(** ** The index *)

Record EntryMeta := mkEntryMeta {
  em_filepath : str * str;
  em_key : str;
  em_size : Z;
  em_status : Z;
  em_created_at : time;
  em_last_access : time;
  em_ttl : Z
}.

Definition MetadataIndex : Type := list (str * EntryMeta).

Definition index_add (key : str) (filepath : str * str) (size status ttl : Z) (now : time)
    (ix : MetadataIndex) : MetadataIndex :=
  dset ix key (mkEntryMeta filepath key size status now now ttl).

Definition index_get (key : str) (now : time) (ix : MetadataIndex) : option EntryMeta * MetadataIndex :=
  match dget ix key with
  | None => (None, ix)
  | Some e =>
      let e' := mkEntryMeta (em_filepath e) (em_key e) (em_size e) (em_status e) (em_created_at e) now (em_ttl e) in
      (Some e', dset ix key e')
  end.

Definition index_remove (key : str) (ix : MetadataIndex) : MetadataIndex := ddel ix key.
Definition index_list_all (ix : MetadataIndex) : list EntryMeta := dvals ix.
Definition total_size (ix : MetadataIndex) : Z := foldr Z.add 0 (map em_size (dvals ix)).
Definition index_count (ix : MetadataIndex) : Z := zlen ix.

(** [rebuild_from_disk]; [files] is what the glob finds, with the access
    times, in its order.  An exception that is not caught ends the scan. *)
Fixpoint rebuild (files : list ((str * str) * bytes * time)) (ix : MetadataIndex) : result unit * MetadataIndex :=
  match files with
  | [] => (Ok tt, ix)
  | (path, data, atime) :: files' =>
      match meta_load (take (Z.to_nat (be_decode (take 4 data))) (drop 4 data)) with
      | Err e => if load_caught e then rebuild files' ix else (Err e, ix)
      | Ok m =>
          rebuild files' (dset ix (me_key m)
            (mkEntryMeta path (me_key m) (zlen data) (me_status m) (me_created m) atime (me_ttl m)))
      end
  end.
Definition rebuild_from_disk (files : list ((str * str) * bytes * time)) : result unit * MetadataIndex :=
  rebuild files [].

(** ** The size of the cache *)

Definition total (l : list (str * CacheEntry)) : Z := foldr Z.add 0 (map (fun x => entry_size (snd x)) l).

Lemma entry_size_nonneg e : 0 <= entry_size e.
Proof. unfold entry_size, zlen. lia. Qed.
Lemma total_nonneg l : 0 <= total l.
Proof. induction l as [|[k e] l IH]; unfold total in *; simpl; [lia|]. pose proof (entry_size_nonneg e). lia. Qed.

Lemma total_ddel l k e : dict_ok l -> dget l k = Some e -> total (ddel l k) = total l - entry_size e.
Proof.
  unfold total, dict_ok, dkeys. induction l as [|[k' e'] l IH]; simpl; [done|].
  intros [Hn Hok]%NoDup_cons. case_decide as Hk.
  - intros [= ->]. subst k'. rewrite ddel_id; [lia|]. by apply not_elem_of_dkeys.
  - intros H. simpl. rewrite IH by done. lia.
Qed.

Lemma total_dset l k e : dict_ok l ->
  total (dset l k e) = total l - (match dget l k with Some e0 => entry_size e0 | None => 0 end) + entry_size e.
Proof.
  unfold total, dict_ok, dkeys. induction l as [|[k' e'] l IH]; simpl; [lia|].
  intros [Hn Hok]%NoDup_cons. case_decide as Hk; simpl; [lia|]. rewrite IH by done. lia.
Qed.

(** The size that is kept is never below the size of the entries, and the
    entries fit, unless there is only one. *)
Record cache_ok (c : DiskCache) : Prop := mkCacheOk {
  ok_entries : dict_ok (dc_entries c);
  ok_size : total (dc_entries c) <= dc_size c;
  ok_fits : total (dc_entries c) <= dc_max_size c \/ (length (dc_entries c) <= 1)%nat
}.

Lemma remove_entries rm key c : dc_entries (remove rm key c) = ddel (dc_entries c) key.
Proof.
  unfold remove. destruct (dget (dc_entries c) key) eqn:H; simpl; [done|]. by rewrite ddel_id.
Qed.
Lemma remove_max rm key c : dc_max_size (remove rm key c) = dc_max_size c.
Proof. unfold remove. by case_match. Qed.

Lemma cache_ok_remove rm key c : cache_ok c -> cache_ok (remove rm key c).
Proof.
  intros [Hd Hs Hf].
  assert (Ht : total (ddel (dc_entries c) key) <= total (dc_entries c)).
  { destruct (dget (dc_entries c) key) as [e|] eqn:He; [|by rewrite ddel_id].
    rewrite (total_ddel _ _ e) by done. pose proof (entry_size_nonneg e). lia. }
  split; rewrite ?remove_entries, ?remove_max.
  - by apply dict_ok_ddel.
  - unfold remove. destruct (dget (dc_entries c) key) as [e|] eqn:He; simpl.
    + rewrite (total_ddel _ _ e) by done. lia.
    + by rewrite ddel_id.
  - pose proof (length_ddel_le (dc_entries c) key). destruct Hf; [left; lia|right; lia].
Qed.

Lemma lru_of_elem best l : exists e, (lru_of best l, e) ∈ best :: l
  /\ forall x, x ∈ best :: l -> ce_last_access e <= ce_last_access (snd x).
Proof.
  revert best. induction l as [|x l IH]; intros best; simpl.
  - exists (snd best). split; [rewrite <- surjective_pairing; set_solver|].
    intros y ->%list_elem_of_singleton. lia.
  - destruct (IH (if ce_last_access (snd x) <? ce_last_access (snd best) then x else best)) as (e & Hin & Hmin).
    exists e. destruct (Z.ltb_spec (ce_last_access (snd x)) (ce_last_access (snd best))).
    + split; [set_solver|]. intros y [->|Hy]%elem_of_cons; [|by apply Hmin].
      pose proof (Hmin x ltac:(set_solver)). lia.
    + split; [set_solver|]. intros y [->|[->|Hy]%elem_of_cons]%elem_of_cons.
      * apply Hmin. set_solver.
      * pose proof (Hmin best ltac:(set_solver)). lia.
      * apply Hmin. set_solver.
Qed.

(** What is evicted was used no later than anything else. *)
Lemma evict_one_lru rm c x l : dict_ok (dc_entries c) -> dc_entries c = x :: l ->
  exists k e, dget (dc_entries c) k = Some e /\ evict_one rm c = remove rm k c
    /\ forall k' e', dget (dc_entries c) k' = Some e' -> ce_last_access e <= ce_last_access e'.
Proof.
  intros Hd Hc. unfold evict_one. rewrite Hc. destruct (lru_of_elem x l) as (e & Hin & Hmin).
  exists (lru_of x l), e. rewrite <- Hc in *. split_and!; [by apply elem_dget|done|].
  intros k' e' He. apply (Hmin (k', e')). rewrite Hc. rewrite <- Hc. by apply dget_elem.
Qed.

Lemma evict_one_length rm c : dict_ok (dc_entries c) -> dc_entries c <> [] ->
  (length (dc_entries (evict_one rm c)) < length (dc_entries c))%nat.
Proof.
  intros Hd Hne. destruct (dc_entries c) as [|x l] eqn:Hc; [done|]. rewrite <- Hc in *.
  destruct (evict_one_lru rm c x l Hd Hc) as (k & e & Hk & -> & _). rewrite remove_entries.
  assert (Hin : k ∈ dkeys (dc_entries c)) by (apply elem_of_dkeys; by eexists).
  pose proof (dkeys_ddel (dc_entries c) k) as Hkeys. apply (f_equal length) in Hkeys.
  unfold dkeys in *. rewrite length_map in Hkeys. rewrite Hkeys.
  pose proof (length_filter_lt (fun k' => k' <> k) (map fst (dc_entries c)) k Hin ltac:(by intros H; apply H)) as Hlt.
  by rewrite length_map in Hlt.
Qed.

Lemma evict_one_ok rm c : cache_ok c -> cache_ok (evict_one rm c) /\ dc_max_size (evict_one rm c) = dc_max_size c.
Proof.
  intros H. unfold evict_one. destruct (dc_entries c); [done|]. split; [by apply cache_ok_remove|apply remove_max].
Qed.

(** The loop ends within its fuel: it stops when the new entry fits or when
    nothing is left. *)
Lemma evict_loop_spec rm fuel size c :
  (length (dc_entries c) <= fuel)%nat -> cache_ok c ->
  let c' := evict_loop rm fuel size c in
  cache_ok c' /\ dc_max_size c' = dc_max_size c
  /\ (dc_size c' + size <= dc_max_size c \/ dc_entries c' = []).
Proof.
  revert c. induction fuel as [|fuel IH]; intros c Hf Hok; simpl.
  - split_and!; [done|done|right]. destruct (dc_entries c); [done|simpl in Hf; lia].
  - destruct (dc_size c + size >? dc_max_size c) eqn:Hs; simpl.
    + case_bool_decide as He; simpl; [by split_and!; auto|].
      destruct (evict_one_ok rm c Hok) as [Hok' Hm]. pose proof (evict_one_length rm c (ok_entries _ Hok) He).
      destruct (IH (evict_one rm c) ltac:(lia) Hok') as (H1 & H2 & H3). rewrite Hm in H2, H3. done.
    + split_and!; [done|done|left]. lia.
Qed.

Lemma store_ok rm key status headers body ttl now w c :
  cache_ok c -> cache_ok (snd (store rm key status headers body ttl now w c))
  /\ dc_max_size (snd (store rm key status headers body ttl now w c)) = dc_max_size c.
Proof.
  intros Hok. unfold store. set (entry := mkEntry key status headers body ttl now now).
  destruct (evict_loop_spec rm (length (dc_entries c)) (entry_size entry) c (le_n _) Hok) as (H1 & H2 & H3).
  set (c1 := evict_loop _ _ _ c) in *.
  assert (Hfiles : forall f, cache_ok (set_files f c1)) by (intros f; by destruct H1).
  destruct w; [|by split|by split; [apply Hfiles|]].
  destruct (_ <? _); [|by split; [apply Hfiles|]]. simpl. split; [|done].
  destruct H1 as [Hd Hs Hf]. pose proof (total_dset (dc_entries c1) key entry Hd) as Ht.
  assert (Hold : 0 <= match dget (dc_entries c1) key with Some e0 => entry_size e0 | None => 0 end).
  { destruct (dget _ key); [apply entry_size_nonneg|lia]. }
  split; simpl.
  - by apply dict_ok_dset.
  - lia.
  - destruct H3 as [H3|H3]; [left; lia|right]. rewrite H3. simpl. lia.
Qed.

Lemma retrieve_ok rm key now c :
  cache_ok c -> cache_ok (snd (retrieve rm key now c)) /\ dc_max_size (snd (retrieve rm key now c)) = dc_max_size c.
Proof.
  intros Hok. unfold retrieve. destruct (dget (dc_entries c) key) as [e|] eqn:He.
  - destruct (expired now e); [split; [by apply cache_ok_remove|apply remove_max]|]. simpl. split; [|done].
    destruct Hok as [Hd Hs Hf]. pose proof (total_dset (dc_entries c) key (touch now e) Hd) as Ht.
    rewrite He in Ht. assert (entry_size (touch now e) = entry_size e) by done.
    split; simpl; [by apply dict_ok_dset|lia|]. rewrite length_dset_old by (rewrite He; by eexists).
    destruct Hf; [left; lia|by right].
  - unfold retrieve_file. destruct Hok. repeat case_match; done.
Qed.

Lemma removes_ok rm ks c :
  cache_ok c -> cache_ok (foldl (fun c k => remove rm k c) c ks)
  /\ dc_max_size (foldl (fun c k => remove rm k c) c ks) = dc_max_size c.
Proof.
  revert c. induction ks as [|k ks IH]; intros c Hok; simpl; [done|].
  destruct (IH (remove rm k c) (cache_ok_remove rm k c Hok)) as [H1 H2]. by rewrite H2, remove_max.
Qed.

Inductive cache_step : DiskCache -> DiskCache -> Prop :=
  | cs_store rm c key status headers body ttl now w :
      cache_step c (snd (store rm key status headers body ttl now w c))
  | cs_retrieve rm c key now : cache_step c (snd (retrieve rm key now c))
  | cs_purge rm c pattern : cache_step c (snd (purge rm pattern c)).


(** ** What is served *)

(** A header whose length fits its prefix. *)
Definition meta_fits (m : Meta) : Prop := zlen (meta_text m) < 2 ^ 32.

Lemma file_bytes_read m body : json_inverts -> meta_fits m ->
  let data := file_bytes m body in
  let meta_len := Z.to_nat (be_decode (take 4 data)) in
  meta_load (take meta_len (drop 4 data)) = Ok m /\ drop meta_len (drop 4 data) = body.
Proof.
  intros Hl Hfit. cbv zeta. unfold file_bytes, meta_fits in *. set (text := meta_text m) in *.
  assert (Ht : 0 <= zlen text < 256 ^ Z.of_nat 4).
  { unfold zlen in *. change (256 ^ Z.of_nat 4) with (2 ^ 32). lia. }
  rewrite take_app_length' by (by rewrite length_be_encode).
  rewrite drop_app_length' by (by rewrite length_be_encode).
  rewrite be_decode_encode_small by done.
  assert (Hz : Z.to_nat (zlen text) = length text) by (unfold zlen; lia).
  rewrite Hz, take_app_length, drop_app_length. exact (conj (Hl m) eq_refl).
Qed.

(** The last response stored under each key, beside the cache: stores whose
    write succeeds or whose file cannot be opened, lookups and purges, on keys
    of [K]. *)
Definition stored : Type := list (str * (Meta * bytes)).

Definition entry_meta (k : str) (e : CacheEntry) : Meta :=
  mkMeta k (ce_status e) (ce_headers e) (ce_ttl e) (ce_created_at e).

Inductive logged_step (K : str -> Prop) : DiskCache * stored -> DiskCache * stored -> Prop :=
  | ls_store rm c last key status headers body ttl now :
      K key -> meta_fits (mkMeta key status headers ttl now) ->
      logged_step K (c, last)
        (snd (store rm key status headers body ttl now Written c),
         dset last key (mkMeta key status headers ttl now, body))
  | ls_store_fails rm c last key status headers body ttl now :
      K key -> logged_step K (c, last) (snd (store rm key status headers body ttl now OpenFails c), last)
  | ls_retrieve rm c last key now : K key -> logged_step K (c, last) (snd (retrieve rm key now c), last)
  | ls_purge rm c last pattern : logged_step K (c, last) (snd (purge rm pattern c), last).

Record linked (K : str -> Prop) (c : DiskCache) (last : stored) : Prop := mkLinked {
  link_entries k e : dget (dc_entries c) k = Some e -> K k /\ dget last k = Some (entry_meta k e, ce_body e);
  link_files p data : dget (dc_files c) p = Some data ->
    exists k m body, K k /\ p = entry_path k /\ dget last k = Some (m, body) /\ data = file_bytes m body
      /\ meta_fits m
}.

(** Fewer entries and files. *)
Lemma linked_less K c c' last :
  (forall k e, dget (dc_entries c') k = Some e -> dget (dc_entries c) k = Some e) ->
  (forall p data, dget (dc_files c') p = Some data -> dget (dc_files c) p = Some data) ->
  linked K c last -> linked K c' last.
Proof. intros He Hf [A B]. split; eauto. Qed.

Lemma linked_remove K rm key c last : linked K c last -> linked K (remove rm key c) last.
Proof.
  apply linked_less.
  - intros k e. rewrite remove_entries, dget_ddel. by case_decide.
  - intros p data. unfold remove, unlink. destruct (dget (dc_entries c) key), (rm (entry_path key)); simpl;
      rewrite ?dget_ddel; try case_decide; done.
Qed.

Lemma linked_evict_loop K rm fuel size c last : linked K c last -> linked K (evict_loop rm fuel size c) last.
Proof.
  revert c. induction fuel as [|fuel IH]; intros c H; simpl; [done|]. destruct (_ && _); [|done].
  apply IH. unfold evict_one. destruct (dc_entries c); [done|]. by apply linked_remove.
Qed.

Lemma linked_removes K rm ks c last : linked K c last -> linked K (foldl (fun c k => remove rm k c) c ks) last.
Proof. revert c. induction ks as [|k ks IH]; intros c H; simpl; [done|]. by apply IH, linked_remove. Qed.

Lemma linked_retrieve K rm key now c last : linked K c last -> linked K (snd (retrieve rm key now c)) last.
Proof.
  intros H. unfold retrieve. destruct (dget (dc_entries c) key) as [e|] eqn:He.
  - destruct (expired now e); [by apply linked_remove|]. simpl. destruct H as [A B]. split; [|done].
    intros k e'. simpl. rewrite dget_dset. case_decide as Hk; [|by apply A].
    intros [= <-]. subst k. apply (A key e He).
  - unfold retrieve_file. destruct (dget (dc_files c) _) as [data|]; [|done].
    destruct (meta_load _) as [m|x]; [|done]. destruct (_ >? _); [|done]. apply (linked_less K c); [done| |done].
    intros p d. simpl. unfold unlink. destruct (rm _); [|done]. rewrite dget_ddel. by case_decide.
Qed.

Lemma linked_step K a b : logged_step K a b -> linked K (fst a) (snd a) -> linked K (fst b) (snd b).
Proof.
  intros H Hlink. destruct H as [rm c last key status headers body ttl now Hk Hsz|rm c last key status headers body ttl now Hk
    |rm c last key now Hk|rm c last pattern]; simpl in *.
  - unfold store. set (entry := mkEntry key status headers body ttl now now).
    set (meta := mkMeta key status headers ttl now).
    pose proof (linked_evict_loop K rm (length (dc_entries c)) (entry_size entry) c last Hlink) as [A B].
    set (c1 := evict_loop _ _ _ c) in *. fold meta in Hsz. pose proof Hsz as Hsz'. unfold meta_fits in Hsz'.
    apply Z.ltb_lt in Hsz'. rewrite Hsz'. simpl. split; simpl.
    + intros k e. rewrite !dget_dset. case_decide as Hd; [|by apply A].
      intros [= <-]. subst k. done.
    + intros p data. rewrite dget_dset. case_decide as Hp.
      * intros [= <-]. exists key, meta, body. rewrite dget_dset_eq. done.
      * intros Hd. destruct (B p data Hd) as (k & m & b & Hkk & -> & Hlast & -> & Hfit). exists k, m, b.
        rewrite dget_dset_ne; [done|]. intros <-. by apply Hp.
  - unfold store. simpl. by apply linked_evict_loop.
  - by apply linked_retrieve.
  - by apply linked_removes.
Qed.

(** C27 A hit is right: from an empty directory on, after any sequence of
    stores that write their file or cannot open it, lookups, evictions and
    purges, whichever files can be removed, on keys without collisions of the
    hash and headers shorter than 2^32 bytes, a lookup returns nothing, or
    exactly the response stored last under the key and not older than its time
    to live; and what has just been stored is found until then.  (No write
    fails half way.) *)
Theorem cache_serves_last K max_size c last rm key now :
  json_inverts -> (forall k k', K k -> K k' -> sha256_hex k = sha256_hex k' -> k = k') ->
  rtc (logged_step K) (cache_init max_size, []) (c, last) -> K key ->
  (fst (retrieve rm key now c) = Ok None
   \/ exists m body, dget last key = Some (m, body) /\ now - me_created m <= me_ttl m * SEC
        /\ fst (retrieve rm key now c) = Ok (Some (me_status m, me_headers m, body)))
  /\ forall status headers body ttl now', now - now' <= ttl * SEC ->
       meta_fits (mkMeta key status headers ttl now') ->
       fst (retrieve rm key now (snd (store rm key status headers body ttl now' Written c)))
       = Ok (Some (status, headers, body)).
Proof.
  intros Hl Hinj Hr Hk.
  assert (Hgen : forall a b, rtc (logged_step K) a b -> linked K (fst a) (snd a) -> linked K (fst b) (snd b)).
  { induction 1; eauto using linked_step. }
  destruct (Hgen _ _ Hr) as [A B]; [done|]. simpl in A, B. split.
  - unfold retrieve. destruct (dget (dc_entries c) key) as [e|] eqn:He.
    + destruct (A key e He) as [_ Hlast]. unfold expired.
      destruct (Z.gtb_spec (now - ce_created_at e) (ce_ttl e * SEC)); [by left|]. right.
      eexists _, _. split_and!; [exact Hlast|done|done].
    + unfold retrieve_file. destruct (dget (dc_files c) (entry_path key)) as [data|] eqn:Hf; [|by left].
      destruct (B _ _ Hf) as (k & m & body & Hkk & Hp & Hlast & -> & Hfit).
      assert (key = k) as <- by (apply Hinj; [done|done|by injection Hp]).
      destruct (file_bytes_read m body Hl Hfit) as [-> ->].
      destruct (Z.gtb_spec (now - me_created m) (me_ttl m * SEC)); [by left|]. right. by exists m, body.
  - intros status headers body ttl now' Ht Hsz. unfold store.
    set (entry := mkEntry key status headers body ttl now' now'). set (c1 := evict_loop _ _ _ c).
    apply Z.ltb_lt in Hsz. rewrite Hsz.
    unfold retrieve. simpl. rewrite dget_dset_eq. unfold expired. simpl.
    destruct (Z.gtb_spec (now - now') (ttl * SEC)); [lia|done].
Qed.

(** ** What the code does not do *)

(** [is_stale] looks the entry up, which removes it when it has expired: the
    answer is never yes. *)
Lemma never_stale rm c key now b : dict_ok (dc_entries c) -> fst (is_stale rm (Some c) key now) = Ok b -> b = false.
Proof.
  intros Hd. unfold is_stale, retrieve. destruct (dget (dc_entries c) key) as [e|] eqn:He.
  - destruct (expired now e); cbn [fst snd]; intros <-%Ok_inj; [|done].
    apply dmem_false. by rewrite remove_entries, dget_ddel, decide_True.
  - assert (Hm : dmem (dc_entries c) key = false) by by apply dmem_false.
    unfold retrieve_file. repeat case_match; simpl; simplify_eq; intros; simplify_eq; done.
Qed.

(** A store that needs no eviction. *)
Lemma store_fits rm key status headers body ttl now c :
  meta_fits (mkMeta key status headers ttl now) -> dc_size c + zlen body <= dc_max_size c ->
  snd (store rm key status headers body ttl now Written c) =
    mkCache (dc_max_size c) (dset (dc_entries c) key (mkEntry key status headers body ttl now now))
      (dc_size c + zlen body)
      (dset (dc_files c) (entry_path key) (file_bytes (mkMeta key status headers ttl now) body)).
Proof.
  intros Hsz Hs. unfold store.
  assert (He : evict_loop rm (length (dc_entries c)) (entry_size (mkEntry key status headers body ttl now now)) c = c).
  { destruct (length (dc_entries c)); simpl; [done|]. unfold entry_size. simpl.
    destruct (Z.gtb_spec (dc_size c + zlen body) (dc_max_size c)); [lia|done]. }
  rewrite He. apply Z.ltb_lt in Hsz. by rewrite Hsz.
Qed.

(** Storing under the same key again counts the size of both bodies. *)
Lemma stored_twice_counted_twice rm key status headers body ttl now max_size :
  meta_fits (mkMeta key status headers ttl now) -> 2 * zlen body <= max_size ->
  let c1 := snd (store rm key status headers body ttl now Written (cache_init max_size)) in
  let c2 := snd (store rm key status headers body ttl now Written c1) in
  total (dc_entries c2) = zlen body /\ dc_size c2 = 2 * zlen body.
Proof.
  intros Hl Hm. cbv zeta. assert (H0 : 0 <= zlen body) by (unfold zlen; lia).
  rewrite (store_fits _ _ _ _ _ _ _ (cache_init max_size)) by (cbn [dc_size dc_max_size cache_init]; lia || done).
  rewrite store_fits by (cbn [dc_size dc_max_size cache_init]; lia || done). simpl. rewrite decide_True by done.
  unfold total, entry_size. simpl. lia.
Qed.

(** A write that fails half way leaves a file that is served: the header with
    a part of the body. *)
Lemma truncated_body_served rm key status headers body n ttl now c :
  json_inverts -> meta_fits (mkMeta key status headers ttl now) ->
  dget (dc_entries c) key = None -> 0 <= ttl ->
  let m := mkMeta key status headers ttl now in
  let c' := snd (store rm key status headers body ttl now (WriteFails (file_bytes m (take n body))) c) in
  fst (retrieve rm key now c') = Ok (Some (status, headers, take n body)).
Proof.
  intros Hl Hfit He Ht. cbv zeta. unfold store. simpl. set (m := mkMeta key status headers ttl now).
  set (c1 := evict_loop _ _ _ c).
  assert (He1 : dget (dc_entries c1) key = None).
  { assert (Hgen : forall fuel size c0, dget (dc_entries c0) key = None ->
      dget (dc_entries (evict_loop rm fuel size c0)) key = None).
    { induction fuel as [|fuel IH]; intros size c0 H0; simpl; [done|]. destruct (_ && _); [|done]. apply IH.
      unfold evict_one. destruct (dc_entries c0) eqn:Hc0; [by rewrite Hc0|]. rewrite <- Hc0 in H0.
      rewrite remove_entries, dget_ddel. by case_decide. }
    by apply Hgen. }
  unfold retrieve. simpl. rewrite He1. unfold retrieve_file. simpl. rewrite dget_dset_eq.
  destruct (file_bytes_read m (take n body) Hl Hfit) as [-> ->]. simpl.
  destruct (Z.gtb_spec (now - now) (ttl * SEC)); [unfold SEC in *; lia|done].
Qed.

(** The text under the hash is ambiguous: a path can contain the separator. *)
Lemma cache_key_ambiguous `{Unicode} method path k v :
  raw_cache_key method path [(k, v)] = raw_cache_key method (path ++ [124] ++ k ++ py ":" ++ v) [].
Proof.
  unfold raw_cache_key, sort_headers. simpl. done.
Qed.

(** The index rebuilt from the files knows exactly the entries whose files
    exist, with the size of the file, not of the body. *)
Lemma rebuild_keys files ix : json_inverts ->
  Forall (fun f => exists m body, snd (fst f) = file_bytes m body /\ meta_fits m) files ->
  fst (rebuild files ix) = Ok tt
  /\ forall k, is_Some (dget (snd (rebuild files ix)) k) <->
       is_Some (dget ix k) \/ exists f m body, f ∈ files /\ meta_fits m /\ snd (fst f) = file_bytes m body /\ me_key m = k.
Proof.
  intros Hl Hf. revert ix. induction Hf as [|[[p data] at_] files (m & body & Hd & Hfit) Hf IH]; intros ix; simpl.
  - split; [done|]. intros k. split; [by left|]. intros [?|(f & ? & ? & ? & _ & _)]; [done|set_solver].
  - simpl in Hd. subst data. destruct (file_bytes_read m body Hl Hfit) as [Hm _]. rewrite Hm.
    set (em := mkEntryMeta _ _ _ _ _ _ _). destruct (IH (dset ix (me_key m) em)) as [H1 H2].
    split; [done|]. intros k. rewrite H2, dget_dset. split.
    + intros [Hs|(f & m' & b' & Hin & Hfit' & Hb & Hk)].
      * case_decide as Hk; [|by left]. right. exists (p, file_bytes m body, at_), m, body. set_solver.
      * right. exists f, m', b'. set_solver.
    + intros [Hs|(f & m' & b' & Hin & Hfit' & Hb & Hk)].
      * left. case_decide; [by eexists|done].
      * apply elem_of_cons in Hin as [->|Hin]; [|right; by exists f, m', b'].
        left. simpl in Hb. destruct (file_bytes_read m' b' Hl Hfit') as [Hm' _]. rewrite <- Hb, Hm in Hm'.
        injection Hm' as ->. rewrite decide_True by done. by eexists.
Qed.
End Cache.

(** ** Concrete runs *)

Section Runs.

#[local] Instance meta_eq_dec : EqDecision Meta.
Proof. solve_decision. Defined.
#[local] Instance meta_countable : Countable Meta.
Proof.
  refine (inj_countable' (fun m => (me_key m, me_status m, me_headers m, me_ttl m, me_created m))
    (fun '(k, s, h, t, c) => mkMeta k s h t c) _). by intros [].
Defined.

(** A hash and a header text for evaluation: the key itself, and one number
    that codes the fields. *)
#[local] Instance toy_os : CacheOs := {|
  sha256_hex k := k;
  meta_text m := [Z.pos (countable.encode m)];
  meta_load b :=
    match b with
    | [Z.pos p] => match countable.decode p with Some m => Ok m | None => raise CJSONDecodeError [] end
    | _ => raise CJSONDecodeError []
    end
|}.

Lemma toy_inverts : json_inverts.
Proof. intros m. simpl. by rewrite decode_encode. Qed.

(** Two bodies of two bytes in a cache of three: the first is evicted. *)
Definition run1 : DiskCache :=
  snd (store (fun _ => true) (py "k1") 200 [] [1; 2] 60 SEC Written (cache_init 3)).
Definition run2 : DiskCache := snd (store (fun _ => true) (py "k2") 200 [] [3; 4] 60 (2 * SEC) Written run1).

Lemma run2_reach : rtc cache_step (cache_init 3) run2.
Proof. apply (rtc_l _ _ run1); [apply cs_store|]. apply rtc_once, cs_store. Qed.


Lemma cache_serves_last_witness :
  fst (retrieve (fun _ => true) (py "k2") (3 * SEC) run2) = Ok (Some (200, [], [3; 4]))
  /\ fst (retrieve (fun _ => true) (py "k1") (3 * SEC) run2) = Ok None.
Proof.
  assert (Hr : rtc (logged_step (fun _ => True)) (cache_init 3, []) (run1, [(py "k1", (mkMeta (py "k1") 200 [] 60 SEC, [1; 2]))])).
  { apply rtc_once. by apply (ls_store _ (fun _ => true)). }
  destruct (cache_serves_last (fun _ => True) 3 run1 _ (fun _ => true) (py "k2") (3 * SEC) toy_inverts ltac:(done) Hr I) as [_ H].
  split; [by apply (H 200 [] [3; 4] 60 (2 * SEC))|]. vm_compute. reflexivity.
Defined.
End Runs.
End Cache.
