(* ===== verification/Security.v ===== *)
(** * Access control and basic authentication (src/proxy/security/access.py
      and src/proxy/security/auth.py)

    Part one: the addresses and networks of the [ipaddress] module as far as
    [AccessControl] uses it, and the rules.  An address is its version and its
    value.  Part two: the check of an [Authorization] header; bcrypt is a
    parameter. *)

From S2P Require Import Prelude PyStr.

Module Security.

(** ** Addresses *)

Inductive address := V4 (ip : Z) | V6 (ip : Z).

(** [IPv4Address._parse_octet]; [None] stands for [AddressValueError]. *)
Definition parse_octet (s : str) : option Z :=
  match s with
  | [] => None
  | c :: s' =>
      if negb (forallb is_digit s) then None
      else if 3 <? zlen s then None
      else if (c =? 48) && negb (str_eqb s' []) then None
      else if 255 <? digits_val s then None else Some (digits_val s)
  end.

Definition ipv4_int (s : str) : option Z :=
  match map parse_octet (split s (py ".") None) with
  | [Some a; Some b; Some c; Some d] => Some (((a * 256 + b) * 256 + c) * 256 + d)
  | _ => None
  end.

(** [IPv6Address._parse_hextet]; [int] refuses the empty text. *)
Fixpoint hextet_val (acc : Z) (s : str) : option Z :=
  match s with
  | [] => Some acc
  | c :: s' => match hex_val_any c with Some d => hextet_val (acc * 16 + d) s' | None => None end
  end.
Definition parse_hextet (s : str) : option Z :=
  match s with
  | [] => None
  | _ => if 4 <? zlen s then None else hextet_val 0 s
  end.

Fixpoint hextets (l : list str) (acc : Z) : option Z :=
  match l with
  | [] => Some acc
  | s :: l' => match parse_hextet s with Some h => hextets l' (acc * 65536 + h) | None => None end
  end.

(** The positions [1 .. len - 2] of empty parts. *)
Definition inner_gaps (parts : list str) : list nat :=
  filter (fun i => nth i parts [0] = []) (seq 1 (length parts - 2)).

(** [%x] of a 16-bit number. *)
Definition hex16 (n : Z) : str :=
  let digits := [hex_char (n / 4096); hex_char (n / 256 mod 16); hex_char (n / 16 mod 16)] in
  lstrip_with (fun c => c =? 48) digits ++ [hex_char (n mod 16)].

(** The parts, with a trailing IPv4 address replaced by two of them. *)
Definition ipv6_parts (s : str) : option (list str) :=
  let parts := split s (py ":") None in
  if zlen parts <? 3 then None
  else
    match rev parts with
    | last :: before =>
        if contains last (py ".") then
          match ipv4_int last with
          | Some v => Some (rev before ++ [hex16 (v / 65536); hex16 (v mod 65536)])
          | None => None
          end
        else Some parts
    | [] => None
    end.

Definition is_empty (s : str) : bool := str_eqb s [].

Definition ipv6_int (s : str) : option Z :=
  match s with
  | [] => None
  | _ =>
      match ipv6_parts s with
      | None => None
      | Some parts =>
          let n := length parts in
          if (9 <? n)%nat then None
          else
            match inner_gaps parts with
            | [] =>
                if negb (n =? 8)%nat || is_empty (nth 0 parts []) || is_empty (List.last parts []) then None
                else hextets parts 0
            | [skip] =>
                let hi := if is_empty (nth 0 parts []) then (skip - 1)%nat else skip in
                let lo := let l := (n - skip - 1)%nat in
                          if is_empty (List.last parts []) then (l - 1)%nat else l in
                if is_empty (nth 0 parts []) && negb (hi =? 0)%nat then None
                else if is_empty (List.last parts []) && negb (lo =? 0)%nat then None
                else if (8 <? hi + lo + 1)%nat then None
                else
                  match hextets (take hi parts) 0 with
                  | None => None
                  | Some h => hextets (drop (n - lo) parts) (h * 65536 ^ Z.of_nat (8 - (hi + lo)))
                  end
            | _ => None
            end
      end
  end.

(** [IPv6Address]: an optional scope behind [%]. *)
Definition ipv6_address (s : str) : option Z :=
  match partition_char 37 s with
  | (a, false, _) => ipv6_int a
  | (a, true, scope) => if is_empty scope || contains scope (py "%") then None else ipv6_int a
  end.

(** [ipaddress.ip_address]; [None] stands for [ValueError]. *)
Definition ip_address (s : str) : option address :=
  if contains s (py "/") then None
  else match ipv4_int s with
       | Some v => Some (V4 v)
       | None => match ipv6_address s with Some v => Some (V6 v) | None => None end
       end.

(** ** Networks *)

Record network := mkNetwork { net_v6 : bool; net_prefix : Z; net_address : Z }.

Definition max_prefix (v6 : bool) : Z := if v6 then 128 else 32.

(** [_prefix_from_prefix_string]: ASCII digits up to the length of an
    address. *)
Definition prefix_of_string (v6 : bool) (s : str) : option Z :=
  match s with
  | [] => None
  | _ => if forallb is_digit s && (digits_val s <=? max_prefix v6) then Some (digits_val s) else None
  end.

(** [_prefix_from_ip_string]: a netmask, or a hostmask. *)
Definition prefix_of_int (v : Z) : option Z :=
  List.find (fun p => v =? 2 ^ 32 - 2 ^ (32 - p)) (map Z.of_nat (seq 0 33)).
Definition prefix_of_mask (s : str) : option Z :=
  match ipv4_int s with
  | None => None
  | Some v =>
      match prefix_of_int v with
      | Some p => Some p
      | None => prefix_of_int (2 ^ 32 - 1 - v)
      end
  end.

Definition make_network (v6 : bool) (addr : option Z) (mask : option str) : option network :=
  match addr with
  | None => None
  | Some a =>
      let prefix :=
        match mask with
        | None => Some (max_prefix v6)
        | Some m =>
            match prefix_of_string v6 m with
            | Some p => Some p
            | None => if v6 then None else prefix_of_mask m
            end
        end in
      match prefix with
      | None => None
      | Some p => let host := 2 ^ (max_prefix v6 - p) in Some (mkNetwork v6 p (a / host * host))
      end
  end.

(** [ipaddress.ip_network(s, strict=False)]. *)
Definition ip_network (s : str) : option network :=
  let try_net addr mask :=
    match make_network false (ipv4_int addr) mask with
    | Some n => Some n
    | None => make_network true (ipv6_address addr) mask
    end in
  match split s (py "/") None with
  | [addr] => try_net addr None
  | [addr; mask] => try_net addr (Some mask)
  | _ => None
  end.

(** [ip in network]. *)
Definition in_network (a : address) (n : network) : bool :=
  let same v := let host := 2 ^ (max_prefix (net_v6 n) - net_prefix n) in v / host * host =? net_address n in
  match a, net_v6 n with
  | V4 v, false | V6 v, true => same v
  | _, _ => false
  end.

(** ** Rules *)

Inductive action := Allow | Deny.
Definition AccessControl : Type := list (action * str).

Definition allow (n : str) (rules : AccessControl) : AccessControl := rules ++ [(Allow, n)].
Definition deny (n : str) (rules : AccessControl) : AccessControl := rules ++ [(Deny, n)].
Definition clear (rules : AccessControl) : AccessControl := [].

(** The loop of [check]; a rule that is no network is passed over. *)
Fixpoint check_rules (rules : AccessControl) (ip : address) : bool :=
  match rules with
  | [] => true
  | (act, text) :: rules' =>
      match ip_network text with
      | Some n => if in_network ip n then (if act is Allow then true else false) else check_rules rules' ip
      | None => check_rules rules' ip
      end
  end.

Definition check_access (rules : AccessControl) (client_ip : str) : bool :=
  match rules with
  | [] => true
  | _ => match ip_address client_ip with Some ip => check_rules rules ip | None => true end
  end.

(** ** Basic authentication *)

Record BasicAuth := mkBasicAuth {
  ba_realm : str;
  ba_users : list (str * str);             (* bcrypt hashes *)
  ba_plain : list (str * str)
}.

(** One line of [_load_htpasswd]. *)
Definition load_line (users : list (str * str)) (line : str) : list (str * str) :=
  let line := strip line in
  match line with
  | [] => users
  | _ =>
      if startswith line (py "#") then users
      else match partition_char 58 line with
           | (user, true, hash) => dset users user hash
           | _ => users
           end
  end.
Definition load_htpasswd (lines : list str) (a : BasicAuth) : BasicAuth :=
  mkBasicAuth (ba_realm a) (foldl load_line (ba_users a) lines) (ba_plain a).

Definition set_user (username password : str) (a : BasicAuth) : BasicAuth :=
  mkBasicAuth (ba_realm a) (ba_users a) (dset (ba_plain a) username password).

(** [bcrypt.checkpw]; a hash it cannot read is a [ValueError]. *)
Class Checkpw := checkpw : bytes -> bytes -> result bool.

Section BasicAuth.
Context {CP : Checkpw}.

Definition credentials (header : str) : option (str * str) :=
  match b64decode (drop 6 header) with
  | None => None
  | Some raw =>
      match utf8_decode raw with
      | None => None
      | Some text =>
          match partition_char 58 text with
          | (username, true, password) => Some (username, password)
          | _ => None
          end
      end
  end.

Definition check_auth (header : option str) (a : BasicAuth) : result bool :=
  match header with
  | None | Some [] => Ok false
  | Some h =>
      if negb (startswith h (py "Basic ")) then Ok false
      else
        match credentials h with
        | None => Ok false
        | Some (username, password) =>
            match dget (ba_plain a) username with
            | Some p => Ok (str_eqb p password)
            | None =>
                match dget (ba_users a) username with
                | None => Ok false
                | Some hash =>
                    match encode password, encode hash with
                    | Ok p, Ok h =>
                        match checkpw p h with
                        | Ok b => Ok b
                        | Err e => if is_ValueError e then Ok false else Err e
                        end
                    | Err e, _ | _, Err e => if is_ValueError e then Ok false else Err e
                    end
                end
            end
        end
  end.

Definition authenticate_header (a : BasicAuth) : str := py "Basic realm=" ++ [34] ++ ba_realm a ++ [34].
End BasicAuth.

(** ** Theorems *)

(** *** Texts of IPv4 addresses *)

Definition octet (n : Z) : Prop := 0 <= n < 256.

(** A property of small numbers, checked on all of them. *)
Lemma small_forall (P : Z -> bool) (k : nat) :
  forallb P (map Z.of_nat (seq 0 k)) = true -> forall n, 0 <= n < Z.of_nat k -> P n = true.
Proof.
  intros H n Hn. rewrite forallb_forall in H. apply H, in_map_iff. exists (Z.to_nat n).
  split; [lia|]. apply in_seq. lia.
Qed.

Lemma parse_octet_dec n : octet n -> parse_octet (dec n) = Some n.
Proof.
  intros Hn. pose proof (small_forall (fun n => bool_decide (parse_octet (dec n) = Some n)) 256) as H.
  apply (bool_decide_eq_true_1 (parse_octet (dec n) = Some n)), H; [vm_compute; reflexivity|exact Hn].
Qed.

Lemma prefix_of_dec p : 0 <= p <= 32 -> prefix_of_string false (dec p) = Some p.
Proof.
  intros Hp. pose proof (small_forall (fun n => bool_decide (prefix_of_string false (dec n) = Some n)) 33) as H.
  apply (bool_decide_eq_true_1 (prefix_of_string false (dec p) = Some p)), H; [vm_compute; reflexivity|lia].
Qed.

Record quad := mkQuad { q1 : Z; q2 : Z; q3 : Z; q4 : Z }.
Definition quad_ok (q : quad) : Prop := octet (q1 q) /\ octet (q2 q) /\ octet (q3 q) /\ octet (q4 q).
Definition quad_value (q : quad) : Z := ((q1 q * 256 + q2 q) * 256 + q3 q) * 256 + q4 q.
Definition quad_text (q : quad) : str := join (py ".") [dec (q1 q); dec (q2 q); dec (q3 q); dec (q4 q)].

Lemma ipv4_int_text q : quad_ok q -> ipv4_int (quad_text q) = Some (quad_value q).
Proof.
  intros (H1 & H2 & H3 & H4). unfold ipv4_int, quad_text. change (py ".") with [46].
  rewrite split_join; [cbn [map]; by rewrite !parse_octet_dec|].
  repeat (constructor; [by apply dec_not_in|]). constructor.
Qed.

Lemma quad_text_not_in q c : is_digit c = false -> c <> 45 -> c <> 46 -> c ∉ quad_text q.
Proof.
  intros Hd Hm Hp. unfold quad_text. change (py ".") with [46]. cbn [join].
  pose proof (fun n => dec_not_in n c Hd Hm) as Hn. rewrite !elem_of_app, !list_elem_of_singleton.
  pose proof (Hn (q1 q)). pose proof (Hn (q2 q)). pose proof (Hn (q3 q)). pose proof (Hn (q4 q)). tauto.
Qed.

Lemma contains_char s c : contains s [c] = true -> c ∈ s.
Proof.
  induction s as [|x s IH]; [by vm_compute|]. cbn [contains]. rewrite orb_true_iff, startswith_spec.
  intros [[t Ht]|H]; [injection Ht as -> ->; set_solver|]. apply elem_of_cons. right. by apply IH.
Qed.

Lemma ip_address_text q : quad_ok q -> ip_address (quad_text q) = Some (V4 (quad_value q)).
Proof.
  intros Hq. unfold ip_address. change (py "/") with [47].
  destruct (contains (quad_text q) [47]) eqn:Hc.
  { apply contains_char in Hc. by apply quad_text_not_in in Hc. }
  by rewrite ipv4_int_text.
Qed.

(** A rule for the first [p] bits of an address. *)
Definition cidr_text (q : quad) (p : Z) : str := quad_text q ++ py "/" ++ dec p.

Lemma ip_network_text q p : quad_ok q -> 0 <= p <= 32 ->
  ip_network (cidr_text q p) =
    Some (mkNetwork false p (quad_value q / 2 ^ (32 - p) * 2 ^ (32 - p))).
Proof.
  intros Hq Hp. unfold ip_network, cidr_text. change (py "/") with [47].
  change (quad_text q ++ [47] ++ dec p) with (join [47] [quad_text q; dec p]).
  rewrite split_join.
  - cbn [make_network]. rewrite ipv4_int_text by done. unfold make_network. by rewrite prefix_of_dec.
  - repeat constructor; [by apply quad_text_not_in|by apply dec_not_in].
Qed.

(** A rule for a network [a.b.c.d/p], as given to [allow] or [deny], and
    whether it matches an address. *)
Definition v4_rule : Type := action * (quad * Z).
Definition rule_text (r : v4_rule) : action * str := (fst r, cidr_text (fst (snd r)) (snd (snd r))).
Definition rule_ok (r : v4_rule) : Prop := quad_ok (fst (snd r)) /\ 0 <= snd (snd r) <= 32.
Definition matches (client : quad) (r : v4_rule) : bool :=
  Z.shiftr (quad_value client) (32 - snd (snd r)) =? Z.shiftr (quad_value (fst (snd r))) (32 - snd (snd r)).
Definition allows (r : v4_rule) : bool := match fst r with Allow => true | Deny => false end.

(** The answer is that of the first rule that matches. *)
Lemma first_match (rules : list v4_rule) client :
  quad_ok client -> Forall rule_ok rules ->
  check_access (map rule_text rules) (quad_text client)
  = match List.find (matches client) rules with Some r => allows r | None => true end.
Proof.
  intros Hc Hr. assert (Hmain : check_rules (map rule_text rules) (V4 (quad_value client))
    = match List.find (matches client) rules with Some r => allows r | None => true end).
  { induction Hr as [|[act [q p]] rules [Hq Hp] Hr IH]; [done|].
    cbn [map check_rules rule_text fst snd List.find] in *.
    rewrite ip_network_text by done. unfold in_network. cbn [net_v6 net_prefix net_address max_prefix].
    unfold matches at 1. cbn [fst snd] in *.
    rewrite !Z.shiftr_div_pow2 by lia. assert (Hpos : 0 < 2 ^ (32 - p)) by (apply Z.pow_pos_nonneg; lia).
    replace (quad_value client / 2 ^ (32 - p) * 2 ^ (32 - p) =? quad_value q / 2 ^ (32 - p) * 2 ^ (32 - p))
      with (quad_value client / 2 ^ (32 - p) =? quad_value q / 2 ^ (32 - p)).
    - destruct (_ =? _); [by destruct act|done].
    - destruct (Z.eqb_spec (quad_value client / 2 ^ (32 - p)) (quad_value q / 2 ^ (32 - p))) as [->|Hne];
        [by rewrite Z.eqb_refl|]. symmetry. apply Z.eqb_neq. nia. }
  unfold check_access. destruct rules as [|r rules]; [done|]. cbn [map].
  destruct (rule_text r) as [act text] eqn:Hrt. rewrite <- Hrt.
  rewrite ip_address_text by done. exact Hmain.
Qed.

(** The network of [r] contains that of [r']; no rule of the list lies behind
    one that contains it. *)
Definition covers (r r' : v4_rule) : Prop :=
  snd (snd r) <= snd (snd r') /\ matches (fst (snd r')) r = true.
Fixpoint unshadowed (rules : list v4_rule) : Prop :=
  match rules with
  | [] => True
  | r :: rules' => Forall (fun r' => ~ covers r r') rules' /\ unshadowed rules'
  end.

(** Of two networks of one address, the wider contains the other. *)
Lemma matching_nested client r r' :
  rule_ok r -> rule_ok r' -> matches client r = true -> matches client r' = true ->
  snd (snd r) <= snd (snd r') -> covers r r'.
Proof.
  destruct r as [act [q p]], r' as [act' [q' p']]. unfold rule_ok, matches, covers. cbn [fst snd].
  intros [_ Hp] [_ Hp'] H%Z.eqb_eq H'%Z.eqb_eq Hle. split; [done|]. apply Z.eqb_eq. cbn [fst snd].
  replace (32 - p) with ((32 - p') + (p' - p)) in * by lia.
  rewrite <- !Z.shiftr_shiftr in * by lia. by rewrite <- H', H.
Qed.

(** C29 Access control decides by the most specific rule: for rules written as
    IPv4 networks [a.b.c.d/p], listed so that none lies behind a rule whose
    network contains its own (the specific before the general), and a client
    address [a.b.c.d], the answer is that of the matching rule with the
    longest prefix, and yes if none matches. *)
Theorem access_by_prefix (rules : list v4_rule) client :
  quad_ok client -> Forall rule_ok rules -> unshadowed rules ->
  (forall r, r ∈ rules -> matches client r = true ->
     (forall r', r' ∈ rules -> matches client r' = true -> snd (snd r') <= snd (snd r)) ->
     check_access (map rule_text rules) (quad_text client) = allows r)
  /\ ((forall r, r ∈ rules -> matches client r = false) ->
     check_access (map rule_text rules) (quad_text client) = true).
Proof.
  intros Hc Hok Hun. rewrite first_match by done. split.
  - intros r Hr Hm Hlong. induction Hok as [|r0 rules Hr0 Hok IH]; [set_solver|].
    destruct Hun as [Hnot Hun]. cbn [List.find]. destruct (matches client r0) eqn:Hm0.
    + apply elem_of_cons in Hr as [->|Hr]; [done|]. exfalso. rewrite Forall_forall in Hnot, Hok.
      apply (Hnot r Hr), (matching_nested client); [done|by apply Hok|done|done|apply Hlong; set_solver].
    + apply IH; [done| |set_solver]. apply elem_of_cons in Hr as [->|Hr]; [congruence|done].
  - intros Hno. destruct (List.find _ _) as [r|] eqn:Hf; [|done].
    apply find_some in Hf as [Hin%list_elem_of_In Hm]. by rewrite Hno in Hm.
Qed.

(** A rule behind one that contains it has no effect. *)
Lemma general_rule_first_wins :
  check_access (allow (py "10.0.0.5") (deny (py "10.0.0.0/8") [])) (py "10.0.0.5") = false.
Proof. vm_compute. reflexivity. Qed.

(** A rule that is no network, such as a mistyped one, is passed over in
    silence: what it should deny is allowed. *)
Lemma mistyped_rule_ignored text rules ip :
  ip_network text = None -> check_rules ((Deny, text) :: rules) ip = check_rules rules ip.
Proof. intros H. simpl. by rewrite H. Qed.

(** *** Basic authentication *)

Lemma partition_first c a b : c ∉ a -> partition_char c (a ++ c :: b) = (a, true, b).
Proof.
  intros Ha. induction a as [|x a IH]; simpl; [by rewrite Z.eqb_refl|].
  destruct (Z.eqb_spec x c) as [->|]; [set_solver|]. rewrite IH by set_solver. done.
Qed.

(** The header that a client sends for a user and a password is accepted
    exactly when the password is the one of the user, or bcrypt accepts it. *)
Lemma basic_auth_exact `{Checkpw} user password raw a :
  58 ∉ user -> Forall is_codepoint (user ++ [58] ++ password) ->
  utf8_encode (user ++ [58] ++ password) = Some raw ->
  check_auth (Some (py "Basic " ++ b64encode raw)) a
  = match dget (ba_plain a) user, dget (ba_users a) user with
    | Some p, _ => Ok (str_eqb p password)
    | None, None => Ok false
    | None, Some hash =>
        match encode password, encode hash with
        | Ok p, Ok h =>
            match checkpw p h with
            | Ok b => Ok b
            | Err e => if is_ValueError e then Ok false else Err e
            end
        | Err e, _ | _, Err e => if is_ValueError e then Ok false else Err e
        end
    end.
Proof.
  intros Hu Hcp Hr. unfold check_auth.
  change (py "Basic " ++ b64encode raw) with (66 :: 97 :: 115 :: 105 :: 99 :: 32 :: b64encode raw).
  change (startswith (66 :: 97 :: 115 :: 105 :: 99 :: 32 :: b64encode raw) (py "Basic ")) with true. cbn [negb].
  unfold credentials. change (drop 6 (66 :: 97 :: 115 :: 105 :: 99 :: 32 :: b64encode raw)) with (b64encode raw).
  rewrite b64decode_encode by (by eapply utf8_encode_bytes).
  rewrite (utf8_roundtrip _ _ Hcp Hr). change (user ++ [58] ++ password) with (user ++ 58 :: password).
  rewrite partition_first by done. destruct (dget (ba_plain a) user); [done|]. by destruct (dget (ba_users a) user).
Qed.

(** ** A concrete run *)

Definition lan : quad := mkQuad 192 168 1 0.
Definition host9 : quad := mkQuad 192 168 1 9.

Lemma access_by_prefix_witness :
  check_access [(Allow, cidr_text host9 32); (Deny, cidr_text lan 24)] (quad_text host9) = true
  /\ check_access [(Allow, cidr_text host9 32); (Deny, cidr_text lan 24)] (quad_text (mkQuad 192 168 1 77)) = false.
Proof.
  assert (Hok : Forall rule_ok [(Allow, (host9, 32)); (Deny, (lan, 24))]).
  { repeat constructor; simpl; unfold octet; simpl; lia. }
  assert (Hun : unshadowed [(Allow, (host9, 32)); (Deny, (lan, 24))]).
  { repeat constructor. intros [H _]. simpl in H. lia. }
  split.
  - refine (proj1 (access_by_prefix [(Allow, (host9, 32)); (Deny, (lan, 24))] host9 _ Hok Hun) (Allow, (host9, 32)) _ _ _).
    + repeat split; simpl; unfold octet; simpl; lia.
    + left.
    + vm_compute. reflexivity.
    + intros r' [->|[->|[]%elem_of_nil]%elem_of_cons]%elem_of_cons _; simpl; lia.
  - refine (proj1 (access_by_prefix [(Allow, (host9, 32)); (Deny, (lan, 24))] (mkQuad 192 168 1 77) _ Hok Hun)
      (Deny, (lan, 24)) _ _ _).
    + repeat split; simpl; unfold octet; simpl; lia.
    + right. left.
    + vm_compute. reflexivity.
    + intros r' [->|[->|[]%elem_of_nil]%elem_of_cons]%elem_of_cons Hm; [|simpl; lia]. vm_compute in Hm. discriminate Hm.
Defined.

(** Samples of the parser: compressed, mapped, scoped and malformed texts. *)
Lemma ipv6_samples :
  ip_address (py "::1") = Some (V6 1)
  /\ ip_address (py "::ffff:1.2.3.4") = Some (V6 (65535 * 2 ^ 32 + 16909060))
  /\ ip_address (py "fe80::1%eth0") = Some (V6 (65152 * 2 ^ 112 + 1))
  /\ ip_address (py "1:2:3:4:5:6:7:8") = Some (V6 5192455318486707404433266433261576)
  /\ ip_address (py "1::2::3") = None /\ ip_address (py "1.2.3.04") = None /\ ip_address (py ":::") = None
  /\ ip_network (py "10.1.2.3/255.0.0.0") = Some (mkNetwork false 8 167772160)
  /\ ip_network (py "2001:db8::/32") = Some (mkNetwork true 32 (0x20010db8 * 2 ^ 96))
  /\ ip_network (py "10.0.0.0/33") = None.
Proof. vm_compute. repeat split. Qed.
End Security.
