(* ===== verification/ProxyConfig.v ===== *)
(** * Configuration of the proxy (src/proxy/config.py)

    [_parse_config] reads a dictionary that the YAML or JSON parser returned
    and checks hardly any types: most fields are copied as they are.  So the
    records of this file hold [json] values where the code copies them, and
    integers where it calls [int()].  [typed] reads such a configuration at
    the types the rest of the proxy assumes.

    An integer key of a YAML mapping is written as its decimal text, which
    [int()] reads back.  The double that a float literal denotes is behind the
    class [Floats]: its truncation and its microseconds. *)

From S2P Require Import Prelude PyStr Json Messages Protocol LoadBalancer Http.
Import Protocol LoadBalancer Http.

Module ProxyConfig.

Class Floats := {
  float_int : str -> result Z;        (* int(f); NaN and infinities raise *)
  float_micros : str -> Z
}.

Section Config.
Context {U : Unicode} {F : Floats}.

(** ** Python operations on a parsed value *)

Definition to_int (v : json) : result Z :=
  match v with
  | JInt n => Ok n
  | JBool b => Ok (if b then 1 else 0)
  | JFloat lit => float_int lit
  | JStr s => match int_of_str s with
              | Some n => Ok n
              | None => raise CValueError (py "invalid literal for int() with base 10: " ++ repr_str s)
              end
  | JNull | JList _ | JObj _ => raise CTypeError []
  end.

(** [v.get(k, dflt)]. *)
Definition get_of (v : json) (k : str) (dflt : json) : result json :=
  match v with
  | JObj d => Ok (default dflt (dget d k))
  | _ => raise CAttributeError []
  end.

(** [for x in v]. *)
Definition iter_of (v : json) : result (list json) :=
  match v with
  | JList l => Ok l
  | JObj d => Ok (map JStr (dkeys d))
  | JStr s => Ok (map (fun c => JStr [c]) s)
  | _ => raise CTypeError []
  end.

(** The results of a loop body that may raise. *)
Fixpoint rmap {A B} (f : A -> result B) (l : list A) : result (list B) :=
  match l with
  | [] => Ok []
  | x :: l' => let? y := f x in let? ys := rmap f l' in Ok (y :: ys)
  end.

(** ** Records *)

Record RawServer := mkRawServer {
  rs_host : json; rs_port : json; rs_weight : json; rs_max_conns : json; rs_backup : json; rs_down : json
}.

Record RawUpstream := mkRawUpstream {
  ru_name : json; ru_servers : list RawServer; ru_algorithm : json; ru_max_failures : json;
  ru_fail_timeout : json
}.

Record RawLocation := mkRawLocation {
  rl_path : json; rl_upstream : json; rl_root : json; rl_ssl : json; rl_cache : json;
  rl_cache_ttl : json; rl_compress : json; rl_rate_limit : json; rl_basic_auth : json;
  rl_ws_enabled : json; rl_ws_timeout : json; rl_ws_max_message_size : json; rl_ws_ping_interval : json
}.

Record SSLBlock := mkSSLBlock { ssl_cert : json; ssl_key : json; ssl_protocols : json }.

Record ProxyConfig := mkConfig {
  pc_workers : Z;
  pc_worker_connections : Z;
  pc_http : list Z;
  pc_https : list Z;
  pc_upstreams : list RawUpstream;
  pc_locations : list RawLocation;
  pc_ssl_blocks : list (Z * SSLBlock);
  pc_cache : option (json * json);                  (* path and size, if enabled *)
  pc_gzip : json * json * json;                     (* enabled, min_length, level *)
  pc_logs : json * json * json;                     (* access_log, error_log, log_format *)
  pc_admin_port : Z
}.

(** ** Parsing *)

Definition parse_port_list (v : json) : result (list Z) :=
  match v with
  | JInt n => Ok [n]
  | JBool b => Ok [if b then 1 else 0]
  | JList l => rmap to_int l
  | JStr s => rmap (fun p => to_int (JStr p)) (split s (py ",") None)
  | _ => Ok [80]
  end.

(** One entry of [servers]: a text, a dictionary, or nothing that counts. *)
Definition parse_server (s : json) : result (list RawServer) :=
  match s with
  | JStr s =>
      let '(host, _, port) := partition_char 58 s in
      let? p := (if bool_decide (port = []) then Ok 80 else to_int (JStr port)) in
      Ok [mkRawServer (JStr host) (JInt p) (JInt 1) (JInt 0) (JBool false) (JBool false)]
  | JObj d =>
      let g k dflt := default dflt (dget d k) in
      Ok [mkRawServer (g (py "host") (JStr [])) (g (py "port") (JInt 80)) (g (py "weight") (JInt 1))
            (g (py "max_conns") (JInt 0)) (g (py "backup") (JBool false)) (g (py "down") (JBool false))]
  | _ => Ok []
  end.

Definition parse_upstream (u : json) : result RawUpstream :=
  let? raw := get_of u (py "servers") (JList []) in
  let? items := iter_of raw in
  let? servers := rmap parse_server items in
  let? name := get_of u (py "name") (JStr []) in
  let? algorithm := get_of u (py "algorithm") (JStr (py "round_robin")) in
  let? max_failures := get_of u (py "max_failures") (JInt 3) in
  let? fail_timeout := get_of u (py "fail_timeout") (JInt 10) in
  Ok (mkRawUpstream name (concat servers) algorithm max_failures fail_timeout).

Definition parse_location (l : json) : result RawLocation :=
  match l with
  | JObj d =>
      let g k dflt := default dflt (dget d k) in
      Ok (mkRawLocation (g (py "path") (JStr (py "/"))) (g (py "upstream") (JStr []))
            (g (py "root") (JStr [])) (g (py "ssl") (JBool false)) (g (py "cache") (JBool false))
            (g (py "cache_ttl") (JInt 300)) (g (py "compress") (JBool true))
            (g (py "rate_limit") (JInt 0)) (g (py "basic_auth") (JStr []))
            (g (py "ws_enabled") (JBool true)) (g (py "ws_timeout") (JFloat (py "300.0")))
            (g (py "ws_max_message_size") (JInt (1024 * 1024)))
            (g (py "ws_ping_interval") (JFloat (py "30.0"))))
  | _ => raise CAttributeError []
  end.

Definition default_protocols : json := JList [JStr (py "TLSv1.2"); JStr (py "TLSv1.3")].

(** The loop over [raw["ssl"].items()]: a later entry of the same port wins. *)
Fixpoint parse_ssl (items : list (str * json)) (acc : list (Z * SSLBlock)) : result (list (Z * SSLBlock)) :=
  match items with
  | [] => Ok acc
  | (port_str, raw) :: items' =>
      let? port := to_int (JStr port_str) in
      let? cert := get_of raw (py "cert") (JStr []) in
      let? key := get_of raw (py "key") (JStr []) in
      let? protocols := get_of raw (py "protocols") default_protocols in
      parse_ssl items' (dset acc port (mkSSLBlock cert key protocols))
  end.

Definition items_of (v : json) : result (list (str * json)) :=
  match v with JObj d => Ok d | _ => raise CAttributeError [] end.

(** [if k in raw: field = f(raw[k])]. *)
Definition if_present {A} (raw : list (str * json)) (k : str) (dflt : A) (f : json -> result A) : result A :=
  match dget raw k with Some v => f v | None => Ok dflt end.

Definition DEFAULT_CACHE_PATH : str := py "/tmp/lnproxy-cache".
Definition DEFAULT_CACHE_SIZE : Z := 1024 * 1024 * 100.

Definition parse_cache (c : json) : result (option (json * json)) :=
  let? path := get_of c (py "path") (JStr DEFAULT_CACHE_PATH) in
  let? size := get_of c (py "max_size") (JInt DEFAULT_CACHE_SIZE) in
  Ok (Some (path, size)).

Definition parse_gzip (g : json) : result (json * json * json) :=
  let? enabled := get_of g (py "enabled") (JBool true) in
  let? min_length := get_of g (py "min_length") (JInt 256) in
  let? level := get_of g (py "level") (JInt 6) in
  Ok (enabled, min_length, level).

Definition parse_admin (a : json) : result Z :=
  let? p := get_of a (py "port") (JInt 54010) in to_int p.

Definition parse_config (raw : list (str * json)) : result ProxyConfig :=
  let? workers := if_present raw (py "workers") 0 to_int in
  let? conns := if_present raw (py "worker_connections") 1024 to_int in
  let? http := if_present raw (py "http") [80] parse_port_list in
  let? https := if_present raw (py "https") [443] parse_port_list in
  let? us := iter_of (default (JList []) (dget raw (py "upstreams"))) in
  let? upstreams := rmap parse_upstream us in
  let? ls := iter_of (default (JList []) (dget raw (py "locations"))) in
  let? locations := rmap parse_location ls in
  let? ss := items_of (default (JObj []) (dget raw (py "ssl"))) in
  let? ssl := parse_ssl ss [] in
  let? cache := if_present raw (py "cache") None parse_cache in
  let? gzip := if_present raw (py "gzip") (JBool true, JInt 256, JInt 6) parse_gzip in
  let logs := (default (JStr []) (dget raw (py "access_log")), default (JStr []) (dget raw (py "error_log")),
               default (JStr (py "combined")) (dget raw (py "log_format"))) in
  let? admin := if_present raw (py "admin") 54010 parse_admin in
  Ok (mkConfig workers conns http https upstreams locations ssl cache gzip logs admin).

(** What is raised for a parsed value that is no dictionary: the first tests
    [k in raw] fail, or find the key and index with it. *)
Definition first_keys : list str := [py "workers"; py "worker_connections"; py "http"; py "https"].

Definition not_a_dict (v : json) : exc_class :=
  match v with
  | JList l => if existsb (fun k => bool_decide (JStr k ∈ l)) first_keys then CTypeError else CAttributeError
  | JStr s => if existsb (contains s) first_keys then CTypeError else CAttributeError
  | _ => CTypeError
  end.

(** [load_config] of a file: [None] if it is missing, else what the parser of
    its format returns or raises. *)
Definition load_config (parsed : option (result json)) : result ProxyConfig :=
  match parsed with
  | None => raise COSError (py "config file not found")
  | Some r =>
      let? v := r in
      match v with
      | JNull => parse_config []
      | JObj d => parse_config d
      | _ => raise (not_a_dict v) []
      end
  end.

(** ** The types that the proxy assumes *)

Definition as_str (v : json) : option str := match v with JStr s => Some s | _ => None end.
Definition as_int (v : json) : option Z := match v with JInt n => Some n | _ => None end.
Definition as_bool (v : json) : option bool := match v with JBool b => Some b | _ => None end.
Definition as_time (v : json) : option time :=
  match v with JInt n => Some (n * SEC) | JFloat lit => Some (float_micros lit) | _ => None end.

Definition typed_server (r : RawServer) : option UpstreamServer :=
  h ← as_str (rs_host r); p ← as_int (rs_port r); w ← as_int (rs_weight r); m ← as_int (rs_max_conns r);
  b ← as_bool (rs_backup r); d ← as_bool (rs_down r);
  Some (mkServer h p w m b d).

Definition typed_upstream (r : RawUpstream) : option (str * list UpstreamServer * str) :=
  n ← as_str (ru_name r); ss ← mapM typed_server (ru_servers r); a ← as_str (ru_algorithm r);
  _ ← as_int (ru_max_failures r); _ ← as_int (ru_fail_timeout r);
  Some (n, ss, a).

Definition typed_location (r : RawLocation) : option LocationBlock :=
  path ← as_str (rl_path r); up ← as_str (rl_upstream r); root ← as_str (rl_root r);
  ssl ← as_bool (rl_ssl r); cache ← as_bool (rl_cache r); ttl ← as_int (rl_cache_ttl r);
  compress ← as_bool (rl_compress r); limit ← as_int (rl_rate_limit r); auth ← as_str (rl_basic_auth r);
  ws ← as_bool (rl_ws_enabled r); ws_to ← as_time (rl_ws_timeout r);
  ws_max ← as_int (rl_ws_max_message_size r); ws_ping ← as_time (rl_ws_ping_interval r);
  Some (mkLocation path up root ssl cache ttl compress limit auth ws ws_to ws_max ws_ping).

(** The configuration as a worker reads it. *)
Record TypedConfig := mkTyped {
  tc_upstreams : list (str * list UpstreamServer * str);      (* name, servers, algorithm *)
  tc_locations : list LocationBlock;
  tc_gzip : bool * Z * Z
}.

Definition typed (c : ProxyConfig) : option TypedConfig :=
  us ← mapM typed_upstream (pc_upstreams c); ls ← mapM typed_location (pc_locations c);
  e ← as_bool (fst (fst (pc_gzip c))); m ← as_int (snd (fst (pc_gzip c))); l ← as_int (snd (pc_gzip c));
  Some (mkTyped us ls (e, m, l)).

(** ** The documented form of the file *)

Definition is_str (v : json) : bool := match v with JStr _ => true | _ => false end.
Definition is_int (v : json) : bool := match v with JInt _ => true | _ => false end.
Definition is_bool (v : json) : bool := match v with JBool _ => true | _ => false end.
Definition is_time (v : json) : bool := match v with JInt _ | JFloat _ => true | _ => false end.

(** Every key of the table that occurs has a value of its kind. *)
Definition fields_ok (table : list (str * (json -> bool))) (d : list (str * json)) : bool :=
  forallb (fun kp => match dget d (fst kp) with Some v => snd kp v | None => true end) table.

Definition is_obj (table : list (str * (json -> bool))) (v : json) : bool :=
  match v with JObj d => fields_ok table d | _ => false end.

Definition is_list_of (p : json -> bool) (v : json) : bool :=
  match v with JList l => forallb p l | _ => false end.

Definition int_text (s : str) : bool := match int_of_str s with Some _ => true | None => false end.

(** A server is [host], [host:port] or a dictionary. *)
Definition server_table : list (str * (json -> bool)) :=
  [(py "host", is_str); (py "port", is_int); (py "weight", is_int); (py "max_conns", is_int);
   (py "backup", is_bool); (py "down", is_bool)].
Definition server_schema (v : json) : bool :=
  match v with
  | JStr s => let '(_, _, port) := partition_char 58 s in bool_decide (port = []) || int_text port
  | v => is_obj server_table v
  end.

Definition upstream_table : list (str * (json -> bool)) :=
  [(py "servers", is_list_of server_schema); (py "name", is_str); (py "algorithm", is_str);
   (py "max_failures", is_int); (py "fail_timeout", is_int)].

Definition location_table : list (str * (json -> bool)) :=
  [(py "path", is_str); (py "upstream", is_str); (py "root", is_str); (py "ssl", is_bool);
   (py "cache", is_bool); (py "cache_ttl", is_int); (py "compress", is_bool); (py "rate_limit", is_int);
   (py "basic_auth", is_str); (py "ws_enabled", is_bool); (py "ws_timeout", is_time);
   (py "ws_max_message_size", is_int); (py "ws_ping_interval", is_time)].

Definition ports_schema (v : json) : bool :=
  match v with
  | JInt _ => true
  | JList l => forallb is_int l
  | JStr s => forallb int_text (split s (py ",") None)
  | _ => false
  end.

Definition ssl_schema (v : json) : bool :=
  match v with
  | JObj d => forallb (fun kv => int_text (fst kv) && is_obj [] (snd kv)) d
  | _ => false
  end.

Definition config_table : list (str * (json -> bool)) :=
  [(py "workers", is_int); (py "worker_connections", is_int); (py "http", ports_schema);
   (py "https", ports_schema); (py "upstreams", is_list_of (is_obj upstream_table));
   (py "locations", is_list_of (is_obj location_table)); (py "ssl", ssl_schema);
   (py "cache", is_obj []);
   (py "gzip", is_obj [(py "enabled", is_bool); (py "min_length", is_int); (py "level", is_int)]);
   (py "admin", is_obj [(py "port", is_int)])].

Definition config_schema (d : list (str * json)) : bool := fields_ok config_table d.

(** ** Documents of that form are read *)

Lemma fields_ok_get table d k p dflt :
  fields_ok table d = true -> (k, p) ∈ table -> p dflt = true -> p (default dflt (dget d k)) = true.
Proof.
  unfold fields_ok. rewrite forallb_forall. intros H Hin Hd. apply list_elem_of_In in Hin.
  specialize (H _ Hin). simpl in H. by destruct (dget d k).
Qed.

Lemma is_str_as v : is_str v = true -> exists s, as_str v = Some s.
Proof. destruct v; try done. by eexists. Qed.
Lemma is_int_as v : is_int v = true -> exists n, as_int v = Some n.
Proof. destruct v; try done. by eexists. Qed.
Lemma is_bool_as v : is_bool v = true -> exists b, as_bool v = Some b.
Proof. destruct v; try done. by eexists. Qed.
Lemma is_time_as v : is_time v = true -> exists t, as_time v = Some t.
Proof. destruct v; try done; by eexists. Qed.

(** Read field [k] with its default at its type. *)
Ltac read_field H k dflt :=
  let E := fresh "E" in
  first
  [ destruct (is_str_as _ (fields_ok_get _ _ k is_str dflt H ltac:(by_eval_in) eq_refl)) as [? E]
  | destruct (is_int_as _ (fields_ok_get _ _ k is_int dflt H ltac:(by_eval_in) eq_refl)) as [? E]
  | destruct (is_bool_as _ (fields_ok_get _ _ k is_bool dflt H ltac:(by_eval_in) eq_refl)) as [? E]
  | destruct (is_time_as _ (fields_ok_get _ _ k is_time dflt H ltac:(by_eval_in) eq_refl)) as [? E] ]
with by_eval_in := repeat (first [left; reflexivity | right]).

Lemma parse_server_typed v :
  server_schema v = true -> exists rs, parse_server v = Ok rs /\ Forall (fun r => is_Some (typed_server r)) rs.
Proof.
  destruct v; try done.
  - simpl. destruct (partition_char 58 s) as [[h f] port]. intros H. case_bool_decide; simpl.
    + eexists. split; [done|]. by repeat constructor.
    + simpl in H. unfold int_text in H. destruct (int_of_str port); [|done]. simpl.
      eexists. split; [done|]. by repeat constructor.
  - cbn [server_schema is_obj]. intros H. eexists. split; [done|]. constructor; [|constructor].
    unfold typed_server. cbn [rs_host rs_port rs_weight rs_max_conns rs_backup rs_down].
    read_field H (py "host") (JStr []). 
    read_field H (py "port") (JInt 80).
    read_field H (py "weight") (JInt 1).
    read_field H (py "max_conns") (JInt 0).
    read_field H (py "backup") (JBool false).
    read_field H (py "down") (JBool false).
    rewrite E, E0, E1, E2, E3, E4. by eexists.
Qed.

Lemma rmap_ok {A B} (f : A -> result B) (P : B -> Prop) l :
  Forall (fun x => exists y, f x = Ok y /\ P y) l -> exists ys, rmap f l = Ok ys /\ Forall P ys.
Proof.
  induction 1 as [|x l (y & Hy & HP) _ (ys & Hys & HPs)]; [by exists []|].
  exists (y :: ys). simpl. rewrite Hy. simpl. rewrite Hys. by split; [|constructor].
Qed.

Lemma rmap_forallb {A B} (f : A -> result B) (p : A -> bool) (P : B -> Prop) l :
  (forall x, p x = true -> exists y, f x = Ok y /\ P y) -> forallb p l = true ->
  exists ys, rmap f l = Ok ys /\ Forall P ys.
Proof.
  intros Hf H. apply rmap_ok, Forall_forall. intros x Hx%list_elem_of_In.
  apply Hf. rewrite forallb_forall in H. by apply H.
Qed.

Lemma mapM_typed {A B} (f : A -> option B) l : Forall (fun x => is_Some (f x)) l -> is_Some (mapM f l).
Proof.
  induction 1 as [|x l [y Hy] _ [ys Hys]]; [by eexists|].
  exists (y :: ys). simpl. rewrite Hy. simpl. by rewrite Hys.
Qed.

Lemma is_list_get table d k p :
  fields_ok table d = true -> (k, is_list_of p) ∈ table ->
  exists l, default (JList []) (dget d k) = JList l /\ forallb p l = true.
Proof.
  intros H Hin. pose proof (fields_ok_get table d k (is_list_of p) (JList []) H Hin eq_refl) as Hl.
  destruct (default (JList []) (dget d k)); try done. by eexists.
Qed.

Lemma parse_upstream_typed v :
  is_obj upstream_table v = true -> exists r, parse_upstream v = Ok r /\ is_Some (typed_upstream r).
Proof.
  destruct v; try done. cbn [is_obj]. intros H.
  destruct (is_list_get _ _ (py "servers") server_schema H) as (l & Hl & Hf); [by_eval_in|].
  destruct (rmap_forallb _ _ _ _ parse_server_typed Hf) as (rss & Hr & Ht).
  unfold parse_upstream. cbn [get_of rbind]. rewrite Hl. cbn [iter_of rbind]. rewrite Hr. cbn [rbind].
  eexists. split; [done|]. unfold typed_upstream.
  cbn [ru_name ru_servers ru_algorithm ru_max_failures ru_fail_timeout].
  read_field H (py "name") (JStr []).
  read_field H (py "algorithm") (JStr (py "round_robin")).
  read_field H (py "max_failures") (JInt 3).
  read_field H (py "fail_timeout") (JInt 10).
  destruct (mapM_typed typed_server (concat rss)) as [ss Hss].
  { clear -Ht. induction Ht; simpl; [constructor|]. by apply Forall_app. }
  rewrite E. simpl. rewrite Hss. simpl. rewrite E0, E1, E2. by eexists.
Qed.

Lemma parse_location_typed v :
  is_obj location_table v = true -> exists r, parse_location v = Ok r /\ is_Some (typed_location r).
Proof.
  destruct v; try done. cbn [is_obj]. intros H. eexists. split; [done|]. unfold typed_location.
  cbn [rl_path rl_upstream rl_root rl_ssl rl_cache rl_cache_ttl rl_compress rl_rate_limit rl_basic_auth
    rl_ws_enabled rl_ws_timeout rl_ws_max_message_size rl_ws_ping_interval].
  read_field H (py "path") (JStr (py "/")). rewrite E; clear E.
  read_field H (py "upstream") (JStr []). rewrite E; clear E.
  read_field H (py "root") (JStr []). rewrite E; clear E.
  read_field H (py "ssl") (JBool false). rewrite E; clear E.
  read_field H (py "cache") (JBool false). rewrite E; clear E.
  read_field H (py "cache_ttl") (JInt 300). rewrite E; clear E.
  read_field H (py "compress") (JBool true). rewrite E; clear E.
  read_field H (py "rate_limit") (JInt 0). rewrite E; clear E.
  read_field H (py "basic_auth") (JStr []). rewrite E; clear E.
  read_field H (py "ws_enabled") (JBool true). rewrite E; clear E.
  read_field H (py "ws_timeout") (JFloat (py "300.0")). rewrite E; clear E.
  read_field H (py "ws_max_message_size") (JInt (1024 * 1024)). rewrite E; clear E.
  read_field H (py "ws_ping_interval") (JFloat (py "30.0")). rewrite E; clear E.
  by eexists.
Qed.

Lemma to_int_text s : int_text s = true -> exists n, to_int (JStr s) = Ok n.
Proof. unfold int_text. simpl. destruct (int_of_str s); [|done]. by eexists. Qed.

Lemma parse_ports v : ports_schema v = true -> exists ps, parse_port_list v = Ok ps.
Proof.
  destruct v; try done; cbn [parse_port_list ports_schema]; [by eexists|..]; intros H.
  - destruct (rmap_forallb (fun p => to_int (JStr p)) int_text (fun _ => True) _
      (fun x Hx => let (n, Hn) := to_int_text x Hx in ex_intro _ n (conj Hn I)) H) as (ps & -> & _). by eexists.
  - assert (forall x, is_int x = true -> exists y, to_int x = Ok y /\ True) as Hi
      by (intros []; try done; by eexists).
    destruct (rmap_forallb to_int is_int _ _ Hi H) as (ps & -> & _). by eexists.
Qed.

Lemma parse_ssl_ok d : forall acc,
  forallb (fun kv => int_text (fst kv) && is_obj [] (snd kv)) d = true -> exists r, parse_ssl d acc = Ok r.
Proof.
  induction d as [|[k v] d IH]; intros acc H; [by eexists|]. simpl in H.
  apply andb_true_iff in H as [[Hk Hv]%andb_true_iff Hd]. destruct (to_int_text _ Hk) as [n Hn].
  destruct v; try done. cbn [parse_ssl]. rewrite Hn. cbn [rbind get_of]. by apply IH.
Qed.

Lemma if_present_ok {A} table d k p (dflt : A) f :
  fields_ok table d = true -> (k, p) ∈ table -> (forall v, p v = true -> exists a, f v = Ok a) ->
  exists a, if_present d k dflt f = Ok a.
Proof.
  unfold fields_ok, if_present. rewrite forallb_forall. intros H Hin Hf.
  apply list_elem_of_In in Hin. specialize (H _ Hin). simpl in H.
  destruct (dget d k); [by apply Hf|by eexists].
Qed.

Lemma to_int_ok v : is_int v = true -> exists n, to_int v = Ok n.
Proof. destruct v; try done. by eexists. Qed.

(** The three gzip fields are read at their types. *)
Lemma gzip_typed d :
  config_schema d = true ->
  exists e m l,
    if_present d (py "gzip") (JBool true, JInt 256, JInt 6) parse_gzip = Ok (JBool e, JInt m, JInt l).
Proof.
  intros H. unfold if_present.
  destruct (dget d (py "gzip")) as [g|] eqn:Hg; [|by do 3 eexists].
  assert (is_obj [(py "enabled", is_bool); (py "min_length", is_int); (py "level", is_int)] g = true) as Ho.
  { pose proof (fields_ok_get _ d (py "gzip")
      (is_obj [(py "enabled", is_bool); (py "min_length", is_int); (py "level", is_int)]) (JObj []) H
      ltac:(by_eval_in) eq_refl) as Hx. by rewrite Hg in Hx. }
  destruct g; try done. cbn [is_obj] in Ho. unfold parse_gzip. cbn [get_of rbind].
  pose proof (fields_ok_get _ _ (py "enabled") is_bool (JBool true) Ho ltac:(by_eval_in) eq_refl) as H1.
  pose proof (fields_ok_get _ _ (py "min_length") is_int (JInt 256) Ho ltac:(by_eval_in) eq_refl) as H2.
  pose proof (fields_ok_get _ _ (py "level") is_int (JInt 6) Ho ltac:(by_eval_in) eq_refl) as H3.
  destruct (default _ (dget d0 (py "enabled"))); try done.
  destruct (default _ (dget d0 (py "min_length"))); try done.
  destruct (default _ (dget d0 (py "level"))); try done. by do 3 eexists.
Qed.

Lemma schema_parses d : config_schema d = true -> exists c t, parse_config d = Ok c /\ typed c = Some t.
Proof.
  intros H. unfold parse_config.
  destruct (if_present_ok _ d (py "workers") is_int 0 to_int H) as [w ->]; [by_eval_in|apply to_int_ok|].
  destruct (if_present_ok _ d (py "worker_connections") is_int 1024 to_int H) as [wc ->];
    [by_eval_in|apply to_int_ok|].
  destruct (if_present_ok _ d (py "http") ports_schema [80] parse_port_list H) as [h ->];
    [by_eval_in|apply parse_ports|].
  destruct (if_present_ok _ d (py "https") ports_schema [443] parse_port_list H) as [hs ->];
    [by_eval_in|apply parse_ports|]. cbn [rbind].
  destruct (is_list_get _ d (py "upstreams") (is_obj upstream_table) H) as (ul & -> & Hu); [by_eval_in|].
  destruct (is_list_get _ d (py "locations") (is_obj location_table) H) as (ll & -> & Hl); [by_eval_in|].
  cbn [iter_of rbind].
  destruct (rmap_forallb _ _ _ _ parse_upstream_typed Hu) as (us & -> & Tu). cbn [rbind].
  destruct (rmap_forallb _ _ _ _ parse_location_typed Hl) as (ls & -> & Tl). cbn [rbind].
  pose proof (fields_ok_get _ d (py "ssl") ssl_schema (JObj []) H ltac:(by_eval_in) eq_refl) as Hs.
  destruct (default (JObj []) (dget d (py "ssl"))); try done. cbn [items_of rbind].
  destruct (parse_ssl_ok d0 [] Hs) as [sb ->]. cbn [rbind].
  edestruct (if_present_ok config_table d (py "cache") (is_obj []) None parse_cache) as [ca ->]; [exact H|by_eval_in| |].
  { intros [] Hv; try done. unfold parse_cache. cbn [get_of rbind]. by eexists. }
  destruct (gzip_typed d H) as (e & m & l & ->). cbn [rbind].
  edestruct (if_present_ok config_table d (py "admin") (is_obj [(py "port", is_int)]) 54010 parse_admin) as [ad ->]; [exact H|by_eval_in| |].
  { intros [] Hv; try done. unfold parse_admin. cbn [get_of rbind]. apply to_int_ok.
    by apply (fields_ok_get _ _ (py "port") is_int (JInt 54010) Hv); [by_eval_in|]. }
  destruct (mapM_typed _ _ Tu) as [tu Hu'], (mapM_typed _ _ Tl) as [tl Hl'].
  cbn [rbind]. do 2 eexists. split; [done|]. unfold typed. cbn [pc_upstreams pc_locations pc_gzip fst snd].
  rewrite Hu', Hl'. reflexivity.
Qed.

(** A server given as text is the server of the same dictionary. *)
Lemma server_text host port :
  0 <= port -> Forall (fun c => c <> 58) host ->
  parse_server (JStr (host ++ [58] ++ dec port)) =
  parse_server (JObj [(py "host", JStr host); (py "port", JInt port)]).
Proof.
  intros Hp Hh. cbn [parse_server].
  assert (partition_char 58 (host ++ [58] ++ dec port) = (host, true, dec port)) as ->.
  { induction Hh as [|c host Hc _ IH]; [done|]. simpl. destruct (Z.eqb_spec c 58); [done|].
    simpl in IH. by rewrite IH. }
  assert (dec port <> []) as Hne.
  { intros E. pose proof (int_of_str_dec port Hp) as Hd. rewrite E in Hd. discriminate. }
  rewrite bool_decide_false by done. cbn [to_int]. rewrite int_of_str_dec by done. reflexivity.
Qed.
End Config.
End ProxyConfig.
