(* ===== verification/ProxyProcess.v ===== *)
(** * The processes of the proxy (src/proxy/worker.py, src/proxy/master.py)

    A worker builds its balancers from the configuration and serves each
    connection with [Connection]; [worker_init] is the part that can fail.

    The master is a loop that restarts dead workers, interrupted by signal
    handlers.  [Master] is its state together with what the operating system
    keeps for it: the live worker processes and the open listen sockets.  The
    loop iterates over a list object: [Detached l] is the position of a loop
    whose list [reload] has replaced in the meantime.  Whether a port can be
    bound is a parameter; a worker that is terminated and joined, or killed,
    is dead. *)

From S2P Require Import Prelude PyStr Json Messages Protocol LoadBalancer HealthCheck Status Http WebSocket Connection ProxyConfig.
Import LoadBalancer HealthCheck Http Connection ProxyConfig.

Module ProxyProcess.

(** ** A worker *)

Definition worker_upstreams (t : TypedConfig) : list (str * list UpstreamServer) :=
  foldl (fun d u => dset d (fst (fst u)) (snd (fst u))) [] (tc_upstreams t).

Fixpoint worker_balancers (us : list (str * list UpstreamServer * str)) (d : list (str * Balancer))
  : result (list (str * Balancer)) :=
  match us with
  | [] => Ok d
  | (name, _, algorithm) :: us' =>
      let? b := create_balancer algorithm in worker_balancers us' (dset d name b)
  end.

(** [WorkerProcess.__init__]: what a connection of the worker is given. *)
Definition worker_init (t : TypedConfig) : result Proxy :=
  let upstreams := worker_upstreams t in
  let? balancers := worker_balancers (tc_upstreams t) [] in
  let '(enabled, min_length, level) := tc_gzip t in
  Ok (mkProxy (tc_locations t) upstreams balancers (Some (new_monitor 3 (10 * SEC)))
        (if (enabled : bool) then Some (mkGzip level min_length) else None)).

(** ** The master *)

(** The loop sleeps, or is at an index of the list it iterates over. *)
Inductive pos :=
  | Sleeping
  | Reaping (i : nat)
  | Detached (l : list nat) (i : nat).

Record Master := mkMaster {
  ms_running : bool;
  ms_workers : list nat;             (* process ids *)
  ms_sockets : list (Z * nat);
  ms_pos : pos;
  ms_alive : gset nat;
  ms_next : nat;
  ms_open : gset nat                 (* listen sockets *)
}.

Definition set_pos (p : pos) (m : Master) : Master :=
  mkMaster (ms_running m) (ms_workers m) (ms_sockets m) p (ms_alive m) (ms_next m) (ms_open m).

(** [_bind]: the new socket replaces the one of the same port in the table. *)
Definition bind (binds : Z -> bool) (port : Z) (m : Master) : result Master :=
  if binds port then
    let sock := ms_next m in
    Ok (mkMaster (ms_running m) (ms_workers m) (dset (ms_sockets m) port sock) (ms_pos m) (ms_alive m)
          (S sock) ({[sock]} ∪ ms_open m))
  else raise COSError [].

Fixpoint bind_all (binds : Z -> bool) (ports : list Z) (m : Master) : result Master :=
  match ports with
  | [] => Ok m
  | p :: ports' => let? m' := bind binds p m in bind_all binds ports' m'
  end.

(** A new process. *)
Definition start_process (m : Master) : nat * Master :=
  (ms_next m, mkMaster (ms_running m) (ms_workers m) (ms_sockets m) (ms_pos m)
                ({[ms_next m]} ∪ ms_alive m) (S (ms_next m)) (ms_open m)).

Definition set_workers (l : list nat) (m : Master) : Master :=
  mkMaster (ms_running m) l (ms_sockets m) (ms_pos m) (ms_alive m) (ms_next m) (ms_open m).

Definition spawn_worker (m : Master) : Master :=
  let (pid, m') := start_process m in set_workers (ms_workers m' ++ [pid]) m'.

Fixpoint spawn_workers (n : nat) (m : Master) : Master :=
  match n with O => m | S n' => spawn_workers n' (spawn_worker m) end.

(** [config.workers or os.cpu_count() or 1], the argument of [range]. *)
Definition worker_count (workers : Z) (cpu_count : option Z) : nat :=
  Z.to_nat (if workers =? 0 then match cpu_count with
                                 | Some n => if n =? 0 then 1 else n
                                 | None => 1
                                 end
            else workers).

Definition init : Master := mkMaster true [] [] (Reaping 0) ∅ 0 ∅.

(** [start] up to its loop. *)
Definition start (binds : Z -> bool) (cpu_count : option Z) (c : ProxyConfig) : result Master :=
  let? m := bind_all binds (pc_http c ++ pc_https c) init in
  Ok (spawn_workers (worker_count (pc_workers c) cpu_count) m).

(** One element of the loop of [_reap_workers]. *)
Definition reap_turn (m : Master) : Master :=
  let turn l i next :=
    match l !! i with
    | None => set_pos Sleeping m
    | Some pid =>
        if bool_decide (pid ∈ ms_alive m) then set_pos next m
        else let (new, m') := start_process m in
             set_pos next (set_workers (<[i := new]> (ms_workers m')) m')
    end in
  match ms_pos m with
  | Sleeping => m
  | Reaping i => turn (ms_workers m) i (Reaping (S i))
  | Detached l i => turn l i (Detached l (S i))
  end.

(** Terminated, joined, and killed if that took too long. *)
Definition stop_processes (l : list nat) (m : Master) : Master :=
  mkMaster (ms_running m) (ms_workers m) (ms_sockets m) (ms_pos m) (ms_alive m ∖ list_to_set l)
    (ms_next m) (ms_open m).

Definition reload (m : Master) : Master :=
  let old := ms_workers m in
  let m := set_pos (match ms_pos m with Reaping i => Detached old i | p => p end) m in
  stop_processes old (spawn_workers (length old) (set_workers [] m)).

Definition shutdown (m : Master) : Master :=
  let m := stop_processes (ms_workers m) m in
  mkMaster false (ms_workers m) (ms_sockets m) (ms_pos m) (ms_alive m) (ms_next m)
    (ms_open m ∖ list_to_set (dvals (ms_sockets m))).

(** ** Runs

    A worker may die at any time, and a signal arrive at any time; [always]
    tells whether a SIGHUP may also interrupt the loop over the workers or
    come within [shutdown] ([reload] does not look at [_running]), where it
    takes effect behind the loops of [shutdown]. *)
Inductive mstep (always : bool) : Master -> Master -> Prop :=
  | step_crash m pid :
      mstep always m
        (mkMaster (ms_running m) (ms_workers m) (ms_sockets m) (ms_pos m) (ms_alive m ∖ {[pid]})
           (ms_next m) (ms_open m))
  | step_wake m : ms_running m = true -> ms_pos m = Sleeping -> mstep always m (set_pos (Reaping 0) m)
  | step_reap m : ms_running m = true -> mstep always m (reap_turn m)
  | step_reload m :
      always = true \/ (ms_running m = true /\ ms_pos m = Sleeping) -> mstep always m (reload m)
  | step_shutdown m : ms_running m = true -> mstep always m (shutdown m).

(** ** Spawning *)

Lemma spawn_workers_eq n : forall m,
  spawn_workers n m =
  mkMaster (ms_running m) (ms_workers m ++ seq (ms_next m) n) (ms_sockets m) (ms_pos m)
    (list_to_set (seq (ms_next m) n) ∪ ms_alive m) (ms_next m + n) (ms_open m).
Proof.
  induction n as [|n IH]; intros m; simpl.
  - rewrite app_nil_r, Nat.add_0_r, union_empty_l_L. by destruct m.
  - rewrite IH. simpl. rewrite <- app_assoc, Nat.add_succ_r. f_equal. set_solver.
Qed.

Lemma bind_all_ok binds : forall ports m m',
  bind_all binds ports m = Ok m' -> NoDup ports -> (forall p, p ∈ ports -> dget (ms_sockets m) p = None) ->
  ms_open m ⊆ list_to_set (dvals (ms_sockets m)) ->
  ms_open m' ⊆ list_to_set (dvals (ms_sockets m')) /\ ms_workers m' = ms_workers m /\
  ms_alive m' = ms_alive m /\ ms_running m' = ms_running m /\ ms_pos m' = ms_pos m.
Proof.
  induction ports as [|p ports IH]; intros m m' H Hnd Hnew Hsub; simpl in H; [by simplify_eq|].
  unfold bind in H. destruct (binds p); [|done]. simpl in H. apply NoDup_cons in Hnd as [Hp Hnd].
  apply IH in H; [exact H|done|..]; simpl.
  - intros q Hq. rewrite dget_dset_ne by set_solver. apply Hnew. set_solver.
  - rewrite dset_new by (apply Hnew; set_solver). unfold dvals in *. rewrite map_app, list_to_set_app_L.
    simpl. set_solver.
Qed.

(** ** The invariant *)

Definition supervised (n : nat) (m : Master) : Prop :=
  length (ms_workers m) = n /\ NoDup (ms_workers m) /\
  (forall p, p ∈ ms_workers m -> (p < ms_next m)%nat) /\
  ms_alive m ⊆ list_to_set (ms_workers m) /\
  ms_open m ⊆ list_to_set (dvals (ms_sockets m)) /\
  match ms_pos m with Detached _ _ => False | _ => True end.

Definition tidy (n : nat) (m : Master) : Prop :=
  if ms_running m then supervised n m else ms_alive m = ∅ /\ ms_open m = ∅.

Lemma start_tidy binds cpu c m :
  NoDup (pc_http c ++ pc_https c) -> start binds cpu c = Ok m ->
  tidy (worker_count (pc_workers c) cpu) m.
Proof.
  intros Hnd H. apply rbind_Ok in H as (m0 & Hb & H). apply Ok_inj in H as <-.
  destruct (bind_all_ok _ _ _ _ Hb Hnd) as (Ho & Hw & Ha & Hr & Hp); [done|set_solver|].
  rewrite spawn_workers_eq. unfold tidy, supervised. simpl. rewrite Hw, Ha, Hr, Hp. simpl.
  split_and!; [apply length_seq|apply NoDup_seq| |set_solver|done|done].
  intros p Hin%elem_of_seq. lia.
Qed.

Lemma reload_tidy n m : supervised n m -> ms_running m = true -> ms_pos m = Sleeping -> tidy n (reload m).
Proof.
  intros (Hl & Hnd & Hlt & Ha & Ho & _) Hr Hp. unfold reload. rewrite spawn_workers_eq, Hp.
  unfold tidy, supervised. simpl. rewrite Hr. split_and!; [by rewrite length_seq|apply NoDup_seq| |set_solver|done|done].
  intros p Hin%elem_of_seq. lia.
Qed.

Lemma elem_of_insert_or {A} (l : list A) i x q : q ∈ <[i := x]> l -> q = x \/ q ∈ l.
Proof.
  intros [j Hj]%list_elem_of_lookup. apply list_lookup_insert_Some in Hj as [(-> & -> & _)|[_ Hj]]; [by left|].
  right. apply list_elem_of_lookup. by exists j.
Qed.

Lemma NoDup_insert_fresh {A} (l : list A) i x : NoDup l -> x ∉ l -> NoDup (<[i := x]> l).
Proof.
  rewrite !NoDup_alt. intros Hl Hx j k y Hj Hk.
  assert (forall a, l !! a <> Some x) as Hn by (intros a Ha; apply Hx, list_elem_of_lookup; by exists a).
  apply list_lookup_insert_Some in Hj, Hk.
  destruct Hj as [(-> & -> & _)|[_ Hj]], Hk as [(-> & Ex & _)|[_ Hk]]; subst; try done.
  - by destruct (Hn k).
  - by destruct (Hn j).
  - by eapply Hl.
Qed.

(** A dead worker is replaced in place. *)
Lemma replace_supervised n m i pid p :
  supervised n m -> ms_workers m !! i = Some pid -> pid ∉ ms_alive m ->
  (match p with Detached _ _ => False | _ => True end) ->
  supervised n (set_pos p (set_workers (<[i := ms_next m]> (ms_workers m)) (snd (start_process m)))).
Proof.
  intros (Hl & Hnd & Hlt & Ha & Ho & _) Hi Hd Hp. unfold supervised. simpl.
  assert (ms_next m ∉ ms_workers m) as Hfresh by (intros H%Hlt; lia).
  split_and!; [by rewrite length_insert|by apply NoDup_insert_fresh| | |done|done].
  - intros q [->|Hq]%elem_of_insert_or; [lia|]. apply Hlt in Hq. lia.
  - intros q [->%elem_of_singleton|Hq]%elem_of_union.
    + apply elem_of_list_to_set, list_elem_of_insert. by eapply lookup_lt_Some.
    + apply elem_of_list_to_set. specialize (Ha _ Hq). apply elem_of_list_to_set in Ha.
      apply list_elem_of_lookup in Ha as [j Hj]. apply list_elem_of_lookup. exists j.
      rewrite list_lookup_insert_ne; [done|]. intros ->. congruence.
Qed.

Lemma reap_tidy n m : supervised n m -> ms_running m = true -> tidy n (reap_turn m).
Proof.
  intros H Hr. unfold tidy, reap_turn. destruct (ms_pos m) as [|i|l i] eqn:Hp.
  - by rewrite Hr.
  - destruct (ms_workers m !! i) as [pid|] eqn:Hi.
    + case_bool_decide as Ha; simpl; rewrite Hr.
      * destruct H as (?&?&?&?&?&_). by repeat split.
      * by apply (replace_supervised n m i pid (Reaping (S i))).
    + simpl. rewrite Hr. destruct H as (?&?&?&?&?&_). by repeat split.
  - destruct H as (?&?&?&?&?&Hd). by rewrite Hp in Hd.
Qed.

Lemma step_tidy n m m' : mstep false m m' -> tidy n m -> tidy n m'.
Proof.
  destruct 1 as [m pid|m Hr Hp|m Hr|m [Ha|[Hr Hp]]|m Hr]; try done; intros H; unfold tidy in *.
  - simpl. destruct (ms_running m); [|destruct H as [-> ->]; split; [set_solver|done]].
    destruct H as (?&?&?&?&?&?). split_and!; try done. simpl. set_solver.
  - simpl. rewrite Hr in *. destruct H as (?&?&?&?&?&?). by repeat split.
  - rewrite Hr in H. by apply reap_tidy.
  - rewrite Hr in H. by apply reload_tidy.
  - simpl. rewrite Hr in H. destruct H as (?&?&?&?&?&?). split; set_solver.
Qed.

Lemma steps_tidy n m m' : rtc (mstep false) m m' -> tidy n m -> tidy n m'.
Proof. induction 1; eauto using step_tidy. Qed.

(** ** A pass of the loop *)

Lemma reap_pass k : forall n m i,
  supervised n m -> ms_running m = true -> ms_pos m = Reaping i -> (i + k = n)%nat ->
  (forall j pid, (j < i)%nat -> ms_workers m !! j = Some pid -> pid ∈ ms_alive m) ->
  let m' := Nat.iter (S k) reap_turn m in
  supervised n m' /\ ms_pos m' = Sleeping /\ list_to_set (ms_workers m') ⊆ ms_alive m'.
Proof.
  induction k as [|k IH]; intros n m i H Hr Hp Hk Hdone.
  - pose proof H as (Hl & _). simpl. unfold reap_turn. rewrite Hp, lookup_ge_None_2 by lia. simpl.
    split; [destruct H as (?&?&?&?&?&_); by repeat split|]. split; [done|].
    intros pid Hin%elem_of_list_to_set. apply list_elem_of_lookup in Hin as [j Hj].
    apply (Hdone j); [|done]. apply lookup_lt_Some in Hj. lia.
  - rewrite Nat.iter_succ_r. destruct (lookup_lt_is_Some_2 (ms_workers m) i) as [pid Hi].
    { destruct H as (-> & _). lia. }
    pose proof (reap_tidy n m H Hr) as Ht. unfold tidy in Ht.
    assert (ms_running (reap_turn m) = true) as Hr'.
    { unfold reap_turn. rewrite Hp, Hi. by case_bool_decide. }
    rewrite Hr' in Ht. apply (IH n _ (S i)); [done|done| |lia|].
    + unfold reap_turn. rewrite Hp, Hi. by case_bool_decide.
    + intros j q Hj Hq. unfold reap_turn in *. rewrite Hp, Hi in *. case_bool_decide as Ha; simpl in *.
      * destruct (decide (j = i)) as [->|]; [by simplify_eq|]. apply (Hdone j); [lia|done].
      * apply list_lookup_insert_Some in Hq as [(-> & -> & _)|[Hne Hq]];
          [by apply elem_of_union_l, elem_of_singleton|].
        apply elem_of_union_r, (Hdone j); [lia|done].
Qed.


(** ** Workers and configuration *)

Lemma worker_balancers_ok : forall us d,
  (forall u, u ∈ us -> exists b, create_balancer (snd u) = Ok b) ->
  exists d', worker_balancers us d = Ok d' /\
    forall n ss a, NoDup (map (fun u => fst (fst u)) us) -> (n, ss, a) ∈ us ->
      exists b, create_balancer a = Ok b /\ dget d' n = Some b.
Proof.
  assert (forall us d d', worker_balancers us d = Ok d' -> forall n, n ∉ map (fun u => fst (fst u)) us ->
    dget d' n = dget d n) as Hkeep.
  { induction us as [|[[n ss] a] us IH]; intros d d' H k Hk; simpl in *; [by simplify_eq|].
    apply rbind_Ok in H as (b & _ & H). rewrite (IH _ _ H), dget_dset_ne by set_solver. done. }
  induction us as [|[[n ss] a] us IH]; intros d Hb; simpl; [exists d; split; [done|intros; set_solver]|].
  destruct (Hb (n, ss, a)) as [b Eb]; [set_solver|]. simpl in Eb. rewrite Eb. simpl.
  destruct (IH (dset d n b)) as (d' & Hd' & H); [intros; apply Hb; set_solver|].
  exists d'. split; [done|]. intros n' ss' a' [Hn Hnd]%NoDup_cons [[= -> -> ->]|Hin]%elem_of_cons; [|by eapply H].
  exists b. split; [done|]. rewrite (Hkeep _ _ _ Hd') by done. apply dget_dset_eq.
Qed.

Lemma worker_balancers_inv : forall us d d' u,
  worker_balancers us d = Ok d' -> u ∈ us -> exists b, create_balancer (snd u) = Ok b.
Proof.
  induction us as [|[[n ss] a] us IH]; intros d d' u H Hu; [set_solver|]. simpl in H.
  apply rbind_Ok in H as (b & Eb & H). apply elem_of_cons in Hu as [->|Hu]; [by exists b|by eapply IH].
Qed.

Lemma worker_upstreams_get t n ss a :
  NoDup (map (fun u => fst (fst u)) (tc_upstreams t)) -> (n, ss, a) ∈ tc_upstreams t ->
  dget (worker_upstreams t) n = Some ss.
Proof.
  unfold worker_upstreams.
  enough (forall (l : list (str * list UpstreamServer * str)) d, NoDup (map (fun u => fst (fst u)) l) ->
    dget (foldl (fun d u => dset d (fst (fst u)) (snd (fst u))) d l) n =
    match List.find (fun u => bool_decide (fst (fst u) = n)) l with
    | Some u => Some (snd (fst u)) | None => dget d n end) as H.
  { intros Hnd Hin. rewrite H by done. clear H. revert Hnd Hin.
    induction (tc_upstreams t) as [|[[k ss'] a'] l IH]; simpl; [set_solver|].
    intros [Hk Hnd]%NoDup_cons [[= <- <- <-]|Hin]%elem_of_cons; [by rewrite bool_decide_true|].
    rewrite bool_decide_false; [by apply IH|]. intros ->. apply Hk.
    apply list_elem_of_fmap. by exists (n, ss, a). }
  induction l as [|[[k ss'] a'] l IH]; intros d; simpl; [done|]. intros [Hk Hnd]%NoDup_cons.
  rewrite IH by done. case_bool_decide as E; [subst|by rewrite dget_dset_ne].
  destruct (List.find _ l) as [[[k' s'] b']|] eqn:Hf.
  - apply find_some in Hf as [Hin Hb%bool_decide_eq_true_1]. simpl in Hb. subst. destruct Hk.
    apply list_elem_of_fmap. exists (n, s', b'). split; [done|]. by apply list_elem_of_In.
  - apply dget_dset_eq.
Qed.

Definition known (algorithm : str) : Prop :=
  algorithm ∈ [py "round_robin"; py "least_conn"; py "ip_hash"; py "random"].

Lemma create_balancer_known a : (exists b, create_balancer a = Ok b) <-> known a.
Proof.
  unfold create_balancer, known, str_eqb. split.
  - intros [b H]. repeat case_bool_decide; subst; set_solver.
  - intros H. repeat case_bool_decide; try (by eexists). set_solver.
Qed.

Section Ready.
Context {U : Unicode} {F : Floats}.


(** A worker starts exactly when all balancing algorithms are known. *)
Lemma worker_starts t :
  (exists px, worker_init t = Ok px) <-> Forall (fun u => known (snd u)) (tc_upstreams t).
Proof.
  rewrite Forall_forall. split.
  - intros [px Hpx] u Hu. apply rbind_Ok in Hpx as (bs & Hb & _).
    apply create_balancer_known. by eapply worker_balancers_inv.
  - intros Hk. destruct (worker_balancers_ok (tc_upstreams t) []) as (bs & Hb & _).
    { intros u Hu. by apply create_balancer_known, Hk. }
    unfold worker_init. rewrite Hb. simpl. destruct (tc_gzip t) as [[??]?]. by eexists.
Qed.

End Ready.

(** ** Concrete runs *)

#[local] Instance no_floats : Floats := {| float_int _ := raise CValueError []; float_micros _ := 0 |}.

Definition two_workers : ProxyConfig :=
  mkConfig 2 1024 [80] [443] [] [] [] None (JBool true, JInt 256, JInt 6)
    (JStr [], JStr [], JStr (py "combined")) 54010.

Definition running_master : Master :=
  mkMaster true [2; 3]%nat [(80, 0%nat); (443, 1%nat)] (Reaping 0) ({[3%nat]} ∪ ({[2%nat]} ∪ ∅)) 4
    ({[1%nat]} ∪ ({[0%nat]} ∪ ∅)).

Lemma running_master_start : start (fun _ => true) None two_workers = Ok running_master.
Proof. reflexivity. Qed.


(** A reload that interrupts the loop over the workers leaves a process that
    the master no longer knows: it survives the shutdown. *)
Lemma reload_orphans :
  exists m, rtc (mstep true) running_master m /\ ms_running m = false /\ ms_alive m <> ∅.
Proof.
  exists (shutdown (reap_turn (reload running_master))). split_and!; [|done|].
  - eapply rtc_l; [apply step_reload; by left|].
    eapply rtc_l; [apply step_reap|eapply rtc_l; [apply step_shutdown|constructor]]; by_eval.
  - intros H. assert (4%nat ∈ ms_alive (shutdown (reap_turn (reload running_master)))) as Hin by by_eval.
    rewrite H in Hin. set_solver.
Qed.

(** A SIGHUP within [shutdown], behind its loops, starts workers that nobody
    stops. *)
Lemma reload_in_shutdown_orphans :
  exists m, rtc (mstep true) running_master m /\ ms_running m = false /\ ms_alive m = {[4; 5]}%nat.
Proof.
  exists (reload (shutdown running_master)). split_and!; [|done|by_eval].
  eapply rtc_l; [apply step_shutdown; done|]. eapply rtc_l; [apply step_reload; by left|constructor].
Qed.

(** A port that is listed under http and under https is bound twice, and
    shutdown closes only the second socket. *)
Lemma shared_port_leaks :
  let c := mkConfig 1 1024 [8080] [8080] [] [] [] None (JBool true, JInt 256, JInt 6)
             (JStr [], JStr [], JStr (py "combined")) 54010 in
  exists m, start (fun _ => true) None c = Ok m /\ ms_open (shutdown m) <> ∅.
Proof.
  eexists. split; [reflexivity|]. intros H.
  match type of H with ?o = _ => assert (0%nat ∈ o) as Hin by by_eval end. rewrite H in Hin. set_solver.
Qed.

Lemma negative_workers cpu : worker_count (-1) cpu = 0%nat.
Proof. done. Qed.

Definition sample_document (algorithm : str) : list (str * json) :=
  [(py "upstreams", JList [JObj [(py "name", JStr (py "app")); (py "algorithm", JStr algorithm);
      (py "servers", JList [JStr (py "10.0.0.1:8080"); JObj [(py "host", JStr (py "b")); (py "weight", JInt 2)]])]]);
   (py "locations", JList [JObj [(py "path", JStr (py "/")); (py "upstream", JStr (py "app"))]])].


(** An unknown algorithm is accepted with the file; every worker then ends at
    its start, and the master starts it again. *)
Lemma unknown_algorithm_accepted :
  match parse_config (U := ascii_only) (sample_document (py "fair")) with
  | Ok c => match typed c with
            | Some t => match worker_init t with Err e => is_ValueError e | Ok _ => false end
            | None => false
            end
  | Err _ => false
  end = true.
Proof. vm_compute. reflexivity. Qed.
End ProxyProcess.
