(* ===== verification/WorkerLife.v ===== *)
(** * The life of a proxy worker (src/proxy/worker.py: run, _serve,
      handle_connection; src/proxy/master.py: _worker_entry, the signal handlers
      in a worker)

    [ProxyProcess] has the constructor of a worker and the master; here is
    what the process of a worker does from its start to its end: the access
    log and one asyncio server for each listen socket, the wait, and the ways
    out of it.

    A worker forked after [start] has set the signal handlers inherits them,
    with the master object as it was at the fork: the list of workers it sees
    then is [option nat] for each entry, [None] for the worker itself, whose
    process object has not been started yet in its own copy.  This is the fork
    method of multiprocessing, the default on Linux up to Python 3.13.  Signals
    arrive while the event loop waits. *)

From S2P Require Import Prelude PyStr Json Messages Protocol LoadBalancer HealthCheck Status Http WebSocket Connection ProxyConfig ProxyProcess.
Import LoadBalancer HealthCheck Http Connection ProxyConfig ProxyProcess.

Module WorkerLife.

(** ** Serving *)

Record Worker := mkWorker {
  wk_proxy : Proxy;                  (* what each connection is given *)
  wk_logging : bool;                 (* the writer of the access log runs *)
  wk_servers : list nat;             (* the sockets with an asyncio server *)
  wk_ready : bool                    (* the wait is reached *)
}.

(** [start_server] for each socket, in the order of the dictionary; an
    exception leaves [_serve] before its [try]. *)
Fixpoint start_servers (starts : nat -> result unit) (socks : list nat) (w : Worker)
    : result unit * Worker :=
  match socks with
  | [] => (Ok tt, mkWorker (wk_proxy w) (wk_logging w) (wk_servers w) true)
  | s :: socks' =>
      match starts s with
      | Err e => (Err e, w)
      | Ok _ => start_servers starts socks'
                  (mkWorker (wk_proxy w) (wk_logging w) (wk_servers w ++ [s]) (wk_ready w))
      end
  end.

(** [_serve] up to the wait. *)
Definition serve_begin (starts : nat -> result unit) (access_log : bool) (sockets : list (Z * nat))
    (p : Proxy) : result unit * Worker :=
  start_servers starts (dvals sockets) (mkWorker p access_log [] false).

(** The [finally] clause of [_serve], when the wait is cancelled. *)
Definition serve_end (w : Worker) : Worker := mkWorker (wk_proxy w) false [] (wk_ready w).

(** ** Ends *)

Inductive worker_exit := ExitCode (n : Z) | KilledBy (signal : Z).

(** What SIGTERM finds in the worker: the default action, or the handler of
    the master with the workers it lists. *)
Inductive disposition := Default | Inherited (seen : list (option nat)).

Definition SIGTERM : Z := 15.

(** [for proc in self._workers: proc.terminate()] in a worker: the signals it
    sends before it meets itself. *)
Fixpoint terminate_seen (seen : list (option nat)) : list nat :=
  match seen with
  | Some pid :: seen' => pid :: terminate_seen seen'
  | _ => []
  end.

(** [_handle_shutdown] in a worker: a process object that is not its child
    cannot be joined, and its own has not been started: both raise, so that
    the worker counts as crashed.  With nobody in the list it exits with 0. *)
Definition on_sigterm (d : disposition) : list nat * worker_exit :=
  match d with
  | Default => ([], KilledBy SIGTERM)
  | Inherited [] => ([], ExitCode 0)
  | Inherited seen => (terminate_seen seen, ExitCode 1)
  end.

(** How the wait ends: nothing in the program cancels it. *)
Inductive wait_end := Terminated (d : disposition) | Interrupted | Cancelled.

(** [_worker_entry]: the exit, the signals sent to others, and the worker as
    it is left.  The constructor runs outside the [try]; multiprocessing ends
    such a process with 1. *)
Definition worker_entry (t : TypedConfig) (starts : nat -> result unit) (access_log : bool)
    (sockets : list (Z * nat)) (e : wait_end) : worker_exit * list nat * option Worker :=
  match worker_init t with
  | Err _ => (ExitCode 1, [], None)
  | Ok p =>
      let '(r, w) := serve_begin starts access_log sockets p in
      match r with
      | Err _ => (ExitCode 1, [], Some w)
      | Ok _ =>
          match e with
          | Terminated d => let '(sigs, x) := on_sigterm d in (x, sigs, Some w)
          | Interrupted => (ExitCode 0, [], Some w)
          | Cancelled => (ExitCode 0, [], Some (serve_end w))
          end
      end
  end.

(** ** Connections *)

Section Connections.
Context {U : Unicode} (sha1 : bytes -> bytes).

(** What a client does on a connection, and what the world does in each of
    its turns. *)
Record visit := mkVisit {
  vs_ip : str;
  vs_worlds : list World;
  vs_arrivals : list arrival;
  vs_fuel : nat
}.

(** [handle_connection]: a fresh parser over the components of the worker. *)
Definition worker_connection (v : visit) (p : Proxy) : bytes * conn_end * Proxy :=
  handle sha1 (vs_fuel v) (vs_ip v) (vs_worlds v) [] (vs_arrivals v) p.

(** Connections one after another: how each ended, and what they leave. *)
Fixpoint worker_connections (vs : list visit) (p : Proxy) : list conn_end * Proxy :=
  match vs with
  | [] => ([], p)
  | v :: vs' =>
      let '(_, e, p1) := worker_connection v p in
      let '(es, p2) := worker_connections vs' p1 in
      (e :: es, p2)
  end.

Lemma new_balancer_idle algorithm b s :
  create_balancer algorithm = Ok b -> bal_ok b /\ bal_conns b s = 0.
Proof. unfold create_balancer. intros H. repeat case_match; simplify_eq; done. Qed.

Lemma worker_balancers_idle : forall us d d',
  worker_balancers us d = Ok d' ->
  (forall n b, dget d n = Some b -> bal_ok b /\ forall s, bal_conns b s = 0) ->
  forall n b, dget d' n = Some b -> bal_ok b /\ forall s, bal_conns b s = 0.
Proof.
  induction us as [|[[n ss] a] us IH]; intros d d' H Hd; simpl in H; [by apply Ok_inj in H as <-|].
  apply rbind_Ok in H as (b & Eb & H). eapply IH; [exact H|]. intros n' b'. rewrite dget_dset.
  destruct (decide (n = n')); [|apply Hd]. intros [= <-].
  split; [|intros s]; eapply (new_balancer_idle a b); try exact Eb. exact (mkServer [] 0 0 0 false false).
Qed.

(** A worker's counters return to zero: from its start, after any connections
    that are closed, whatever their requests met, no server is counted as
    busy. *)
Theorem worker_load_returns t p vs es p' :
  worker_init t = Ok p -> worker_connections vs p = (es, p') -> Forall (fun e => e = Closes) es ->
  forall name s, load p' name s = 0.
Proof.
  intros Hi.
  assert (H0 : proxy_ok p /\ forall name s, load p name s = 0).
  { unfold worker_init in Hi. apply rbind_Ok in Hi as (bs & Hb & Hi).
    destruct (tc_gzip t) as [[en ml] lv]. apply Ok_inj in Hi as <-.
    pose proof (worker_balancers_idle _ _ _ Hb ltac:(done)) as Hid. split.
    - intros n b Hn. by apply (Hid n).
    - intros n s. unfold load. simpl. destruct (dget bs n) as [b|] eqn:Hn; [|done]. by apply (Hid n). }
  clear Hi. revert p es H0. induction vs as [|v vs IH]; intros p es [Hp Hz] Hc He; simpl in Hc.
  { by injection Hc as _ <-. }
  unfold worker_connection in Hc.
  pose proof (connection_load sha1 (vs_fuel v) (vs_ip v) (vs_worlds v) [] (vs_arrivals v) p Hp) as Hl.
  destruct (handle _ _ _ _ _ _ _) as [[out e] p1].
  destruct (worker_connections vs p1) as [es1 p2] eqn:Hv. injection Hc as <- <-.
  apply Forall_cons in He as [He Hes]. destruct (Hl He) as [Hp1 H1].
  eapply IH; [|exact Hv|exact Hes]. split; [done|]. intros name s. by rewrite H1.
Qed.
End Connections.

(** ** What a forked worker sees *)

(** In [start] the handlers are not set yet. *)
Definition at_start : disposition := Default.
(** In [reload] the process is appended after it was started. *)
Definition at_reload (new : list nat) (k : nat) : disposition := Inherited (Some <$> take k new).
(** In [_reap_workers] the entry is the new object before it is started. *)
Definition at_reap (workers : list nat) (i : nat) : disposition := Inherited (<[i := None]> (Some <$> workers)).

(** ** Theorems *)

Lemma start_servers_ok starts : forall socks w,
  (forall s, s ∈ socks -> starts s = Ok tt) ->
  start_servers starts socks w =
    (Ok tt, mkWorker (wk_proxy w) (wk_logging w) (wk_servers w ++ socks) true).
Proof.
  induction socks as [|s socks IH]; intros w Hs; simpl; [by rewrite app_nil_r|].
  rewrite Hs by left. rewrite IH by (intros x Hx; apply Hs; by right). simpl. by rewrite <- app_assoc.
Qed.

Lemma start_servers_all starts : forall socks w w',
  start_servers starts socks w = (Ok tt, w') ->
  wk_servers w' = wk_servers w ++ socks /\ wk_ready w' = true /\ wk_logging w' = wk_logging w
  /\ wk_proxy w' = wk_proxy w.
Proof.
  induction socks as [|s socks IH]; intros w w' H; simpl in H.
  - injection H as <-. by rewrite app_nil_r.
  - destruct (starts s); [|done]. destruct (IH _ _ H) as (-> & -> & -> & ->). simpl.
    by rewrite <- app_assoc.
Qed.

Lemma bind_all_bound binds : forall ports m m',
  bind_all binds ports m = Ok m' ->
  (forall p s, dget (ms_sockets m) p = Some s -> s ∈ ms_open m) ->
  (forall p s, dget (ms_sockets m') p = Some s -> s ∈ ms_open m')
  /\ (forall p, p ∈ ports \/ is_Some (dget (ms_sockets m) p) -> is_Some (dget (ms_sockets m') p)).
Proof.
  induction ports as [|p ports IH]; intros m m' H Ho; simpl in H.
  - apply Ok_inj in H as <-. split; [done|]. intros p [Hp|Hp]; [by apply elem_of_nil in Hp|done].
  - unfold bind in H. destruct (binds p); [|done]. simpl in H.
    apply IH in H as [Ho' Hb']; simpl in *.
    + split; [done|]. intros q Hq. apply Hb'. rewrite dget_dset.
      destruct (decide (p = q)); [right; by eauto|]. destruct Hq as [Hq|Hq]; [|by right].
      apply elem_of_cons in Hq as [->|Hq]; [done|by left].
    + intros q s. rewrite dget_dset. destruct (decide (p = q)); [intros [= <-]; set_solver|].
      intros Hq. apply Ho in Hq. set_solver.
Qed.

(** A worker that comes up serves what the master bound: after [start]
    every configured port has an open socket in the table, and a worker made
    from that table that reaches its wait has a server on each of them, with
    the access log running exactly when one is configured; it reaches its
    wait when every [start_server] succeeds, and otherwise exits with 1. *)
Theorem worker_serves_every_port binds cpu c m t starts access_log e :
  ProxyProcess.start binds cpu c = Ok m ->
  (forall port, port ∈ pc_http c ++ pc_https c ->
     exists s, dget (ms_sockets m) port = Some s /\ s ∈ ms_open m)
  /\ match worker_init t with
     | Err _ => worker_entry t starts access_log (ms_sockets m) e = (ExitCode 1, [], None)
     | Ok p =>
         let '(r, w) := serve_begin starts access_log (ms_sockets m) p in
         (r = Ok tt <-> forall s, s ∈ dvals (ms_sockets m) -> starts s = Ok tt)
         /\ (r = Ok tt -> wk_ready w = true /\ wk_logging w = access_log
               /\ forall port s, dget (ms_sockets m) port = Some s -> s ∈ wk_servers w)
         /\ (r <> Ok tt -> worker_entry t starts access_log (ms_sockets m) e = (ExitCode 1, [], Some w))
     end.
Proof.
  intros Hm. apply rbind_Ok in Hm as (m0 & Hb & Hm). apply Ok_inj in Hm as <-.
  rewrite spawn_workers_eq. simpl. split.
  - destruct (bind_all_bound _ _ _ _ Hb) as [Ho Hp]; [done|]. intros port Hport.
    destruct (Hp port) as [s Hs]; [by left|]. eauto.
  - unfold worker_entry. destruct (worker_init t) as [p|]; [|done].
    destruct (serve_begin starts access_log (ms_sockets m0) p) as [r w] eqn:Hs.
    unfold serve_begin in Hs. split_and!.
    + split.
      * intros -> s Hin. revert w Hs. generalize (mkWorker p access_log [] false).
        induction (dvals (ms_sockets m0)) as [|x l IH]; intros w0 w Hs; [by apply elem_of_nil in Hin|].
        simpl in Hs. destruct (starts x) as [[]|] eqn:Hx; [|done].
        apply elem_of_cons in Hin as [->|Hin]; [done|by eapply IH].
      * intros Hok. rewrite start_servers_ok in Hs by done. by injection Hs as <- _.
    + intros ->. destruct (start_servers_all _ _ _ _ Hs) as (-> & -> & -> & _). split_and!; [done..|].
      intros port s Hp. simpl. apply dget_elem in Hp. unfold dvals. apply list_elem_of_fmap. by exists (port, s).
    + destruct r as [[]|]; [done|]. done.
Qed.

(** Only a cancellation of the wait closes the servers and stops the access
    log, and neither SIGTERM nor KeyboardInterrupt is one. *)
Lemma no_graceful_end t starts access_log sockets d x sigs w :
  worker_entry t starts access_log sockets (Terminated d) = (x, sigs, Some w) \/
  worker_entry t starts access_log sockets Interrupted = (x, sigs, Some w) ->
  wk_ready w = true -> wk_logging w = access_log /\ wk_servers w = dvals sockets.
Proof.
  unfold worker_entry. intros H Hr. destruct (worker_init t) as [p|]; [|naive_solver].
  destruct (serve_begin starts access_log sockets p) as [r w'] eqn:Hs.
  assert (Hw : w' = w) by (destruct r; [destruct (on_sigterm d)|]; naive_solver). subst w'.
  unfold serve_begin in Hs. destruct r as [[]|e].
  - by destruct (start_servers_all _ _ _ _ Hs) as (-> & _ & -> & _).
  - exfalso. assert (Hn : forall l w0, wk_ready w0 = false ->
      start_servers starts l w0 = (Err e, w) -> wk_ready w = false).
    { induction l as [|x0 l IH]; intros w0 H0 Hst; [done|]. simpl in Hst.
      destruct (starts x0); [by apply IH in Hst|]. injection Hst as _ <-. done. }
    assert (wk_ready w = false) by (eapply Hn; [|exact Hs]; done). congruence.
Qed.

Lemma terminate_seen_all l : terminate_seen (Some <$> l) = l.
Proof. induction l as [|x l IH]; [done|]. rewrite fmap_cons. simpl. by rewrite IH. Qed.

(** A worker that replaced a dead one ends the workers before it in the list
    when it gets SIGTERM, and exits as if it had crashed. *)
Lemma restarted_worker_kills_siblings workers i :
  (i < length workers)%nat ->
  on_sigterm (at_reap workers i) = (take i workers, ExitCode 1).
Proof.
  intros Hi. unfold at_reap, on_sigterm.
  assert (Ht : terminate_seen (<[i := None]> (Some <$> workers)) = take i workers).
  { clear -Hi. revert i Hi. induction workers as [|x l IH]; intros [|i] Hi; simpl in *; [lia|lia|done|].
    f_equal. apply IH. lia. }
  destruct workers as [|x l]; [simpl in Hi; lia|]. by destruct i; simpl in *; rewrite ?Ht.
Qed.

(** The workers of a reload: the first ends quietly, each later one sends
    SIGTERM to all before it. *)
Lemma reloaded_worker_signals new k :
  (k <= length new)%nat ->
  on_sigterm (at_reload new k) = (take k new, if decide (k = 0%nat) then ExitCode 0 else ExitCode 1).
Proof.
  intros Hk. unfold at_reload, on_sigterm. pose proof (terminate_seen_all (take k new)) as Ht.
  destruct k as [|k]; [done|]. destruct new as [|x l]; [simpl in Hk; lia|]. simpl in *. by rewrite Ht.
Qed.

(** ** Concrete runs *)

Lemma worker_serves_every_port_witness :
  exists s, dget (ms_sockets running_master) 80 = Some s /\ s ∈ ms_open running_master.
Proof.
  apply (proj1 (worker_serves_every_port (fun _ => true) None two_workers running_master
    (mkTyped [] [] (true, 256, 6)) (fun _ => Ok tt) true Interrupted running_master_start)).
  vm_compute. set_solver.
Defined.

(** Worker 1 of three died and was replaced; SIGTERM to the replacement ends
    worker 0 as well. *)
Lemma replacement_example : on_sigterm (at_reap [3; 9; 5]%nat 1) = ([3%nat], ExitCode 1).
Proof. reflexivity. Qed.
End WorkerLife.
