(* ===== verification/StreamProxy.v ===== *)
(** * Proxying of raw TCP and UDP (src/proxy/stream_proxy.py)

    [handle_tcp] picks a server, connects and starts a [pipe] per direction; a
    pipe is what its source will still deliver, what it has written, and
    whether it has ended.  [step] interleaves the two pipes, and ends the
    connection when both have ended ([gather]) or the task is cancelled.
    [handle_udp] is one exchange of datagrams. *)

From S2P Require Import Prelude PyStr LoadBalancer.
Import LoadBalancer.

Module StreamProxy.

Record StreamProxy := mkStreamProxy {
  sp_balancers : list (str * Balancer);
  sp_upstreams : list (str * list UpstreamServer)     (* config.upstreams, in order *)
}.

(** The loop over the upstreams: the first of the name. *)
Fixpoint find_upstream (name : str) (l : list (str * list UpstreamServer)) : option (list UpstreamServer) :=
  match l with
  | [] => None
  | (n, servers) :: l' => if str_eqb n name then Some servers else find_upstream name l'
  end.

(** The server for a client, [None] when there is none; the balancer object
    keeps its new state. *)
Definition choose_server (md5 : bytes -> Z) (k : Z) (sp : StreamProxy) (name client_ip : str)
  : result (option UpstreamServer) * StreamProxy :=
  match dget (sp_balancers sp) name, find_upstream name (sp_upstreams sp) with
  | Some b, Some servers =>
      let (r, b') := select md5 k b servers client_ip in
      (r, mkStreamProxy (dset (sp_balancers sp) name b') (sp_upstreams sp))
  | _, _ => (Ok None, sp)
  end.

(** ** Pipes *)

Inductive event :=
  | Chunk (data : bytes)       (* read() returned data, which is not empty *)
  | Eof
  | Fails.                     (* read() raised OSError *)

Record pipe := mkPipe { pi_in : list event; pi_out : list bytes; pi_ended : bool }.

(** One turn of the loop of [pipe]; [drains] is whether [drain] returns.  The
    pipe waits while nothing has arrived. *)
Definition pipe_turn (drains : bool) (p : pipe) : option pipe :=
  if pi_ended p then None
  else match pi_in p with
       | [] => None
       | Chunk data :: rest => Some (mkPipe rest (pi_out p ++ [data]) (negb drains))
       | Eof :: rest | Fails :: rest => Some (mkPipe rest (pi_out p) true)
       end.

(** ** A proxied connection *)

Record tcp := mkTcp {
  to_upstream : pipe;
  to_client : pipe;
  client_closed : bool;
  upstream_closed : bool
}.

Definition tcp_start (from_client from_upstream : list event) : tcp :=
  mkTcp (mkPipe from_client [] false) (mkPipe from_upstream [] false) false false.

Inductive step : tcp -> tcp -> Prop :=
  | step_up t d p :
      client_closed t = false -> pipe_turn d (to_upstream t) = Some p ->
      step t (mkTcp p (to_client t) false (upstream_closed t))
  | step_down t d p :
      client_closed t = false -> pipe_turn d (to_client t) = Some p ->
      step t (mkTcp (to_upstream t) p false (upstream_closed t))
  | step_end t :
      client_closed t = false -> pi_ended (to_upstream t) = true -> pi_ended (to_client t) = true ->
      step t (mkTcp (to_upstream t) (to_client t) true true)
  | step_cancel t :
      client_closed t = false ->
      step t (mkTcp (mkPipe (pi_in (to_upstream t)) (pi_out (to_upstream t)) true)
                (mkPipe (pi_in (to_client t)) (pi_out (to_client t)) true) true true).

(** [handle_tcp] up to its pipes: what the client and the chosen server will
    send, or [None] with the client's connection closed. *)
Definition handle_tcp (md5 : bytes -> Z) (k : Z) (connects : UpstreamServer -> bool)
    (from_client : list event) (from_server : UpstreamServer -> list event)
    (name client_ip : str) (sp : StreamProxy) : result (option tcp) * StreamProxy :=
  let (r, sp') := choose_server md5 k sp name client_ip in
  (match r with
   | Err e => Err e
   | Ok None => Ok None
   | Ok (Some s) => if connects s then Ok (Some (tcp_start from_client (from_server s))) else Ok None
   end, sp').

(** ** UDP *)

(** [exchange] is [sendto] and [recvfrom] on a new socket, which is closed in
    every case. *)
Definition handle_udp (md5 : bytes -> Z) (k : Z) (exchange : str -> Z -> bytes -> result bytes)
    (data : bytes) (client_ip name : str) (sp : StreamProxy) : result (option bytes) * StreamProxy :=
  let (r, sp') := choose_server md5 k sp name client_ip in
  (match r with
   | Err e => Err e
   | Ok None => Ok None
   | Ok (Some s) =>
       match exchange (us_host s) (us_port s) data with
       | Ok response => Ok (Some response)
       | Err e =>
           match exc_cls e with COSError | CConnectionError | CTimeoutError => Ok None | _ => Err e end
       end
   end, sp').

(** ** What a pipe delivers *)

(** The data of a list of events up to the first that ends the pipe. *)
Fixpoint sent (l : list event) : list bytes :=
  match l with
  | Chunk data :: l' => data :: sent l'
  | _ => []
  end.

(** What a pipe has written is the beginning of what its source sends, and the
    rest is still to come unless the pipe has ended. *)
Definition pipe_ok (input : list event) (p : pipe) : Prop :=
  if pi_ended p then pi_out p `prefix_of` sent input
  else sent input = pi_out p ++ sent (pi_in p).

Lemma turn_ok input d p p' : pipe_turn d p = Some p' -> pipe_ok input p -> pipe_ok input p'.
Proof.
  unfold pipe_turn, pipe_ok. destruct (pi_ended p); [done|].
  destruct (pi_in p) as [|[data| |] rest] eqn:E; [done|..]; intros [= <-]; simpl; intros H.
  - destruct d; simpl; [by rewrite H, <- app_assoc|]. exists (sent rest). by rewrite H, <- app_assoc.
  - exists []. by rewrite H, app_nil_r.
  - exists []. by rewrite H, app_nil_r.
Qed.

Lemma ended_ok input i o e : pipe_ok input (mkPipe i o e) -> pipe_ok input (mkPipe i o true).
Proof. unfold pipe_ok. simpl. destruct e; [done|]. intros ->. by exists (sent i). Qed.

Definition tcp_ok (fc fu : list event) (t : tcp) : Prop :=
  pipe_ok fc (to_upstream t) /\ pipe_ok fu (to_client t) /\
  client_closed t = upstream_closed t /\
  (client_closed t = true -> pi_ended (to_upstream t) = true /\ pi_ended (to_client t) = true).

Lemma tcp_step_ok fc fu t t' : step t t' -> tcp_ok fc fu t -> tcp_ok fc fu t'.
Proof.
  unfold tcp_ok. destruct 1 as [t d p Hc Hp|t d p Hc Hp|t Hc H1 H2|t Hc]; intros (Hu & Hd & He & _); simpl;
    rewrite Hc in He; split_and!; try done; try (by eapply turn_ok).
  - destruct (to_upstream t). by eapply ended_ok.
  - destruct (to_client t). by eapply ended_ok.
Qed.

(** A proxied connection: however the two directions interleave, each side is
    written a beginning of what the other one sends, in order; the two
    connections are closed together, after both directions have ended. *)
Theorem tcp_relayed fc fu t :
  rtc step (tcp_start fc fu) t ->
  pi_out (to_upstream t) `prefix_of` sent fc /\ pi_out (to_client t) `prefix_of` sent fu /\
  client_closed t = upstream_closed t /\
  (client_closed t = true -> pi_ended (to_upstream t) = true /\ pi_ended (to_client t) = true).
Proof.
  intros H. assert (tcp_ok fc fu t) as (Hu & Hd & Hr).
  { assert (tcp_ok fc fu (tcp_start fc fu)) as H0 by by repeat split.
    revert H0. induction H; [done|]. eauto using tcp_step_ok. }
  assert (forall i p, pipe_ok i p -> pi_out p `prefix_of` sent i) as Hpre.
  { intros i p Hp. unfold pipe_ok in Hp. destruct (pi_ended p); [done|]. rewrite Hp. by eexists. }
  split_and!; try apply Hr; by apply Hpre.
Qed.

(** A source that is read to its end without failing drains is delivered in
    full. *)
Lemma pipe_complete input : forall p,
  Forall (fun e => e <> Fails) input -> pi_in p = input ++ [Eof] -> pi_ended p = false ->
  exists n p', Nat.iter n (fun o => o ≫= pipe_turn true) (Some p) = Some p' /\ pi_ended p' = true /\
    pi_out p' = pi_out p ++ sent input.
Proof.
  intros p Hf. revert p. induction Hf as [|e input He Hf IH]; intros p Hin Hend.
  - exists 1%nat, (mkPipe [] (pi_out p) true). simpl. unfold pipe_turn. rewrite Hend, Hin. simpl.
    by rewrite app_nil_r.
  - destruct e as [data| |]; [|exists 1%nat; eexists|done].
    + destruct (IH (mkPipe (input ++ [Eof]) (pi_out p ++ [data]) false)) as (n & p' & Hn & Hp' & Ho); [done|done|].
      exists (S n), p'. rewrite Nat.iter_succ_r. simpl. unfold pipe_turn at 2. rewrite Hend, Hin. simpl.
      split; [done|]. split; [done|]. rewrite Ho. simpl. by rewrite <- app_assoc.
    + simpl. unfold pipe_turn. rewrite Hend, Hin. simpl. by rewrite app_nil_r.
Qed.

(** A client that has sent everything and waits for the answer: the end of its
    stream is not passed on, so that a server that answers at the end of its
    input leaves both waiting. *)
Lemma half_close_not_forwarded :
  exists t, rtc step (tcp_start [Chunk [1]; Eof] []) t /\ upstream_closed t = false /\
    pi_ended (to_upstream t) = true /\
    forall t', step t t' -> client_closed t' = true /\ pi_ended (to_client t) = false.
Proof.
  exists (mkTcp (mkPipe [] [[1]] true) (mkPipe [] [] false) false false). split_and!; try done.
  - eapply rtc_l; [by apply (step_up _ true (mkPipe [Eof] [[1]] false))|].
    eapply rtc_l; [by apply (step_up _ true (mkPipe [] [[1]] true))|constructor].
  - intros t'. inversion 1; subst; simpl in *; done.
Qed.

(** The state of the balancers is the only one that a request changes. *)
Lemma choose_server_upstreams md5 k sp name ip :
  sp_upstreams (snd (choose_server md5 k sp name ip)) = sp_upstreams sp.
Proof.
  unfold choose_server. destruct (dget (sp_balancers sp) name), (find_upstream name (sp_upstreams sp)); try done.
  by destruct (select _ _ _ _ _).
Qed.

End StreamProxy.
