(* ===== verification/Tls.v ===== *)
(** * TLS contexts of the proxy (src/proxy/ssl/terminator.py)

    The objects of the ssl module are behind [SslModule]; a context is kept
    with what the code sets on it.  [SSLContextManager] is the two tables. *)

From S2P Require Import Prelude PyStr.

Module Tls.

Inductive tls_version := DefaultMinimum | TLSv1_2 | TLSv1_3.

#[global] Instance tls_version_eq_dec : EqDecision tls_version.
Proof. solve_decision. Defined.

Record SSLContext := mkContext {
  ctx_cert : str;
  ctx_key : str;
  ctx_minimum : tls_version;
  ctx_ciphers : option str;
  ctx_no_compression : bool
}.

#[global] Instance SSLContext_eq_dec : EqDecision SSLContext.
Proof. solve_decision. Defined.

Definition DEFAULT_CIPHERS : str := py "ECDHE+AESGCM:ECDHE+CHACHA20".

Section Manager.
Context (exists_ : str -> bool).                 (* os.path.exists *)
Context (load_cert_chain : str -> str -> result unit).
Context (set_ciphers : str -> result unit).

(** The lowest version from the list of protocols. *)
Definition minimum_version (protocols : list str) : tls_version :=
  match protocols with
  | [] => DefaultMinimum
  | _ => if bool_decide (py "TLSv1.2" ∈ protocols) then TLSv1_2 else TLSv1_3
  end.

Definition load_certificate (cert key : str) (protocols : list str) (ciphers : str) : result SSLContext :=
  if negb (exists_ cert) then raise COSError (py "certificate not found: " ++ cert)
  else if negb (exists_ key) then raise COSError (py "private key not found: " ++ key)
  else
    let? _ := load_cert_chain cert key in
    let minimum := minimum_version protocols in
    let? chosen := (match ciphers with [] => Ok None | _ => let? _ := set_ciphers ciphers in Ok (Some ciphers) end) in
    Ok (mkContext cert key minimum chosen true).

Record SSLContextManager := mkManager {
  contexts : list (Z * SSLContext);
  sni_contexts : list (str * SSLContext)
}.

Definition new_manager : SSLContextManager := mkManager [] [].

Definition add_context (m : SSLContextManager) (port : Z) (ctx : SSLContext) (names : list str)
  : SSLContextManager :=
  mkManager (dset (contexts m) port ctx) (foldl (fun d n => dset d n ctx) (sni_contexts m) names).

Definition get_context (m : SSLContextManager) (port : Z) (name : str) : option SSLContext :=
  if bool_decide (name = []) then dget (contexts m) port
  else match dget (sni_contexts m) name with
       | Some ctx => Some ctx
       | None => dget (contexts m) port
       end.

(** [wrap_socket]: the context that wraps. *)
Definition wrap_socket (m : SSLContextManager) (port : Z) (name : str) : result SSLContext :=
  match get_context m port name with
  | Some ctx => Ok ctx
  | None => raise CValueError (py "no SSL context for port " ++ dec port)
  end.

(** [wrap_connection]: [wrap] is what [SSLContext.wrap_socket] makes of the
    socket of the transport, without a handshake.  Its result is dropped, and
    the streams are returned as they came. *)
Definition wrap_connection {S} (wrap : SSLContext -> result unit) (m : SSLContextManager)
    (port : Z) (name : str) (streams : S) : result S :=
  let? ctx := wrap_socket m port name in
  let? _ := wrap ctx in
  Ok streams.

(** Whatever the wrapping did, the caller goes on with the plain streams. *)
Lemma wrap_connection_plain {S} wrap m port name (streams out : S) :
  wrap_connection wrap m port name streams = Ok out -> out = streams.
Proof. unfold wrap_connection. intros H. inv_bind H. inv_bind H. by injection H. Qed.

(** ** Lookups *)

Lemma dget_foldl_dset {V} (d : list (str * V)) (names : list str) (v : V) n :
  dget (foldl (fun d n => dset d n v) d names) n = if bool_decide (n ∈ names) then Some v else dget d n.
Proof.
  revert d. induction names as [|k names IH]; intros d.
  - by rewrite bool_decide_false by set_solver.
  - cbn [foldl]. rewrite IH. destruct (decide (n = k)) as [->|Hne].
    + rewrite (bool_decide_true (k ∈ k :: names)) by set_solver. case_bool_decide; [done|]. apply dget_dset_eq.
    + rewrite dget_dset_ne by congruence. repeat case_bool_decide; set_solver.
Qed.

(** After a context is added it is found by each of its names and, for a name
    that has no context of its own, by its port; other ports and names keep
    theirs. *)
Lemma added_context_found m port ctx names p n :
  get_context (add_context m port ctx names) p n =
    if bool_decide (n <> [] /\ n ∈ names) then Some ctx
    else match (if bool_decide (n = []) then None else dget (sni_contexts m) n) with
         | Some c => Some c
         | None => if bool_decide (p = port) then Some ctx else dget (contexts m) p
         end.
Proof.
  unfold get_context, add_context. simpl. rewrite dget_foldl_dset.
  assert (dget (dset (contexts m) port ctx) p = if bool_decide (p = port) then Some ctx else dget (contexts m) p) as ->.
  { case_bool_decide; subst; [apply dget_dset_eq|by rewrite dget_dset_ne]. }
  destruct (decide (n = [])) as [->|Hn].
  - rewrite (bool_decide_true ([] = [])) by done. rewrite (bool_decide_false ([] <> [] /\ _)) by naive_solver. done.
  - rewrite (bool_decide_false (n = [])) by done. destruct (decide (n ∈ names)).
    + by rewrite !bool_decide_true by done.
    + rewrite !(bool_decide_false (_ ∈ _)), (bool_decide_false (_ /\ _)) by naive_solver. done.
Qed.

(** A context never allows less than TLS 1.2 once protocols are given, and
    never compresses. *)
Lemma loaded_context cert key protocols ciphers ctx :
  load_certificate cert key protocols ciphers = Ok ctx ->
  exists_ cert = true /\ exists_ key = true /\ ctx_no_compression ctx = true /\
  (protocols <> [] -> ctx_minimum ctx <> DefaultMinimum) /\
  (ctx_minimum ctx = TLSv1_3 <-> protocols <> [] /\ py "TLSv1.2" ∉ protocols).
Proof.
  unfold load_certificate. destruct (exists_ cert), (exists_ key); try done. simpl.
  intros (?&_&H)%rbind_Ok. apply rbind_Ok in H as (chosen & _ & [= <-]). simpl.
  unfold minimum_version. destruct protocols as [|p ps]; [split_and!; try done; naive_solver|].
  case_bool_decide; split_and!; try done; naive_solver.
Qed.

(** No list of protocols excludes TLS 1.3. *)
Lemma only_12_still_allows_13 : minimum_version [py "TLSv1.2"] = minimum_version [py "TLSv1.2"; py "TLSv1.3"].
Proof. reflexivity. Qed.

(** The table of names is shared by all ports: a name given for one port is
    served with the same certificate on every other. *)
Lemma names_shared_by_ports m port ctx p n :
  n <> [] -> get_context (add_context m port ctx [n]) p n = Some ctx.
Proof. intros Hn. rewrite added_context_found, bool_decide_true; [done|]. split; [done|set_solver]. Qed.

End Manager.
End Tls.
