(* ===== verification/AccessLog.v ===== *)
(** * Access log of the proxy (src/proxy/logging.py)

    Entries go through a queue to a background writer, one line each.  The
    text of a float ([ts], [duration_ms]) is part of the entry; [strftime] of
    the local time is a parameter, and so is whether the file can be opened at
    each turn of the writer. *)

From S2P Require Import Prelude PyStr Json.

Module AccessLog.

Record entry := mkEntry {
  e_ts : str;
  e_when : str;                (* strftime of the local time of ts *)
  e_client : str;
  e_method : str;
  e_path : str;
  e_status : Z;
  e_size : Z;
  e_duration : str;
  e_upstream : str;
  e_ua : str
}.

(** ** Formats *)

(** [json.dumps] with [ensure_ascii]: every character outside the printable
    ASCII range is escaped, beyond the 16-bit range as a surrogate pair. *)
Definition u_escape (n : Z) : str := [92; 117] ++ hex4_of n.

Definition esc_ascii (c : Z) : str :=
  if c <? 127 then esc_char c
  else if c <? 65536 then u_escape c
  else u_escape (55296 + (c - 65536) / 1024) ++ u_escape (56320 + (c - 65536) mod 1024).

Definition quote_ascii (s : str) : str := [34] ++ concat (map esc_ascii s) ++ [34].

Definition field (k : str) (v : str) : str := quote_ascii k ++ [58] ++ v.

Definition format_json (e : entry) : str :=
  [123] ++ join [44]
    [field (py "ts") (e_ts e); field (py "client") (quote_ascii (e_client e));
     field (py "method") (quote_ascii (e_method e)); field (py "path") (quote_ascii (e_path e));
     field (py "status") (dec (e_status e)); field (py "size") (dec (e_size e));
     field (py "duration_ms") (e_duration e); field (py "upstream") (quote_ascii (e_upstream e));
     field (py "ua") (quote_ascii (e_ua e))] ++ [125].

(** There is never a "referer" in an entry. *)
Definition format_combined (e : entry) : str :=
  e_client e ++ py " - - [" ++ e_when e ++ py "] " ++
  [34] ++ e_method e ++ py " " ++ e_path e ++ py " HTTP/1.1" ++ [34] ++ py " " ++
  dec (e_status e) ++ py " " ++ dec (e_size e) ++ py " " ++
  [34] ++ py "-" ++ [34] ++ py " " ++ [34] ++ e_ua e ++ [34] ++ py " " ++
  e_duration e ++ py "ms upstream=" ++ e_upstream e.

Definition format (fmt : str) (e : entry) : str :=
  if str_eqb fmt (py "json") then format_json e else format_combined e.

(** ** The writer *)

Record AccessLogger := mkLogger {
  al_fmt : str;
  al_queue : list entry;
  al_running : bool;           (* the writer task *)
  al_file : str
}.

Definition new_logger (fmt : str) : AccessLogger := mkLogger fmt [] false [].

Definition start (l : AccessLogger) : AccessLogger := mkLogger (al_fmt l) (al_queue l) true (al_file l).

Definition log (e : entry) (l : AccessLogger) : AccessLogger :=
  mkLogger (al_fmt l) (al_queue l ++ [e]) (al_running l) (al_file l).

(** One turn of [_writer]: it waits while the queue is empty. *)
Definition writer_turn (opens : bool) (l : AccessLogger) : option AccessLogger :=
  if al_running l then
    match al_queue l with
    | [] => None
    | e :: q =>
        Some (mkLogger (al_fmt l) q true (if opens then al_file l ++ format (al_fmt l) e ++ [10] else al_file l))
    end
  else None.

Definition stop (l : AccessLogger) : AccessLogger := mkLogger (al_fmt l) (al_queue l) false (al_file l).

(** A series of calls and turns; [WriterRuns opens] does nothing while the
    writer waits. *)
Inductive action := Log (e : entry) | WriterRuns (opens : bool) | Stop.

Definition act (l : AccessLogger) (a : action) : AccessLogger :=
  match a with
  | Log e => log e l
  | WriterRuns opens => default l (writer_turn opens l)
  | Stop => stop l
  end.

Definition logged (acts : list action) : list entry :=
  omap (fun a => match a with Log e => Some e | _ => None end) acts.

(** ** Order *)

Fixpoint lines (fmt : str) (es : list entry) : str :=
  match es with [] => [] | e :: es' => format fmt e ++ [10] ++ lines fmt es' end.

Lemma lines_app fmt a b : lines fmt (a ++ b) = lines fmt a ++ lines fmt b.
Proof. induction a as [|e a IH]; [done|]. simpl. by rewrite IH, <- !app_assoc. Qed.

(** The entries taken from the queue, in the order they were logged, and of
    these the ones that could be written. *)
Definition holds (fmt : str) (es : list entry) (l : AccessLogger) : Prop :=
  al_fmt l = fmt /\ exists taken written,
    es = taken ++ al_queue l /\ written `sublist_of` taken /\ al_file l = lines fmt written.

Lemma act_holds fmt es l a : holds fmt es l -> holds fmt (es ++ logged [a]) (act l a).
Proof.
  intros (Hf & taken & written & -> & Hs & Hw). destruct a as [e|opens|]; simpl.
  - split; [done|]. exists taken, written. by rewrite <- app_assoc.
  - rewrite app_nil_r. unfold writer_turn. destruct (al_running l); [|split; [done|]; by exists taken, written].
    destruct (al_queue l) as [|e q] eqn:E; [split; [done|]; exists taken, written; simpl; by rewrite ?E|].
    split; [done|]. exists (taken ++ [e]), (if opens then written ++ [e] else written). simpl.
    split; [by rewrite <- app_assoc|]. destruct opens.
    + split; [by apply sublist_app|]. by rewrite lines_app, Hw, Hf.
    + split; [by apply sublist_inserts_r|done].
  - rewrite app_nil_r. split; [done|]. by exists taken, written.
Qed.

(** The file is the lines of entries in the order in which they were logged;
    an entry is missing only if it is still in the queue or the file could
    not be opened when its turn came. *)
Theorem log_order fmt acts :
  let l := foldl act (start (new_logger fmt)) acts in
  exists taken written,
    logged acts = taken ++ al_queue l /\ written `sublist_of` taken /\ al_file l = lines fmt written.
Proof.
  enough (forall acts l es, holds fmt es l -> holds fmt (es ++ logged acts) (foldl act l acts)) as H.
  { destruct (H acts (start (new_logger fmt)) []) as (_ & t & w & He & Hr); [|by exists t, w].
    split; [done|]. by exists [], []. }
  clear acts. induction acts as [|a acts IH]; intros l es Hh; simpl; [by rewrite app_nil_r|].
  apply act_holds with (a := a) in Hh. apply IH in Hh. rewrite <- app_assoc in Hh.
  unfold logged in *. simpl in *. by destruct a.
Qed.

(** Entries that are queued when the logger is stopped are never written. *)
Lemma stop_drops_queue e fmt opens :
  al_file (foldl act (start (new_logger fmt)) [Log e; Stop; WriterRuns opens]) = [].
Proof. done. Qed.

(** ** One line each *)

Definition no_newline (s : str) : Prop := 10 ∉ s.

Lemma no_newline_app a b : no_newline (a ++ b) <-> no_newline a /\ no_newline b.
Proof. unfold no_newline. set_solver. Qed.

Lemma hex_char_newline d : 0 <= d < 16 -> hex_char d <> 10.
Proof. unfold hex_char. intros. destruct (d <? 10) eqn:E; lia. Qed.

Lemma hex4_newline n : 0 <= n < 65536 -> no_newline (hex4_of n).
Proof.
  intros Hn. unfold hex4_of, hex_byte, no_newline.
  assert (forall d, 0 <= d < 16 -> hex_char d <> 10) as H by apply hex_char_newline.
  pose proof (H (n / 256 / 16)) as H0. pose proof (H ((n / 256) mod 16)) as H1.
  pose proof (H (n mod 256 / 16)) as H2. pose proof (H ((n mod 256) mod 16)) as H3.
  simpl. rewrite !elem_of_cons, elem_of_nil. intros [E|[E|[E|[E|[]]]]]; symmetry in E; revert E;
    [apply H0|apply H1|apply H2|apply H3]; dlia.
Qed.

Lemma esc_ascii_newline c : is_codepoint c -> no_newline (esc_ascii c).
Proof.
  unfold is_codepoint. intros Hc. unfold esc_ascii.
  destruct (Z.ltb_spec c 127).
  - unfold esc_char, no_newline. repeat (case_match; [set_solver|]). case_match eqn:E.
    + apply Z.ltb_lt in E. pose proof (hex_char_newline (c / 16)) as Ha. pose proof (hex_char_newline (c mod 16)) as Hb.
      unfold hex_byte. simpl. rewrite !elem_of_cons, elem_of_nil.
      intros [?|[?|[?|[?|[E'|[E'|[]]]]]]]; try lia; symmetry in E'; revert E'; [apply Ha|apply Hb]; dlia.
    + rewrite elem_of_cons, elem_of_nil. lia.
  - unfold u_escape. destruct (Z.ltb_spec c 65536).
    + apply no_newline_app. split; [unfold no_newline; set_solver|apply hex4_newline; lia].
    + rewrite !no_newline_app. split_and!; try (unfold no_newline; set_solver); apply hex4_newline; dlia.
Qed.

Lemma quote_newline s : Forall is_codepoint s -> no_newline (quote_ascii s).
Proof.
  intros Hs. unfold quote_ascii. rewrite !no_newline_app. split_and!; try (unfold no_newline; set_solver).
  induction Hs as [|c s Hc _ IH]; [unfold no_newline; set_solver|]. cbn [map concat].
  apply no_newline_app. split; [by apply esc_ascii_newline|done].
Qed.

Definition entry_ok (e : entry) : Prop :=
  Forall (Forall is_codepoint) [e_client e; e_method e; e_path e; e_upstream e; e_ua e] /\
  no_newline (e_ts e) /\ no_newline (e_duration e).

Lemma dec_newline n : no_newline (dec n).
Proof. by apply dec_not_in. Qed.

Lemma field_newline k v : Forall is_codepoint k -> no_newline v -> no_newline (field k v).
Proof.
  intros Hk Hv. unfold field. rewrite !no_newline_app. split_and!; [by apply quote_newline| |done].
  unfold no_newline. set_solver.
Qed.

Lemma join_newline l : Forall no_newline l -> no_newline (join [44] l).
Proof.
  induction 1 as [|x l Hx Hl IH]; [unfold no_newline; set_solver|]. destruct l; [done|].
  cbn [join]. rewrite !no_newline_app. split_and!; [done| |done]. unfold no_newline. set_solver.
Qed.

(** In the JSON format every entry is one line, whatever the client sent. *)
Lemma json_one_line e : entry_ok e -> no_newline (format_json e).
Proof.
  intros (Hs & Ht & Hd). repeat (apply Forall_cons in Hs as [? Hs]).
  unfold format_json. rewrite !no_newline_app. split_and!; try (unfold no_newline; set_solver).
  apply join_newline. repeat apply Forall_cons_2; try apply Forall_nil_2;
    (apply field_newline; [by_eval|]); auto using quote_newline, dec_newline.
Qed.

(** In the combined format a line feed in the path starts a line of the
    client's choice. *)
Lemma combined_forged e forged :
  e_path e = [10] ++ forged -> exists a b, format_combined e = a ++ [10] ++ forged ++ b.
Proof.
  intros Hp. unfold format_combined. rewrite Hp.
  exists (e_client e ++ py " - - [" ++ e_when e ++ py "] " ++ [34] ++ e_method e ++ py " ").
  eexists. rewrite <- !app_assoc. reflexivity.
Qed.

End AccessLog.
