(* ===== verification/EventStream.v ===== *)
(** * The log streams of the panels (src/server/web/app.py and
      src/client/web/app.py, [api_logs_stream])

    Both panels serve the same server-sent events.  A turn of the loop writes
    one event and sleeps ten seconds; how its two awaits end is the [stream_turn] of
    a trace, together with the time as [json.dumps] prints it. *)

From S2P Require Import Prelude PyStr Json AccessLog.
Import AccessLog.

Module EventStream.

(** The headers of the response, status 200. *)
Definition stream_headers : list (str * str) :=
  [(py "Content-Type", py "text/event-stream"); (py "Cache-Control", py "no-cache");
   (py "Connection", py "keep-alive")].

(** [json.dumps({'ts': time.time(), 'msg': 'heartbeat'})]: the separators of
    the default are a comma and a colon, each followed by a space. *)
Definition event_data (ts : str) : str :=
  py "{" ++ quote_ascii (py "ts") ++ py ": " ++ ts ++ py ", "
  ++ quote_ascii (py "msg") ++ py ": " ++ quote_ascii (py "heartbeat") ++ py "}".

Definition event_text (ts : str) : str := py "data: " ++ event_data ts ++ [10; 10].

(** How a turn ends. *)
Inductive stream_turn :=
  | Slept                      (* the write and the sleep both end *)
  | ResetWriting               (* ConnectionResetError of the write *)
  | CancelledWriting
  | CancelledSleeping
  | FailedWriting (e : exc).   (* any other exception of the write *)

(** What was written, and the outcome once the handler has left its loop. *)
Fixpoint run_stream (tr : list (str * stream_turn)) : str * option (result unit) :=
  match tr with
  | [] => ([], None)
  | (ts, Slept) :: tr' => let '(out, r) := run_stream tr' in (event_text ts ++ out, r)
  | (_, ResetWriting) :: _ | (_, CancelledWriting) :: _ => ([], Some (Ok tt))
  | (ts, CancelledSleeping) :: _ => (event_text ts, Some (Ok tt))
  | (_, FailedWriting e) :: _ => ([], Some (Err e))
  end.

Definition server_logs_stream : list (str * stream_turn) -> str * option (result unit) := run_stream.
Definition client_logs_stream : list (str * stream_turn) -> str * option (result unit) := run_stream.

(** ** Reading the stream *)

(** The events a browser dispatches: blocks of lines up to an empty line,
    here with one [data] line each. *)
Fixpoint split_events (cur : str) (s : str) : list str * str :=
  match s with
  | [] => ([], cur)
  | c :: s' =>
      match s' with
      | d :: s'' =>
          if (c =? 10) && (d =? 10) then let '(l, rest) := split_events [] s'' in (cur :: l, rest)
          else split_events (cur ++ [c]) s'
      | [] => ([], cur ++ [c])
      end
  end.

Definition data_of (block : str) : option str :=
  if startswith block (py "data: ") then Some (drop 6 block) else None.

(** The times of the events a trace sends. *)
Fixpoint sent_times (tr : list (str * stream_turn)) : list str :=
  match tr with
  | (ts, Slept) :: tr' => ts :: sent_times tr'
  | (ts, CancelledSleeping) :: _ => [ts]
  | _ => []
  end.

Lemma split_block b : forall cur s,
  no_newline b ->
  split_events cur (b ++ 10 :: 10 :: s) =
    let '(l, rest) := split_events [] s in ((cur ++ b) :: l, rest).
Proof.
  induction b as [|c b IH]; intros cur s Hb.
  - simpl. by rewrite app_nil_r.
  - assert (Hc : c <> 10) by (intros ->; apply Hb; left).
    assert (Hb' : no_newline b) by (intros Hin; apply Hb; by right).
    rewrite <- app_comm_cons. cbn [split_events].
    destruct (b ++ 10 :: 10 :: s) as [|d s'] eqn:E; [by destruct b|].
    rewrite (proj2 (Z.eqb_neq c 10) Hc). cbn [andb]. rewrite <- E, IH by done.
    destruct (split_events [] s) as [l rest]. by rewrite <- app_assoc.
Qed.

Lemma event_line ts : no_newline ts -> no_newline (py "data: " ++ event_data ts).
Proof.
  intros Ht. unfold event_data. rewrite !no_newline_app.
  split_and!; try done; try (vm_compute; set_solver); by_eval.
Qed.

Lemma event_text_block ts : event_text ts = (py "data: " ++ event_data ts) ++ [10; 10].
Proof. unfold event_text. by rewrite app_assoc. Qed.

(** Whatever becomes of the connection, the bytes written are whole events: a
    reader finds one heartbeat for each turn that wrote, in order, and no
    half of one. *)
Theorem stream_is_whole_events tr :
  Forall (fun t => no_newline (fst t)) tr ->
  let '(out, _) := server_logs_stream tr in
  split_events [] out = (map (fun ts => py "data: " ++ event_data ts) (sent_times tr), [])
  /\ map data_of (fst (split_events [] out)) = map (fun ts => Some (event_data ts)) (sent_times tr).
Proof.
  intros Hn. unfold server_logs_stream.
  assert (Hs : split_events [] (fst (run_stream tr))
               = (map (fun ts => py "data: " ++ event_data ts) (sent_times tr), [])).
  { induction tr as [|[ts t] tr IH]; [done|]. apply Forall_cons in Hn as [Ht Hn]. simpl in Ht.
    specialize (IH Hn). destruct t; cbn [run_stream sent_times]; try reflexivity.
    - destruct (run_stream tr) as [out r]. cbn [fst] in *. rewrite event_text_block, <- app_assoc.
      cbn [app]. rewrite split_block by (by apply event_line). by rewrite IH.
    - cbn [fst]. rewrite event_text_block. by rewrite split_block by (by apply event_line). }
  destruct (run_stream tr) as [out r]. cbn [fst] in Hs. split; [done|]. rewrite Hs. cbn [fst].
  rewrite map_map. apply map_ext. intros ts. unfold data_of.
  rewrite (drop_app_length' (py "data: ")) by reflexivity. reflexivity.
Qed.

(** The loop ends only when an await does not end well; the two expected
    exceptions are absorbed, and any other one escapes. *)
Lemma stream_ends_iff tr :
  snd (run_stream tr) = None <-> Forall (fun t => snd t = Slept) tr.
Proof.
  induction tr as [|[ts t] tr IH]; [done|]. rewrite Forall_cons. simpl.
  destruct t; simpl; try (split; [done|by intros [[=] _]]).
  destruct (run_stream tr) as [out r]. simpl in *. rewrite IH. naive_solver.
Qed.

Lemma stream_is_whole_events_witness :
  fst (split_events [] (fst (server_logs_stream [(py "1.5", Slept); (py "11.5", CancelledSleeping)])))
  = [py "data: " ++ event_data (py "1.5"); py "data: " ++ event_data (py "11.5")].
Proof.
  pose proof (stream_is_whole_events [(py "1.5", Slept); (py "11.5", CancelledSleeping)]
    ltac:(repeat constructor; by_eval)) as H.
  destruct (server_logs_stream _) as [out r] eqn:E. destruct H as [H _]. cbn [fst]. by rewrite H.
Defined.
End EventStream.
