(* ===== verification/Errors.v ===== *)
(** * Messages for the user (src/common/errors.py, src/common/logging.py)

    The catalogue of errors with their two renderings, the two formatters of
    log records, and the set-up of the root logger: threshold and handlers.  A
    text of the catalogue that the code splits over several literals is one
    text here.  The time of a record is given as the texts [strftime] and
    [json.dumps] make of it. *)

From S2P Require Import Prelude PyStr Json AccessLog.
Import AccessLog.

Module Errors.

(** ** Errors *)

Inductive Severity := INFO | SUCCESS | WARNING | ERROR | CRITICAL.

Definition severity_value (s : Severity) : str :=
  match s with
  | INFO => py "info" | SUCCESS => py "success" | WARNING => py "warning" | ERROR => py "error"
  | CRITICAL => py "critical"
  end.

Definition SEVERITY_ICONS (s : Severity) : str :=
  match s with
  | INFO => [8505; 65039] | SUCCESS => [9989] | WARNING => [9888; 65039] | ERROR => [10060]
  | CRITICAL => [128308]
  end.

Record UserFacingError := mkError {
  ue_title : str;
  ue_description : str;
  ue_suggestions : list str;
  ue_severity : Severity
}.

Definition terminal_lines (e : UserFacingError) : list str :=
  [SEVERITY_ICONS (ue_severity e) ++ py "  " ++ ue_title e]
  ++ (if bool_decide (ue_description e = []) then [] else [py "   " ++ ue_description e])
  ++ map (fun s => py "   " ++ [128161; 32] ++ s) (ue_suggestions e).

Definition format_for_terminal (e : UserFacingError) : str := join [10] (terminal_lines e).

Definition format_for_web (e : UserFacingError) : json :=
  JObj [(py "title", JStr (ue_title e)); (py "description", JStr (ue_description e));
        (py "suggestions", JList (map JStr (ue_suggestions e)));
        (py "severity", JStr (severity_value (ue_severity e)))].

(** [f": {s}" if s else ""]. *)
Definition extra (s : str) : str := if bool_decide (s = []) then [] else py ": " ++ s.

Definition ConnectionRefused (host : str) (port : Z) : UserFacingError :=
  mkError (py "Cannot connect to " ++ host ++ py ":" ++ dec port)
    (py "The LocalNetwork mediation server is not reachable. Check that the server is running and your network allows outbound connections on this port.")
    [py "Make sure the server is running: localnetwork-server";
     py "Check your firewall settings";
     py "Verify the server address with: localnetwork-cli status"] ERROR.

Definition AuthFailed (reason : str) : UserFacingError :=
  mkError (py "Authentication failed" ++ extra reason)
    (py "Your client identity could not be verified by the server. This may happen if your keys were regenerated or if someone is trying to impersonate you.")
    [py "If you regenerated your keys, re-register with the server";
     py "Check that your identity files exist in ~/.localnetwork/";
     py "Contact the server administrator if the issue persists"] ERROR.

Definition TunnelFailed (peer_name : str) : UserFacingError :=
  mkError (py "Could not establish direct connection to " ++ peer_name)
    (py "A direct peer-to-peer connection could not be established. This is often caused by restrictive NAT or firewalls. The connection will use a relay instead (slightly slower).")
    [py "Enable UPnP on your router for better connectivity";
     py "Use a relay server if direct connections are blocked";
     py "Try connecting from a different network"] WARNING.

Definition PortInUse (port : Z) (service : str) : UserFacingError :=
  mkError (py "Port " ++ dec port ++ py " is already in use"
             ++ (if bool_decide (service = []) then [] else py " for " ++ service))
    (py "Another program is already listening on port " ++ dec port
       ++ py ". You can use a different port or stop the other program.")
    [py "Try a different port: lnet expose --port " ++ dec (port + 1);
     py "Find what's using port " ++ dec port ++ py ": lsof -i :" ++ dec port;
     py "Use auto port selection to pick a free port automatically"] WARNING.

Definition ConfigInvalid (detail : str) : UserFacingError :=
  mkError (py "Invalid configuration" ++ extra detail)
    (py "Your LocalNetwork configuration contains errors. Check the config file and fix the issues listed below.")
    [py "Check ~/.localnetwork/config.yaml for syntax errors";
     py "Run the setup wizard to regenerate your config";
     py "See the documentation for valid configuration options"] ERROR.

Definition PlatformUnsupported (feature platform : str) : UserFacingError :=
  mkError (feature ++ py " is not supported on this platform")
    (py "The '" ++ feature ++ py "' feature requires specific OS support that is not available"
       ++ (if bool_decide (platform = []) then [] else py " on " ++ platform)
       ++ py ". Consider using an alternative approach.")
    [py "Use service exposure mode instead of TUN mode";
     py "Run on Linux for full TUN interface support";
     py "See platform-specific setup instructions in the README"] WARNING.

Definition FirewallBlock (port : Z) : UserFacingError :=
  mkError (py "Connection blocked by firewall" ++ (if port =? 0 then [] else py " on port " ++ dec port))
    (py "A firewall appears to be blocking the connection. This is common on corporate networks or restrictive ISPs.")
    [py "Check your firewall settings and allow LocalNetwork";
     py "Try using a different port (some ISPs block common ports)";
     py "Connect via a VPN to bypass restrictive firewalls"] ERROR.

(** ** Log records *)

Inductive level := L_DEBUG | L_INFO | L_WARNING | L_ERROR | L_CRITICAL.

Definition levelno (l : level) : Z :=
  match l with L_DEBUG => 10 | L_INFO => 20 | L_WARNING => 30 | L_ERROR => 40 | L_CRITICAL => 50 end.

Definition levelname (l : level) : str :=
  match l with
  | L_DEBUG => py "DEBUG" | L_INFO => py "INFO" | L_WARNING => py "WARNING" | L_ERROR => py "ERROR"
  | L_CRITICAL => py "CRITICAL"
  end.

Record LogRecord := mkRecord {
  lr_created : str;                     (* the float as JSON *)
  lr_clock : str;                       (* its local time as HH:MM:SS *)
  lr_level : level;
  lr_name : str;
  lr_message : str;
  lr_friendly : option str;
  lr_peer_id : option str;
  lr_network_id : option str;
  lr_duration_ms : option str;          (* the number as JSON *)
  lr_exception : option str
}.

(** [EVENT_ICONS.get(record.levelname.lower(), "")]: of the levels only three
    have an icon. *)
Definition level_icon (l : level) : str :=
  match l with
  | L_INFO => [8505; 65039] | L_WARNING => [9888; 65039] | L_ERROR => [10060]
  | L_DEBUG | L_CRITICAL => []
  end.

(** [name.split(".")[-1]]. *)
Definition last_part (name : str) : str := List.last (split name (py ".") None) [].

Definition friendly_format (verbose : bool) (r : LogRecord) : str :=
  let head := lr_clock r ++ py " " ++ level_icon (lr_level r) ++ py " " in
  match lr_friendly r with
  | Some ((_ :: _) as f) => head ++ f
  | _ =>
      if verbose then head ++ py "[" ++ last_part (lr_name r) ++ py "] " ++ lr_message r
      else if levelno (lr_level r) <=? 10 then []
      else head ++ lr_message r
  end.

Definition opt_field (k : str) (v : option str) : list str :=
  match v with Some v => [AccessLog.field k v] | None => [] end.

Definition json_format (r : LogRecord) : str :=
  [123] ++ join [44]
    ([AccessLog.field (py "ts") (lr_created r); AccessLog.field (py "level") (quote_ascii (levelname (lr_level r)));
      AccessLog.field (py "logger") (quote_ascii (lr_name r)); AccessLog.field (py "msg") (quote_ascii (lr_message r))]
     ++ opt_field (py "friendly") (quote_ascii <$> lr_friendly r)
     ++ opt_field (py "peer_id") (quote_ascii <$> lr_peer_id r)
     ++ opt_field (py "network_id") (quote_ascii <$> lr_network_id r)
     ++ opt_field (py "duration_ms") (lr_duration_ms r)
     ++ opt_field (py "exception") (quote_ascii <$> lr_exception r)) ++ [125].

(** ** Set up *)

Inductive formatter := Friendly (verbose : bool) | JsonLines.
Inductive handler := StdOut (f : formatter) | StdErr (f : formatter) | File (path : str) (f : formatter).

(** The handlers of [setup_logging]; [openable] is whether the file opens. *)
Definition setup_handlers (verbose json_output : bool) (log_file : option str) (openable : bool) : list handler :=
  [if json_output then StdOut JsonLines else StdErr (Friendly verbose)]
  ++ match log_file with
     | Some ((_ :: _) as path) => if openable then [File path JsonLines] else []
     | _ => []
     end.

(** What a stream handler writes for a record: the text and a line feed. *)
Definition emitted (f : formatter) (r : LogRecord) : str :=
  match f with Friendly v => friendly_format v r | JsonLines => json_format r end ++ [10].

(** [log_friendly(logger, level, friendly, **extra)] with the extra fields that
    the formatters know. *)
Definition log_friendly (created clock name : str) (l : level) (friendly : str)
    (peer_id network_id duration_ms : option str) : LogRecord :=
  mkRecord created clock l name friendly (Some friendly) peer_id network_id duration_ms None.

(** [getattr(logging, name, logging.INFO)] of a name in capitals, as
    [setLevel] takes it: the module has two attributes in capitals that are no
    levels, a text and a dictionary. *)
Definition level_attr (name : str) : result Z :=
  if bool_decide (name = py "CRITICAL" \/ name = py "FATAL") then Ok 50
  else if bool_decide (name = py "ERROR") then Ok 40
  else if bool_decide (name = py "WARNING" \/ name = py "WARN") then Ok 30
  else if bool_decide (name = py "DEBUG") then Ok 10
  else if bool_decide (name = py "NOTSET") then Ok 0
  else if bool_decide (name = py "BASIC_FORMAT") then raise CValueError []
  else if bool_decide (name = py "_STYLES") then raise CTypeError []
  else Ok 20.

Section Levels.
Context {U : Unicode}.

(** [setup_logging]: the threshold and the handlers of the root logger. *)
Definition setup_logging (level_name : str) (verbose json_output : bool) (log_file : option str)
    (openable : bool) : result (Z * list handler) :=
  let? threshold := level_attr (upper level_name) in
  Ok (threshold, setup_handlers verbose json_output log_file openable).

(** What the handlers write for a record that a logger below the root gets. *)
Definition root_writes (cfg : Z * list handler) (r : LogRecord) : list (handler * str) :=
  if levelno (lr_level r) <? fst cfg then []
  else map (fun h => (h, match h with StdOut f | StdErr f | File _ f => emitted f r end)) (snd cfg).
End Levels.

(** ** The catalogue *)

(** Every error of the catalogue is rendered with its title, its description
    and three suggestions: five lines when the arguments have no line feed. *)
Definition catalogue (s t : str) (n : Z) : list UserFacingError :=
  [ConnectionRefused s n; AuthFailed s; TunnelFailed s; PortInUse n s; ConfigInvalid s;
   PlatformUnsupported s t; FirewallBlock n].

Lemma catalogue_lines s t n e :
  e ∈ catalogue s t n -> length (terminal_lines e) = 5%nat.
Proof.
  unfold catalogue. intros He. repeat (apply elem_of_cons in He as [->|He]); try (by inversion He);
    unfold terminal_lines; cbn [ue_description ue_suggestions];
    rewrite bool_decide_false by (intros E; vm_compute in E; discriminate E); reflexivity.
Qed.

(** The page gets back every part of the error. *)
Lemma web_complete e1 e2 : format_for_web e1 = format_for_web e2 -> e1 = e2.
Proof.
  destruct e1 as [t1 d1 s1 v1], e2 as [t2 d2 s2 v2]. unfold format_for_web. simpl. intros [= -> -> Hs Hv].
  f_equal; [|by destruct v1, v2].
  revert s2 Hs. induction s1 as [|x s1 IH]; intros [|y s2] [=]; [done|]. f_equal; auto.
Qed.

(** The suggestion for a port in use can be no port. *)
Lemma suggested_port_out_of_range :
  head (ue_suggestions (PortInUse 65535 [])) = Some (py "Try a different port: lnet expose --port 65536").
Proof. by_eval. Qed.

(** ** The formatters *)

(** A debug record that is to be skipped still takes an empty line. *)
Lemma skipped_debug_is_blank_line r :
  lr_level r = L_DEBUG -> lr_friendly r = None -> emitted (Friendly false) r = [10].
Proof. intros Hl Hf. unfold emitted, friendly_format. by rewrite Hl, Hf. Qed.

(** A friendly message is shown the same with and without [verbose]. *)
Lemma friendly_shown created clock name l friendly peer network duration v :
  friendly <> [] ->
  friendly_format v (log_friendly created clock name l friendly peer network duration)
  = clock ++ py " " ++ level_icon l ++ py " " ++ friendly.
Proof. intros Hf. destruct friendly; [done|]. unfold friendly_format, log_friendly. cbn [lr_friendly lr_clock lr_level]. by rewrite <- !app_assoc. Qed.

Definition record_ok (r : LogRecord) : Prop :=
  Forall (Forall is_codepoint) [lr_name r; lr_message r] /\
  (forall s, s ∈ [lr_friendly r; lr_peer_id r; lr_network_id r; lr_exception r] -> match s with Some t => Forall is_codepoint t | None => True end) /\
  no_newline (lr_created r) /\ (forall d, lr_duration_ms r = Some d -> no_newline d).

Lemma opt_field_newline k v :
  Forall is_codepoint k -> (forall x, v = Some x -> no_newline x) -> Forall no_newline (opt_field k v).
Proof. intros Hk Hv. destruct v; [|by constructor]. constructor; [|done]. apply field_newline; auto. Qed.

(** The machine format is one line per record, whatever the message is. *)
Lemma json_record_one_line r : record_ok r -> no_newline (json_format r).
Proof.
  intros (Hs & Ho & Hc & Hd). repeat (apply Forall_cons in Hs as [? Hs]).
  assert (Hq : forall o, o ∈ [lr_friendly r; lr_peer_id r; lr_network_id r; lr_exception r] ->
    forall x, quote_ascii <$> o = Some x -> no_newline x).
  { intros [t|] Hin x [= <-]. apply quote_newline. exact (Ho _ Hin). }
  unfold json_format. rewrite !no_newline_app. split_and!; try (unfold no_newline; set_solver).
  apply join_newline. rewrite !Forall_app. split_and!.
  { repeat apply Forall_cons_2; try apply Forall_nil_2; (apply field_newline; [by_eval|]); auto using quote_newline.
    apply quote_newline. by destruct (lr_level r); by_eval. }
  all: apply opt_field_newline; [by_eval|]; try apply Hq; rewrite ?elem_of_cons; auto 6.
Qed.

(** ** Levels *)

(** The level a user names is the one that counts: a record passes exactly
    when its own level is not below it. *)
Lemma named_level_threshold l l' verbose json_output file openable cfg (r : LogRecord) :
  level_attr (levelname l) = Ok (fst cfg) ->
  snd cfg = setup_handlers verbose json_output file openable -> lr_level r = l' ->
  root_writes cfg r <> [] <-> levelno l <= levelno l'.
Proof.
  destruct cfg as [t hs]. cbn [fst snd]. intros Hl -> Hr.
  assert (t = levelno l) as -> by (destruct l; vm_compute in Hl; by injection Hl as <-).
  unfold root_writes. cbn [fst snd]. rewrite Hr. destruct (Z.ltb_spec (levelno l') (levelno l)); [naive_solver lia|].
  split; [done|]. intros _. unfold setup_handlers. by destruct json_output.
Qed.

(** Two names make the set up raise, before any handler has changed. *)
Lemma level_attr_raises name :
  (exists e, level_attr name = Err e) <-> name = py "BASIC_FORMAT" \/ name = py "_STYLES".
Proof.
  split.
  - unfold level_attr. intros [e He]. repeat case_bool_decide; try discriminate He; auto.
  - intros [->| ->]; eexists; reflexivity.
Qed.

(** A machine log is one line per record: the file handler, and standard
    output in JSON mode, never write another line feed than the last. *)
Lemma machine_log_lines cfg r h text :
  record_ok r -> (h, text) ∈ root_writes cfg r ->
  (exists path, h = File path JsonLines) \/ h = StdOut JsonLines ->
  exists line, text = line ++ [10] /\ no_newline line.
Proof.
  intros Hr Hin Hh. unfold root_writes in Hin. destruct (_ <? _); [by apply elem_of_nil in Hin|].
  apply list_elem_of_fmap in Hin as (h' & [= <- ->] & _). exists (json_format r).
  split; [|by apply json_record_one_line]. by destruct Hh as [[path ->]| ->].
Qed.

End Errors.
