(* ===== verification/ProxyMain.v ===== *)
(** * Start of the proxy and its admin panel
      (src/proxy/main.py, src/proxy/web/app.py, [get_stats] of src/proxy/status.py)

    [main] after its arguments are parsed, up to the master's loop, and the two
    endpoints of the panel that report state.  The panel runs in the master,
    with a collector of its own and without the balancers and the health
    monitor, which live in the workers. *)

From S2P Require Import Prelude PyStr Json Messages Protocol LoadBalancer HealthCheck Status Http WebSocket Connection ProxyConfig ProxyProcess.
Import LoadBalancer HealthCheck Status ProxyConfig ProxyProcess.

Module ProxyMain.

(** ** The panel *)

Section Panel.
(** The JSON text of [round(seconds, 1)]. *)
Context (round1 : time -> str).

Definition get_stats (now : time) (s : StatusCollector) : list (str * json) :=
  [(py "uptime_seconds", JFloat (round1 (now - start_time s)));
   (py "active_connections", JInt (sc_active s)); (py "accepted_connections", JInt (sc_accepted s));
   (py "handled_connections", JInt (sc_handled s)); (py "total_requests", JInt (sc_requests s));
   (py "reading", JInt (sc_reading s)); (py "writing", JInt (sc_writing s)); (py "waiting", JInt (sc_waiting s))].

Record PanelApp := mkPanelApp {
  pa_collector : option StatusCollector;
  pa_monitor : option HealthMonitor;
  pa_balancers : option (list (str * Balancer));
  pa_upstreams : option (list UpstreamBlock)            (* of the configuration, if there is one *)
}.

Definition server_json (s : server_summary) : json :=
  JObj [(py "host", JStr (ss_host s)); (py "state", JStr (ss_state s)); (py "active", JInt (ss_active s));
        (py "failures", JInt (ss_failures s))].

Definition group_json (g : str * list server_summary) : json :=
  JObj [(py "name", JStr (fst g)); (py "servers", JList (map server_json (snd g)))].

Definition stats_of (now : time) (a : PanelApp) : list (str * json) :=
  match pa_collector a with Some s => get_stats now s | None => [] end.

Definition api_dashboard (now : time) (a : PanelApp) : json := JObj (stats_of now a).

Definition proxy_status (now : time) (a : PanelApp) : json :=
  JObj (dset (stats_of now a) (py "upstreams")
          (JList (map group_json (upstream_summary (default [] (pa_upstreams a)) (pa_monitor a)
                                    (default [] (pa_balancers a)))))).

(** [create_app] as [_start_admin_panel] calls it. *)
Definition admin_app (now : time) (upstreams : list UpstreamBlock) : PanelApp :=
  mkPanelApp (Some (new_collector now)) None None (Some upstreams).

(** The panel of the master reports every server as up, idle and without
    failures, unless the configuration marks it as down: whatever happens in
    the workers, only the time changes. *)
Theorem admin_panel_static t0 now upstreams :
  proxy_status now (admin_app t0 upstreams) =
  JObj ([(py "uptime_seconds", JFloat (round1 (now - t0)));
         (py "active_connections", JInt 0); (py "accepted_connections", JInt 0);
         (py "handled_connections", JInt 0); (py "total_requests", JInt 0);
         (py "reading", JInt 0); (py "writing", JInt 0); (py "waiting", JInt 0)]
    ++ [(py "upstreams", JList (map (fun u => group_json (ub_name u,
         map (fun s => mkServerSummary (server_key (us_host s) (us_port s))
                         (if us_down s then py "down" else py "up") 0 0) (ub_servers u))) upstreams))]).
Proof.
  unfold proxy_status, stats_of, admin_app. cbn [pa_collector pa_upstreams pa_monitor pa_balancers default].
  unfold upstream_summary. rewrite map_map.
  f_equal.
Qed.
End Panel.

(** ** [main] *)

Section Main.
Context {U : Unicode} {F : Floats}.

Record args := mkArgs { ar_config : str; ar_workers : Z; ar_validate : bool }.

Inductive process :=
  | Exit (code : Z) (text : str)                     (* text on the terminal *)
  | Running (admin : option Z) (m : Master)          (* the admin panel's port, the master in its loop *)
  | Fatal (admin : option Z) (e : exc).              (* logged, exit code 1 *)

Definition set_worker_count (n : Z) (c : ProxyConfig) : ProxyConfig :=
  if n =? 0 then c
  else mkConfig n (pc_worker_connections c) (pc_http c) (pc_https c) (pc_upstreams c) (pc_locations c)
         (pc_ssl_blocks c) (pc_cache c) (pc_gzip c) (pc_logs c) (pc_admin_port c).

Definition valid_text (c : ProxyConfig) : str :=
  py "Configuration is valid (" ++ dec (zlen (pc_upstreams c)) ++ py " upstream(s), "
  ++ dec (zlen (pc_locations c)) ++ py " location(s), workers="
  ++ (if pc_workers c =? 0 then py "auto" else dec (pc_workers c)) ++ py ")".

Definition main (a : args) (parsed : option (result json)) (binds : Z -> bool) (cpu_count : option Z) : process :=
  match parsed with
  | None => Exit 1 (py "Error: config file not found: " ++ ar_config a)
  | _ =>
      match load_config parsed with
      | Err e => Exit 1 (py "Error: failed to parse config: " ++ exc_msg e)
      | Ok c =>
          let c := set_worker_count (ar_workers a) c in
          if ar_validate a then Exit 0 (valid_text c)
          else
            let admin := if 0 <? pc_admin_port c then Some (pc_admin_port c) else None in
            match start binds cpu_count c with
            | Ok m => Running admin m
            | Err e => Fatal admin e
            end
      end
  end.

Definition exit_code (p : process) : option Z :=
  match p with Exit n _ => Some n | Fatal _ _ => Some 1 | Running _ _ => None end.

Lemma bind_all_outcome binds : forall ports m,
  match bind_all binds ports m with
  | Ok m' => (forall p, p ∈ ports -> binds p = true) /\ ms_workers m' = ms_workers m
  | Err _ => exists p, p ∈ ports /\ binds p = false
  end.
Proof.
  induction ports as [|p ports IH]; intros m; cbn [bind_all]; [by split; [intros p Hp%elem_of_nil|]|].
  unfold ProxyProcess.bind. destruct (binds p) eqn:Hp; cbn [rbind raise]; [|exists p; set_solver].
  match goal with |- context [bind_all binds ports ?x] => specialize (IH x) end.
  destruct (bind_all _ _ _).
  - destruct IH as [Hb Hw]. split; [|done]. intros q [->|Hq]%elem_of_cons; auto.
  - destruct IH as (q & Hq & Hf). exists q. set_solver.
Qed.

Lemma start_outcome binds cpu c :
  match start binds cpu c with
  | Ok m => (forall p, p ∈ pc_http c ++ pc_https c -> binds p = true)
            /\ length (ms_workers m) = worker_count (pc_workers c) cpu
  | Err _ => exists p, p ∈ pc_http c ++ pc_https c /\ binds p = false
  end.
Proof.
  unfold start. pose proof (bind_all_outcome binds (pc_http c ++ pc_https c) init) as H.
  destruct (bind_all _ _ _) as [m|e]; cbn [rbind]; [|done]. destruct H as [Hb Hw]. split; [done|].
  rewrite spawn_workers_eq. cbn [ms_workers]. rewrite Hw. cbn. apply length_seq.
Qed.

(** Every way [main] ends or does not end: exit code 0 only for a file that was
    asked to be validated and parses, the loop only when every port is bound,
    with as many workers as the command line, else the file, else the machine
    asks for. *)
Theorem main_outcome a parsed binds cpu :
  match main a parsed binds cpu with
  | Exit n _ => (n = 0 <-> ar_validate a = true /\ exists c, load_config parsed = Ok c) /\ (n = 0 \/ n = 1)
  | Running admin m =>
      ar_validate a = false /\ exists c, load_config parsed = Ok c
      /\ (forall p, p ∈ pc_http c ++ pc_https c -> binds p = true)
      /\ length (ms_workers m) = worker_count (if ar_workers a =? 0 then pc_workers c else ar_workers a) cpu
      /\ (admin = None <-> pc_admin_port c <= 0)
  | Fatal _ _ => exists c p, load_config parsed = Ok c /\ p ∈ pc_http c ++ pc_https c /\ binds p = false
  end.
Proof.
  unfold main. destruct parsed as [r|]; [|split; [split; [done|by intros (_ & c & [=])]|by right]].
  destruct (load_config (Some r)) as [c|e] eqn:Hl; [|split; [split; [done|by intros (_ & c & [=])]|by right]].
  destruct (ar_validate a) eqn:Hv; [split; [split; [eauto|done]|by left]|].
  pose proof (start_outcome binds cpu (set_worker_count (ar_workers a) c)) as H.
  assert (Hp : pc_http (set_worker_count (ar_workers a) c) ++ pc_https (set_worker_count (ar_workers a) c)
               = pc_http c ++ pc_https c) by (unfold set_worker_count; by destruct (_ =? 0)).
  assert (Ha : pc_admin_port (set_worker_count (ar_workers a) c) = pc_admin_port c)
    by (unfold set_worker_count; by destruct (_ =? 0)).
  rewrite Hp in H. rewrite Ha.
  destruct (start _ _ _) as [m|e]; [|destruct H as (p & Hp1 & Hp2); by exists c, p].
  split; [done|]. exists c. destruct H as [Hb Hw]. split_and!; [done|done| |].
  - rewrite Hw. f_equal. unfold set_worker_count. by destruct (_ =? 0).
  - destruct (Z.ltb_spec 0 (pc_admin_port c)); split; (done || lia).
Qed.
End Main.

(** The validation that the command line offers accepts a file with which no
    worker can start ([unknown_algorithm_accepted]). *)
Example validated_but_unusable :
  exit_code (main (U := ascii_only) (F := no_floats) (mkArgs (py "proxy.json") 0 true)
    (Some (Ok (JObj (sample_document (py "fair"))))) (fun _ => true) None) = Some 0.
Proof. by_eval. Qed.

End ProxyMain.
