(* ===== verification/Packet.v ===== *)
(** * Packets and the TUN interface (src/client/tun_interface.py, and the
      packet helpers of src/client/main.py)

    Packets are byte lists.  Part one: the addresses of IPv4 packets and the
    ARP messages that gateway mode answers.  Part two: the TUN interface,
    with the operating system as a parameter: [Kernel] gives the outcome of
    each system call, and the requests the code builds for it are modelled
    byte by byte (native byte order is little-endian).

    [socket.inet_aton] is a parameter; its documented inverse of [inet_ntoa]
    is the hypothesis [aton_ntoa]. *)

From S2P Require Import Prelude PyStr.

Module Packet.

(** [socket.inet_ntoa]: [OSError] unless there are four bytes. *)
Definition inet_ntoa (b : bytes) : result str :=
  match b with
  | [a; b; c; d] => Ok (join [46] [dec a; dec b; dec c; dec d])
  | _ => raise COSError (py "packed IP wrong length")
  end.

Section Packets.
Context {U : Unicode}.

(** ** IPv4 *)

(** [try: return inet_ntoa(b) except OSError: return None]. *)
Definition ntoa_or_none (b : bytes) : option str :=
  match inet_ntoa b with Ok s => Some s | Err _ => None end.

Definition byte_at (b : bytes) (i : nat) : Z := nth i b 0.

Definition extract_ip (i : nat) (packet : bytes) : option str :=
  if zlen packet <? 20 then None
  else if negb (Z.shiftr (byte_at packet 0) 4 =? 4) then None
  else ntoa_or_none (slice i (i + 4) packet).

Definition extract_dst_ip_from_packet (packet : bytes) : option str := extract_ip 16 packet.
Definition extract_src_ip_from_packet (packet : bytes) : option str := extract_ip 12 packet.
Definition extract_dst_ip (raw_packet : bytes) : option str := extract_ip 16 raw_packet.

(** ** ARP *)

Record Arp := mkArp {
  arp_opcode : Z;
  arp_sha : bytes;
  arp_spa : bytes;
  arp_tha : bytes;
  arp_tpa : bytes
}.

(** The ARP message of a packet, Ethernet-framed or raw. *)
Definition arp_part (packet : bytes) : option bytes :=
  if (zlen packet >=? 14) && bool_decide (slice 12 14 packet = [8; 6]) then Some (drop 14 packet)
  else if (zlen packet >=? 28) && bool_decide (slice 0 2 packet = [0; 1])
          && bool_decide (slice 2 4 packet = [8; 0]) then Some packet
  else None.

Definition parse_arp (packet : bytes) : option Arp :=
  match packet with
  | [] => None
  | _ =>
      match arp_part packet with
      | None => None
      | Some arp =>
          if zlen arp <? 28 then None
          else
            let htype := be_decode (slice 0 2 arp) in
            let ptype := be_decode (slice 2 4 arp) in
            let opcode := be_decode (slice 6 8 arp) in
            if negb (htype =? 1) || negb (ptype =? 2048) || negb (byte_at arp 4 =? 6)
               || negb (byte_at arp 5 =? 4) then None
            else Some (mkArp opcode (slice 8 14 arp) (slice 14 18 arp) (slice 18 24 arp)
                         (slice 24 28 arp))
      end
  end.

(** [bytes(l)]: [ValueError] unless every item is a byte. *)
Definition bytes_of (l : list Z) : result bytes :=
  if forallb (fun b => (0 <=? b) && (b <? 256)) l then Ok l
  else raise CValueError (py "bytes must be in range(0, 256)").

(** [[int(p) for p in parts]]; [None] is the [ValueError]. *)
Fixpoint int_parts (l : list str) : option (list Z) :=
  match l with
  | [] => Some []
  | p :: l' => match int_of_str p, int_parts l' with
               | Some n, Some ns => Some (n :: ns)
               | _, _ => None
               end
  end.

Definition mac_for_ip (ip : str) : result bytes :=
  match int_parts (split ip [46] None) with
  | Some [p0; p1; p2; p3] => bytes_of [2; p1; p2; p3; p0; 0]
  | _ => Ok [2; 0; 0; 0; 0; 0]
  end.

Definition is_arp_for_us (packet : bytes) (our_ips : list str) : bool :=
  match parse_arp packet with
  | None => false
  | Some a =>
      if negb (arp_opcode a =? 1) then false
      else match inet_ntoa (arp_tpa a) with
           | Ok target_ip => bool_decide (target_ip ∈ our_ips)
           | Err _ => false
           end
  end.

(** [struct.pack("!HHBBH6s4s6s4s", 1, 0x0800, 6, 4, op, ...)] on fields of
    the right lengths. *)
Definition arp_message (opcode : Z) (sha spa tha tpa : bytes) : bytes :=
  [0; 1; 8; 0; 6; 4] ++ be_encode 2 opcode ++ sha ++ spa ++ tha ++ tpa.

Definition build_arp_reply_for_tun {V} (packet : bytes) (ip_to_peer : list (str * V))
    : result (option bytes) :=
  match parse_arp packet with
  | None => Ok None
  | Some a =>
      if negb (arp_opcode a =? 1) then Ok None
      else
        match inet_ntoa (arp_tpa a) with
        | Err _ => Ok None
        | Ok target_ip =>
            if negb (dmem ip_to_peer target_ip) then Ok None
            else
              let? our_mac := mac_for_ip target_ip in
              Ok (Some (arp_message 2 our_mac (arp_tpa a) (arp_sha a) (arp_spa a)))
        end
  end.

Definition is_arp_request (raw_packet : bytes) : bool :=
  if zlen raw_packet <? 42 then false else false.

(** [int(s, 16)] of a [str]. *)
Definition hex_digit_val (c : Z) : option Z := if c <? 128 then hex_val_any c else uni_decimal c.
Definition int16_of_str (s : str) : option Z :=
  int_signed (fun s => int_digits hex_digit_val 16 0 false (hex_prefix s)) (strip s).

(** [struct.pack("!6B", *[int(b, 16) for b in mac.split(":")])]. *)
Fixpoint hex_parts (l : list str) : option (list Z) :=
  match l with
  | [] => Some []
  | p :: l' => match int16_of_str p, hex_parts l' with
               | Some n, Some ns => Some (n :: ns)
               | _, _ => None
               end
  end.

Definition pack_mac (mac : str) : result bytes :=
  match hex_parts (split mac [58] None) with
  | None => raise CValueError []
  | Some l => if (length l =? 6)%nat && forallb (fun b => (0 <=? b) && (b <? 256)) l then Ok l
              else raise CStructError []
  end.

Section Aton.
Context (inet_aton : str -> result bytes).

Definition build_arp_reply (target_ip target_mac sender_ip sender_mac : str) : result bytes :=
  let? smac := pack_mac sender_mac in
  let? tmac := pack_mac target_mac in
  let eth := smac ++ tmac ++ be_encode 2 2054 in
  let? sip := inet_aton sender_ip in
  let? tip := inet_aton target_ip in
  Ok (eth ++ arp_message 2 smac sip tmac tip).

(** ** The TUN interface *)

Definition TUNSETIFF : Z := 1074025674.
Definition IFF_TUN : Z := 1.
Definition IFF_NO_PI : Z := 4096.
Definition SIOCSIFADDR : Z := 35094.
Definition SIOCSIFNETMASK : Z := 35100.
Definition SIOCSIFMTU : Z := 35106.
Definition SIOCGIFFLAGS : Z := 35091.
Definition SIOCSIFFLAGS : Z := 35092.
Definition IFF_UP : Z := 1.
Definition IFNAMSIZ : nat := 16.
Definition AF_INET : Z := 2.

(** The outcome of [subprocess.run(..., check=True)]. *)
Inductive run_outcome := RunOk | RunFailed (stderr : str) | RunRaises (e : exc).

(** What the operating system answers.  An [ioctl] takes the number of the
    request and its argument and gives the argument back, or raises. *)
Record Kernel := mkKernel {
  k_open : result Z;                   (* [os.open] of the device *)
  k_socket : result Z;                 (* [socket.socket(AF_INET, SOCK_DGRAM)] *)
  k_ioctl : Z -> bytes -> result bytes;
  k_run : list str -> run_outcome;
  k_read : nat -> result bytes;
  k_write : bytes -> result Z
}.

Record TunInterface := mkTun {
  tun_fd : option Z;
  tun_ip : str;
  tun_netmask : str;
  tun_mtu : Z;
  tun_name : str
}.

Definition new_tun : TunInterface := mkTun None [] (py "255.0.0.0") 1400 [].

Definition is_OSError (e : exc) : bool :=
  match exc_cls e with COSError | CConnectionError => true | _ => false end.

(** What happens to descriptors, in order, and those that are open after it. *)
Inductive fd_op := Opened (fd : Z) | Closed (fd : Z).

Definition fd_step (fds : list Z) (op : fd_op) : list Z :=
  match op with
  | Opened fd => fds ++ [fd]
  | Closed fd => filter (fun x => x <> fd) fds
  end.
Definition open_after (ops : list fd_op) : list Z := foldl fd_step [] ops.

(** [struct.pack] of native integers and of a padded string. *)
Definition le_encode (n : nat) (x : Z) : bytes := rev (be_encode n x).
Definition le_decode (b : bytes) : Z := be_decode (rev b).
Definition padded (n : nat) (b : bytes) : bytes := take n (b ++ replicate n 0).

(** [struct.pack("16sH", name, x)], ["16sH4s8x"] and ["16si"]. *)
Definition ifreq_short (name : bytes) (x : Z) : bytes := padded IFNAMSIZ name ++ le_encode 2 x.
Definition ifreq_addr (name : bytes) (family : Z) (addr : bytes) : bytes :=
  padded IFNAMSIZ name ++ le_encode 2 family ++ padded 4 addr ++ replicate 8 0.
Definition ifreq_int (name : bytes) (x : Z) : result bytes :=
  if (- 2 ^ 31 <=? x) && (x <? 2 ^ 31) then Ok (padded IFNAMSIZ name ++ le_encode 4 (x mod 2 ^ 32))
  else raise CStructError [].

(** [struct.unpack("H", data[16:18])[0]]. *)
Definition ifreq_flags (data : bytes) : result Z :=
  let b := slice 16 18 data in
  if (length b =? 2)%nat then Ok (le_decode b) else raise CStructError [].

(** [name.encode("ascii")[:15]]. *)
Definition name_bytes (name : str) : result bytes :=
  if forallb (fun c => c <? 128) name then Ok (take (IFNAMSIZ - 1) name)
  else raise CUnicodeError [].

(** The body of the [try] of [_configure_iface]. *)
Definition set_up_iface (k : Kernel) (name ip netmask : str) (mtu : Z) : result unit :=
  let? nm := name_bytes name in
  let? a := inet_aton ip in
  let? _ := k_ioctl k SIOCSIFADDR (ifreq_addr nm AF_INET a) in
  let? m := inet_aton netmask in
  let? _ := k_ioctl k SIOCSIFNETMASK (ifreq_addr nm AF_INET m) in
  let? ifr := ifreq_int nm mtu in
  let? _ := k_ioctl k SIOCSIFMTU ifr in
  let? data := k_ioctl k SIOCGIFFLAGS (ifreq_short nm 0) in
  let? flags := ifreq_flags data in
  let? _ := k_ioctl k SIOCSIFFLAGS (ifreq_short nm (Z.lor flags IFF_UP)) in
  Ok tt.

(** [_configure_iface]: the temporary socket is closed in the [finally]. *)
Definition configure_iface (k : Kernel) (name ip netmask : str) (mtu : Z) : result unit * list fd_op :=
  match k_socket k with
  | Err e => (Err e, [])
  | Ok sock => (set_up_iface k name ip netmask mtu, [Opened sock; Closed sock])
  end.

(** [result[:16].rstrip(b"\x00").decode("ascii")]. *)
Definition iface_name (data : bytes) : result str :=
  let nm := rstrip_with (fun c => c =? 0) (take IFNAMSIZ data) in
  if forallb (fun c => c <? 128) nm then Ok nm else raise CUnicodeError [].

(** [LinuxTunInterface.open]: the outcome, the interface, and what happened
    to descriptors. *)
Definition linux_open (k : Kernel) (t : TunInterface) (ip netmask : str) (mtu : Z)
    : result unit * TunInterface * list fd_op :=
  let t1 := mkTun (tun_fd t) ip netmask mtu (tun_name t) in
  match k_open k with
  | Err e => (if is_OSError e then raise COSError [] else Err e, t1, [])
  | Ok fd =>
      match k_ioctl k TUNSETIFF (ifreq_short (py "ln%d") (Z.lor IFF_TUN IFF_NO_PI)) with
      | Err e =>
          if is_OSError e then (raise COSError [], t1, [Opened fd; Closed fd]) else (Err e, t1, [Opened fd])
      | Ok data =>
          match iface_name data with
          | Err e => (Err e, t1, [Opened fd])
          | Ok name =>
              let t2 := mkTun (Some fd) ip netmask mtu name in
              let (r, ops) := configure_iface k name ip netmask mtu in
              match r with
              | Ok _ => (Ok tt, t2, Opened fd :: ops)
              | Err e =>
                  if is_OSError e
                  then (raise COSError [], mkTun None ip netmask mtu name, Opened fd :: ops ++ [Closed fd])
                  else (Err e, t2, Opened fd :: ops)
              end
          end
      end
  end.

Definition not_open {A} : result A := raise COSError (py "TUN interface not open").

Definition linux_read (k : Kernel) (t : TunInterface) : result bytes :=
  match tun_fd t with
  | None => not_open
  | Some _ => k_read k (Z.to_nat (tun_mtu t + 64))
  end.
Definition linux_write (k : Kernel) (t : TunInterface) (data : bytes) : result Z :=
  match tun_fd t with None => not_open | Some _ => k_write k data end.

(** [close] of every platform: an [OSError] of [os.close] is ignored. *)
Definition tun_close (t : TunInterface) : TunInterface :=
  mkTun None (tun_ip t) (tun_netmask t) (tun_mtu t) (tun_name t).

(** utun puts a four-byte address family in front of every packet. *)
Definition darwin_read (k : Kernel) (t : TunInterface) : result bytes :=
  match tun_fd t with
  | None => not_open
  | Some _ =>
      let? data := k_read k (Z.to_nat (tun_mtu t + 64)) in
      Ok (if zlen data >? 4 then drop 4 data else data)
  end.
Definition darwin_write (k : Kernel) (t : TunInterface) (data : bytes) : result Z :=
  match tun_fd t with None => not_open | Some _ => k_write k (be_encode 4 2 ++ data) end.

Definition build_ctl_info (name : str) : result bytes :=
  if forallb (fun c => c <? 128) name then Ok (le_encode 4 0 ++ padded 96 (take 95 name))
  else raise CUnicodeError [].

Definition UTUN_CONTROL_NAME : str := py "com.apple.net.utun_control".

(** What macOS answers. *)
Record Utun := mkUtun {
  u_socket : result Z;
  u_setsockopt : bytes -> result unit;
  u_connect : result unit;
  u_sockname : str;
  u_run : list str -> run_outcome
}.

Definition ifconfig_args (name ip netmask : str) (mtu : Z) : list str :=
  [py "ifconfig"; name; py "inet"; ip; netmask; ip; py "mtu"; dec mtu; py "up"].

(** [DarwinTunInterface.open]: the outcome, the interface, and what has
    happened to descriptors when it has returned.  The socket object is local
    to the method, so that its descriptor is closed with it in every case. *)
Definition darwin_open (u : Utun) (t : TunInterface) (ip netmask : str) (mtu : Z)
    : result unit * TunInterface * list fd_op :=
  let t1 := mkTun (tun_fd t) ip netmask mtu (tun_name t) in
  match u_socket u with
  | Err e => (if is_OSError e then raise COSError [] else Err e, t1, [])
  | Ok fd =>
      let ops := [Opened fd; Closed fd] in
      match (let? info := build_ctl_info UTUN_CONTROL_NAME in
             let? _ := u_setsockopt u info in u_connect u) with
      | Err e => (if is_OSError e then raise COSError [] else Err e, t1, ops)
      | Ok _ =>
          let t2 := mkTun (Some fd) ip netmask mtu (u_sockname u) in
          match u_run u (ifconfig_args (u_sockname u) ip netmask mtu) with
          | RunOk => (Ok tt, t2, ops)
          | RunFailed _ => (raise COSError [], mkTun None ip netmask mtu (u_sockname u), ops)
          | RunRaises e => (Err e, t2, ops)
          end
      end
  end.

Definition windows_open (t : TunInterface) : result unit := raise CException [].
Definition windows_io {A} (t : TunInterface) : result A :=
  match tun_fd t with None => not_open | Some _ => raise CException [] end.

(** ** Routes *)

Definition add_route (linux : bool) (k : Kernel) (subnet device : str) : result bool :=
  if negb linux then Ok false
  else match device with
       | [] => Ok false
       | _ =>
           match k_run k [py "ip"; py "route"; py "add"; subnet; py "dev"; device] with
           | RunOk => Ok true
           | RunFailed err => Ok (contains err (py "File exists") || contains err (py "EEXIST"))
           | RunRaises e => Err e
           end
       end.

Definition remove_route (linux : bool) (k : Kernel) (subnet device : str) : result bool :=
  if negb linux then Ok false
  else match device with
       | [] => Ok false
       | _ =>
           match k_run k [py "ip"; py "route"; py "del"; subnet; py "dev"; device] with
           | RunOk => Ok true
           | RunFailed _ => Ok false
           | RunRaises e => Err e
           end
       end.

Inductive platform := Linux | Darwin | Windows.

Definition create_tun_interface (sys_platform : str) : result platform :=
  if str_eqb sys_platform (py "linux") then Ok Linux
  else if str_eqb sys_platform (py "darwin") then Ok Darwin
  else if str_eqb sys_platform (py "win32") then Ok Windows
  else raise CException (py "unsupported platform: " ++ sys_platform).

(** ** Theorems *)

Lemma open_close_one fd : open_after [Opened fd; Closed fd] = [].
Proof. cbn. by rewrite decide_False by naive_solver. Qed.

(** On macOS a successful [open] leaves an interface whose descriptor is
    closed. *)
Lemma darwin_open_closed u t ip netmask mtu t' ops :
  darwin_open u t ip netmask mtu = (Ok tt, t', ops) ->
  exists fd, tun_fd t' = Some fd /\ Closed fd ∈ ops /\ open_after ops = [].
Proof.
  unfold darwin_open. destruct (u_socket u) as [fd|e]; [|case_match; discriminate].
  destruct (let? _ := _ in _) as [[]|e]; [|case_match; discriminate].
  destruct (u_run _ _); intros [= <- <-]. exists fd. split; [done|]. split; [set_solver|].
  apply open_close_one.
Qed.

(** Fields of a message of known lengths. *)
Lemma slice_at {A} (a b c : list A) i j :
  length a = i -> (length a + length b)%nat = j -> slice i j (a ++ b ++ c) = b.
Proof. intros <- <-. by apply slice_app_mid. Qed.

(** The checks and fields of an ARP message of the right lengths. *)
Lemma parse_arp_fields op sha spa tha tpa :
  length sha = 6%nat -> length spa = 4%nat -> length tha = 6%nat -> length tpa = 4%nat ->
  0 <= op < 65536 ->
  (if negb (be_decode (slice 0 2 (arp_message op sha spa tha tpa)) =? 1)
      || negb (be_decode (slice 2 4 (arp_message op sha spa tha tpa)) =? 2048)
      || negb (byte_at (arp_message op sha spa tha tpa) 4 =? 6)
      || negb (byte_at (arp_message op sha spa tha tpa) 5 =? 4) then None
   else Some (mkArp (be_decode (slice 6 8 (arp_message op sha spa tha tpa)))
          (slice 8 14 (arp_message op sha spa tha tpa)) (slice 14 18 (arp_message op sha spa tha tpa))
          (slice 18 24 (arp_message op sha spa tha tpa)) (slice 24 28 (arp_message op sha spa tha tpa))))
  = Some (mkArp op sha spa tha tpa).
Proof.
  intros H1 H2 H3 H4 Hop.
  do 6 (destruct sha as [|? sha]; [done|]). destruct sha; [|done].
  do 4 (destruct spa as [|? spa]; [done|]). destruct spa; [|done].
  do 6 (destruct tha as [|? tha]; [done|]). destruct tha; [|done].
  do 4 (destruct tpa as [|? tpa]; [done|]). destruct tpa; [|done].
  assert (Hb : exists x y, be_encode 2 op = [x; y] /\ be_decode [x; y] = op).
  { pose proof (length_be_encode 2 op) as Hl. destruct (be_encode 2 op) as [|x [|y [|]]] eqn:He; try done.
    exists x, y. split; [done|]. rewrite <- He. apply be_decode_encode_small. simpl. lia. }
  destruct Hb as (x & y & He & Hd). unfold arp_message. rewrite He.
  cbn [app slice]. unfold slice. cbn [take drop Nat.sub app]. rewrite Hd. reflexivity.
Qed.

(** A raw message is taken for a framed one when its sender's hardware
    address ends like an EtherType of ARP. *)
Definition raw_readable (sha : bytes) : Prop := slice 4 6 sha <> [8; 6].

Lemma length_arp_message op sha spa tha tpa :
  length sha = 6%nat -> length spa = 4%nat -> length tha = 6%nat -> length tpa = 4%nat ->
  length (arp_message op sha spa tha tpa) = 28%nat.
Proof.
  intros H1 H2 H3 H4. unfold arp_message. rewrite !length_app, length_be_encode, H1, H2, H3, H4. done.
Qed.

Lemma parse_arp_message op sha spa tha tpa :
  length sha = 6%nat -> length spa = 4%nat -> length tha = 6%nat -> length tpa = 4%nat ->
  0 <= op < 65536 -> raw_readable sha ->
  parse_arp (arp_message op sha spa tha tpa) = Some (mkArp op sha spa tha tpa).
Proof.
  intros H1 H2 H3 H4 Hop Hr. pose proof (length_arp_message op _ _ _ _ H1 H2 H3 H4) as Hl.
  unfold parse_arp. destruct (arp_message op sha spa tha tpa) as [|z m] eqn:Hm; [done|].
  rewrite <- Hm in *. clear z m Hm.
  assert (Hz : zlen (arp_message op sha spa tha tpa) = 28) by (unfold zlen; by rewrite Hl).
  assert (Hpart : arp_part (arp_message op sha spa tha tpa) = Some (arp_message op sha spa tha tpa)).
  { unfold arp_part. rewrite Hz, !Z.geb_leb. cbn [Z.leb Z.compare Pos.compare Pos.compare_cont andb].
    rewrite bool_decide_false.
    - unfold arp_message. by rewrite !bool_decide_true.
    - do 6 (destruct sha as [|? sha]; [done|]). destruct sha; [|done].
      unfold raw_readable, slice in *. simpl in Hr.
      pose proof (length_be_encode 2 op) as Hb. unfold arp_message.
      destruct (be_encode 2 op) as [|x [|y [|]]]; try done. }
  rewrite Hpart, Hz. cbn [Z.ltb Z.compare Pos.compare Pos.compare_cont].
  by apply (parse_arp_fields op sha spa tha tpa).
Qed.

(** The same message behind an Ethernet header. *)
Lemma parse_arp_framed eth op sha spa tha tpa :
  length eth = 12%nat ->
  length sha = 6%nat -> length spa = 4%nat -> length tha = 6%nat -> length tpa = 4%nat ->
  0 <= op < 65536 ->
  parse_arp ((eth ++ [8; 6]) ++ arp_message op sha spa tha tpa) = Some (mkArp op sha spa tha tpa).
Proof.
  intros He H1 H2 H3 H4 Hop. pose proof (length_arp_message op _ _ _ _ H1 H2 H3 H4) as Hl.
  unfold parse_arp. destruct ((eth ++ [8; 6]) ++ arp_message op sha spa tha tpa) as [|z m] eqn:Hm.
  { apply (f_equal length) in Hm. rewrite !length_app, He in Hm. simpl in Hm. lia. }
  rewrite <- Hm. clear z m Hm.
  assert (Hpart : arp_part ((eth ++ [8; 6]) ++ arp_message op sha spa tha tpa)
    = Some (arp_message op sha spa tha tpa)).
  { unfold arp_part. replace (zlen ((eth ++ [8; 6]) ++ arp_message op sha spa tha tpa)) with 42
      by (unfold zlen; rewrite !length_app, He, Hl; done).
    rewrite Z.geb_leb. cbn [Z.leb Z.compare Pos.compare Pos.compare_cont andb].
    rewrite bool_decide_true by (rewrite <- app_assoc; apply slice_at; rewrite He; done).
    rewrite drop_app_length' by (rewrite length_app, He; done). done. }
  rewrite Hpart. replace (zlen (arp_message op sha spa tha tpa)) with 28 by (unfold zlen; by rewrite Hl).
  cbn [Z.ltb Z.compare Pos.compare Pos.compare_cont].
  by apply (parse_arp_fields op sha spa tha tpa).
Qed.

(** The addresses of a message that was read have their lengths. *)
Lemma parse_arp_lengths packet a :
  parse_arp packet = Some a ->
  length (arp_sha a) = 6%nat /\ length (arp_spa a) = 4%nat /\ length (arp_tha a) = 6%nat
  /\ length (arp_tpa a) = 4%nat
  /\ (Forall is_byte packet -> Forall is_byte (arp_tpa a)).
Proof.
  unfold parse_arp. destruct packet as [|z m]; [done|]. generalize (z :: m). clear z m. intros packet.
  destruct (arp_part packet) as [arp|] eqn:Hp; [|done].
  destruct (Z.ltb_spec (zlen arp) 28) as [|Hl]; [done|]. destruct (_ || _); [done|].
  intros [= <-]. simpl. unfold zlen in Hl.
  assert (Hs : forall i j, (i <= j)%nat -> (j <= 28)%nat -> length (slice i j arp) = (j - i)%nat).
  { intros i j Hij Hj. unfold slice. rewrite length_take, length_drop. lia. }
  split_and!; try (rewrite Hs by lia; done). intros Hb.
  assert (Ha : Forall is_byte arp).
  { unfold arp_part in Hp. repeat case_match; simplify_eq; [by apply Forall_drop|done]. }
  unfold slice. by apply Forall_take, Forall_drop.
Qed.

(** ** Hardware addresses for virtual addresses *)

Lemma split_ntoa a b c d : split (join [46] [dec a; dec b; dec c; dec d]) [46] None = [dec a; dec b; dec c; dec d].
Proof. apply split_join. repeat constructor; by apply dec_not_in. Qed.

(** The address made for an IPv4 address: its octets, in the order
    1, 2, 3, 0 and behind the locally administered prefix.  Two virtual
    addresses never share one. *)
Lemma mac_for_ip_octets a b c d :
  is_byte a -> is_byte b -> is_byte c -> is_byte d ->
  mac_for_ip (join [46] [dec a; dec b; dec c; dec d]) = Ok [2; b; c; d; a; 0].
Proof.
  unfold is_byte. intros. unfold mac_for_ip. rewrite split_ntoa. cbn [int_parts].
  rewrite !int_of_str_dec by lia. unfold bytes_of. cbn [forallb]. by decide_Z.
Qed.

Definition arp_answer {V} (d : list (str * V)) (a : Arp) (reply : bytes) : Prop :=
  exists ip mac, inet_ntoa (arp_tpa a) = Ok ip /\ mac_for_ip ip = Ok mac
    /\ parse_arp reply = Some (mkArp 2 mac (arp_tpa a) (arp_sha a) (arp_spa a)).

(** Gateway ARP: the client answers exactly the ARP requests for an
    address it routes (raw or Ethernet-framed), and the answer, read by the
    other side, is an ARP reply that maps the requested address to the
    hardware address made for it and is directed to the sender of the
    request; every other packet gets no answer. *)
Theorem arp_reply_exact {V} packet (d : list (str * V)) :
  Forall is_byte packet ->
  if is_arp_for_us packet (dkeys d) then
    exists a reply, parse_arp packet = Some a /\ arp_opcode a = 1
      /\ build_arp_reply_for_tun packet d = Ok (Some reply) /\ arp_answer d a reply
  else build_arp_reply_for_tun packet d = Ok None.
Proof.
  intros Hb. unfold is_arp_for_us, build_arp_reply_for_tun.
  destruct (parse_arp packet) as [a|] eqn:Hp; [|done].
  destruct (Z.eqb_spec (arp_opcode a) 1) as [Hop|]; [|done]. cbn [negb].
  destruct (parse_arp_lengths _ _ Hp) as (L1 & L2 & L3 & L4 & Hbt). specialize (Hbt Hb).
  destruct (arp_tpa a) as [|x0 [|x1 [|x2 [|x3 [|]]]]] eqn:Htpa; try done.
  repeat (apply Forall_cons in Hbt as [? Hbt]).
  cbn [inet_ntoa]. set (ip := join [46] _).
  assert (Hmem : dmem d ip = bool_decide (ip ∈ dkeys d)).
  { destruct (dmem d ip) eqn:Hm; symmetry.
    - apply bool_decide_true, elem_of_dkeys. by apply dmem_true in Hm.
    - apply bool_decide_false, not_elem_of_dkeys. by apply dmem_false in Hm. }
  rewrite Hmem. destruct (bool_decide (ip ∈ dkeys d)); [|done]. cbn [negb].
  unfold ip. rewrite mac_for_ip_octets by done. cbn [rbind]. eexists a, _. split; [done|].
  split; [done|]. split; [reflexivity|]. exists ip, [2; x1; x2; x3; x0; 0]. rewrite Htpa. split_and!.
  - done.
  - by apply mac_for_ip_octets.
  - by apply parse_arp_message.
Qed.

(** ** Framed replies *)

(** [inet_aton] reads what [inet_ntoa] prints. *)
Definition aton_ntoa : Prop := forall b s, inet_ntoa b = Ok s -> inet_aton s = Ok b.

Lemma pack_mac_length mac m : pack_mac mac = Ok m -> length m = 6%nat.
Proof.
  unfold pack_mac. destruct (hex_parts _) as [l|]; [|done].
  destruct (length l =? 6)%nat eqn:Hl; [|done]. cbn [andb]. destruct (forallb _ _); [|done].
  intros <-%Ok_inj. by apply Nat.eqb_eq.
Qed.

(** A reply built from valid addresses is read back to them, as an ARP reply;
    its Ethernet header names the sender as the destination and the receiver
    as the source. *)
Lemma build_arp_reply_read tip tmac sip smac tb tm sb sm :
  aton_ntoa ->
  inet_ntoa tb = Ok tip -> inet_ntoa sb = Ok sip -> pack_mac tmac = Ok tm -> pack_mac smac = Ok sm ->
  exists packet, build_arp_reply tip tmac sip smac = Ok packet
    /\ parse_arp packet = Some (mkArp 2 sm sb tm tb)
    /\ slice 0 6 packet = sm /\ slice 6 12 packet = tm.
Proof.
  intros Hat Ht Hs Htm Hsm.
  assert (Hlen : forall b s, inet_ntoa b = Ok s -> length b = 4%nat).
  { intros b s. unfold inet_ntoa. by repeat case_match. }
  pose proof (Hlen _ _ Ht). pose proof (Hlen _ _ Hs).
  pose proof (pack_mac_length _ _ Htm). pose proof (pack_mac_length _ _ Hsm).
  unfold build_arp_reply. rewrite Hsm, Htm. cbn [rbind]. rewrite (Hat _ _ Hs), (Hat _ _ Ht). cbn [rbind].
  eexists. split; [reflexivity|]. change (be_encode 2 2054) with [8; 6].
  replace (sm ++ tm ++ [8; 6]) with ((sm ++ tm) ++ [8; 6]) by (by rewrite <- app_assoc).
  split_and!.
  - apply parse_arp_framed; try done. rewrite length_app. lia.
  - rewrite <- !app_assoc. by apply slice_app_first.
  - rewrite <- !app_assoc. apply slice_at; lia.
Qed.

(** ** Opening the interface *)

(** An operating system whose calls fail with an [OSError] and otherwise
    behave as documented: a new descriptor is none that is open, an [ioctl]
    gives back an argument of the same length, names are ASCII. *)
Record kernel_laws (k : Kernel) : Prop := {
  kl_open e : k_open k = Err e -> is_OSError e = true;
  kl_socket e : k_socket k = Err e -> is_OSError e = true;
  kl_fresh fd : k_open k = Ok fd -> k_socket k <> Ok fd;
  kl_ioctl n b e : k_ioctl k n b = Err e -> is_OSError e = true;
  kl_length n b r : k_ioctl k n b = Ok r -> length r = length b;
  kl_ascii n b r : k_ioctl k n b = Ok r -> forallb (fun c => c <? 128) (take IFNAMSIZ r) = true
}.

Lemma ascii_rstrip p s :
  forallb (fun c : Z => c <? 128) s = true -> forallb (fun c => c <? 128) (rstrip_with p s) = true.
Proof.
  assert (Hrev : forall l, forallb (fun c : Z => c <? 128) (rev l) = forallb (fun c => c <? 128) l).
  { intros l. apply eq_true_iff_eq. rewrite !forallb_forall.
    split; intros H x Hx; apply H; by apply in_rev in Hx || (apply in_rev; rewrite rev_involutive). }
  unfold rstrip_with. rewrite Hrev, <- Hrev. generalize (rev s). intros l. induction l as [|c l IH]; [done|].
  simpl. intros Hl. apply andb_true_iff in Hl as [? ?]. destruct (p c); [auto|]. simpl. by apply andb_true_iff.
Qed.

Lemma length_padded n b : length (padded n b) = n.
Proof. unfold padded. rewrite length_take, length_app, length_replicate. lia. Qed.

Lemma open_close_two fd sock :
  fd <> sock -> open_after [Opened fd; Opened sock; Closed sock] = [fd]
  /\ open_after [Opened fd; Opened sock; Closed sock; Closed fd] = [].
Proof.
  intros Hne. unfold open_after. cbn [foldl fd_step app].
  rewrite filter_cons_True, filter_cons_False by naive_solver. split; [done|].
  by rewrite filter_cons_False by naive_solver.
Qed.

(** Setting up the interface fails with an [OSError] only. *)
Lemma set_up_errors k name ip netmask mtu e :
  kernel_laws k -> forallb (fun c => c <? 128) name = true ->
  (forall e, inet_aton ip = Err e -> is_OSError e = true) ->
  (forall e, inet_aton netmask = Err e -> is_OSError e = true) ->
  - 2 ^ 31 <= mtu < 2 ^ 31 ->
  set_up_iface k name ip netmask mtu = Err e -> is_OSError e = true.
Proof.
  intros Hk Hn Ha Hm Hmtu. unfold set_up_iface, name_bytes, ifreq_int. rewrite Hn. cbn [rbind]. intros He.
  destruct (inet_aton ip) eqn:E1; cbn [rbind] in He; [|simplify_eq; by apply Ha].
  destruct (k_ioctl k SIOCSIFADDR _) eqn:E2; cbn [rbind] in He; [|simplify_eq; by eapply kl_ioctl].
  destruct (inet_aton netmask) eqn:E3; cbn [rbind] in He; [|simplify_eq; by apply Hm].
  destruct (k_ioctl k SIOCSIFNETMASK _) eqn:E4; cbn [rbind] in He; [|simplify_eq; by eapply kl_ioctl].
  replace ((- 2 ^ 31 <=? mtu) && (mtu <? 2 ^ 31)) with true in He by lia. cbn [rbind] in He.
  destruct (k_ioctl k SIOCSIFMTU _) eqn:E5; cbn [rbind] in He; [|simplify_eq; by eapply kl_ioctl].
  destruct (k_ioctl k SIOCGIFFLAGS _) as [data|] eqn:E6; cbn [rbind] in He; [|simplify_eq; by eapply kl_ioctl].
  apply kl_length in E6; [|done]. unfold ifreq_short in E6.
  rewrite length_app, length_padded in E6. unfold ifreq_flags in He.
  replace (length (slice 16 18 data)) with 2%nat in He.
  2:{ unfold slice. rewrite length_take, length_drop, E6. unfold le_encode.
      rewrite length_rev, length_be_encode. unfold IFNAMSIZ. lia. }
  cbn [Nat.eqb rbind] in He.
  destruct (k_ioctl k SIOCSIFFLAGS _) eqn:E7; cbn [rbind] in He; [done|simplify_eq; by eapply kl_ioctl].
Qed.

(** C37 Opening a TUN device never leaks a descriptor: with an interface that
    is not open, an operating system whose failures are [OSError]s (new
    descriptors are fresh, names ASCII, an [ioctl] keeps the length of its
    argument), addresses that [inet_aton] reads or refuses with an [OSError]
    and an MTU that fits a C int, either the interface is open on the
    descriptor it got, which is the only one left open, or an [OSError] is
    raised, the interface is not open and no descriptor is, the temporary
    socket of the configuration included. *)
Theorem linux_open_outcome k t ip netmask mtu :
  kernel_laws k ->
  (forall e, inet_aton ip = Err e -> is_OSError e = true) ->
  (forall e, inet_aton netmask = Err e -> is_OSError e = true) ->
  - 2 ^ 31 <= mtu < 2 ^ 31 ->
  tun_fd t = None ->
  let '(r, t', ops) := linux_open k t ip netmask mtu in
  match r with
  | Ok _ => exists fd, k_open k = Ok fd /\ tun_fd t' = Some fd /\ open_after ops = [fd]
      /\ tun_ip t' = ip /\ tun_netmask t' = netmask /\ tun_mtu t' = mtu
  | Err e => exc_cls e = COSError /\ tun_fd t' = None /\ open_after ops = []
      /\ forall fd, k_open k = Ok fd -> Opened fd ∈ ops /\ Closed fd ∈ ops
  end.
Proof.
  intros Hk Ha Hm Hmtu Hfd. unfold linux_open.
  destruct (k_open k) as [fd|e] eqn:Hop; [|by rewrite (kl_open k Hk e Hop)].
  destruct (k_ioctl k TUNSETIFF _) as [data|e] eqn:Hts.
  2:{ rewrite (kl_ioctl k Hk _ _ _ Hts). split_and!; [done|done|apply open_close_one|].
      intros ? [= ->]. set_solver. }
  pose proof (ascii_rstrip (fun c => c =? 0) _ (kl_ascii k Hk _ _ _ Hts)) as Hname.
  unfold iface_name. rewrite Hname.
  unfold configure_iface. destruct (k_socket k) as [sock|e] eqn:Hs.
  2:{ rewrite (kl_socket k Hk e Hs). split_and!; [done|done|apply open_close_one|].
      intros ? [= ->]. set_solver. }
  assert (Hne : fd <> sock) by (intros ->; by apply (kl_fresh k Hk sock)).
  destruct (open_close_two fd sock Hne) as [Hone Hnone].
  destruct (set_up_iface k _ ip netmask mtu) as [u|e] eqn:Hc.
  - exists fd. by split_and!.
  - rewrite (set_up_errors _ _ _ _ _ _ Hk Hname Ha Hm Hmtu Hc). split_and!; [done|done|done|].
    intros ? [= ->]. set_solver.
Qed.

(** The kernel reads the address of an [ifreq] as a [sockaddr_in]: family,
    port, address. *)
Definition sin_addr (ifr : bytes) : bytes := slice 20 24 ifr.

(** The request of [_configure_iface] has no room for the port, so that the
    address is shifted by two bytes: the interface is given the address
    [c.d.0.0] instead of [a.b.c.d]. *)
Lemma configured_address_shifted name a b c d :
  sin_addr (ifreq_addr name AF_INET [a; b; c; d]) = [c; d; 0; 0].
Proof.
  unfold sin_addr, ifreq_addr.
  assert (Hl : length (padded IFNAMSIZ name) = 16%nat).
  { unfold padded, IFNAMSIZ. rewrite length_take, length_app, length_replicate. lia. }
  unfold slice. rewrite drop_app, Hl. cbn [Nat.sub]. rewrite (drop_ge (padded IFNAMSIZ name)) by lia.
  reflexivity.
Qed.

(** utun: what is written is read back. *)
Lemma darwin_roundtrip k t data n fd :
  tun_fd t = Some fd -> data <> [] ->
  (forall b, k_write k b = Ok (zlen b)) -> k_read k (Z.to_nat (tun_mtu t + 64)) = Ok (be_encode 4 2 ++ data) ->
  n = 4 + zlen data ->
  darwin_write k t data = Ok n /\ darwin_read k t = Ok data.
Proof.
  intros Hfd Hd Hw Hr ->. unfold darwin_write, darwin_read. rewrite Hfd, Hw, Hr. cbn [rbind].
  rewrite zlen_app, zlen_be_encode. split; [done|].
  assert (0 < zlen data) by (destruct data; [done|unfold zlen; simpl; lia]).
  rewrite Z.gtb_ltb. by decide_Z.
Qed.
End Aton.

(** A raw request whose sender's hardware address ends in 08:06 is taken for
    a framed one and dropped. *)
Lemma raw_arp_misread a b c d spa tha tpa :
  length spa = 4%nat -> length tha = 6%nat -> length tpa = 4%nat ->
  parse_arp (arp_message 1 [a; b; c; d; 8; 6] spa tha tpa) = None.
Proof.
  intros H2 H3 H4.
  do 4 (destruct spa as [|? spa]; [done|]). destruct spa; [|done].
  do 6 (destruct tha as [|? tha]; [done|]). destruct tha; [|done].
  do 4 (destruct tpa as [|? tpa]; [done|]). by destruct tpa.
Qed.
End Packets.

(** ** Concrete runs *)

Section Runs.
#[local] Existing Instance ascii_only.

Definition who_has : bytes := arp_message 1 [2; 1; 1; 1; 1; 1] [25; 0; 0; 9] [0; 0; 0; 0; 0; 0] [25; 1; 0; 1].

Lemma arp_reply_exact_witness :
  exists a reply, parse_arp who_has = Some a
    /\ build_arp_reply_for_tun who_has [(py "25.1.0.1", tt)] = Ok (Some reply)
    /\ parse_arp reply = Some (mkArp 2 [2; 1; 0; 1; 25; 0] [25; 1; 0; 1] [2; 1; 1; 1; 1; 1] [25; 0; 0; 9]).
Proof.
  pose proof (arp_reply_exact who_has [(py "25.1.0.1", tt)] ltac:(by_eval)) as H.
  replace (is_arp_for_us who_has (dkeys [(py "25.1.0.1", tt)])) with true in H by (vm_compute; reflexivity).
  destruct H as (a & reply & H1 & H2 & H3 & ip & mac & H4 & H5 & H6).
  exists a, reply. split; [exact H1|]. split; [exact H3|]. rewrite H6.
  vm_compute in H1. injection H1 as <-. vm_compute in H4. injection H4 as <-.
  vm_compute in H5. injection H5 as <-. reflexivity.
Defined.

(** A kernel on which everything works but setting the MTU. *)
Definition toy_kernel : Kernel :=
  mkKernel (Ok 7) (Ok 8)
    (fun n b => if n =? SIOCSIFMTU then raise COSError []
                else Ok (take (length b) (py "ln0" ++ replicate (length b) 0)))
    (fun _ => RunOk) (fun _ => Ok []) (fun b => Ok (zlen b)).

Lemma toy_kernel_laws : kernel_laws toy_kernel.
Proof.
  constructor; simpl; [discriminate..|intros fd [= <-]; discriminate| | |].
  - intros n b e. destruct (n =? SIOCSIFMTU); [by intros [= <-]|discriminate].
  - intros n b r. destruct (n =? SIOCSIFMTU); [discriminate|]. intros [= <-].
    rewrite length_take. cbn. rewrite length_replicate. lia.
  - intros n b r. destruct (n =? SIOCSIFMTU); [discriminate|]. intros [= <-].
    apply forallb_forall. intros x Hx%list_elem_of_In.
    apply (subseteq_take _ _), (subseteq_take _ _) in Hx. revert x Hx. apply Forall_forall.
    repeat (constructor; [done|]). apply Forall_forall. by intros x ->%elem_of_replicate_inv.
Qed.

Lemma linux_open_outcome_witness :
  let '(_, t', ops) := linux_open (fun _ => Ok [25; 1; 0; 1]) toy_kernel new_tun (py "25.1.0.1") (py "255.0.0.0") 1400 in
  tun_fd t' = None /\ ops = [Opened 7; Opened 8; Closed 8; Closed 7] /\ open_after ops = [].
Proof.
  pose proof (linux_open_outcome (fun _ => Ok [25; 1; 0; 1]) toy_kernel new_tun (py "25.1.0.1")
    (py "255.0.0.0") 1400 toy_kernel_laws ltac:(discriminate) ltac:(discriminate) ltac:(lia) eq_refl) as H.
  destruct (linux_open _ _ _ _ _ _) as [[r t'] ops] eqn:Hl. vm_compute in Hl.
  injection Hl as <- <- <-. destruct H as (_ & H1 & H2 & _). split; [exact H1|]. split; [reflexivity|exact H2].
Defined.
End Runs.
End Packet.
