(* ===== verification/Streams.v ===== *)
(** * Forwarded streams (src/client/service_exposure.py and
      src/client/service_consumer.py, the parts they share)

    A chunk of a stream travels in the payload of a data frame behind the ids
    of its service and its stream, each padded to 36 bytes.  Both managers
    forward a local connection with the same two loops: one reads chunks from
    the local socket and sends them through the tunnel, the other takes chunks
    from a queue and writes them to the local socket. *)

From S2P Require Import Prelude Constants PyStr Frame Encryption NatTraversal Tunnel.
Import Frame Encryption NatTraversal Tunnel.

Module Streams.

Definition ID_SIZE : nat := 36.

(** ** Frames *)

(** [s.encode("ascii")]. *)
Definition ascii_encode (s : str) : result bytes :=
  if forallb (fun c => c <? 128) s then Ok s else raise CUnicodeError [].

(** [b[:36].ljust(36, b"\x00")]. *)
Definition pad_id (b : bytes) : bytes := let c := take ID_SIZE b in c ++ replicate (ID_SIZE - length c) 0.

(** The payload [_send_stream_frame] hands to the tunnel. *)
Definition stream_payload (service_id stream_id : str) (data : bytes) : result bytes :=
  let? sid := ascii_encode service_id in
  let? stid := ascii_encode stream_id in
  Ok (pad_id sid ++ pad_id stid ++ data).

(** [b.rstrip(b"\x00").decode("ascii", errors="replace")]. *)
Definition id_of_bytes (b : bytes) : str :=
  map (fun c => if c <? 128 then c else 65533) (rstrip_with (fun c => c =? 0) b).

Definition decode_stream_frame (data : bytes) : str * str * bytes :=
  if zlen data <? 72 then ([], [], data)
  else (id_of_bytes (take 36 data), id_of_bytes (slice 36 72 data), drop 72 data).

Section Streams.
Context {TC : TunnelCrypto}.

Definition send_stream_frame (t : PeerTunnel) (service_id stream_id : str) (data nonce : bytes) (up : bool)
    : result unit * PeerTunnel * datagrams :=
  match stream_payload service_id stream_id data with
  | Err e => (Err e, t, [])
  | Ok payload =>
      let '(r, t', out) := send_data t nonce payload up in
      (match r with Ok _ => Ok tt | Err e => Err e end, t', out)
  end.

(** ** The two loops *)

(** How a loop stands after a turn: it goes on, it has ended (at the end of
    the data or at an [OSError], which is ignored), or it raises. *)
Inductive turn := Goes | Ends | Raises (e : exc).

Definition os_error (e : exc) : bool :=
  match exc_cls e with COSError | CConnectionError => true | _ => false end.

Definition caught_turn (e : exc) : turn := if os_error e then Ends else Raises e.

(** One read of the loop from the local socket to the tunnel. *)
Definition forward_turn (t : PeerTunnel) (service_id stream_id : str) (read : result bytes)
    (nonce : bytes) (up : bool) : turn * PeerTunnel * datagrams :=
  match read with
  | Err e => (caught_turn e, t, [])
  | Ok [] => (Ends, t, [])
  | Ok data =>
      let '(r, t', out) := send_stream_frame t service_id stream_id data nonce up in
      (match r with Ok _ => Goes | Err e => caught_turn e end, t', out)
  end.

(** The loop on a list of reads, each with the nonce the cipher draws and the
    state of the network. *)
Fixpoint forward_from_local (t : PeerTunnel) (service_id stream_id : str)
    (reads : list (result bytes * bytes * bool)) : turn * PeerTunnel * datagrams :=
  match reads with
  | [] => (Goes, t, [])
  | (read, nonce, up) :: reads' =>
      match forward_turn t service_id stream_id read nonce up with
      | (Goes, t', out) =>
          let '(r, t'', out') := forward_from_local t' service_id stream_id reads' in
          (r, t'', out ++ out')
      | r => r
      end
  end.

(** The loop from the queue to the local socket: what is written; [ok] says
    whether a write succeeds.  An item [None] would end the loop; nothing puts
    one into a queue. *)
Fixpoint forward_from_peer (items : list (option bytes * bool)) : turn * list bytes :=
  match items with
  | [] => (Goes, [])
  | (None, _) :: _ => (Ends, [])
  | (Some data, false) :: _ => (Ends, [])
  | (Some data, true) :: items' => let (r, l) := forward_from_peer items' in (r, data :: l)
  end.

(** ** Theorems *)

(** An id that survives: ASCII, at most 36 characters, no zero at its end. *)
Definition id_ok (s : str) : Prop :=
  forallb (fun c => c <? 128) s = true /\ (length s <= ID_SIZE)%nat /\ last s <> Some 0.

Lemma rstrip_zeros s n : last s <> Some 0 -> rstrip_with (fun c => c =? 0) (s ++ replicate n 0) = s.
Proof.
  intros Hl. unfold rstrip_with. induction n as [|n IH].
  - rewrite app_nil_r. destruct s as [|c s _] using rev_ind; [done|]. rewrite last_snoc in Hl.
    rewrite rev_app_distr. simpl. destruct (Z.eqb_spec c 0) as [->|]; [done|]. simpl.
    by rewrite rev_involutive.
  - rewrite replicate_S_end, app_assoc, rev_app_distr. exact IH.
Qed.

(** An id as the other side reads it. *)
Definition read_id (s : str) : str := rstrip_with (fun c => c =? 0) (take ID_SIZE s).

Lemma read_id_ok s : id_ok s -> read_id s = s.
Proof.
  intros (_ & Hn & Hl). unfold read_id. rewrite take_ge by done.
  rewrite <- (app_nil_r s) at 1. by apply (rstrip_zeros s 0).
Qed.

Lemma lstrip_zeros n s : lstrip_with (fun c => c =? 0) (replicate n 0 ++ s) = lstrip_with (fun c => c =? 0) s.
Proof. induction n as [|n IH]; [done|]. exact IH. Qed.

Lemma id_of_pad s : forallb (fun c => c <? 128) s = true -> id_of_bytes (pad_id s) = read_id s.
Proof.
  intros Ha. unfold pad_id, id_of_bytes, read_id. set (c := take ID_SIZE s).
  assert (Hc : Forall (fun x => (x <? 128) = true) c).
  { apply Forall_take, Forall_forall. intros x Hx%list_elem_of_In. by apply (proj1 (forallb_forall _ _) Ha). }
  assert (Hr : rstrip_with (fun c => c =? 0) (c ++ replicate (ID_SIZE - length c) 0)
    = rstrip_with (fun c => c =? 0) c).
  { unfold rstrip_with. rewrite rev_app_distr. generalize (ID_SIZE - length c)%nat. intros n.
    assert (Hn : rev (replicate n 0) = replicate n 0) by (rewrite rev_alt; apply (reverse_replicate n 0)).
    by rewrite Hn, lstrip_zeros. }
  rewrite Hr. assert (Hs : Forall (fun x => (x <? 128) = true) (rstrip_with (fun c => c =? 0) c)).
  { unfold rstrip_with. apply Forall_rev. apply Forall_rev in Hc. revert Hc. generalize (rev c).
    intros l Hl. induction Hl as [|x l Hx Hl IH]; simpl; [constructor|]. case_match; [done|by constructor]. }
  clear -Hs. induction Hs as [|x l Hx Hl IH]; simpl; [done|]. by rewrite Hx, IH.
Qed.

Lemma length_pad b : length (pad_id b) = 36%nat.
Proof.
  unfold pad_id, ID_SIZE. rewrite length_app, length_replicate, length_take. lia.
Qed.

(** C34 The layout of a stream frame is read back: for every pair of ids and
    every chunk, [_send_stream_frame] either builds a payload of 72 bytes and
    the chunk, from which [decode_stream_frame] gets the ids, cut at 36
    characters and without zeros at their end, and the chunk unchanged; or, if
    an id is not ASCII, raises [UnicodeEncodeError].  Ids of at most 36
    characters that do not end in a zero, such as the UUIDs the managers draw,
    come back unchanged. *)
Theorem stream_frame_roundtrip sid stid data :
  match stream_payload sid stid data with
  | Ok p => zlen p = 72 + zlen data
      /\ decode_stream_frame p = (read_id sid, read_id stid, data)
      /\ (id_ok sid -> id_ok stid -> decode_stream_frame p = (sid, stid, data))
  | Err e => exc_cls e = CUnicodeError
      /\ forallb (fun c => c <? 128) sid && forallb (fun c => c <? 128) stid = false
  end.
Proof.
  unfold stream_payload, ascii_encode.
  destruct (forallb _ sid) eqn:Ha; cbn [rbind andb]; [|by split].
  destruct (forallb _ stid) eqn:Hb; cbn [rbind andb]; [|by split].
  pose proof (length_pad sid) as Hp1. pose proof (length_pad stid) as Hp2.
  assert (Hlen : zlen (pad_id sid ++ pad_id stid ++ data) = 72 + zlen data).
  { unfold zlen. rewrite !length_app. lia. }
  assert (Hd : decode_stream_frame (pad_id sid ++ pad_id stid ++ data) = (read_id sid, read_id stid, data)).
  { unfold decode_stream_frame. rewrite Hlen.
    destruct (Z.ltb_spec (72 + zlen data) 72); [unfold zlen in *; lia|].
    rewrite take_app_length' by done. rewrite (slice_app_mid (pad_id sid) (pad_id stid) data 36 72) by lia.
    rewrite !id_of_pad by done. do 2 f_equal.
    rewrite app_assoc, drop_app_length'; [done|]. rewrite length_app. lia. }
  split_and!; [done|done|]. intros H1 H2. by rewrite Hd, !read_id_ok.
Qed.

(** Ids are cut at 36 bytes: two streams whose ids agree there are one. *)
Lemma long_ids_collide sid stid x y data :
  length stid = ID_SIZE -> forallb (fun c => c <? 128) (stid ++ x ++ y) = true ->
  stream_payload sid (stid ++ x) data = stream_payload sid (stid ++ y) data.
Proof.
  intros Hl Ha. rewrite !forallb_app, !andb_true_iff in Ha. destruct Ha as (H1 & H2 & H3).
  unfold stream_payload, ascii_encode. rewrite !forallb_app, H1, H2, H3. simpl.
  destruct (forallb _ sid); [|done]. simpl. unfold pad_id. rewrite !take_app_length' by done. done.
Qed.

End Streams.

(** A frame of a web service, built and read. *)
Lemma stream_frame_example :
  exists p, stream_payload (py "web-1") (py "stream-1") [71; 69; 84] = Ok p
    /\ decode_stream_frame p = (py "web-1", py "stream-1", [71; 69; 84]).
Proof. eexists. split; vm_compute; reflexivity. Qed.
End Streams.
