(* ===== verification/Exposure.v ===== *)
(** * Exposed services (src/client/service_exposure.py)

    The manager keeps the services this client exposes and the streams peers
    have opened to them.  Stream objects are shared between the dictionary and
    the tasks that forward them, so they live in a store; a writer, a UDP
    socket and a queue is a number in the order of creation.  A step is the
    code between two suspensions: an operation, a task that gets its
    connection, or one turn of one of the two loops of a task.

    [_stream_queues] is an attribute of the class, one dictionary for all
    managers of a process. *)

From S2P Require Import Prelude Constants PyStr Frame Json Messages Encryption NatTraversal Tunnel Streams.
Import Messages Encryption NatTraversal Tunnel Streams.

Module Exposure.

Record ServiceRecord := mkService {
  sr_service_id : str;
  sr_name : str;
  sr_protocol : str;
  sr_local_host : str;
  sr_local_port : Z;
  sr_created_at : time
}.

Record ActiveStream := mkStream {
  as_stream_id : str;
  as_service_id : str;
  as_peer_id : str;
  as_writer : option nat;        (* [local_writer] *)
  as_udp : option nat;           (* [udp_transport] *)
  as_created_at : time
}.

(** A task of [_handle_tcp_stream]: waiting for its connection, forwarding
    (with the tunnel, the queue, and which loops still run), or over. *)
Inductive task := Connecting | Piping (tunnel queue : nat) (from_local from_peer : bool) | Over.

Record ServiceExposureManager := mkExposure {
  ex_control : bool;
  ex_services : list (str * ServiceRecord);
  ex_streams : list (str * nat);
  ex_udp : list (str * nat);
  ex_objs : list (nat * ActiveStream);          (* the stream objects *)
  ex_tasks : list (nat * task);                 (* the task of a stream object *)
  ex_queues : list (str * nat);                 (* [_stream_queues] *)
  ex_waiting : list (nat * list bytes);         (* the contents of the queues *)
  ex_written : list (nat * bytes);              (* writes to local connections *)
  ex_closed : list nat;                         (* writers that were closed *)
  ex_closed_udp : list nat;
  ex_closing : list nat;                        (* streams that a task will close *)
  ex_fed : list (nat * bytes);                  (* what was put into the queues *)
  ex_sent : list Message
}.

Definition exposure_init (control : bool) : ServiceExposureManager :=
  mkExposure control [] [] [] [] [] [] [] [] [] [] [] [] [].

Definition set_services x e := mkExposure (ex_control e) x (ex_streams e) (ex_udp e) (ex_objs e) (ex_tasks e)
  (ex_queues e) (ex_waiting e) (ex_written e) (ex_closed e) (ex_closed_udp e) (ex_closing e) (ex_fed e) (ex_sent e).
Definition set_streams x e := mkExposure (ex_control e) (ex_services e) x (ex_udp e) (ex_objs e) (ex_tasks e)
  (ex_queues e) (ex_waiting e) (ex_written e) (ex_closed e) (ex_closed_udp e) (ex_closing e) (ex_fed e) (ex_sent e).
Definition set_udp x cl e := mkExposure (ex_control e) (ex_services e) (ex_streams e) x (ex_objs e) (ex_tasks e)
  (ex_queues e) (ex_waiting e) (ex_written e) (ex_closed e) cl (ex_closing e) (ex_fed e) (ex_sent e).
Definition set_obj o x e := mkExposure (ex_control e) (ex_services e) (ex_streams e) (ex_udp e)
  (dset (ex_objs e) o x) (ex_tasks e) (ex_queues e) (ex_waiting e) (ex_written e) (ex_closed e)
  (ex_closed_udp e) (ex_closing e) (ex_fed e) (ex_sent e).
Definition set_task o x e := mkExposure (ex_control e) (ex_services e) (ex_streams e) (ex_udp e) (ex_objs e)
  (dset (ex_tasks e) o x) (ex_queues e) (ex_waiting e) (ex_written e) (ex_closed e) (ex_closed_udp e)
  (ex_closing e) (ex_fed e) (ex_sent e).
Definition set_queues x w e := mkExposure (ex_control e) (ex_services e) (ex_streams e) (ex_udp e) (ex_objs e)
  (ex_tasks e) x w (ex_written e) (ex_closed e) (ex_closed_udp e) (ex_closing e) (ex_fed e) (ex_sent e).
Definition log_write w data e := mkExposure (ex_control e) (ex_services e) (ex_streams e) (ex_udp e) (ex_objs e)
  (ex_tasks e) (ex_queues e) (ex_waiting e) (ex_written e ++ [(w, data)]) (ex_closed e) (ex_closed_udp e)
  (ex_closing e) (ex_fed e) (ex_sent e).
Definition close_local w e := mkExposure (ex_control e) (ex_services e) (ex_streams e) (ex_udp e) (ex_objs e)
  (ex_tasks e) (ex_queues e) (ex_waiting e) (ex_written e) (ex_closed e ++ [w]) (ex_closed_udp e)
  (ex_closing e) (ex_fed e) (ex_sent e).
Definition set_closing x e := mkExposure (ex_control e) (ex_services e) (ex_streams e) (ex_udp e) (ex_objs e)
  (ex_tasks e) (ex_queues e) (ex_waiting e) (ex_written e) (ex_closed e) (ex_closed_udp e) x (ex_fed e) (ex_sent e).
Definition log_fed q data e := mkExposure (ex_control e) (ex_services e) (ex_streams e) (ex_udp e) (ex_objs e)
  (ex_tasks e) (ex_queues e) (ex_waiting e) (ex_written e) (ex_closed e) (ex_closed_udp e) (ex_closing e)
  (ex_fed e ++ [(q, data)]) (ex_sent e).
Definition log_sent m e := mkExposure (ex_control e) (ex_services e) (ex_streams e) (ex_udp e) (ex_objs e)
  (ex_tasks e) (ex_queues e) (ex_waiting e) (ex_written e) (ex_closed e) (ex_closed_udp e) (ex_closing e)
  (ex_fed e) (ex_sent e ++ [m]).

(** ** Operations *)

(** The message to the server; failures are logged and ignored.  [sent] says
    whether [send_message] succeeds. *)
Definition tell (m : result Message) (sent : bool) (e : ServiceExposureManager) : ServiceExposureManager :=
  if ex_control e then
    match m with Ok m => if sent then log_sent m e else e | Err _ => e end
  else e.

(** [expose]; [service_id] is the new UUID. *)
Definition expose (service_id name protocol local_host : str) (local_port : Z) (now : time) (sent : bool)
    (e : ServiceExposureManager) : str * ServiceExposureManager :=
  let record := mkService service_id name protocol local_host local_port now in
  (service_id,
   tell (make_message ExposeService None
           [(py "name", JStr name); (py "protocol", JStr protocol);
            (py "local_host", JStr local_host); (py "local_port", JInt local_port)]) sent
     (set_services (dset (ex_services e) service_id record) e)).

(** [_close_stream]; an [OSError] of [close] is ignored. *)
Definition close_stream (o : nat) (e : ServiceExposureManager) : ServiceExposureManager :=
  match dget (ex_objs e) o with
  | None => e
  | Some s =>
      let e1 := set_queues (ddel (ex_queues e) (as_stream_id s)) (ex_waiting e)
                  (set_streams (ddel (ex_streams e) (as_stream_id s)) e) in
      match as_writer s with Some w => close_local w e1 | None => e1 end
  end.

(** The loop of [unexpose] over a copy of the streams. *)
Fixpoint close_streams_of (service_id : str) (l : list (str * nat)) (e : ServiceExposureManager)
    : ServiceExposureManager :=
  match l with
  | [] => e
  | (_, o) :: l' =>
      let e1 :=
        match dget (ex_objs e) o with
        | Some s => if str_eqb (as_service_id s) service_id then close_stream o e else e
        | None => e
        end in
      close_streams_of service_id l' e1
  end.

Definition unexpose (service_id : str) (sent : bool) (e : ServiceExposureManager) : ServiceExposureManager :=
  match dget (ex_services e) service_id with
  | None => e
  | Some record =>
      let e1 := set_services (ddel (ex_services e) service_id) e in
      let e2 := close_streams_of service_id (ex_streams e1) e1 in
      let e3 :=
        match dget (ex_udp e2) service_id with
        | Some sock => set_udp (ddel (ex_udp e2) service_id) (ex_closed_udp e2 ++ [sock]) e2
        | None => e2
        end in
      tell (make_message UnexposeService None [(py "service_id", JStr service_id)]) sent e3
  end.

(** [handle_incoming_stream]; [o] is the new object. *)
Definition handle_incoming_stream (o : nat) (service_id stream_id peer_id : str) (now : time)
    (e : ServiceExposureManager) : ServiceExposureManager :=
  match dget (ex_services e) service_id with
  | None => e
  | Some record =>
      let e1 := set_streams (dset (ex_streams e) stream_id o)
                  (set_obj o (mkStream stream_id service_id peer_id None None now) e) in
      if str_eqb (sr_protocol record) (py "tcp") then set_task o Connecting e1 else e1
  end.

(** [_handle_tcp_stream] from its connection to the start of the two loops:
    [conn] is the outcome of [open_connection], [tunnel] what [get_tunnel]
    returns, [q] the new queue. *)
Definition tcp_connected (o : nat) (conn : result nat) (tunnel : option nat) (q : nat)
    (e : ServiceExposureManager) : ServiceExposureManager :=
  match dget (ex_objs e) o, conn with
  | None, _ => e
  | Some s, Err _ => set_task o Over e
  | Some s, Ok w =>
      let s' := mkStream (as_stream_id s) (as_service_id s) (as_peer_id s) (Some w) (as_udp s) (as_created_at s) in
      let e1 := set_obj o s' e in
      match tunnel with
      | None => set_task o Over (close_local w e1)
      | Some i =>
          set_task o (Piping i q true true)
            (set_queues (dset (ex_queues e1) (as_stream_id s) q) (dset (ex_waiting e1) q []) e1)
      end
  end.

(** What follows a turn of a loop: [gather] returns when both have ended and
    raises when one raises; either way the stream is closed.  (When one
    raises, the other is left behind with a queue nobody can feed and a
    connection that is closed.) *)
Definition after_turn (o i q : nat) (from_local from_peer raised : bool) (e : ServiceExposureManager)
    : ServiceExposureManager :=
  if raised || negb (from_local || from_peer) then set_task o Over (close_stream o e)
  else set_task o (Piping i q from_local from_peer) e.

(** [feed_stream_data]: the queues are unbounded. *)
Definition feed_stream_data (stream_id : str) (data : bytes) (e : ServiceExposureManager)
    : ServiceExposureManager :=
  match dget (ex_queues e) stream_id with
  | None => e
  | Some q =>
      log_fed q data
        (set_queues (ex_queues e) (dset (ex_waiting e) q (default [] (dget (ex_waiting e) q) ++ [data])) e)
  end.

(** One turn of [forward_from_peer]; [ok] says whether the write succeeds. *)
Definition peer_turn (o : nat) (ok : bool) (e : ServiceExposureManager) : ServiceExposureManager :=
  match dget (ex_tasks e) o, dget (ex_objs e) o with
  | Some (Piping i q l true), Some s =>
      match dget (ex_waiting e) q, as_writer s with
      | Some (data :: rest), Some w =>
          let e1 := set_queues (ex_queues e) (dset (ex_waiting e) q rest) e in
          if ok then set_task o (Piping i q l true) (log_write w data e1)
          else after_turn o i q l false false e1
      | _, _ => e
      end
  | _, _ => e
  end.

(** [_handle_udp_stream]; [bound] is the outcome of creating and binding the
    socket.  Nothing is forwarded. *)
Definition handle_udp_stream (o : nat) (bound : result nat) (e : ServiceExposureManager)
    : result unit * ServiceExposureManager :=
  match dget (ex_objs e) o with
  | None => (Ok tt, e)
  | Some s =>
      let with_sock sock e := set_obj o (mkStream (as_stream_id s) (as_service_id s) (as_peer_id s)
                                (as_writer s) (Some sock) (as_created_at s)) e in
      match dget (ex_udp e) (as_service_id s), bound with
      | Some sock, _ => (Ok tt, with_sock sock e)
      | None, Err x => (Err x, e)
      | None, Ok sock =>
          (Ok tt, with_sock sock (set_udp (dset (ex_udp e) (as_service_id s) sock) (ex_closed_udp e) e))
      end
  end.

Definition list_exposed (e : ServiceExposureManager) : list ServiceRecord := dvals (ex_services e).

(** [shutdown]: the streams are closed by tasks that run later. *)
Definition shutdown_exposure (e : ServiceExposureManager) : ServiceExposureManager :=
  set_services [] (set_streams [] (set_udp [] (ex_closed_udp e ++ dvals (ex_udp e))
    (set_closing (ex_closing e ++ dvals (ex_streams e)) e))).

(** A task of [shutdown]. *)
Definition run_closing (e : ServiceExposureManager) : ServiceExposureManager :=
  match ex_closing e with
  | [] => e
  | o :: l => close_stream o (set_closing l e)
  end.

Section Loops.
Context {TC : TunnelCrypto}.

(** One turn of [forward_from_local], which sends through the tunnel [t]. *)
Definition local_turn (o : nat) (t : PeerTunnel) (read : result bytes) (nonce : bytes) (up : bool)
    (e : ServiceExposureManager) : ServiceExposureManager * PeerTunnel * datagrams :=
  match dget (ex_tasks e) o, dget (ex_objs e) o with
  | Some (Piping i q true p), Some s =>
      let '(r, t', out) := forward_turn t (as_service_id s) (as_stream_id s) read nonce up in
      (match r with
       | Goes => e
       | Ends => after_turn o i q false p false e
       | Raises _ => after_turn o i q false p true e
       end, t', out)
  | _, _ => (e, t, [])
  end.

(** ** Interleaving *)

(** What may happen next; new objects, writers and queues have new numbers. *)
Definition new_obj (e : ServiceExposureManager) (o : nat) : Prop :=
  dget (ex_objs e) o = None /\ dget (ex_tasks e) o = None.
Definition new_writer (e : ServiceExposureManager) (w : nat) : Prop :=
  (forall o s, dget (ex_objs e) o = Some s -> as_writer s <> Some w)
  /\ (w ∉ ex_closed e) /\ (w ∉ map fst (ex_written e)).
Definition new_queue (e : ServiceExposureManager) (q : nat) : Prop := dget (ex_waiting e) q = None.

Inductive ex_step : ServiceExposureManager -> ServiceExposureManager -> Prop :=
  | st_expose e sid name proto host port now sent :
      ex_step e (snd (expose sid name proto host port now sent e))
  | st_unexpose e sid sent : ex_step e (unexpose sid sent e)
  | st_incoming e o sid stid peer now :
      new_obj e o -> ex_step e (handle_incoming_stream o sid stid peer now e)
  | st_connected e o conn tunnel q :
      dget (ex_tasks e) o = Some Connecting -> new_queue e q ->
      (forall w, conn = Ok w -> new_writer e w) ->
      ex_step e (tcp_connected o conn tunnel q e)
  | st_local e o t read nonce up : ex_step e (fst (fst (local_turn o t read nonce up e)))
  | st_peer e o ok : ex_step e (peer_turn o ok e)
  | st_udp e o bound : ex_step e (snd (handle_udp_stream o bound e))
  | st_feed e stid data : ex_step e (feed_stream_data stid data e)
  | st_shutdown e : ex_step e (shutdown_exposure e)
  | st_closing e : ex_step e (run_closing e).

(** ** The invariant *)

Definition writes_to (w : nat) (e : ServiceExposureManager) : list bytes :=
  omap (fun x => if decide (fst x = w) then Some (snd x) else None) (ex_written e).
Definition fed_to (q : nat) (e : ServiceExposureManager) : list bytes :=
  omap (fun x => if decide (fst x = q) then Some (snd x) else None) (ex_fed e).

(** A task that waits has no connection; one that forwards has one, a loop
    that runs and a queue, and as long as the loop from the peer runs, what
    was written to the connection and what waits is what was put into the
    queue; one that is over has closed its connection. *)
Definition task_ok (e : ServiceExposureManager) (s : ActiveStream) (t : task) : Prop :=
  match t with
  | Connecting => as_writer s = None
  | Over => forall w, as_writer s = Some w -> w ∈ ex_closed e
  | Piping _ q l p =>
      l || p = true /\ exists w items, as_writer s = Some w /\ dget (ex_waiting e) q = Some items
      /\ if p then writes_to w e ++ items = fed_to q e else writes_to w e `prefix_of` fed_to q e
  end.

Definition piping (e : ServiceExposureManager) (o q : nat) : Prop :=
  exists i l p, dget (ex_tasks e) o = Some (Piping i q l p).

Record ex_ok (e : ServiceExposureManager) : Prop := mkOk {
  ok_streams sid o : dget (ex_streams e) sid = Some o ->
    exists s, dget (ex_objs e) o = Some s /\ as_stream_id s = sid
      /\ is_Some (dget (ex_services e) (as_service_id s));
  ok_tasks o t : dget (ex_tasks e) o = Some t ->
    exists s, dget (ex_objs e) o = Some s /\ task_ok e s t;
  ok_owner o s w : dget (ex_objs e) o = Some s -> as_writer s = Some w ->
    is_Some (dget (ex_tasks e) o)
    /\ forall o' s', dget (ex_objs e) o' = Some s' -> as_writer s' = Some w -> o' = o;
  ok_queues sid q : dget (ex_queues e) sid = Some q ->
    exists o s, piping e o q /\ dget (ex_objs e) o = Some s /\ as_stream_id s = sid;
  ok_piping o o' q : piping e o q -> piping e o' q -> o' = o;
  ok_fed q x : (q, x) ∈ ex_fed e -> is_Some (dget (ex_waiting e) q)
}.

Lemma ex_ok_init c : ex_ok (exposure_init c).
Proof. split; try done. - intros ? ? ? [? (? & ? & ?)]. done. - set_solver. Qed.

(** Changes that the invariant does not see. *)
Lemma ex_ok_frame e e' :
  ex_streams e' = ex_streams e -> ex_objs e' = ex_objs e -> ex_tasks e' = ex_tasks e ->
  ex_queues e' = ex_queues e -> ex_waiting e' = ex_waiting e -> ex_written e' = ex_written e ->
  ex_closed e' = ex_closed e -> ex_fed e' = ex_fed e ->
  (forall sid, is_Some (dget (ex_services e) sid) -> is_Some (dget (ex_services e') sid)) ->
  ex_ok e -> ex_ok e'.
Proof.
  intros H1 H2 H3 H4 H5 H6 H7 H8 H9 [A B C D E F]. split; unfold piping in *;
    rewrite ?H1, ?H2, ?H3, ?H4, ?H5, ?H8; try done.
  - intros sid o H. destruct (A sid o H) as (s & ? & ? & ?). exists s. auto.
  - intros o t H. destruct (B o t H) as (s & ? & Ht). exists s. split; [done|].
    destruct t; simpl in *; unfold writes_to, fed_to in *; by rewrite ?H5, ?H6, ?H7, ?H8.
Qed.

Lemma ex_ok_tell m sent e : ex_ok e -> ex_ok (tell m sent e).
Proof. intros. unfold tell. repeat case_match; try done; by apply (ex_ok_frame e). Qed.

(** Fewer streams and queues, more connections closed. *)
Lemma ex_ok_less e e' :
  ex_objs e' = ex_objs e -> ex_tasks e' = ex_tasks e -> ex_waiting e' = ex_waiting e ->
  ex_written e' = ex_written e -> ex_fed e' = ex_fed e ->
  (forall sid o, dget (ex_streams e') sid = Some o -> dget (ex_streams e) sid = Some o
     /\ forall s, dget (ex_objs e) o = Some s -> is_Some (dget (ex_services e) (as_service_id s)) ->
                  is_Some (dget (ex_services e') (as_service_id s))) ->
  (forall sid q, dget (ex_queues e') sid = Some q -> dget (ex_queues e) sid = Some q) ->
  (forall w, w ∈ ex_closed e -> w ∈ ex_closed e') ->
  ex_ok e -> ex_ok e'.
Proof.
  intros H1 H2 H3 H4 H5 H6 H7 H8 [A B C D E F]. split; unfold piping in *; rewrite ?H1, ?H2, ?H3, ?H5; try done.
  - intros sid o H. destruct (H6 sid o H) as [H' Hs]. destruct (A sid o H') as (s & ? & ? & ?). exists s. auto.
  - intros o t H. destruct (B o t H) as (s & ? & Ht). exists s. split; [done|].
    destruct t; simpl in *; unfold writes_to, fed_to in *; rewrite ?H3, ?H4, ?H5; auto.
  - intros sid q H. apply H7 in H. auto.
Qed.

Lemma ddel_sub {V} (d : list (str * V)) k k' v : dget (ddel d k) k' = Some v -> dget d k' = Some v.
Proof. rewrite dget_ddel. by case_decide. Qed.

Lemma ex_ok_close o e : ex_ok e -> ex_ok (close_stream o e).
Proof.
  intros Hok. unfold close_stream. destruct (dget (ex_objs e) o) as [s|]; [|done].
  destruct (as_writer s) as [w|]; apply (ex_ok_less e); try done; simpl;
    try (intros ? ? H%ddel_sub; by auto); set_solver.
Qed.

Lemma close_stream_objs o e : ex_objs (close_stream o e) = ex_objs e.
Proof. unfold close_stream. repeat case_match; done. Qed.
Lemma close_stream_services o e : ex_services (close_stream o e) = ex_services e.
Proof. unfold close_stream. repeat case_match; done. Qed.

(** A task ends after its stream was closed. *)
Lemma ex_ok_over o s e :
  dget (ex_objs e) o = Some s -> (forall w, as_writer s = Some w -> w ∈ ex_closed e) ->
  (dget (ex_queues e) (as_stream_id s) = None \/ dget (ex_tasks e) o = Some Connecting) ->
  ex_ok e -> ex_ok (set_task o Over e).
Proof.
  intros Ho Hc Hq [A B C D E F].
  assert (Hp : forall o' q, piping (set_task o Over e) o' q -> piping e o' q /\ o' <> o).
  { intros o' q (i & l & p & H). simpl in H. rewrite dget_dset in H. case_decide; [done|].
    split; [by exists i, l, p|congruence]. }
  split; simpl.
  - done.
  - intros o' t. rewrite dget_dset. case_decide as Heq.
    + intros [= <-]. subst o'. exists s. by split.
    + apply B.
  - intros o' s' w H1 H2. destruct (C o' s' w H1 H2) as [H3 H4]. split; [|done].
    rewrite dget_dset. by case_decide.
  - intros sid q H. destruct (D sid q H) as (o' & s' & (i & l & p & Hp') & Hs' & Hid).
    assert (o' <> o).
    { intros ->. rewrite Ho in Hs'. simplify_eq. destruct Hq as [Hq|Hq]; congruence. }
    exists o', s'. split; [|done]. exists i, l, p. simpl. by rewrite dget_dset_ne.
  - intros o1 o2 q H1 H2. apply Hp in H1 as [H1 _], H2 as [H2 _]. by apply (E o1 o2 q).
  - done.
Qed.

(** What closing streams leaves alone, and what it removes. *)
Definition shrinks (e e' : ServiceExposureManager) : Prop :=
  ex_objs e' = ex_objs e /\ ex_tasks e' = ex_tasks e /\ ex_waiting e' = ex_waiting e
  /\ ex_written e' = ex_written e /\ ex_fed e' = ex_fed e /\ ex_services e' = ex_services e
  /\ (forall sid o, dget (ex_streams e') sid = Some o -> dget (ex_streams e) sid = Some o)
  /\ (forall sid q, dget (ex_queues e') sid = Some q -> dget (ex_queues e) sid = Some q)
  /\ (forall w, w ∈ ex_closed e -> w ∈ ex_closed e').

Lemma shrinks_refl e : shrinks e e.
Proof. by split_and!. Qed.
Lemma shrinks_trans e1 e2 e3 : shrinks e1 e2 -> shrinks e2 e3 -> shrinks e1 e3.
Proof. unfold shrinks. intros. destruct_and!. split_and!; try congruence; eauto. Qed.

Lemma close_stream_shrinks o e : shrinks e (close_stream o e).
Proof.
  unfold close_stream. destruct (dget (ex_objs e) o) as [s|]; [|apply shrinks_refl].
  destruct (as_writer s); split_and!; simpl; try done; try (intros ? ?; apply ddel_sub); set_solver.
Qed.

Lemma close_stream_gone o s e : dget (ex_objs e) o = Some s ->
  dget (ex_streams (close_stream o e)) (as_stream_id s) = None
  /\ dget (ex_queues (close_stream o e)) (as_stream_id s) = None
  /\ (forall w, as_writer s = Some w -> w ∈ ex_closed (close_stream o e)).
Proof.
  intros Ho. unfold close_stream. rewrite Ho.
  destruct (as_writer s) as [w|]; simpl; rewrite !dget_ddel, !decide_True by done; set_solver.
Qed.

Lemma close_streams_of_spec sid l e :
  shrinks e (close_streams_of sid l e)
  /\ forall k o s, (k, o) ∈ l -> dget (ex_objs e) o = Some s -> as_service_id s = sid ->
       dget (ex_streams (close_streams_of sid l e)) (as_stream_id s) = None.
Proof.
  revert e. induction l as [|[k o] l IH]; intros e; simpl; [split; [apply shrinks_refl|set_solver]|].
  set (e1 := match dget (ex_objs e) o with Some s => _ | None => _ end).
  assert (Hs : shrinks e e1).
  { unfold e1. repeat case_match; try apply shrinks_refl. apply close_stream_shrinks. }
  destruct (IH e1) as [H1 H2]. split; [by apply (shrinks_trans e e1)|].
  intros k' o' s [Heq|Hin]%elem_of_cons Ho Hsid.
  - simplify_eq. destruct (dget (ex_streams (close_streams_of _ l e1)) (as_stream_id s)) as [x|] eqn:Hx; [|done].
    destruct H1 as (_ & _ & _ & _ & _ & _ & Hsub & _). apply Hsub in Hx.
    assert (He1 : e1 = close_stream o e).
    { unfold e1. rewrite Ho. unfold str_eqb. by rewrite bool_decide_true. }
    rewrite He1 in Hx. destruct (close_stream_gone o s e Ho) as [Hg _]. congruence.
  - apply (H2 k' o'); [done| |done]. destruct Hs as [-> _]. done.
Qed.

(** [unexpose] leaves no stream of the service. *)
Lemma unexpose_streams sid sent e k o s :
  ex_ok e -> is_Some (dget (ex_services e) sid) ->
  dget (ex_streams (unexpose sid sent e)) k = Some o -> dget (ex_objs e) o = Some s ->
  dget (ex_streams e) k = Some o /\ as_service_id s <> sid.
Proof.
  intros Hok [r Hr]. unfold unexpose. rewrite Hr.
  set (e1 := set_services (ddel (ex_services e) sid) e).
  destruct (close_streams_of_spec sid (ex_streams e1) e1) as [Hs Hg].
  set (e2 := close_streams_of sid (ex_streams e1) e1) in *.
  intros Hk Ho. assert (Hk2 : dget (ex_streams e2) k = Some o).
  { unfold tell in Hk. repeat case_match; done. }
  assert (Hk1 : dget (ex_streams e) k = Some o) by apply Hs, Hk2.
  split; [done|]. intros Hsid. destruct (ok_streams _ Hok _ _ Hk1) as (s' & Ho' & Hid & _).
  rewrite Ho in Ho'. simplify_eq. rewrite (Hg (as_stream_id s') o s') in Hk2; [done| |done|done].
  by apply dget_elem.
Qed.

Lemma ex_ok_unexpose sid sent e : ex_ok e -> ex_ok (unexpose sid sent e).
Proof.
  intros Hok. destruct (dget (ex_services e) sid) as [r|] eqn:Hr; [|unfold unexpose; by rewrite Hr].
  pose proof (fun k o s => unexpose_streams sid sent e k o s Hok (ltac:(rewrite Hr; by eexists))) as Hst.
  revert Hst. unfold unexpose. rewrite Hr.
  set (e1 := set_services (ddel (ex_services e) sid) e).
  destruct (close_streams_of_spec sid (ex_streams e1) e1) as [Hs _].
  set (e2 := close_streams_of sid (ex_streams e1) e1) in *.
  set (e3 := match dget (ex_udp e2) sid with Some _ => _ | None => _ end). intros Hst.
  assert (Hst' : ex_streams (tell (make_message UnexposeService None [(py "service_id", JStr sid)]) sent e3)
    = ex_streams e2) by (unfold e3, tell; repeat case_match; done).
  rewrite Hst' in Hst. apply ex_ok_tell.
  destruct Hs as (H1 & H2 & H3 & H4 & H5 & H6 & H7 & H8 & H9).
  apply (ex_ok_less e); unfold e3; try (case_match; simpl; done).
  - intros k o Hk. assert (Hk' : dget (ex_streams e2) k = Some o) by (case_match; done).
    split; [by apply H7|]. intros s Ho [x Hx]. destruct (Hst k o s Hk' Ho) as [_ Hne].
    replace (ex_services (match dget (ex_udp e2) sid with Some _ => _ | None => _ end))
      with (ddel (ex_services e) sid) by (case_match; simpl; by rewrite H6).
    rewrite dget_ddel, decide_False by congruence. by exists x.
  - done.
Qed.

Lemma ex_ok_incoming o sid stid peer now e :
  new_obj e o -> ex_ok e -> ex_ok (handle_incoming_stream o sid stid peer now e).
Proof.
  intros [Hno Hnt] Hok. unfold handle_incoming_stream. destruct (dget (ex_services e) sid) as [r|] eqn:Hr; [|done].
  set (s0 := mkStream stid sid peer None None now).
  set (e1 := set_streams (dset (ex_streams e) stid o) (set_obj o s0 e)).
  assert (Hne : forall o' s, dget (ex_objs e) o' = Some s -> o <> o') by congruence.
  assert (H1 : ex_ok e1).
  { destruct Hok as [A B C D E F]. split; unfold piping in *; simpl; try done.
    - intros k o'. rewrite dget_dset. case_decide as Hk.
      + intros [= <-]. subst k. exists s0. rewrite dget_dset_eq. split_and!; try done; by exists r.
      + intros H. destruct (A k o' H) as (s & Hs & ?). exists s. rewrite dget_dset_ne by eauto. done.
    - intros o' t H. destruct (B o' t H) as (s & Hs & Ht). exists s. rewrite dget_dset_ne by eauto. done.
    - intros o' s w. rewrite dget_dset. case_decide; [by intros [= <-]|]. intros Hs Hw.
      destruct (C o' s w Hs Hw) as [? Hu]. split; [done|]. intros o2 s2. rewrite dget_dset.
      case_decide; [by intros [= <-]|]. apply Hu.
    - intros k q H. destruct (D k q H) as (o' & s & Hp & Hs & ?). exists o', s.
      rewrite dget_dset_ne by eauto. done. }
  destruct (str_eqb _ _); [|done]. destruct H1 as [A B C D E F].
  assert (Hp : forall o' q, piping (set_task o Connecting e1) o' q <-> piping e1 o' q).
  { intros o' q. unfold piping. simpl. setoid_rewrite dget_dset. case_decide; [|done]. subst o'.
    split; intros (i & l & p & H); congruence. }
  split; try done; simpl.
  - intros o' t. rewrite dget_dset. case_decide as Hd.
    + intros [= <-]. subst o'. exists s0. by rewrite dget_dset_eq.
    + apply B.
  - intros o' s w H Hw. destruct (C o' s w H Hw) as [? ?]. split; [|done]. rewrite dget_dset. by case_decide.
  - intros k q H. destruct (D k q H) as (o' & s & Hpi & ?). exists o', s. split; [by apply Hp|done].
  - intros o1 o2 q H1 H2. apply Hp in H1, H2. by apply (E o1 o2 q).
Qed.

(** A stream object gets its connection and its task goes on as [t]. *)
Lemma ex_ok_connect o s w t e e' :
  let s' := mkStream (as_stream_id s) (as_service_id s) (as_peer_id s) (Some w) (as_udp s) (as_created_at s) in
  dget (ex_tasks e) o = Some Connecting -> dget (ex_objs e) o = Some s -> new_writer e w ->
  ex_objs e' = dset (ex_objs e) o s' -> ex_tasks e' = dset (ex_tasks e) o t ->
  ex_streams e' = ex_streams e -> ex_services e' = ex_services e -> ex_written e' = ex_written e ->
  ex_fed e' = ex_fed e -> (forall x, x ∈ ex_closed e -> x ∈ ex_closed e') ->
  (forall q x, dget (ex_waiting e) q = Some x -> dget (ex_waiting e') q = Some x) ->
  task_ok e' s' t ->
  (forall sid q, dget (ex_queues e') sid = Some q -> dget (ex_queues e) sid = Some q
     \/ sid = as_stream_id s /\ exists i l p, t = Piping i q l p) ->
  (forall i q l p, t = Piping i q l p -> dget (ex_waiting e) q = None) ->
  ex_ok e -> ex_ok e'.
Proof.
  intros s' Ht Ho (Hw1 & Hw2 & Hw3) E1 E2 E3 E4 E5 E6 Hc Hwait Htok Hq Hnew [A B C D E F].
  assert (Hp : forall o' q, piping e' o' q -> o' = o /\ dget (ex_waiting e) q = None \/ o' <> o /\ piping e o' q).
  { intros o' q (i & l & p & H). rewrite E2, dget_dset in H. case_decide.
    - left. subst o'. simplify_eq. eauto.
    - right. split; [congruence|]. by exists i, l, p. }
  assert (Hpw : forall o' q, piping e o' q -> is_Some (dget (ex_waiting e) q)).
  { intros o' q (i & l & p & H). destruct (B _ _ H) as (? & _ & _ & ? & x & _ & Hx & _). by exists x. }
  assert (Hobj : forall o' x, dget (ex_objs e) o' = Some x -> o' <> o -> dget (ex_objs e') o' = Some x).
  { intros o' x H Hne. by rewrite E1, dget_dset_ne. }
  split.
  - intros sid o'. rewrite E3, E4. intros H. destruct (A sid o' H) as (x & Hx & ? & ?).
    destruct (decide (o' = o)) as [->|Hne]; [|exists x; eauto].
    rewrite Ho in Hx. simplify_eq. exists s'. by rewrite E1, dget_dset_eq.
  - intros o' t'. rewrite E2, dget_dset. case_decide as Hd.
    + intros [= <-]. subst o'. exists s'. by rewrite E1, dget_dset_eq.
    + intros H. destruct (B o' t' H) as (x & Hx & Hok). exists x. split; [apply Hobj; congruence|].
      destruct t' as [|i q l p|]; simpl in *; [done| |by auto].
      unfold writes_to, fed_to in *. rewrite E5, E6. destruct Hok as (? & w' & it & ? & ? & ?).
      split; [done|]. exists w', it. auto.
  - intros o' x w' Hx Hw'. rewrite E2.
    assert (Huniq : forall o2 s2, dget (ex_objs e') o2 = Some s2 -> as_writer s2 = Some w -> o2 = o).
    { intros o2 s2. rewrite E1, dget_dset. case_decide; [intros; congruence|]. intros H2 H'. by apply Hw1 in H2. }
    rewrite E1, dget_dset in Hx. case_decide as Hd.
    + subst o'. simplify_eq. simpl in Hw'. simplify_eq. split; [rewrite dget_dset_eq; eauto|done].
    + destruct (C o' x w' Hx Hw') as [Hs Hu]. rewrite dget_dset_ne by done. split; [done|].
      intros o2 s2. rewrite E1, dget_dset. case_decide.
      * intros [= <-] [= ->]. by apply Hw1 in Hx.
      * apply Hu.
  - intros sid q H. destruct (Hq sid q H) as [H'|[-> (i & l & p & ->)]].
    + destruct (D sid q H') as (o' & x & Hpi & Hx & Hid). assert (o' <> o).
      { intros ->. destruct Hpi as (? & ? & ? & ?). congruence. }
      exists o', x. split_and!; [|eauto|done]. destruct Hpi as (i & l & p & Hpi). exists i, l, p.
      by rewrite E2, dget_dset_ne.
    + exists o, s'. split_and!; [|by rewrite E1, dget_dset_eq|done]. exists i, l, p. by rewrite E2, dget_dset_eq.
  - intros o1 o2 q [[-> N1]|[_ H1]]%Hp [[-> N2]|[_ H2]]%Hp; [done| | |by apply (E o1 o2 q)].
    + apply Hpw in H2. rewrite N1 in H2. by destruct H2.
    + apply Hpw in H1. rewrite N2 in H1. by destruct H1.
  - intros q x. rewrite E6. intros [y Hy]%F. exists y. auto.
Qed.

Lemma omap_new (l : list (nat * bytes)) k : (k ∉ map fst l) ->
  omap (fun x => if decide (fst x = k) then Some (snd x) else None) l = [].
Proof.
  induction l as [|[k' x] l IH]; intros Hk; [done|]. simpl in *. rewrite decide_False by set_solver.
  apply IH. set_solver.
Qed.

Lemma ex_ok_connected o conn tunnel q e :
  dget (ex_tasks e) o = Some Connecting -> new_queue e q -> (forall w, conn = Ok w -> new_writer e w) ->
  ex_ok e -> ex_ok (tcp_connected o conn tunnel q e).
Proof.
  intros Ht Hq Hw Hok. destruct (ok_tasks _ Hok _ _ Ht) as (s & Ho & Hnone). simpl in Hnone.
  unfold tcp_connected. rewrite Ho. destruct conn as [w|x].
  2: { apply (ex_ok_over o s); [done|congruence|by right|done]. }
  specialize (Hw w eq_refl). destruct tunnel as [i|].
  - eapply (ex_ok_connect o s w (Piping i q true true) e); try done; simpl.
    + intros q' x H. rewrite dget_dset_ne; [done|]. intros ->. unfold new_queue in Hq. congruence.
    + split; [done|]. exists w, []. rewrite dget_dset_eq. split_and!; [done..|].
      rewrite app_nil_r. unfold writes_to, fed_to. simpl. destruct Hw as (_ & _ & Hw).
      rewrite (omap_new _ w Hw), omap_new; [done|]. intros ([q' x] & Hx & Hin)%list_elem_of_fmap.
      simpl in Hx. subst q'. apply (ok_fed _ Hok) in Hin as [y Hy]. unfold new_queue in Hq. congruence.
    + intros sid q'. rewrite dget_dset. case_decide as Hd; [|by left].
      intros [= <-]. right. eauto.
    + intros ? ? ? ? [= -> -> -> ->]. done.
  - eapply (ex_ok_connect o s w Over e); try done; simpl; try by auto.
    + intros x Hx. apply elem_of_app. by left.
    + intros w' [= <-]. apply elem_of_app. right. by apply list_elem_of_singleton.
Qed.

(** One stream moves: its task, its queue, what was written for it and what
    was fed to it change, and nothing of the others. *)
Lemma ex_ok_move o i q l p l' p' s w e e' :
  dget (ex_tasks e) o = Some (Piping i q l p) -> dget (ex_objs e) o = Some s -> as_writer s = Some w ->
  task_ok e' s (Piping i q l' p') ->
  (forall o', dget (ex_tasks e') o' = if decide (o = o') then Some (Piping i q l' p') else dget (ex_tasks e) o') ->
  ex_objs e' = ex_objs e -> ex_streams e' = ex_streams e -> ex_services e' = ex_services e ->
  ex_queues e' = ex_queues e -> ex_closed e' = ex_closed e ->
  (forall q', q' <> q -> dget (ex_waiting e') q' = dget (ex_waiting e) q') ->
  (forall w', w' <> w -> writes_to w' e' = writes_to w' e) ->
  (forall q', q' <> q -> fed_to q' e' = fed_to q' e) ->
  (forall q' x, (q', x) ∈ ex_fed e' -> q' = q \/ (q', x) ∈ ex_fed e) ->
  ex_ok e -> ex_ok e'.
Proof.
  intros Ht Ho Hw Htok E1 E2 E3 E4 E5 E6 Hwait Hwr Hfd Hfed Hok.
  assert (Hq : exists items, dget (ex_waiting e') q = Some items).
  { destruct Htok as (_ & ? & items & _ & H & _). by exists items. }
  assert (Hp : forall o' q', piping e' o' q' <-> piping e o' q').
  { intros o' q'. unfold piping. setoid_rewrite E1. case_decide as Hd; [|done]. subst o'.
    rewrite Ht. split; intros (? & ? & ? & H); simplify_eq; eauto. }
  destruct Hok as [A B C D E F]. split.
  - rewrite E2, E3, E4. done.
  - intros o' t. rewrite E1, E2. case_decide as Hd.
    + intros [= <-]. subst o'. by exists s.
    + intros H. destruct (B o' t H) as (x & Hx & Hxt). exists x. split; [done|].
      destruct t as [|i2 q2 l2 p2|]; simpl in *; [done| |by rewrite E6].
      destruct Hxt as (? & w2 & it & Hw2 & ? & ?).
      assert (q2 <> q). { intros ->. apply Hd. symmetry. apply (E o o' q); by do 3 eexists. }
      assert (w2 <> w). { intros ->. apply Hd. symmetry. by apply (proj2 (C o s w Ho Hw) o' x). }
      split; [done|]. exists w2, it. rewrite Hwait, Hwr, Hfd by done. done.
  - intros o' x w' Hx Hw'. rewrite E2 in Hx. destruct (C o' x w' Hx Hw') as [H1 H2].
    rewrite E1, E2. split; [|done]. case_decide; [by eexists|done].
  - intros sid q'. rewrite E5. intros H. destruct (D sid q' H) as (o' & x & Hpi & Hx). exists o', x.
    rewrite E2. split; [by apply Hp|done].
  - intros o1 o2 q' H1 H2. apply Hp in H1, H2. by apply (E o1 o2 q').
  - intros q' x Hin. destruct (decide (q' = q)) as [->|Hne]; [done|]. rewrite Hwait by done.
    destruct (Hfed q' x Hin) as [?|H]; [done|]. by apply (F q' x).
Qed.

Lemma omap_snoc (l : list (nat * bytes)) k k' x :
  omap (fun y => if decide (fst y = k) then Some (snd y) else None) (l ++ [(k', x)])
  = omap (fun y => if decide (fst y = k) then Some (snd y) else None) l ++ (if decide (k' = k) then [x] else []).
Proof. rewrite omap_app. simpl. by case_decide. Qed.

(** A loop of a stream ends, or both. *)
Lemma ex_ok_after o i q l p l' p' raised e :
  dget (ex_tasks e) o = Some (Piping i q l p) -> (p' = true -> p = true) ->
  ex_ok e -> ex_ok (after_turn o i q l' p' raised e).
Proof.
  intros Ht Hp Hok. destruct (ok_tasks _ Hok _ _ Ht) as (s & Ho & Htok). unfold after_turn.
  destruct (raised || _) eqn:Hr.
  - destruct (close_stream_gone o s e Ho) as (_ & Hq & Hc).
    apply (ex_ok_over o s); [by rewrite close_stream_objs|done|by left|by apply ex_ok_close].
  - apply orb_false_iff in Hr as [_ Hr]. apply negb_false_iff in Hr.
    destruct Htok as (_ & w & items & Hw & Hit & Hl).
    apply (ex_ok_move o i q l p l' p' s w e); try done.
    + split; [done|]. exists w, items. split_and!; [done..|]. destruct p'; [by rewrite Hp in Hl|].
      destruct p; [|done]. unfold writes_to, fed_to in *. simpl. rewrite <- Hl. by apply prefix_app_r.
    + intros o'. simpl. apply dget_dset.
    + by right.
Qed.

Lemma ex_ok_local o t read nonce up e : ex_ok e -> ex_ok (fst (fst (local_turn o t read nonce up e))).
Proof.
  intros Hok. unfold local_turn. destruct (dget (ex_tasks e) o) as [[|i q [] p|]|] eqn:Ht; try done.
  destruct (dget (ex_objs e) o) as [s|]; [|done].
  destruct (forward_turn _ _ _ _ _ _) as [[[] t'] out]; simpl; [done|by eapply ex_ok_after..].
Qed.

Lemma ex_ok_peer o ok e : ex_ok e -> ex_ok (peer_turn o ok e).
Proof.
  intros Hok. unfold peer_turn. destruct (dget (ex_tasks e) o) as [[|i q l []|]|] eqn:Ht; try done.
  destruct (dget (ex_objs e) o) as [s|] eqn:Ho; [|done].
  destruct (dget (ex_waiting e) q) as [[|data rest]|] eqn:Hit; try done.
  destruct (as_writer s) as [w|] eqn:Hw; [|done].
  destruct (ok_tasks _ Hok _ _ Ht) as (s' & Ho' & Htok). rewrite Ho in Ho'. injection Ho' as <-.
  destruct Htok as (_ & w' & items & Hw' & Hit' & Hl). rewrite Hw in Hw'. rewrite Hit in Hit'.
  injection Hw' as <-. injection Hit' as <-.
  set (e1 := set_queues (ex_queues e) (dset (ex_waiting e) q rest) e).
  destruct ok.
  - apply (ex_ok_move o i q l true l true s w e); try done.
    + split; [apply orb_true_r|]. exists w, rest. simpl. rewrite dget_dset_eq. split_and!; [done..|].
      unfold writes_to, fed_to in *. simpl. rewrite omap_snoc, decide_True, <- app_assoc by done. done.
    + intros o'. simpl. apply dget_dset.
    + intros q' Hq'. simpl. by rewrite dget_dset_ne.
    + intros w' Hne. unfold writes_to. simpl. rewrite omap_snoc, decide_False by done. by rewrite app_nil_r.
    + by right.
  - set (e2 := set_task o (Piping i q true false) e1).
    assert (H2 : ex_ok e2).
    { apply (ex_ok_move o i q l true true false s w e); try done.
      - split; [done|]. exists w, rest. simpl. rewrite dget_dset_eq. split_and!; [done..|].
        unfold writes_to, fed_to in *. simpl. rewrite <- Hl. by apply prefix_app_r.
      - intros o'. simpl. apply dget_dset.
      - intros q' Hq'. simpl. by rewrite dget_dset_ne.
      - by right. }
    replace (after_turn o i q l false false e1) with (after_turn o i q l false false e2).
    + apply (ex_ok_after o i q true false); [|done|done]. simpl. apply dget_dset_eq.
    + unfold after_turn, close_stream. simpl. rewrite Ho, Hw. unfold set_task, e2. simpl.
      rewrite !dset_twice. by destruct (negb _).
Qed.

Lemma ex_ok_feed stid data e : ex_ok e -> ex_ok (feed_stream_data stid data e).
Proof.
  intros Hok. unfold feed_stream_data. destruct (dget (ex_queues e) stid) as [q|] eqn:Hq; [|done].
  destruct (ok_queues _ Hok _ _ Hq) as (o & s & (i & l & p & Ht) & Ho & _).
  destruct (ok_tasks _ Hok _ _ Ht) as (s' & Ho' & Hlp & w & items & Hw & Hit & Hl).
  rewrite Ho in Ho'. injection Ho' as <-.
  apply (ex_ok_move o i q l p l p s w e); try done.
  - split; [done|]. exists w, (items ++ [data]). simpl. rewrite dget_dset_eq, Hit. split_and!; [done..|].
    unfold writes_to, fed_to in *. simpl. rewrite omap_snoc, decide_True by done.
    destruct p; [by rewrite <- Hl, app_assoc|by apply prefix_app_r].
  - intros o'. simpl. case_decide; [congruence|done].
  - intros q' Hq'. simpl. by rewrite dget_dset_ne.
  - intros q' Hne. unfold fed_to. simpl. rewrite omap_snoc, decide_False by done. by rewrite app_nil_r.
  - intros q' x. simpl. rewrite elem_of_app, list_elem_of_singleton. naive_solver.
Qed.

Lemma ex_ok_udp_obj o s sock e :
  dget (ex_objs e) o = Some s -> ex_ok e ->
  ex_ok (set_obj o (mkStream (as_stream_id s) (as_service_id s) (as_peer_id s) (as_writer s) (Some sock)
    (as_created_at s)) e).
Proof.
  intros Ho [A B C D E F]. set (s' := mkStream _ _ _ _ _ _).
  assert (Hin : forall o' x, dget (ex_objs e) o' = Some x ->
    exists x', dget (dset (ex_objs e) o s') o' = Some x' /\ as_stream_id x' = as_stream_id x
      /\ as_service_id x' = as_service_id x /\ as_writer x' = as_writer x).
  { intros o' x Hx. rewrite dget_dset. case_decide; [|by exists x]. subst o'.
    rewrite Ho in Hx. simplify_eq. by exists s'. }
  assert (Hout : forall o' x', dget (dset (ex_objs e) o s') o' = Some x' ->
    exists x, dget (ex_objs e) o' = Some x /\ as_writer x = as_writer x').
  { intros o' x'. rewrite dget_dset. case_decide; [|by exists x'].
    intros [= <-]. subst o'. by exists s. }
  split; unfold piping in *; simpl; try done.
  - intros sid o' H. destruct (A sid o' H) as (x & Hx & Hid & Hs).
    destruct (Hin o' x Hx) as (x' & ? & H1 & H2 & _). exists x'. by rewrite H1, H2.
  - intros o' t H. destruct (B o' t H) as (x & Hx & Ht). destruct (Hin o' x Hx) as (x' & ? & _ & _ & H3).
    exists x'. split; [done|]. destruct t; simpl in *; by rewrite H3.
  - intros o' x' w Hx' Hw. destruct (Hout o' x' Hx') as (x & Hx & Hxw). rewrite Hw in Hxw.
    destruct (C o' x w Hx Hxw) as [? Hu]. split; [done|]. intros o2 x2 Hx2 Hw2.
    destruct (Hout o2 x2 Hx2) as (y & Hy & Hyw). apply (Hu o2 y Hy). congruence.
  - intros sid q H. destruct (D sid q H) as (o' & x & ? & Hx & Hid).
    destruct (Hin o' x Hx) as (x' & ? & H1 & _). exists o', x'. by rewrite H1.
Qed.

Lemma ex_ok_step e e' : ex_step e e' -> ex_ok e -> ex_ok e'.
Proof.
  intros H Hok. destruct H.
  - apply ex_ok_tell, (ex_ok_frame e); try done. intros k Hk. simpl. rewrite dget_dset. by case_decide.
  - by apply ex_ok_unexpose.
  - by apply ex_ok_incoming.
  - by apply ex_ok_connected.
  - by apply ex_ok_local.
  - by apply ex_ok_peer.
  - unfold handle_udp_stream. destruct (dget (ex_objs e) o) as [s|] eqn:Ho; [|done].
    destruct (dget (ex_udp e) _); [by apply ex_ok_udp_obj|]. destruct bound; [|done].
    apply ex_ok_udp_obj; [done|]. by apply (ex_ok_frame e).
  - by apply ex_ok_feed.
  - by apply (ex_ok_less e).
  - unfold run_closing. destruct (ex_closing e); [done|]. apply ex_ok_close. by apply (ex_ok_frame e).
Qed.

(** C33 However operations, connections, the loops of the streams, the data
    from the tunnels and the closing tasks interleave: every registered
    stream belongs to a service that is exposed; a task that forwards has one
    connection and one queue of its own, and what it has written to the
    connection followed by what waits in the queue is exactly what was fed to
    it, in order; and no connection outlives its task. *)
Theorem exposure_invariant control e :
  rtc ex_step (exposure_init control) e -> ex_ok e.
Proof.
  assert (Hgen : forall a b, rtc ex_step a b -> ex_ok a -> ex_ok b).
  { induction 1; eauto using ex_ok_step. }
  intros H. apply (Hgen _ _ H), ex_ok_init.
Qed.

(** ** What the code does not do *)

(** Closing streams does not touch the tasks. *)
Lemma tasks_tell m sent e : ex_tasks (tell m sent e) = ex_tasks e.
Proof. unfold tell. repeat case_match; done. Qed.
Lemma tasks_unexpose sid sent e : ex_tasks (unexpose sid sent e) = ex_tasks e.
Proof.
  unfold unexpose. destruct (dget _ sid); [|done]. rewrite tasks_tell.
  set (e1 := set_services _ e). destruct (close_streams_of_spec sid (ex_streams e1) e1) as [Hs _].
  destruct Hs as (_ & Ht & _). destruct (dget (ex_udp _) sid); apply Ht.
Qed.

(** The task of a stream whose local connection has ended waits for ever:
    nothing but a failing write ends the loop from the peer, since nothing
    puts the end of the stream into its queue, not even the closing of the
    stream. *)
Lemma stream_waits_for_ever e e' o i q :
  ex_step e e' -> dget (ex_tasks e) o = Some (Piping i q false true) ->
  dget (ex_tasks e') o = Some (Piping i q false true) \/ e' = peer_turn o false e.
Proof.
  assert (Hafter : forall o' i' q' l p r e0, o' <> o ->
    dget (ex_tasks (after_turn o' i' q' l p r e0)) o = dget (ex_tasks e0) o).
  { intros. unfold after_turn. destruct (_ || _); simpl; rewrite dget_dset_ne by done; [|done].
    by destruct (close_stream_shrinks o' e0) as (_ & -> & _). }
  intros H Ht. destruct H as [| |e o' sid stid peer now Hn|e o' conn tn q' Hc| e o' t read nonce up
    |e o' ok|e o' b| | |]; try (left; done).
  - left. simpl. by rewrite tasks_tell.
  - left. by rewrite tasks_unexpose.
  - left. unfold handle_incoming_stream. destruct (dget _ sid); [|done]. destruct (str_eqb _ _); [|done].
    simpl. rewrite dget_dset_ne; [done|]. intros ->. destruct Hn. congruence.
  - left. assert (o' <> o) by congruence. unfold tcp_connected.
    repeat case_match; simpl; rewrite ?dget_dset_ne by done; done.
  - left. unfold local_turn. destruct (dget (ex_tasks e) o') as [[|i' q' [] p'|]|] eqn:Ho; try done.
    assert (o' <> o) by congruence. destruct (dget (ex_objs e) o'); [|done].
    destruct (forward_turn _ _ _ _ _ _) as [[[] t'] out]; cbn [fst]; rewrite ?Hafter by done; done.
  - destruct (decide (o' = o)) as [->|Hne].
    + destruct ok; [|by right]. left. unfold peer_turn. rewrite Ht.
      repeat case_match; simpl; rewrite ?dget_dset_eq; congruence.
    + left. unfold peer_turn. repeat case_match; simpl; rewrite ?Hafter, ?dget_dset_ne by done; done.
  - left. simpl. unfold handle_udp_stream. repeat case_match; done.
  - left. unfold feed_stream_data. by case_match.
  - left. unfold run_closing. destruct (ex_closing e); [done|].
    by destruct (close_stream_shrinks n (set_closing l e)) as (_ & -> & _).
Qed.

(** A stream whose connection is on its way is not stopped by [unexpose]: it
    forwards for a service that is no longer exposed, under no entry of the
    dictionary. *)
Lemma unexpose_misses_connecting e o s sent w i q :
  ex_ok e -> dget (ex_tasks e) o = Some Connecting -> dget (ex_objs e) o = Some s ->
  is_Some (dget (ex_services e) (as_service_id s)) ->
  let e1 := unexpose (as_service_id s) sent e in
  let e2 := tcp_connected o (Ok w) (Some i) q e1 in
  dget (ex_services e2) (as_service_id s) = None
  /\ dget (ex_tasks e2) o = Some (Piping i q true true)
  /\ dget (ex_queues e2) (as_stream_id s) = Some q.
Proof.
  intros Hok Ht Ho [r Hr]. cbv zeta.
  assert (Hobj : ex_objs (unexpose (as_service_id s) sent e) = ex_objs e
    /\ ex_services (unexpose (as_service_id s) sent e) = ddel (ex_services e) (as_service_id s)).
  { unfold unexpose. rewrite Hr. set (e1 := set_services _ e).
    destruct (close_streams_of_spec (as_service_id s) (ex_streams e1) e1) as [Hs _].
    destruct Hs as (H1 & _ & _ & _ & _ & H2 & _). unfold tell. repeat case_match; done. }
  destruct Hobj as [H1 H2]. unfold tcp_connected. rewrite H1, Ho. simpl.
  rewrite H2, dget_ddel, decide_True, !dget_dset_eq by done. done.
Qed.

(** A stream whose connection fails stays registered. *)
Lemma failed_connect_stays e o s x tunnel q :
  dget (ex_objs e) o = Some s -> ex_streams (tcp_connected o (Err x) tunnel q e) = ex_streams e.
Proof. intros Ho. unfold tcp_connected. by rewrite Ho. Qed.

(** The dictionary of queues is shared by all managers: when one closes a
    stream, a stream of the same id of another one is no longer fed. *)
Lemma other_manager_starves a b o s data :
  dget (ex_objs a) o = Some s ->
  let b' := set_queues (ex_queues (close_stream o a)) (ex_waiting b) b in
  feed_stream_data (as_stream_id s) data b' = b'.
Proof.
  intros Ho. cbv zeta. unfold feed_stream_data. simpl.
  by rewrite (proj1 (proj2 (close_stream_gone o s a Ho))).
Qed.
End Loops.

(** ** A concrete run *)

Section Runs.
#[local] Existing Instance toy_crypto.

(** A service is exposed, a stream arrives, connects, and is fed two chunks,
    of which one is written. *)
Definition run1 : ServiceExposureManager :=
  snd (expose (py "web-1") (py "web") (py "tcp") (py "127.0.0.1") 80 SEC true (exposure_init true)).
Definition run2 : ServiceExposureManager :=
  handle_incoming_stream 0 (py "web-1") (py "stream-1") (py "bob-000001") SEC run1.
Definition run3 : ServiceExposureManager := tcp_connected 0 (Ok 0%nat) (Some 5%nat) 0 run2.
Definition run4 : ServiceExposureManager := feed_stream_data (py "stream-1") [71; 69; 84] run3.
Definition run5 : ServiceExposureManager := feed_stream_data (py "stream-1") [10] run4.
Definition ex_run : ServiceExposureManager := peer_turn 0 true run5.

Lemma ex_run_reach : rtc ex_step (exposure_init true) ex_run.
Proof.
  apply (rtc_l _ _ run1); [apply st_expose|].
  apply (rtc_l _ _ run2); [apply st_incoming; by vm_compute|].
  apply (rtc_l _ _ run3); [apply st_connected; [by vm_compute|by vm_compute|]|].
  { intros w [= <-]. split_and!; [|by vm_compute; apply not_elem_of_nil..].
    intros [|o] s Hs; vm_compute in Hs; [by injection Hs as <-|done]. }
  apply (rtc_l _ _ run4); [apply st_feed|]. apply (rtc_l _ _ run5); [apply st_feed|].
  apply rtc_once, st_peer.
Qed.

Lemma exposure_invariant_witness :
  ex_ok ex_run /\ writes_to 0 ex_run = [[71; 69; 84]] /\ fed_to 0 ex_run = [[71; 69; 84]; [10]].
Proof.
  split; [exact (exposure_invariant true ex_run ex_run_reach)|]. split; vm_compute; reflexivity.
Defined.
End Runs.
End Exposure.
