(* ===== verification/Consumer.v ===== *)
(** * Mapped services (src/client/service_consumer.py)

    The consumer maps services of peers to local ports.  [map_service] is
    split at its one suspension, the start of the listener; the operating
    system is the argument [free], the ports that can be bound, and the
    outcome of the start.  Connections to a mapped port are forwarded by the
    loops of [Streams]. *)

From S2P Require Import Prelude Constants PyStr Frame Json Messages Encryption NatTraversal Tunnel Streams.
Import Messages Encryption NatTraversal Tunnel Streams.

Module Consumer.

Definition AUTO_PORT_START : Z := 50000.
Definition AUTO_PORT_END : Z := 50999.

Record MappedService := mkMapped {
  ms_map_id : str;
  ms_service_id : str;
  ms_service_name : str;
  ms_protocol : str;
  ms_provider_id : str;
  ms_local_port : Z;
  ms_strategy : str;
  ms_remote_port : option Z;
  ms_created_at : time
}.

(** A connection to a mapped port: its queue, its writer, and which of the
    two loops still run. *)
Record conn := mkConn {
  cn_stream_id : str;
  cn_service_id : str;
  cn_queue : nat;
  cn_writer : nat;
  cn_from_local : bool;
  cn_from_peer : bool
}.

Record ServiceConsumer := mkConsumer {
  cs_control : bool;
  cs_mapped : list (str * MappedService);
  cs_servers : list (str * nat);                (* map id -> listener *)
  cs_udp : list (str * nat);                    (* map id -> transport *)
  cs_tunnels : bool;                            (* a tunnel manager was injected *)
  cs_starting : list (str * MappedService);     (* calls that wait for their listener *)
  cs_queues : list (str * nat);                 (* [_stream_queues] *)
  cs_waiting : list (nat * list bytes);         (* the contents of the queues *)
  cs_closed : list nat;                         (* listeners and transports closed *)
  cs_closed_writers : list nat;
  cs_sent : list Message
}.

Definition consumer_init (control : bool) : ServiceConsumer :=
  mkConsumer control [] [] [] false [] [] [] [] [] [].

Definition set_mapped x c := mkConsumer (cs_control c) x (cs_servers c) (cs_udp c) (cs_tunnels c) (cs_starting c)
  (cs_queues c) (cs_waiting c) (cs_closed c) (cs_closed_writers c) (cs_sent c).
Definition set_listeners sv ud cl c := mkConsumer (cs_control c) (cs_mapped c) sv ud (cs_tunnels c) (cs_starting c)
  (cs_queues c) (cs_waiting c) cl (cs_closed_writers c) (cs_sent c).
Definition inject_tunnel_manager c := mkConsumer (cs_control c) (cs_mapped c) (cs_servers c) (cs_udp c) true
  (cs_starting c) (cs_queues c) (cs_waiting c) (cs_closed c) (cs_closed_writers c) (cs_sent c).
Definition set_starting x c := mkConsumer (cs_control c) (cs_mapped c) (cs_servers c) (cs_udp c) (cs_tunnels c) x
  (cs_queues c) (cs_waiting c) (cs_closed c) (cs_closed_writers c) (cs_sent c).
Definition set_queues q w c := mkConsumer (cs_control c) (cs_mapped c) (cs_servers c) (cs_udp c) (cs_tunnels c)
  (cs_starting c) q w (cs_closed c) (cs_closed_writers c) (cs_sent c).
Definition close_client w c := mkConsumer (cs_control c) (cs_mapped c) (cs_servers c) (cs_udp c) (cs_tunnels c)
  (cs_starting c) (cs_queues c) (cs_waiting c) (cs_closed c) (cs_closed_writers c ++ [w]) (cs_sent c).
Definition log_sent m c := mkConsumer (cs_control c) (cs_mapped c) (cs_servers c) (cs_udp c) (cs_tunnels c)
  (cs_starting c) (cs_queues c) (cs_waiting c) (cs_closed c) (cs_closed_writers c) (cs_sent c ++ [m]).

(** The message to the server; failures are ignored. *)
Definition tell (m : result Message) (sent : bool) (c : ServiceConsumer) : ServiceConsumer :=
  if cs_control c then match m with Ok m => if sent then log_sent m c else c | Err _ => c end else c.

(** ** Ports *)

(** The loop over the range, [n] ports from [port] on. *)
Fixpoint first_free (free : Z -> bool) (used : list Z) (n : nat) (port : Z) : option Z :=
  match n with
  | O => None
  | S n' =>
      if negb (bool_decide (port ∈ used)) && free port then Some port
      else first_free free used n' (port + 1)
  end.

Definition used_ports (c : ServiceConsumer) : list Z := map ms_local_port (dvals (cs_mapped c)).

Definition find_auto_port (free : Z -> bool) (c : ServiceConsumer) : result Z :=
  match first_free free (used_ports c) (Z.to_nat (AUTO_PORT_END + 1 - AUTO_PORT_START)) AUTO_PORT_START with
  | Some port => Ok port
  | None => raise COSError (py "no free ports in auto range")
  end.

Definition find_same_port (free : Z -> bool) (remote_port : option Z) : option Z :=
  match remote_port with
  | None => None
  | Some p => if free p then Some p else None
  end.

(** The choice of [map_service].  A port 0 counts as none in [or]. *)
Definition choose_port (free : Z -> bool) (strategy : str) (local_port remote_port : option Z)
    (c : ServiceConsumer) : result Z :=
  if str_eqb strategy (py "manual") then
    match local_port with
    | None => raise CValueError (py "manual strategy requires local_port")
    | Some p => Ok p
    end
  else if str_eqb strategy (py "same") then
    match find_same_port free remote_port with
    | Some p => if p =? 0 then find_auto_port free c else Ok p
    | None => find_auto_port free c
    end
  else if str_eqb strategy (py "auto") then find_auto_port free c
  else raise CValueError (py "unknown port strategy: " ++ strategy).

(** ** Map and unmap *)

Definition notify_map (m : MappedService) (sent : bool) (c : ServiceConsumer) : ServiceConsumer :=
  tell (make_message MapService None
          [(py "service_id", JStr (ms_service_id m)); (py "local_port", JInt (ms_local_port m));
           (py "strategy", JStr (ms_strategy m))]) sent c.

(** [map_service] up to the start of the listener: [None] means that it waits
    for it, [Some port] that it has returned.  [map_id] is the new UUID. *)
Definition map_begin (free : Z -> bool) (map_id service_id provider_id service_name protocol : str)
    (local_port : option Z) (strategy : str) (remote_port : option Z) (now : time) (sent : bool)
    (c : ServiceConsumer) : result (option Z) * ServiceConsumer :=
  match choose_port free strategy local_port remote_port c with
  | Err e => (Err e, c)
  | Ok port =>
      let m := mkMapped map_id service_id service_name protocol provider_id port strategy remote_port now in
      let c1 := set_mapped (dset (cs_mapped c) map_id m) c in
      if str_eqb protocol (py "tcp") || str_eqb protocol (py "udp")
      then (Ok None, set_starting (dset (cs_starting c1) map_id m) c1)
      else (Ok (Some port), notify_map m sent c1)
  end.

(** The rest: [started] is the outcome of [start_server] or of
    [create_datagram_endpoint]. *)
Definition map_finish (map_id : str) (started : result nat) (sent : bool) (c : ServiceConsumer)
    : result Z * ServiceConsumer :=
  match dget (cs_starting c) map_id with
  | None => (raise CKeyError [], c)                  (* not reached *)
  | Some m =>
      let c1 := set_starting (ddel (cs_starting c) map_id) c in
      match started with
      | Err e => (Err e, c1)
      | Ok l =>
          let c2 :=
            if str_eqb (ms_protocol m) (py "tcp")
            then set_listeners (dset (cs_servers c1) map_id l) (cs_udp c1) (cs_closed c1) c1
            else set_listeners (cs_servers c1) (dset (cs_udp c1) map_id l) (cs_closed c1) c1 in
          (Ok (ms_local_port m), notify_map m sent c2)
      end
  end.

Definition unmap_service (map_id : str) (sent : bool) (c : ServiceConsumer) : ServiceConsumer :=
  match dget (cs_mapped c) map_id with
  | None => c
  | Some m =>
      let c1 := set_mapped (ddel (cs_mapped c) map_id) c in
      let c2 :=
        match dget (cs_servers c1) map_id with
        | None => c1
        | Some l => set_listeners (ddel (cs_servers c1) map_id) (cs_udp c1) (cs_closed c1 ++ [l]) c1
        end in
      let c3 :=
        match dget (cs_udp c2) map_id with
        | None => c2
        | Some l => set_listeners (cs_servers c2) (ddel (cs_udp c2) map_id) (cs_closed c2 ++ [l]) c2
        end in
      tell (make_message UnmapService None [(py "service_id", JStr (ms_service_id m))]) sent c3
  end.

Definition list_mapped (c : ServiceConsumer) : list MappedService := dvals (cs_mapped c).

Definition shutdown_consumer (sent : bool) (c : ServiceConsumer) : ServiceConsumer :=
  foldl (fun c map_id => unmap_service map_id sent c) c (dkeys (cs_mapped c)).

(** ** Connections *)

(** [handle_connection] up to its loops; [tunnel] is what [get_tunnel] of the
    provider returns, [q] the new queue. *)
Definition handle_connection (m : MappedService) (stream_id : str) (w q : nat) (tunnel : option nat)
    (c : ServiceConsumer) : option conn * ServiceConsumer :=
  match (if cs_tunnels c then tunnel else None) with
  | None => (None, close_client w c)
  | Some _ =>
      (Some (mkConn stream_id (ms_service_id m) q w true true),
       set_queues (dset (cs_queues c) stream_id q) (dset (cs_waiting c) q []) c)
  end.

(** The [finally] of [handle_connection]. *)
Definition end_connection (k : conn) (c : ServiceConsumer) : ServiceConsumer :=
  close_client (cn_writer k) (set_queues (ddel (cs_queues c) (cn_stream_id k)) (cs_waiting c) c).

Definition feed_stream_data (stream_id : str) (data : bytes) (c : ServiceConsumer) : ServiceConsumer :=
  match dget (cs_queues c) stream_id with
  | None => c
  | Some q => set_queues (cs_queues c) (dset (cs_waiting c) q (default [] (dget (cs_waiting c) q) ++ [data])) c
  end.

(** What follows a turn of one of the loops. *)
Definition after_loop (k : conn) (l p raised : bool) (c : ServiceConsumer) : option conn * ServiceConsumer :=
  if raised || negb (l || p) then (None, end_connection k c)
  else (Some (mkConn (cn_stream_id k) (cn_service_id k) (cn_queue k) (cn_writer k) l p), c).

(** One turn of [forward_peer_to_local]: what is written. *)
Definition peer_to_local (k : conn) (ok : bool) (c : ServiceConsumer)
    : option conn * ServiceConsumer * list bytes :=
  if cn_from_peer k then
    match dget (cs_waiting c) (cn_queue k) with
    | Some (data :: rest) =>
        let c1 := set_queues (cs_queues c) (dset (cs_waiting c) (cn_queue k) rest) c in
        if ok then (Some k, c1, [data])
        else let (k', c2) := after_loop k (cn_from_local k) false false c1 in (k', c2, [])
    | _ => (Some k, c, [])
    end
  else (Some k, c, []).

Section Loops.
Context {TC : TunnelCrypto}.

(** One turn of [forward_local_to_peer]. *)
Definition local_to_peer (k : conn) (t : PeerTunnel) (read : result bytes) (nonce : bytes) (up : bool)
    (c : ServiceConsumer) : option conn * ServiceConsumer * PeerTunnel * datagrams :=
  if cn_from_local k then
    let '(r, t', out) := forward_turn t (cn_service_id k) (cn_stream_id k) read nonce up in
    let '(k', c') :=
      match r with
      | Goes => (Some k, c)
      | Ends => after_loop k false (cn_from_peer k) false c
      | Raises _ => after_loop k false (cn_from_peer k) true c
      end in
    (k', c', t', out)
  else (Some k, c, t, []).

(** [datagram_received]: every datagram is a stream of its own. *)
Definition datagram_received (m : MappedService) (t : option PeerTunnel) (stream_id : str) (data nonce : bytes)
    (up : bool) : option (result unit * PeerTunnel * datagrams) :=
  match t with
  | None => None
  | Some t => Some (send_stream_frame t (ms_service_id m) stream_id data nonce up)
  end.

(** ** Theorems *)

Definition usable (free : Z -> bool) (used : list Z) (p : Z) : Prop := (p ∉ used) /\ free p = true.

Lemma first_free_spec free used n port :
  match first_free free used n port with
  | Some p => port <= p < port + Z.of_nat n /\ usable free used p
      /\ forall q, port <= q < p -> ~ usable free used q
  | None => forall q, port <= q < port + Z.of_nat n -> ~ usable free used q
  end.
Proof.
  revert port. induction n as [|n IH]; intros port; simpl; [intros q; lia|].
  destruct (negb (bool_decide (port ∈ used)) && free port) eqn:Hp.
  - apply andb_true_iff in Hp as [H1 H2]. rewrite negb_true_iff, bool_decide_eq_false in H1.
    split; [lia|]. split; [by split|]. intros q. lia.
  - assert (Hnot : ~ usable free used port).
    { intros [H1 H2]. rewrite bool_decide_false, H2 in Hp by done. done. }
    specialize (IH (port + 1)). destruct (first_free free used n (port + 1)) as [p|].
    + destruct IH as (Hr & Hu & Hmin). split; [lia|]. split; [done|].
      intros q Hq. destruct (decide (q = port)) as [->|]; [done|]. apply Hmin. lia.
    + intros q Hq. destruct (decide (q = port)) as [->|]; [done|]. apply IH. lia.
Qed.

Lemma find_auto_port_exact free c :
  match find_auto_port free c with
  | Ok p => AUTO_PORT_START <= p <= AUTO_PORT_END /\ usable free (used_ports c) p
      /\ forall q, AUTO_PORT_START <= q < p -> ~ usable free (used_ports c) q
  | Err e => exc_cls e = COSError
      /\ forall q, AUTO_PORT_START <= q <= AUTO_PORT_END -> ~ usable free (used_ports c) q
  end.
Proof.
  unfold find_auto_port, AUTO_PORT_START, AUTO_PORT_END.
  pose proof (first_free_spec free (used_ports c) (Z.to_nat (50999 + 1 - 50000)) 50000) as H.
  destruct (first_free _ _ _ _) as [p|].
  - destruct H as (? & ? & ?). split; [lia|done].
  - split; [done|]. intros q Hq. apply H. lia.
Qed.

(** ** Interleaving *)

Inductive cs_step : ServiceConsumer -> ServiceConsumer -> Prop :=
  | cst_begin c free id sid prov name proto lp strategy rp now sent :
      dget (cs_mapped c) id = None ->
      cs_step c (snd (map_begin free id sid prov name proto lp strategy rp now sent c))
  | cst_finish c id started sent : cs_step c (snd (map_finish id started sent c))
  | cst_unmap c id sent : cs_step c (unmap_service id sent c)
  | cst_inject c : cs_step c (inject_tunnel_manager c)
  | cst_connection c m stream w q tunnel : cs_step c (snd (handle_connection m stream w q tunnel c))
  | cst_end c k : cs_step c (end_connection k c)
  | cst_feed c stream data : cs_step c (feed_stream_data stream data c)
  | cst_shutdown c sent : cs_step c (shutdown_consumer sent c).

Definition is_auto (m : MappedService) : Prop := ms_strategy m = py "auto".

Record cs_ok (c : ServiceConsumer) : Prop := mkCsOk {
  ok_dict : dict_ok (cs_mapped c);
  ok_range id m : dget (cs_mapped c) id = Some m -> is_auto m ->
    AUTO_PORT_START <= ms_local_port m <= AUTO_PORT_END;
  ok_distinct id1 id2 m1 m2 : dget (cs_mapped c) id1 = Some m1 -> dget (cs_mapped c) id2 = Some m2 ->
    is_auto m1 -> is_auto m2 -> ms_local_port m1 = ms_local_port m2 -> id1 = id2
}.

Lemma tell_mapped m sent c : cs_mapped (tell m sent c) = cs_mapped c.
Proof. unfold tell. repeat case_match; done. Qed.
Lemma unmap_mapped id sent c : cs_mapped (unmap_service id sent c) = ddel (cs_mapped c) id.
Proof.
  unfold unmap_service. destruct (dget (cs_mapped c) id) eqn:H; [|by rewrite ddel_id].
  rewrite tell_mapped. repeat case_match; done.
Qed.
Lemma shutdown_mapped sent l c :
  cs_mapped (foldl (fun c id => unmap_service id sent c) c l) = foldl ddel (cs_mapped c) l.
Proof. revert c. induction l as [|id l IH]; intros c; simpl; [done|]. by rewrite IH, unmap_mapped. Qed.

Lemma cs_ok_frame c c' : cs_mapped c' = cs_mapped c -> cs_ok c -> cs_ok c'.
Proof. intros H [A B C]. split; rewrite H; done. Qed.

Lemma cs_ok_sub c c' : dict_ok (cs_mapped c') ->
  (forall id m, dget (cs_mapped c') id = Some m -> dget (cs_mapped c) id = Some m) -> cs_ok c -> cs_ok c'.
Proof. intros Hd Hs [A B C]. split; eauto. Qed.

Lemma used_elem c id m : dget (cs_mapped c) id = Some m -> ms_local_port m ∈ used_ports c.
Proof.
  intros H%dget_elem. unfold used_ports, dvals. rewrite map_map. apply list_elem_of_fmap. by exists (id, m).
Qed.

(** The port of an automatic mapping is one that [_find_auto_port] found. *)
Lemma choose_auto free strategy lp rp c port :
  choose_port free strategy lp rp c = Ok port -> strategy = py "auto" -> find_auto_port free c = Ok port.
Proof. intros H ->. exact H. Qed.

Lemma cs_ok_begin c free id sid prov name proto lp strategy rp now sent :
  dget (cs_mapped c) id = None -> cs_ok c ->
  cs_ok (snd (map_begin free id sid prov name proto lp strategy rp now sent c)).
Proof.
  intros Hid Hok. unfold map_begin. destruct (choose_port _ _ _ _ _) as [port|e] eqn:Hc; [|done].
  set (m := mkMapped id sid name proto prov port strategy rp now).
  assert (H1 : cs_ok (set_mapped (dset (cs_mapped c) id m) c)).
  { pose proof Hok as [A B C].
    assert (Hauto : is_auto m -> AUTO_PORT_START <= port <= AUTO_PORT_END /\ port ∉ used_ports c).
    { intros Ha. pose proof (choose_auto _ _ _ _ _ _ Hc Ha) as Hp.
      pose proof (find_auto_port_exact free c) as H. rewrite Hp in H. destruct H as (? & [? _] & _). done. }
    split; simpl.
    - by apply dict_ok_dset.
    - intros id' m'. rewrite dget_dset. case_decide; [|by apply B]. intros [= <-] Ha. apply Hauto, Ha.
    - intros id1 id2 m1 m2. rewrite !dget_dset. case_decide; case_decide; [congruence| | |by apply C].
      + intros [= <-] H2 Ha _ Hp. exfalso. apply used_elem in H2. destruct (Hauto Ha) as [_ Hn].
        apply Hn. unfold m in Hp. simpl in Hp. by rewrite Hp.
      + intros H1 [= <-] _ Ha Hp. exfalso. apply used_elem in H1. destruct (Hauto Ha) as [_ Hn].
        apply Hn. unfold m in Hp. simpl in Hp. by rewrite <- Hp. }
  destruct (_ || _); simpl; [by apply (cs_ok_frame (set_mapped (dset (cs_mapped c) id m) c))|].
  apply (cs_ok_frame (set_mapped (dset (cs_mapped c) id m) c)); [apply tell_mapped|done].
Qed.

Lemma cs_ok_step c c' : cs_step c c' -> cs_ok c -> cs_ok c'.
Proof.
  intros H Hok. destruct H.
  - by apply cs_ok_begin.
  - apply (cs_ok_frame c); [|done]. unfold map_finish, notify_map. repeat case_match; simpl; rewrite ?tell_mapped; done.
  - apply (cs_ok_sub c); [rewrite unmap_mapped; apply dict_ok_ddel, Hok| |done].
    intros id' m. rewrite unmap_mapped, dget_ddel. by case_decide.
  - by apply (cs_ok_frame c).
  - apply (cs_ok_frame c); [|done]. unfold handle_connection. repeat case_match; done.
  - by apply (cs_ok_frame c).
  - apply (cs_ok_frame c); [|done]. unfold feed_stream_data. by case_match.
  - unfold shutdown_consumer. apply (cs_ok_sub c); [| |done].
    + rewrite shutdown_mapped. apply dict_ok_foldl_ddel, Hok.
    + intros id m. rewrite shutdown_mapped, dget_foldl_ddel. by case_decide.
Qed.

(** Port assignment: over every interleaving of mappings (several of which
    may wait for their listeners), unmappings, connections and shutdowns, the
    services mapped automatically have ports in the range, all different; and
    the port found next is the least port of the range that is free and not
    mapped, with [OSError] exactly when there is none. *)
Theorem auto_ports control c free :
  rtc cs_step (consumer_init control) c ->
  (forall id m, dget (cs_mapped c) id = Some m -> is_auto m ->
     AUTO_PORT_START <= ms_local_port m <= AUTO_PORT_END)
  /\ (forall id1 id2 m1 m2, dget (cs_mapped c) id1 = Some m1 -> dget (cs_mapped c) id2 = Some m2 ->
     is_auto m1 -> is_auto m2 -> ms_local_port m1 = ms_local_port m2 -> id1 = id2)
  /\ match find_auto_port free c with
     | Ok p => AUTO_PORT_START <= p <= AUTO_PORT_END /\ usable free (used_ports c) p
         /\ forall q, AUTO_PORT_START <= q < p -> ~ usable free (used_ports c) q
     | Err e => exc_cls e = COSError
         /\ forall q, AUTO_PORT_START <= q <= AUTO_PORT_END -> ~ usable free (used_ports c) q
     end.
Proof.
  intros H. assert (Hok : cs_ok c).
  { assert (Hgen : forall a b, rtc cs_step a b -> cs_ok a -> cs_ok b).
    { induction 1; eauto using cs_ok_step. }
    apply (Hgen _ _ H). split; [apply dict_ok_nil|done|done]. }
  split_and!; [apply Hok|apply Hok|apply find_auto_port_exact].
Qed.

(** Shutdown unmaps everything and closes the listener of every mapping. *)
Lemma unmap_keeps_closed id sent c l : l ∈ cs_closed c -> l ∈ cs_closed (unmap_service id sent c).
Proof.
  intros H. unfold unmap_service, tell. repeat case_match; simpl; rewrite ?elem_of_app; auto.
Qed.
Lemma unmap_other id id' sent c : id' <> id ->
  dget (cs_servers (unmap_service id sent c)) id' = dget (cs_servers c) id'
  /\ dget (cs_mapped (unmap_service id sent c)) id' = dget (cs_mapped c) id'.
Proof.
  intros Hne. rewrite unmap_mapped, dget_ddel, decide_False by done. split; [|done].
  unfold unmap_service, tell. repeat case_match; simpl; rewrite ?dget_ddel, ?decide_False by done; done.
Qed.
Lemma unmap_closes id sent c l :
  is_Some (dget (cs_mapped c) id) -> dget (cs_servers c) id = Some l ->
  l ∈ cs_closed (unmap_service id sent c).
Proof.
  intros [m Hm] Hl. unfold unmap_service. rewrite Hm. simpl. rewrite Hl. unfold tell.
  repeat case_match; simpl; rewrite ?elem_of_app, ?list_elem_of_singleton; auto.
Qed.

Lemma shutdown_closes sent c :
  cs_mapped (shutdown_consumer sent c) = []
  /\ forall id l, is_Some (dget (cs_mapped c) id) -> dget (cs_servers c) id = Some l ->
       l ∈ cs_closed (shutdown_consumer sent c).
Proof.
  unfold shutdown_consumer. split.
  - rewrite shutdown_mapped. destruct (foldl ddel _ _) as [|[k v] d] eqn:Hd; [done|].
    pose proof (dget_foldl_ddel (dkeys (cs_mapped c)) (cs_mapped c) k) as H. rewrite Hd in H. simpl in H.
    rewrite decide_True in H by done. case_decide as Hk; [done|]. symmetry in H.
    exfalso. apply Hk, elem_of_dkeys. by eexists.
  - intros id l Hm Hl.
    assert (Hgen : forall ks c, id ∈ ks -> is_Some (dget (cs_mapped c) id) -> dget (cs_servers c) id = Some l ->
      l ∈ cs_closed (foldl (fun c id => unmap_service id sent c) c ks)).
    { assert (Hkeep : forall ks c, l ∈ cs_closed c ->
        l ∈ cs_closed (foldl (fun c id => unmap_service id sent c) c ks)).
      { induction ks as [|k ks IH]; intros c' H; simpl; [done|]. by apply IH, unmap_keeps_closed. }
      induction ks as [|k ks IH]; intros c' Hin Hm' Hl'; [set_solver|]. simpl.
      destruct (decide (id = k)) as [->|Hne]; [by apply Hkeep, unmap_closes|].
      destruct (unmap_other k id sent c' Hne) as [H1 H2].
      apply IH; [set_solver|by rewrite H2|by rewrite H1]. }
    apply Hgen; [by apply elem_of_dkeys|done|done].
Qed.

(** A mapping whose listener does not start stays, and keeps its port used. *)
Lemma failed_map_stays c id m e sent :
  dget (cs_starting c) id = Some m ->
  map_finish id (Err e) sent c = (Err e, set_starting (ddel (cs_starting c) id) c).
Proof. intros H. unfold map_finish. by rewrite H. Qed.

(** A service unmapped while its listener starts: the listener comes up
    without a mapping, and no later call closes it. *)
Lemma unmap_misses_starting c id m l sent sent' :
  dget (cs_mapped c) id = Some m -> dget (cs_starting c) id = Some m -> ms_protocol m = py "tcp" ->
  let c2 := snd (map_finish id (Ok l) sent (unmap_service id sent c)) in
  dget (cs_servers c2) id = Some l /\ unmap_service id sent' c2 = c2.
Proof.
  intros Hm Hs Hp. cbv zeta.
  assert (Hs' : cs_starting (unmap_service id sent c) = cs_starting c).
  { unfold unmap_service, tell. repeat case_match; done. }
  unfold map_finish. rewrite Hs', Hs, Hp. cbn [snd].
  replace (str_eqb (py "tcp") (py "tcp")) with true by reflexivity.
  set (c1 := set_starting _ _). set (c2 := set_listeners _ _ _ c1).
  assert (Hmap : cs_mapped (notify_map m sent c2) = ddel (cs_mapped c) id).
  { unfold notify_map. rewrite tell_mapped. apply unmap_mapped. }
  split.
  - assert (Hsv : cs_servers (notify_map m sent c2) = cs_servers c2)
      by (unfold notify_map, tell; repeat case_match; done).
    rewrite Hsv. simpl. apply dget_dset_eq.
  - unfold unmap_service. by rewrite Hmap, dget_ddel, decide_True.
Qed.
End Loops.

(** ** A concrete run *)

Section Runs.

Definition cs1 : ServiceConsumer :=
  snd (map_begin (fun p => negb (p =? 50000)) (py "map-1") (py "web-1") (py "bob-000001") (py "web") (py "tcp")
    None (py "auto") None SEC true (consumer_init true)).
Definition cs2 : ServiceConsumer :=
  snd (map_begin (fun p => negb (p =? 50000)) (py "map-2") (py "ssh-1") (py "bob-000001") (py "ssh") (py "tcp")
    None (py "auto") None SEC true cs1).

Lemma cs2_reach : rtc cs_step (consumer_init true) cs2.
Proof. apply (rtc_l _ _ cs1); [by apply cst_begin|]. apply rtc_once. by apply cst_begin. Qed.

Lemma auto_ports_witness :
  used_ports cs2 = [50001; 50002] /\ find_auto_port (fun p => negb (p =? 50000)) cs2 = Ok 50003
  /\ forall id1 id2 m1 m2, dget (cs_mapped cs2) id1 = Some m1 -> dget (cs_mapped cs2) id2 = Some m2 ->
     is_auto m1 -> is_auto m2 -> ms_local_port m1 = ms_local_port m2 -> id1 = id2.
Proof.
  split; [vm_compute; reflexivity|]. split; [vm_compute; reflexivity|].
  exact (proj1 (proj2 (auto_ports true cs2 (fun p => negb (p =? 50000)) cs2_reach))).
Defined.
End Runs.
End Consumer.
