(* ===== verification/Daemon.v ===== *)
(** * The client daemon (src/client/main.py, [ClientDaemon])

    The daemon turns the events of the control channel into topology
    decisions, tunnels and routes, and moves packets between the TUN device
    and the tunnels.  Its state is a record over the states of the tunnel
    manager and the topology managers; every coroutine of the source is a
    function from one suspension to the next: the handlers of events, one
    turn of [_tun_read_loop] and one of [_tunnel_recv_loop] with the turn of
    [TunnelManager.recv_loop] that feeds it.

    An event is decoded by [event_of]: the server sends strings, and an event
    whose ids are not strings is outside the model ([None]). *)

From S2P Require Import Prelude Constants PyStr Frame Json Messages Protocol Encryption NatTraversal Tunnel Topology Packet Registry NetworkManager Auth Relay Server.
Import Messages Protocol Encryption NatTraversal Tunnel Packet.

Module Daemon.

Inductive event :=
  | EvOnline (peer network : str) (ip : option str)
  | EvOffline (peer network : str)
  | EvRelay (src frame_b64 : str)
  | EvOther.

(** [payload.get(key, "")] when it is a string. *)
Definition str_field (payload : list (str * json)) (key : str) : option str :=
  match dget payload key with
  | None => Some []
  | Some (JStr s) => Some s
  | Some _ => None
  end.

Definition event_of (m : Message) : option event :=
  let p := msg_payload m in
  if str_eqb (msg_type m) MSG_PEER_ONLINE then
    match str_field p (py "peer_id"), str_field p (py "network_id"), dget p (py "peer_ip") with
    | Some peer, Some net, None => Some (EvOnline peer net (Some []))
    | Some peer, Some net, Some JNull => Some (EvOnline peer net None)
    | Some peer, Some net, Some (JStr ip) => Some (EvOnline peer net (Some ip))
    | _, _, _ => None
    end
  else if str_eqb (msg_type m) MSG_PEER_OFFLINE then
    match str_field p (py "peer_id"), str_field p (py "network_id") with
    | Some peer, Some net => Some (EvOffline peer net)
    | _, _ => None
    end
  else if str_eqb (msg_type m) MSG_RELAY_FRAME then
    match str_field p (py "src_id"), str_field p (py "frame_b64") with
    | Some src, Some b => Some (EvRelay src b)
    | _, _ => None
    end
  else Some EvOther.

Section Daemon.
Context {TC : TunnelCrypto} {U : Unicode}.

(** A task as its owner sees it; [task.cancel()] asks a task that has not
    ended to stop, which it does at its next turn. *)
Inductive TaskState := NoTask | Running | Ended | Cancelled.

Definition cancel (t : TaskState) : TaskState :=
  match t with Running => Cancelled | _ => t end.

(** What [run] starts and [_shutdown_daemon] stops: the tasks of the daemon,
    the keepalive task, the device and the connection of the channel. *)
Record Life := mkLife {
  event_task : TaskState;
  tun_read_task : TaskState;
  tunnel_recv_task : TaskState;
  keepalive_task : TaskState;
  tun_open : bool;
  channel_open : bool
}.

Definition no_life (tun channel : bool) : Life := mkLife NoTask NoTask NoTask NoTask tun channel.

(** Step 5 of [run]: the device has tasks when there is one. *)
Definition start_tasks (tun : bool) : Life :=
  mkLife Running (if tun then Running else NoTask) (if tun then Running else NoTask) Running tun true.

(** The tasks of [l] cancelled. *)
Definition cancel_tasks (l : Life) (tun channel : bool) : Life :=
  mkLife (cancel (event_task l)) (cancel (tun_read_task l)) (cancel (tunnel_recv_task l))
    (cancel (keepalive_task l)) tun channel.

Record ClientDaemon := mkDaemon {
  d_client_id : str;
  d_topologies : list (str * Topology.TopologyManager);
  d_ip_to_peer : list (str * str);
  d_peer_to_ip : list (str * str);
  d_peer_networks : list (str * str);
  d_tunnels : option TunnelManager;
  d_channel : bool;                    (* the control channel exists *)
  d_tun : bool;                        (* the TUN device exists *)
  d_tun_out : list bytes;              (* the packets written to the device *)
  d_life : Life
}.

Definition daemon_init (cid : str) : ClientDaemon := mkDaemon cid [] [] [] [] None false false [] (no_life false false).

Definition set_topologies (x : list (str * Topology.TopologyManager)) (d : ClientDaemon) : ClientDaemon :=
  mkDaemon (d_client_id d) x (d_ip_to_peer d) (d_peer_to_ip d) (d_peer_networks d) (d_tunnels d)
    (d_channel d) (d_tun d) (d_tun_out d) (d_life d).
Definition set_routes (i2p p2i pn : list (str * str)) (d : ClientDaemon) : ClientDaemon :=
  mkDaemon (d_client_id d) (d_topologies d) i2p p2i pn (d_tunnels d) (d_channel d) (d_tun d)
    (d_tun_out d) (d_life d).
Definition set_tunnels (x : option TunnelManager) (d : ClientDaemon) : ClientDaemon :=
  mkDaemon (d_client_id d) (d_topologies d) (d_ip_to_peer d) (d_peer_to_ip d) (d_peer_networks d)
    x (d_channel d) (d_tun d) (d_tun_out d) (d_life d).
Definition set_tun (x : bool) (d : ClientDaemon) : ClientDaemon :=
  mkDaemon (d_client_id d) (d_topologies d) (d_ip_to_peer d) (d_peer_to_ip d) (d_peer_networks d)
    (d_tunnels d) (d_channel d) x (d_tun_out d) (d_life d).
Definition set_life (x : Life) (d : ClientDaemon) : ClientDaemon :=
  mkDaemon (d_client_id d) (d_topologies d) (d_ip_to_peer d) (d_peer_to_ip d) (d_peer_networks d)
    (d_tunnels d) (d_channel d) (d_tun d) (d_tun_out d) x.

(** [tun.write(packet)]; [ok] is whether the device takes it, an [OSError]
    is ignored by every caller. *)
Definition tun_write (ok : bool) (packet : bytes) (d : ClientDaemon) : ClientDaemon :=
  if ok then
    mkDaemon (d_client_id d) (d_topologies d) (d_ip_to_peer d) (d_peer_to_ip d) (d_peer_networks d)
      (d_tunnels d) (d_channel d) (d_tun d) (d_tun_out d ++ [packet]) (d_life d)
  else d.

(** ** Start *)

(** [self.config.virtual_ip or "25.1.0.1"]. *)
Definition own_address (virtual_ip : option str) : str :=
  match virtual_ip with Some ((_ :: _) as ip) => ip | _ => py "25.1.0.1" end.

(** [_setup_tun]; [opened] is whether [open] and [add_route] succeed. *)
Definition setup_tun (virtual_ip : option str) (opened : bool) (d : ClientDaemon) : ClientDaemon :=
  let vip := own_address virtual_ip in
  if opened then
    set_tun true
      (set_routes (dset (d_ip_to_peer d) vip (d_client_id d))
         (dset (d_peer_to_ip d) (d_client_id d) vip) (d_peer_networks d) d)
  else set_tun false d.

(** [run], from the authentication to the wait for the shutdown. *)
Definition daemon_start (tun_mode : bool) (virtual_ip : option str) (opened : bool) (cid : str)
    : ClientDaemon :=
  let d := mkDaemon cid [] [] [] [] (Some (new_manager TUNNEL_STALE_TIMEOUT)) true false []
             (no_life false true) in
  let d1 := if tun_mode then setup_tun virtual_ip opened d else d in
  set_life (start_tasks (d_tun d1)) d1.

(** ** Events *)

(** [_on_peer_online]: the new state, and the peer to connect to, if the
    topology says so.  An address [None] is written as the empty string, which
    the mesh, the only topology created here, does not look at. *)
Definition on_peer_online (peer network : str) (ip : option str) (d : ClientDaemon)
    : result (option (str * str) * ClientDaemon) :=
  if str_eqb peer [] || str_eqb peer (d_client_id d) then Ok (None, d)
  else
    let addr := default [] ip in
    let i2p := match addr with [] => d_ip_to_peer d | _ => dset (d_ip_to_peer d) addr peer end in
    let d1 := set_routes i2p (dset (d_peer_to_ip d) peer addr)
                (dset (d_peer_networks d) peer network) d in
    let? topos :=
      if dmem (d_topologies d1) network then Ok (d_topologies d1)
      else let? t := Topology.create_topology_manager DEFAULT_TOPOLOGY [] [] false false in
           Ok (dset (d_topologies d1) network t) in
    match dget topos network with
    | None => Ok (None, set_topologies topos d1)         (* not reached *)
    | Some topo =>
        let (wanted, topo') := Topology.on_peer_online topo peer addr network in
        Ok (if wanted then Some (peer, addr) else None,
            set_topologies (dset topos network topo') d1)
    end.

(** [_on_peer_offline]. *)
Definition on_peer_offline (peer network : str) (up : bool) (d : ClientDaemon)
    : ClientDaemon * datagrams :=
  match peer with
  | [] => (d, [])
  | _ =>
      let peer_ip := default [] (dget (d_peer_to_ip d) peer) in
      let d1 := set_routes (ddel (d_ip_to_peer d) peer_ip) (ddel (d_peer_to_ip d) peer)
                  (ddel (d_peer_networks d) peer) d in
      let '(d2, out) :=
        match d_tunnels d1 with
        | None => (d1, [])
        | Some m =>
            match get_tunnel m peer with
            | None => (d1, [])
            | Some i => let (m', o) := close_tunnel m i up in (set_tunnels (Some m') d1, o)
            end
        end in
      (match dget (d_topologies d2) network with
       | None => d2
       | Some t => set_topologies
                     (dset (d_topologies d2) network (snd (Topology.on_peer_offline t peer network))) d2
       end, out)
  end.

(** [_on_relay_frame]: the payload goes to the device as it is. *)
Definition on_relay_frame (src frame_b64 : str) (ok : bool) (d : ClientDaemon) : result ClientDaemon :=
  match d_tunnels d, frame_b64 with
  | None, _ | _, [] => Ok d
  | Some m, _ =>
      match b64decode frame_b64 with
      | None => raise CValueError []
      | Some raw =>
          match get_tunnel m src with
          | Some _ => Ok (if d_tun d then tun_write ok raw d else d)
          | None => Ok d
          end
      end
  end.

(** [_dispatch_event] under [_handle_events], which logs exceptions: the new
    state, the tunnel that is wanted, and the datagrams sent. *)
Definition dispatch_event (e : event) (up ok : bool) (d : ClientDaemon)
    : ClientDaemon * option (str * str) * datagrams :=
  match e with
  | EvOnline peer net ip =>
      match on_peer_online peer net ip d with
      | Ok (w, d') => (d', w, [])
      | Err _ => (d, None, [])
      end
  | EvOffline peer net => let (d', out) := on_peer_offline peer net up d in (d', None, out)
  | EvRelay src b => (match on_relay_frame src b ok d with Ok d' => d' | Err _ => d end, None, [])
  | EvOther => (d, None, [])
  end.

(** [_create_tunnel_to_peer], its guard: whether the endpoints are requested. *)
Definition create_tunnel_guard (peer : str) (d : ClientDaemon) : bool :=
  match d_tunnels d with
  | Some m => d_channel d && match get_tunnel m peer with None => true | Some _ => false end
  | None => false
  end.

(** [create_tunnel] behind it, up to the punching. *)
Definition create_tunnel_begin (peer ip : str) (endpoints : list (str * Z)) (fresh : nat)
    (ecdh : x_private) (bound : result nat) (d : ClientDaemon) : ClientDaemon :=
  match endpoints, d_tunnels d with
  | [], _ | _, None => d
  | _, Some m => set_tunnels (Some (snd (create_begin m fresh peer ip ecdh bound))) d
  end.

(** ** Packets *)

(** One packet of [_tun_read_loop]: what is written to the device and what
    is sent.  An exception ends the task. *)
Definition tun_packet (packet nonce : bytes) (up ok : bool) (d : ClientDaemon)
    : result unit * ClientDaemon * datagrams :=
  if is_arp_for_us packet (dkeys (d_ip_to_peer d)) then
    match build_arp_reply_for_tun packet (d_ip_to_peer d) with
    | Err e => (Err e, d, [])
    | Ok (Some ((_ :: _) as reply)) => (Ok tt, tun_write ok reply d, [])
    | Ok _ => (Ok tt, d, [])
    end
  else
    match extract_dst_ip_from_packet packet with
    | None => (Ok tt, d, [])
    | Some dst_ip =>
        match dget (d_ip_to_peer d) dst_ip, d_tunnels d with
        | Some peer, Some m =>
            match get_tunnel m peer with
            | None => (Ok tt, d, [])
            | Some i =>
                match dget (tm_objs m) i with
                | None => (Ok tt, d, [])                  (* not reached *)
                | Some t =>
                    let '(r, t', out) := send_data t nonce packet up in
                    (match r with Ok _ => Ok tt | Err e => Err e end,
                     set_tunnels (Some (with_objs (dset (tm_objs m) i t') m)) d, out)
                end
            end
        | _, _ => (Ok tt, d, [])
        end
    end.

(** One tunnel of a round of [TunnelManager.recv_loop]: the packet yielded.
    The loop polls the socket under the same conditions as [recv_data]. *)
Definition recv_turn (m : TunnelManager) (i : nat) (ev : udp_event) (now : time) (up : bool)
    : option (str * bytes) * TunnelManager * datagrams :=
  match dget (tm_objs m) i with
  | None => (None, m, [])
  | Some t =>
      let '(frame, t', out) := recv_data t ev now up in
      ((fun p => (pt_peer_id t, p)) <$> frame, with_objs (dset (tm_objs m) i t') m, out)
  end.

(** The packet goes to the device: one turn of [_tunnel_recv_loop]. *)
Definition tunnel_recv (i : nat) (ev : udp_event) (now : time) (up ok : bool) (d : ClientDaemon)
    : ClientDaemon * datagrams :=
  match d_tunnels d with
  | None => (d, [])
  | Some m =>
      let '(yielded, m', out) := recv_turn m i ev now up in
      let d1 := set_tunnels (Some m') d in
      (match yielded with Some (_, packet) => tun_write ok packet d1 | None => d1 end, out)
  end.

(** ** Shutdown *)

(** [_shutdown_daemon]; the calls happen in the order of the source, and none
    of them depends on another's effect. *)
Definition shutdown_daemon (up : bool) (d : ClientDaemon) : ClientDaemon * datagrams :=
  let d1 := set_life (cancel_tasks (d_life d) false (channel_open (d_life d) && negb (d_channel d))) d in
  match d_tunnels d1 with
  | None => (d1, [])
  | Some m => let (m', out) := shutdown m up in (set_tunnels (Some m') d1, out)
  end.

(** ** The routing table *)

(** The address that the events give a peer, the empty one for a peer that
    comes without (as all peers of the mediation server do). *)
Definition event_fits (self : str) (vip : str -> str) (e : event) : Prop :=
  match e with
  | EvOnline p _ ip => p = [] \/ p = self \/ default [] ip = vip p
  | EvOffline p _ => p <> self
  | _ => True
  end.

(** The peers that are online: the abstract state of the routing table. *)
Definition online_step (self : str) (online : gset str) (e : event) : gset str :=
  match e with
  | EvOnline p _ _ => if bool_decide (p = [] \/ p = self) then online else online ∪ {[p]}
  | EvOffline p _ => if bool_decide (p = []) then online else online ∖ {[p]}
  | _ => online
  end.

(** The tables hold exactly the peers that are online and [own], the client
    itself when it has a device; a peer without an address has no route. *)
Definition routes (vip : str -> str) (own online : gset str) (d : ClientDaemon) : Prop :=
  (d_client_id d ∉ online) /\ own ⊆ {[d_client_id d]}
  /\ (forall ip p, dget (d_ip_to_peer d) ip = Some p <-> p ∈ online ∪ own /\ vip p = ip /\ ip <> [])
  /\ (forall p, dget (d_peer_to_ip d) p = if decide (p ∈ online ∪ own) then Some (vip p) else None).

Definition assignment (self : str) (vip : str -> str) : Prop :=
  self <> [] /\ (forall p q, vip p = vip q -> vip p <> [] -> p = q).

Lemma routes_frame vip own online d d' :
  d_client_id d' = d_client_id d -> d_ip_to_peer d' = d_ip_to_peer d ->
  d_peer_to_ip d' = d_peer_to_ip d -> routes vip own online d -> routes vip own online d'.
Proof. unfold routes. intros -> -> ->. done. Qed.

Lemma routes_online vip own online d p net ip up ok :
  assignment (d_client_id d) vip -> routes vip own online d ->
  p <> [] -> p <> d_client_id d -> default [] ip = vip p ->
  let '(d', _, _) := dispatch_event (EvOnline p net ip) up ok d in
  routes vip own (online ∪ {[p]}) d'.
Proof.
  intros (Hself & Hinj) (Hno & Hown & Hi & Hp) Hp0 Hps Hip0. cbn [dispatch_event]. unfold on_peer_online.
  unfold str_eqb. rewrite !bool_decide_false by done. cbn [orb]. rewrite Hip0.
  set (i2p := match vip p with [] => d_ip_to_peer d | _ => dset (d_ip_to_peer d) (vip p) p end).
  assert (Hi2p : forall ip0, dget i2p ip0 =
    if decide (vip p = ip0 /\ ip0 <> []) then Some p else dget (d_ip_to_peer d) ip0).
  { intros ip0. unfold i2p. destruct (vip p) as [|x v]; [by rewrite decide_False by naive_solver|].
    rewrite dget_dset. repeat case_decide; naive_solver. }
  set (d1 := set_routes _ _ _ d).
  assert (Hr : routes vip own (online ∪ {[p]}) d1).
  { split_and!; simpl; [set_solver|done| |].
    - intros ip0 q. rewrite Hi2p. case_decide as Hd.
      + destruct Hd as [Hv Hne]. split; [intros [= <-]; split; [set_solver|done]|].
        intros (_ & He & _). f_equal. apply (Hinj p q); congruence.
      + rewrite Hi. split; [intros (? & ? & ?); split; [set_solver|done]|].
        intros (Hq & He & Hne). split; [|done]. assert (q <> p) by naive_solver. set_solver.
    - intros q. rewrite dget_dset. case_decide as Hq; [subst q; by rewrite decide_True by set_solver|].
      rewrite Hp. repeat case_decide; set_solver. }
  assert (Hc : exists t0, Topology.create_topology_manager DEFAULT_TOPOLOGY [] [] false false = Ok t0)
    by (eexists; vm_compute; reflexivity).
  destruct Hc as [t0 ->]. cbn [rbind].
  destruct (dmem (d_topologies d1) net); cbn [rbind].
  - destruct (dget _ net); [destruct (Topology.on_peer_online _ _ _ _)|]; by apply (routes_frame vip own _ d1).
  - rewrite dget_dset_eq. destruct (Topology.on_peer_online _ _ _ _). by apply (routes_frame vip own _ d1).
Qed.

Lemma routes_offline vip own online d p net up ok :
  assignment (d_client_id d) vip -> routes vip own online d -> p <> [] -> p <> d_client_id d ->
  let '(d', _, _) := dispatch_event (EvOffline p net) up ok d in
  routes vip own (online ∖ {[p]}) d'.
Proof.
  intros (Hself & Hinj) (Hno & Hown & Hi & Hp) Hp0 Hps. cbn [dispatch_event].
  destruct (on_peer_offline p net up d) as [d' out] eqn:Ho. unfold on_peer_offline in Ho.
  destruct p as [|x p']; [done|]. set (p := x :: p') in *. clearbody p.
  set (d1 := set_routes _ _ _ d) in Ho.
  assert (Hr : routes vip own (online ∖ {[p]}) d1).
  { split_and!; simpl; [set_solver|done| |].
    - intros ip q. rewrite dget_ddel, Hp.
      destruct (decide (default [] (if decide _ then Some (vip p) else None) = ip)) as [Hip|Hip].
      + split; [done|]. intros (Hq & He & Hne). exfalso. rewrite <- He in Hip, Hne.
        destruct (decide _); simpl in Hip; [|congruence].
        assert (p = q) by (apply Hinj; congruence). set_solver.
      + rewrite Hi. split; intros (Hq & He & Hne); (split; [|done]); [|set_solver].
        assert (q <> p); [|set_solver]. intros ->. apply Hip. by rewrite decide_True by set_solver.
    - intros q. rewrite dget_ddel. case_decide as Hq; [subst q; by rewrite decide_False by set_solver|].
      rewrite Hp. repeat case_decide; set_solver. }
  assert (Hd' : d_client_id d' = d_client_id d1 /\ d_ip_to_peer d' = d_ip_to_peer d1
    /\ d_peer_to_ip d' = d_peer_to_ip d1).
  { destruct (d_tunnels d1) as [m|]; [destruct (get_tunnel m p) as [i|]; [destruct (close_tunnel m i up)|]|];
      injection Ho as <- _; by destruct (dget (d_topologies d) net). }
  destruct Hd' as (H1 & H2 & H3). by apply (routes_frame vip own _ d1).
Qed.

Lemma dispatch_id e up ok d : d_client_id (fst (fst (dispatch_event e up ok d))) = d_client_id d.
Proof.
  destruct e as [p net ip|p net|src b|]; cbn [dispatch_event].
  - unfold on_peer_online. destruct (_ || _); [done|]. destruct (if dmem _ _ then _ else _); [|done].
    cbn [rbind]. destruct (dget _ net); [|done]. by destruct (Topology.on_peer_online _ _ _ _).
  - unfold on_peer_offline. destruct p; [done|].
    destruct (d_tunnels _) as [m|]; [destruct (get_tunnel m _); [destruct (close_tunnel _ _ _)|]|]; simpl;
      by destruct (dget (d_topologies d) net).
  - unfold on_relay_frame, tun_write. repeat case_match; simplify_eq; done.
  - done.
Qed.

Definition dispatch_all (es : list (event * bool * bool)) (d : ClientDaemon) : ClientDaemon :=
  foldl (fun d '(e, up, ok) => fst (fst (dispatch_event e up ok d))) d es.

Lemma routes_dispatch vip own es d online :
  assignment (d_client_id d) vip -> routes vip own online d ->
  Forall (fun e => event_fits (d_client_id d) vip (fst (fst e))) es ->
  routes vip own (foldl (online_step (d_client_id d)) online (map (fun e => fst (fst e)) es))
    (dispatch_all es d).
Proof.
  intros Ha Hr Hf. revert d online Ha Hr Hf. induction es as [|[[e up] ok] es IH]; intros d online Ha Hr Hf; [done|].
  apply Forall_cons in Hf as [He Hf]. cbn [dispatch_all foldl map fst].
  assert (Hstep : routes vip own (online_step (d_client_id d) online e) (fst (fst (dispatch_event e up ok d)))
    /\ d_client_id (fst (fst (dispatch_event e up ok d))) = d_client_id d).
  { assert (Hother : forall d', d_client_id d' = d_client_id d -> d_ip_to_peer d' = d_ip_to_peer d ->
      d_peer_to_ip d' = d_peer_to_ip d -> routes vip own online d' /\ d_client_id d' = d_client_id d).
    { intros d' H1 H2 H3. split; [by apply (routes_frame vip own online d)|done]. }
    destruct e as [p net ip|p net|src b|]; cbn [online_step event_fits] in *.
    - destruct (decide (p = [] \/ p = d_client_id d)) as [Hp|Hp].
      + rewrite bool_decide_true by done. cbn [dispatch_event]. unfold on_peer_online, str_eqb.
        replace (bool_decide (p = []) || bool_decide (p = d_client_id d)) with true; [by apply Hother|].
        symmetry. apply orb_true_iff. destruct Hp; [left|right]; by apply bool_decide_true.
      + rewrite bool_decide_false by done. apply Decidable.not_or in Hp as [Hp0 Hps].
        destruct He as [?|[?|He]]; [done..|].
        pose proof (routes_online vip own online d p net ip up ok Ha Hr Hp0 Hps He) as H.
        pose proof (dispatch_id (EvOnline p net ip) up ok d) as Hid.
        destruct (dispatch_event _ up ok d) as [[d' w] out]. by split.
    - pose proof (dispatch_id (EvOffline p net) up ok d) as Hid. case_bool_decide as Hp0.
      + subst p. by apply Hother.
      + pose proof (routes_offline vip own online d p net up ok Ha Hr Hp0 He) as H.
        destruct (dispatch_event _ up ok d) as [[d' w] out]. by split.
    - cbn [dispatch_event fst]. unfold on_relay_frame, tun_write. apply Hother; repeat case_match; simplify_eq; done.
    - by apply Hother. }
  destruct Hstep as [Hs Hid]. rewrite <- Hid. apply IH; by rewrite Hid.
Qed.

(** The client's own entry: it has one when its device was set up. *)
Definition own_entry (tun_mode opened : bool) (cid : str) : gset str :=
  if tun_mode && opened then {[cid]} else ∅.

Lemma start_routes vip tun_mode virtual_ip opened cid :
  vip cid = own_address virtual_ip ->
  routes vip (own_entry tun_mode opened cid) ∅ (daemon_start tun_mode virtual_ip opened cid).
Proof.
  intros Hv. assert (Hne : own_address virtual_ip <> []) by (by destruct virtual_ip as [[|]|]).
  unfold daemon_start, setup_tun, own_entry.
  assert (Hnil : forall own : gset str, own = ∅ -> own ⊆ {[cid]}
      /\ (forall ip p, @None str = Some p <-> p ∈ ∅ ∪ own /\ vip p = ip /\ ip <> [])
      /\ (forall p, None = if decide (p ∈ ∅ ∪ own) then Some (vip p) else None)).
  { intros own ->. split_and!; [set_solver|set_solver|].
    intros p. by rewrite decide_False by set_solver. }
  destruct tun_mode, opened; simpl; split; simpl; [set_solver| |set_solver|by apply Hnil|set_solver|by apply Hnil
    |set_solver|by apply Hnil].
  split_and!; [set_solver| |].
  - intros ip p. rewrite union_empty_l_L, elem_of_singleton. case_decide as Hip; [subst ip|naive_solver].
    naive_solver.
  - intros p. rewrite union_empty_l_L. case_decide as Hip; [subst p|].
    + by rewrite decide_True, Hv by set_solver.
    + by rewrite decide_False by set_solver.
Qed.


(** ** Packets through the virtual network *)

(** End-to-end delivery: an IPv4 packet that one client reads from its
    TUN device, for the address of a peer that is online and to which it has
    a tunnel, leaves as one datagram; and the peer, whose end of the tunnel
    has the same session key, writes exactly that packet to its own TUN
    device when the datagram arrives. *)
Theorem vpn_delivery dA dB vip online peer packet nonce m1 i t1 n t1' a frame m2 j t2 sock from now key ok up :
  crypto_laws TC -> zlen nonce = NONCE_LENGTH ->
  routes vip {[d_client_id dA]} online dA -> peer ∈ online -> vip peer <> [] ->
  parse_arp packet = None -> extract_dst_ip_from_packet packet = Some (vip peer) ->
  d_tunnels dA = Some m1 -> get_tunnel m1 peer = Some i -> dget (tm_objs m1) i = Some t1 ->
  pt_cipher t1 = Some key -> send_data t1 nonce packet true = (Ok n, t1', [(a, frame)]) ->
  d_tunnels dB = Some m2 -> dget (tm_objs m2) j = Some t2 -> pt_cipher t2 = Some key ->
  pt_socket t2 = Some sock -> is_connected t2 = true ->
  exists dA' dB',
    tun_packet packet nonce true ok dA = (Ok tt, dA', [(a, frame)])
    /\ d_tun_out dA' = d_tun_out dA
    /\ tunnel_recv j (UData frame from) now up true dB = (dB', [])
    /\ d_tun_out dB' = d_tun_out dB ++ [packet].
Proof.
  intros Hlaws Hn (_ & _ & Hroute & _) Hon Hvne Harp Hdst Hm1 Hg1 Ho1 Hk1 Hs Hm2 Ho2 Hk2 Hsock Hconn.
  destruct (tunnel_delivery t1 t2 nonce packet n t1' a frame from now up key Hlaws Hk1 Hk2 Hn Hs)
    as (_ & _ & _ & Hh).
  assert (Hip : dget (d_ip_to_peer dA) (vip peer) = Some peer) by (apply Hroute; set_solver).
  eexists _, _. split_and!.
  - unfold tun_packet, is_arp_for_us. rewrite Harp, Hdst, Hip, Hm1, Hg1, Ho1, Hs. reflexivity.
  - done.
  - unfold tunnel_recv, recv_turn, recv_data. rewrite Hm2, Ho2, Hsock, Hconn. cbn [negb].
    rewrite Hh. reflexivity.
  - done.
Qed.

(** A packet for an address that is not in the table goes nowhere. *)
Lemma unknown_destination_dropped packet nonce up ok d ip :
  parse_arp packet = None -> extract_dst_ip_from_packet packet = Some ip ->
  dget (d_ip_to_peer d) ip = None -> tun_packet packet nonce up ok d = (Ok tt, d, []).
Proof. intros H1 H2 H3. unfold tun_packet, is_arp_for_us. by rewrite H1, H2, H3. Qed.

(** A tunnel that fell back to the relay has no address: what is sent through
    it is dropped, on the client's side already. *)
Lemma relay_tunnel_sends_nothing t ecdh nonce packet up now t' :
  pt_remote_addr t = None ->
  create_finish t ecdh (Ok (false, None, [])) (Some (Ok tt)) now = Ok t' ->
  is_connected t' = true /\ send_data t' nonce packet up = (Ok 0, t', []).
Proof.
  intros Ha. cbn. intros <-%Ok_inj. split; [done|]. unfold send_data. simpl. rewrite Ha.
  by destruct (pt_socket t).
Qed.

(** The topology of a network is never asked for: every network is a mesh. *)
Definition all_mesh (d : ClientDaemon) : Prop :=
  forall net t, dget (d_topologies d) net = Some t -> exists m, t = Topology.Mesh m.

Lemma every_network_is_a_mesh e up ok d :
  all_mesh d -> all_mesh (fst (fst (dispatch_event e up ok d))).
Proof.
  intros Ha. destruct e as [p net ip|p net|src b|]; cbn [dispatch_event].
  - unfold on_peer_online. destruct (_ || _); [done|].
    set (d1 := set_routes _ _ _ d).
    change (Topology.create_topology_manager DEFAULT_TOPOLOGY [] [] false false)
      with (@Ok Topology.TopologyManager (Topology.Mesh (Topology.mkMesh []))).
    cbn [rbind]. assert (H1 : all_mesh d1) by exact Ha.
    set (topos := if dmem (d_topologies d1) net then d_topologies d1
      else dset (d_topologies d1) net (Topology.Mesh (Topology.mkMesh []))).
    assert (Ht : forall n t, dget topos n = Some t -> exists m, t = Topology.Mesh m).
    { intros n t. unfold topos. destruct (dmem _ _); [apply H1|]. rewrite dget_dset.
      case_decide; [intros [= <-]; eauto|apply H1]. }
    replace (if dmem (d_topologies d1) net then Ok (d_topologies d1)
      else Ok (dset (d_topologies d1) net (Topology.Mesh (Topology.mkMesh [])))) with (Ok topos)
      by (unfold topos; by destruct (dmem _ _)).
    cbn [rbind]. destruct (dget topos net) as [t|] eqn:Hg; [|exact Ht].
    destruct (Ht _ _ Hg) as [m ->]. cbn. intros n t. simpl. rewrite dget_dset.
    case_decide; [intros [= <-]; eauto|apply Ht].
  - unfold on_peer_offline. destruct p as [|x p]; [done|].
    set (d1 := set_routes _ _ _ d). assert (H1 : all_mesh d1) by exact Ha.
    assert (Hfin : forall d2 : ClientDaemon, all_mesh d2 -> all_mesh
      match dget (d_topologies d2) net with
      | None => d2
      | Some t => set_topologies
          (dset (d_topologies d2) net (snd (Topology.on_peer_offline t (x :: p) net))) d2
      end).
    { intros d2 H2. destruct (dget (d_topologies d2) net) as [t|] eqn:Hg; [|done].
      destruct (H2 _ _ Hg) as [m ->]. intros n t. simpl. rewrite dget_dset.
      case_decide; [intros [= <-]; eauto|apply H2]. }
    destruct (d_tunnels d1) as [m|]; [|by apply Hfin].
    destruct (get_tunnel m _); [|by apply Hfin]. destruct (close_tunnel _ _ _) as [m' o]. simpl.
    by apply (Hfin (set_tunnels (Some m') d1)).
  - unfold on_relay_frame, tun_write. repeat case_match; simplify_eq; done.
  - done.
Qed.

(** A peer that leaves one network is dropped from the routing table and
    loses its tunnel, whatever other networks it shares with the client. *)
Lemma offline_drops_all_networks p net up d m i :
  p <> [] -> d_tunnels d = Some m -> get_tunnel m p = Some i ->
  let d' := fst (on_peer_offline p net up d) in
  dget (d_peer_to_ip d') p = None /\ dget (d_peer_networks d') p = None
  /\ d_tunnels d' = Some (fst (close_tunnel m i up)).
Proof.
  intros Hp Hm Hg. unfold on_peer_offline. destruct p as [|x p]; [done|]. simpl. rewrite Hm, Hg.
  destruct (close_tunnel m i up) as [m' o]. simpl.
  destruct (dget (d_topologies d) net); simpl; rewrite !dget_ddel, !decide_True by done; done.
Qed.

(** A peer that comes back under another address keeps its old one in the
    table. *)
Lemma old_address_survives p net ip1 ip2 d :
  p <> [] -> p <> d_client_id d -> ip1 <> [] -> ip2 <> [] -> ip1 <> ip2 ->
  let d1 := fst (fst (dispatch_event (EvOnline p net (Some ip1)) true true d)) in
  let d2 := fst (fst (dispatch_event (EvOnline p net (Some ip2)) true true d1)) in
  dget (d_ip_to_peer d2) ip1 = Some p.
Proof.
  intros Hp Hs H1 H2 Hne.
  assert (Hi : forall ip d0, ip <> [] -> d_client_id d0 = d_client_id d ->
    d_ip_to_peer (fst (fst (dispatch_event (EvOnline p net (Some ip)) true true d0)))
      = dset (d_ip_to_peer d0) ip p).
  { intros ip d0 Hip Hid. cbn [dispatch_event]. unfold on_peer_online, str_eqb.
    rewrite Hid, !bool_decide_false by done. cbn [orb default]. destruct ip as [|x ip]; [done|].
    change (Topology.create_topology_manager DEFAULT_TOPOLOGY [] [] false false)
      with (@Ok Topology.TopologyManager (Topology.Mesh (Topology.mkMesh []))). cbn [rbind].
    destruct (dmem _ net); cbn [rbind]; (destruct (dget _ net); [|done]);
      by destruct (Topology.on_peer_online _ _ _ _). }
  cbv zeta. rewrite Hi; [|done|by rewrite dispatch_id]. rewrite Hi by done.
  rewrite dget_dset_ne by done. apply dget_dset_eq.
Qed.
End Daemon.

(** ** What the server tells about addresses

    No message the server ever sends carries a [peer_ip]. *)
Section ServerLog.
Context {SO : SetOrder str} {BC : NetworkManager.Bcrypt} {UN : Unicode} {RV : Auth.RsaVerifier}.
Import Registry NetworkManager Auth Relay Server.

Definition no_ip (m : Message) : Prop := dget (msg_payload m) (py "peer_ip") = None.
Definition silent (s : MediationServer) : Prop := Forall (fun wm => no_ip (snd wm)) (sv_out s).

(** A class without the field, or with [None] as its default, and keywords
    without it make a message without it. *)
Lemma make_message_no_ip cls kw m :
  make_message cls None kw = Ok m -> dict_ok cls -> dget kw (py "peer_ip") = None ->
  (dget cls (py "peer_ip") = None \/ dget cls (py "peer_ip") = Some (Some JNull)) -> no_ip m.
Proof.
  intros Hm Hc Hk Hd. unfold make_message in Hm. inv_bind Hm.
  destruct (dget a KEY_TYPE) as [[]|]; try done. apply Ok_inj in Hm. subst m.
  unfold no_ip, payload_from_dataclass. cbn [msg_payload].
  unfold construct in Ha. destruct (forallb _ _); [|done].
  assert (Hok : dict_ok a) by (unfold dict_ok; by rewrite (init_fields_keys _ _ _ Ha)).
  rewrite dget_dfilter by done.
  rewrite (init_fields_get _ _ _ _ Ha), with_type_ne, Hk by done.
  by destruct Hd as [-> | ->].
Qed.

Lemma silent_send_new w cls kw :
  dict_ok cls -> dget kw (py "peer_ip") = None ->
  (dget cls (py "peer_ip") = None \/ dget cls (py "peer_ip") = Some (Some JNull)) ->
  pres silent (send_new w cls kw).
Proof.
  intros Hc Hk Hd s Hs. unfold send_new. rewrite bind_lift.
  destruct (make_message cls None kw) as [m|e] eqn:Hm; [|done].
  unfold send. rewrite bind_lift. destruct (build_message m); [|done]. rewrite bind_gets.
  destruct (bool_decide _); [done|]. unfold silent. simpl. apply Forall_app. split; [done|].
  constructor; [|constructor]. by eapply make_message_no_ip.
Qed.

Lemma silent_modify f : (forall s, sv_out (f s) = sv_out s) -> pres silent (modify f).
Proof. intros Hf. apply pres_modify. intros s Hs. unfold silent. by rewrite Hf. Qed.

(** A send of one of the classes with a literal list of keywords. *)
Ltac send_case :=
  apply silent_send_new; [unfold dict_ok; by_eval|reflexivity|first [left; reflexivity|right; reflexivity]].

Lemma silent_error w code text : pres silent (send_error w code text).
Proof. unfold send_error. send_case. Qed.

Lemma silent_notify skip nid cls kw :
  (forall w, pres silent (send_new w cls kw)) -> pres silent (notify_members skip nid cls kw).
Proof.
  intros Hs. unfold notify_members. apply pres_bind; [apply pres_gets|intros ms].
  apply pres_for_each. intros x. case_match; [apply pres_ret|].
  apply pres_bind; [apply pres_gets|]. intros [w|]; [apply Hs|apply pres_ret].
Qed.

Lemma silent_online cid : pres silent (announce_peer_online cid).
Proof.
  apply pres_bind; [apply pres_gets|intros nets]. apply pres_for_each. intros nid.
  apply silent_notify. intros w. send_case.
Qed.
Lemma silent_offline cid nid : pres silent (announce_peer_offline cid nid).
Proof. unfold announce_peer_offline. apply silent_notify. intros w. send_case. Qed.

Lemma silent_disconnect cid : pres silent (handle_disconnect cid).
Proof.
  unfold handle_disconnect. repeat (apply pres_bind; [first [apply silent_modify; intros; reflexivity|apply pres_gets]|intros ?]).
  apply pres_for_each. intros. apply silent_offline.
Qed.

(** The handlers, by their structure. *)
Ltac silent :=
  repeat match goal with
  | |- pres _ (ret _) => apply pres_ret
  | |- pres _ (lift _) => apply pres_lift
  | |- pres _ (gets _) => apply pres_gets
  | |- pres _ (modify _) => apply silent_modify; intros; reflexivity
  | |- pres _ (close_writer _) => apply silent_modify; intros; reflexivity
  | |- pres _ (send_error _ _ _) => apply silent_error
  | |- pres _ (send_new _ _ _) => send_case
  | |- pres _ (announce_peer_online _) => apply silent_online
  | |- pres _ (announce_peer_offline _ _) => apply silent_offline
  | |- pres _ (handle_disconnect _) => apply silent_disconnect
  | |- pres _ (broadcast_service _ _ _) => apply silent_notify; intros ?; send_case
  | |- pres _ (bind _ _) => apply pres_bind; [|intros ?]
  | |- pres _ (catch _ _) => apply pres_catch; [|intros ?]
  | |- pres _ (for_each _ _) => apply pres_for_each; intros ?
  | |- pres _ (match ?x with _ => _ end) => destruct x
  | |- pres _ (let '_ := ?x in _) => destruct x
  end.

Lemma silent_register env w msg peer : pres silent (on_register env w msg peer).
Proof. unfold on_register. silent. Qed.
Lemma silent_auth env w cid msg : pres silent (on_auth env w cid msg).
Proof. unfold on_auth. silent. Qed.

Lemma silent_command env cid w msg : pres silent (run_command env cid w msg).
Proof.
  unfold run_command, on_heartbeat, on_create_network, on_join_network, confirm_join,
    on_leave_network, on_list_networks, on_request_peer_conn, on_expose_service,
    on_unexpose_service, on_relay_request, handle_relay_request. silent.
Qed.

Lemma silent_message env c data : pres silent (on_message env c data).
Proof.
  unfold on_message, dispatch, deliver_relayed. 
  apply pres_bind; [apply pres_lift|intros msg].
  destruct (negb (c_registered c)).
  - destruct (negb _); [silent|]. apply pres_bind; [apply silent_register|intros cid]. apply pres_ret.
  - destruct (c_client c) as [cid|]; [|apply pres_ret]. destruct (negb _).
    + destruct (negb _); [silent|]. apply pres_bind; [apply silent_auth|intros [ok detail]]. silent.
    + apply pres_bind; [|intros go; silent].
      apply pres_bind; [apply pres_catch; [apply silent_command|intros e; silent]|intros; apply pres_ret].
Qed.

Lemma silent_finish c : pres silent (finish c).
Proof. unfold finish. silent. Qed.

Lemma silent_recv env c h b s : silent s -> silent (snd (recv env c h b s)).
Proof.
  intros Hs. unfold recv. destruct (_ >? _); [by apply silent_finish|].
  pose proof (silent_message env c (h ++ b) s Hs) as Hm.
  destruct (on_message env c (h ++ b) s) as [[[c' []]|e] s']; simpl in *; [done|by apply silent_finish..].
Qed.

Lemma silent_step a b : sys_step a b -> silent (sys_server a) -> silent (sys_server b).
Proof.
  intros H Ha. destruct H; simpl in *; try done.
  - by apply silent_recv.
  - by apply silent_finish.
  - assert (Hp : pres silent (prune_tick now)); [|by apply Hp]. unfold prune_tick. silent.
Qed.

Lemma server_silent cfg s sys :
  server_init cfg = Ok s -> rtc sys_step (mkSystem s [] true) sys -> silent (sys_server sys).
Proof.
  intros Hi Hr. assert (Hs : silent s).
  { unfold server_init in Hi. inv_bind Hi. apply Ok_inj in Hi. subst s. constructor. }
  assert (Hgen : forall a b, rtc sys_step a b -> silent (sys_server a) -> silent (sys_server b)).
  { induction 1; eauto using silent_step. }
  by apply (Hgen _ _ Hr).
Qed.

Context {TC : TunnelCrypto}.

(** The events a client receives from a server in the state [s]. *)
Definition from_server (s : MediationServer) (e : event) : Prop :=
  exists w m, In (w, m) (sv_out s) /\ event_of m = Some e.

(** Such an event carries no address. *)
Lemma event_without_ip s e : silent s -> from_server s e ->
  match e with EvOnline _ _ ip => ip = Some [] | _ => True end.
Proof.
  intros Hs (w & m & Hin & He). unfold silent in Hs. rewrite List.Forall_forall in Hs.
  pose proof (Hs _ Hin) as Hip. unfold no_ip in Hip. simpl in Hip. unfold event_of in He.
  rewrite Hip in He.
  destruct (str_eqb _ MSG_PEER_ONLINE); [|destruct (str_eqb _ MSG_PEER_OFFLINE);
    [|destruct (str_eqb _ MSG_RELAY_FRAME)]];
    repeat (match type of He with context [str_field ?p ?k] => destruct (str_field p k) end);
    by simplify_eq.
Qed.

(** Without addresses the table only shrinks. *)
Lemma dispatch_adds_no_route e up ok d ip :
  match e with EvOnline _ _ a => a = Some [] | _ => True end ->
  dget (d_ip_to_peer d) ip = None ->
  dget (d_ip_to_peer (fst (fst (dispatch_event e up ok d)))) ip = None.
Proof.
  intros He Hd. destruct e as [p net a|p net|src b|]; cbn [dispatch_event].
  - subst a. unfold on_peer_online. destruct (_ || _); [done|].
    destruct (if dmem _ _ then _ else _) as [topos|]; [|done]. cbn [rbind].
    destruct (dget topos net); [|done]. by destruct (Topology.on_peer_online _ _ _ _).
  - unfold on_peer_offline. destruct p as [|x p]; [done|].
    assert (Hdel : dget (ddel (d_ip_to_peer d) (default [] (dget (d_peer_to_ip d) (x :: p)))) ip = None)
      by (rewrite dget_ddel; by case_decide).
    destruct (d_tunnels _) as [m|]; [destruct (get_tunnel m _); [destruct (close_tunnel _ _ _)|]|];
      simpl; by destruct (dget (d_topologies d) net).
  - unfold on_relay_frame, tun_write. repeat case_match; simplify_eq; done.
  - done.
Qed.

(** The virtual network carries no packet with this server: whatever the
    clients do and whatever events reach a client, a packet for an address
    that was not in its table when it started is dropped, since no message
    of the server ever carries the address of a peer. *)
Theorem no_route_from_server cfg s sys es d packet nonce up ok ip :
  server_init cfg = Ok s -> rtc sys_step (mkSystem s [] true) sys ->
  Forall (fun e => from_server (sys_server sys) (fst (fst e))) es ->
  parse_arp packet = None -> extract_dst_ip_from_packet packet = Some ip ->
  dget (d_ip_to_peer d) ip = None ->
  tun_packet packet nonce up ok (dispatch_all es d) = (Ok tt, dispatch_all es d, []).
Proof.
  intros Hi Hr Hes Ha Hdst Hd. pose proof (server_silent _ _ _ Hi Hr) as Hs.
  apply (unknown_destination_dropped _ _ _ _ _ ip); [done..|].
  clear Hdst Ha. revert d Hd. induction Hes as [|[[e u] o] es He Hes IH]; intros d Hd; [done|].
  unfold dispatch_all. cbn [foldl]. apply IH. apply dispatch_adds_no_route; [|done].
  by apply (event_without_ip (sys_server sys)).
Qed.
End ServerLog.

(** ** Concrete runs *)

Section Runs.
Import Server.
#[local] Existing Instance toy_crypto.
#[local] Existing Instance ascii_only.
#[local] Existing Instance NetworkManager.plain_bcrypt.
#[local] Existing Instance Auth.echo_verifier.
#[local] Instance run_order : SetOrder str := elements_order.

(** Every peer has an address but dave, who comes without, as a peer of the
    mediation server does. *)
Definition dave : str := py "dave-0001".
Definition run_vip (p : str) : str := if decide (p = dave) then [] else py "25." ++ p.

Definition run_daemon : ClientDaemon := daemon_start true (Some (run_vip a_id)) true a_id.

Lemma run_vip_inj p q : run_vip p = run_vip q -> run_vip p <> [] -> p = q.
Proof. unfold run_vip. repeat case_decide; try done. intros He _. by apply app_inv_head in He. Qed.


(** The IPv4 header of a packet from 25.0.0.1 to 25.0.0.2. *)
Definition run_packet : bytes :=
  [69; 0; 0; 20; 0; 0; 0; 0; 64; 17; 0; 0; 25; 0; 0; 1; 25; 0; 0; 2].

Definition two_vips (p : str) : str := if decide (p = b_id) then py "25.0.0.2" else py "25.0.0.1".

Definition tunnel_to (peer : str) : TunnelManager :=
  let t := run_tunnel (Some [1]) in
  with_objs [(0%nat, t)] (with_tunnels [(peer, 0%nat)] (new_manager TUNNEL_STALE_TIMEOUT)).

Definition dA0 : ClientDaemon :=
  set_tunnels (Some (tunnel_to b_id))
    (fst (fst (dispatch_event (EvOnline b_id (py "net-1") (Some (py "25.0.0.2"))) true true
       (daemon_start true (Some (py "25.0.0.1")) true a_id)))).
Definition dB0 : ClientDaemon :=
  set_tunnels (Some (tunnel_to a_id)) (daemon_start true (Some (py "25.0.0.2")) true b_id).

Lemma run_two_routes : routes two_vips {[a_id]} {[b_id]} dA0.
Proof.
  replace dA0 with (set_tunnels (Some (tunnel_to b_id)) (set_topologies (d_topologies dA0)
    (set_routes [(py "25.0.0.1", a_id); (py "25.0.0.2", b_id)] [(a_id, py "25.0.0.1"); (b_id, py "25.0.0.2")]
      [(b_id, py "net-1")] (daemon_start true (Some (py "25.0.0.1")) true a_id))))
    by (vm_compute; reflexivity).
  unfold routes, two_vips. cbn [d_client_id d_ip_to_peer d_peer_to_ip set_tunnels set_topologies set_routes].
  change (d_client_id (daemon_start _ _ _ _)) with a_id.
  assert (Hab : a_id <> b_id) by discriminate. split_and!; [set_solver|set_solver| |].
  - intros ip p. cbn [dget]. rewrite elem_of_union, !elem_of_singleton.
    assert (py "25.0.0.1" <> [] /\ py "25.0.0.2" <> []) by done.
    repeat case_decide; naive_solver.
  - intros p. cbn [dget]. repeat case_decide; set_solver.
Qed.

Lemma vpn_delivery_witness :
  exists frame dA' dB',
    tun_packet run_packet (replicate 12 9) true true dA0 = (Ok tt, dA', [(addr2, frame)])
    /\ tunnel_recv 0 (UData frame addr1) (2 * SEC) true true dB0 = (dB', [])
    /\ d_tun_out dB' = [run_packet].
Proof.
  destruct (send_data (run_tunnel (Some [1])) (replicate 12 9) run_packet true) as [[r t'] out] eqn:Hs.
  vm_compute in Hs. injection Hs as <- <- <-.
  edestruct (vpn_delivery dA0 dB0 two_vips {[b_id]} b_id run_packet (replicate 12 9) (tunnel_to b_id) 0
    (run_tunnel (Some [1]))) as (dA' & dB' & H1 & _ & H3 & H4).
  - exact toy_laws.
  - reflexivity.
  - exact run_two_routes.
  - set_solver.
  - discriminate.
  - vm_compute. reflexivity.
  - vm_compute. reflexivity.
  - reflexivity.
  - vm_compute. reflexivity.
  - reflexivity.
  - reflexivity.
  - vm_compute. reflexivity.
  - instantiate (1 := tunnel_to a_id). reflexivity.
  - instantiate (2 := 0%nat). reflexivity.
  - reflexivity.
  - reflexivity.
  - reflexivity.
  - eexists _, dA', dB'. split; [exact H1|]. split; [exact H3|exact H4].
Defined.

(** The run of two clients as steps of the system: alice creates the network
    and bob joins it, so that alice is sent [PEER_ONLINE]. *)
Definition env1 : Env :=
  mkEnv (11 * SEC) (py "net-2") [] [1; 2; 3] (fun _ => py "b3x9k2bc") (py "00ff00ff").

Definition deliver (env : Env) (w : nat) (m : Message) (sys : System) : System :=
  match dget (sys_conns sys) w with
  | None => sys
  | Some c =>
      let r := recv env c (take 4 (wire m)) (drop 4 (wire m)) (sys_server sys) in
      mkSystem (snd r) (dset (sys_conns sys) w (fst r)) (sys_prune_alive sys)
  end.

Definition deliverable (env : Env) (w : nat) (m : Message) (sys : System) : bool :=
  match dget (sys_conns sys) w with
  | None => false
  | Some c => c_open c && bool_decide (length (take 4 (wire m)) = 4%nat)
      && (zlen (drop 4 (wire m)) =? be_decode (take 4 (wire m)))
      && bool_decide (env_uuid env <> [])
      && bool_decide (NetworkManager.nm_get (sv_networks (sys_server sys)) (env_uuid env) = None)
  end.

Lemma deliver_step env w m sys : deliverable env w m sys = true -> sys_step sys (deliver env w m sys).
Proof.
  unfold deliverable, deliver. destruct sys as [s cs p]. cbn [sys_conns sys_server sys_prune_alive].
  destruct (dget cs w) as [c|] eqn:Hc; [|done]. rewrite !andb_true_iff. intros [[[[H1 H2] H3] H4] H5].
  apply (step_recv s cs p env w c); [done|done|by apply bool_decide_eq_true in H2|by intros _; lia|].
  apply bool_decide_eq_true in H4, H5. by split.
Qed.

Definition both_connected : System :=
  mkSystem start [(1%nat, new_conn 1 (py "10.0.0.1", 4001)); (2%nat, new_conn 2 (py "10.0.0.2", 4002))] true.

Definition run_script : list (Env * nat * Message) :=
  [(env0, 1%nat, m_register a_id); (env0, 1%nat, m_auth); (env0, 1%nat, m_create);
   (env1, 2%nat, m_register b_id); (env1, 2%nat, m_auth); (env1, 2%nat, m_join)].

Fixpoint all_deliverable (l : list (Env * nat * Message)) (sys : System) : bool :=
  match l with
  | [] => true
  | (env, w, m) :: l' => deliverable env w m sys && all_deliverable l' (deliver env w m sys)
  end.

Definition deliver_all (l : list (Env * nat * Message)) (sys : System) : System :=
  foldl (fun sys '(env, w, m) => deliver env w m sys) sys l.

Lemma deliver_all_reach l sys : all_deliverable l sys = true -> rtc sys_step sys (deliver_all l sys).
Proof.
  revert sys. induction l as [|[[env w] m] l IH]; intros sys; simpl; [reflexivity|].
  rewrite andb_true_iff. intros [H1 H2]. eapply rtc_l; [by apply deliver_step|]. by apply IH.
Qed.

Lemma met_reach : rtc sys_step (mkSystem start [] true) (deliver_all run_script both_connected).
Proof.
  eapply rtc_l; [by apply (step_accept start [] true 1 (py "10.0.0.1", 4001))|].
  eapply rtc_l; [by apply (step_accept start _ true 2 (py "10.0.0.2", 4002))|].
  apply deliver_all_reach. vm_compute. reflexivity.
Qed.

Lemma met_log :
  nth_error (sv_out (sys_server (deliver_all run_script both_connected))) 6
  = Some (1%nat, peer_online_msg (py "net-1") b_id).
Proof. vm_compute. reflexivity. Qed.

(** Alice has heard that bob is online, and still drops what is meant for him. *)
Lemma no_route_from_server_witness :
  let d := dispatch_all [(EvOnline b_id (py "net-1") (Some []), true, true)] run_daemon in
  dmem (d_peer_to_ip d) b_id = true
  /\ tun_packet run_packet (replicate 12 9) true true d = (Ok tt, d, []).
Proof.
  intros d. split; [vm_compute; reflexivity|].
  apply (no_route_from_server default_config start (deliver_all run_script both_connected)
    [(EvOnline b_id (py "net-1") (Some []), true, true)] run_daemon _ _ _ _ (py "25.0.0.2")).
  - exact start_init.
  - exact met_reach.
  - constructor; [|constructor]. exists 1%nat, (peer_online_msg (py "net-1") b_id). split.
    + exact (nth_error_In _ _ met_log).
    + vm_compute. reflexivity.
  - vm_compute. reflexivity.
  - vm_compute. reflexivity.
  - vm_compute. reflexivity.
Defined.
End Runs.

End Daemon.
