(* ===== verification/ClientProcess.v ===== *)
(** * The client process (src/client/main.py: run, _setup_tun, _start_web_panel,
      _shutdown_daemon, _daemonize, client_main)

    [Daemon] holds what the client does between its start and its end.  Here
    is the way in and out: the identity, the connection, the device, the
    tasks and the panel, in the order of [run], each with the ways it fails,
    and what a failure leaves behind.  How [connect] and [authenticate] end is
    an argument ([ControlChannel] holds them); the device is opened with the
    operations of [Packet]; a descriptor is open from the call that returned
    it to the one that closes it.

    [_daemonize] acts on an [Image], what the kernel keeps of a process, in
    the three processes it makes; files can be created. *)

From S2P Require Import Prelude Constants PyStr Frame Json Messages Protocol Platform Config Encryption NatTraversal Tunnel Topology Packet Registry NetworkManager Auth Relay Server Daemon.
Import Messages Protocol Encryption NatTraversal Tunnel Packet Daemon.

Module ClientProcess.

(** ** Into the background *)

(** The open descriptors of a process name what they refer to. *)
Record Image := mkImage {
  im_pid : Z;
  im_session : Z;
  im_leader : bool;                (* a session leader can get a terminal *)
  im_cwd : str;
  im_umask : Z;
  im_fds : gmap nat str
}.

Definition DEVNULL : str := py "/dev/null".

(** [fork]: the child is the same process under another number. *)
Definition forked (pid : Z) (im : Image) : Image :=
  mkImage pid (im_session im) false (im_cwd im) (im_umask im) (im_fds im).

Definition setsid (im : Image) : Image :=
  mkImage (im_pid im) (im_pid im) true (im_cwd im) (im_umask im) (im_fds im).

Definition with_fds (f : gmap nat str -> gmap nat str) (im : Image) : Image :=
  mkImage (im_pid im) (im_session im) (im_leader im) (im_cwd im) (im_umask im) (f (im_fds im)).

(** [os.open] takes the lowest free number. *)
Fixpoint lowest_free (fuel n : nat) (fds : gmap nat str) : nat :=
  match fuel with
  | O => n
  | S fuel' => match fds !! n with None => n | Some _ => lowest_free fuel' (S n) fds end
  end.

Definition next_fd (fds : gmap nat str) : nat := lowest_free (size fds) 0 fds.

(** [dup2(old, new)]. *)
Definition dup2 (old new : nat) (fds : gmap nat str) : gmap nat str :=
  match fds !! old with Some x => <[new := x]> fds | None => fds end.

(** The end of [_daemonize]: standard input, output and error. *)
Definition redirect (fds : gmap nat str) : gmap nat str :=
  let devnull := next_fd fds in
  let fds1 := <[devnull := DEVNULL]> fds in
  delete devnull (dup2 devnull 2 (dup2 devnull 1 (dup2 devnull 0 fds1))).

(** What the three processes do: the caller and its child leave with code 0,
    the grandchild goes on.  [home] is what [~] stands for; the second result
    is the file it writes. *)
Inductive fate := Exits (code : Z) | GoesOn (im : Image).

Definition daemonize (home : str) (child grandchild : Z) (im : Image)
    : list (Z * fate) * (str * str) :=
  let im1 := setsid (forked child im) in
  let im2 := forked grandchild im1 in
  let im3 := mkImage (im_pid im2) (im_session im2) (im_leader im2) (py "/") 18 (im_fds im2) in
  ([(im_pid im, Exits 0); (child, Exits 0); (grandchild, GoesOn (with_fds redirect im3))],
   (home ++ py "/.localnetwork/client.pid", dec grandchild)).

Lemma lowest_free_spec fuel n (fds : gmap nat str) :
  (forall i, (i < n)%nat -> is_Some (fds !! i)) -> (size fds < n + fuel + 1)%nat ->
  fds !! lowest_free fuel n fds = None
  /\ forall i, (i < lowest_free fuel n fds)%nat -> is_Some (fds !! i).
Proof.
  revert n. induction fuel as [|fuel IH]; intros n Hlow Hsz; simpl.
  - split; [|done]. destruct (fds !! n) eqn:E; [|done]. exfalso.
    assert (Hsub : (set_seq 0 (S n) : gset nat) ⊆ dom fds).
    { intros i Hi. apply elem_of_set_seq in Hi. apply elem_of_dom.
      destruct (decide (i = n)) as [->|]; [by eauto|]. apply Hlow. lia. }
    apply subseteq_size in Hsub. rewrite size_set_seq, size_dom in Hsub. lia.
  - destruct (fds !! n) eqn:E; [|done]. apply IH; [|lia].
    intros i Hi. destruct (decide (i = n)) as [->|]; [by eauto|]. apply Hlow. lia.
Qed.

Lemma next_fd_spec fds :
  fds !! next_fd fds = None /\ forall i, (i < next_fd fds)%nat -> is_Some (fds !! i).
Proof. apply lowest_free_spec; [lia|lia]. Qed.

(** With the three standard descriptors open, as a shell starts a program,
    all three refer to /dev/null afterwards and no other has changed. *)
Lemma redirect_spec fds :
  (forall i, (i < 3)%nat -> is_Some (fds !! i)) ->
  forall i, redirect fds !! i = if decide (i < 3)%nat then Some DEVNULL else fds !! i.
Proof.
  intros Hstd i. destruct (next_fd_spec fds) as [Hn Hlow]. unfold redirect.
  set (d := next_fd fds) in *.
  assert (Hd : (3 <= d)%nat).
  { destruct (decide (3 <= d)%nat); [done|]. destruct (Hstd d); [lia|congruence]. }
  unfold dup2. rewrite !lookup_insert_eq. rewrite !(lookup_insert_ne _ _ d) by lia.
  rewrite !lookup_insert_eq.
  rewrite !(lookup_insert_ne _ _ d) by lia. rewrite lookup_insert_eq.
  destruct (decide (i = d)) as [->|Hid].
  - rewrite lookup_delete_eq, decide_False by lia. done.
  - rewrite lookup_delete_ne by done.
    destruct (decide (i < 3)%nat).
    + assert (i = 0 \/ i = 1 \/ i = 2)%nat as [->|[->| ->]] by lia;
        rewrite ?lookup_insert_eq, ?lookup_insert_ne by lia; rewrite ?lookup_insert_eq, ?lookup_insert_ne by lia;
        rewrite ?lookup_insert_eq; done.
    + rewrite !lookup_insert_ne by lia. done.
Qed.

(** The process that goes on is in a session of its own without leading it,
    its number is in the PID file, and everything it prints, log lines on
    standard error included, goes to /dev/null. *)
Lemma daemonize_detaches home child grandchild im :
  (forall i, (i < 3)%nat -> is_Some (im_fds im !! i)) ->
  exists im', daemonize home child grandchild im =
    ([(im_pid im, Exits 0); (child, Exits 0); (grandchild, GoesOn im')],
     (home ++ py "/.localnetwork/client.pid", dec grandchild))
  /\ im_pid im' = grandchild /\ im_session im' = child /\ im_leader im' = false
  /\ im_cwd im' = py "/" /\ im_umask im' = 18
  /\ forall i, im_fds im' !! i = if decide (i < 3)%nat then Some DEVNULL else im_fds im !! i.
Proof. intros Hstd. eexists. split_and!; [done..|]. by apply redirect_spec. Qed.

(** ** The run of the daemon *)

Section Run.
Context {TC : TunnelCrypto} {U : Unicode}.
Context (inet_aton : str -> result bytes).

(** What the machine answers to [_setup_tun] and to the shutdown. *)
Record Machine := mkMachine {
  mc_platform : str;               (* sys.platform *)
  mc_kernel : Kernel;
  mc_utun : Utun
}.

Definition is_linux (mc : Machine) : bool := str_eqb (mc_platform mc) (py "linux").

(** [create_tun_interface().open(ip=vip)]: the outcome, the interface, and
    what happened to descriptors. *)
Definition open_device (mc : Machine) (vip : str) : result unit * TunInterface * list fd_op :=
  match create_tun_interface (mc_platform mc) with
  | Err e => (Err e, new_tun, [])
  | Ok Linux => linux_open inet_aton (mc_kernel mc) new_tun vip (py "255.0.0.0") 1400
  | Ok Darwin => darwin_open (mc_utun mc) new_tun vip (py "255.0.0.0") 1400
  | Ok Windows => (windows_open new_tun, new_tun, [])
  end.

(** The daemon and what of the machine it holds. *)
Record RunState := mkRunState {
  cp_daemon : ClientDaemon;
  cp_tun : option TunInterface;    (* [self.tun] *)
  cp_open : list Z;                (* descriptors of devices that are open *)
  cp_web : TaskState               (* the task of the panel *)
}.

(** [_setup_tun].  An [OSError] is caught and gives up the interface, not the
    descriptor it may hold; other exceptions escape with the interface in
    place. *)
Definition setup_tun_device (mc : Machine) (virtual_ip : option str) (d : ClientDaemon)
    : result unit * RunState :=
  let vip := own_address virtual_ip in
  match create_tun_interface (mc_platform mc) with
  | Err e => (Err e, mkRunState d None [] NoTask)
  | Ok _ =>
      let '(opened, t, ops) := open_device mc vip in
      match (let? _ := opened in add_route (is_linux mc) (mc_kernel mc) VIRTUAL_SUBNET (tun_name t)) with
      | Ok _ => (Ok tt, mkRunState (setup_tun virtual_ip true d) (Some t) (open_after ops) NoTask)
      | Err e =>
          if is_OSError e
          then (Ok tt, mkRunState (setup_tun virtual_ip false d) None (open_after ops) NoTask)
          else (Err e, mkRunState (set_tun true d) (Some t) (open_after ops) NoTask)
      end
  end.

(** [if self.config.web_port and self.config.web_port > 0]. *)
Definition panel_wanted (web_port : Z) : bool := negb (web_port =? 0) && (0 <? web_port).

(** [run] up to the wait for the shutdown event.  [who] is how
    [ensure_identity] ends, [opened] and [auth] how [connect] and
    [authenticate] do. *)
Definition run_begin (mc : Machine) (who : result str) (opened auth : result unit)
    (tun_mode : bool) (virtual_ip : option str) (web_port : Z) : result unit * RunState :=
  match who with
  | Err e => (Err e, mkRunState (daemon_init []) None [] NoTask)
  | Ok cid =>
      let d0 := mkDaemon cid [] [] [] [] None true false [] (no_life false false) in
      match opened with
      | Err e => (Err e, mkRunState d0 None [] NoTask)
      | Ok _ =>
          let d1 := set_life (no_life false true) d0 in
          match auth with
          | Err e => (Err e, mkRunState d1 None [] NoTask)
          | Ok _ =>
              let d2 := set_tunnels (Some (new_manager TUNNEL_STALE_TIMEOUT)) d1 in
              let '(r, p) := if tun_mode then setup_tun_device mc virtual_ip d2
                             else (Ok tt, mkRunState d2 None [] NoTask) in
              match r with
              | Err e => (Err e, p)
              | Ok _ =>
                  let d3 := cp_daemon p in
                  (Ok tt, mkRunState (set_life (start_tasks (d_tun d3)) d3)
                            (cp_tun p) (cp_open p) (if panel_wanted web_port then Running else NoTask))
              end
          end
      end
  end.

(** [run] after the event: the panel's task is cancelled and
    [_shutdown_daemon] stops the rest.  An exception of [remove_route] leaves
    it before the device and the channel are closed. *)
Definition run_end (mc : Machine) (up : bool) (p : RunState) : result unit * RunState * datagrams :=
  let web := cancel (cp_web p) in
  let (d1, out) := shutdown_daemon up (cp_daemon p) in
  match cp_tun p with
  | None => (Ok tt, mkRunState d1 None (cp_open p) web, out)
  | Some t =>
      match remove_route (is_linux mc) (mc_kernel mc) VIRTUAL_SUBNET (tun_name t) with
      | Err e =>
          let l := d_life (cp_daemon p) in
          (Err e, mkRunState (set_life (cancel_tasks l (tun_open l) (channel_open l)) d1)
                    (Some t) (cp_open p) web, out)
      | Ok _ =>
          let still := match tun_fd t with
                       | Some fd => filter (fun x => x <> fd) (cp_open p)
                       | None => cp_open p end in
          (Ok tt, mkRunState d1 (Some (tun_close t)) still web, out)
      end
  end.

(** [request_shutdown], also the handler of both signals: the event stays set
    once it is. *)
Definition request_shutdown (_ : bool) : bool := true.

(** [run] with [live] for what the daemon does in the meantime and [event] for
    the shutdown event; [None] while it waits. *)
Definition daemon_run (mc : Machine) (who : result str) (opened auth : result unit) (tun_mode : bool)
    (virtual_ip : option str) (web_port : Z) (live : ClientDaemon -> ClientDaemon) (event up : bool)
    : option (result unit * RunState * datagrams) :=
  match run_begin mc who opened auth tun_mode virtual_ip web_port with
  | (Err e, p) => Some (Err e, p, [])
  | (Ok _, p) =>
      if event then Some (run_end mc up (mkRunState (live (cp_daemon p)) (cp_tun p) (cp_open p) (cp_web p)))
      else None
  end.

(** [_start_web_panel]: where the panel listens, [None] when it is skipped or
    fails; [site] is what setting up the runner and binding gives. *)
Definition client_web_panel (aiohttp : bool) (site : str * Z -> result unit) (web_port : Z)
    : option (str * Z) :=
  if negb aiohttp then None
  else match site (py "127.0.0.1", web_port) with Ok _ => Some (py "127.0.0.1", web_port) | Err _ => None end.

(** A start without a failure is [daemon_start], with or without a device. *)
Lemma run_begin_starts mc cid tun_mode vip web_port p :
  run_begin mc (Ok cid) (Ok tt) (Ok tt) tun_mode vip web_port = (Ok tt, p) ->
  exists opened, cp_daemon p = daemon_start tun_mode vip opened cid
    /\ cp_web p = (if panel_wanted web_port then Running else NoTask)
    /\ (is_Some (cp_tun p) <-> tun_mode = true /\ opened = true).
Proof.
  unfold run_begin. destruct tun_mode.
  - unfold setup_tun_device. destruct (create_tun_interface _) as [pl|e]; [|done].
    destruct (open_device _ _) as [[o t] ops]. destruct (rbind _ _) as [b|e].
    + intros [= <-]. exists true. split_and!; [done..|]. simpl. split; [done|]. by eauto.
    + destruct (is_OSError e); [|done]. intros [= <-]. exists false. split_and!; [done..|]. simpl.
      split; [by intros [? [=]]|by intros [_ [=]]].
  - intros [= <-]. exists true. split_and!; [done..|]. simpl. split; [by intros [? [=]]|by intros [[=] _]].
Qed.

(** The descriptor of an interface that opened is the one it holds. *)
Lemma opened_holds mc vip t ops :
  open_device mc vip = (Ok tt, t, ops) ->
  forall fd, fd ∈ open_after ops -> tun_fd t = Some fd.
Proof.
  unfold open_device. destruct (create_tun_interface _) as [[]|e]; [..|done].
  - unfold linux_open. destruct (k_open _) as [fd|e]; [|by destruct (is_OSError e)].
    destruct (k_ioctl _ _ _) as [data|e]; [|by destruct (is_OSError e)].
    destruct (iface_name _) as [name|e]; [|done].
    unfold configure_iface. destruct (k_socket _) as [sock|e]; [|by destruct (is_OSError e)].
    destruct (set_up_iface _ _ _ _ _ _) as [[]|e]; [|by destruct (is_OSError e)].
    intros [= <- <-] x. unfold open_after. cbn [foldl fd_step app].
    intros [Hne [->|[->|[]%elem_of_nil]%elem_of_cons]%elem_of_cons]%list_elem_of_filter; done.
  - intros Ho x. apply (darwin_open_closed inet_aton) in Ho as (fd & _ & _ & ->).
    by intros ?%elem_of_nil.
  - done.
Qed.

Lemma begin_holds mc cid tun_mode vip web_port p t :
  run_begin mc (Ok cid) (Ok tt) (Ok tt) tun_mode vip web_port = (Ok tt, p) ->
  cp_tun p = Some t -> forall fd, fd ∈ cp_open p -> tun_fd t = Some fd.
Proof.
  unfold run_begin. destruct tun_mode; [|by intros [= <-]].
  unfold setup_tun_device. destruct (create_tun_interface _) as [pl|e]; [|done].
  destruct (open_device _ _) as [[o t'] ops] eqn:Ho. destruct o as [[]|e]; simpl.
  - destruct (add_route _ _ _ _) as [b|e].
    + intros [= <-] [= ->]. simpl. by eapply opened_holds.
    + destruct (is_OSError e); [by intros [= <-]|done].
  - destruct (is_OSError e); [by intros [= <-]|done].
Qed.

(** The daemon's own part of the shutdown. *)
Lemma shutdown_daemon_stops up d :
  d_channel d = true ->
  let d' := fst (shutdown_daemon up d) in
  d_life d' = cancel_tasks (d_life d) false false
  /\ forall m', d_tunnels d' = Some m' -> tm_tunnels m' = [].
Proof.
  intros Hc. unfold shutdown_daemon. rewrite Hc, andb_false_r. simpl.
  destruct (d_tunnels d) as [m|] eqn:Hm; simpl; [|by rewrite Hm].
  destruct (shutdown m up) as [m1 o] eqn:Hs. simpl. split; [done|]. intros m' [= <-].
  unfold shutdown in Hs. destruct (foldl _ _ _) as [m2 o2]. by injection Hs as <- _.
Qed.

(** Closing the device of the start leaves none of its descriptors. *)
Lemma close_leaves_none mc cid tun_mode vip web_port p t :
  run_begin mc (Ok cid) (Ok tt) (Ok tt) tun_mode vip web_port = (Ok tt, p) -> cp_tun p = Some t ->
  match tun_fd t with Some fd => filter (fun x => x <> fd) (cp_open p) | None => cp_open p end = [].
Proof.
  intros Hb Ht. pose proof (begin_holds _ _ _ _ _ _ _ Hb Ht) as Hh. destruct (tun_fd t) as [fd|].
  - apply elem_of_nil_inv. intros x [Hne Hx]%list_elem_of_filter. apply Hne. by injection (Hh x Hx).
  - destruct (cp_open p) as [|x l]; [done|]. assert (Hx : None = Some x) by (apply Hh; left). done.
Qed.


(** A request is never lost: made before the daemon is up, it takes effect as
    soon as it is. *)
Lemma early_request_kept mc who opened auth tun_mode vip web_port live up ev :
  exists out, daemon_run mc who opened auth tun_mode vip web_port live (request_shutdown ev) up = Some out.
Proof. unfold daemon_run. destruct (run_begin _ _ _ _ _ _ _) as [[u|e] p]; eauto. Qed.

(** ** What a failed start leaves *)

(** [client_main]: the exit code, or the exception that escapes.  The loop is
    closed either way; nothing shuts the daemon down after a failure, nor
    after a KeyboardInterrupt, which gives code 0. *)
Definition client_exit_code (r : result unit) : result Z :=
  match r with
  | Ok _ => Ok 0
  | Err e => if bool_decide (exc_cls e = CControlChannelError) then Ok 1 else Err e
  end.

(** When the server refuses the client, [run] leaves the connection open and
    the process ends with code 1. *)
Lemma refused_leaves_connection mc cid msg tun_mode vip web_port :
  let e := Exc CControlChannelError msg in
  let '(r, p) := run_begin mc (Ok cid) (Ok tt) (Err e) tun_mode vip web_port in
  r = Err e /\ client_exit_code r = Ok 1 /\ channel_open (d_life (cp_daemon p)) = true
  /\ event_task (d_life (cp_daemon p)) = NoTask.
Proof. done. Qed.

(** On Linux without the [ip] command the device is open and configured when
    [add_route] raises; the daemon goes on in service-only mode, with the
    descriptor open and nothing that would close it. *)
Lemma route_failure_leaks mc cid vip web_port up t ops fd e :
  is_linux mc = true -> open_device mc (own_address vip) = (Ok tt, t, ops) ->
  fd ∈ open_after ops ->
  add_route true (mc_kernel mc) VIRTUAL_SUBNET (tun_name t) = Err e -> is_OSError e = true ->
  exists p, run_begin mc (Ok cid) (Ok tt) (Ok tt) true vip web_port = (Ok tt, p)
    /\ cp_tun p = None /\ fd ∈ cp_open p
    /\ exists p' out, run_end mc up p = (Ok tt, p', out) /\ fd ∈ cp_open p'.
Proof.
  intros Hl Ho Hfd Hr He. unfold run_begin, setup_tun_device. rewrite Ho, Hl. cbn [rbind]. rewrite Hr, He.
  destruct (create_tun_interface (mc_platform mc)) as [pl|x] eqn:Hc.
  - eexists. split; [reflexivity|]. split; [done|]. split; [done|].
    unfold run_end. destruct (shutdown_daemon up _) as [d1 o]. simpl. eauto.
  - exfalso. unfold open_device in Ho. by rewrite Hc in Ho.
Qed.

(** Where there is no TUN implementation, and on Windows, the exception is no
    OSError: it escapes [run] after the client has authenticated, instead of
    the service-only mode. *)
Lemma no_device_escapes mc cid vip web_port :
  create_tun_interface (mc_platform mc) = Ok Windows \/
  (exists e, create_tun_interface (mc_platform mc) = Err e) ->
  exists e p, run_begin mc (Ok cid) (Ok tt) (Ok tt) true vip web_port = (Err e, p)
    /\ is_OSError e = false /\ channel_open (d_life (cp_daemon p)) = true.
Proof.
  unfold run_begin, setup_tun_device, open_device. intros [Hc|[e Hc]]; rewrite Hc; simpl.
  - by eexists _, _.
  - eexists _, _. split_and!; [done| |done].
    unfold create_tun_interface in Hc. repeat case_match; try done. by injection Hc as <-.
Qed.
End Run.

Section Runs.
#[local] Existing Instance toy_crypto.
#[local] Existing Instance ascii_only.

Definition aton (_ : str) : result bytes := Ok [25; 1; 0; 1].
Definition good_kernel (run : list str -> run_outcome) : Kernel :=
  mkKernel (Ok 7) (Ok 8) (fun _ b => Ok (take (length b) (py "ln0" ++ replicate 40 0))) run (fun _ => Ok []) (fun b => Ok (zlen b)).
Definition no_utun : Utun :=
  mkUtun (raise COSError []) (fun _ => Ok tt) (Ok tt) [] (fun _ => RunOk).
Definition linux_box (run : list str -> run_outcome) : Machine :=
  mkMachine (py "linux") (good_kernel run) no_utun.

Definition started : RunState :=
  snd (run_begin aton (linux_box (fun _ => RunOk)) (Ok (py "alice")) (Ok tt) (Ok tt) true None 54002).


(** The machine without the [ip] command. *)
Lemma route_failure_example :
  let mc := linux_box (fun _ => RunRaises (Exc COSError [])) in
  let '(r, p) := run_begin aton mc (Ok (py "alice")) (Ok tt) (Ok tt) true None 0 in
  r = Ok tt /\ cp_tun p = None /\ cp_open p = [7].
Proof. vm_compute. done. Qed.

Lemma daemonize_example :
  let im := mkImage 100 90 false (py "/home/a") 2 {[0%nat := py "tty"; 1%nat := py "tty"; 2%nat := py "tty"]} in
  match fst (daemonize (py "/home/a") 101 102 im) with
  | [(100, Exits 0); (101, Exits 0); (102, GoesOn im')] =>
      im_fds im' = {[0%nat := DEVNULL; 1%nat := DEVNULL; 2%nat := DEVNULL]}
  | _ => False
  end.
Proof. vm_compute. reflexivity. Qed.
End Runs.
End ClientProcess.
