(* ===== verification/ClientPanel.v ===== *)
(** * The admin panel of the client (src/client/web/app.py)

    The module-wide table [_feature_states] and the daemon behind the panel are
    the state; a handler is a function of the request and of what the daemon,
    the NAT detection and the device answer during it.  Templates are kept by
    name with the part of their context that depends on the state. *)

From S2P Require Import Prelude Constants PyStr Frame Json Messages Protocol Encryption NatTraversal Tunnel Topology Packet Registry NetworkManager Auth Relay Server Daemon.
Import Encryption NatTraversal Tunnel Daemon.

Module ClientPanel.

(** ** Features *)

Record Feature := mkFeature {
  ft_name : str;
  ft_icon : str;
  ft_description : str;
  ft_running : bool;
  ft_config : list (str * json);
  ft_requires : list str
}.

Definition initial_features : list (str * Feature) :=
  [(py "tun", mkFeature (py "TUN Mode") [127760]
      (py "Virtual LAN interface for IP routing between peers. Creates a TUN device and assigns a virtual IP in the 25.0.0.0/8 subnet.")
      false [(py "virtual_ip", JStr (py "25.1.0.1")); (py "subnet", JStr (py "25.0.0.0/8")); (py "mtu", JInt 1400)]
      [py "root"; py "tun_available"]);
   (py "service_exposure", mkFeature (py "Service Exposure") [128230]
      (py "Expose local TCP/UDP services to other peers on the network. Map remote services to local ports for consumption.")
      false [(py "exposed_services", JList []); (py "mapped_services", JList [])] []);
   (py "nat_traversal", mkFeature (py "NAT Traversal") [128269]
      (py "Detect NAT type and punch UDP holes for direct peer-to-peer connections. Supports STUN-based detection.")
      false [(py "nat_type", JStr (py "Unknown")); (py "stun_server", JStr (py "stun.l.google.com:19302"))] []);
   (py "connection", mkFeature (py "VPN Connection") [128279]
      (py "Connect to the mediation server, authenticate, and join networks. Heartbeat keep-alive and auto-reconnect.")
      false [(py "server_host", JStr (py "localhost")); (py "server_port", JInt 54000);
             (py "heartbeat_interval", JInt 30); (py "reconnect", JBool true)] []);
   (py "topology", mkFeature (py "Network Topology") [128376; 65039]
      (py "Choose the network topology: Mesh (all-to-all), Hub-and-Spoke (star), or Gateway (bridge to physical LAN).")
      false [(py "mode", JStr (py "mesh")); (py "hub_id", JStr []); (py "gateway_subnet", JStr [])] [])].

Definition set_running (b : bool) (f : Feature) : Feature :=
  mkFeature (ft_name f) (ft_icon f) (ft_description f) b (ft_config f) (ft_requires f).

(** [config[key] = val] for a key that is there. *)
Definition set_config (key : str) (val : json) (f : Feature) : Feature :=
  mkFeature (ft_name f) (ft_icon f) (ft_description f) (ft_running f)
    (if dmem (ft_config f) key then dset (ft_config f) key val else ft_config f) (ft_requires f).

Definition feature_json (f : Feature) : json :=
  JObj [(py "name", JStr (ft_name f)); (py "icon", JStr (ft_icon f));
        (py "description", JStr (ft_description f)); (py "running", JBool (ft_running f));
        (py "config", JObj (ft_config f)); (py "requires", JList (map JStr (ft_requires f)))].

(** [_get_feature_states]. *)
Definition get_feature_states (fs : list (str * Feature)) : json :=
  JObj (dmap (fun _ f => feature_json f) fs).

(** ** State and surroundings *)

Section Panel.
Context {TC : TunnelCrypto} {U : Unicode}.

Record Panel := mkPanel {
  pn_features : list (str * Feature);
  pn_daemon : option ClientDaemon;
  pn_shutdown : bool                   (* the daemon's shutdown event is set *)
}.

(** [_setup_tun] during the request: the device opens, or an [OSError] that
    the method catches, or another exception. *)
Inductive setup := Opens | OsError | Raises (e : exc).

Record Env := mkEnv {
  en_authenticated : option bool;      (* of the control channel, if there is one *)
  en_server_host : str;                (* daemon.config *)
  en_virtual_ip : option str;
  en_setup : setup;
  en_close : result unit;              (* tun.close() *)
  en_nat : option (result NatType);    (* determine_nat_type(), if there is a NatTraversal *)
  en_started : time;                   (* APP_START_TIME *)
  en_now : time                        (* time.time() *)
}.

Inductive response :=
  | Html (template : str) (context : list (str * json))
  | JsonResponse (j : json) (status : Z)
  | NotFound (text : str)
  | Found (location : str)
  | ServerError (e : exc).

Definition with_features (fs : list (str * Feature)) (p : Panel) : Panel :=
  mkPanel fs (pn_daemon p) (pn_shutdown p).
Definition with_daemon (d : option ClientDaemon) (p : Panel) : Panel :=
  mkPanel (pn_features p) d (pn_shutdown p).

Definition update_feature (fid : str) (f : Feature -> Feature) (p : Panel) : Panel :=
  with_features (dalter f (pn_features p) fid) p.

Definition nat_value (n : NatType) : str :=
  match n with
  | OPEN => py "open" | FULL_CONE => py "full_cone" | RESTRICTED => py "restricted"
  | PORT_RESTRICTED => py "port_restricted" | SYMMETRIC => py "symmetric" | UNKNOWN => py "unknown"
  end.

Definition state_value (s : PunchState) : str :=
  match s with
  | IDLE => py "IDLE" | PUNCHING => py "PUNCHING" | CONNECTED => py "CONNECTED"
  | FAILED => py "FAILED" | CLOSED => py "CLOSED"
  end.

(** The tunnels of [tm.list_tunnels()]. *)
Definition tunnels_of (p : Panel) : option (list PeerTunnel) :=
  d ← pn_daemon p; m ← d_tunnels d;
  Some (omap (fun o => dget (tm_objs m) o) (list_tunnels m)).

Definition tunnels_active (p : Panel) : Z := match tunnels_of p with Some l => zlen l | None => 0 end.

(** ** Pages *)

(** [_uptime]. *)
Definition panel_uptime (e : Env) : str :=
  let seconds := Z.quot (en_now e - en_started e) SEC in
  if seconds <? 60 then dec seconds ++ py "s"
  else if seconds / 60 <? 60 then dec (seconds / 60) ++ py "m " ++ dec (seconds mod 60) ++ py "s"
  else dec (seconds / 60 / 60) ++ py "h " ++ dec ((seconds / 60) mod 60) ++ py "m".

(** The dashboard takes over what it sees of the daemon. *)
Definition dashboard (e : Env) (p : Panel) : response * Panel :=
  let connected := match en_authenticated e with Some true => true | _ => false end in
  let p1 :=
    if connected then
      update_feature (py "connection")
        (fun f => set_config (py "server_host")
           (JStr (match pn_daemon p with Some _ => en_server_host e | None => py "localhost" end))
           (set_running true f)) p
    else p in
  let vip := match pn_daemon p, en_virtual_ip e with
             | Some _, Some ((_ :: _) as ip) => ip
             | _, _ => [8212]
             end in
  let p2 := match pn_daemon p with
            | Some d => if d_tun d then update_feature (py "tun") (set_running true) p1 else p1
            | None => p1
            end in
  (Html (py "dashboard.html")
     [(py "uptime", JStr (panel_uptime e));
      (py "status", JStr (if connected then py "connected" else py "disconnected"));
      (py "virtual_ip", JStr vip); (py "tunnels_active", JInt (tunnels_active p2));
      (py "features", get_feature_states (pn_features p2));
      (py "running_count", JInt (zlen (List.filter (fun kf => ft_running (snd kf)) (pn_features p2))))], p2).

Definition nat_diag_page (e : Env) : response :=
  let nat_type := match en_nat e with
                  | Some (Ok n) => nat_value n
                  | _ => py "Unknown"
                  end in
  Html (py "nat_diag.html") [(py "nat_type", JStr nat_type)].

Definition features_page (p : Panel) : response :=
  Html (py "features.html") [(py "features", get_feature_states (pn_features p))].

(** [f"{x:.0f}"] of a number of seconds: to the nearest, ties to even. *)
Definition round_seconds (t : time) : Z :=
  let q := t / SEC in
  match 2 * (t mod SEC) ?= SEC with
  | Lt => q
  | Gt => q + 1
  | Eq => if Z.even q then q else q + 1
  end.

Definition peer_row (now : time) (t : PeerTunnel) : json :=
  JObj [(py "peer_id", JStr (pt_peer_id t)); (py "peer_ip", JStr (pt_peer_ip t));
        (py "state", JStr (state_value (pt_state t)));
        (py "last_rx", JStr (if pt_last_rx t =? 0 then [8212]
                             else dec (round_seconds (now - pt_last_rx t)) ++ py "s ago"))].

Definition peers_page (e : Env) (p : Panel) : response :=
  Html (py "peers.html") [(py "peers", JList (map (peer_row (en_now e)) (default [] (tunnels_of p))))].

Definition peer_detail (pid : str) : response := Html (py "peer_detail.html") [(py "peer_id", JStr pid)].

(** ** API *)

Definition api_dashboard (e : Env) (p : Panel) : response :=
  JsonResponse (JObj [(py "connected", JBool (default false (en_authenticated e)));
                      (py "tunnels_active", JInt (tunnels_active p)); (py "uptime", JStr (panel_uptime e))]) 200.

Definition api_peers (p : Panel) : response :=
  JsonResponse (JList (map (fun t => JObj [(py "peer_id", JStr (pt_peer_id t)); (py "peer_ip", JStr (pt_peer_ip t));
                                           (py "state", JStr (state_value (pt_state t)))])
                       (default [] (tunnels_of p)))) 200.

Definition api_tunnels (p : Panel) : response :=
  JsonResponse (JList (map (fun t => JObj [(py "peer_id", JStr (pt_peer_id t));
                                           (py "state", JStr (state_value (pt_state t)));
                                           (py "tx_seq", JInt (pt_tx_seq t)); (py "rx_seq", JInt (pt_rx_seq t))])
                       (default [] (tunnels_of p)))) 200.

Definition api_features (p : Panel) : response := JsonResponse (get_feature_states (pn_features p)) 200.

Definition unknown_feature : response :=
  NotFound ([123] ++ quote (py "error") ++ py ": " ++ quote (py "unknown feature") ++ [125]).

Definition done_response (message fid : str) (p : Panel) : response :=
  JsonResponse (JObj [(py "ok", JBool true); (py "message", JStr message);
                      (py "feature", match dget (pn_features p) fid with
                                     | Some f => feature_json f | None => JNull end)]) 200.

(** [for key, val in data.get("config", {}).items()]; a body that is no JSON
    counts as the empty dictionary. *)
Definition config_items (body : option json) : result (list (str * json)) :=
  match body with
  | None => Ok []
  | Some (JObj d) => match default (JObj []) (dget d (py "config")) with
                     | JObj items => Ok items
                     | _ => raise CAttributeError []
                     end
  | Some _ => raise CAttributeError []
  end.

(** What starting a feature does beyond the table. *)
Definition start_effect (e : Env) (fid : str) (p : Panel) : Panel * (str + exc) :=
  match pn_daemon p with
  | Some d =>
      if str_eqb fid (py "tun") then
        match en_setup e with
        | Raises x => (update_feature fid (set_running false) p, inr x)
        | s =>
            let opened := match s with Opens => true | _ => false end in
            (with_daemon (Some (setup_tun (en_virtual_ip e) opened d)) p, inl (py "TUN interface created"))
        end
      else if str_eqb fid (py "connection") then
        (mkPanel (pn_features p) (Some d) true, inl (py "Reconnecting" ++ [8230]))
      else (p, inl (py "started"))
  | None => (p, inl (py "started"))
  end.

Definition nat_effect (e : Env) (p : Panel) : Panel * str :=
  match en_nat e with
  | None => (p, py "started")
  | Some (Ok n) => (update_feature (py "nat_traversal") (set_config (py "nat_type") (JStr (nat_value n))) p,
                    py "NAT type: " ++ nat_value n)
  | Some (Err x) => (p, py "Detection failed: " ++ exc_msg x)
  end.

Definition api_feature_start (e : Env) (fid : str) (body : option json) (p : Panel) : response * Panel :=
  if negb (dmem (pn_features p) fid) then (unknown_feature, p)
  else
    match config_items body with
    | Err x => (ServerError x, p)
    | Ok items =>
        let p1 := foldl (fun p kv => update_feature fid (set_config (fst kv) (snd kv)) p) p items in
        let p2 := update_feature fid (set_running true) p1 in
        if str_eqb fid (py "nat_traversal") then
          let (p3, message) := nat_effect e p2 in (done_response message fid p3, p3)
        else
          match start_effect e fid p2 with
          | (p3, inl message) => (done_response message fid p3, p3)
          | (p3, inr x) => (JsonResponse (JObj [(py "ok", JBool false); (py "error", JStr (exc_msg x))]) 500, p3)
          end
    end.

Definition api_feature_stop (e : Env) (fid : str) (p : Panel) : response * Panel :=
  if negb (dmem (pn_features p) fid) then (unknown_feature, p)
  else
    let p1 := update_feature fid (set_running false) p in
    let (message, p2) :=
      match pn_daemon p1 with
      | Some d =>
          if str_eqb fid (py "tun") && d_tun d then
            match en_close e with
            | Ok _ => (py "TUN interface removed", with_daemon (Some (set_tun false d)) p1)
            | Err x => (py "Warning: " ++ exc_msg x, p1)
            end
          else (py "stopped", p1)
      | None => (py "stopped", p1)
      end in
    (done_response message fid p2, p2).

(** ** Requests *)

(** The routes that change nothing. *)
Inductive view :=
  | NetworksPage | PeersPage | PeerDetail (pid : str) | ServicesPage | ConfigPage | LogsPage | NatDiagPage
  | FeaturesPage | ApiDashboard | ApiPeers | ApiTunnels | ApiFeatures.

Inductive request :=
  | GetDashboard
  | GetView (v : view)
  | PostConfig
  | PostStart (fid : str) (body : option json)
  | PostStop (fid : str).

Definition show (e : Env) (v : view) (p : Panel) : response :=
  match v with
  | NetworksPage => Html (py "networks.html") []
  | PeersPage => peers_page e p
  | PeerDetail pid => peer_detail pid
  | ServicesPage => Html (py "services.html") []
  | ConfigPage => Html (py "config.html") []
  | LogsPage => Html (py "logs.html") []
  | NatDiagPage => nat_diag_page e
  | FeaturesPage => features_page p
  | ApiDashboard => api_dashboard e p
  | ApiPeers => api_peers p
  | ApiTunnels => api_tunnels p
  | ApiFeatures => api_features p
  end.

Definition respond (e : Env) (r : request) (p : Panel) : response * Panel :=
  match r with
  | GetDashboard => dashboard e p
  | GetView v => (show e v p, p)
  | PostConfig => (Found (py "/config"), p)
  | PostStart fid body => api_feature_start e fid body p
  | PostStop fid => api_feature_stop e fid p
  end.

Definition serve (e : Env) (r : request) (p : Panel) : Panel := snd (respond e r p).

(** ** The table keeps its shape *)

(** Everything of a feature but its flag and the values of its settings. *)
Definition shape (f : Feature) : str * str * str * list str * list str :=
  (ft_name f, ft_icon f, ft_description f, ft_requires f, dkeys (ft_config f)).

Definition shapes (p : Panel) := dmap (fun _ f => shape f) (pn_features p).

Lemma shape_config k v f : shape (set_config k v f) = shape f.
Proof.
  unfold shape. simpl. destruct (dmem (ft_config f) k) eqn:E; [|done].
  by rewrite dkeys_dset_old by by apply dmem_true.
Qed.

Lemma shapes_update fid g p : (forall f, shape (g f) = shape f) -> shapes (update_feature fid g p) = shapes p.
Proof.
  intros Hg. unfold shapes, update_feature. simpl. induction (pn_features p) as [|[k f] l IH]; [done|].
  simpl. unfold dmap in *. case_decide; simpl; [by rewrite Hg|by rewrite IH].
Qed.

Lemma shapes_items fid items : forall p,
  shapes (foldl (fun p kv => update_feature fid (set_config (fst kv) (snd kv)) p) p items) = shapes p.
Proof.
  induction items as [|[k v] items IH]; intros p; [done|]. simpl. rewrite IH.
  apply shapes_update. intros f. apply shape_config.
Qed.

Lemma shapes_serve e r p : shapes (serve e r p) = shapes p.
Proof.
  destruct r as [|v| |fid body|fid]; unfold serve; simpl; [|done|done|..].
  - destruct (pn_daemon p) as [d|], (en_authenticated e) as [[]|]; try destruct (d_tun d); rewrite ?shapes_update;
      try done; intros f; by rewrite ?shape_config.
  - unfold api_feature_start. destruct (dmem _ _); [|done]. simpl.
    destruct (config_items body) as [items|x]; [|done]. case_match.
    + unfold nat_effect. destruct (en_nat e) as [[n|x]|]; simpl; rewrite ?shapes_update; try done;
        rewrite ?shapes_items; try done; intros f; by rewrite ?shape_config.
    + unfold start_effect. rewrite <- (shapes_items fid items p).
      set (p1 := foldl _ p items). assert (shapes (update_feature fid (set_running true) p1) = shapes p1) as E
        by by apply shapes_update.
      destruct (pn_daemon (update_feature fid (set_running true) p1)) as [d|]; [|done].
      destruct (str_eqb fid (py "tun")); [|by destruct (str_eqb fid (py "connection"))].
      destruct (en_setup e); simpl; try done. by rewrite shapes_update.
  - unfold api_feature_stop. destruct (dmem _ _); [|done]. simpl.
    assert (shapes (update_feature fid (set_running false) p) = shapes p) as E by by apply shapes_update.
    destruct (pn_daemon p) as [d|]; [|done]. destruct (_ && _); [|done]. by destruct (en_close e).
Qed.

(** Whatever requests come, with whatever bodies, the panel has the same
    features with the same settings: only flags and values of settings
    change. *)
Theorem features_keep_shape p0 (trace : list (Env * request)) :
  pn_features p0 = initial_features ->
  shapes (foldl (fun p er => serve (fst er) (snd er) p) p0 trace) = dmap (fun _ f => shape f) initial_features.
Proof.
  intros H0. rewrite <- H0. change (dmap _ (pn_features p0)) with (shapes p0). clear H0. revert p0.
  induction trace as [|[e r] trace IH]; intros p; [done|]. simpl. rewrite IH. apply shapes_serve.
Qed.

(** ** What the buttons do *)

Lemma dget_feature_update p fid g k :
  dget (pn_features (update_feature fid g p)) k =
    if decide (k = fid) then g <$> dget (pn_features p) k else dget (pn_features p) k.
Proof.
  unfold update_feature. simpl. rewrite dget_dalter.
  destruct (decide (fid = k)), (decide (k = fid)); subst; done.
Qed.

(** Stopping clears the flag, and removes the device if there is one. *)
Lemma stop_stops e fid p f :
  dget (pn_features p) fid = Some f ->
  let p' := snd (api_feature_stop e fid p) in
  dget (pn_features p') fid = Some (set_running false f) /\
  (forall d, fid = py "tun" -> en_close e = Ok tt -> pn_daemon p' = Some d -> d_tun d = false).
Proof.
  intros Hf. unfold api_feature_stop. assert (dmem (pn_features p) fid = true) as -> by (apply dmem_true; by eexists).
  simpl. assert (dget (pn_features (update_feature fid (set_running false) p)) fid = Some (set_running false f)) as Hg
    by (rewrite dget_feature_update, decide_True by done; by rewrite Hf).
  destruct (pn_daemon p) as [d|] eqn:Hd; simpl; [|split; [done|]; intros; congruence].
  destruct (str_eqb fid (py "tun") && d_tun d) eqn:Ht.
  - destruct (en_close e); simpl; (split; [done|]); [|done]. intros d' _ _ [= <-]. done.
  - simpl. split; [done|]. intros d' -> _ Hd'. rewrite Hd in Hd'. simplify_eq.
    by apply andb_false_iff in Ht as [Ht|Ht].
Qed.

(** When the device cannot be opened the daemon falls back silently, and the
    panel reports success and shows the feature as running. *)
Lemma tun_failure_reported_as_success e d fs :
  en_setup e = OsError -> fs = initial_features ->
  let (r, p) := api_feature_start e (py "tun") None (mkPanel fs (Some d) false) in
  (exists f, dget (pn_features p) (py "tun") = Some f /\ ft_running f = true) /\
  (exists d', pn_daemon p = Some d' /\ d_tun d' = false) /\
  (exists j, r = JsonResponse j 200).
Proof.
  intros He ->. unfold api_feature_start. simpl. unfold start_effect. simpl. rewrite He. simpl.
  split; [by eexists|]. split; by eexists.
Qed.

(** "Start" of the connection shuts the client down. *)
Lemma connection_start_shuts_down e d fs body items :
  dmem fs (py "connection") = true -> config_items body = Ok items ->
  pn_shutdown (snd (api_feature_start e (py "connection") body (mkPanel fs (Some d) false))) = true.
Proof.
  intros Hm Hb. unfold api_feature_start. cbn [pn_features]. rewrite Hm, Hb. cbn [negb].
  assert (forall l p, pn_daemon (foldl (fun p kv => update_feature (py "connection")
    (set_config (fst kv) (snd kv)) p) p l) = pn_daemon p) as Hd.
  { induction l as [|kv l IH]; intros p; [done|]. simpl. by rewrite IH. }
  change (str_eqb (py "connection") (py "nat_traversal")) with false. cbn [andb].
  unfold start_effect. cbn [pn_daemon update_feature with_features]. rewrite Hd. cbn [pn_daemon]. reflexivity.
Qed.

(** The age of a peer is the difference of two clocks: it is too large by what
    the wall clock is ahead of the monotonic one, here a number of pairs of
    seconds. *)
Lemma peer_age_off now ahead t :
  0 < pt_last_rx t ->
  peer_row (now + 2 * ahead * SEC) t
  = JObj [(py "peer_id", JStr (pt_peer_id t)); (py "peer_ip", JStr (pt_peer_ip t));
          (py "state", JStr (state_value (pt_state t)));
          (py "last_rx", JStr (dec (round_seconds (now - pt_last_rx t) + 2 * ahead) ++ py "s ago"))].
Proof.
  intros Hrx. unfold peer_row. rewrite (proj2 (Z.eqb_neq _ 0)) by lia.
  replace (round_seconds (now + 2 * ahead * SEC - pt_last_rx t)) with (round_seconds (now - pt_last_rx t) + 2 * ahead);
    [done|].
  replace (now + 2 * ahead * SEC - pt_last_rx t) with (now - pt_last_rx t + 2 * ahead * SEC) by lia.
  unfold round_seconds. rewrite Z.div_add, Z.mod_add, Z.even_add_mul_2 by (unfold SEC; lia).
  repeat case_match; lia.
Qed.

End Panel.
End ClientPanel.
